(* ===== verification/_CoqProject ===== *)
-Q . S2P
Prelude.v
GoLib.v
Prog.v
Model.v
Json.v
Cluster.v
Users.v
RecoveryMail.v
AvatarSync.v
Actions.v
ActionsSpec.v
Gateway.v
Notify.v
SessionAdded.v
ActionsRoutes.v
MailWebhook.v
Authn.v
UserSweep.v
SdkClient.v
AbandonedGC.v
SdkSpec.v
ZitadelHttp.v
Finalizers.v
Provider.v
PlatformAccess.v
ServiceAccounts.v
Identity.v
PasskeyLinks.v
ServiceAccountKeys.v
FieldSelectors.v
Wiring.v
Version.v
Controller.v
ApiServer.v
Interleave.v
UserHistory.v
SweepRace.v
MailBudget.v
MailRace.v
Startup.v
Shutdown.v
