(* ===== verification/Prelude.v ===== *)
(** The Milo authentication provider for Zitadel, verified.

    * The program

    One Go binary with four run-times (cmd/):
    - the actions server (internal/httpactionsserver) is called by Zitadel's Actions v2: it
      provisions milo Users, keeps the avatar of an identity-provider login, records the
      verification of an address, and mails about passkeys and suspicious logins;
    - the authentication webhook (internal/webhook, pkg/token) answers milo's TokenReviews
      by introspection and serves the two mail endpoints (email verification, account
      recovery) to the login UI over mTLS;
    - the API server (internal/apiserver/identity) serves sessions, user identities,
      passkeys, support recovery links and service account keys as Kubernetes resources;
    - the controllers (internal/controller) sweep Zitadel for users without a User, collect
      abandoned accounts, and reconcile Users, Projects, PlatformAccesses and
      ServiceAccounts.
    They share the Zitadel SDK client (pkg/zitadel), a small REST client
    (internal/zitadel), emailverified, userprovision, recoverymail and the GraphQL gateway
    client (pkg/gateway).

    * The model

    An effectful Go function is a [prog] (Prog.v): a tree of calls to the environment,
    whose branches are the environment's answers, ending in a value or a panic.  Model.v
    lists the calls ([op]) and the type of each answer: the clock and the process, the
    milo API server, the pending-avatar map, the interface [zitadel.API] (Z...), the gRPC
    services behind it (G...), outbound HTTP and files.  [may p tr r] are the executions
    of [p] against an arbitrary environment, [wp] its weakest precondition, [run] its
    interpretation by one environment, and [link] replaces the calls of an interface by
    their implementation.  Errors are values of [result] and [option error]; a guard of
    the code is a branch of the model; machine integers are wrapped with [wrap64].  Calls
    in a loop are recursive on the list, or on a fuel where Go loops without a bound.
    JSON is parsed and rendered from bytes (Json.v), so a handler is a function of its
    request's text.

    What the repository imports is not made up: the services are the laws of the type
    classes [ApiStore], [ApiServer], [CachedReads], [Versioned] and [ZitadelDirectory]
    (Cluster.v), [GrpcDirectory]
    (SdkSpec.v), [MailServer] (MailBudget.v), [ConflictRetry], [FinalizerLibrary],
    [FieldSelectors], [StatusConditions], [ErrGroup], [DiscoveryModes], and [PlainTransport]
    (SweepRace.v); the parts of Go's
    library without a short definition (Unicode tables, time formats, SHA-256, URL
    parsing, PEM and X.509, the build's variables) are the fields of [GoRuntime],
    [JwtSigner], [KeyParsing], [X509], [TokenReviewCodec], [GoBuild].  Each class has an
    instance, and the witnesses run on it.

    The API server of Cluster.v merges a status patch field by field, refuses an update of
    a User whose version is not the stored one, and keeps a User with finalizers when it is
    deleted; every answered write gives a version above all earlier ones.  Reads are fresh under
    [ApiServer], which is what theorems about one program alone assume; the theorems about
    programs that run at once assume [CachedReads] only, by which a read may show the Users
    as they were, as the cache of a manager's client does.

    * The files

    - Prelude, GoLib, Prog, Model, Json: notations, strings and lists; Go's strings,
      numbers and times; programs and their logic; the data and the calls; encoding/json.
    - Cluster: the API server and the user directory as laws, and an executable cluster.
    - Users: emailverified.Set, userprovision.NewUser, EnsureUser, RecordEvent.
    - RecoveryMail: recoverymail.TooSoon, Build, ActionURL.
    - AvatarSync, Actions, Notify, SessionAdded, Gateway: the handlers of
      internal/httpactionsserver, one definition per handler, and pkg/gateway.
      ActionsSpec and ActionsRoutes hold what they guarantee and the router.
    - Provider: the rule every program of the provider keeps, whatever it is answered: which
      calls may follow which in a handler, a sweep or a reconcile.
    - Interleave: requests as threads interleaved call by call, in which each behaves as
      one of its executions; the pending avatars as their shared state.
    - UserHistory: the Users while all those programs run at once, call by call; the
      specification is a history of writes of single fields.
    - SweepRace: the sweep, the collector and the User reconciler at once.
    - MailBudget, MailRace: the recovery mails over requests of every kind, one after the
      other and with a bounded number of them in progress.
    - MailWebhook: the two mail endpoints, the caller check, the origin guard.
    - Authn: the introspector, its assertion cache sequentially and as a system of
      goroutines under a read-write lock, and the TokenReview answer.
    - SdkClient, SdkSpec: the methods of [zitadel.API] over gRPC, and the controllers
      linked with them.
    - UserSweep, AbandonedGC: the two periodic sweeps.
    - ZitadelHttp, Finalizers, PlatformAccess, ServiceAccounts: the REST client and the
      four reconcilers.
    - Identity, PasskeyLinks, ServiceAccountKeys, FieldSelectors: the storages of the API
      server, and the field labels their lists are asked by.
    - Wiring: the calls the commands make to the Kubernetes libraries ([pop], with the
      components' calls as [Base]), the objects they build, named by what they are made
      from, and start-up programs that end at the first failure ([startup], [staged]).
    - Controller: cmd/controller and internal/config/config.go, from the flags to the
      managers, reconcilers and sweeps it registers; cluster discovery; leader election.
    - Version: cmd/main.go and the version command.
    - ApiServer: cmd/apiserver, from the flags to the storages it installs.
    - Startup: cmd/actionsserver and cmd/webhookserver before they serve.
    - Shutdown: how the controller process stops, as the interleavings of a step relation;
      its workers are those runController passes on.

    * What is shown

    - Safety of what is irreversible: an account is created and recorded once; a recovery
      code is minted and mailed only behind every gate, self-serve and support; nothing
      but a proven-abandoned account is deleted, Zitadel first; a finalizer is released
      only after the deletion; keys stay in the caller's project; a forged request has no
      effect; a token is accepted only on an active introspection; cross-user reads are
      backed by a review; the controller collects only when its flags say so; a running
      API server takes no anonymous request and mails recovery links only when enabled.
    - Functional correctness on every branch: emailverified.Set against optimistic
      concurrency, the mail budget, the Project, PlatformAccess and ServiceAccount
      reconcilers, the session and passkey handlers, ListIDPLinks; how each process starts,
      on what, and why it refuses to.
    - Refinement: the sweeps on the SDK client keep what they promise on the interface; the
      sequential client assertion is a schedule of the concurrent cache; the
      PlatformAccess reconciler implements its contract; handlers, sweeps and reconciles
      that run at once change Users by writes of single fields only, so that no avatar and no
      verification is lost to another writer.
    - What one controller removes no other brings back: with sweeps, collectors and User
      reconcilers at once, and the Users listed from a cache that lags, a User disappears only
      after Zitadel has confirmed that the account is gone, and comes back only when Zitadel
      lists the account after that. SweepRace.v also runs what is outside that promise: an
      account collected while a sweep is under way that has not seen its User, and a Zitadel
      whose listing lags.
    - Termination, liveness and bounds: the sweep ends, the retry of the Zitadel client
      succeeds once Zitadel is up, the lock protocol makes progress, the process ends
      once the manager stops, back-offs are bounded series; with at most n requests in
      progress no user gets more than n recovery mails of one trigger in a cooldown, nor more
      than n - 1 above the cap in an hour, which for n = 1 is the configured budget.
      (MailBudget.v runs two requests at once that exceed it.)
    - Concurrency: the assertion cache, the pending avatars, the Users, the records of
      sign-ups, the removals of accounts, the recovery mails and the shutdown under every
      interleaving.
    - Types: what is stored names only login providers the provider knows.
    - Round trips: the code in the link's fragment, pending avatars, the credentials file,
      the version as JSON.

    * Fuel and bounds

    The page loops of the sweeps take a fuel; a hundredth of the directory's size plus one
    is enough (sweepOnce_complete, deployed_sweep_complete).  The ticker loops and the
    start-up retry take the number of rounds; the retry's theorem gives the number that
    is enough.  The JSON parser's fuel is twice the length of the text, with
    encoding/json's nesting limit.  Offsets are 64-bit unsigned, durations and times
    64-bit signed nanoseconds.

    * Not modelled

    Log lines and tracing; the registration of metrics (their increments are calls);
    cobra's parsing of flags (their defaults are modelled); the watches the controller
    library derives from SetupWithManager; the serving loop behind the listener of the
    actions server; the OpenAPI definitions of the API server; the library's default table
    conversion; generated deep copies and the registration of types (of that only the
    field labels are modelled).  Goroutines share the services, the assertion cache, the
    avatar map and the shutdown, and each of these is modelled as a concurrent system; the
    memory model below the locks, the sync.Map and the errgroup is not.  The libraries
    answer the start-up calls independently: that two look-ups of one kubeconfig agree is
    not assumed.

    * What is left

    Two controller processes contending for the lease, which is the election library's
    protocol; the PlatformAccess and ServiceAccount reconcilers interleaved with the sweeps
    over a shared Zitadel; create-user-account, which Zitadel may deliver late, beside the
    collector. *)

From stdpp Require Export base tactics gmap strings list pretty option.
From Stdlib Require Export ZArith Lia Ascii.

#[global] Open Scope string_scope.
#[global] Open Scope list_scope.
#[global] Open Scope Z_scope.

(** * Strings *)

Lemma str_app_nil_l s : EmptyString +:+ s = s.
Proof. reflexivity. Qed.

Lemma str_app_cons c s t : String c s +:+ t = String c (s +:+ t).
Proof. reflexivity. Qed.

Lemma str_app_nil_r s : s +:+ EmptyString = s.
Proof. induction s as [|c s IH]; [done|]. by rewrite str_app_cons, IH. Qed.

Lemma str_app_assoc s t u : (s +:+ t) +:+ u = s +:+ (t +:+ u).
Proof. induction s as [|c s IH]; [done|]. by rewrite !str_app_cons, IH. Qed.

Lemma str_app_inj_l p s t : p +:+ s = p +:+ t → s = t.
Proof. induction p as [|c p IH]; [done|]. rewrite !str_app_cons. intros [= ?]. auto. Qed.

Create HintDb str.
#[export] Hint Rewrite str_app_nil_l str_app_cons str_app_nil_r str_app_assoc : str.

(** * Lists *)

(** [injection] without looking inside the elements. *)
Lemma cons_inv {A} (x y : A) l k : x :: l = y :: k → x = y ∧ l = k.
Proof. by intros [= -> ->]. Qed.

Lemma Exists_snoc {A} (P : A → Prop) l x : P x → Exists P (l ++ [x]).
Proof. intros. apply Exists_app. right. by constructor. Qed.
