(* ===== verification/GoLib.v ===== *)
(** The parts of the Go language and standard library the provider uses:
    byte strings ([strings], [strconv], [encoding/hex], [net/url] escaping),
    [time.Time] and [time.Duration] arithmetic at machine width, and the
    functions of the runtime that are arguments of the model ([GoRuntime]). *)

From S2P Require Import Prelude.

(** * Characters *)

Definition cat (c : ascii) : N := N_of_ascii c.

Definition in_range (lo hi : N) (c : ascii) : bool := ((lo <=? cat c) && (cat c <=? hi))%N.

Definition is_ascii_char (c : ascii) : bool := (cat c <? 128)%N.

(** [asciiSpace] of package strings: \t \n \v \f \r and the blank. *)
Definition is_space (c : ascii) : bool := in_range 9 13 c || (cat c =? 32)%N.

Definition lower_char (c : ascii) : ascii :=
  if in_range 65 90 c then ascii_of_N (cat c + 32) else c.

(** * Runtime parameters

    Tables and algorithms of the standard library that the model takes as
    arguments: the non-ASCII paths of the [strings] functions, [time] layouts,
    SHA-256, the splitting of a URL and its errors, the range check of [ParseFloat] and the text
    of [encoding/json] errors.  Every definition that depends on one
    of them takes the class as an argument. *)
Record URL := mkURL {
  url_scheme : string;
  url_user : option string;
  url_host : string;
  url_path : string;
  url_rawquery : string;
  url_fragment : string }.

Class GoRuntime := {
  to_lower_unicode : string → string;
  trim_space_unicode : string → string;
  equal_fold_unicode : string → string → bool;
  quote_unicode : string → string;
  parse_rfc3339nano : string → option Z;
  format_email_time : Z → string;
  sha256_hex : string → string;
  json_error_text : string → string;
  parse_float_ok : string → bool;
  url_parse : string → option URL;
  url_string : URL → string;
  url_error_text : string → string;
  duration_string : Z → string }.

(** * Strings *)

Fixpoint string_forall (f : ascii → bool) (s : string) : bool :=
  match s with EmptyString => true | String c s => f c && string_forall f s end.

Fixpoint string_map (f : ascii → ascii) (s : string) : string :=
  match s with EmptyString => EmptyString | String c s => String (f c) (string_map f s) end.

Definition is_ascii (s : string) : bool := string_forall is_ascii_char s.

Definition ascii_lower (s : string) : string := string_map lower_char s.

Fixpoint drop_while (f : ascii → bool) (s : string) : string :=
  match s with
  | EmptyString => EmptyString
  | String c s' => if f c then drop_while f s' else s
  end.

(** The longest prefix that does not end in a character of [f]. *)
Fixpoint drop_while_end (f : ascii → bool) (s : string) : string :=
  match s with
  | EmptyString => EmptyString
  | String c s' =>
      match drop_while_end f s' with
      | EmptyString => if f c then EmptyString else String c EmptyString
      | t => String c t
      end
  end.

Definition ascii_trim (s : string) : string := drop_while_end is_space (drop_while is_space s).

Section Strings.
Context `{GoRuntime}.

(** [strings.ToLower] takes a byte loop on ASCII input. *)
Definition ToLower (s : string) : string :=
  if is_ascii s then ascii_lower s else to_lower_unicode s.

Definition TrimSpace (s : string) : string :=
  if is_ascii s then ascii_trim s else trim_space_unicode s.

Definition EqualFold (s t : string) : bool :=
  if is_ascii s && is_ascii t then bool_decide (ascii_lower s = ascii_lower t)
  else equal_fold_unicode s t.
End Strings.

Fixpoint has_prefix (p s : string) : bool :=
  match p, s with
  | EmptyString, _ => true
  | String a p, String b s => bool_decide (a = b) && has_prefix p s
  | String _ _, EmptyString => false
  end.

Fixpoint contains (s sub : string) : bool :=
  has_prefix sub s || match s with EmptyString => false | String _ s => contains s sub end.

Fixpoint drop_string (n : nat) (s : string) : string :=
  match n, s with
  | O, _ => s
  | S n, String _ s => drop_string n s
  | S _, EmptyString => EmptyString
  end.

(** What follows the first occurrence of [sub], as the second result of [strings.Cut]. *)
Fixpoint text_after (sub s : string) : option string :=
  if has_prefix sub s then Some (drop_string (String.length sub) s)
  else match s with EmptyString => None | String _ s => text_after sub s end.

Definition trim_prefix (s p : string) : string :=
  if has_prefix p s then drop_string (String.length p) s else s.

(** At most [n] bytes of [s]. *)
Fixpoint take_string (n : Z) (s : string) : string :=
  match s with
  | EmptyString => EmptyString
  | String c s => if (n <=? 0)%Z then EmptyString else String c (take_string (n - 1) s)
  end.

(** [strings.Split(s, sep)] for a one-character separator. *)
Fixpoint split_char (sep : ascii) (s : string) : list string :=
  match s with
  | EmptyString => [EmptyString]
  | String c s' =>
      if bool_decide (c = sep) then EmptyString :: split_char sep s'
      else match split_char sep s' with
           | [] => [String c EmptyString]
           | p :: ps => String c p :: ps
           end
  end.

Definition trim_right_char (c : ascii) (s : string) : string :=
  drop_while_end (λ x, bool_decide (x = c)) s.

Definition trim_left_char (c : ascii) (s : string) : string :=
  drop_while (λ x, bool_decide (x = c)) s.

Definition quote_char : ascii := ascii_of_N 34.
Definition backslash : ascii := ascii_of_N 92.
Definition newline : string := String (ascii_of_N 10) EmptyString.

(** Hexadecimal digits, lower case ([%x]) and upper case (URL escapes). *)
Definition hex_digit (upper : bool) (n : N) : ascii :=
  if (n <? 10)%N then ascii_of_N (48 + n) else ascii_of_N ((if upper then 55 else 87) + n).

Definition unhex (c : ascii) : option N :=
  if in_range 48 57 c then Some (cat c - 48)%N
  else if in_range 97 102 c then Some (cat c - 87)%N
  else if in_range 65 70 c then Some (cat c - 55)%N
  else None.

Fixpoint hex_of_pos_fuel (fuel : nat) (n : N) (acc : string) : string :=
  match fuel with
  | O => acc
  | S fuel =>
      let acc := String (hex_digit false (n mod 16)) acc in
      if (n <? 16)%N then acc else hex_of_pos_fuel fuel (n / 16) acc
  end.

(** [fmt.Sprintf("%x", n)] of a signed integer. *)
Definition format_hex (n : Z) : string :=
  let digits := hex_of_pos_fuel (S (N.size_nat (Z.abs_N n))) (Z.abs_N n) EmptyString in
  if (n <? 0)%Z then String (ascii_of_N 45) digits else digits.

(** [strconv.Itoa]. *)
Definition itoa (n : Z) : string := pretty n.

(** [strconv.FormatBool]. *)
Definition format_bool (b : bool) : string := if b then "true" else "false".

(** [%q] on ASCII input: the escapes of [strconv.Quote]. *)
Definition quote_ascii_char (c : ascii) : string :=
  let esc x := String backslash (String (ascii_of_N x) EmptyString) in
  let n := cat c in
  if (n =? 34)%N then esc 34%N else if (n =? 92)%N then esc 92%N
  else if (n =? 7)%N then esc 97%N else if (n =? 8)%N then esc 98%N
  else if (n =? 12)%N then esc 102%N else if (n =? 10)%N then esc 110%N
  else if (n =? 13)%N then esc 114%N else if (n =? 9)%N then esc 116%N
  else if (n =? 11)%N then esc 118%N
  else if in_range 32 126 c then String c EmptyString
  else String backslash (String (ascii_of_N 120)
         (String (hex_digit false (n / 16)) (String (hex_digit false (n mod 16)) EmptyString))).

Fixpoint string_flat_map (f : ascii → string) (s : string) : string :=
  match s with EmptyString => EmptyString | String c s => f c +:+ string_flat_map f s end.

Definition quote `{GoRuntime} (s : string) : string :=
  if is_ascii s
  then String quote_char (string_flat_map quote_ascii_char s +:+ String quote_char EmptyString)
  else quote_unicode s.

(** * net/url query escaping *)

(** [shouldEscape] with mode encodeQueryComponent: letters, digits and - _ . ~
    pass; everything else is escaped. *)
Definition query_unreserved (c : ascii) : bool :=
  in_range 97 122 c || in_range 65 90 c || in_range 48 57 c ||
  (cat c =? 45)%N || (cat c =? 95)%N || (cat c =? 46)%N || (cat c =? 126)%N.

Definition escape_char (c : ascii) : string :=
  if query_unreserved c then String c EmptyString
  else if (cat c =? 32)%N then String (ascii_of_N 43) EmptyString
  else String (ascii_of_N 37)
         (String (hex_digit true (cat c / 16)) (String (hex_digit true (cat c mod 16)) EmptyString)).

Definition QueryEscape (s : string) : string := string_flat_map escape_char s.

Fixpoint QueryUnescape (s : string) : option string :=
  match s with
  | EmptyString => Some EmptyString
  | String c s' =>
      if (cat c =? 37)%N then
        match s' with
        | String h (String l s'') =>
            match unhex h, unhex l, QueryUnescape s'' with
            | Some h, Some l, Some t => Some (String (ascii_of_N (h * 16 + l)) t)
            | _, _, _ => None
            end
        | _ => None
        end
      else match QueryUnescape s' with
           | Some t => Some (String (if (cat c =? 43)%N then ascii_of_N 32 else c) t)
           | None => None
           end
  end.

(** Everything [QueryEscape] emits is unreserved, '+' or '%': in particular it
    never contains a separator of a query or fragment. *)
Definition query_safe (c : ascii) : bool :=
  query_unreserved c || (cat c =? 43)%N || (cat c =? 37)%N.

(** * Time *)

(** A [time.Time] is the number of nanoseconds since the Unix epoch; the zero
    value is January 1, year 1. *)
Definition zero_time : Z := (-62135596800 * 1000000000)%Z.
Definition time_is_zero (t : Z) : bool := bool_decide (t = zero_time).

Definition min_int64 : Z := (- 2 ^ 63)%Z.
Definition max_int64 : Z := (2 ^ 63 - 1)%Z.
Definition wrap64 (z : Z) : Z := ((z + 2 ^ 63) mod 2 ^ 64 - 2 ^ 63)%Z.

(** [Time.Sub] saturates at the limits of a Duration. *)
Definition time_sub (t u : Z) : Z := (min_int64 `max` (t - u) `min` max_int64)%Z.

Definition Millisecond : Z := 1000000.
Definition Second : Z := (1000 * Millisecond)%Z.
Definition Minute : Z := (60 * Second)%Z.
Definition Hour : Z := (60 * Minute)%Z.

(** * Lemmas *)

Lemma wrap64_id z : (min_int64 ≤ z ≤ max_int64)%Z → wrap64 z = z.
Proof. unfold wrap64, min_int64, max_int64. intros. rewrite Z.mod_small; lia. Qed.

Lemma wrap64_range z : (min_int64 ≤ wrap64 z ≤ max_int64)%Z.
Proof.
  unfold wrap64, min_int64, max_int64.
  pose proof (Z.mod_pos_bound (z + 2 ^ 63) (2 ^ 64)). lia.
Qed.

Lemma time_sub_exact t u :
  (min_int64 ≤ t - u ≤ max_int64)%Z → time_sub t u = (t - u)%Z.
Proof. unfold time_sub. lia. Qed.

Lemma string_flat_map_app f s t :
  string_flat_map f (s +:+ t) = (string_flat_map f s +:+ string_flat_map f t).
Proof.
  induction s as [|c s IH]; [done|].
  rewrite str_app_cons. simpl. by rewrite IH, str_app_assoc.
Qed.

Lemma string_forall_app f s t :
  string_forall f (s +:+ t) = string_forall f s && string_forall f t.
Proof.
  induction s as [|c s IH]; [done|].
  rewrite str_app_cons. simpl. by rewrite IH, andb_assoc.
Qed.

Lemma drop_string_app p s : drop_string (String.length p) (p +:+ s) = s.
Proof. induction p as [|c p IH]; [done|]. by rewrite str_app_cons. Qed.

Lemma has_prefix_app p s : has_prefix p (p +:+ s) = true.
Proof.
  induction p as [|c p IH]; [done|]. rewrite str_app_cons. simpl.
  by rewrite bool_decide_true, IH.
Qed.

Lemma trim_prefix_app p s : trim_prefix (p +:+ s) p = s.
Proof. unfold trim_prefix. by rewrite has_prefix_app, drop_string_app. Qed.

(** One escaped character is read back, whatever follows it. *)
Lemma unescape_escape_char c t :
  QueryUnescape (escape_char c +:+ t) = String c <$> QueryUnescape t.
Proof.
  destruct c as [[] [] [] [] [] [] [] []];
    cbv -[QueryUnescape]; simpl; destruct (QueryUnescape t); reflexivity.
Qed.

Lemma QueryUnescape_escape_app s t :
  QueryUnescape (QueryEscape s +:+ t) = (λ t, s +:+ t) <$> QueryUnescape t.
Proof.
  unfold QueryEscape. induction s as [|c s IH].
  - simpl. rewrite str_app_nil_l. by destruct (QueryUnescape t).
  - simpl. rewrite str_app_assoc, unescape_escape_char, IH. by destruct (QueryUnescape t).
Qed.

(** Query escaping is a faithful encoding of arbitrary bytes. *)
Lemma QueryUnescape_escape s : QueryUnescape (QueryEscape s) = Some s.
Proof.
  rewrite <-(str_app_nil_r (QueryEscape s)), QueryUnescape_escape_app.
  simpl. by rewrite str_app_nil_r.
Qed.

Lemma QueryEscape_safe s : string_forall query_safe (QueryEscape s) = true.
Proof.
  unfold QueryEscape. induction s as [|c s IH]; simpl; [done|].
  rewrite string_forall_app, IH, andb_true_r.
  by destruct c as [[] [] [] [] [] [] [] []].
Qed.

(** * A concrete runtime

    The witnesses evaluate the development with these arguments: ASCII tables, the
    identity for SHA-256 (padded to its length), one parsed timestamp and a URL
    splitter for scheme://host/path?query. *)
Fixpoint split_at (sep : ascii) (s : string) : string * option string :=
  match s with
  | EmptyString => (EmptyString, None)
  | String c s' =>
      if bool_decide (c = sep) then (EmptyString, Some s')
      else let '(a, b) := split_at sep s' in (String c a, b)
  end.

Definition sample_timestamp : string := "2024-01-01T00:00:00Z".
Definition sample_time : Z := (1704067200 * 1000000000)%Z.

Definition simple_url_parse (s : string) : option URL :=
  let '(scheme, rest) := split_at (ascii_of_N 58) s in
  match rest with
  | Some (String _ (String _ rest)) =>
      let '(before, query) := split_at (ascii_of_N 63) rest in
      let '(host, path) := split_at (ascii_of_N 47) before in
      Some (mkURL scheme None host (match path with Some p => String (ascii_of_N 47) p | None => EmptyString end)
              (default EmptyString query) EmptyString)
  | _ => None
  end.

Definition simple_url_string (u : URL) : string :=
  url_scheme u +:+ "://" +:+ url_host u +:+ url_path u +:+
  (if bool_decide (url_rawquery u = EmptyString) then EmptyString else "?" +:+ url_rawquery u).

Definition ascii_runtime : GoRuntime := {|
  to_lower_unicode := ascii_lower;
  trim_space_unicode := ascii_trim;
  equal_fold_unicode := λ s t, bool_decide (ascii_lower s = ascii_lower t);
  quote_unicode := λ s, s;
  parse_rfc3339nano := λ s, if bool_decide (s = sample_timestamp) then Some sample_time else None;
  format_email_time := λ _, sample_timestamp;
  sha256_hex := λ s, s +:+ "0000000000000000000000000000000000000000000000000000000000000000";
  json_error_text := λ _, "invalid character";
  parse_float_ok := λ _, true;
  url_parse := simple_url_parse;
  url_string := simple_url_string;
  url_error_text := λ _, "invalid URL";
  duration_string := λ _, "0s" |}.
