(* ===== verification/Prog.v ===== *)
(** Effectful programs.

    A component of the provider is a [prog]: a finite tree whose nodes are calls
    to the environment (the milo API server, Zitadel, the clock, the metrics
    registry, ...) and whose branches are the answers the environment can give.
    [may p tr r] says that [p], run against some environment, can perform exactly
    the calls of the trace [tr] and end with [r]; [wp p Q] is its weakest
    precondition, and [run] interprets a program against one concrete
    environment. *)

From S2P Require Import Prelude.


(** How a Go function ends: it returns, or a run-time panic unwinds it. *)
Inductive outcome (A : Type) :=
| Returned (a : A)
| Panicked.
Arguments Returned {A}.
Arguments Panicked {A}.

Section Prog.
Context {op : Type} {ans : op → Type}.

Inductive prog (A : Type) : Type :=
| Ret (a : A)
| Panic
| Call (o : op) (k : ans o → prog A).
Arguments Panic {A}.
Arguments Ret {A}.
Arguments Call {A}.

Fixpoint bind {A B} (f : A → prog B) (p : prog A) : prog B :=
  match p with
  | Ret a => f a
  | Panic => Panic
  | Call o k => Call o (λ x, bind f (k x))
  end.

Definition call (o : op) : prog (ans o) := Call o Ret.

#[global] Instance prog_ret : MRet prog := @Ret.
#[global] Instance prog_bind : MBind prog := λ A B f p, bind f p.

Definition event := { o : op & ans o }.
Definition trace := list event.
Definition ev (o : op) (a : ans o) : event := existT o a.

Fixpoint may {A} (p : prog A) (tr : trace) (r : outcome A) : Prop :=
  match p with
  | Ret a => tr = [] ∧ r = Returned a
  | Panic => tr = [] ∧ r = Panicked
  | Call o k => ∃ a tr', tr = ev o a :: tr' ∧ may (k a) tr' r
  end.

Fixpoint wp {A} (p : prog A) (Q : trace → outcome A → Prop) : Prop :=
  match p with
  | Ret a => Q [] (Returned a)
  | Panic => Q [] Panicked
  | Call o k => ∀ a, wp (k a) (λ tr r, Q (ev o a :: tr) r)
  end.

Lemma wp_may {A} (p : prog A) Q : wp p Q ↔ ∀ tr r, may p tr r → Q tr r.
Proof.
  revert Q. induction p as [a| |o k IH]; intros Q; simpl.
  - split; [by intros ? ?? [-> ->]|]. intros HQ. by apply HQ.
  - split; [by intros ? ?? [-> ->]|]. intros HQ. by apply HQ.
  - split.
    + intros Hw tr r (a & tr' & -> & Hm). by apply (proj1 (IH a _) (Hw a)).
    + intros HQ a. apply IH. intros tr r Hm. apply HQ. eauto.
Qed.

Lemma may_wp {A} (p : prog A) (Q : trace → outcome A → Prop) tr r :
  may p tr r → wp p Q → Q tr r.
Proof. intros Hm Hw. by apply (proj1 (wp_may p Q) Hw). Qed.

Lemma wp_mono {A} (p : prog A) (Q Q' : trace → outcome A → Prop) :
  wp p Q → (∀ tr r, Q tr r → Q' tr r) → wp p Q'.
Proof. rewrite !wp_may. eauto. Qed.

Lemma wp_conj {A} (p : prog A) (Q Q' : trace → outcome A → Prop) :
  wp p Q → wp p Q' → wp p (λ tr r, Q tr r ∧ Q' tr r).
Proof. rewrite !wp_may. eauto. Qed.

Definition bind_post {A B} (f : A → prog B) (Q : trace → outcome B → Prop)
    (tr : trace) (r : outcome A) : Prop :=
  match r with
  | Returned a => wp (f a) (λ tr' r', Q (tr ++ tr') r')
  | Panicked => Q tr Panicked
  end.

Lemma wp_bind {A B} (p : prog A) (f : A → prog B) Q :
  wp (p ≫= f) Q ↔ wp p (bind_post f Q).
Proof.
  revert Q. induction p as [a| |o k IH]; intros Q; simpl; [done|done|].
  split; intros Hw a; specialize (Hw a); revert Hw;
    change (bind f (k a)) with (k a ≫= f); rewrite (IH a); apply wp_mono || intros Hw;
    (eapply wp_mono; [exact Hw|]); by intros tr [].
Qed.

(** ** Invariants of traces *)

Class TraceInv (T : trace → Prop) := {
  ti_nil : T [];
  ti_app tr tr' : T tr → T tr' → T (tr ++ tr') }.

(** Every execution of [p], complete or panicking, has a trace in [T]. *)
Definition safe (T : trace → Prop) {A} (p : prog A) : Prop := wp p (λ tr _, T tr).

Lemma safe_ret T {A} (a : A) : TraceInv T → safe T (mret a).
Proof. intros HT. exact ti_nil. Qed.

Lemma safe_panic T {A} : TraceInv T → safe T (@Panic A).
Proof. intros HT. exact ti_nil. Qed.

Lemma safe_bind T {A B} (p : prog A) (f : A → prog B) :
  TraceInv T → safe T p → (∀ a, safe T (f a)) → safe T (p ≫= f).
Proof.
  intros HT Hp Hf. unfold safe. rewrite wp_bind. apply (wp_mono p _ _ Hp).
  intros tr [a|] Htr; simpl; [|done].
  apply (wp_mono (f a) _ _ (Hf a)). intros. by apply ti_app.
Qed.

(** Postconditions that speak of returns only. *)
Definition on_return {A} (Q : trace → A → Prop) (tr : trace) (r : outcome A) : Prop :=
  match r with Returned a => Q tr a | Panicked => True end.

Lemma may_on_return {A} (p : prog A) (Q : trace → A → Prop) tr a :
  may p tr (Returned a) → wp p (on_return Q) → Q tr a.
Proof. intros Hm Hw. exact (may_wp p _ tr (Returned a) Hm Hw). Qed.

(** [p] always returns, with a trace in [T]. *)
Definition quiet (T : trace → Prop) {A} (p : prog A) : Prop := wp p (λ tr r, T tr ∧ r ≠ Panicked).

Lemma quiet_safe T {A} (p : prog A) : quiet T p → safe T p.
Proof. intros Hq. apply (wp_mono p _ _ Hq). tauto. Qed.

Lemma quiet_ret T {A} (a : A) : TraceInv T → quiet T (mret a).
Proof. intros HT. split; [exact ti_nil|done]. Qed.

Lemma quiet_bind T {A B} (p : prog A) (f : A → prog B) :
  TraceInv T → quiet T p → (∀ a, quiet T (f a)) → quiet T (p ≫= f).
Proof.
  intros HT Hp Hf. unfold quiet. rewrite wp_bind. apply (wp_mono p _ _ Hp).
  intros tr [a|] [Htr Hr]; simpl; [|done].
  apply (wp_mono (f a) _ _ (Hf a)). intros tr' r' [? ?]. split; [by apply ti_app|done].
Qed.

Lemma quiet_mono (T T' : trace → Prop) {A} (p : prog A) :
  quiet T p → (∀ tr, T tr → T' tr) → quiet T' p.
Proof. intros Hq HT. apply (wp_mono p _ _ Hq). intros tr r [? ?]. auto. Qed.

(** Sequencing after a program of which only the trace invariant matters. *)
Lemma wp_bind_quiet T {A B} (p : prog A) (f : A → prog B) Q :
  quiet T p → (∀ a tr, T tr → wp (f a) (λ tr' r, Q (tr ++ tr') r)) → wp (p ≫= f) Q.
Proof.
  intros Hp Hf. rewrite wp_bind. apply (wp_mono p _ _ Hp).
  intros tr [a|] [Htr Hr]; simpl; [auto|done].
Qed.

Lemma wp_bind_safe T {A B} (p : prog A) (f : A → prog B) Q :
  safe T p → (∀ a tr, T tr → wp (f a) (λ tr' r, Q (tr ++ tr') r)) →
  (∀ tr, T tr → Q tr Panicked) → wp (p ≫= f) Q.
Proof.
  intros Hp Hf Hq. rewrite wp_bind. apply (wp_mono p _ _ Hp).
  intros tr [a|] Htr; simpl; auto.
Qed.

(** How often an event of the class [P] occurs. *)
Definition count (P : event → bool) (tr : trace) : nat := length (List.filter P tr).

Lemma count_app P tr tr' : count P (tr ++ tr') = (count P tr + count P tr')%nat.
Proof. unfold count. by rewrite List.filter_app, length_app. Qed.

Definition no (P : event → bool) (tr : trace) : Prop := count P tr = 0%nat.

#[global] Instance no_inv P : TraceInv (no P).
Proof. split; unfold no; [done|]. intros tr tr' H1 H2. rewrite count_app. lia. Qed.

Lemma no_or P P' tr : no (λ e, P e || P' e) tr → no P tr ∧ no P' tr.
Proof.
  unfold no, count. induction tr as [|e tr IH]; simpl; [done|].
  destruct (P e), (P' e); simpl; auto; lia.
Qed.

Lemma no_In P tr e : no P tr → P e = true → e ∉ tr.
Proof.
  unfold no, count. intros Hn HP Hin.
  assert (e ∈ List.filter P tr) as He.
  { apply list_elem_of_In, filter_In. by rewrite <-list_elem_of_In. }
  destruct (List.filter P tr); [by apply not_elem_of_nil in He|done].
Qed.

Lemma safe_may T {A} (p : prog A) tr r : safe T p → may p tr r → T tr.
Proof. intros Hs Hm. by apply (may_wp p (λ tr _, T tr) tr r Hm Hs). Qed.

(** No event of the trace satisfies [P]. *)
Definition never (P : event → Prop) (tr : trace) : Prop := Forall (λ e, ¬ P e) tr.

#[global] Instance never_inv P : TraceInv (never P).
Proof. split; unfold never; [constructor|intros; by apply Forall_app]. Qed.

Lemma safe_never_call (P : event → Prop) o :
  (∀ a, ¬ P (ev o a)) → safe (never P) (call o).
Proof. intros HP a. simpl. constructor; [apply HP|constructor]. Qed.

(** Every event of [Q] comes after some event of [P]. *)
Definition guarded (P Q : event → Prop) (tr : trace) : Prop :=
  ∀ pre e post, tr = pre ++ e :: post → Q e → Exists P pre.

#[global] Instance guarded_inv P Q : TraceInv (guarded P Q).
Proof.
  split.
  - intros [|] ? ? ?; discriminate.
  - intros tr tr' H1 H2 pre e post Heq HQ.
    apply app_eq_inv in Heq as [(k & -> & Hk)|(k & -> & Hk)].
    + destruct k as [|x k]; simpl in *.
      * exfalso. by apply (Exists_nil P), (H2 [] e post).
      * injection Hk as <- Hk. by apply (H1 pre e k).
    + apply Exists_app. right. by apply (H2 k e post).
Qed.

Lemma never_guarded P Q tr : never Q tr → guarded P Q tr.
Proof.
  intros Hn pre e post -> HQ. apply Forall_app in Hn as [_ Hn].
  by inversion_clear Hn.
Qed.

(** Every event of the trace is related to what precedes it. *)
Definition each (R : trace → event → Prop) (tr : trace) : Prop :=
  ∀ pre e post, tr = pre ++ e :: post → R pre e.

Class Extends (R : trace → event → Prop) := extends pre0 pre e : R pre e → R (pre0 ++ pre) e.

#[global] Instance each_inv R : Extends R → TraceInv (each R).
Proof.
  intros HR. split.
  - intros [|] ? ? ?; discriminate.
  - intros tr tr' H1 H2 pre e post Heq.
    apply app_eq_inv in Heq as [(k & -> & Hk)|(k & -> & Hk)].
    + destruct k as [|x k]; simpl in *.
      * rewrite <-(app_nil_r pre). apply extends. by apply (H2 [] e post).
      * injection Hk as <- Hk. by apply (H1 pre e k).
    + apply extends. by apply (H2 k e post).
Qed.

Lemma each_nil R : each R [].
Proof. intros [|] ? ? ?; discriminate. Qed.

(** The same, event by event: for explicit traces. *)
Fixpoint each_from (R : trace → event → Prop) (pre tr : trace) : Prop :=
  match tr with
  | [] => True
  | e :: tr => R pre e ∧ each_from R (pre ++ [e]) tr
  end.

Lemma each_from_spec R pre0 tr :
  each_from R pre0 tr → ∀ pre e post, tr = pre ++ e :: post → R (pre0 ++ pre) e.
Proof.
  revert pre0. induction tr as [|x tr IH]; intros pre0 Hf pre e post Heq; [by destruct pre|].
  destruct Hf as [Hx Hf]. destruct pre as [|y pre]; simpl in Heq.
  - injection Heq as <- _. by rewrite app_nil_r.
  - injection Heq as <- Heq. specialize (IH _ Hf pre e post Heq). by rewrite <-app_assoc in IH.
Qed.

Lemma each_intro R tr : each_from R [] tr → each R tr.
Proof. intros Hf pre e post Heq. exact (each_from_spec R [] tr Hf pre e post Heq). Qed.

Lemma each_snoc R tr e : each R tr → R tr e → each R (tr ++ [e]).
Proof.
  intros Htr He pre x post Heq. destruct post as [|y post _] using rev_ind.
  - apply app_inj_tail in Heq as [<- <-]. done.
  - rewrite app_comm_cons, app_assoc in Heq. apply app_inj_tail in Heq as [-> _]. by apply (Htr pre x post).
Qed.

Lemma each_app R tr tr' : each R tr → each_from R tr tr' → each R (tr ++ tr').
Proof.
  revert tr. induction tr' as [|e tr' IH]; intros tr Htr Hf; [by rewrite app_nil_r|].
  destruct Hf as [He Hf]. change (e :: tr') with ([e] ++ tr'). rewrite app_assoc. apply IH; [by apply each_snoc|done].
Qed.

(** Relating a trace to what precedes it and to what went before it. *)
Lemma each_from_each R `{!Extends R} pre tr : each R tr → each_from R pre tr.
Proof.
  intros Htr. assert (∀ done todo, tr = done ++ todo → each_from R (pre ++ done) todo) as Hgen.
  { intros done todo. revert done. induction todo as [|e todo IH]; intros done Heq; [exact I|]. split.
    - apply extends. by apply (Htr done e todo).
    - rewrite <-app_assoc. apply IH. by rewrite <-app_assoc. }
  rewrite <-(app_nil_r pre). by apply (Hgen [] tr).
Qed.

Lemma each_prefix R tr tr' : each R (tr ++ tr') → each R tr.
Proof. intros Ht pre e post ->. apply (Ht pre e (post ++ tr')). by rewrite <-app_assoc. Qed.

Lemma each_from_app R pre tr tr' : each_from R pre tr → each_from R (pre ++ tr) tr' → each_from R pre (tr ++ tr').
Proof.
  revert pre. induction tr as [|e tr IH]; intros pre; [by rewrite app_nil_r|]. simpl. intros [He Htr] Htr'.
  split; [done|]. apply IH; [done|]. by rewrite <-app_assoc.
Qed.

Lemma wp_each_from R pre {A} (p : prog A) :
  each R pre → wp p (λ tr _, each_from R pre tr) → wp p (λ tr _, each R (pre ++ tr)).
Proof. intros Hpre Hp. apply (wp_mono _ _ _ Hp). intros tr _. by apply each_app. Qed.

(** Sequencing, from a given past. *)
Lemma each_from_bind R `{!Extends R} (T : trace → Prop) pre {A B} (p : prog A) (f : A → prog B) :
  safe (each R) p → safe T p → (∀ a tr, T tr → wp (f a) (λ tr' _, each_from R (pre ++ tr) tr')) →
  wp (p ≫= f) (λ tr _, each_from R pre tr).
Proof.
  intros Hp HT Hf. rewrite wp_bind. apply (wp_mono p _ _ (wp_conj p _ _ Hp HT)).
  intros tr [a|] [Htr Ha]; simpl; [|by apply each_from_each]. apply (wp_mono (f a) _ _ (Hf a tr Ha)). intros tr' _ Hf'.
  apply each_from_app; [by apply each_from_each|done].
Qed.

(** Sequencing when the first part, too, is related to the past. *)
Lemma each_from_seq R pre {A B} (p : prog A) (f : A → prog B) :
  wp p (λ tr _, each_from R pre tr) → (∀ a tr, wp (f a) (λ tr' _, each_from R (pre ++ tr) tr')) →
  wp (p ≫= f) (λ tr _, each_from R pre tr).
Proof.
  intros Hp Hf. rewrite wp_bind. apply (wp_mono p _ _ Hp). intros tr [a|] Htr; simpl; [|done].
  apply (wp_mono (f a) _ _ (Hf a tr)). intros tr' _ Htr'. by apply each_from_app.
Qed.

Lemma safe_each_from R `{!Extends R} pre {A} (p : prog A) : safe (each R) p → wp p (λ tr _, each_from R pre tr).
Proof. intros Hp. apply (wp_mono p _ _ Hp). intros tr _. by apply each_from_each. Qed.

(** Sequencing after a program whose trace [T] describes, when the rest is related to it. *)
Lemma each_bind R `{!Extends R} (T : trace → Prop) {A B} (p : prog A) (f : A → prog B) :
  safe (each R) p → safe T p → (∀ a tr, T tr → wp (f a) (λ tr' _, each_from R tr tr')) → safe (each R) (p ≫= f).
Proof.
  intros Hp HT Hf. unfold safe. rewrite wp_bind. apply (wp_mono p _ _ (wp_conj p _ _ Hp HT)).
  intros tr [a|] [Htr Ha]; simpl; [|done]. apply (wp_mono (f a) _ _ (Hf a tr Ha)). intros tr' _ Hf'. by apply each_app.
Qed.

(** ** The calls a program can make *)

(** Every call of [p], on every path, is one of [P]. *)
Fixpoint only (P : op → Prop) {A} (p : prog A) : Prop :=
  match p with
  | Ret _ | Panic => True
  | Call o k => P o ∧ ∀ a, only P (k a)
  end.

Lemma only_ret P {A} (a : A) : only P (mret a).
Proof. exact I. Qed.

Lemma only_call (P : op → Prop) o : P o → only P (call o).
Proof. intros Ho. by split. Qed.

Lemma only_bind P {A B} (p : prog A) (f : A → prog B) : only P p → (∀ a, only P (f a)) → only P (p ≫= f).
Proof.
  intros Hp Hf. induction p as [a| |o k IH]; simpl; [apply Hf|done|]. destruct Hp as [Ho Hk]. split; [done|].
  intros a. by apply IH.
Qed.

Lemma only_each (P : op → Prop) R {A} (p : prog A) : (∀ o pre a, P o → R pre (ev o a)) → only P p → safe (each R) p.
Proof.
  intros HR Hp. unfold safe. eapply wp_mono; [|intros tr r; exact (each_intro R tr)]. generalize (@nil event).
  induction p as [a| |o k IH]; intros pre; simpl; [done|done|]. destruct Hp as [Ho Hk]. intros a.
  eapply wp_mono; [exact (IH a (Hk a) (pre ++ [ev o a]))|]. intros tr r Htr. split; [by apply HR|done].
Qed.

Lemma only_no (P : op → Prop) (T : event → bool) {A} (p : prog A) :
  (∀ o a, P o → T (ev o a) = false) → only P p → safe (no T) p.
Proof.
  intros HT Hp. induction p as [a| |o k IH]; simpl; [done|done|]. destruct Hp as [Ho Hk]. intros a. simpl.
  apply (wp_mono _ _ _ (IH a (Hk a))). intros tr r. unfold no, count. simpl. by rewrite HT.
Qed.

(** ** Interpretation against one environment *)

Definition environment (S : Type) := ∀ o : op, S → S * ans o.

Fixpoint run {S A} (h : environment S) (p : prog A) (s : S) : S * outcome A :=
  match p with
  | Ret a => (s, Returned a)
  | Panic => (s, Panicked)
  | Call o k => let '(s', a) := h o s in run h (k a) s'
  end.

Fixpoint run_trace {S A} (h : environment S) (p : prog A) (s : S) : trace :=
  match p with
  | Ret _ | Panic => []
  | Call o k => let '(s', a) := h o s in ev o a :: run_trace h (k a) s'
  end.

Lemma run_bind {S A B} (h : environment S) (p : prog A) (f : A → prog B) s :
  run h (p ≫= f) s =
    match run h p s with
    | (s', Returned a) => run h (f a) s'
    | (s', Panicked) => (s', Panicked)
    end.
Proof.
  revert s. induction p as [a| |o k IH]; intros s; simpl; [done|done|].
  destruct (h o s) as [s' a]. apply IH.
Qed.

Lemma run_call {S} (h : environment S) o s :
  run h (call o) s = let '(s', a) := h o s in (s', Returned a).
Proof. done. Qed.

(** Every interpretation is one of the executions [may] allows. *)
Lemma run_may {S A} (h : environment S) (p : prog A) s :
  may p (run_trace h p s) (run h p s).2.
Proof.
  revert s. induction p as [a| |o k IH]; intros s; simpl; [done|done|].
  destruct (h o s) as [s' a]. eauto.
Qed.

Lemma run_may_to {S A} (h : environment S) (p : prog A) s r :
  (run h p s).2 = r → may p (run_trace h p s) r.
Proof. intros <-. apply run_may. Qed.

(** What the calls of the class [w] alone can change stays as it is when none is made. *)
Lemma run_frame {S A B} (h : environment S) (w : op → bool) (f : S → B) (p : prog A) s :
  (∀ o s, w o = false → f (h o s).1 = f s) → safe (no (λ e, w (projT1 e))) p → f (run h p s).1 = f s.
Proof.
  intros Hf. revert s. induction p as [a| |o k IH]; intros s Hp; simpl; [done|done|].
  pose proof (Hf o s) as Ho. destruct (h o s) as [s1 a]. simpl in *. specialize (Hp a). destruct (w o) eqn:Hw.
  - exfalso. apply (may_wp (k a) _ _ _ (run_may h (k a) s1)) in Hp. unfold no, count in Hp. simpl in Hp.
    rewrite Hw in Hp. simpl in Hp. lia.
  - rewrite IH; [auto|]. apply (wp_mono (k a) _ _ Hp). intros tr r. unfold no, count. simpl. by rewrite Hw.
Qed.

(** A relation between the states before and after every call holds between those before
    and after the program. *)
Lemma run_only {S A} (h : environment S) (P : op → Prop) (I : S → S → Prop) `{!PreOrder I} (p : prog A) s :
  (∀ o s, P o → I s (h o s).1) → only P p → I s (run h p s).1.
Proof.
  intros HI. revert s. induction p as [a| |o k IH]; intros s Hp; simpl; [reflexivity..|]. destruct Hp as [Ho Hk].
  pose proof (HI o s Ho) as H1. destruct (h o s) as [s1 a]. simpl in *. etransitivity; [exact H1|]. by apply IH.
Qed.

(** Replacing the calls of a program by programs: an interface call becomes the
    body of the implementation behind the interface. *)
Fixpoint link {A} (impl : ∀ o : op, prog (ans o)) (p : prog A) : prog A :=
  match p with
  | Ret a => Ret a
  | Panic => Panic
  | Call o k => impl o ≫= λ a, link impl (k a)
  end.

Lemma link_bind {A B} impl (p : prog A) (f : A → prog B) S (h : environment S) s :
  run h (link impl (p ≫= f)) s = run h (link impl p ≫= λ a, link impl (f a)) s.
Proof.
  revert s. induction p as [a| |o k IH]; intros s; simpl; [done|done|].
  change (bind f) with (@mbind prog _ A B f) in *.
  rewrite run_bind. rewrite run_bind.
  rewrite run_bind. destruct (run h (impl o) s) as [s' [a|]]; [|done].
  rewrite IH. by rewrite run_bind.
Qed.
End Prog.

Arguments prog {op} ans A.
Arguments Ret {op ans A}.
Arguments Panic {op ans A}.
Arguments Call {op ans A}.

(** From [may p tr (Returned r)] and a goal about [tr] and [r], to the weakest
    precondition of [p] for that goal. *)
Ltac on_returns Hm :=
  match type of Hm with
  | may _ ?tr (Returned ?r) => pattern tr, r; apply (may_on_return _ _ _ _ Hm); clear Hm
  end.

(** Follows a program down to its calls; programs of their own are looked up in [only]. *)
Create HintDb only.
Ltac solve_only :=
  repeat first
    [ progress intros
    | solve [eauto 2 with only nocore]
    | apply only_bind
    | apply only_call; reflexivity
    | exact I
    | case_match
    | split; [reflexivity|] ].
