(* ===== verification/Model.v ===== *)
(** The data the components exchange and the calls they make.

    Records follow the Go structs, restricted to the fields the provider reads
    or writes.  [op] lists every call that leaves a component: the milo API
    server through the controller-runtime client, the methods of the interface
    [zitadel.API], the gRPC and HTTP calls behind them, outbound HTTP, the
    process-wide pending-avatar map, the clock and the metrics registry. *)

From S2P Require Import Prelude GoLib Prog.

(** * Errors

    A Go [error] is modelled by what the provider can observe of it: the reason
    [apierrors.ReasonForError] reports for a Kubernetes status error, the code
    [status.Code] reports for a gRPC status, and the text.  [EWrap] is
    [fmt.Errorf("pre%w", e)] and [EWrapIn] [fmt.Errorf("pre%wpost", e)], which keep the
    wrapped error observable. *)
Inductive reason :=
| RNotFound | RAlreadyExists | RConflict | RForbidden | RUnauthorized | RBadRequest
| RInternalError | RServiceUnavailable | RTooManyRequests | RUnknown.

Inductive grpc_code :=
| GNotFound | GPermissionDenied | GUnauthenticated | GInvalidArgument
| GDeadlineExceeded | GUnavailable | GOtherCode.

Inductive error :=
| EApi (r : reason) (msg : string)
| EGrpc (c : grpc_code) (msg : string)
| EPlain (msg : string)
| EWrap (pre : string) (e : error)
| EWrapIn (pre : string) (e : error) (post : string).

#[global] Instance reason_eq_dec : EqDecision reason.
Proof. solve_decision. Defined.
#[global] Instance grpc_code_eq_dec : EqDecision grpc_code.
Proof. solve_decision. Defined.
#[global] Instance error_eq_dec : EqDecision error.
Proof. solve_decision. Defined.

Fixpoint Error (e : error) : string :=
  match e with
  | EApi _ m | EGrpc _ m | EPlain m => m
  | EWrap pre e => pre +:+ Error e
  | EWrapIn pre e post => pre +:+ Error e +:+ post
  end.

(** [apierrors.ReasonForError] and [status.FromError] both look through wraps. *)
Fixpoint reason_of (e : error) : option reason :=
  match e with
  | EApi r _ => Some r
  | EGrpc _ _ | EPlain _ => None
  | EWrap _ e | EWrapIn _ e _ => reason_of e
  end.

Fixpoint grpc_of (e : error) : option grpc_code :=
  match e with
  | EGrpc c _ => Some c
  | EApi _ _ | EPlain _ => None
  | EWrap _ e | EWrapIn _ e _ => grpc_of e
  end.

(** [status.FromError(err).Message()]: the description of a bare gRPC error, whose text is
    rpc error: code = C desc = D; of a wrapped one the whole text. *)
Definition status_message (e : error) : string :=
  match e with EGrpc _ m => default m (text_after " desc = " m) | _ => Error e end.

Definition IsNotFound (e : error) : bool := bool_decide (reason_of e = Some RNotFound).
Definition IsAlreadyExists (e : error) : bool := bool_decide (reason_of e = Some RAlreadyExists).
Definition IsConflict (e : error) : bool := bool_decide (reason_of e = Some RConflict).

(** A [(T, error)] pair whose value is only used when the error is nil. *)
Inductive result (A : Type) :=
| Ok (a : A)
| Err (e : error).
Arguments Ok {A}.
Arguments Err {A}.

(** * milo objects *)

Inductive AuthProvider := ProviderUnset | ProviderGoogle | ProviderGitHub | ProviderOther (s : string).
Inductive EmailVerificationState := EVUnset | EVVerified | EVUnverified.

#[global] Instance AuthProvider_eq_dec : EqDecision AuthProvider.
Proof. solve_decision. Defined.
#[global] Instance EmailVerificationState_eq_dec : EqDecision EmailVerificationState.
Proof. solve_decision. Defined.

(** The iam User: the fields the provider reads or writes. *)
Record User := mkUser {
  u_name : string;
  u_uid : string;
  u_resourceVersion : Z;
  u_email : string;
  u_givenName : string;
  u_familyName : string;
  u_avatarURL : string;
  u_lastLoginProvider : AuthProvider;
  u_emailVerification : EmailVerificationState }.

Inductive Recipient := UserRef (name : string) | EmailAddress (addr : string).

Record Email := mkEmail {
  em_name : string;
  em_namespace : string;
  em_labels : gmap string string;
  em_annotations : gmap string string;
  em_template : string;
  em_recipient : Recipient;
  em_variables : list (string * string);
  em_priorityHigh : bool }.

(** A listed Email together with its creation timestamp. *)
Record SentEmail := mkSent { se_email : Email; se_created : Z }.

Record K8sEvent := mkEvent {
  ev_name : string;
  ev_namespace : string;
  ev_involvedName : string;
  ev_involvedUID : string;
  ev_reason : string;
  ev_message : string;
  ev_component : string;
  ev_time : Z }.

(** * Zitadel objects (pkg/zitadel/api.go) *)

Record Session := mkSession {
  s_ID : string;
  s_UserID : string;
  s_IP : string;
  s_FingerprintID : string;
  s_CreatedAt : Z;
  s_LastUpdated : option Z;
  s_UserAgent : string;
  s_Metadata : gmap string string;
  s_PasskeyVerified : bool }.

Record IDPLink := mkIDPLink {
  l_IDPID : string; l_IDPName : string; l_UserID : string; l_IDPUserName : string }.

Record UserMetadata := mkUserMetadata { md_Key : string; md_Value : string; md_CreationDate : Z }.

Record Passkey := mkPasskey { pk_ID : string; pk_Name : string; pk_State : string }.

Record ZUser := mkZUser {
  z_ID : string;
  z_Username : string;
  z_Email : string;
  z_State : string;
  z_GivenName : string;
  z_FamilyName : string;
  z_IsEmailVerified : bool;
  z_CreatedAt : Z }.

Record Organization := mkOrganization { o_ID : string; o_Name : string }.

Record MachineKey := mkMachineKey { k_ID : string; k_CreatedDate : Z; k_ExpirationDate : option Z }.

(** ** The gRPC messages behind them, as far as [SDKClient] reads them

    The header map of a user agent is given in the order the Go runtime iterates
    over it; [None] is a nil value list. *)
Record PbUserAgent := mkPbUserAgent {
  pua_ip : string; pua_fingerprintId : string; pua_description : string;
  pua_header : list (string * option (list string)) }.

Record PbSession := mkPbSession {
  ps_id : string;
  ps_userAgent : option PbUserAgent;
  ps_creationDate : option Z;
  ps_changeDate : option Z;
  ps_metadata : gmap string string;
  ps_factorUserId : string;
  ps_webAuthNVerified : bool }.

Record PbKey := mkPbKey { pky_id : string; pky_creationDate : option Z; pky_expirationDate : option Z }.

(** The filter of a ListUsers request. *)
Inductive PbUserQuery :=
| QueryHumans (offset limit : Z)
| QueryUserName (orgID username : string)
| QueryOrganization (orgID : string).

(** The machine user of a CreateUser request. *)
Record PbCreateMachine := mkPbCreateMachine {
  cm_organizationId : string; cm_userId : string; cm_username : string; cm_name : string; cm_accessTokenType : string }.

Record PbHuman := mkPbHuman {
  h_givenName : string; h_familyName : string; h_email : option (string * bool) }.

Inductive PbUserType := PbHumanUser (h : PbHuman) | PbMachineUser | PbNoType.

Record PbUser := mkPbUser {
  pu_userId : string;
  pu_preferredLoginName : string;
  pu_loginNames : list string;
  pu_username : string;
  pu_state : string;
  pu_type : PbUserType;
  pu_creationDate : option Z }.

Record PbIDPLink := mkPbIDPLink { pl_idpId : string; pl_userId : string; pl_userName : string }.

(** * Objects of the controllers *)

Record ObjectMeta := mkMeta {
  m_name : string; m_uid : string; m_deleting : bool; m_finalizers : list string }.

Record Condition := mkCondition {
  cd_type : string; cd_status : string; cd_reason : string; cd_message : string; cd_lastTransition : Z }.

Record PlatformAccess := mkPlatformAccess {
  pac_name : string; pac_userRef : string; pac_state : string; pac_conditions : list Condition }.

Record ServiceAccount := mkServiceAccount {
  sa_meta : ObjectMeta;
  sa_namespace : string;
  sa_specState : string;
  sa_statusState : string;
  sa_email : string;
  sa_clientID : string;
  sa_conditions : list Condition }.

(** * Requests to the aggregated API server *)

(** [user.Info] of an authenticated request. *)
Record UserInfo := mkUserInfo {
  ui_name : string; ui_uid : string; ui_groups : list string; ui_extra : gmap string (list string) }.

(** The spec of a SubjectAccessReview. *)
Record SubjectAccessReview := mkSAR {
  sar_user : string; sar_uid : string; sar_groups : list string; sar_extra : option (gmap string (list string));
  sar_verb : string; sar_group : string; sar_resource : string; sar_name : string }.

(** * The pending-avatar entry (avatar_sync.go) *)
Record pendingAvatar := mkPending {
  pa_avatarURL : string; pa_provider : AuthProvider; pa_expiresAt : Z }.

(** * Metrics *)
Inductive metric :=
| sweepScanned | sweepMissing | sweepCreated | sweepErrors | sweepLastSuccess
| sweepEmailVerifiedUpdates
| abandonedScanned | abandonedEligible | abandonedDeleted | abandonedSkippedIDP | abandonedErrors
| verifiedNoCredential (n : nat).

(** * Responses of the GraphQL gateway *)
Record GeoLocation := mkGeo {
  geo_City : string; geo_Country : string; geo_CountryCode : string; geo_Formatted : string }.
Record ParsedUserAgent := mkUA { ua_Browser : string; ua_OS : string; ua_Formatted : string }.

(** * Calls *)
Inductive op :=
(* runtime *)
| Now
| Sleep (d : Z)
| SleepOrDone (d : Z)
| NewUUID
| Getenv (key : string)
| Inc (m : metric)
| HttpWrite (status : Z) (body : string)
(* milo API server *)
| KGetUser (name : string)
| KCreateUser (u : User)
| KListUsers
| KDeleteUser (name : string)
| KUpdateUserStatus (u : User)
| KPatchUserStatus (original current : User) (fieldOwner : string)
| KCreateEmail (e : Email)
| KListEmails (namespace : string) (labels : gmap string string)
| KCreateEvent (e : K8sEvent)
| KGetUserMeta (name : string)
| KUpdateUser (m : ObjectMeta)
| KGetProject (name : string)
| KUpdateProject (m : ObjectMeta)
| KGetPlatformAccess (name : string)
| KPatchPlatformAccessStatus (original current : PlatformAccess) (fieldOwner : string)
| KCreateSAR (review : SubjectAccessReview)
| MGetCluster (cluster : string)
| KGetServiceAccount (cluster namespace name : string)
| KUpdateServiceAccount (cluster : string) (sa : ServiceAccount)
| KUpdateServiceAccountStatus (cluster : string) (sa : ServiceAccount)
(* pendingAvatars sync.Map *)
| MapStore (key : string) (v : pendingAvatar)
| MapLoadAndDelete (key : string)
(* zitadel.API *)
| ZListSessions (userID : string)
| ZGetUserByID (userID : string)
| ZListHumanUsers (offset limit : Z)
| ZListIDPLinks (userID : string)
| ZListAuthMethodTypes (userID : string)
| ZDeleteUser (userID : string)
| ZListUserMetadata (userID : string)
| ZCreatePasskeyRegistrationLink (userID : string)
| ZGetSession (sessionID : string)
| ZDeleteSession (userID sessionID : string)
| ZListPasskeys (userID : string)
| ZCreateOrganization (name : string)
| ZCreateOrganizationWithID (name customOrgID : string)
| ZDeleteOrganization (orgID : string)
| ZGetOrganization (orgID : string)
| ZGetMachineUserByUsername (orgID username : string)
| ZAddMachineUserInOrganization (orgID userID username displayName : string)
| ZDeactivateUser (orgID userID : string)
| ZReactivateUser (orgID userID : string)
| ZListMachineAccountsInOrganization (orgID : string)
| ZAddMachineKeyInOrganization (orgID userID publicKey : string) (expirationDate : option Z)
| ZListMachineKeysInOrganization (orgID userID : string)
| ZRemoveMachineKeyInOrganization (orgID userID keyID : string)
(* gRPC services behind SDKClient *)
| GNewClient (host : string) (port : option Z) (issuer keyPath : string)
| GListIDPLinks (userID : string)
| GGetIDPByID (id : string)
| GGetUserByID (userID : string)
| GListUsers (q : PbUserQuery)
| GDeleteUser (userID : string)
| GListAuthMethodTypes (userID : string)
| GCreatePasskeyRegistrationLink (userID : string)
| GListSessions (userID : string)
| GGetSession (sessionID : string)
| GDeleteSession (sessionID : string)
| GListPasskeys (userID : string)
| GListUserMetadata (userID : string)
| GAddOrganization (name : string) (orgID : option string)
| GDeleteOrganization (orgID : string)
| GListOrganizations (orgID : string)
| GCreateUser (m : PbCreateMachine)
| GDeactivateUser (orgID userID : string)
| GReactivateUser (orgID userID : string)
| GAddKey (orgID userID publicKey : string) (expirationDate : Z)
| GListKeys (orgID userID : string)
| GRemoveKey (orgID userID keyID : string)
(* outbound HTTP: a POST, answered by status code (and status line) and body;
   a read of a mounted file *)
| HttpPost (url body : string)
| HttpPostForm (url form : string)
| HttpDo (method url : string) (body : option string)
| ReadFile (path : string).

Definition ans (o : op) : Type :=
  match o with
  | Now => Z
  | Sleep _ => unit
  | SleepOrDone _ => option error
  | NewUUID => string
  | Getenv _ => string
  | Inc _ => unit
  | HttpWrite _ _ => option error
  | KGetUser _ => result User
  | KCreateUser _ => result User
  | KListUsers => result (list User)
  | KDeleteUser _ => option error
  | KUpdateUserStatus _ => option error
  | KPatchUserStatus _ _ _ => option error
  | KCreateEmail _ => option error
  | KListEmails _ _ => result (list SentEmail)
  | KCreateEvent _ => option error
  | KGetUserMeta _ => result ObjectMeta
  | KUpdateUser _ => option error
  | KGetProject _ => result ObjectMeta
  | KUpdateProject _ => option error
  | KGetPlatformAccess _ => result PlatformAccess
  | KPatchPlatformAccessStatus _ _ _ => option error
  | KCreateSAR _ => result bool
  | MGetCluster _ => option error
  | KGetServiceAccount _ _ _ => result ServiceAccount
  | KUpdateServiceAccount _ _ => option error
  | KUpdateServiceAccountStatus _ _ => option error
  | MapStore _ _ => unit
  | MapLoadAndDelete _ => option pendingAvatar
  | ZListSessions _ => result (list Session)
  | ZGetUserByID _ => result (option ZUser)
  | ZListHumanUsers _ _ => result (list ZUser * Z)
  | ZListIDPLinks _ => result (list IDPLink)
  | ZListAuthMethodTypes _ => result (list string)
  | ZDeleteUser _ => option error
  | ZListUserMetadata _ => result (list UserMetadata)
  | ZCreatePasskeyRegistrationLink _ => result (string * string)
  | ZGetSession _ => result (option Session)
  | ZDeleteSession _ _ => option error
  | ZListPasskeys _ => result (list Passkey)
  | ZCreateOrganization _ => result string
  | ZCreateOrganizationWithID _ _ => result string
  | ZDeleteOrganization _ => option error
  | ZGetOrganization _ => result (option Organization)
  | ZGetMachineUserByUsername _ _ => result (option ZUser)
  | ZAddMachineUserInOrganization _ _ _ _ => result string
  | ZDeactivateUser _ _ => option error
  | ZReactivateUser _ _ => option error
  | ZListMachineAccountsInOrganization _ => result (list ZUser)
  | ZAddMachineKeyInOrganization _ _ _ _ => result (string * string)
  | ZListMachineKeysInOrganization _ _ => result (list MachineKey)
  | ZRemoveMachineKeyInOrganization _ _ _ => option error
  | GNewClient _ _ _ _ => option error
  | GListIDPLinks _ => result (list PbIDPLink)
  | GGetIDPByID _ => result (option string)
  | GGetUserByID _ => result (option PbUser)
  | GListUsers _ => result (list PbUser)
  | GDeleteUser _ => option error
  | GListAuthMethodTypes _ => result (list string)
  | GCreatePasskeyRegistrationLink _ => result (option (string * string))
  | GListSessions _ => result (list (option PbSession))
  | GGetSession _ => result (option PbSession)
  | GDeleteSession _ => option error
  | GListPasskeys _ => result (list Passkey)
  | GListUserMetadata _ => result (list (string * string * option Z))
  | GAddOrganization _ _ => result string
  | GDeleteOrganization _ => option error
  | GListOrganizations _ => result (list Organization)
  | GCreateUser _ => result string
  | GDeactivateUser _ _ => option error
  | GReactivateUser _ _ => option error
  | GAddKey _ _ _ _ => result (string * string)
  | GListKeys _ _ => result (list PbKey)
  | GRemoveKey _ _ _ => option error
  | HttpPost _ _ => result (Z * string)
  | HttpPostForm _ _ => result (Z * string * string)
  | HttpDo _ _ _ => result (Z * string * string)
  | ReadFile _ => result string
  end.

(** Every call can be answered. *)
#[global] Instance ans_inhabited (o : op) : Inhabited (ans o).
Proof. destruct o; simpl; first [exact (populate (Err (EPlain EmptyString)))|exact (populate EmptyString)|apply _]. Qed.

(** The programs of this development. *)
Abbreviation M := (prog ans).
Abbreviation trace := (@trace op ans).
Abbreviation event := (@event op ans).
Abbreviation environment := (@environment op ans).
Abbreviation call := (@Prog.call op ans).

(** * The Zitadel client held by the actions server

    The field has the interface type [zitadel.API]: it can be the nil interface,
    an interface that holds a nil *SDKClient, or a usable client.  A method call
    on the first two panics. *)
Inductive zapi := ZNil | ZTypedNil | ZReady.

Definition zcall (z : zapi) (o : op) : M (ans o) :=
  match z with ZReady => call o | ZNil | ZTypedNil => Panic end.

(** The nil test of the source: only the nil interface compares equal to nil. *)
Definition zapi_is_nil (z : zapi) : bool :=
  match z with ZNil => true | ZTypedNil | ZReady => false end.

(** * HTTP *)
Record HttpRequest := mkRequest {
  rq_method : string;
  rq_body : result string;
  rq_signature : string }.

Record HttpResponse := mkResponse { rs_code : Z; rs_body : string }.

(** [http.Error] appends a newline to the message. *)
Definition http_error (code : Z) (msg : string) : HttpResponse := mkResponse code (msg +:+ newline).

Definition StatusOK : Z := 200.
Definition StatusCreated : Z := 201.
Definition StatusBadRequest : Z := 400.
Definition StatusUnauthorized : Z := 401.
Definition StatusForbidden : Z := 403.
Definition StatusNotFound : Z := 404.
Definition StatusMethodNotAllowed : Z := 405.
Definition StatusUnprocessableEntity : Z := 422.
Definition StatusTooManyRequests : Z := 429.
Definition StatusInternalServerError : Z := 500.
Definition StatusServiceUnavailable : Z := 503.

#[global] Instance User_eq_dec : EqDecision User.
Proof. solve_decision. Defined.
#[global] Instance Recipient_eq_dec : EqDecision Recipient.
Proof. solve_decision. Defined.
#[global] Instance Email_eq_dec : EqDecision Email.
Proof. solve_decision. Defined.
#[global] Instance K8sEvent_eq_dec : EqDecision K8sEvent.
Proof. solve_decision. Defined.
#[global] Instance pendingAvatar_eq_dec : EqDecision pendingAvatar.
Proof. solve_decision. Defined.
#[global] Instance metric_eq_dec : EqDecision metric.
Proof. solve_decision. Defined.
#[global] Instance ObjectMeta_eq_dec : EqDecision ObjectMeta.
Proof. solve_decision. Defined.
#[global] Instance Condition_eq_dec : EqDecision Condition.
Proof. solve_decision. Defined.
#[global] Instance PlatformAccess_eq_dec : EqDecision PlatformAccess.
Proof. solve_decision. Defined.
#[global] Instance ServiceAccount_eq_dec : EqDecision ServiceAccount.
Proof. solve_decision. Defined.
#[global] Instance PbUserQuery_eq_dec : EqDecision PbUserQuery.
Proof. solve_decision. Defined.
#[global] Instance PbCreateMachine_eq_dec : EqDecision PbCreateMachine.
Proof. solve_decision. Defined.
#[global] Instance SubjectAccessReview_eq_dec : EqDecision SubjectAccessReview.
Proof. solve_decision. Defined.
#[global] Instance op_eq_dec : EqDecision op.
Proof. solve_decision. Defined.

(** Events of the same call are equal only with equal answers. *)
Lemma ev_inj (o : op) (a b : ans o) : ev o a = ev o b → a = b.
Proof. apply Eqdep_dec.inj_pair2_eq_dec, op_eq_dec. Qed.

Lemma ev_op (o o' : op) (a : ans o) (b : ans o') : ev o a = ev o' b → o = o'.
Proof. by intros [=]. Qed.

(** Takes apart an equation between two traces that starts with known events. *)
Ltac trace_inv H :=
  let E := fresh "E" in
  apply cons_inv in H as [E H];
  first [ apply ev_inj in E
        | pose proof (ev_op _ _ _ _ E); simplify_eq; try apply ev_inj in E
        | idtac ].

(** * Classes of events *)

Definition is_create_user (e : event) : bool := match e with existT (KCreateUser _) _ => true | _ => false end.
Definition is_create_event (e : event) : bool := match e with existT (KCreateEvent _) _ => true | _ => false end.
Definition is_create_email (e : event) : bool := match e with existT (KCreateEmail _) _ => true | _ => false end.
Definition is_status_write (e : event) : bool :=
  match e with existT (KUpdateUserStatus _ | KPatchUserStatus _ _ _) _ => true | _ => false end.
Definition is_map_store (e : event) : bool := match e with existT (MapStore _ _) _ => true | _ => false end.

(** Decides goals [quiet T p] for a program without loops or library calls, by
    following every answer of every call. *)
Ltac solve_quiet :=
  match goal with
  | |- quiet _ _ => unfold quiet; simpl; intros; repeat case_match; simpl; intros;
                    repeat (case_match; simpl; intros); repeat split; try done
  end.
