(* ===== verification/Json.v ===== *)
(** encoding/json and encoding/base64, as far as the provider uses them: a parser
    for the JSON text of a request, the decoding of a value into a struct, the
    [map\[string\]any] view, and base64 decoding.

    A decoding error of [json.Unmarshal] makes every caller of this repository
    give up, so a decoder answers [None] for it and the partially filled struct
    is not kept. *)

From S2P Require Import Prelude GoLib.

Inductive json :=
| JNull
| JBool (b : bool)
| JNum (lit : string)
| JStr (s : string)
| JArr (l : list json)
| JObj (l : list (string * json)).

(** * Text *)

Definition is_ws (c : ascii) : bool :=
  let n := cat c in ((n =? 32) || (n =? 9) || (n =? 10) || (n =? 13))%N.

Definition skip_ws (s : string) : string := drop_while is_ws s.

Definition is_digit (c : ascii) : bool := in_range 48 57 c.

Definition chr (n : N) : string := String (ascii_of_N n) EmptyString.

(** [utf8.AppendRune]; code points outside the Unicode range become U+FFFD. *)
Definition encode_rune (r : N) : string :=
  (if r <? 128 then chr r
   else if r <? 2048 then chr (192 + r / 64) +:+ chr (128 + r mod 64)
   else if (55296 <=? r) && (r <=? 57343) then chr 239 +:+ chr 191 +:+ chr 189
   else if r <? 65536 then
     chr (224 + r / 4096) +:+ chr (128 + (r / 64) mod 64) +:+ chr (128 + r mod 64)
   else if r <? 1114112 then
     chr (240 + r / 262144) +:+ chr (128 + (r / 4096) mod 64) +:+
     chr (128 + (r / 64) mod 64) +:+ chr (128 + r mod 64)
   else chr 239 +:+ chr 191 +:+ chr 189)%N.

Definition replacement : string := encode_rune 65533.

Definition continuation (c : ascii) : bool := in_range 128 191 c.

(** Length of the well-formed multi-byte sequence at the head of the string
    ([utf8.DecodeRune] with its first-byte and second-byte ranges). *)
Definition utf8_len (s : string) : option nat :=
  match s with
  | String a (String b t) =>
      if in_range 194 223 a && continuation b then Some 2%nat
      else match t with
           | String c t =>
               let ok3 := if (cat a =? 224)%N then in_range 160 191 b
                          else if (cat a =? 237)%N then in_range 128 159 b
                          else in_range 225 239 a && continuation b in
               if ok3 && continuation c then Some 3%nat
               else match t with
                    | String d _ =>
                        let ok4 := if (cat a =? 240)%N then in_range 144 191 b
                                   else if (cat a =? 244)%N then in_range 128 143 b
                                   else in_range 241 243 a && continuation b in
                        if ok4 && continuation c && continuation d then Some 4%nat else None
                    | EmptyString => None
                    end
           | EmptyString => None
           end
  | _ => None
  end.

Fixpoint hex4 (n : nat) (acc : N) (s : string) : option (N * string) :=
  match n, s with
  | O, _ => Some (acc, s)
  | S n, String c s => match unhex c with Some d => hex4 n (acc * 16 + d)%N s | None => None end
  | S _, EmptyString => None
  end.

Definition simple_escape (c : ascii) : option N :=
  (let n := cat c in
   if n =? 34 then Some 34 else if n =? 92 then Some 92 else if n =? 47 then Some 47
   else if n =? 98 then Some 8 else if n =? 102 then Some 12 else if n =? 110 then Some 10
   else if n =? 114 then Some 13 else if n =? 116 then Some 9 else None)%N.

(** The body of a string literal after its opening quote: the unquoted value and
    the text after the closing quote. *)
Fixpoint parse_string (fuel : nat) (s : string) : option (string * string) :=
  let continue out rest :=
    match fuel with
    | O => None
    | S fuel => prod_map (λ t, out +:+ t) id <$> parse_string fuel rest
    end in
  match s with
  | EmptyString => None
  | String c s' =>
      let n := cat c in
      if (n =? 34)%N then Some (EmptyString, s')
      else if (n <? 32)%N then None
      else if (n =? 92)%N then
        match s' with
        | String e s'' =>
            match simple_escape e with
            | Some v => continue (chr v) s''
            | None =>
                if (cat e =? 117)%N then
                  match hex4 4 0 s'' with
                  | None => None
                  | Some (r, rest) =>
                      if ((55296 <=? r) && (r <=? 56319))%N then
                        match rest with
                        | String b (String u rest') =>
                            if ((cat b =? 92) && (cat u =? 117))%N then
                              match hex4 4 0 rest' with
                              | Some (r2, rest2) =>
                                  if ((56320 <=? r2) && (r2 <=? 57343))%N
                                  then continue (encode_rune (65536 + (r - 55296) * 1024 + (r2 - 56320))) rest2
                                  else continue replacement rest
                              | None => None
                              end
                            else continue replacement rest
                        | _ => continue replacement rest
                        end
                      else continue (encode_rune r) rest
                  end
                else None
            end
        | EmptyString => None
        end
      else if is_ascii_char c then continue (String c EmptyString) s'
      else match utf8_len s with
           | Some k => continue (String.substring 0 k s) (drop_string k s)
           | None => continue replacement s'
           end
  end.

Fixpoint take_while (f : ascii → bool) (s : string) : string * string :=
  match s with
  | String c s' => if f c then prod_map (String c) id (take_while f s') else (EmptyString, s)
  | EmptyString => (EmptyString, EmptyString)
  end.

Definition digits1 (s : string) : option (string * string) :=
  match take_while is_digit s with (EmptyString, _) => None | r => Some r end.

Definition head_is (n : N) (s : string) : bool :=
  match s with String c _ => (cat c =? n)%N | EmptyString => false end.

Definition tail (s : string) : string := match s with String _ s => s | EmptyString => EmptyString end.

(** number = [ "-" ] int [ frac ] [ exp ] *)
Definition parse_number (s : string) : option (string * string) :=
  let '(sign, s) := if head_is 45 s then (chr 45, tail s) else (EmptyString, s) in
  '(int, s) ← (if head_is 48 s then Some (chr 48, tail s) else digits1 s);
  '(frac, s) ← (if head_is 46 s then prod_map (String (ascii_of_N 46)) id <$> digits1 (tail s)
                else Some (EmptyString, s));
  '(exp, s) ← (if head_is 101 s || head_is 69 s then
                 let e := String.substring 0 1 s in
                 let '(sg, t) := if head_is 43 (tail s) || head_is 45 (tail s)
                                 then (String.substring 0 1 (tail s), tail (tail s))
                                 else (EmptyString, tail s) in
                 prod_map (λ d, e +:+ sg +:+ d) id <$> digits1 t
               else Some (EmptyString, s));
  Some (sign +:+ int +:+ frac +:+ exp, s).

Definition literal (lit : string) (v : json) (s : string) : option (json * string) :=
  if has_prefix lit s then Some (v, drop_string (String.length lit) s) else None.

Definition max_nesting : nat := Z.to_nat 10000.

(** One value after optional white space, and the rest of the text.  [depth]
    counts the containers still allowed, [fuel] bounds the recursion. *)
Fixpoint parse_value (fuel depth : nat) (s : string) {struct fuel} : option (json * string) :=
  match fuel with
  | O => None
  | S fuel =>
      let s := skip_ws s in
      match s with
      | EmptyString => None
      | String c rest =>
          let n := cat c in
          if (n =? 34)%N then prod_map JStr id <$> parse_string (String.length rest) rest
          else if (n =? 123)%N then
            match depth with
            | O => None
            | S depth =>
                if head_is 125 (skip_ws rest) then Some (JObj [], tail (skip_ws rest))
                else prod_map JObj id <$> parse_members fuel depth rest
            end
          else if (n =? 91)%N then
            match depth with
            | O => None
            | S depth =>
                if head_is 93 (skip_ws rest) then Some (JArr [], tail (skip_ws rest))
                else prod_map JArr id <$> parse_elements fuel depth rest
            end
          else if (n =? 116)%N then literal "true" (JBool true) s
          else if (n =? 102)%N then literal "false" (JBool false) s
          else if (n =? 110)%N then literal "null" JNull s
          else prod_map JNum id <$> parse_number s
      end
  end
with parse_members (fuel depth : nat) (s : string) {struct fuel} : option (list (string * json) * string) :=
  match fuel with
  | O => None
  | S fuel =>
      let s := skip_ws s in
      if head_is 34 s then
        '(k, s) ← parse_string (String.length s) (tail s);
        let s := skip_ws s in
        if head_is 58 s then
          '(v, s) ← parse_value fuel depth (tail s);
          let s := skip_ws s in
          if head_is 44 s then prod_map (cons (k, v)) id <$> parse_members fuel depth (tail s)
          else if head_is 125 s then Some ([(k, v)], tail s) else None
        else None
      else None
  end
with parse_elements (fuel depth : nat) (s : string) {struct fuel} : option (list json * string) :=
  match fuel with
  | O => None
  | S fuel =>
      '(v, s) ← parse_value fuel depth s;
      let s := skip_ws s in
      if head_is 44 s then prod_map (cons v) id <$> parse_elements fuel depth (tail s)
      else if head_is 93 s then Some ([v], tail s) else None
  end.

Definition parse_prefix (s : string) : option (json * string) :=
  parse_value (S (2 * String.length s)) max_nesting s.

(** The document [json.Unmarshal] and [json.Valid] accept: one value, then only
    white space.  [json.Decoder.Decode] reads one value and leaves the rest. *)
Definition json_parse (s : string) : option json :=
  '(v, rest) ← parse_prefix s;
  if skip_ws rest is EmptyString then Some v else None.

Definition json_valid (s : string) : bool := if json_parse s is Some _ then true else false.

(** * Decoding into a struct *)

Definition decoder (R : Type) := json → R → option R.

Section Decode.
Context `{GoRuntime}.

Fixpoint find_exact {R} (k : string) (fs : list (string * decoder R)) : option (decoder R) :=
  match fs with
  | [] => None
  | (n, d) :: fs => if bool_decide (n = k) then Some d else find_exact k fs
  end.

Fixpoint find_folded {R} (k : string) (fs : list (string * decoder R)) : option (decoder R) :=
  match fs with
  | [] => None
  | (n, d) :: fs => if EqualFold n k then Some d else find_folded k fs
  end.

Fixpoint decode_members {R} (fs : list (string * decoder R)) (ms : list (string * json)) (r : R) : option R :=
  match ms with
  | [] => Some r
  | (k, v) :: ms =>
      match (match find_exact k fs with Some d => Some d | None => find_folded k fs end) with
      | Some d => match d v r with Some r => decode_members fs ms r | None => None end
      | None => decode_members fs ms r
      end
  end.

(** Fields are matched by exact name first, then case-insensitively; later
    members override earlier ones; null leaves the struct untouched. *)
Definition decode_struct {R} (fs : list (string * decoder R)) : decoder R := λ j r,
  match j with
  | JObj ms => decode_members fs ms r
  | JNull => Some r
  | _ => None
  end.
End Decode.

Definition string_field {R} (set : string → R → R) : decoder R := λ j r,
  match j with JStr s => Some (set s r) | JNull => Some r | _ => None end.

Definition bool_field {R} (set : bool → R → R) : decoder R := λ j r,
  match j with JBool b => Some (set b r) | JNull => Some r | _ => None end.

Fixpoint decimal (acc : Z) (s : string) : option Z :=
  match s with
  | EmptyString => Some acc
  | String c s => if is_digit c then decimal (acc * 10 + Z.of_N (cat c - 48))%Z s else None
  end.

(** A field of type int accepts an integer literal in the int64 range only. *)
Definition parse_int64 (lit : string) : option Z :=
  z ← (if head_is 45 lit then Z.opp <$> decimal 0 (tail lit) else decimal 0 lit);
  if bool_decide (min_int64 ≤ z ≤ max_int64)%Z then Some z else None.

Definition int_field {R} (set : Z → R → R) : decoder R := λ j r,
  match j with
  | JNum lit => z ← parse_int64 lit; Some (set z r)
  | JNull => Some r
  | _ => None
  end.

Definition Unmarshal {R} (d : decoder R) (zero : R) (text : string) : option R :=
  j ← json_parse text; d j zero.

Definition Decode {R} (d : decoder R) (zero : R) (text : string) : option R :=
  '(j, _) ← parse_prefix text; d j zero.

(** * The map[string]any view *)

Fixpoint floats_ok `{GoRuntime} (j : json) : bool :=
  match j with
  | JNum lit => parse_float_ok lit
  | JArr l => forallb floats_ok l
  | JObj l => forallb (λ '(_, v), floats_ok v) l
  | JNull | JBool _ | JStr _ => true
  end.

(** [json.Unmarshal(raw, &m)] for a map: null gives the nil map. *)
Definition unmarshal_map `{GoRuntime} (raw : string) : option (list (string * json)) :=
  j ← json_parse raw;
  match j with
  | JObj l => if floats_ok j then Some l else None
  | JNull => Some []
  | _ => None
  end.

(** The last member wins. *)
Fixpoint map_get (k : string) (l : list (string * json)) : option json :=
  match l with
  | [] => None
  | (k', v) :: l =>
      match map_get k l with Some v => Some v | None => if bool_decide (k' = k) then Some v else None end
  end.

Definition as_object (v : option json) : option (list (string * json)) :=
  match v with Some (JObj l) => Some l | _ => None end.

Definition as_string (v : option json) : option string :=
  match v with Some (JStr s) => Some s | _ => None end.

(** * base64.StdEncoding *)

Definition b64_value (c : ascii) : option N :=
  let n := cat c in
  if in_range 65 90 c then Some (n - 65)%N
  else if in_range 97 122 c then Some (n - 71)%N
  else if in_range 48 57 c then Some (n + 4)%N
  else if (n =? 43)%N then Some 62%N
  else if (n =? 47)%N then Some 63%N
  else None.

(** The decoder skips carriage returns and newlines. *)
Fixpoint b64_strip (s : string) : string :=
  match s with
  | EmptyString => EmptyString
  | String c s => if ((cat c =? 10) || (cat c =? 13))%N then b64_strip s else String c (b64_strip s)
  end.

Fixpoint b64_quanta (s : string) : option string :=
  match s with
  | EmptyString => Some EmptyString
  | String a (String b (String c (String d rest))) =>
      va ← b64_value a; vb ← b64_value b;
      let o1 := chr (va * 4 + vb / 16) in
      if ((cat c =? 61) && (cat d =? 61))%N then
        if rest is EmptyString then Some o1 else None
      else
        vc ← b64_value c;
        let o2 := chr ((vb mod 16) * 16 + vc / 4) in
        if (cat d =? 61)%N then
          if rest is EmptyString then Some (o1 +:+ o2) else None
        else
          vd ← b64_value d;
          (λ t, o1 +:+ o2 +:+ chr ((vc mod 4) * 64 + vd) +:+ t) <$> b64_quanta rest
  | _ => None
  end.

Definition b64_decode (s : string) : option string := b64_quanta (b64_strip s).

(** * Encoding *)

(** [json.Marshal] of a string: control characters, quotes, backslashes and the
    HTML characters are escaped, invalid UTF-8 becomes U+FFFD. *)
Definition json_u (n : N) : string :=
  String backslash (String (ascii_of_N 117)
    (String (hex_digit false (n / 4096)) (String (hex_digit false ((n / 256) mod 16))
      (String (hex_digit false ((n / 16) mod 16)) (String (hex_digit false (n mod 16)) EmptyString))))).

Definition json_escape_char (c : ascii) : string :=
  let esc x := String backslash (String (ascii_of_N x) EmptyString) in
  let n := cat c in
  if (n =? 34)%N then esc 34%N else if (n =? 92)%N then esc 92%N
  else if (n =? 8)%N then esc 98%N else if (n =? 12)%N then esc 102%N
  else if (n =? 10)%N then esc 110%N else if (n =? 13)%N then esc 114%N
  else if (n =? 9)%N then esc 116%N
  else if ((n <? 32) || (n =? 60) || (n =? 62) || (n =? 38))%N then json_u n
  else String c EmptyString.

Fixpoint json_escape (fuel : nat) (s : string) : string :=
  match fuel, s with
  | Datatypes.S fuel, String c s' =>
      if is_ascii_char c then json_escape_char c +:+ json_escape fuel s'
      else match utf8_len s with
           | Some k =>
               let out := String.substring 0 k s in
               (if bool_decide (out = encode_rune 8232) then json_u 8232
                else if bool_decide (out = encode_rune 8233) then json_u 8233 else out)
               +:+ json_escape fuel (drop_string k s)
           | None => json_u 65533 +:+ json_escape fuel s'
           end
  | _, _ => EmptyString
  end.

Definition quoted (s : string) : string := chr 34 +:+ s +:+ chr 34.

Definition json_string (s : string) : string := quoted (json_escape (String.length s) s).

(** [json.Marshal] of a value without white space. *)
Fixpoint concat_with (sep : string) (l : list string) : string :=
  match l with
  | [] => EmptyString
  | [s] => s
  | s :: l => s +:+ sep +:+ concat_with sep l
  end.

Fixpoint render (j : json) : string :=
  match j with
  | JNull => "null"
  | JBool b => if b then "true" else "false"
  | JNum lit => lit
  | JStr s => json_string s
  | JArr l => chr 91 +:+ concat_with "," (map render l) +:+ chr 93
  | JObj ms => chr 123 +:+ concat_with "," (map (λ '(k, v), json_string k +:+ ":" +:+ render v) ms) +:+ chr 125
  end.

Definition json_ex_text : string :=
  default EmptyString (b64_decode "eyJhIjogWzEsIC0yLjVlMywgbnVsbF0sICJiIjogIlx1MDBlOSJ9").

Example json_parse_ex :
  json_parse json_ex_text =
    Some (JObj [("a", JArr [JNum "1"; JNum "-2.5e3"; JNull]); ("b", JStr (chr 195 +:+ chr 169))]).
Proof. vm_compute. reflexivity. Qed.

(** * Lemmas *)

(** One escaped ASCII character is read back and costs one unit of fuel. *)
Lemma parse_escaped_char f c t :
  is_ascii_char c = true →
  parse_string (S f) (json_escape_char c +:+ t) = prod_map (String c) id <$> parse_string f t.
Proof. destruct c as [[] [] [] [] [] [] [] []]; intros Hc; try discriminate Hc; reflexivity. Qed.

(** What [json_escape] writes for an ASCII string, [parse_string] reads back. *)
Lemma parse_escaped n s f t :
  is_ascii s = true → (String.length s ≤ n)%nat → (String.length s ≤ f)%nat →
  parse_string f (json_escape n s +:+ chr 34 +:+ t) = Some (s, t).
Proof.
  revert n f. induction s as [|c s IH]; intros n f Ha Hn Hf.
  - destruct n; by destruct f.
  - destruct n as [|n]; [simpl in Hn; lia|]. destruct f as [|f]; [simpl in Hf; lia|].
    unfold is_ascii in Ha. simpl in Ha. apply andb_prop in Ha as [Hc Hs]. simpl in Hn, Hf.
    cbn [json_escape]. rewrite Hc, str_app_assoc, parse_escaped_char by done.
    rewrite IH by (done || lia). done.
Qed.

Lemma json_escape_char_length c : (1 ≤ String.length (json_escape_char c))%nat.
Proof. destruct c as [[] [] [] [] [] [] [] []]; vm_compute; lia. Qed.

Lemma string_length_app s t : String.length (s +:+ t) = (String.length s + String.length t)%nat.
Proof. induction s as [|c s IH]; [done|]. rewrite str_app_cons. simpl. by rewrite IH. Qed.

Lemma json_escape_length n s :
  is_ascii s = true → (String.length s ≤ n)%nat → (String.length s ≤ String.length (json_escape n s))%nat.
Proof.
  revert n. induction s as [|c s IH]; intros n Ha Hn; simpl in *; [lia|]. destruct n as [|n]; [lia|].
  unfold is_ascii in Ha. simpl in Ha. apply andb_prop in Ha as [Hc Hs].
  cbn [json_escape]. rewrite Hc, string_length_app.
  pose proof (json_escape_char_length c). specialize (IH n Hs ltac:(lia)). lia.
Qed.

(** ** Rendering and parsing

    [plain j]: the values the provider renders, that is ASCII text and no numbers. *)
Fixpoint plain (j : json) : bool :=
  match j with
  | JNull | JBool _ => true
  | JNum _ => false
  | JStr s => is_ascii s
  | JArr l => forallb plain l
  | JObj ms => forallb (λ '(k, v), is_ascii k && plain v) ms
  end.

Fixpoint height (j : json) : nat :=
  match j with
  | JArr l => S (foldr (λ j h, max (height j) h) 0%nat l)
  | JObj ms => S (foldr (λ '(_, j) h, max (height j) h) 0%nat ms)
  | _ => 0%nat
  end.

(** Fuel [parse_value] uses for a rendered value. *)
Fixpoint need (j : json) : nat :=
  match j with
  | JArr l => S (foldr (λ j h, S (max (need j) h)) 0%nat l)
  | JObj ms => S (foldr (λ '(_, j) h, S (max (need j) h)) 0%nat ms)
  | _ => 1%nat
  end.

Lemma json_rect' (P : json → Prop) :
  P JNull → (∀ b, P (JBool b)) → (∀ n, P (JNum n)) → (∀ s, P (JStr s)) →
  (∀ l, Forall P l → P (JArr l)) → (∀ ms, Forall (λ kv, P kv.2) ms → P (JObj ms)) →
  ∀ j, P j.
Proof.
  intros H1 H2 H3 H4 H5 H6. fix IH 1. intros [| | | |l|ms].
  - exact H1.
  - apply H2.
  - apply H3.
  - apply H4.
  - apply H5. induction l as [|j l IHl]; constructor; [apply IH|exact IHl].
  - apply H6. induction ms as [|[k v] ms IHms]; constructor; [apply IH|exact IHms].
Qed.

Lemma parse_json_string f s t :
  is_ascii s = true → (String.length (json_escape (String.length s) s +:+ chr 34 +:+ t) ≤ f)%nat →
  parse_string f (json_escape (String.length s) s +:+ chr 34 +:+ t) = Some (s, t).
Proof.
  intros Ha Hf. apply parse_escaped; [done|done|]. rewrite string_length_app in Hf.
  pose proof (json_escape_length (String.length s) s Ha (le_n _)). lia.
Qed.

Definition parses (j : json) : Prop := ∀ fuel depth t,
  plain j = true → (need j ≤ fuel)%nat → (height j ≤ depth)%nat →
  parse_value fuel depth (render j +:+ t) = Some (j, t).

Lemma json_string_app s t :
  json_string s +:+ t = String (ascii_of_N 34) (json_escape (String.length s) s +:+ chr 34 +:+ t).
Proof. unfold json_string, quoted. by rewrite !str_app_assoc. Qed.

Lemma parse_value_quote fuel depth s :
  parse_value (S fuel) depth (String (ascii_of_N 34) s) = prod_map JStr id <$> parse_string (String.length s) s.
Proof. reflexivity. Qed.

Lemma parse_value_bracket fuel depth s :
  parse_value (S fuel) (S depth) (chr 91 +:+ s) =
    if head_is 93 (skip_ws s) then Some (JArr [], tail (skip_ws s))
    else prod_map JArr id <$> parse_elements fuel depth s.
Proof. reflexivity. Qed.

Lemma parse_value_brace fuel depth s :
  parse_value (S fuel) (S depth) (chr 123 +:+ s) =
    if head_is 125 (skip_ws s) then Some (JObj [], tail (skip_ws s))
    else prod_map JObj id <$> parse_members fuel depth s.
Proof. reflexivity. Qed.

Lemma parse_members_quote fuel depth s :
  parse_members (S fuel) depth (String (ascii_of_N 34) s) =
    ('(k, s) ← parse_string (S (String.length s)) s;
     let s := skip_ws s in
     if head_is 58 s then
       '(v, s) ← parse_value fuel depth (tail s);
       let s := skip_ws s in
       if head_is 44 s then prod_map (cons (k, v)) id <$> parse_members fuel depth (tail s)
       else if head_is 125 s then Some ([(k, v)], tail s) else None
     else None).
Proof. reflexivity. Qed.

Lemma parses_str s : parses (JStr s).
Proof.
  intros fuel depth t Ha Hf _. destruct fuel as [|fuel]; [simpl in Hf; lia|].
  cbn [render]. rewrite json_string_app, parse_value_quote. by rewrite parse_json_string.
Qed.

Lemma render_not_ws j t : plain j = true → skip_ws (render j +:+ t) = render j +:+ t.
Proof. by destruct j as [|[]| | | |]. Qed.

(** The separators of rendered lists. *)
Lemma after_comma {A} s (x : string → A) y :
  (let s' := skip_ws ("," +:+ s) in if head_is 44 s' then x (tail s') else y s') = x s.
Proof. reflexivity. Qed.

Lemma after_colon {A} s (x : string → A) y :
  (let s' := skip_ws (":" +:+ s) in if head_is 58 s' then x (tail s') else y s') = x s.
Proof. reflexivity. Qed.

Lemma parse_elements_cons fuel depth j s :
  parses j → plain j = true → (need j ≤ fuel)%nat → (height j ≤ depth)%nat →
  parse_elements (S fuel) depth (render j +:+ s) =
    let s := skip_ws s in
    if head_is 44 s then prod_map (cons j) id <$> parse_elements fuel depth (tail s)
    else if head_is 93 s then Some ([j], tail s) else None.
Proof. intros Hj Ha Hf Hd. cbn [parse_elements]. by rewrite Hj. Qed.

Lemma parse_elements_render l j fuel depth t :
  Forall parses (j :: l) → forallb plain (j :: l) = true →
  (foldr (λ j h, S (max (need j) h)) 0 (j :: l) ≤ fuel)%nat →
  (foldr (λ j h, max (height j) h) 0 (j :: l) ≤ depth)%nat →
  parse_elements fuel depth (concat_with "," (map render (j :: l)) +:+ chr 93 +:+ t) = Some (j :: l, t).
Proof.
  revert j fuel. induction l as [|j' l IH]; intros j fuel Hl Ha Hf Hd;
    pose proof (Forall_inv Hl) as Hj; apply Forall_inv_tail in Hl; simpl in Ha; apply andb_prop in Ha as [Haj Ha];
    (destruct fuel as [|fuel]; [simpl in Hf; lia|]).
  - simpl in Hf, Hd. change (concat_with "," (map render [j])) with (render j).
    rewrite parse_elements_cons by (done || lia). reflexivity.
  - change (concat_with "," (map render (j :: j' :: l)))
      with (render j +:+ "," +:+ concat_with "," (map render (j' :: l))).
    rewrite !str_app_assoc. cbn [foldr] in Hf, Hd. rewrite parse_elements_cons by (done || lia).
    etrans; [exact (after_comma _ (λ s, prod_map (cons j) id <$> parse_elements fuel depth s)
      (λ s, if head_is 93 s then Some ([j], tail s) else None))|].
    cbv beta. rewrite IH; [done|done|done|cbn [foldr]; lia|cbn [foldr]; lia].
Qed.

Lemma parse_members_cons fuel depth k j s :
  parses j → is_ascii k = true → plain j = true → (need j ≤ fuel)%nat → (height j ≤ depth)%nat →
  parse_members (S fuel) depth (json_string k +:+ ":" +:+ render j +:+ s) =
    let s := skip_ws s in
    if head_is 44 s then prod_map (cons (k, j)) id <$> parse_members fuel depth (tail s)
    else if head_is 125 s then Some ([(k, j)], tail s) else None.
Proof.
  intros Hj Hk Ha Hf Hd. rewrite json_string_app, parse_members_quote, parse_json_string by (done || lia).
  cbn [mbind option_bind]. etrans.
  - exact (after_colon _ (λ s, '(v, s) ← parse_value fuel depth s; let s := skip_ws s in
      if head_is 44 s then prod_map (cons (k, v)) id <$> parse_members fuel depth (tail s)
      else if head_is 125 s then Some ([(k, v)], tail s) else None) (λ _, None)).
  - simpl. by rewrite Hj.
Qed.

Definition render_member (kv : string * json) : string := json_string kv.1 +:+ ":" +:+ render kv.2.

Lemma render_obj ms : render (JObj ms) = chr 123 +:+ concat_with "," (map render_member ms) +:+ chr 125.
Proof. simpl. do 3 f_equal. apply map_ext. by intros []. Qed.

Lemma parse_members_render ms kv fuel depth t :
  Forall (λ kv, parses kv.2) (kv :: ms) → forallb (λ '(k, v), is_ascii k && plain v) (kv :: ms) = true →
  (foldr (λ '(_, j) h, S (max (need j) h)) 0 (kv :: ms) ≤ fuel)%nat →
  (foldr (λ '(_, j) h, max (height j) h) 0 (kv :: ms) ≤ depth)%nat →
  parse_members fuel depth (concat_with "," (map render_member (kv :: ms)) +:+ chr 125 +:+ t) = Some (kv :: ms, t).
Proof.
  revert kv fuel. induction ms as [|kv' ms IH]; intros [k j] fuel Hl Ha Hf Hd;
    pose proof (Forall_inv Hl) as Hj; apply Forall_inv_tail in Hl; simpl in Ha; apply andb_prop in Ha as [[Hk Haj]%andb_prop Ha];
    (destruct fuel as [|fuel]; [simpl in Hf; lia|]).
  - simpl in Hf, Hd. change (concat_with "," (map render_member [(k, j)])) with (json_string k +:+ ":" +:+ render j).
    rewrite !str_app_assoc, parse_members_cons by (done || lia). reflexivity.
  - change (concat_with "," (map render_member ((k, j) :: kv' :: ms)))
      with ((json_string k +:+ ":" +:+ render j) +:+ "," +:+ concat_with "," (map render_member (kv' :: ms))).
    rewrite !str_app_assoc. cbn [foldr] in Hf, Hd. rewrite parse_members_cons by (done || lia).
    etrans; [exact (after_comma _ (λ s, prod_map (cons (k, j)) id <$> parse_members fuel depth s)
      (λ s, if head_is 125 s then Some ([(k, j)], tail s) else None))|].
    cbv beta. rewrite IH; [done|done|done|cbn [foldr]; lia|cbn [foldr]; lia].
Qed.

(** The first character of a rendered list body is never a closing bracket. *)
Lemma render_head_93 j s : plain j = true → head_is 93 (skip_ws (render j +:+ s)) = false.
Proof. intros Hp. rewrite render_not_ws by done. by destruct j as [|[]| | | |]. Qed.

Lemma all_parse j : parses j.
Proof.
  induction j as [|b|n|s|l Hl|ms Hms] using json_rect'.
  - intros [|fuel] depth t _ Hf _; [simpl in Hf; lia|reflexivity].
  - intros [|fuel] depth t _ Hf _; [simpl in Hf; lia|by destruct b].
  - by intros fuel depth t [=].
  - apply parses_str.
  - intros fuel depth t Ha Hf Hd. destruct fuel as [|fuel]; [simpl in Hf; lia|].
    destruct depth as [|depth]; [simpl in Hd; lia|]. cbn [render].
    rewrite !str_app_assoc, parse_value_bracket. cbn [need height plain] in *. apply le_S_n in Hf, Hd.
    destruct l as [|j l]; [reflexivity|].
    assert (plain j = true) as Hj by (simpl in Ha; by apply andb_prop in Ha as [? _]).
    assert (∃ u, concat_with "," (map render (j :: l)) +:+ chr 93 +:+ t = render j +:+ u) as [u Hu].
    { destruct l as [|j' l]; [by eexists|]. eexists.
      change (concat_with "," (map render (j :: j' :: l)))
        with (render j +:+ "," +:+ concat_with "," (map render (j' :: l))). by rewrite str_app_assoc. }
    rewrite Hu, render_head_93, <-Hu by done. by rewrite parse_elements_render.
  - intros fuel depth t Ha Hf Hd. destruct fuel as [|fuel]; [simpl in Hf; lia|].
    destruct depth as [|depth]; [simpl in Hd; lia|].
    rewrite render_obj, !str_app_assoc, parse_value_brace. cbn [need height plain] in *. apply le_S_n in Hf, Hd.
    destruct ms as [|[k j] ms]; [reflexivity|].
    assert (∃ u, concat_with "," (map render_member ((k, j) :: ms)) +:+ chr 125 +:+ t = String (ascii_of_N 34) u)
      as [u Hu].
    { destruct ms; simpl; unfold render_member at 1; simpl; rewrite !str_app_assoc, json_string_app; by eexists. }
    rewrite Hu. change (head_is 125 (skip_ws (String (ascii_of_N 34) u))) with false. cbv iota.
    rewrite <-Hu. by rewrite parse_members_render.
Qed.

Lemma concat_with_length f (g : json → nat) (l : list json) :
  Forall (λ j, (g j ≤ 2 * String.length (f j))%nat) l →
  (foldr (λ j h, S (max (g j) h)) 0 l ≤ 2 * String.length (concat_with "," (map f l)) + 1)%nat.
Proof.
  induction l as [|j l IH]; intros Hl; [simpl; lia|].
  pose proof (Forall_inv Hl) as Hj. apply Forall_inv_tail, IH in Hl. simpl in Hj.
  destruct l as [|j' l]; [simpl in *; lia|].
  change (concat_with "," (map f (j :: j' :: l))) with (f j +:+ "," +:+ concat_with "," (map f (j' :: l))).
  rewrite !string_length_app. cbn [foldr] in *. change (String.length ",") with 1%nat. lia.
Qed.

Lemma concat_with_length_members (ms : list (string * json)) :
  Forall (λ kv, (need kv.2 ≤ 2 * String.length (render kv.2))%nat) ms →
  (foldr (λ '(_, j) h, S (max (need j) h)) 0 ms ≤ 2 * String.length (concat_with "," (map render_member ms)) + 1)%nat.
Proof.
  induction ms as [|[k j] ms IH]; intros Hl; [simpl; lia|].
  pose proof (Forall_inv Hl) as Hj. apply Forall_inv_tail, IH in Hl. simpl in Hj.
  assert (String.length (render j) ≤ String.length (render_member (k, j)))%nat as Hm.
  { unfold render_member. cbn [fst snd]. rewrite !string_length_app. lia. }
  destruct ms as [|kv ms]; [simpl in *; lia|].
  change (concat_with "," (map render_member ((k, j) :: kv :: ms)))
    with (render_member (k, j) +:+ "," +:+ concat_with "," (map render_member (kv :: ms))).
  rewrite !string_length_app. cbn [foldr] in *. change (String.length ",") with 1%nat. lia.
Qed.

Lemma need_render j : plain j = true → (need j ≤ 2 * String.length (render j))%nat.
Proof.
  induction j as [|b|n|s|l Hl|ms Hms] using json_rect'; intros Hp.
  - simpl. lia.
  - destruct b; simpl; lia.
  - done.
  - cbn [render need]. unfold json_string, quoted. rewrite string_length_app. change (String.length (chr 34)) with 1%nat. lia.
  - cbn [render need]. rewrite !string_length_app.
    assert (foldr (λ j h, S (max (need j) h)) 0 l ≤ 2 * String.length (concat_with "," (map render l)) + 1)%nat as Hn.
    { apply concat_with_length. cbn [plain] in Hp. clear -Hl Hp. induction Hl as [|j l Hj Hl IH]; constructor;
        simpl in Hp; apply andb_prop in Hp as [? ?]; auto. }
    change (String.length (chr 91)) with 1%nat. change (String.length (chr 93)) with 1%nat. lia.
  - rewrite render_obj. cbn [need]. rewrite !string_length_app.
    assert (foldr (λ '(_, j) h, S (max (need j) h)) 0 ms ≤ 2 * String.length (concat_with "," (map render_member ms)) + 1)%nat as Hn.
    { apply concat_with_length_members. cbn [plain] in Hp. clear -Hms Hp. induction Hms as [|[k j] ms Hj Hms IH]; constructor;
        simpl in Hp; apply andb_prop in Hp as [[_ ?]%andb_prop ?]; auto. }
    change (String.length (chr 123)) with 1%nat. change (String.length (chr 125)) with 1%nat. lia.
Qed.

(** Rendering and parsing are inverse on the values the provider renders. *)
Lemma json_parse_render j :
  plain j = true → (height j ≤ max_nesting)%nat → json_parse (render j) = Some j.
Proof.
  intros Hp Hh. unfold json_parse, parse_prefix.
  pose proof (all_parse j (S (2 * String.length (render j))) max_nesting EmptyString Hp) as Hj.
  rewrite str_app_nil_r in Hj. pose proof (need_render j Hp).
  assert (parse_value (S (2 * String.length (render j))) max_nesting (render j) = Some (j, EmptyString)) as ->.
  { apply Hj; [lia|done]. }
  reflexivity.
Qed.
