(* ===== verification/Cluster.v ===== *)
(** The services behind the calls: what the milo API server and the Zitadel user
    directory promise to their clients, as type classes of laws, and an
    executable instance of both that the witnesses run against. *)

From S2P Require Import Prelude GoLib Prog Model.

(** Closes [∃ s' a b, (.., Returned (.., ..)) = (s', Returned (a, b)) ∧ Q]. *)
Ltac run_returns := eexists _, _, _; split; [reflexivity|]; simpl; auto.

(** * The milo API server *)

Definition set_rv (rv : Z) (u : User) : User :=
  mkUser (u_name u) (u_uid u) rv (u_email u) (u_givenName u) (u_familyName u)
    (u_avatarURL u) (u_lastLoginProvider u) (u_emailVerification u).

(** The status subresource: metadata and spec of [old], status of [new]. *)
Definition merge_status (old new : User) : User :=
  mkUser (u_name old) (u_uid old) (u_resourceVersion old) (u_email old) (u_givenName old)
    (u_familyName old) (u_avatarURL new) (u_lastLoginProvider new) (u_emailVerification new).

(** A merge patch carries the fields that differ between the object it was made from and the
    object as changed; the stored object takes those and keeps the others.  [client.MergeFrom]
    adds no resource version. *)
Definition patch_field {A} `{EqDecision A} (original current old : A) : A :=
  if decide (original = current) then old else current.

Definition merge_patch (original current old : User) : User :=
  mkUser (u_name old) (u_uid old) (u_resourceVersion old) (u_email old) (u_givenName old) (u_familyName old)
    (patch_field (u_avatarURL original) (u_avatarURL current) (u_avatarURL old))
    (patch_field (u_lastLoginProvider original) (u_lastLoginProvider current) (u_lastLoginProvider old))
    (patch_field (u_emailVerification original) (u_emailVerification current) (u_emailVerification old)).

(** Spec and identity of a created object are the submitted ones; its status is empty. *)
Definition same_spec (u u' : User) : Prop :=
  u_name u' = u_name u ∧ u_email u' = u_email u ∧ u_givenName u' = u_givenName u ∧
  u_familyName u' = u_familyName u ∧ u_avatarURL u' = EmptyString ∧ u_lastLoginProvider u' = ProviderUnset ∧
  u_emailVerification u' = EVUnset.

Definition writes_users (o : op) : bool :=
  match o with
  | KCreateUser _ | KDeleteUser _ | KUpdateUserStatus _ | KPatchUserStatus _ _ _ | KUpdateUser _ => true
  | _ => false
  end.

(** A write that at most gives the object a new version: another part of it changed, or a
    finalizer holds the deletion back. *)
Definition touched (n : string) (m m' : gmap string User) : Prop :=
  m' = m ∨ ∃ old rv, m !! n = Some old ∧ m' = <[n := set_rv rv old]> m.

(** The documented contract of the API server for writes of Users: a write either applies or
    changes nothing, a status update needs the stored resource version and a status patch
    does not, an object with a finalizer outlives its deletion until the update that removes
    the last one (which is accepted only from a client that has read the object being
    deleted), other calls leave the Users alone. *)
Class ApiStore {S} (h : environment S) := {
  users : S → gmap string User;
  users_named s n u : users s !! n = Some u → u_name u = n;
  api_create u s :
    match h (KCreateUser u) s with
    | (s', Ok u') => users s !! u_name u = None ∧ users s' = <[u_name u := u']> (users s) ∧ same_spec u u'
    | (s', Err e) => users s' = users s ∧ (IsAlreadyExists e = true → is_Some (users s !! u_name u))
    end;
  api_update u s :
    match h (KUpdateUserStatus u) s with
    | (s', None) => ∃ old rv, users s !! u_name u = Some old ∧
        u_resourceVersion old = u_resourceVersion u ∧
        users s' = <[u_name u := set_rv rv (merge_status old u)]> (users s)
    | (s', Some _) => users s' = users s
    end;
  api_delete n s :
    match h (KDeleteUser n) s with
    | (s', None) => users s' = delete n (users s) ∨ touched n (users s) (users s')
    | (s', Some e) => users s' = users s ∧ (IsNotFound e = true → users s !! n = None)
    end;
  api_patch original current fm s :
    match h (KPatchUserStatus original current fm) s with
    | (s', None) => ∃ old rv, users s !! u_name current = Some old ∧
        users s' = <[u_name current := set_rv rv (merge_patch original current old)]> (users s)
    | (s', Some _) => users s' = users s
    end;
  api_update_meta m s :
    match h (KUpdateUser m) s with
    | (s', None) => m_deleting m = true ∧ users s' = delete (m_name m) (users s) ∨
        touched (m_name m) (users s) (users s')
    | (s', Some _) => users s' = users s
    end;
  api_frame o s : writes_users o = false → users (h o s).1 = users s }.

(** A client that reads from the server itself: its reads are fresh. *)
Class ApiServer {S} (h : environment S) := {
  api_store :: ApiStore h;
  api_get n s :
    match (h (KGetUser n) s).2 with
    | Ok u => users s !! n = Some u
    | Err e => IsNotFound e = true → users s !! n = None
    end;
  api_list s :
    match (h KListUsers s).2 with
    | Ok l => ∀ u, u ∈ l ↔ users s !! u_name u = Some u
    | Err _ => True
    end }.

(** A client that reads from an informer's cache, like that of a manager: a read shows the
    Users as they are or as they were.  [visible s m] is that a read in [s] may show them as
    [m]; every write becomes visible, and nothing becomes visible again once the caches
    have moved past it. *)
Class CachedReads {S} (h : environment S) `{!ApiStore h} := {
  visible : S → gmap string User → Prop;
  visible_now s : visible s (users s);
  visible_moves o s m : visible (h o s).1 m → visible s m ∨ m = users (h o s).1;
  visible_named s m n u : visible s m → m !! n = Some u → u_name u = n;
  cached_get n s :
    match (h (KGetUser n) s).2 with
    | Ok u => ∃ m, visible s m ∧ m !! n = Some u
    | Err e => IsNotFound e = true → ∃ m, visible s m ∧ m !! n = None
    end;
  cached_list s :
    match (h KListUsers s).2 with
    | Ok l => ∃ m, visible s m ∧ ∀ u, u ∈ l ↔ m !! u_name u = Some u
    | Err _ => True
    end }.

#[export] Instance fresh_reads {S} (h : environment S) `{!ApiServer h} : CachedReads h.
Proof.
  refine {| visible := λ s m, m = users s |}.
  - done.
  - intros o s m ->. by right.
  - intros s m n u ->. apply users_named.
  - intros n s. pose proof (api_get n s) as Hg. destruct (h (KGetUser n) s).2; eauto.
  - intros s. pose proof (api_list s) as Hl. destruct (h KListUsers s).2; eauto.
Defined.

(** Resource versions, as the API server documents them: a write leaves the object with a
    version above every version given before, to whichever object, and an object that is
    read under the version it is stored with is as it is stored. *)
Class Versioned {S} (h : environment S) `{!ApiStore h} `{!CachedReads h} := {
  revision : S → Z;
  revision_bound s m n u : visible s m → m !! n = Some u → (u_resourceVersion u ≤ revision s)%Z;
  revision_mono o s : (revision s ≤ revision (h o s).1)%Z;
  revision_fresh o s n u :
    users (h o s).1 !! n = Some u → users s !! n = Some u ∨ (revision s < u_resourceVersion u)%Z;
  revision_identifies s m n u u' :
    visible s m → m !! n = Some u → users s !! n = Some u' → u_resourceVersion u' = u_resourceVersion u → u' = u }.

(** * The Zitadel user directory *)

Definition writes_directory (o : op) : bool :=
  match o with ZDeleteUser _ | GDeleteUser _ | HttpDo _ _ _ => true | _ => false end.

(** Offset pagination in a stable order over the rows the TYPE_HUMAN query selects.  A row
    that turns out not to be human ([None]) takes its place on a page but is not among
    the page's users. *)
Class ZitadelDirectory {S} (h : environment S) := {
  dir_rows : S → list (option ZUser);
  dir_page off lim s :
    (0 ≤ off)%Z → (0 ≤ lim)%Z →
    let page := take (Z.to_nat lim) (drop (Z.to_nat off) (dir_rows s)) in
    match (h (ZListHumanUsers off lim) s).2 with
    | Ok (us, raw) => us = omap id page ∧ raw = Z.of_nat (length page)
    | Err _ => True
    end;
  dir_frame o s : writes_directory o = false → dir_rows (h o s).1 = dir_rows s }.

Definition humans {S} {h : environment S} `{!ZitadelDirectory h} (s : S) : list ZUser := omap id (dir_rows s).

(** * An executable environment *)

Record cluster := mkCluster {
  c_clock : Z;
  c_users : gmap string User;
  c_emails : list SentEmail;
  c_events : list K8sEvent;
  c_pending : gmap string pendingAvatar;
  c_humans : list ZUser;
  c_links : string → list IDPLink;
  c_sessions : string → list Session;
  c_methods : string → list string;
  c_metadata : string → list UserMetadata;
  c_pbusers : list PbUser;
  c_metrics : list metric;
  c_issued : Z }.

Definition set_users (c : cluster) f := mkCluster (c_clock c) f (c_emails c) (c_events c) (c_pending c)
  (c_humans c) (c_links c) (c_sessions c) (c_methods c) (c_metadata c) (c_pbusers c) (c_metrics c) (c_issued c).
Definition set_emails (c : cluster) f := mkCluster (c_clock c) (c_users c) f (c_events c) (c_pending c)
  (c_humans c) (c_links c) (c_sessions c) (c_methods c) (c_metadata c) (c_pbusers c) (c_metrics c) (c_issued c).
Definition set_events (c : cluster) f := mkCluster (c_clock c) (c_users c) (c_emails c) f (c_pending c)
  (c_humans c) (c_links c) (c_sessions c) (c_methods c) (c_metadata c) (c_pbusers c) (c_metrics c) (c_issued c).
Definition set_pending (c : cluster) f := mkCluster (c_clock c) (c_users c) (c_emails c) (c_events c) f
  (c_humans c) (c_links c) (c_sessions c) (c_methods c) (c_metadata c) (c_pbusers c) (c_metrics c) (c_issued c).
Definition set_humans (c : cluster) f := mkCluster (c_clock c) (c_users c) (c_emails c) (c_events c) (c_pending c)
  f (c_links c) (c_sessions c) (c_methods c) (c_metadata c) (c_pbusers c) (c_metrics c) (c_issued c).
Definition set_metrics (c : cluster) f := mkCluster (c_clock c) (c_users c) (c_emails c) (c_events c) (c_pending c)
  (c_humans c) (c_links c) (c_sessions c) (c_methods c) (c_metadata c) (c_pbusers c) f (c_issued c).

Definition not_found : error := EApi RNotFound "not found".
Definition already_exists : error := EApi RAlreadyExists "already exists".
Definition conflict : error := EApi RConflict "conflict".
Definition unavailable : error := EPlain "unavailable".

Definition empty_cluster : cluster :=
  mkCluster 0 ∅ [] [] ∅ [] (λ _, []) (λ _, []) (λ _, []) (λ _, []) [] [] 0.

(** What the server returns for a created User: a uid, a resource version and an
    empty status. *)
Definition admitted (rv : Z) (u : User) : User :=
  mkUser (u_name u) ("uid-" +:+ u_name u) rv (u_email u) (u_givenName u) (u_familyName u)
    EmptyString ProviderUnset EVUnset.

(** Objects are stored under their name; the view of the stored map renames. *)
Definition named (n : string) (u : User) : User :=
  mkUser n (u_uid u) (u_resourceVersion u) (u_email u) (u_givenName u)
    (u_familyName u) (u_avatarURL u) (u_lastLoginProvider u) (u_emailVerification u).

Definition stored (c : cluster) : gmap string User := map_imap (λ n u, Some (named n u)) (c_users c).

(** The highest version given so far. *)
Definition c_revision (c : cluster) : Z :=
  foldr (λ u m, Z.max (u_resourceVersion u) m) (c_issued c) (map_to_list (c_users c)).*2.

(** A write of the Users: the versions given before stay issued. *)
Definition write_users (c : cluster) (f : gmap string User) : cluster :=
  let c' := set_users c f in
  mkCluster (c_clock c') (c_users c') (c_emails c') (c_events c') (c_pending c') (c_humans c') (c_links c')
    (c_sessions c') (c_methods c') (c_metadata c') (c_pbusers c') (c_metrics c') (c_revision c + 1).

Definition has_labels (labels : gmap string string) (e : SentEmail) : bool :=
  forallb (λ '(k, v), bool_decide (em_labels (se_email e) !! k = Some v)) (map_to_list labels).

(** The TYPE_HUMAN filter of ListUsers. *)
Definition of_type_human (u : PbUser) : bool :=
  match pu_type u with PbHumanUser _ => true | PbMachineUser | PbNoType => false end.

Definition fake (o : op) (c : cluster) : cluster * ans o :=
  match o return cluster * ans o with
  | Now => (c, c_clock c)
  | Sleep _ => (c, tt)
  | SleepOrDone _ => (c, None)
  | NewUUID => (c, "00000000-0000-0000-0000-000000000000")
  | Getenv _ => (c, EmptyString)
  | GNewClient _ _ _ _ => (c, None)
  | Inc m => (set_metrics c (c_metrics c ++ [m]), tt)
  | HttpWrite _ _ => (c, None)
  | KGetUser n =>
      (c, match stored c !! n with Some u => Ok u | None => Err not_found end)
  | KCreateUser u =>
      match c_users c !! u_name u with
      | Some _ => (c, Err already_exists)
      | None =>
          let u' := admitted (c_revision c + 1) u in (write_users c (<[u_name u := u']> (c_users c)), Ok u')
      end
  | KListUsers => (c, Ok (map_to_list (stored c)).*2)
  | KDeleteUser n =>
      match c_users c !! n with
      | Some _ => (write_users c (delete n (c_users c)), None)
      | None => (c, Some not_found)
      end
  | KUpdateUserStatus u =>
      match stored c !! u_name u with
      | Some old =>
          if decide (u_resourceVersion old = u_resourceVersion u)
          then (write_users c (<[u_name u := set_rv (c_revision c + 1) (merge_status old u)]> (c_users c)), None)
          else (c, Some conflict)
      | None => (c, Some not_found)
      end
  | KPatchUserStatus original u _ =>
      match stored c !! u_name u with
      | Some old => (write_users c (<[u_name u := set_rv (c_revision c + 1) (merge_patch original u old)]> (c_users c)), None)
      | None => (c, Some not_found)
      end
  | KCreateEmail e =>
      if existsb (λ s, bool_decide (em_name (se_email s) = em_name e)) (c_emails c)
      then (c, Some already_exists)
      else (set_emails c (c_emails c ++ [mkSent e (c_clock c)]), None)
  | KListEmails ns labels =>
      (c, Ok (List.filter (λ s, bool_decide (em_namespace (se_email s) = ns) && has_labels labels s) (c_emails c)))
  | KCreateEvent e => (set_events c (c_events c ++ [e]), None)
  | MapStore k v => (set_pending c (<[k := v]> (c_pending c)), tt)
  | MapLoadAndDelete k => (set_pending c (delete k (c_pending c)), c_pending c !! k)
  | ZListSessions u => (c, Ok (c_sessions c u))
  | ZGetUserByID u => (c, Ok (List.find (λ z, bool_decide (z_ID z = u)) (c_humans c)))
  | ZListHumanUsers off lim =>
      let us := take (Z.to_nat lim) (drop (Z.to_nat off) (c_humans c)) in
      (c, Ok (us, Z.of_nat (length us)))
  | ZListIDPLinks u => (c, Ok (c_links c u))
  | ZListAuthMethodTypes u => (c, Ok (c_methods c u))
  | ZDeleteUser u => (set_humans c (List.filter (λ z, negb (bool_decide (z_ID z = u))) (c_humans c)), None)
  | ZListUserMetadata u => (c, Ok (c_metadata c u))
  | ZCreatePasskeyRegistrationLink _ => (c, Ok ("code-id", "secret code"))
  | GListIDPLinks _ => (c, Ok [])
  | GGetIDPByID _ => (c, Ok None)
  | GGetUserByID u => (c, Ok (List.find (λ p, bool_decide (pu_userId p = u)) (c_pbusers c)))
  | GListUsers (QueryHumans off lim) => (c, Ok (take (Z.to_nat lim) (drop (Z.to_nat off) (List.filter of_type_human (c_pbusers c)))))
  | GListUsers _ => (c, Ok [])
  | GDeleteUser _ => (c, None)
  | GListAuthMethodTypes u => (c, Ok (c_methods c u))
  | GCreatePasskeyRegistrationLink _ => (c, Ok (Some ("code-id", "secret code")))
  | KGetUserMeta _ | KGetProject _ => (c, Err not_found)
  | KUpdateUser _ | KUpdateProject _ | KPatchPlatformAccessStatus _ _ _ | MGetCluster _
  | KUpdateServiceAccount _ _ | KUpdateServiceAccountStatus _ _ => (c, None)
  | KGetPlatformAccess _ => (c, Err not_found)
  | KGetServiceAccount _ _ _ => (c, Err not_found)
  | KCreateSAR _ => (c, Ok true)
  | ZGetSession _ => (c, Ok None)
  | ZDeleteSession _ _ | ZDeleteOrganization _ | ZDeactivateUser _ _ | ZReactivateUser _ _
  | ZRemoveMachineKeyInOrganization _ _ _ => (c, None)
  | ZListPasskeys _ => (c, Ok [])
  | ZCreateOrganization n => (c, Ok n)
  | ZCreateOrganizationWithID _ i => (c, Ok i)
  | ZGetOrganization _ => (c, Ok None)
  | ZGetMachineUserByUsername _ _ => (c, Ok None)
  | ZAddMachineUserInOrganization _ u _ _ => (c, Ok u)
  | ZListMachineAccountsInOrganization _ => (c, Ok [])
  | ZAddMachineKeyInOrganization _ _ _ _ => (c, Ok ("key-id", "key content"))
  | ZListMachineKeysInOrganization _ _ => (c, Ok [])
  | GListSessions _ => (c, Ok [])
  | GGetSession _ => (c, Ok None)
  | GDeleteSession _ | GDeleteOrganization _ | GDeactivateUser _ _ | GReactivateUser _ _ | GRemoveKey _ _ _ => (c, None)
  | GListPasskeys _ => (c, Ok [])
  | GListUserMetadata _ => (c, Ok [])
  | GAddOrganization n _ => (c, Ok n)
  | GListOrganizations _ => (c, Ok [])
  | GCreateUser m => (c, Ok (cm_userId m))
  | GAddKey _ _ _ _ => (c, Ok ("key-id", "key content"))
  | GListKeys _ _ => (c, Ok [])
  | HttpDo _ _ _ => (c, Err unavailable)
  | HttpPost _ _ => (c, Err unavailable)
  | HttpPostForm _ _ => (c, Err unavailable)
  | ReadFile _ => (c, Err unavailable)
  end.

Lemma stored_lookup c n : stored c !! n = named n <$> c_users c !! n.
Proof. unfold stored. rewrite map_lookup_imap. by destruct (c_users c !! n). Qed.

Lemma stored_named c n u : stored c !! n = Some u → u_name u = n.
Proof. rewrite stored_lookup. by intros (u' & _ & ->)%fmap_Some. Qed.

Lemma named_id u : named (u_name u) u = u.
Proof. by destruct u. Qed.

Lemma stored_insert c u : stored (write_users c (<[u_name u := u]> (c_users c))) = <[u_name u := u]> (stored c).
Proof.
  apply map_eq. intros n. rewrite stored_lookup. simpl. destruct (decide (n = u_name u)) as [->|Hn].
  - rewrite !lookup_insert_eq. simpl. by rewrite named_id.
  - rewrite !lookup_insert_ne by done. by rewrite stored_lookup.
Qed.

Lemma stored_delete c n : stored (write_users c (delete n (c_users c))) = delete n (stored c).
Proof.
  apply map_eq. intros m. rewrite stored_lookup. simpl. destruct (decide (n = m)) as [->|Hn].
  - by rewrite !lookup_delete_eq.
  - rewrite !lookup_delete_ne by done. by rewrite stored_lookup.
Qed.

Definition fake_ApiStore : ApiStore fake.
Proof.
  refine {| users := stored |}.
  - exact stored_named.
  - intros u c. simpl. pose proof (stored_lookup c (u_name u)) as Hl.
    destruct (c_users c !! u_name u); simpl in *.
    + split; [done|]. intros _. rewrite Hl. eauto.
    + split; [by rewrite Hl|]. split; [|done]. exact (stored_insert c (admitted (c_revision c + 1) u)).
  - intros u c. simpl. destruct (stored c !! u_name u) as [old|] eqn:Hl; [|done].
    rewrite stored_lookup in Hl. apply fmap_Some in Hl as (u0 & _ & ->).
    case_decide; [|done]. eexists _, _. split; [done|]. split; [done|].
    exact (stored_insert c (set_rv (c_revision c + 1) (merge_status (named (u_name u) u0) u))).
  - intros n c. simpl. pose proof (stored_lookup c n) as Hl.
    destruct (c_users c !! n); simpl in *; [left; apply stored_delete|split; [done|intros _; by rewrite Hl]].
  - intros o u fm c. simpl. destruct (stored c !! u_name u) as [old|] eqn:Hl; [|done].
    rewrite stored_lookup in Hl. apply fmap_Some in Hl as (u0 & _ & ->). eexists _, _. split; [done|].
    exact (stored_insert c (set_rv (c_revision c + 1) (merge_patch o u (named (u_name u) u0)))).
  - intros m c. right. by left.
  - intros o c Ho. destruct o; simpl in *; try discriminate; try done; repeat case_match; done.
Defined.

(** The Users under their names, as a list. *)
Lemma elem_of_values (m : gmap string User) u :
  (∀ n u, m !! n = Some u → u_name u = n) → u ∈ (map_to_list m).*2 ↔ m !! u_name u = Some u.
Proof.
  intros Hm. rewrite list_elem_of_fmap. split.
  - intros ((n & u') & -> & Hin%elem_of_map_to_list). simpl. by rewrite (Hm n u' Hin).
  - intros Hu. exists (u_name u, u). split; [done|]. by apply elem_of_map_to_list.
Qed.

#[export] Instance fake_ApiServer : ApiServer fake.
Proof.
  refine {| api_store := fake_ApiStore |}.
  - intros n c. simpl. by destruct (stored c !! n).
  - intros c u. apply elem_of_values. exact (stored_named c).
Defined.

Lemma foldr_max_le (l : list User) b :
  (b ≤ foldr (λ u m, Z.max (u_resourceVersion u) m) b l)%Z ∧
  ∀ u, u ∈ l → (u_resourceVersion u ≤ foldr (λ u m, Z.max (u_resourceVersion u) m) b l)%Z.
Proof.
  induction l as [|x l [IHb IH]]; simpl; [split; [lia|]; intros u Hu; by apply not_elem_of_nil in Hu|].
  split; [lia|]. intros u [->|Hu]%elem_of_cons; [lia|]. specialize (IH u Hu). lia.
Qed.

Lemma c_revision_bound c n u : stored c !! n = Some u → (u_resourceVersion u ≤ c_revision c)%Z.
Proof.
  rewrite stored_lookup. intros (u0 & Hu & ->)%fmap_Some.
  change (u_resourceVersion (named n u0)) with (u_resourceVersion u0). apply (foldr_max_le _ (c_issued c)).
  apply list_elem_of_fmap. exists (n, u0). split; [done|]. by apply elem_of_map_to_list.
Qed.

Lemma write_users_revision c f : (c_revision c < c_revision (write_users c f))%Z.
Proof. unfold c_revision at 2. pose proof (foldr_max_le (map_to_list f).*2 (c_revision c + 1)) as [Hb _]. simpl. lia. Qed.

(** Every write of the executable cluster is one of [write_users]. *)
Lemma fake_writes o c : c_users (fake o c).1 = c_users c ∧ c_revision (fake o c).1 = c_revision c ∨
  (∃ n, (fake o c).1 = write_users c (delete n (c_users c))) ∨
  ∃ u, (fake o c).1 = write_users c (<[u_name u := u]> (c_users c)) ∧ u_resourceVersion u = c_revision c + 1.
Proof.
  destruct o; simpl; try (by left); repeat case_match; simpl; try (by left); try (right; left; by eexists); right; right;
    [by exists (admitted (c_revision c + 1) u)|..];
    match goal with Hl : stored _ !! _ = Some ?old |- _ =>
      rewrite <-(stored_named _ _ _ Hl);
      first [by exists (set_rv (c_revision c + 1) (merge_status old u))
            |by exists (set_rv (c_revision c + 1) (merge_patch original current old))]
    end.
Qed.

#[export] Instance fake_Versioned : Versioned fake.
Proof.
  refine {| revision := c_revision |}.
  - intros c m n u ->. apply c_revision_bound.
  - intros o c. destruct (fake_writes o c) as [[_ ->]|[[n ->]|(u & -> & _)]]; [lia|..];
      pose proof (write_users_revision c); apply Z.lt_le_incl; auto.
  - intros o c n u. change (users (fake o c).1) with (stored (fake o c).1). change (users c) with (stored c).
    destruct (fake_writes o c) as [[Hu _]|[[m ->]|(v & -> & Hv)]].
    + rewrite !stored_lookup, Hu. by left.
    + rewrite stored_delete. intros [_ ?]%lookup_delete_Some. by left.
    + rewrite stored_insert. intros [[<- <-]|[_ ?]]%lookup_insert_Some; [right; lia|by left].
  - intros c m n u u' ->. congruence.
Defined.

#[export] Instance fake_ZitadelDirectory : ZitadelDirectory fake.
Proof.
  refine {| dir_rows := λ c, Some <$> c_humans c |}.
  - intros off lim c ??. simpl. rewrite <-fmap_drop, <-fmap_take, length_fmap. split; [|done].
    induction (take _ _) as [|u us IH]; simpl; [done|]. by f_equal.
  - intros o c Ho. destruct o; simpl in *; try discriminate; try done;
      repeat case_match; done.
Defined.
