(* ===== verification/Users.v ===== *)
(** internal/emailverified: the single writer of the User's EmailVerification
    status field, with its read-modify-write retry, and internal/userprovision:
    the construction and creation of Users and the activity Events. *)

From S2P Require Import Prelude GoLib Prog Model Cluster.

(** * k8s.io/client-go/util/retry

    [RetryOnConflict(backoff, fn)] is library code.  Its documentation: fn is
    called, and called again while it returns a conflict, up to the number of
    steps of the backoff; the error of the last call is returned.  [S] is the
    state captured by the closure. *)
Fixpoint attempts (n : nat) {S} (fn : S → M (S * option error)) (s : S) : M (S * option error) :=
  fn s ≫= λ '(s', e),
    match n, e with
    | Datatypes.S n, Some err => if IsConflict err then attempts n fn s' else mret (s', e)
    | _, _ => mret (s', e)
    end.

Class ConflictRetry := {
  RetryOnConflict : ∀ S : Type, (S → M (S * option error)) → S → M (S * option error);
  retry_steps : nat;
  RetryOnConflict_doc : ∀ S (fn : S → M (S * option error)) s,
    RetryOnConflict S fn s = attempts retry_steps fn s }.

Definition Desired (verified : bool) : EmailVerificationState :=
  if verified then EVVerified else EVUnverified.

(** [user] is a pointer in the source; [None] is nil. *)
Definition IsVerified (user : option User) : bool :=
  match user with
  | Some u => bool_decide (u_emailVerification u = EVVerified)
  | None => false
  end.

Definition NeedsUpdate (user : User) (verified : bool) : bool :=
  negb (bool_decide (u_emailVerification user = Desired verified)).

Definition with_emailVerification (user : User) (s : EmailVerificationState) : User :=
  mkUser (u_name user) (u_uid user) (u_resourceVersion user) (u_email user) (u_givenName user)
    (u_familyName user) (u_avatarURL user) (u_lastLoginProvider user) s.

(** The closure handed to the retry; [changed] is the captured variable. *)
Definition set_attempt (userName : string) (verified changed : bool) : M (bool * option error) :=
  r ← call (KGetUser userName);
  match r with
  | Err e => mret (changed, Some e)
  | Ok user =>
      if negb (NeedsUpdate user verified) then mret (false, None)
      else
        e ← call (KUpdateUserStatus (with_emailVerification user (Desired verified)));
        match e with
        | Some e => mret (changed, Some e)
        | None => mret (true, None)
        end
  end.

Definition SetVerified `{ConflictRetry} (userName : string) (verified : bool) : M (bool * option error) :=
  RetryOnConflict bool (set_attempt userName verified) false.

(** * internal/userprovision *)

Definition NewUser (zitadelUserID email givenName familyName : string) : User :=
  mkUser zitadelUserID EmptyString 0 email givenName familyName EmptyString ProviderUnset EVUnset.

(** The created object, as the server returned it, replaces the caller's User. *)
Definition EnsureUser (user : User) : M (User * bool * option error) :=
  r ← call (KCreateUser user);
  match r with
  | Err e => if IsAlreadyExists e then mret (user, false, None) else mret (user, false, Some e)
  | Ok user => mret (user, true, None)
  end.

Definition EventReasonAccountCreated : string := "AccountCreated".
Definition EventReasonPasskeyEnrolled : string := "PasskeyEnrolled".
Definition EventReasonPasskeyRemoved : string := "PasskeyRemoved".
Definition EventComponent : string := "auth-provider-zitadel".
Definition EventNamespace : string := "default".

Definition RecordEvent (userName userUID reason message : string) : M unit :=
  now ← call Now;
  _ ← call (KCreateEvent (mkEvent (userName +:+ "." +:+ format_hex now) EventNamespace
              userName userUID reason message EventComponent now));
  mret ().

(** * Lemmas *)

Definition is_user_write (e : event) : Prop :=
  match e with
  | existT (KUpdateUserStatus _ | KPatchUserStatus _ _ _ | KCreateUser _ | KDeleteUser _) _ => True
  | _ => False
  end.

Lemma NeedsUpdate_false u v : NeedsUpdate u v = false ↔ u_emailVerification u = Desired v.
Proof. unfold NeedsUpdate. case_bool_decide; simpl; naive_solver. Qed.

Lemma NeedsUpdate_written u v : NeedsUpdate (with_emailVerification u (Desired v)) v = false.
Proof. by apply NeedsUpdate_false. Qed.

Lemma attempts_safe T (HT : TraceInv T) n {S} (fn : S → M (S * option error)) s :
  (∀ s, safe T (fn s)) → safe T (attempts n fn s).
Proof.
  intros Hfn. revert s. induction n as [|n IH]; intros s; simpl;
    apply safe_bind; auto; intros [s' [e|]]; try (by apply safe_ret).
  destruct (IsConflict e); [apply IH|by apply safe_ret].
Qed.

Lemma RetryOnConflict_safe `{ConflictRetry} T (HT : TraceInv T) {S} (fn : S → M (S * option error)) s :
  (∀ s, safe T (fn s)) → safe T (RetryOnConflict S fn s).
Proof. rewrite RetryOnConflict_doc. by apply attempts_safe. Qed.

(** A status update that rewrites nothing but the EmailVerification field of the
    User read immediately before it. *)
Definition fresh_field_write (userName : string) (verified : bool) (tr : trace) : Prop :=
  ∀ pre u a post, tr = pre ++ ev (KUpdateUserStatus u) a :: post →
    ∃ pre' u0, pre = pre' ++ [ev (KGetUser userName) (Ok u0)] ∧
      u = with_emailVerification u0 (Desired verified) ∧
      u_emailVerification u0 ≠ Desired verified.

#[export] Instance fresh_field_write_inv n v : TraceInv (fresh_field_write n v).
Proof.
  split.
  - intros [|] ? ? ? ?; discriminate.
  - intros tr tr' H1 H2 pre u a post Heq.
    apply app_eq_inv in Heq as [(k & -> & Hk)|(k & -> & Hk)].
    + destruct k as [|x k]; simpl in *.
      * destruct (H2 [] u a post (eq_sym Hk)) as (pre' & ? & Hn & _).
        by destruct pre'.
      * injection Hk as <- Hk. by apply (H1 pre u a k).
    + destruct (H2 k u a post Hk) as (pre' & u0 & -> & ?).
      exists (tr ++ pre'), u0. by rewrite <-app_assoc.
Qed.

Lemma set_attempt_fresh n v c : safe (fresh_field_write n v) (set_attempt n v c).
Proof.
  intros [user|e]; simpl.
  - destruct (NeedsUpdate user v) eqn:Hn; simpl.
    + assert (u_emailVerification user ≠ Desired v).
      { intros Hu. apply NeedsUpdate_false in Hu. congruence. }
      assert (∀ o, fresh_field_write n v [ev (KGetUser n) (Ok user);
          ev (KUpdateUserStatus (with_emailVerification user (Desired v))) o]) as Hf.
      { intros o pre u a post Heq. destruct pre as [|e1 [|e2 [|]]]; try discriminate Heq.
        apply cons_inv in Heq as [<- Heq]. apply cons_inv in Heq as [Heq _].
        exists [], user. repeat split; [|done].
        apply (f_equal (λ e : event, match e with existT (KUpdateUserStatus u) _ => u | _ => user end)) in Heq.
        by simpl in Heq. }
      intros [e|]; simpl; apply Hf.
    + intros [|? [|]] ? ? ? ?; discriminate.
  - intros [|? [|]] ? ? ? ?; discriminate.
Qed.

(** ** One attempt against an API server *)
Section ApiServer.
Context {S : Type} {h : environment S} `{!ApiServer h}.

(** The User [n] holds the verification state [v] in [s'] and nothing else
    about the stored Users differs from [s]. *)
Definition verification_recorded (n : string) (v : bool) (s s' : S) (changed : bool) : Prop :=
  ∃ u rv, users s !! n = Some u ∧ changed = NeedsUpdate u v ∧
    users s' = <[n := set_rv rv (with_emailVerification u (Desired v))]> (users s).

Lemma set_rv_id u : set_rv (u_resourceVersion u) u = u.
Proof. by destruct u. Qed.

Lemma run_set_attempt n v c s :
  ∃ s' c' e, run h (set_attempt n v c) s = (s', Returned (c', e)) ∧
    match e with
    | None => verification_recorded n v s s' c'
    | Some _ => users s' = users s ∧ c' = c
    end.
Proof.
  simpl. pose proof (api_get n s) as Hg. pose proof (api_frame (KGetUser n) s eq_refl) as Hf.
  destruct (h (KGetUser n) s) as [s1 [u|e]] eqn:E; simpl in *; [|by run_returns].
  pose proof (users_named s n u Hg) as Hname.
  destruct (NeedsUpdate u v) eqn:Hn; simpl.
  - set (u' := with_emailVerification u (Desired v)).
    pose proof (api_update u' s1) as Hu.
    destruct (h (KUpdateUserStatus u') s1) as [s2 [e|]]; simpl in *.
    + eexists _, _, _. split; [done|]. by rewrite Hu.
    + destruct Hu as (old & rv & Hold & _ & Hs2). eexists _, _, _. split; [done|].
      exists u, rv. split; [done|]. split; [done|].
      rewrite Hs2, Hf, <-Hname. rewrite Hf, Hname, Hg in Hold. injection Hold as <-. done.
  - eexists _, _, _. split; [done|]. exists u, (u_resourceVersion u). split; [done|]. split; [done|].
    rewrite Hf. symmetry. apply insert_id. rewrite Hg. f_equal.
    apply NeedsUpdate_false in Hn. unfold with_emailVerification. rewrite <-Hn. by destruct u.
Qed.

Lemma run_attempts_set k n v s :
  ∃ s' c' e, run h (attempts k (set_attempt n v) false) s = (s', Returned (c', e)) ∧
    match e with
    | None => verification_recorded n v s s' c'
    | Some _ => users s' = users s ∧ c' = false
    end.
Proof.
  revert s. induction k as [|k IH]; intros s; cbn [attempts]; rewrite run_bind;
    destruct (run_set_attempt n v false s) as (s1 & c1 & e1 & -> & H1); simpl; [by run_returns|].
  destruct e1 as [e1|]; [|by run_returns].
  destruct H1 as [Hs1 ->]. destruct (IsConflict e1); [|by run_returns].
  destruct (IH s1) as (s2 & c2 & e2 & -> & H2). eexists _, _, _. split; [done|].
  unfold verification_recorded in *. rewrite Hs1 in H2. done.
Qed.
End ApiServer.

(** * Properties *)

(** Every status write [SetVerified] issues, in any execution, carries the
    User it read in the call immediately before, with only the EmailVerification
    field changed, and is issued only when that field differs: no other writer's
    field can be dropped. *)
Theorem SetVerified_writes_one_field `{ConflictRetry} n v tr r :
  may (SetVerified n v) tr r → fresh_field_write n v tr.
Proof. apply safe_may, RetryOnConflict_safe; [apply _|]. apply set_attempt_fresh. Qed.

(** C12: against an API server, [SetVerified] always returns, and when it
    reports no error the stored User holds the wanted state, every other field
    and every other User is as before, and [changed] says whether the field
    differed; when it reports an error the stored Users are untouched. *)
Theorem SetVerified_correct `{ConflictRetry} {S} (h : environment S) `{!ApiServer h} n v s :
  ∃ s' changed err, run h (SetVerified n v) s = (s', Returned (changed, err)) ∧
    match err with
    | None => verification_recorded n v s s' changed
    | Some _ => users s' = users s ∧ changed = false
    end.
Proof. unfold SetVerified. rewrite RetryOnConflict_doc. apply run_attempts_set. Qed.

(** * Witnesses *)

(** The retry budget of [retry.DefaultBackoff]: four calls. *)
Definition default_retry : ConflictRetry :=
  {| RetryOnConflict := λ S fn s, attempts 3 fn s; retry_steps := 3;
     RetryOnConflict_doc := λ _ _ _, eq_refl |}.

Definition sample_user : User :=
  mkUser "u1" "uid-u1" 1 "jane@example.com" "Jane" "Doe" "https://avatar" ProviderGitHub EVUnset.

Definition one_user : cluster := set_users empty_cluster {[ "u1" := sample_user ]}.

Lemma SetVerified_writes_one_field_witness :
  let tr := run_trace fake (@SetVerified default_retry "u1" true) one_user in
  count is_status_write tr = 1%nat ∧ fresh_field_write "u1" true tr.
Proof.
  split; [vm_compute; reflexivity|].
  eapply (@SetVerified_writes_one_field default_retry). apply run_may.
Defined.

Lemma SetVerified_correct_witness :
  ∃ s' changed err,
    run fake (@SetVerified default_retry "u1" true) one_user = (s', Returned (changed, err)) ∧
    match err with
    | None => verification_recorded "u1" true one_user s' changed
    | Some _ => users s' = users one_user ∧ changed = false
    end.
Proof. exact (@SetVerified_correct default_retry _ fake _ "u1" true one_user). Defined.
