(* ===== verification/RecoveryMail.v ===== *)
(** internal/recoverymail: the recovery mail budget and the recovery Email, with
    the link that carries the registration code in its fragment.  Also the part
    of [net/url.Values] both mail endpoints use. *)

From S2P Require Import Prelude GoLib Prog Model Cluster.

(** * net/url.Values

    A map from keys to value lists, kept in key order, which is the order
    [Encode] emits. *)
Abbreviation Values := (list (string * list string)).

Fixpoint values_update (f : list string → list string) (k : string) (v : Values) : Values :=
  match v with
  | [] => [(k, f [])]
  | (k', vs) :: v' =>
      if bool_decide (k = k') then (k, f vs) :: v'
      else if String.leb k k' then (k, f []) :: v
      else (k', vs) :: values_update f k v'
  end.

Definition values_set (k x : string) : Values → Values := values_update (λ _, [x]) k.
Definition values_add (k x : string) : Values → Values := values_update (λ vs, vs ++ [x]) k.

Fixpoint values_get (k : string) (v : Values) : option string :=
  match v with
  | [] => None
  | (k', vs) :: v' => if bool_decide (k = k') then head vs else values_get k v'
  end.

Definition equals_sign : ascii := ascii_of_N 61.
Definition ampersand : ascii := ascii_of_N 38.
Definition semicolon : ascii := ascii_of_N 59.
Definition hash_sign : ascii := ascii_of_N 35.

Fixpoint cut (sep : ascii) (s : string) : string * string :=
  match s with
  | EmptyString => (EmptyString, EmptyString)
  | String c s' =>
      if bool_decide (c = sep) then (EmptyString, s')
      else let '(a, b) := cut sep s' in (String c a, b)
  end.

(** One segment of [parseQuery]; a malformed one is dropped ([URL.Query]
    discards the error). *)
Definition parse_segment (v : Values) (seg : string) : Values :=
  if bool_decide (seg = EmptyString) then v
  else if negb (string_forall (λ c, negb (bool_decide (c = semicolon))) seg) then v
  else
    let '(k, x) := cut equals_sign seg in
    match QueryUnescape k, QueryUnescape x with
    | Some k, Some x => values_add k x v
    | _, _ => v
    end.

Definition ParseQuery (q : string) : Values := foldl parse_segment [] (split_char ampersand q).

Fixpoint join (sep : string) (l : list string) : string :=
  match l with
  | [] => EmptyString
  | [s] => s
  | s :: l => s +:+ sep +:+ join sep l
  end.

Definition encode_pair (k x : string) : string :=
  QueryEscape k +:+ String equals_sign (QueryEscape x).

Definition Encode (v : Values) : string :=
  join (String ampersand EmptyString) (v ≫= λ '(k, vs), encode_pair k <$> vs).

(** * cooldown.go *)

Definition RequestedBySelf : string := "self".
Definition RequestedBySupport : string := "support".
Definition LabelUser : string := "identity.miloapis.com/user".
Definition LabelRequestedBy : string := "identity.miloapis.com/recovery-requested-by".
Definition AnnotationRequester : string := "identity.miloapis.com/recovery-requester".
Definition AnnotationReason : string := "identity.miloapis.com/recovery-reason".

Definition capWindow : Z := Hour.

(** The loop over the listed Emails: [None] is the early [return true]. *)
Fixpoint count_recent (now cooldown : Z) (items : list SentEmail) (inWindow : Z) : option Z :=
  match items with
  | [] => Some inWindow
  | i :: items =>
      let age := time_sub now (se_created i) in
      if bool_decide (0 < cooldown ∧ age < cooldown)%Z then None
      else count_recent now cooldown items (if bool_decide (age < capWindow)%Z then inWindow + 1 else inWindow)
  end.

Definition TooSoon (namespace userID requestedBy : string) (cooldown maxPerHour : Z) : M (result bool) :=
  if bool_decide (cooldown ≤ 0 ∧ maxPerHour ≤ 0)%Z then mret (Ok false)
  else
    r ← call (KListEmails namespace {[ LabelUser := userID; LabelRequestedBy := requestedBy ]});
    match r with
    | Err e => mret (Err (EWrap "list recovery emails for rate limiting: " e))
    | Ok items =>
        now ← call Now;
        mret (Ok match count_recent now cooldown items 0 with
                 | None => true
                 | Some inWindow => bool_decide (0 < maxPerHour ∧ maxPerHour ≤ inWindow)%Z
                 end)
    end.

(** * email.go *)

Definition namePrefix : string := "account-recovery-".
Definition defaultExpiryMinutes : Z := 60.

Record Input := mkInput {
  in_User : User;
  in_UserID : string;
  in_CodeID : string;
  in_Code : string;
  in_ActionURL : string;
  in_TemplateName : string;
  in_Namespace : string;
  in_ExpiryMinutes : Z;
  in_RequestedBy : string;
  in_RequestedByUser : string;
  in_Reason : string }.

(** The display name every notification of the provider greets the user with. *)
Definition display_name `{GoRuntime} (u : User) : string :=
  let n := TrimSpace (u_givenName u +:+ " " +:+ u_familyName u) in
  if bool_decide (n = EmptyString) then u_email u else n.

Definition effective_expiry (m : Z) : Z := if (m <=? 0)%Z then defaultExpiryMinutes else m.

(** The first 16 hexadecimal digits of SHA-256(userID ":" code). *)
Definition hash_suffix `{GoRuntime} (userID code : string) : string :=
  String.substring 0 16 (sha256_hex (userID +:+ ":" +:+ code)).

Definition Build `{GoRuntime} (i : Input) : Email :=
  mkEmail (namePrefix +:+ hash_suffix (in_UserID i) (in_CodeID i)) (in_Namespace i)
    {[ LabelUser := in_UserID i; LabelRequestedBy := in_RequestedBy i ]}
    (if bool_decide (in_RequestedBy i = RequestedBySupport)
     then {[ AnnotationRequester := in_RequestedByUser i; AnnotationReason := in_Reason i ]} else ∅)
    (in_TemplateName i)
    (EmailAddress (u_email (in_User i)))
    [("UserName", display_name (in_User i)); ("Code", in_Code i);
     ("ActionUrl", in_ActionURL i); ("ExpiryMinutes", itoa (effective_expiry (in_ExpiryMinutes i)))]
    true.

Definition ActionURL `{GoRuntime} (base : URL) (userID codeID code : string) : string :=
  let q := values_set "codeId" codeID (values_set "userId" userID (ParseQuery (url_rawquery base))) in
  let u := mkURL (url_scheme base) (url_user base) (url_host base) (url_path base) (Encode q) EmptyString in
  url_string u +:+ String hash_sign (Encode [("code", [code])]).

(** * Lemmas *)

Lemma values_get_update_eq f k v x :
  (∀ vs, head (f vs) = Some x) → values_get k (values_update f k v) = Some x.
Proof.
  intros Hf. induction v as [|[k' vs] v IH]; simpl; [by rewrite bool_decide_true|].
  case_bool_decide as Hk; simpl; [by rewrite bool_decide_true|].
  destruct (String.leb k k'); simpl; [by rewrite bool_decide_true|].
  by rewrite bool_decide_false.
Qed.

Lemma values_get_update_ne f k k' v :
  k ≠ k' → values_get k' (values_update f k v) = values_get k' v.
Proof.
  intros Hne. induction v as [|[k2 vs] v IH]; simpl; [by rewrite bool_decide_false|].
  case_bool_decide as Hk; subst; simpl; [by rewrite bool_decide_false|].
  destruct (String.leb k k2); simpl; [by rewrite (bool_decide_false (k' = k))|].
  by rewrite IH.
Qed.

Lemma values_get_set_eq k x v : values_get k (values_set k x v) = Some x.
Proof. by apply values_get_update_eq. Qed.

Lemma count_recent_spec now cooldown items n :
  count_recent now cooldown items n =
    if bool_decide (0 < cooldown ∧ Exists (λ i, time_sub now (se_created i) < cooldown) items)%Z then None
    else Some (n + Z.of_nat (length (filter (λ i, time_sub now (se_created i) < capWindow)%Z items)))%Z.
Proof.
  revert n. induction items as [|i items IH]; intros n; cbn [count_recent].
  - rewrite bool_decide_false by (intros [_ H]; inversion H). simpl. f_equal. lia.
  - destruct (decide (0 < cooldown ∧ time_sub now (se_created i) < cooldown)%Z) as [[H1 H2]|H1].
    + rewrite !bool_decide_true; [done| |done]. split; [done|by constructor].
    + rewrite bool_decide_false by done. rewrite IH, filter_cons.
      assert ((0 < cooldown ∧ Exists (λ i, time_sub now (se_created i) < cooldown)%Z (i :: items)) ↔
              (0 < cooldown ∧ Exists (λ i, time_sub now (se_created i) < cooldown)%Z items))%Z as Hiff.
      { rewrite Exists_cons. naive_solver. }
      rewrite (bool_decide_ext _ _ Hiff). destruct (bool_decide (0 < cooldown ∧ _)%Z); [done|].
      f_equal. case_bool_decide; case_decide; try done; simpl; lia.
Qed.

(** * Properties *)

(** In every execution [TooSoon] answers exactly the stated budget: nothing is
    listed when both limits are off; otherwise one list call for this user and
    trigger decides, and the answer is "too soon" iff some mail is younger than an
    enabled cooldown or an enabled hourly cap is reached; an unreadable list is an
    error and never "not too soon". *)
Theorem TooSoon_exact ns uid by_ cooldown maxPerHour tr r :
  may (TooSoon ns uid by_ cooldown maxPerHour) tr r →
  let labels : gmap string string := {[ LabelUser := uid; LabelRequestedBy := by_ ]} in
  (cooldown ≤ 0 ∧ maxPerHour ≤ 0 ∧ tr = [] ∧ r = Returned (Ok false)) ∨
  (0 < cooldown ∨ 0 < maxPerHour) ∧
   ((∃ e, tr = [ev (KListEmails ns labels) (Err e)] ∧
          r = Returned (Err (EWrap "list recovery emails for rate limiting: " e))) ∨
    (∃ items now b, tr = [ev (KListEmails ns labels) (Ok items); ev Now now] ∧
       r = Returned (Ok b) ∧
       (b = true ↔
          (0 < cooldown ∧ ∃ i, i ∈ items ∧ time_sub now (se_created i) < cooldown) ∨
          (0 < maxPerHour ∧
           maxPerHour ≤ Z.of_nat (length (filter (λ i, time_sub now (se_created i) < Hour) items)))))).
Proof.
  unfold TooSoon. case_bool_decide as Hoff.
  - intros [-> ->]. left. by destruct Hoff.
  - intros (a & tr' & -> & Hm). right. split; [lia|]. destruct a as [items|e]; simpl in Hm.
    + destruct Hm as (now & tr2 & -> & -> & ->). right. eexists items, now, _. split; [done|].
      split; [done|]. rewrite count_recent_spec, Z.add_0_l. rewrite <-list.Exists_exists.
      case_bool_decide as H1; [naive_solver|]. rewrite bool_decide_eq_true. naive_solver.
    + destruct Hm as [-> ->]. left. eauto.
Qed.

(** C33: the link is a prefix that does not depend on the code, then a fragment
    that holds the escaped code and nothing else: no separator occurs in it, and
    decoding it gives back the code byte for byte. *)
Theorem ActionURL_code_only_in_fragment `{GoRuntime} base userID codeID :
  ∃ link, ∀ code,
    ActionURL base userID codeID code = link +:+ "#code=" +:+ QueryEscape code ∧
    QueryUnescape (QueryEscape code) = Some code ∧
    string_forall query_safe (QueryEscape code) = true.
Proof.
  unfold ActionURL. eexists. intros code. split; [|split].
  - reflexivity.
  - apply QueryUnescape_escape.
  - apply QueryEscape_safe.
Qed.

(** The registration code reaches the variables "Code" and "ActionUrl" of the
    recovery Email and no other part of it: two inputs that differ in the code and
    the link only build Emails with the same name, namespace, labels, annotations,
    template, recipient, priority and remaining variables. *)
Theorem Build_confines_code `{GoRuntime} i c c' url url' :
  let with_code c url := mkInput (in_User i) (in_UserID i) (in_CodeID i) c url (in_TemplateName i)
      (in_Namespace i) (in_ExpiryMinutes i) (in_RequestedBy i) (in_RequestedByUser i) (in_Reason i) in
  let drop_code e := filter (λ '(n, _), n ≠ "Code" ∧ n ≠ "ActionUrl") (em_variables e) in
  let e := Build (with_code c url) in let e' := Build (with_code c' url') in
  em_name e = em_name e' ∧ em_namespace e = em_namespace e' ∧ em_labels e = em_labels e' ∧
  em_annotations e = em_annotations e' ∧ em_template e = em_template e' ∧
  em_recipient e = em_recipient e' ∧ em_priorityHigh e = em_priorityHigh e' ∧
  drop_code e = drop_code e' ∧
  filter (λ '(n, _), n = "Code" ∨ n = "ActionUrl") (em_variables e) = [("Code", c); ("ActionUrl", url)].
Proof. done. Qed.

(** * Witnesses *)

Definition sent_email (ns : string) (labels : gmap string string) (created : Z) : SentEmail :=
  mkSent (mkEmail "e" ns labels ∅ "t" (EmailAddress "a@b.c") [] true) created.

Lemma TooSoon_exact_witness :
  let c := set_emails empty_cluster
    [sent_email "milo-system" {[ LabelUser := "u1"; LabelRequestedBy := RequestedBySelf ]} 0] in
  let p := TooSoon "milo-system" "u1" RequestedBySelf Minute 5 in
  (run fake p c).2 = Returned (Ok true) ∧
  ∃ items now b,
    run_trace fake p c = [ev (KListEmails "milo-system" {[ LabelUser := "u1"; LabelRequestedBy := RequestedBySelf ]}) (Ok items);
                        ev Now now] ∧
    (run fake p c).2 = Returned (Ok b).
Proof.
  set (c := set_emails _ _). set (p := TooSoon _ _ _ _ _).
  split; [vm_compute; reflexivity|].
  destruct (TooSoon_exact "milo-system" "u1" RequestedBySelf Minute 5 _ _ (run_may fake p c))
    as [(H & _)|[_ [(e & _ & H)|(items & now & b & Htr & Hr & _)]]].
  - exfalso. revert H. unfold Minute, Second, Millisecond. lia.
  - exfalso. vm_compute in H. discriminate H.
  - exists items, now, b. split; [exact Htr|exact Hr].
Defined.
