(* ===== verification/AvatarSync.v ===== *)
(** internal/httpactionsserver/avatar_sync.go: the avatar an identity-provider
    intent delivers before the User exists is kept for a while under the
    normalised email and applied once the User is known.  Also the reading of the
    idpUser payload (avatar_sync.go, server.go). *)

From S2P Require Import Prelude GoLib Prog Model Json Cluster.

Definition pendingAvatarTTL : Z := (15 * Minute)%Z.

Definition ch (n : N) : string := String (ascii_of_N n) EmptyString.

Section AvatarSync.
Context `{GoRuntime}.

Definition normalizeEmail (email : string) : string := ToLower (TrimSpace email).

Definition decodeIDPUserPayload (encoded : string) : result string :=
  let trimmed := TrimSpace encoded in
  if bool_decide (trimmed = EmptyString) then Err (EPlain "empty idpUser")
  else
    if (has_prefix (ch 123) trimmed || has_prefix (ch 91) trimmed) && json_valid trimmed then Ok trimmed
    else
      match b64_decode trimmed with
      | Some raw => if json_valid raw then Ok raw
                    else Err (EPlain "idpUser is neither valid JSON nor base64-encoded JSON")
      | None => Err (EPlain "idpUser is neither valid JSON nor base64-encoded JSON")
      end.

Definition nonempty (s : option string) : option string :=
  match s with
  | Some s => if bool_decide (s = EmptyString) then None else Some s
  | None => None
  end.

Definition parseIDPUserData (raw : string) : result (AuthProvider * string) :=
  match unmarshal_map raw with
  | None => Err (EPlain (json_error_text raw))
  | Some m =>
      let from_user :=
        match as_object (map_get "User" m) with
        | Some user =>
            match nonempty (as_string (map_get "picture" user)) with
            | Some pic => Some (ProviderGoogle, pic)
            | None =>
                match nonempty (as_string (map_get "avatar_url" user)) with
                | Some avatar => Some (ProviderGitHub, avatar)
                | None => None
                end
            end
        | None => None
        end in
      match from_user with
      | Some r => Ok r
      | None =>
          match nonempty (as_string (map_get "avatar_url" m)) with
          | Some avatar => Ok (ProviderGitHub, avatar)
          | None =>
              match nonempty (as_string (map_get "picture" m)) with
              | Some pic =>
                  if contains pic "googleusercontent.com" then Ok (ProviderGoogle, pic)
                  else Err (EPlain "unknown idp provider")
              | None => Err (EPlain "unknown idp provider")
              end
          end
      end
  end.

Definition extractEmailFromIDPUserData (raw : string) : string :=
  match unmarshal_map raw with
  | None => EmptyString
  | Some m =>
      match (match as_object (map_get "User" m) with
             | Some user => as_string (map_get "email" user)
             | None => None
             end) with
      | Some email => normalizeEmail email
      | None =>
          match as_string (map_get "email" m) with
          | Some email => normalizeEmail email
          | None => EmptyString
          end
      end
  end.

Definition storePendingAvatar (email avatarURL : string) (provider : AuthProvider) : M unit :=
  let email := normalizeEmail email in
  if bool_decide (email = EmptyString ∨ avatarURL = EmptyString) then mret ()
  else
    now ← call Now;
    call (MapStore email (mkPending avatarURL provider (now + pendingAvatarTTL)%Z)).

Definition consumePendingAvatar (email : string) : M (option pendingAvatar) :=
  let email := normalizeEmail email in
  if bool_decide (email = EmptyString) then mret None
  else
    value ← call (MapLoadAndDelete email);
    match value with
    | None => mret None
    | Some pending =>
        now ← call Now;
        mret (if (pa_expiresAt pending <? now)%Z then None else Some pending)
    end.

Definition with_avatar (u : User) (avatarURL : string) (provider : AuthProvider) : User :=
  mkUser (u_name u) (u_uid u) (u_resourceVersion u) (u_email u) (u_givenName u)
    (u_familyName u) avatarURL provider (u_emailVerification u).

Definition patchUserAvatar (userID avatarURL : string) (provider : AuthProvider) (fieldManager : string)
    : M (option error) :=
  r ← call (KGetUser userID);
  match r with
  | Err e => mret (Some e)
  | Ok current => call (KPatchUserStatus current (with_avatar current avatarURL provider) fieldManager)
  end.

Definition applyPendingAvatarByEmail (userID email fieldManager : string) : M bool :=
  p ← consumePendingAvatar email;
  match p with
  | None => mret false
  | Some pending =>
      e ← patchUserAvatar userID (pa_avatarURL pending) (pa_provider pending) fieldManager;
      match e with
      | Some _ =>
          _ ← storePendingAvatar email (pa_avatarURL pending) (pa_provider pending);
          mret false
      | None => mret true
      end
  end.
End AvatarSync.

(** * The shared map and the clock *)

Definition touches_pending (o : op) : bool :=
  match o with MapStore _ _ | MapLoadAndDelete _ => true | _ => false end.

(** The documented behaviour of [sync.Map] for the two operations used, seen by
    one goroutine; no other call of the provider touches the map. *)
Class PendingMap {S} (h : environment S) := {
  pending : S → gmap string pendingAvatar;
  pending_store k v s : pending (h (MapStore k v) s).1 = <[k := v]> (pending s);
  pending_load k s : (h (MapLoadAndDelete k) s).2 = pending s !! k;
  pending_delete k s : pending (h (MapLoadAndDelete k) s).1 = delete k (pending s);
  pending_frame o s : touches_pending o = false → pending (h o s).1 = pending s }.

#[export] Instance fake_PendingMap : PendingMap fake.
Proof.
  refine {| pending := c_pending |}; try done.
  intros o c Ho. destruct o; simpl in *; try discriminate; try done; repeat case_match; done.
Defined.

(** * Lemmas *)

Lemma lower_is_space c : is_space (lower_char c) = is_space c.
Proof. by destruct c as [[] [] [] [] [] [] [] []]. Qed.

Lemma lower_idemp c : lower_char (lower_char c) = lower_char c.
Proof. by destruct c as [[] [] [] [] [] [] [] []]. Qed.

Lemma lower_is_ascii c : is_ascii_char (lower_char c) = is_ascii_char c.
Proof. by destruct c as [[] [] [] [] [] [] [] []]. Qed.

Lemma string_forall_map f g s :
  (∀ c, f (g c) = f c) → string_forall f (string_map g s) = string_forall f s.
Proof. intros Hf. induction s as [|c s IH]; simpl; [done|]. by rewrite Hf, IH. Qed.

Lemma string_map_idemp g s : (∀ c, g (g c) = g c) → string_map g (string_map g s) = string_map g s.
Proof. intros Hg. induction s as [|c s IH]; simpl; [done|]. by rewrite Hg, IH. Qed.

Lemma drop_while_map f g s :
  (∀ c, f (g c) = f c) → drop_while f (string_map g s) = string_map g (drop_while f s).
Proof. intros Hf. induction s as [|c s IH]; simpl; [done|]. rewrite Hf. by destruct (f c). Qed.

Lemma drop_while_end_map f g s :
  (∀ c, f (g c) = f c) → drop_while_end f (string_map g s) = string_map g (drop_while_end f s).
Proof.
  intros Hf. induction s as [|c s IH]; simpl; [done|]. rewrite IH, Hf.
  destruct (drop_while_end f s); simpl; [by destruct (f c)|done].
Qed.

Lemma string_forall_drop_while p f s : string_forall p s = true → string_forall p (drop_while f s) = true.
Proof.
  induction s as [|c s IH]; simpl; [done|]. intros [Hc Hs]%andb_prop.
  destruct (f c); simpl; [auto|]. by rewrite Hc, Hs.
Qed.

Lemma string_forall_drop_while_end p f s :
  string_forall p s = true → string_forall p (drop_while_end f s) = true.
Proof.
  induction s as [|c s IH]; simpl; [done|]. intros [Hc Hs]%andb_prop. specialize (IH Hs).
  destruct (drop_while_end f s); simpl in *; [destruct (f c); simpl; by rewrite ?Hc|]. by rewrite Hc, IH.
Qed.

Lemma drop_while_end_idemp f s : drop_while_end f (drop_while_end f s) = drop_while_end f s.
Proof.
  induction s as [|c s IH]; simpl; [done|].
  destruct (drop_while_end f s) as [|c' t]; [destruct (f c) eqn:E; simpl; by rewrite ?E|].
  cbn [drop_while_end] in *. by rewrite IH.
Qed.

Lemma drop_while_end_head f s c t :
  drop_while_end f s = String c t → ∃ t', s = String c t'.
Proof.
  destruct s as [|c' s]; simpl; [done|].
  destruct (drop_while_end f s); [destruct (f c'); [done|]|]; intros [= <- _]; eauto.
Qed.

Lemma drop_while_head f s c t : drop_while f s = String c t → f c = false.
Proof. induction s as [|c' s IH]; simpl; [done|]. destruct (f c') eqn:E; [auto|]. by intros [= <- _]. Qed.

Lemma ascii_trim_idemp s : ascii_trim (ascii_trim s) = ascii_trim s.
Proof.
  unfold ascii_trim. destruct (drop_while_end is_space (drop_while is_space s)) as [|c t] eqn:E; [done|].
  pose proof (drop_while_end_head _ _ _ _ E) as [t' Ht']. apply drop_while_head in Ht'.
  cbn [drop_while]. rewrite Ht'. rewrite <-E. apply drop_while_end_idemp.
Qed.

Lemma normalizeEmail_ascii `{GoRuntime} e :
  is_ascii e = true → normalizeEmail e = ascii_lower (ascii_trim e).
Proof.
  intros Ha. unfold normalizeEmail, TrimSpace, ToLower. rewrite Ha.
  assert (is_ascii (ascii_trim e) = true) as ->; [|done].
  by apply string_forall_drop_while_end, string_forall_drop_while.
Qed.

(** The key of the map is stable under normalisation, so an email that was
    normalised when it was extracted is found again. *)
Lemma normalizeEmail_idemp `{GoRuntime} e :
  is_ascii e = true → normalizeEmail (normalizeEmail e) = normalizeEmail e.
Proof.
  intros Ha. rewrite (normalizeEmail_ascii e Ha).
  rewrite normalizeEmail_ascii.
  - unfold ascii_lower. unfold ascii_trim at 1.
    rewrite drop_while_map, drop_while_end_map by apply lower_is_space.
    fold (ascii_trim (ascii_trim e)). rewrite ascii_trim_idemp.
    apply string_map_idemp, lower_idemp.
  - unfold is_ascii, ascii_lower. rewrite string_forall_map by apply lower_is_ascii.
    by apply string_forall_drop_while_end, string_forall_drop_while.
Qed.

Lemma nonempty_Some o s : nonempty o = Some s → s ≠ EmptyString.
Proof. destruct o; simpl; [|done]. case_bool_decide; [done|]. congruence. Qed.

Lemma parseIDPUserData_Ok `{GoRuntime} raw p url :
  parseIDPUserData raw = Ok (p, url) → url ≠ EmptyString ∧ (p = ProviderGoogle ∨ p = ProviderGitHub).
Proof.
  unfold parseIDPUserData. intros Hp.
  repeat (case_match; simplify_eq);
    repeat match goal with Hn : nonempty _ = Some _ |- _ => apply nonempty_Some in Hn end; auto.
Qed.

Section PendingMap.
Context `{GoRuntime} {S : Type} {h : environment S} `{!PendingMap h}.

Lemma run_store email url p s :
  normalizeEmail email ≠ EmptyString → url ≠ EmptyString →
  ∃ s' t, run h (storePendingAvatar email url p) s = (s', Returned tt) ∧
    pending s' = <[normalizeEmail email := mkPending url p (t + pendingAvatarTTL)]> (pending s).
Proof.
  intros He Hu. unfold storePendingAvatar. rewrite bool_decide_false by (by intros []). simpl.
  pose proof (pending_frame Now s eq_refl) as Hf. destruct (h Now s) as [s1 t]. simpl in *.
  pose proof (pending_store (normalizeEmail email) (mkPending url p (t + pendingAvatarTTL)) s1) as Hs.
  destruct (h (MapStore _ _) s1) as [s2 []]. simpl in *. eexists _, t. split; [done|]. by rewrite Hs, Hf.
Qed.

Lemma run_consume email s :
  normalizeEmail email ≠ EmptyString →
  ∃ s' r, run h (consumePendingAvatar email) s = (s', Returned r) ∧
    pending s' = delete (normalizeEmail email) (pending s) ∧
    match pending s !! normalizeEmail email with
    | None => r = None
    | Some v => ∃ t, r = if (pa_expiresAt v <? t)%Z then None else Some v
    end.
Proof.
  intros He. unfold consumePendingAvatar. rewrite bool_decide_false by done. simpl.
  set (k := normalizeEmail email).
  pose proof (pending_load k s) as Hl. pose proof (pending_delete k s) as Hd.
  destruct (h (MapLoadAndDelete k) s) as [s1 v]. simpl in *. rewrite <-Hl.
  destruct v as [v|]; simpl; [|by eexists _, _].
  pose proof (pending_frame Now s1 eq_refl) as Hf. destruct (h Now s1) as [s2 t]. simpl in *.
  eexists _, _. split; [done|]. split; [by rewrite Hf|]. by exists t.
Qed.
End PendingMap.

(** * Properties *)

(** An avatar stored for an email is found by any spelling of that email with
    the same normal form, exactly as stored and only until its 15 minutes are
    over, and it is handed out at most once: it is gone from the map afterwards. *)
Theorem store_then_consume `{GoRuntime} {S} (h : environment S) `{!PendingMap h} email email' url p s :
  normalizeEmail email ≠ EmptyString → normalizeEmail email' = normalizeEmail email → url ≠ EmptyString →
  ∃ s' t t' r,
    run h (_ ← storePendingAvatar email url p; consumePendingAvatar email') s = (s', Returned r) ∧
    r = (if (t + pendingAvatarTTL <? t')%Z then None else Some (mkPending url p (t + pendingAvatarTTL))) ∧
    pending s' !! normalizeEmail email = None.
Proof.
  intros He Heq Hu. rewrite run_bind.
  destruct (run_store email url p s He Hu) as (s1 & t & -> & H1).
  rewrite <-Heq in He. destruct (run_consume email' s1 He) as (s2 & r & -> & H2 & H3).
  rewrite Heq, H1, lookup_insert_eq in *. destruct H3 as [t' ->].
  eexists s2, t, t', _. split; [done|]. split; [done|]. rewrite H2. by rewrite lookup_delete_eq.
Qed.

(** C34: a live pending avatar is never lost: in every execution that takes an entry
    out of the map before it expired, either it is patched onto the User just read,
    or the same avatar and provider go back into the map under the same key. *)
Theorem applyPendingAvatar_not_lost `{GoRuntime} userID email fm tr r v now :
  may (applyPendingAvatarByEmail userID email fm)
    (ev (MapLoadAndDelete (normalizeEmail email)) (Some v) :: ev Now now :: tr) r →
  (now ≤ pa_expiresAt v)%Z → pa_avatarURL v ≠ EmptyString →
  (r = Returned true ∧ ∃ u,
     tr = [ev (KGetUser userID) (Ok u);
           ev (KPatchUserStatus u (with_avatar u (pa_avatarURL v) (pa_provider v)) fm) None]) ∨
  (r = Returned false ∧ ∃ pre t,
     tr = pre ++ [ev Now t; ev (MapStore (normalizeEmail email)
                        (mkPending (pa_avatarURL v) (pa_provider v) (t + pendingAvatarTTL)%Z)) tt]).
Proof.
  unfold applyPendingAvatarByEmail, consumePendingAvatar, storePendingAvatar.
  case_bool_decide as He; [by intros [? _]|]. intros Hm Hlive Hurl.
  destruct Hm as (a & tr1 & E & Hm). apply cons_inv in E as [<-%ev_inj <-].
  destruct Hm as (t & tr2 & E & Hm). apply cons_inv in E as [<-%ev_inj <-].
  simpl in Hm. rewrite (proj2 (Z.ltb_ge _ _) Hlive) in Hm. simpl in Hm.
  rewrite bool_decide_false in Hm by (by intros []).
  destruct Hm as ([u|e] & tr3 & -> & Hm); simpl in Hm.
  - destruct Hm as ([e|] & tr4 & -> & Hm); simpl in Hm.
    + destruct Hm as (t' & ? & -> & [] & ? & -> & -> & ->). right. split; [done|].
      by eexists [_; _], t'.
    + destruct Hm as [-> ->]. left. eauto.
  - destruct Hm as (t' & ? & -> & [] & ? & -> & -> & ->). right. split; [done|].
    by eexists [_], t'.
Qed.

(** * Witnesses *)
Section Witnesses.
#[local] Existing Instance ascii_runtime.

Lemma store_then_consume_witness :
  ∃ s' t t' r,
    run fake (_ ← storePendingAvatar "Jane@Example.com" "https://a" ProviderGitHub;
              consumePendingAvatar " jane@example.com ") empty_cluster = (s', Returned r) ∧
    r = (if (t + pendingAvatarTTL <? t')%Z then None
         else Some (mkPending "https://a" ProviderGitHub (t + pendingAvatarTTL))) ∧
    pending s' !! normalizeEmail "Jane@Example.com" = None.
Proof. apply store_then_consume; vm_compute; done. Defined.

Lemma applyPendingAvatar_not_lost_witness :
  let v := mkPending "https://a" ProviderGitHub 10 in
  let tr : trace := [ev (KGetUser "u1") (Err not_found); ev Now 5;
             ev (MapStore "jane@example.com" (mkPending "https://a" ProviderGitHub (5 + pendingAvatarTTL)%Z)) tt] in
  (Returned false = Returned true ∧ ∃ u,
     tr = [ev (KGetUser "u1") (Ok u);
           ev (KPatchUserStatus u (with_avatar u (pa_avatarURL v) (pa_provider v)) "fm") None]) ∨
  (Returned false = Returned false ∧ ∃ pre t,
     tr = pre ++ [ev Now t; ev (MapStore (normalizeEmail "jane@example.com")
                   (mkPending (pa_avatarURL v) (pa_provider v) (t + pendingAvatarTTL)%Z)) tt]).
Proof.
  intros v tr. apply (applyPendingAvatar_not_lost "u1" "jane@example.com" "fm" tr (Returned false) v 3).
  - cbn. eexists _, _. split; [reflexivity|]. cbn. eexists _, _. split; [reflexivity|]. cbn.
    eexists _, _. split; [reflexivity|]. cbn. eexists _, _. split; [reflexivity|]. cbn.
    eexists _, _. split; [reflexivity|]. by split.
  - cbn. lia.
  - done.
Defined.
End Witnesses.
