(* ===== verification/Actions.v ===== *)
(** internal/httpactionsserver/server.go and email_verified.go: the handlers
    Zitadel calls when an account is created, a token is minted, an identity
    provider intent succeeds and an email address is verified or changed. *)

From S2P Require Import Prelude GoLib Prog Model Json Cluster Users RecoveryMail AvatarSync.

Record ServerConfig := mkServerConfig {
  Addr : string;
  CertFile : string;
  KeyFile : string;
  DisableHTTP2 : bool;
  Kubeconfig : string;
  SigningKey : string;
  DisableSignatureValidation : bool;
  SuspiciousLoginEmailTemplate : string;
  PasskeyAddedEmailTemplate : string;
  PasskeyRemovedEmailTemplate : string;
  NotificationNamespace : string;
  GraphQLGatewayURL : string;
  GraphQLGatewayCACertFile : string;
  IdpIntentUserLookupAttempts : Z;
  IdpIntentUserLookupBaseWait : Z }.

Definition NewServerConfig : ServerConfig :=
  mkServerConfig ":8082" EmptyString EmptyString false EmptyString EmptyString false
    "emailtemplates.notification.miloapis.com-usersuspiciousemailtemplate"
    "emailtemplates.notification.miloapis.com-userpasskeyaddedemailtemplate"
    "emailtemplates.notification.miloapis.com-userpasskeyremovedemailtemplate"
    "milo-system"
    "https://graphql-gateway.graphql-gateway.svc.cluster.local:4000/graphql"
    "/etc/ssl/certs/datum-ca.crt"
    8 (250 * Millisecond).

(** [zitadelClient] is the value [zitadelAPI] reads under the lock when a handler
    runs: a background goroutine may install it later with [SetZitadelClient]. *)
Record Server := mkServer {
  config : ServerConfig;
  validateSignature : string → string → string → option error;
  zitadelClient : zapi }.

Definition SetZitadelClient (s : Server) (c : zapi) : Server := mkServer (config s) (validateSignature s) c.
Definition zitadelAPI (s : Server) : zapi := zitadelClient s.

(** * The checks every handler starts with *)

Definition method_not_allowed : HttpResponse := http_error StatusMethodNotAllowed "method not allowed".

(** Reads the body and validates its signature; [read_msg] is the text of the
    response to a failed read, the only part that varies. *)
Definition with_signed_body (s : Server) (read_msg : error → string) (r : HttpRequest)
    (k : string → M HttpResponse) : M HttpResponse :=
  match rq_body r with
  | Err e => mret (http_error StatusBadRequest (read_msg e))
  | Ok body =>
      match validateSignature s body (rq_signature r) (SigningKey (config s)) with
      | Some e => mret (http_error StatusUnauthorized ("signature validation failed: " +:+ Error e))
      | None => k body
      end
  end.

Definition post_only (r : HttpRequest) (k : M HttpResponse) : M HttpResponse :=
  if bool_decide (rq_method r = "POST") then k else mret method_not_allowed.

Definition failed_to_read_err (e : error) : string := "failed to read request body: " +:+ Error e.

(** * Looking a User up while its provisioning may still be under way *)

(** [k] counts the attempts left after this one. *)
Fixpoint getUser_loop (userID : string) (baseWait : Z) (k : nat) (attempt : Z) : M (result User) :=
  r ← call (KGetUser userID);
  match r with
  | Ok current => mret (Ok current)
  | Err e =>
      match k with
      | O => mret (Err e)
      | Datatypes.S k =>
          if IsNotFound e then
            _ ← call (Sleep (wrap64 (baseWait * wrap64 (2 ^ attempt))));
            getUser_loop userID baseWait k (attempt + 1)
          else mret (Err e)
      end
  end.

Definition getUserWithRetry (c : ServerConfig) (userID : string) : M (result User) :=
  let attempts := (1 `max` IdpIntentUserLookupAttempts c)%Z in
  let baseWait := (0 `max` IdpIntentUserLookupBaseWait c)%Z in
  getUser_loop userID baseWait (Z.to_nat (attempts - 1)) 0.

(** * create-user-account *)

Record createUserAccountRequest := mkCreateReq {
  cr_AggregateID : string;
  cr_EventType : string;
  cr_UserID : string;
  cr_FirstName : string;
  cr_LastName : string;
  cr_Email : string }.

Definition zero_createReq : createUserAccountRequest :=
  mkCreateReq EmptyString EmptyString EmptyString EmptyString EmptyString EmptyString.

(** Fields the handler never reads are decoded for their type errors only. *)
Definition ignored_string {R} : decoder R := string_field (λ _ r, r).

Section Decoders.
Context `{GoRuntime}.

Definition createReq_payload : decoder createUserAccountRequest := decode_struct
  [("userName", ignored_string);
   ("firstName", string_field (λ x r, mkCreateReq (cr_AggregateID r) (cr_EventType r) (cr_UserID r) x (cr_LastName r) (cr_Email r)));
   ("lastName", string_field (λ x r, mkCreateReq (cr_AggregateID r) (cr_EventType r) (cr_UserID r) (cr_FirstName r) x (cr_Email r)));
   ("displayName", ignored_string); ("preferredLanguage", ignored_string);
   ("email", string_field (λ x r, mkCreateReq (cr_AggregateID r) (cr_EventType r) (cr_UserID r) (cr_FirstName r) (cr_LastName r) x));
   ("encodedHash", ignored_string); ("userAgentID", ignored_string)].

Definition createReq_decoder : decoder createUserAccountRequest := decode_struct
  [("aggregateID", string_field (λ x r, mkCreateReq x (cr_EventType r) (cr_UserID r) (cr_FirstName r) (cr_LastName r) (cr_Email r)));
   ("aggregateType", ignored_string); ("resourceOwner", ignored_string);
   ("instanceID", ignored_string); ("version", ignored_string);
   ("sequence", int_field (λ _ r, r));
   ("event_type", string_field (λ x r, mkCreateReq (cr_AggregateID r) x (cr_UserID r) (cr_FirstName r) (cr_LastName r) (cr_Email r)));
   ("created_at", ignored_string);
   ("userID", string_field (λ x r, mkCreateReq (cr_AggregateID r) (cr_EventType r) x (cr_FirstName r) (cr_LastName r) (cr_Email r)));
   ("event_payload", createReq_payload)].
End Decoders.

Definition EventTypeUserHumanSelfRegistered : string := "user.human.selfregistered".
Definition EventTypeUserHumanAdded : string := "user.human.added".
Definition SupportedUserCreationEvents : list string :=
  [EventTypeUserHumanSelfRegistered; EventTypeUserHumanAdded].

Section Handlers.
Context `{GoRuntime} `{ConflictRetry}.

(** The part of the handler after a real create. *)
Definition seed_email_verification (s : Server) (userName : string) : M unit :=
  if zapi_is_nil (zitadelAPI s) then mret ()
  else
    r ← zcall (zitadelAPI s) (ZGetUserByID userName);
    match r with
    | Ok (Some zu) => _ ← SetVerified userName (z_IsEmailVerified zu); mret ()
    | Ok None | Err _ => mret ()
    end.

Definition createUserAccountHandler (s : Server) (r : HttpRequest) : M HttpResponse :=
  post_only r $
  with_signed_body s failed_to_read_err r $ λ body,
  match Unmarshal createReq_decoder zero_createReq body with
  | None => mret (http_error StatusBadRequest ("invalid request body: " +:+ json_error_text body))
  | Some req =>
      if negb (bool_decide (cr_EventType req ∈ SupportedUserCreationEvents)) then
        mret (http_error StatusBadRequest ("unsupported event type: " +:+ cr_EventType req))
      else
        '(user, created, err) ← EnsureUser (NewUser (cr_AggregateID req) (cr_Email req) (cr_FirstName req) (cr_LastName req));
        match err with
        | Some e => mret (http_error StatusInternalServerError ("failed to create user resource: " +:+ Error e))
        | None =>
            if negb created then mret (mkResponse StatusOK "already exists")
            else
              _ ← applyPendingAvatarByEmail (cr_AggregateID req) (cr_Email req) "create-user-account";
              _ ← RecordEvent (u_name user) (u_uid user) EventReasonAccountCreated "Account created";
              _ ← seed_email_verification s (u_name user);
              mret (mkResponse StatusCreated "created")
        end
  end.
End Handlers.

(** * customize-jwt *)

Record CustomizeJwtHandlerRequest := mkJwtReq {
  jr_Function : string;
  jr_Username : string;
  jr_Human : option string }.

Definition zero_jwtReq : CustomizeJwtHandlerRequest := mkJwtReq EmptyString EmptyString None.

Section Jwt.
Context `{GoRuntime}.

(** A pointer to a struct: null clears it, an object allocates it when nil. *)
Definition human_decoder : decoder CustomizeJwtHandlerRequest := λ j r,
  match j with
  | JNull => Some (mkJwtReq (jr_Function r) (jr_Username r) None)
  | _ =>
      decode_struct
        [("email", string_field (λ x r, mkJwtReq (jr_Function r) (jr_Username r) (Some x)))] j
        (mkJwtReq (jr_Function r) (jr_Username r) (Some (default EmptyString (jr_Human r))))
  end.

Definition jwtReq_decoder : decoder CustomizeJwtHandlerRequest := decode_struct
  [("userinfo", decode_struct [("sub", ignored_string)]);
   ("function", string_field (λ x r, mkJwtReq x (jr_Username r) (jr_Human r)));
   ("user", decode_struct
      [("username", string_field (λ x r, mkJwtReq (jr_Function r) x (jr_Human r)));
       ("human", human_decoder)])].
End Jwt.

(** CustomizeJwtHandlerResponse with its one metadata entry (the bytes of "value"
    in base64) and its one claim, as [json.Marshal] writes it. *)
Definition Metadata (key value : string) : json := JObj [("key", JStr key); ("value", JStr value)].
Definition AppendClaim (key value : string) : json := JObj [("key", JStr key); ("value", JStr value)].

Definition jwt_claims (email : string) : json :=
  JObj [("set_user_metadata", JArr [Metadata "key" "dmFsdWU="]);
        ("append_claims", JArr [AppendClaim "email" email])].

Definition jwt_response (email : string) : string := render (jwt_claims email).

Definition jwt_email (req : CustomizeJwtHandlerRequest) : string :=
  match jr_Human req with Some email => email | None => jr_Username req end.

(** The write of the body is a call because its failure is a branch; the status
    line of a failed write has already been sent. *)
Definition customizeJwtHandler `{GoRuntime} (s : Server) (r : HttpRequest) : M HttpResponse :=
  with_signed_body s (λ _, "Failed to read request body") r $ λ body,
  match Unmarshal jwtReq_decoder zero_jwtReq body with
  | None => mret (http_error StatusBadRequest "Failed to parse request body")
  | Some req =>
      if negb (bool_decide (jr_Function req = "function/preuserinfo" ∨ jr_Function req = "function/preaccesstoken")) then
        mret (http_error StatusBadRequest ("unsupported function: " +:+ jr_Function req))
      else
        let data := jwt_response (jwt_email req) in
        e ← call (HttpWrite StatusOK data);
        match e with
        | Some _ => mret (http_error StatusInternalServerError "error")
        | None => mret (mkResponse StatusOK data)
        end
  end.

(** * idp-intent-succeeded *)

Record IdpIntentSucceededRequest := mkIdpReq {
  ir_EventType : string;
  ir_IDPUser : string;
  ir_PayloadUserID : string }.

Definition zero_idpReq : IdpIntentSucceededRequest := mkIdpReq EmptyString EmptyString EmptyString.

Definition miloUserIDFromIdpIntent (req : IdpIntentSucceededRequest) : string := ir_PayloadUserID req.

Section Idp.
Context `{GoRuntime}.

Definition idpReq_decoder : decoder IdpIntentSucceededRequest := decode_struct
  [("event_type", string_field (λ x r, mkIdpReq x (ir_IDPUser r) (ir_PayloadUserID r)));
   ("userId", ignored_string);
   ("event_payload", decode_struct
      [("idpUser", string_field (λ x r, mkIdpReq (ir_EventType r) x (ir_PayloadUserID r)));
       ("idpIdToken", ignored_string);
       ("userId", string_field (λ x r, mkIdpReq (ir_EventType r) (ir_IDPUser r) x))])].

Definition idpIntentSucceededHandler (s : Server) (r : HttpRequest) : M HttpResponse :=
  with_signed_body s (λ _, "failed to read request body") r $ λ body,
  match Unmarshal idpReq_decoder zero_idpReq body with
  | None => mret (http_error StatusBadRequest "invalid body")
  | Some req =>
      if bool_decide (ir_EventType req ≠ "idpintent.succeeded" ∨ ir_IDPUser req = EmptyString) then
        mret (http_error StatusBadRequest "unexpected event")
      else
        match decodeIDPUserPayload (ir_IDPUser req) with
        | Err _ => mret (http_error StatusBadRequest "invalid idpUser")
        | Ok raw =>
            match parseIDPUserData raw with
            | Err _ => mret (http_error StatusBadRequest "invalid idpUser data")
            | Ok (idpProvider, avatarURL) =>
                let userID := miloUserIDFromIdpIntent req in
                let email := extractEmailFromIDPUserData raw in
                if bool_decide (userID = EmptyString) then
                  if negb (bool_decide (email = EmptyString)) then
                    _ ← storePendingAvatar email avatarURL idpProvider;
                    mret (mkResponse StatusOK "pending")
                  else mret (http_error StatusBadRequest "userID not found in payload")
                else
                  u ← getUserWithRetry (config s) userID;
                  match u with
                  | Err e =>
                      if IsNotFound e then
                        if negb (bool_decide (email = EmptyString)) then
                          _ ← storePendingAvatar email avatarURL idpProvider;
                          mret (mkResponse StatusOK "pending")
                        else mret (http_error StatusNotFound "user not found")
                      else mret (http_error StatusInternalServerError "failed to get user")
                  | Ok original =>
                      e ← call (KPatchUserStatus original (with_avatar original avatarURL idpProvider) "idp-intent-succeeded");
                      match e with
                      | Some _ => mret (http_error StatusInternalServerError "failed to patch user")
                      | None => mret (mkResponse StatusOK "success")
                      end
                  end
            end
        end
  end.
End Idp.

(** * email-verified *)

Definition EventTypeEmailVerified : string := "user.human.email.verified".
Definition EventTypeEmailChanged : string := "user.human.email.changed".

Record emailVerifiedRequest := mkEVReq { er_AggregateID : string; er_EventType : string }.

Section EmailVerified.
Context `{GoRuntime} `{ConflictRetry}.

Definition emailVerified_decoder : decoder emailVerifiedRequest := decode_struct
  [("aggregateID", string_field (λ x r, mkEVReq x (er_EventType r)));
   ("event_type", string_field (λ x r, mkEVReq (er_AggregateID r) x));
   ("created_at", ignored_string); ("userID", ignored_string)].

Definition event_verified (eventType : string) : option bool :=
  if bool_decide (eventType = EventTypeEmailVerified) then Some true
  else if bool_decide (eventType = EventTypeEmailChanged) then Some false
  else None.

Definition emailVerifiedHandler (s : Server) (r : HttpRequest) : M HttpResponse :=
  post_only r $
  with_signed_body s failed_to_read_err r $ λ body,
  match Unmarshal emailVerified_decoder (mkEVReq EmptyString EmptyString) body with
  | None => mret (http_error StatusBadRequest ("invalid request body: " +:+ json_error_text body))
  | Some req =>
      match event_verified (er_EventType req) with
      | None => mret (http_error StatusBadRequest ("unsupported event type: " +:+ er_EventType req))
      | Some verified =>
          let userID := er_AggregateID req in
          if bool_decide (userID = EmptyString) then
            mret (http_error StatusBadRequest "userID not found in payload")
          else
            u ← getUserWithRetry (config s) userID;
            match u with
            | Err e =>
                if IsNotFound e then mret (http_error StatusNotFound "user not found")
                else mret (http_error StatusInternalServerError "failed to read user")
            | Ok _ =>
                '(_, err) ← SetVerified userID verified;
                match err with
                | Some _ => mret (http_error StatusInternalServerError "failed to update user")
                | None => mret (mkResponse StatusOK "success")
                end
            end
      end
  end.
End EmailVerified.

(** * Sample servers and requests of the witnesses *)

Definition accept_all : string → string → string → option error := λ _ _ _, None.
Definition ready_server : Server := mkServer NewServerConfig accept_all ZReady.
Definition post (body : string) : HttpRequest := mkRequest "POST" (Ok body) EmptyString.

(** A JSON text from a list of bytes with apostrophes for the quotes. *)
Definition js (s : string) : string :=
  string_map (λ c, if bool_decide (c = ascii_of_N 39) then quote_char else c) s.
