(* ===== verification/ActionsSpec.v ===== *)
(** What the handlers of Actions.v guarantee. *)

From S2P Require Import Prelude GoLib Prog Model Json Cluster Users RecoveryMail AvatarSync Actions.

(** * Lemmas *)

(** The retry waits of [getUserWithRetry]: misses one after the other, each
    followed by a wait twice as long as the last one. *)
Fixpoint misses (userID : string) (baseWait : Z) (attempt : Z) (errs : list error) : trace :=
  match errs with
  | [] => []
  | e :: errs =>
      ev (KGetUser userID) (Err e) ::
      ev (Sleep (wrap64 (baseWait * wrap64 (2 ^ attempt)))) tt :: misses userID baseWait (attempt + 1) errs
  end.

Lemma getUser_loop_trace userID baseWait k attempt tr r :
  may (getUser_loop userID baseWait k attempt) tr r →
  ∃ errs res, tr = misses userID baseWait attempt errs ++ [ev (KGetUser userID) res] ∧
    r = Returned res ∧ (length errs ≤ k)%nat ∧ Forall (λ e, IsNotFound e = true) errs ∧
    (∀ e, res = Err e → IsNotFound e = true → length errs = k).
Proof.
  revert attempt tr r. induction k as [|k IH]; intros attempt tr r (a & tr1 & -> & Hm);
    destruct a as [u|e]; simpl in Hm.
  - destruct Hm as [-> ->]. exists [], (Ok u). by repeat split; auto.
  - destruct Hm as [-> ->]. exists [], (Err e). by repeat split; auto.
  - destruct Hm as [-> ->]. exists [], (Ok u). repeat split; simpl; auto with lia. done.
  - destruct (IsNotFound e) eqn:Hnf.
    + destruct Hm as ([] & tr2 & -> & Hm).
      apply IH in Hm as (errs & res & -> & -> & Hk & Hall & Hex).
      exists (e :: errs), res. repeat split; simpl; [lia|by constructor|].
      intros e' -> He'. by rewrite (Hex e').
    + destruct Hm as [-> ->]. exists [], (Err e). repeat split; simpl; auto with lia.
      intros e' [= <-]. congruence.
Qed.

Section Safe.
Context `{GoRuntime} `{ConflictRetry}.

Lemma storePendingAvatar_no P e u p :
  (∀ k v a, P (ev (MapStore k v) a) = false) → (∀ a, P (ev Now a) = false) →
  quiet (no P) (storePendingAvatar e u p).
Proof.
  intros Hs Hn. unfold storePendingAvatar. case_bool_decide; [by split|].
  intros t. simpl. intros []. simpl. unfold no, count. simpl. by rewrite Hn, Hs.
Qed.

Lemma applyPendingAvatar_no P uid e fm :
  (∀ k v a, P (ev (MapStore k v) a) = false) → (∀ a, P (ev Now a) = false) →
  (∀ k a, P (ev (MapLoadAndDelete k) a) = false) → (∀ n a, P (ev (KGetUser n) a) = false) →
  (∀ x y z a, P (ev (KPatchUserStatus x y z) a) = false) →
  quiet (no P) (applyPendingAvatarByEmail uid e fm).
Proof.
  intros Hs Hn Hl Hg Hp. unfold applyPendingAvatarByEmail. apply quiet_bind; [apply _| |].
  - unfold consumePendingAvatar. case_bool_decide; [by split|].
    intros [v|]; simpl; [|unfold no, count; simpl; by rewrite Hl].
    intros t. unfold no, count. simpl. by rewrite Hl, Hn.
  - intros [v|]; [|by split]. apply quiet_bind; [apply _| |].
    + intros [u|err]; simpl; [|unfold no, count; simpl; by rewrite Hg].
      intros err. simpl. unfold no, count. simpl. by rewrite Hg, Hp.
    + intros [err|]; [|by split]. apply quiet_bind; [apply _|by apply storePendingAvatar_no|].
      intros []. by split.
Qed.

Lemma SetVerified_quiet T (HT : TraceInv T) n v :
  (∀ a, T [ev (KGetUser n) a]) → (∀ u a b, T [ev (KGetUser n) a; ev (KUpdateUserStatus u) b]) →
  quiet T (SetVerified n v).
Proof.
  intros Hg Hu. unfold SetVerified. rewrite RetryOnConflict_doc.
  assert (∀ c, quiet T (set_attempt n v c)) as Hset.
  { intros c [u|e]; simpl; [|by split]. destruct (NeedsUpdate u v); simpl; [|by split].
    intros [e|]; simpl; by split. }
  generalize false. induction retry_steps as [|k IH]; intros c; cbn [attempts];
    (apply quiet_bind; [done|apply Hset|]); intros [c' [e|]]; try by apply quiet_ret.
  destruct (IsConflict e); [apply IH|by apply quiet_ret].
Qed.
End Safe.

(** Time spent sleeping along a trace. *)
Definition slept (e : event) : Z := match e with existT (Sleep d) _ => d | _ => 0 end.
Definition total_sleep (tr : trace) : Z := foldr (λ e t, slept e + t)%Z 0 tr.

Lemma total_sleep_app tr tr' : total_sleep (tr ++ tr') = (total_sleep tr + total_sleep tr')%Z.
Proof. induction tr as [|e tr IH]; simpl; [lia|]. rewrite IH. lia. Qed.

Lemma pow2_pos n : (0 ≤ n → 1 ≤ 2 ^ n)%Z.
Proof. intros. pose proof (Z.pow_pos_nonneg 2 n). lia. Qed.

(** Without overflow the waits are the geometric series b*2^a, b*2^(a+1), ... *)
Lemma misses_sleep uid b a errs :
  (0 ≤ b)%Z → (0 ≤ a)%Z → (Z.max b 1 * 2 ^ (a + Z.of_nat (length errs)) ≤ max_int64)%Z →
  total_sleep (misses uid b a errs) = (b * (2 ^ (a + Z.of_nat (length errs)) - 2 ^ a))%Z.
Proof.
  intros Hb. revert a. induction errs as [|e errs IH]; intros a Ha Hmax; simpl misses; simpl total_sleep.
  - rewrite Z.add_0_r. lia.
  - assert (a + Z.of_nat (length (e :: errs)) = a + 1 + Z.of_nat (length errs))%Z as Hlen by (simpl; lia).
    rewrite Hlen in Hmax |- *. rewrite IH by lia.
    assert (2 ^ (a + 1) = 2 * 2 ^ a)%Z as Hdouble by (rewrite Z.pow_add_r by lia; lia).
    assert (2 ^ (a + 1) ≤ 2 ^ (a + 1 + Z.of_nat (length errs)))%Z as Hmono by (apply Z.pow_le_mono_r; lia).
    pose proof (pow2_pos a Ha). unfold max_int64 in *.
    rewrite (wrap64_id (2 ^ a)), wrap64_id by (unfold min_int64, max_int64; nia). nia.
Qed.

Definition is_created (e : event) : bool := match e with existT (KCreateUser _) (Ok _) => true | _ => false end.

(** What an answer of create-user-account says about the calls made for it. *)
Definition create_account_post (tr : trace) (resp : HttpResponse) : Prop :=
  (count is_create_user tr ≤ 1)%nat ∧
  (rs_code resp = StatusCreated ↔ ∃ u u', ev (KCreateUser u) (Ok u') ∈ tr) ∧
  count is_create_event tr = (if bool_decide (rs_code resp = StatusCreated) then 1%nat else 0%nat) ∧
  (rs_code resp ≠ StatusCreated → count is_status_write tr = 0%nat) ∧
  (rs_code resp = StatusOK → ∃ u e, tr = [ev (KCreateUser u) (Err e)] ∧ IsAlreadyExists e = true).

Lemma create_account_rejected code msg :
  code ≠ StatusCreated → code ≠ StatusOK → create_account_post [] (http_error code msg).
Proof.
  intros H1 H2. unfold create_account_post, count. simpl. repeat split; try lia; try done.
  - intros (? & ? & Hin). by apply not_elem_of_nil in Hin.
  - by rewrite bool_decide_false.
Qed.

Lemma with_signed_body_wp s msg rq k (Q : trace → HttpResponse → Prop) :
  (∀ code m, code ≠ StatusCreated → code ≠ StatusOK → Q [] (http_error code m)) →
  (∀ body, rq_body rq = Ok body → validateSignature s body (rq_signature rq) (SigningKey (config s)) = None →
     wp (k body) (on_return Q)) →
  wp (with_signed_body s msg rq k) (on_return Q).
Proof.
  intros Hq Hk. unfold with_signed_body. destruct (rq_body rq) as [body|e] eqn:Hb; [|by apply Hq].
  destruct (validateSignature _ _ _ _) eqn:Hv; [by apply Hq|]. by apply Hk.
Qed.

Lemma post_only_wp rq k (Q : trace → HttpResponse → Prop) :
  Q [] method_not_allowed → (rq_method rq = "POST" → wp k (on_return Q)) →
  wp (post_only rq k) (on_return Q).
Proof. intros Hq Hk. unfold post_only. case_bool_decide; auto. Qed.

Lemma seed_email_verification_safe `{GoRuntime} `{ConflictRetry} T (HT : TraceInv T) s n :
  (∀ a, T [ev (ZGetUserByID n) a]) → (∀ m a, T [ev (KGetUser m) a]) →
  (∀ m u a b, T [ev (KGetUser m) a; ev (KUpdateUserStatus u) b]) →
  safe T (seed_email_verification s n).
Proof.
  intros Hz Hg Hu. unfold seed_email_verification.
  destruct (zapi_is_nil _); [by apply safe_ret|]. apply safe_bind; [done| |].
  - destruct (zitadelAPI s); [by apply safe_panic|by apply safe_panic|]. intros a. apply Hz.
  - intros [[zu|]|e]; try by apply safe_ret. apply safe_bind; [done| |intros; by apply safe_ret].
    apply quiet_safe. apply SetVerified_quiet; auto.
Qed.

(** * Properties *)

(** [getUserWithRetry] asks for the User at most max(1, attempts) times, stops
    at the first answer that is not "not found", returns that answer, gives up
    with "not found" only after the last attempt, and as long as the largest wait
    fits a Duration it sleeps baseWait * (2^n - 1) in total over n misses. *)
Theorem getUserWithRetry_bounded c uid tr r :
  may (getUserWithRetry c uid) tr r →
  let attempts := Z.max 1 (IdpIntentUserLookupAttempts c) in
  let base := Z.max 0 (IdpIntentUserLookupBaseWait c) in
  ∃ errs res,
    tr = misses uid base 0 errs ++ [ev (KGetUser uid) res] ∧ r = Returned res ∧
    (Z.of_nat (length errs) < attempts)%Z ∧ Forall (λ e, IsNotFound e = true) errs ∧
    (∀ e, res = Err e → IsNotFound e = true → Z.of_nat (length errs) = attempts - 1)%Z ∧
    ((Z.max base 1 * 2 ^ attempts ≤ max_int64)%Z →
     total_sleep tr = (base * (2 ^ Z.of_nat (length errs) - 1))%Z).
Proof.
  unfold getUserWithRetry. intros Hm. cbv zeta.
  apply getUser_loop_trace in Hm as (errs & res & -> & -> & Hk & Hall & Hex).
  exists errs, res. split; [done|]. split; [done|]. split; [lia|]. split; [done|]. split.
  - intros e He Hnf. rewrite (Hex e He Hnf). lia.
  - intros Hmax. rewrite total_sleep_app. simpl. rewrite misses_sleep; [|lia|lia|].
    + rewrite Z.add_0_l, Z.pow_0_r. lia.
    + rewrite Z.add_0_l. etrans; [|exact Hmax]. apply Z.mul_le_mono_nonneg_l; [lia|].
      apply Z.pow_le_mono_r; lia.
Qed.

(** C1: create-user-account is idempotent and never records a signup twice. In any
    execution that answers, the handler creates at most one User; it answers 201
    exactly when that create succeeded, and then records exactly one activity
    Event; every other answer records none and writes no status; "already exists"
    answers 200 after the create call and nothing else. *)
Theorem createUserAccount_records_once `{GoRuntime} `{ConflictRetry} s rq tr resp :
  may (createUserAccountHandler s rq) tr (Returned resp) → create_account_post tr resp.
Proof.
  intros Hm. apply (may_on_return _ _ _ _ Hm). apply post_only_wp.
  { by apply create_account_rejected. }
  intros _. apply with_signed_body_wp; [by apply create_account_rejected|]. intros body _ _.
  destruct (Unmarshal _ _ _) as [req|]; [|by apply create_account_rejected].
  destruct (negb _); [by apply create_account_rejected|].
  set (u := NewUser _ _ _ _). unfold EnsureUser. intros [u'|e]; simpl.
  - set (P e := is_create_user e || is_create_event e).
    apply (wp_bind_quiet (no P)); [by apply applyPendingAvatar_no|].
    intros _ tr1 [Hu1 He1]%no_or now err. simpl.
    apply (wp_bind_safe (no P)); [by apply seed_email_verification_safe; [apply _|..]; intros; unfold no| |done].
    intros _ tr2 [Hu2 He2]%no_or. unfold no, count in *. simpl. unfold create_account_post, count. simpl.
    rewrite !List.filter_app, !length_app. simpl. rewrite !List.filter_app, !length_app. simpl.
    rewrite Hu1, He1, Hu2, He2. repeat split; simpl; try lia; try done.
    intros _. exists u, u'. by constructor.
  - destruct (IsAlreadyExists e) eqn:Hex; simpl; unfold create_account_post, count; simpl;
      repeat split; simpl; try lia; try done; try (intros (? & ? & Hin));
      try (apply list_elem_of_singleton, (f_equal is_created) in Hin; done).
    eauto.
Qed.

(** * Witnesses *)

Lemma getUserWithRetry_bounded_witness :
  let c := NewServerConfig in
  let tr := run_trace fake (getUserWithRetry c "u2") one_user in
  ∃ errs res,
    tr = misses "u2" (250 * Millisecond) 0 errs ++ [ev (KGetUser "u2") res] ∧ length errs = 7%nat ∧
    total_sleep tr = (127 * (250 * Millisecond))%Z.
Proof.
  intros c tr.
  destruct (getUserWithRetry_bounded c "u2" tr _ (run_may fake (getUserWithRetry c "u2") one_user))
    as (errs & res & Htr & Hr & _ & _ & Hn & Hsleep).
  assert (res = Err not_found) as Hres.
  { assert ((run fake (getUserWithRetry c "u2") one_user).2 = Returned (Err not_found)) as Hrun
      by (vm_compute; reflexivity). rewrite Hrun in Hr. congruence. }
  specialize (Hn not_found Hres eq_refl).
  assert (length errs = 7%nat) as Hlen by (simpl in Hn; lia).
  exists errs, res. split; [exact Htr|]. split; [exact Hlen|].
  rewrite Hsleep by (vm_compute; discriminate). rewrite Hlen. vm_compute. reflexivity.
Defined.

Section Witnesses.
#[local] Existing Instance ascii_runtime.
#[local] Existing Instance default_retry.

Definition signup_body : string :=
  js "{'aggregateID':'u7','event_type':'user.human.added','event_payload':{'email':'a@b.c','firstName':'A','lastName':'B'}}".

Lemma createUserAccount_records_once_witness :
  let p := createUserAccountHandler ready_server (post signup_body) in
  create_account_post (run_trace fake p one_user) (mkResponse StatusCreated "created").
Proof.
  apply (createUserAccount_records_once ready_server (post signup_body)).
  apply run_may_to. vm_compute. reflexivity.
Defined.
End Witnesses.
