(* ===== verification/Gateway.v ===== *)
(** pkg/gateway/gateway.go: the two queries sent to the GraphQL gateway, and the HTTP client
    they are sent with (httpactionsserver/server.go, [buildHTTPClient]). *)

From S2P Require Import Prelude GoLib Prog Model Json.

(** [json.Marshal] of an object whose members are already rendered. *)
Definition json_member (k v : string) : string := quoted k +:+ ":" +:+ v.
Definition json_object (ms : list string) : string :=
  chr 123 +:+ foldr (λ m acc, if bool_decide (acc = EmptyString) then m else m +:+ "," +:+ acc) EmptyString ms
  +:+ chr 125.

Definition graphql_body (query : string) (var value : string) : string :=
  json_object [json_member "query" (json_string query);
               json_member "variables" (json_object [json_member var (json_string value)])].

Section Gateway.
Context `{GoRuntime}.

Record graphql_error := mkGraphqlError { ge_Message : string }.

Definition graphql_error_decoder : decoder graphql_error :=
  decode_struct [("message", string_field (λ x _, mkGraphqlError x))].

(** A slice of structs: null gives the nil slice, every element is decoded. *)
Definition slice_decoder {R} (d : decoder R) (zero : R) : json → option (list R) := λ j,
  match j with
  | JNull => Some []
  | JArr l => mapM (λ j, d j zero) l
  | _ => None
  end.

Definition envelope_decoder : decoder (list graphql_error) :=
  decode_struct [("errors", λ j _, slice_decoder graphql_error_decoder (mkGraphqlError EmptyString) j)].

(** A pointer to a struct. *)
Definition pointer_decoder {R} (d : decoder R) (zero : R) : decoder (option R) := λ j r,
  match j with
  | JNull => Some None
  | _ => Some <$> d j (default zero r)
  end.

Definition geo_decoder : decoder GeoLocation := decode_struct
  [("city", string_field (λ x g, mkGeo x (geo_Country g) (geo_CountryCode g) (geo_Formatted g)));
   ("country", string_field (λ x g, mkGeo (geo_City g) x (geo_CountryCode g) (geo_Formatted g)));
   ("countryCode", string_field (λ x g, mkGeo (geo_City g) (geo_Country g) x (geo_Formatted g)));
   ("formatted", string_field (λ x g, mkGeo (geo_City g) (geo_Country g) (geo_CountryCode g) x))].

Definition ua_decoder : decoder ParsedUserAgent := decode_struct
  [("browser", string_field (λ x u, mkUA x (ua_OS u) (ua_Formatted u)));
   ("os", string_field (λ x u, mkUA (ua_Browser u) x (ua_Formatted u)));
   ("formatted", string_field (λ x u, mkUA (ua_Browser u) (ua_OS u) x))].

Definition data_decoder {R} (field : string) (d : decoder R) (zero : R) : decoder (option R) :=
  decode_struct [("data", decode_struct [(field, pointer_decoder d zero)])].

(** Everything after the HTTP exchange.  The body is first read as one JSON value;
    an error list that decodes and is not empty wins over the data. *)
Definition read_response {R} (out : decoder (option R)) (body : string) : result (option R) :=
  match parse_prefix body with
  | None => Err (EWrap "gateway: decode response: " (EPlain (json_error_text body)))
  | Some (raw, _) =>
      match envelope_decoder raw [] with
      | Some (e :: _) => Err (EPlain ("gateway: " +:+ ge_Message e))
      | Some [] | None =>
          match out raw None with
          | Some r => Ok r
          | None => Err (EWrap "gateway: decode data: " (EPlain (json_error_text body)))
          end
      end
  end.

(** [do]: the shared transport. *)
Definition gateway_do {R} (url query var value : string) (out : decoder (option R)) : M (result (option R)) :=
  match url_parse url with
  | None => mret (Err (EPlain "gateway: create request: parse error"))
  | Some _ =>
      r ← call (HttpPost url (graphql_body query var value));
      mret match r with
           | Err e => Err (EWrap "gateway: http: " e)
           | Ok (status, body) =>
               if bool_decide (status = StatusOK) then read_response out body
               else Err (EPlain ("gateway: unexpected status " +:+ itoa status))
           end
  end.

Definition lookup_query : string :=
  "query GeolocateIP($ip: String!) {" +:+ newline +:+
  "  geolocateIP(ip: $ip) { city country countryCode formatted }" +:+ newline +:+ "}".

Definition LookupIP (gatewayURL ip : string) : M (result (option GeoLocation)) :=
  gateway_do gatewayURL lookup_query "ip" ip
    (data_decoder "geolocateIP" geo_decoder (mkGeo EmptyString EmptyString EmptyString EmptyString)).

Definition ua_query : string :=
  "query ParseUserAgent($ua: String!) {" +:+ newline +:+
  "  parseUserAgent(userAgent: $ua) { browser os formatted }" +:+ newline +:+ "}".

Definition ParseUserAgent (gatewayURL userAgent : string) : M (result (option ParsedUserAgent)) :=
  gateway_do gatewayURL ua_query "ua" userAgent
    (data_decoder "parseUserAgent" ua_decoder (mkUA EmptyString EmptyString EmptyString)).
End Gateway.

(** * buildHTTPClient *)

(** crypto/x509: what the host trusts, and the certificates a PEM file holds. *)
Class X509 := {
  RootCert : Type;
  SystemCertPool : result (list RootCert);
  parse_certificates : string → list RootCert }.

(** [AppendCertsFromPEM]: the pool afterwards, and whether a certificate was parsed. *)
Definition AppendCertsFromPEM `{X509} (pool : list RootCert) (pem : string) : list RootCert * bool :=
  let certs := parse_certificates pem in
  (pool ++ certs, match certs with [] => false | _ => true end).

(** [http.Client]; no roots of its own means the host's. *)
Record GatewayClient `{X509} := mkGatewayClient { gc_Timeout : Z; gc_RootCAs : option (list RootCert) }.
Arguments mkGatewayClient {_} _ _.

Definition buildHTTPClient `{X509} (caCertFile : string) : M GatewayClient :=
  roots ← (if bool_decide (caCertFile = EmptyString) then mret None
           else
             pem ← call (ReadFile caCertFile);
             mret match pem with
                  | Err _ => None
                  | Ok pem =>
                      let pool := match SystemCertPool with Ok pool => pool | Err _ => [] end in
                      let '(pool, ok) := AppendCertsFromPEM pool pem in
                      if ok then Some pool else None
                  end);
  mret (mkGatewayClient (5 * Second) roots).

(** The server always gets a client with a deadline: a CA file that is missing, unreadable or
    without a certificate leaves the host's trust as it is; a readable one with a
    certificate is trusted in addition. *)
Lemma buildHTTPClient_trust `{X509} path tr res :
  may (buildHTTPClient path) tr res →
  (path = EmptyString ∧ tr = [] ∨ ∃ r, tr = [ev (ReadFile path) r]) ∧
  ∃ c, res = Returned c ∧ gc_Timeout c = (5 * Second)%Z ∧
    ∀ pool, gc_RootCAs c = Some pool ↔
      ∃ pem, tr = [ev (ReadFile path) (Ok pem)] ∧ parse_certificates pem ≠ [] ∧
        pool = match SystemCertPool with Ok p => p | Err _ => [] end ++ parse_certificates pem.
Proof.
  unfold buildHTTPClient. case_bool_decide as Hpath.
  - intros [-> ->]. split; [by left|]. eexists. split; [done|]. split; [done|]. naive_solver.
  - intros (r & tr' & -> & -> & ->). split; [right; by exists r|]. eexists. split; [done|]. split; [done|].
    intros pool. destruct r as [pem|e]; simpl; [|naive_solver]. destruct (parse_certificates pem) as [|x l] eqn:Hp.
    + split; [done|]. intros (pem' & Heq & Hne & _). apply (inj (λ x, [x])) in Heq. apply ev_inj in Heq. naive_solver.
    + split; [intros [= <-]; exists pem; by rewrite Hp|].
      intros (pem' & Heq & _ & ->). apply (inj (λ x, [x])) in Heq. apply ev_inj in Heq. injection Heq as <-. by rewrite Hp.
Qed.
