(* ===== verification/Notify.v ===== *)
(** internal/httpactionsserver/passkey_added.go, passkey_removed.go and
    user_events.go: the lifecycle notifications of passkeys. *)

From S2P Require Import Prelude GoLib Prog Model Json Cluster Users RecoveryMail AvatarSync Actions.

Section Notify.
Context `{GoRuntime}.

(** The rendering of an event time shared by the notification emails: the raw
    string when it is not an RFC 3339 timestamp. *)
Definition display_time (s : string) : string :=
  match parse_rfc3339nano s with Some t => format_email_time t | None => s end.

(** The notification Email of the actions server: addressed to a User by
    reference, without labels or annotations, of high priority. *)
Definition notification_email (prefix id namespace template userName : string)
    (vars : list (string * string)) : Email :=
  mkEmail (prefix +:+ id) namespace ∅ ∅ template (UserRef userName) vars true.

Definition recordUserEvent (userName reason message : string) : M unit :=
  r ← call (KGetUser userName);
  let uid := match r with Ok user => u_uid user | Err _ => EmptyString end in
  RecordEvent userName uid reason message.

Definition passkeyEventMessage (verb passkeyName : string) : string :=
  if bool_decide (passkeyName = EmptyString) then "Passkey " +:+ verb
  else "Passkey " +:+ quote passkeyName +:+ " " +:+ verb.

Definition EventTypePasskeyVerified : string := "user.human.passwordless.token.verified".
Definition EventTypePasskeyAdded : string := "user.human.passwordless.token.added".
Definition EventTypePasskeyRemoved : string := "user.human.passwordless.token.removed".

Record passkeyAddedRequest := mkPasskeyReq {
  pr_AggregateID : string;
  pr_EventType : string;
  pr_CreatedAt : string;
  pr_UserID : string;
  pr_WebAuthNTokenID : string;
  pr_WebAuthNTokenName : string;
  pr_Name : string }.

Definition zero_passkeyReq : passkeyAddedRequest :=
  mkPasskeyReq EmptyString EmptyString EmptyString EmptyString EmptyString EmptyString EmptyString.

Definition passkeyReq_payload : decoder passkeyAddedRequest := decode_struct
  [("webAuthNTokenId", string_field (λ x r, mkPasskeyReq (pr_AggregateID r) (pr_EventType r) (pr_CreatedAt r) (pr_UserID r) x (pr_WebAuthNTokenName r) (pr_Name r)));
   ("webAuthNTokenName", string_field (λ x r, mkPasskeyReq (pr_AggregateID r) (pr_EventType r) (pr_CreatedAt r) (pr_UserID r) (pr_WebAuthNTokenID r) x (pr_Name r)));
   ("name", string_field (λ x r, mkPasskeyReq (pr_AggregateID r) (pr_EventType r) (pr_CreatedAt r) (pr_UserID r) (pr_WebAuthNTokenID r) (pr_WebAuthNTokenName r) x))].

Definition passkeyReq_decoder : decoder passkeyAddedRequest := decode_struct
  [("aggregateID", string_field (λ x r, mkPasskeyReq x (pr_EventType r) (pr_CreatedAt r) (pr_UserID r) (pr_WebAuthNTokenID r) (pr_WebAuthNTokenName r) (pr_Name r)));
   ("event_type", string_field (λ x r, mkPasskeyReq (pr_AggregateID r) x (pr_CreatedAt r) (pr_UserID r) (pr_WebAuthNTokenID r) (pr_WebAuthNTokenName r) (pr_Name r)));
   ("created_at", string_field (λ x r, mkPasskeyReq (pr_AggregateID r) (pr_EventType r) x (pr_UserID r) (pr_WebAuthNTokenID r) (pr_WebAuthNTokenName r) (pr_Name r)));
   ("userID", string_field (λ x r, mkPasskeyReq (pr_AggregateID r) (pr_EventType r) (pr_CreatedAt r) x (pr_WebAuthNTokenID r) (pr_WebAuthNTokenName r) (pr_Name r)));
   ("event_payload", passkeyReq_payload)].

Definition passkeyName (req : passkeyAddedRequest) : string :=
  if negb (bool_decide (pr_WebAuthNTokenName req = EmptyString)) then pr_WebAuthNTokenName req else pr_Name req.

Definition passkey_added_vars (user : User) (addedAt name : string) : list (string * string) :=
  [("UserName", display_name user); ("PasskeyName", name); ("AddedTime", display_time addedAt);
   ("Browser", EmptyString); ("Device", EmptyString)].

Definition sendPasskeyAddedEmail (s : Server) (userID addedAt name : string) : M (option error) :=
  if bool_decide (PasskeyAddedEmailTemplate (config s) = EmptyString) then mret None
  else
    r ← call (KGetUser userID);
    match r with
    | Err e => mret (Some (EWrap ("failed to get user " +:+ quote userID +:+ ": ") e))
    | Ok user =>
        id ← call NewUUID;
        e ← call (KCreateEmail (notification_email "passkey-added-" id (NotificationNamespace (config s))
                   (PasskeyAddedEmailTemplate (config s)) (u_name user) (passkey_added_vars user addedAt name)));
        mret (EWrap "failed to create passkey-added Email resource: " <$> e)
    end.

Definition passkeyAddedHandler (s : Server) (r : HttpRequest) : M HttpResponse :=
  post_only r $
  with_signed_body s failed_to_read_err r $ λ body,
  match Unmarshal passkeyReq_decoder zero_passkeyReq body with
  | None => mret (http_error StatusBadRequest ("invalid request body: " +:+ json_error_text body))
  | Some req =>
      if negb (bool_decide (pr_EventType req = EventTypePasskeyVerified)) then
        mret (http_error StatusBadRequest ("unsupported event type: " +:+ pr_EventType req))
      else
        let userID := pr_AggregateID req in
        if bool_decide (userID = EmptyString) then
          mret (http_error StatusBadRequest "userID not found in payload")
        else
          _ ← sendPasskeyAddedEmail s userID (pr_CreatedAt req) (passkeyName req);
          _ ← recordUserEvent userID EventReasonPasskeyEnrolled (passkeyEventMessage "added" (passkeyName req));
          mret (mkResponse StatusOK "success")
  end.

(** * passkey_removed.go *)

Definition name_decoder : decoder string := decode_struct [("name", string_field (λ x _, x))].

Fixpoint metadata_name (want : string) (entries : list UserMetadata) : string :=
  match entries with
  | [] => EmptyString
  | e :: entries =>
      if negb (bool_decide (md_Key e = want)) then metadata_name want entries
      else match Unmarshal name_decoder EmptyString (md_Value e) with
           | None => EmptyString
           | Some n => n
           end
  end.

Definition passkeyNameFromMetadata (api : zapi) (userID tokenID : string) : M string :=
  if zapi_is_nil api || bool_decide (tokenID = EmptyString) then mret EmptyString
  else
    r ← zcall api (ZListUserMetadata userID);
    mret match r with
         | Err _ => EmptyString
         | Ok entries => metadata_name ("passkey:" +:+ tokenID +:+ ":created") entries
         end.

Definition passkey_removed_vars (user : User) (removedAt name : string) : list (string * string) :=
  [("UserName", display_name user); ("RemovedTime", display_time removedAt); ("PasskeyName", name)].

Definition sendPasskeyRemovedEmail (s : Server) (userID removedAt name : string) : M (option error) :=
  if bool_decide (PasskeyRemovedEmailTemplate (config s) = EmptyString) then mret None
  else
    r ← call (KGetUser userID);
    match r with
    | Err e => mret (Some (EWrap ("failed to get User " +:+ quote userID +:+ ": ") e))
    | Ok user =>
        id ← call NewUUID;
        e ← call (KCreateEmail (notification_email "passkey-removed-" id (NotificationNamespace (config s))
                   (PasskeyRemovedEmailTemplate (config s)) (u_name user) (passkey_removed_vars user removedAt name)));
        mret (EWrap "failed to create passkey-removed Email resource: " <$> e)
    end.

Definition passkeyRemovedHandler (s : Server) (r : HttpRequest) : M HttpResponse :=
  post_only r $
  with_signed_body s failed_to_read_err r $ λ body,
  match Unmarshal passkeyReq_decoder zero_passkeyReq body with
  | None => mret (http_error StatusBadRequest ("invalid request body: " +:+ json_error_text body))
  | Some req =>
      if negb (bool_decide (pr_EventType req = EventTypePasskeyRemoved)) then mret (mkResponse StatusOK "ignored")
      else
        let userID := pr_AggregateID req in
        if bool_decide (userID = EmptyString) then
          mret (http_error StatusBadRequest "userID not found in payload")
        else
          name ← passkeyNameFromMetadata (zitadelAPI s) userID (pr_WebAuthNTokenID req);
          _ ← sendPasskeyRemovedEmail s userID (pr_CreatedAt req) name;
          _ ← recordUserEvent userID EventReasonPasskeyRemoved (passkeyEventMessage "removed" name);
          mret (mkResponse StatusOK "success")
  end.
End Notify.

(** * Lemmas *)

(** The calls of one best-effort notification: none when the template is not
    configured; otherwise a lookup of the subject and, when it succeeds, one
    creation of the Email [mk user id]. *)
Definition notified (template uid : string) (mk : User → string → Email) (tr : trace) : Prop :=
  (template = EmptyString ∧ tr = []) ∨
  (template ≠ EmptyString ∧
   ((∃ e, tr = [ev (KGetUser uid) (Err e)]) ∨
    (∃ u id err, tr = [ev (KGetUser uid) (Ok u); ev NewUUID id; ev (KCreateEmail (mk u id)) err]))).

(** The calls of [recordUserEvent]: a lookup for the UID, the clock, one Event. *)
Definition recorded (uid reason message : string) (tr : trace) : Prop :=
  ∃ (r : result User) (t : Z) (err : option error), tr = [ev (KGetUser uid) r; ev Now t;
    ev (KCreateEvent (mkEvent (uid +:+ "." +:+ format_hex t) EventNamespace uid
         (match r with Ok u => u_uid u | Err _ => EmptyString end) reason message EventComponent t)) err].

(** A program that sends a notification and always returns. *)
Definition notifies (template uid : string) (mk : User → string → Email) (p : M (option error)) : Prop :=
  wp p (λ tr r, notified template uid mk tr ∧ r ≠ Panicked).

(** The shape the three senders share. *)
Lemma notifies_send template uid mk (f : error → error) (g : option error → option error) :
  notifies template uid mk
    (if bool_decide (template = EmptyString) then mret None
     else
       r ← call (KGetUser uid);
       match r with
       | Err e => mret (Some (f e))
       | Ok user => id ← call NewUUID; e ← call (KCreateEmail (mk user id)); mret (g e)
       end).
Proof.
  unfold notifies, notified. case_bool_decide as Ht; simpl; [by split; [left|]|].
  intros [u|e]; simpl; [|split; [eauto 10|done]]. intros id err. split; [|done]. eauto 10.
Qed.

Lemma recordUserEvent_wp uid reason message :
  wp (recordUserEvent uid reason message) (λ tr r, recorded uid reason message tr ∧ r = Returned tt).
Proof.
  unfold recordUserEvent, RecordEvent, recorded. simpl. intros r t err. split; [|done].
  exists r, t, err. by destruct r.
Qed.

Section Passkeys.
Context `{GoRuntime}.

Definition added_email (s : Server) (addedAt name : string) (u : User) (id : string) : Email :=
  notification_email "passkey-added-" id (NotificationNamespace (config s))
    (PasskeyAddedEmailTemplate (config s)) (u_name u) (passkey_added_vars u addedAt name).

Definition removed_email (s : Server) (removedAt name : string) (u : User) (id : string) : Email :=
  notification_email "passkey-removed-" id (NotificationNamespace (config s))
    (PasskeyRemovedEmailTemplate (config s)) (u_name u) (passkey_removed_vars u removedAt name).

(** What follows the validation in both handlers. *)
Lemma notify_record_wp template uid mk reason msg p (Q : trace → HttpResponse → Prop) :
  notifies template uid mk p →
  (∀ tr1 tr2, notified template uid mk tr1 → recorded uid reason msg tr2 →
     Q (tr1 ++ tr2) (mkResponse StatusOK "success")) →
  wp (_ ← p; _ ← recordUserEvent uid reason msg; mret (mkResponse StatusOK "success")) (on_return Q).
Proof.
  intros Hp HQ. rewrite wp_bind. apply (wp_mono p _ _ Hp). intros tr1 [e|] [H1 Hr]; simpl; [|done].
  intros r t err. simpl. change (on_return Q ?a ?b) with (Q a (mkResponse StatusOK "success")). apply HQ; [done|].
  exists r, t, err. by destruct r.
Qed.

(** The calls of [passkeyNameFromMetadata] and the name it finds. *)
Definition name_lookup (api : zapi) (uid tokenID name : string) (tr : trace) : Prop :=
  ((api = ZNil ∨ tokenID = EmptyString) ∧ tr = [] ∧ name = EmptyString) ∨
  (api = ZReady ∧ tokenID ≠ EmptyString ∧
   ∃ r : result (list UserMetadata), tr = [ev (ZListUserMetadata uid) r] ∧
        name = match r with
               | Ok entries => metadata_name ("passkey:" +:+ tokenID +:+ ":created") entries
               | Err _ => EmptyString
               end).

Lemma passkeyNameFromMetadata_wp api uid tok :
  wp (passkeyNameFromMetadata api uid tok) (on_return (λ tr name, name_lookup api uid tok name tr)).
Proof.
  unfold passkeyNameFromMetadata, name_lookup.
  destruct api; simpl; [by left; auto| |]; case_bool_decide; simpl; auto.
  intros r. right. eauto.
Qed.
End Passkeys.

(** * Properties *)

(** Passkey-added acts on the subject of the event, and a failing notification
    never fails the webhook. Any execution that answers either rejects the request
    and makes no call at all, or answers 200 after at most one Email, built for
    the aggregate of the event and never for the creator, and exactly one
    PasskeyEnrolled activity Event on that aggregate. *)
Theorem passkeyAdded_trace `{GoRuntime} s rq tr resp :
  may (passkeyAddedHandler s rq) tr (Returned resp) →
  (rs_code resp ≠ StatusOK ∧ tr = []) ∨
  (rs_code resp = StatusOK ∧ ∃ body req tr1 tr2,
     rq_body rq = Ok body ∧ Unmarshal passkeyReq_decoder zero_passkeyReq body = Some req ∧
     pr_EventType req = EventTypePasskeyVerified ∧ pr_AggregateID req ≠ EmptyString ∧
     tr = tr1 ++ tr2 ∧
     notified (PasskeyAddedEmailTemplate (config s)) (pr_AggregateID req)
       (added_email s (pr_CreatedAt req) (passkeyName req)) tr1 ∧
     recorded (pr_AggregateID req) EventReasonPasskeyEnrolled (passkeyEventMessage "added" (passkeyName req)) tr2).
Proof.
  intros Hm. on_returns Hm. unfold passkeyAddedHandler, post_only.
  case_bool_decide; [|by left]. unfold with_signed_body.
  destruct (rq_body rq) as [body|e]; [|by left]. destruct (validateSignature _ _ _ _); [by left|].
  destruct (Unmarshal _ _ _) as [req|] eqn:Hu; [|by left].
  case_bool_decide as Ht; [|by left]. simpl. case_bool_decide as Ha; [by left|].
  eapply notify_record_wp; [apply notifies_send|]. intros tr1 tr2 H1 H2.
  right. split; [done|]. exists body, req, tr1, tr2. done.
Qed.

(** Passkey-removed always sends the variable PasskeyName, empty when the name
    cannot be established, and resolves the subject from the aggregate. Any
    execution that answers makes no call (rejected, or an ignored event type
    answered 200), or reads the name from the user's metadata at most once, sends
    at most one Email with exactly the variables UserName, RemovedTime,
    PasskeyName, and records exactly one PasskeyRemoved activity Event. *)
Theorem passkeyRemoved_trace `{GoRuntime} s rq tr resp :
  may (passkeyRemovedHandler s rq) tr (Returned resp) →
  (tr = [] ∧ (rs_code resp ≠ StatusOK ∨ resp = mkResponse StatusOK "ignored")) ∨
  (resp = mkResponse StatusOK "success" ∧ ∃ body req name tr0 tr1 tr2,
     rq_body rq = Ok body ∧ Unmarshal passkeyReq_decoder zero_passkeyReq body = Some req ∧
     pr_EventType req = EventTypePasskeyRemoved ∧ pr_AggregateID req ≠ EmptyString ∧
     tr = tr0 ++ tr1 ++ tr2 ∧
     name_lookup (zitadelAPI s) (pr_AggregateID req) (pr_WebAuthNTokenID req) name tr0 ∧
     notified (PasskeyRemovedEmailTemplate (config s)) (pr_AggregateID req)
       (removed_email s (pr_CreatedAt req) name) tr1 ∧
     recorded (pr_AggregateID req) EventReasonPasskeyRemoved (passkeyEventMessage "removed" name) tr2).
Proof.
  intros Hm. on_returns Hm. unfold passkeyRemovedHandler, post_only.
  case_bool_decide; [|by left; split; [|left]]. unfold with_signed_body.
  destruct (rq_body rq) as [body|e]; [|by left; split; [|left]].
  destruct (validateSignature _ _ _ _); [by left; split; [|left]|].
  destruct (Unmarshal _ _ _) as [req|] eqn:Hu; [|by left; split; [|left]].
  case_bool_decide as Ht; [|by left; split; [|right]]. simpl. case_bool_decide as Ha; [by left; split; [|left]|].
  rewrite wp_bind. eapply wp_mono; [apply passkeyNameFromMetadata_wp|].
  intros tr0 [name|] Hn; simpl in *; [|done].
  eapply (notify_record_wp _ _ _ _ _ _ (λ tr' r', _ (tr0 ++ tr') r')); [apply notifies_send|].
  intros tr1 tr2 H1 H2. right. split; [done|]. exists body, req, name, tr0, tr1, tr2. done.
Qed.

(** * Witnesses *)

Section Witnesses.
#[local] Existing Instance ascii_runtime.

Definition passkey_body (event : string) : string :=
  js ("{'aggregateID':'u1','event_type':'" +:+ event +:+ "','userID':'login-client'," +:+
      "'event_payload':{'webAuthNTokenId':'t1','webAuthNTokenName':'laptop'}}").

Lemma passkeyAdded_trace_witness :
  let tr := run_trace fake (passkeyAddedHandler ready_server (post (passkey_body EventTypePasskeyVerified))) one_user in
  ∃ tr1 tr2, tr = tr1 ++ tr2 ∧ count is_create_email tr = 1%nat ∧
    recorded "u1" EventReasonPasskeyEnrolled (passkeyEventMessage "added" "laptop") tr2.
Proof.
  intros tr.
  destruct (passkeyAdded_trace ready_server (post (passkey_body EventTypePasskeyVerified)) tr
              (mkResponse StatusOK "success")) as [[Hc _]|(_ & body & req & tr1 & tr2 & Hb & Hu & _ & _ & Htr & _ & H2)].
  - apply run_may_to. vm_compute. reflexivity.
  - by destruct Hc.
  - exists tr1, tr2. split; [exact Htr|]. split; [vm_compute; reflexivity|].
    injection Hb as <-. vm_compute in Hu. injection Hu as <-. exact H2.
Defined.

Lemma passkeyRemoved_trace_witness :
  let tr := run_trace fake (passkeyRemovedHandler ready_server (post (passkey_body EventTypePasskeyRemoved))) one_user in
  ∃ name tr0 tr1 tr2, tr = tr0 ++ tr1 ++ tr2 ∧ count is_create_email tr = 1%nat ∧
    name_lookup ZReady "u1" "t1" name tr0.
Proof.
  intros tr.
  destruct (passkeyRemoved_trace ready_server (post (passkey_body EventTypePasskeyRemoved)) tr
              (mkResponse StatusOK "success"))
    as [[_ [Hc|Hc]]|(_ & body & req & name & tr0 & tr1 & tr2 & Hb & Hu & _ & _ & Htr & H0 & _)].
  - apply run_may_to. vm_compute. reflexivity.
  - by destruct Hc.
  - discriminate Hc.
  - exists name, tr0, tr1, tr2. split; [exact Htr|]. split; [vm_compute; reflexivity|].
    injection Hb as <-. vm_compute in Hu. injection Hu as <-. exact H0.
Defined.
End Witnesses.
