(* ===== verification/SessionAdded.v ===== *)
(** internal/httpactionsserver/session_added.go: the detection of suspicious
    logins and its notification email. *)

From S2P Require Import Prelude GoLib Prog Model Json Cluster Users RecoveryMail AvatarSync Actions Gateway Notify.

Record userAgent := mkUserAgent { ua_IP : string; ua_FingerprintID : string; ua_Description : string }.

Record sessionAddedRequest := mkSessionReq {
  sr_AggregateID : string;
  sr_EventType : string;
  sr_CreatedAt : string;
  sr_PayloadUserID : string;
  sr_SessionID : string;
  sr_UserAgent : option userAgent }.

Definition zero_sessionReq : sessionAddedRequest :=
  mkSessionReq EmptyString EmptyString EmptyString EmptyString EmptyString None.

Section SessionAdded.
Context `{GoRuntime}.

Definition userAgent_decoder : decoder userAgent := decode_struct
  [("ip", string_field (λ x u, mkUserAgent x (ua_FingerprintID u) (ua_Description u)));
   ("fingerprint_id", string_field (λ x u, mkUserAgent (ua_IP u) x (ua_Description u)));
   ("description", string_field (λ x u, mkUserAgent (ua_IP u) (ua_FingerprintID u) x))].

Definition sessionReq_payload : decoder sessionAddedRequest := decode_struct
  [("userID", string_field (λ x r, mkSessionReq (sr_AggregateID r) (sr_EventType r) (sr_CreatedAt r) x (sr_SessionID r) (sr_UserAgent r)));
   ("sessionID", string_field (λ x r, mkSessionReq (sr_AggregateID r) (sr_EventType r) (sr_CreatedAt r) (sr_PayloadUserID r) x (sr_UserAgent r)));
   ("userAgent", λ j r,
      ua ← pointer_decoder userAgent_decoder (mkUserAgent EmptyString EmptyString EmptyString) j (sr_UserAgent r);
      Some (mkSessionReq (sr_AggregateID r) (sr_EventType r) (sr_CreatedAt r) (sr_PayloadUserID r) (sr_SessionID r) ua))].

Definition sessionReq_decoder : decoder sessionAddedRequest := decode_struct
  [("aggregateID", string_field (λ x r, mkSessionReq x (sr_EventType r) (sr_CreatedAt r) (sr_PayloadUserID r) (sr_SessionID r) (sr_UserAgent r)));
   ("aggregateType", ignored_string); ("resourceOwner", ignored_string); ("instanceID", ignored_string);
   ("version", ignored_string); ("sequence", int_field (λ _ r, r));
   ("event_type", string_field (λ x r, mkSessionReq (sr_AggregateID r) x (sr_CreatedAt r) (sr_PayloadUserID r) (sr_SessionID r) (sr_UserAgent r)));
   ("created_at", string_field (λ x r, mkSessionReq (sr_AggregateID r) (sr_EventType r) x (sr_PayloadUserID r) (sr_SessionID r) (sr_UserAgent r)));
   ("userID", ignored_string);
   ("event_payload", sessionReq_payload)].

(** * The session history *)

Fixpoint findSessionByID (sessions : list Session) (id : string) : option Session :=
  match sessions with
  | [] => None
  | s :: sessions => if bool_decide (s_ID s = id) then Some s else findSessionByID sessions id
  end.

Fixpoint getPreviousSessions (sessions : list Session) (currentSessionID : string) : list Session :=
  match sessions with
  | [] => []
  | s :: sessions =>
      if bool_decide (s_ID s = currentSessionID) then getPreviousSessions sessions currentSessionID
      else s :: getPreviousSessions sessions currentSessionID
  end.

(** * Browser and device families *)

Definition unknownDevice : string := "Unknown Device".
Definition unknownBrowser : string := "Unknown Browser".

Definition comma : ascii := ascii_of_N 44.

(** The [switch] of the comma-separated form: the first part that names a family. *)
Fixpoint first_family (family : string → option string) (parts : list string) : option string :=
  match parts with
  | [] => None
  | p :: parts =>
      match family (TrimSpace p) with Some f => Some f | None => first_family family parts end
  end.

Definition device_word (w : string) : option string :=
  if bool_decide (w = "iphone") then Some "iPhone"
  else if bool_decide (w = "ipad") then Some "iPad"
  else if bool_decide (w = "android") then Some "Android Device"
  else if bool_decide (w ∈ ["macintosh"; "mac os"; "macos"; "mac os x"]) then Some "Mac"
  else if bool_decide (w = "windows") then Some "Windows PC"
  else if bool_decide (w = "linux") then Some "Linux PC"
  else None.

Definition device_substring (uaLower : string) : string :=
  if contains uaLower "iphone" then "iPhone"
  else if contains uaLower "ipad" then "iPad"
  else if contains uaLower "android" then "Android Device"
  else if contains uaLower "macintosh" || contains uaLower "mac os" || contains uaLower "macos" then "Mac"
  else if contains uaLower "windows" then "Windows PC"
  else if contains uaLower "linux" then "Linux PC"
  else unknownDevice.

Definition parseDevice (ua : string) : string :=
  let uaLower := ToLower ua in
  match (if contains uaLower "," then first_family device_word (split_char comma uaLower) else None) with
  | Some d => d
  | None => device_substring uaLower
  end.

Definition browser_word (w : string) : option string :=
  if bool_decide (w ∈ ["firefox"; "fxios"]) then Some "Firefox"
  else if bool_decide (w ∈ ["edge"; "edg"]) then Some "Edge"
  else if bool_decide (w ∈ ["opera"; "opr"]) then Some "Opera"
  else if bool_decide (w ∈ ["chrome"; "crios"]) then Some "Chrome"
  else if bool_decide (w = "safari") then Some "Safari"
  else None.

Definition browser_substring (uaLower : string) : string :=
  if contains uaLower "firefox/" || contains uaLower "fxios/" then "Firefox"
  else if contains uaLower "edg/" || contains uaLower "edge/" then "Edge"
  else if contains uaLower "opr/" || contains uaLower "opera/" then "Opera"
  else if contains uaLower "chrome/" || contains uaLower "crios/" then "Chrome"
  else if contains uaLower "safari/" then "Safari"
  else unknownBrowser.

Definition parseBrowser (ua : string) : string :=
  let uaLower := ToLower ua in
  match (if contains uaLower "," then first_family browser_word (split_char comma uaLower) else None) with
  | Some b => b
  | None => browser_substring uaLower
  end.

Definition userAgentKey (ua : string) : string :=
  let device := parseDevice ua in
  let browser := parseBrowser ua in
  if bool_decide (device = unknownDevice ∧ browser = unknownBrowser) then ua
  else browser +:+ " on " +:+ device.

(** * The decision *)

Record seen := mkSeen { ipSeen : bool; userAgentSeen : bool; fingerprintSeen : bool }.

(** The loop body, updating the three flags in turn. *)
Definition see (currentIP currentUserAgentKey currentFingerprint : string) (s : seen) (sess : Session) : seen :=
  mkSeen
    (if bool_decide (s_IP sess = currentIP) then true else ipSeen s)
    (if negb (bool_decide (s_UserAgent sess = EmptyString)) &&
        bool_decide (userAgentKey (s_UserAgent sess) = currentUserAgentKey)
     then true else userAgentSeen s)
    (if negb (bool_decide (currentFingerprint = EmptyString)) &&
        bool_decide (s_FingerprintID sess = currentFingerprint)
     then true else fingerprintSeen s).

Definition isSuspiciousLogin (previousSessions : list Session)
    (currentIP currentUserAgent currentFingerprint : string) : bool :=
  match previousSessions with
  | [] => false
  | _ =>
      let s := foldl (see currentIP (userAgentKey currentUserAgent) currentFingerprint)
                 (mkSeen false false false) previousSessions in
      let isNewIP := negb (bool_decide (currentIP = EmptyString)) && negb (ipSeen s) in
      let isNewUserAgent := negb (bool_decide (currentUserAgent = EmptyString)) && negb (userAgentSeen s) in
      let isNewFingerprint := negb (bool_decide (currentFingerprint = EmptyString)) && negb (fingerprintSeen s) in
      isNewIP || isNewUserAgent || isNewFingerprint
  end.

(** * The notification *)

Definition resolveLocation (s : Server) (ip : string) : M string :=
  if bool_decide (GraphQLGatewayURL (config s) = EmptyString ∨ ip = EmptyString) then mret ip
  else
    r ← LookupIP (GraphQLGatewayURL (config s)) ip;
    mret match r with
         | Err _ | Ok None => ip
         | Ok (Some geo) => if bool_decide (geo_Formatted geo = EmptyString) then ip else geo_Formatted geo
         end.

Definition resolveUserAgent (s : Server) (ua : string) : M (string * string) :=
  if negb (bool_decide (GraphQLGatewayURL (config s) = EmptyString)) && negb (bool_decide (ua = EmptyString)) then
    r ← ParseUserAgent (GraphQLGatewayURL (config s)) ua;
    mret match r with
         | Ok (Some parsed) => (ua_OS parsed, ua_Browser parsed)
         | Ok None | Err _ => (parseDevice ua, parseBrowser ua)
         end
  else mret (parseDevice ua, parseBrowser ua).

Definition suspicious_login_vars (user : User) (signInTime ip device browser location : string)
    : list (string * string) :=
  [("UserName", display_name user); ("Email", u_email user); ("Location", location);
   ("SignInTime", display_time signInTime); ("Browser", browser); ("Device", device); ("IpAddress", ip)].

Definition sendSuspiciousLoginEmail (s : Server) (userID signInTime ip device browser location : string)
    : M (option error) :=
  if bool_decide (SuspiciousLoginEmailTemplate (config s) = EmptyString) then mret None
  else
    r ← call (KGetUser userID);
    match r with
    | Err e => mret (Some (EWrap ("failed to get user " +:+ quote userID +:+ ": ") e))
    | Ok user =>
        id ← call NewUUID;
        e ← call (KCreateEmail (notification_email "suspicious-login-" id (NotificationNamespace (config s))
                   (SuspiciousLoginEmailTemplate (config s)) (u_name user)
                   (suspicious_login_vars user signInTime ip device browser location)));
        mret (EWrap "failed to create suspicious login Email resource: " <$> e)
    end.

Definition handleSuspiciousLogin (s : Server) (userID signInTime ip ua : string) : M unit :=
  '(device, browser) ← resolveUserAgent s ua;
  location ← resolveLocation s ip;
  _ ← sendSuspiciousLoginEmail s userID signInTime ip device browser location;
  mret ().

(** * The handler *)

Definition apply_pending_on_login (s : Server) (userID : string) : M unit :=
  r ← zcall (zitadelAPI s) (ZGetUserByID userID);
  match r with
  | Ok (Some zu) =>
      if bool_decide (z_Email zu = EmptyString) then mret ()
      else _ ← applyPendingAvatarByEmail userID (z_Email zu) "session-added"; mret ()
  | Ok None | Err _ => mret ()
  end.

Definition current_session_id (req : sessionAddedRequest) : string :=
  if bool_decide (sr_SessionID req = EmptyString) then sr_AggregateID req else sr_SessionID req.

(** What is done with the sessions once they are listed. *)
Definition check_login (s : Server) (req : sessionAddedRequest) (sessions : list Session) : M HttpResponse :=
  let ua := default (mkUserAgent EmptyString EmptyString EmptyString) (sr_UserAgent req) in
  let sessionID := current_session_id req in
  if (match findSessionByID sessions sessionID with Some c => s_PasskeyVerified c | None => false end)
  then mret (mkResponse StatusOK "success")
  else
    let previousSessions := getPreviousSessions sessions sessionID in
    _ ← (match previousSessions with
         | [] => mret ()
         | _ =>
             if isSuspiciousLogin previousSessions (ua_IP ua) (ua_Description ua) (ua_FingerprintID ua)
             then handleSuspiciousLogin s (sr_PayloadUserID req) (sr_CreatedAt req) (ua_IP ua) (ua_Description ua)
             else mret ()
         end);
    mret (mkResponse StatusOK "success").

Definition sessionAddedHandler (s : Server) (r : HttpRequest) : M HttpResponse :=
  post_only r $
  with_signed_body s failed_to_read_err r $ λ body,
  match Unmarshal sessionReq_decoder zero_sessionReq body with
  | None => mret (http_error StatusBadRequest ("invalid request body: " +:+ json_error_text body))
  | Some req =>
      if negb (bool_decide (sr_EventType req = "oidc_session.added")) then
        mret (http_error StatusBadRequest ("unsupported event type: " +:+ sr_EventType req))
      else
        let userID := sr_PayloadUserID req in
        if bool_decide (userID = EmptyString) then
          mret (http_error StatusBadRequest "userID not found in payload")
        else if zapi_is_nil (zitadelAPI s) then
          mret (http_error StatusServiceUnavailable "zitadel sdk client not configured")
        else
          _ ← apply_pending_on_login s userID;
          sessions ← zcall (zitadelAPI s) (ZListSessions userID);
          match sessions with
          | Err e => mret (http_error StatusInternalServerError ("failed to list sessions: " +:+ Error e))
          | Ok sessions => check_login s req sessions
          end
  end.
End SessionAdded.

(** * Lemmas *)

Section Decision.
Context `{GoRuntime}.

(** The three comparisons of the loop, on one earlier session. *)
Definition same_ip (ip : string) (s : Session) : bool := bool_decide (s_IP s = ip).
Definition same_agent (key : string) (s : Session) : bool :=
  negb (bool_decide (s_UserAgent s = EmptyString)) && bool_decide (userAgentKey (s_UserAgent s) = key).
Definition same_fingerprint (fp : string) (s : Session) : bool :=
  negb (bool_decide (fp = EmptyString)) && bool_decide (s_FingerprintID s = fp).

Lemma fold_see ip key fp prev s0 :
  foldl (see ip key fp) s0 prev =
    mkSeen (ipSeen s0 || existsb (same_ip ip) prev) (userAgentSeen s0 || existsb (same_agent key) prev)
      (fingerprintSeen s0 || existsb (same_fingerprint fp) prev).
Proof.
  revert s0. induction prev as [|s prev IH]; intros s0; simpl.
  - rewrite !orb_false_r. by destruct s0.
  - rewrite IH. simpl. unfold same_ip, same_agent, same_fingerprint.
    f_equal; rewrite orb_assoc; f_equal; case_match; by rewrite ?orb_true_r, ?orb_false_r.
Qed.

Lemma existsb_false_iff {A} (f : A → bool) l : existsb f l = false ↔ ∀ x, x ∈ l → f x = false.
Proof.
  induction l as [|x l IH]; simpl; [split; [intros _ x Hx; by apply not_elem_of_nil in Hx|done]|].
  rewrite orb_false_iff, IH. split.
  - intros [Hx Hl] y [->|Hy]%elem_of_cons; auto.
  - intros Hall. split; [apply Hall; by left|]. intros y Hy. apply Hall. by right.
Qed.

Lemma getPreviousSessions_filter l id :
  getPreviousSessions l id = filter (λ s, s_ID s ≠ id) l.
Proof.
  induction l as [|s l IH]; simpl; [done|]. rewrite filter_cons, IH.
  case_bool_decide; case_decide; done.
Qed.

(** The Email of a suspicious login. *)
Definition suspicious_email (s : Server) (signInTime ip device browser location : string)
    (u : User) (id : string) : Email :=
  notification_email "suspicious-login-" id (NotificationNamespace (config s))
    (SuspiciousLoginEmailTemplate (config s)) (u_name u)
    (suspicious_login_vars u signInTime ip device browser location).

(** Whether the handler alerts the user, given the listed sessions. *)
Definition alert_due (req : sessionAddedRequest) (sessions : list Session) : bool :=
  let ua := default (mkUserAgent EmptyString EmptyString EmptyString) (sr_UserAgent req) in
  let id := current_session_id req in
  negb (match findSessionByID sessions id with Some c => s_PasskeyVerified c | None => false end) &&
  isSuspiciousLogin (getPreviousSessions sessions id) (ua_IP ua) (ua_Description ua) (ua_FingerprintID ua).

Definition is_mail_or_write (e : event) : bool :=
  match e with existT (KCreateEmail _ | KCreateUser _ | KCreateEvent _ | ZListSessions _) _ => true | _ => false end.

Lemma gateway_do_no {R} url q var v (out : decoder (option R)) :
  quiet (no is_mail_or_write) (gateway_do url q var v out).
Proof. unfold gateway_do. destruct (url_parse url); [|by split]. intros r. by split. Qed.

Lemma resolveLocation_no s ip : quiet (no is_mail_or_write) (resolveLocation s ip).
Proof.
  unfold resolveLocation. case_bool_decide; [by split|].
  apply quiet_bind; [apply _|apply gateway_do_no|]. intros; by apply quiet_ret; apply _.
Qed.

Lemma resolveUserAgent_no s ua : quiet (no is_mail_or_write) (resolveUserAgent s ua).
Proof.
  unfold resolveUserAgent. case_match; [|by split].
  apply quiet_bind; [apply _|apply gateway_do_no|]. intros; by apply quiet_ret; apply _.
Qed.

Lemma sendSuspiciousLoginEmail_notifies s uid t ip d b l :
  notifies (SuspiciousLoginEmailTemplate (config s)) uid (suspicious_email s t ip d b l)
    (sendSuspiciousLoginEmail s uid t ip d b l).
Proof. apply notifies_send. Qed.

(** The calls of an alert: gateway lookups, then the notification. *)
Definition alerted (s : Server) (req : sessionAddedRequest) (tr : trace) : Prop :=
  let ua := default (mkUserAgent EmptyString EmptyString EmptyString) (sr_UserAgent req) in
  ∃ device browser location tr1 tr2,
    tr = tr1 ++ tr2 ∧ no is_mail_or_write tr1 ∧
    notified (SuspiciousLoginEmailTemplate (config s)) (sr_PayloadUserID req)
      (suspicious_email s (sr_CreatedAt req) (ua_IP ua) device browser location) tr2.

Lemma handleSuspiciousLogin_wp s req ua :
  ua = default (mkUserAgent EmptyString EmptyString EmptyString) (sr_UserAgent req) →
  wp (handleSuspiciousLogin s (sr_PayloadUserID req) (sr_CreatedAt req) (ua_IP ua) (ua_Description ua))
    (λ tr r, alerted s req tr ∧ r = Returned tt).
Proof.
  intros ->. unfold handleSuspiciousLogin, alerted.
  apply (wp_bind_quiet (no is_mail_or_write)); [apply resolveUserAgent_no|]. intros [device browser] tr1 H1.
  apply (wp_bind_quiet (no is_mail_or_write)); [apply resolveLocation_no|]. intros location tr2 H2.
  rewrite wp_bind. eapply wp_mono; [apply sendSuspiciousLoginEmail_notifies|].
  intros tr3 [e|] [H3 Hr]; simpl; [|done]. split; [|done].
  exists device, browser, location, (tr1 ++ tr2), tr3. rewrite app_nil_r, app_assoc. split; [done|].
  split; [|done]. by apply ti_app.
Qed.

Lemma check_login_wp s req sessions :
  wp (check_login s req sessions) (on_return (λ tr resp,
    resp = mkResponse StatusOK "success" ∧
    if alert_due req sessions then alerted s req tr else tr = [])).
Proof.
  unfold check_login, alert_due. set (ua := default _ _).
  set (exempt := match findSessionByID _ _ with Some c => _ | None => _ end). destruct exempt; simpl; [by split|].
  destruct (getPreviousSessions sessions (current_session_id req)) as [|p prev] eqn:Hp; [by split|].
  destruct (isSuspiciousLogin (p :: prev) _ _ _); [|by split].
  rewrite wp_bind. eapply wp_mono; [by apply handleSuspiciousLogin_wp|].
  intros tr [u|] [Ha Hr]; simpl; [|done]. by rewrite app_nil_r.
Qed.

Lemma apply_pending_on_login_no s uid : safe (no is_mail_or_write) (apply_pending_on_login s uid).
Proof.
  unfold apply_pending_on_login. destruct (zitadelAPI s); try by (split; done).
  intros [[zu|]|e]; simpl; try done. case_bool_decide; [done|].
  apply (wp_bind_quiet (no is_mail_or_write)).
  - unfold applyPendingAvatarByEmail, consumePendingAvatar, storePendingAvatar, patchUserAvatar.
    solve_quiet.
  - intros a tr Htr. simpl. by rewrite app_nil_r.
Qed.
End Decision.

(** * Properties *)

(** The loop over the session history decides exactly this: a login is
    suspicious iff there is a history and at least one of the non-empty IP,
    browser family or fingerprint of the login occurs nowhere in it.  A session
    without a user agent never counts as a match for the browser family. *)
Theorem isSuspiciousLogin_exact `{GoRuntime} prev ip ua fp :
  isSuspiciousLogin prev ip ua fp = true ↔
  prev ≠ [] ∧
  ((ip ≠ EmptyString ∧ ∀ s, s ∈ prev → s_IP s ≠ ip) ∨
   (ua ≠ EmptyString ∧ ∀ s, s ∈ prev → s_UserAgent s = EmptyString ∨ userAgentKey (s_UserAgent s) ≠ userAgentKey ua) ∨
   (fp ≠ EmptyString ∧ ∀ s, s ∈ prev → s_FingerprintID s ≠ fp)).
Proof.
  destruct prev as [|p prev]; [naive_solver|]. unfold isSuspiciousLogin. rewrite fold_see. cbn [ipSeen userAgentSeen fingerprintSeen].
  rewrite !orb_false_l, !orb_true_iff, !andb_true_iff, !negb_true_iff, !existsb_false_iff, !bool_decide_eq_false.
  unfold same_ip, same_agent, same_fingerprint. setoid_rewrite andb_false_iff.
  setoid_rewrite negb_false_iff. setoid_rewrite bool_decide_eq_false. setoid_rewrite bool_decide_eq_true.
  split; [|naive_solver]. intros [[[]|[]]|[Hfp Hall]]; split; try done; [auto|auto|].
  right. right. split; [done|]. intros s Hs. by destruct (Hall s Hs).
Qed.

(** C38: session-added alerts exactly when the login is suspicious. Any execution
    that answers either rejects the request without a call (no usable client: 503),
    or lists the sessions of the payload's user exactly once; it answers 500 when
    that fails, and otherwise 200, sending the alert iff the current session was
    not verified by a passkey and the remaining sessions make the login
    suspicious; before the listing nothing but a pending avatar is touched. *)
Theorem sessionAdded_trace `{GoRuntime} s rq tr resp :
  may (sessionAddedHandler s rq) tr (Returned resp) →
  (tr = [] ∧ rs_code resp ≠ StatusOK) ∨
  (∃ body req tr0 (r : result (list Session)) tr1,
     rq_body rq = Ok body ∧ Unmarshal sessionReq_decoder zero_sessionReq body = Some req ∧
     zitadelAPI s = ZReady ∧
     tr = tr0 ++ ev (ZListSessions (sr_PayloadUserID req)) r :: tr1 ∧ no is_mail_or_write tr0 ∧
     match r with
     | Err e => rs_code resp = StatusInternalServerError ∧ tr1 = []
     | Ok sessions =>
         resp = mkResponse StatusOK "success" ∧
         if alert_due req sessions then alerted s req tr1 else tr1 = []
     end).
Proof.
  intros Hm. on_returns Hm. unfold sessionAddedHandler, post_only. case_bool_decide; [|by left].
  unfold with_signed_body. destruct (rq_body rq) as [body|e] eqn:Hb; [|by left].
  destruct (validateSignature _ _ _ _); [by left|]. destruct (Unmarshal _ _ _) as [req|] eqn:Hu; [|by left].
  case_bool_decide; [|by left]. simpl. case_bool_decide; [by left|].
  destruct (zapi_is_nil (zitadelAPI s)) eqn:Hz; [by left|].
  apply (wp_bind_safe (no is_mail_or_write)); [apply apply_pending_on_login_no| |done]. intros _ tr0 H0'.
  destruct (zitadelAPI s) eqn:Hs; [done|done|]. simpl. intros [sessions|e]; simpl.
  - eapply wp_mono; [apply check_login_wp|]. intros tr1 [resp'|] Hc; simpl in *; [|done].
    right. exists body, req, tr0, (Ok sessions), tr1. done.
  - right. by exists body, req, tr0, (Err e), [].
Qed.

(** C39: a typed-nil Zitadel client defeats the 503 branch. [createZitadelClient]
    hands the server an interface that holds a nil *SDKClient when Zitadel is not
    reachable; with it, every well-formed session-added request panics, while a
    nil interface is answered 503 without a call. *)
Theorem sessionAdded_typed_nil `{GoRuntime} cfg vs rq body req tr r :
  rq_method rq = "POST" → rq_body rq = Ok body → vs body (rq_signature rq) (SigningKey cfg) = None →
  Unmarshal sessionReq_decoder zero_sessionReq body = Some req →
  sr_EventType req = "oidc_session.added" → sr_PayloadUserID req ≠ EmptyString →
  (may (sessionAddedHandler (mkServer cfg vs ZTypedNil) rq) tr r → tr = [] ∧ r = Panicked) ∧
  (may (sessionAddedHandler (mkServer cfg vs ZNil) rq) tr r →
     tr = [] ∧ r = Returned (http_error StatusServiceUnavailable "zitadel sdk client not configured")).
Proof.
  intros Hp Hb Hv Hu Ht Hn. unfold sessionAddedHandler, post_only, with_signed_body. simpl.
  rewrite Hp, Hb, Hv, Hu, Ht. rewrite !bool_decide_true by done. simpl. rewrite bool_decide_false by done.
  by split.
Qed.

(** * Witnesses *)

Section Witnesses.
#[local] Existing Instance ascii_runtime.

Definition chrome_mac : string := "Mozilla/5.0 (Macintosh; Intel Mac OS X 10_15_7) Chrome/126.0 Safari/537.36".
Definition chrome_mac_later : string := "Mozilla/5.0 (Macintosh; Intel Mac OS X 10_15_7) Chrome/131.0 Safari/537.36".
Definition firefox_linux : string := "Mozilla/5.0 (X11; Linux x86_64; rv:127.0) Gecko/20100101 Firefox/127.0".

Definition session (id ip ua fp : string) (passkey : bool) : Session :=
  mkSession id "u1" ip fp 0 None ua ∅ passkey.

(** A browser update is not a new browser; another browser is. *)
Example userAgentKey_update : userAgentKey chrome_mac = userAgentKey chrome_mac_later.
Proof. vm_compute. reflexivity. Qed.

Example suspicious_examples :
  isSuspiciousLogin [session "s0" "1.2.3.4" chrome_mac "f0" false] "1.2.3.4" chrome_mac_later "f0" = false ∧
  isSuspiciousLogin [session "s0" "1.2.3.4" chrome_mac "f0" false] "1.2.3.4" firefox_linux "f0" = true.
Proof. vm_compute. split; reflexivity. Qed.

Definition session_body : string :=
  js "{'aggregateID':'V1','event_type':'oidc_session.added','created_at':'2024-01-01T00:00:00Z','event_payload':{'userID':'u1','sessionID':'s1','userAgent':{'ip':'9.9.9.9','fingerprint_id':'f9','description':'curl'}}}".

Definition with_sessions (c : cluster) (f : string → list Session) : cluster :=
  mkCluster (c_clock c) (c_users c) (c_emails c) (c_events c) (c_pending c) (c_humans c) (c_links c) f
    (c_methods c) (c_metadata c) (c_pbusers c) (c_metrics c) (c_issued c).

Definition with_history : cluster :=
  with_sessions one_user (λ _, [session "s1" "9.9.9.9" "curl" "f9" false; session "s0" "1.2.3.4" chrome_mac "f0" false]).

Lemma sessionAdded_trace_witness :
  let tr := run_trace fake (sessionAddedHandler ready_server (post session_body)) with_history in
  count is_create_email tr = 1%nat ∧
  ∃ req tr0 (r : result (list Session)) tr1,
    tr = tr0 ++ ev (ZListSessions (sr_PayloadUserID req)) r :: tr1 ∧ no is_mail_or_write tr0.
Proof.
  intros tr. split; [vm_compute; reflexivity|].
  destruct (sessionAdded_trace ready_server (post session_body) tr (mkResponse StatusOK "success"))
    as [[_ Hc]|(body & req & tr0 & r & tr1 & _ & _ & _ & Htr & H0 & _)].
  - apply run_may_to. vm_compute. reflexivity.
  - by destruct Hc.
  - exists req, tr0, r, tr1. split; [exact Htr|exact H0].
Defined.

Lemma sessionAdded_typed_nil_witness :
  ∃ tr, may (sessionAddedHandler (mkServer NewServerConfig accept_all ZTypedNil) (post session_body)) tr Panicked ∧
    tr = [] ∧ (Panicked : outcome HttpResponse) = Panicked.
Proof.
  exists []. assert (may (sessionAddedHandler (mkServer NewServerConfig accept_all ZTypedNil) (post session_body)) [] Panicked)
    as Hm by (vm_compute; split; reflexivity).
  split; [exact Hm|].
  eapply (sessionAdded_typed_nil NewServerConfig accept_all (post session_body) session_body _ [] Panicked);
    try exact Hm; try (vm_compute; reflexivity). vm_compute. discriminate.
Defined.
End Witnesses.
