(* ===== verification/ActionsRoutes.v ===== *)
(** The request router of the actions server ([Server.Start]) and what holds for
    its handlers as a whole: no effect without a valid signature, the claims of a
    customised token, and the state the handlers leave behind. *)

From S2P Require Import Prelude GoLib Prog Model Json Cluster Users RecoveryMail AvatarSync Actions ActionsSpec Gateway Notify SessionAdded.

Section Routes.
Context `{GoRuntime} `{ConflictRetry}.

(** The handlers [Start] registers, by path. *)
Definition routes (s : Server) : list (string * (HttpRequest → M HttpResponse)) :=
  [("/v1/actions/create-user-account", createUserAccountHandler s);
   ("/v1/actions/customize-jwt", customizeJwtHandler s);
   ("/v1/actions/idp-intent-succeeded", idpIntentSucceededHandler s);
   ("/v1/actions/session-added", sessionAddedHandler s);
   ("/v1/actions/passkey-added", passkeyAddedHandler s);
   ("/v1/actions/passkey-removed", passkeyRemovedHandler s);
   ("/v1/actions/email-verified", emailVerifiedHandler s)].
End Routes.

(** * Lemmas *)

(** A request whose signature does not validate. *)
Definition forged (s : Server) (rq : HttpRequest) : Prop :=
  ∀ body, rq_body rq = Ok body → is_Some (validateSignature s body (rq_signature rq) (SigningKey (config s))).

(** The program rejects the request with a client error and makes no call. *)
Definition rejects (p : M HttpResponse) : Prop :=
  ∃ code msg, p = mret (http_error code msg) ∧
    (code = StatusBadRequest ∨ code = StatusUnauthorized ∨ code = StatusMethodNotAllowed).

Lemma with_signed_body_rejects s msg rq k : forged s rq → rejects (with_signed_body s msg rq k).
Proof.
  unfold with_signed_body, rejects. intros Hf. destruct (rq_body rq) as [body|e] eqn:Hb; [|eauto 10].
  destruct (Hf body Hb) as [e ->]. eauto 10.
Qed.

Lemma post_only_rejects rq k : rejects k → rejects (post_only rq k).
Proof. unfold post_only. case_bool_decide; [done|]. intros _. unfold rejects, method_not_allowed. eauto 10. Qed.

Create HintDb routes.
#[export] Hint Resolve with_signed_body_rejects post_only_rejects : routes.

Lemma getUserWithRetry_run {S} (h : environment S) `{!ApiServer h} c uid s :
  ∃ s' r, run h (getUserWithRetry c uid) s = (s', Returned r) ∧ users s' = users s ∧
    match r with
    | Ok u => users s !! uid = Some u
    | Err e => IsNotFound e = true → users s !! uid = None
    end.
Proof.
  unfold getUserWithRetry. generalize 0%Z, (Z.max 0 (IdpIntentUserLookupBaseWait c)).
  generalize (Z.to_nat (Z.max 1 (IdpIntentUserLookupAttempts c) - 1)). intros k a b. revert a s.
  assert (∀ s, users (h (KGetUser uid) s).1 = users s) as Hget by (intros; by apply api_frame).
  induction k as [|k IH]; intros a s; simpl; pose proof (api_get uid s) as Hg; specialize (Hget s) as Hf;
    destruct (h (KGetUser uid) s) as [s1 [u|e]]; simpl in *; try by eexists _, _.
  destruct (IsNotFound e) eqn:Hn; [|simpl; eexists _, _; split; [done|]; split; [done|by rewrite Hn]].
  simpl. pose proof (api_frame (Sleep (wrap64 (b * wrap64 (2 ^ a)))) s1 eq_refl) as Hs.
  destruct (h (Sleep _) s1) as [s2 []]. simpl in *.
  destruct (IH (a + 1)%Z s2) as (s' & r & -> & Hu & Hr). rewrite Hs, Hf in *. eauto.
Qed.

(** Every call but the ones that write Users leaves them alone. *)
Lemma users_unchanged {S A} (h : environment S) `{!ApiServer h} (p : M A) s :
  safe (no (λ e, writes_users (projT1 e))) p → users (run h p s).1 = users s.
Proof.
  revert s. induction p as [a| |o k IH]; intros s Hp; simpl; [done|done|].
  pose proof (api_frame o s) as Hf. destruct (h o s) as [s1 a]. simpl in *.
  specialize (Hp a). destruct (writes_users o) eqn:Ho.
  - exfalso. revert Hp. unfold no, count. simpl. rewrite Ho. simpl.
    intros Hw. apply (may_wp (k a) _ _ _ (run_may h (k a) s1)) in Hw. simpl in Hw. lia.
  - rewrite IH; [auto|]. apply (wp_mono (k a) _ _ Hp). intros tr r. unfold no, count. simpl. by rewrite Ho.
Qed.

Lemma misses_no P uid b a errs :
  (∀ n r, P (ev (KGetUser n) r) = false) → (∀ d r, P (ev (Sleep d) r) = false) → no P (misses uid b a errs).
Proof.
  intros Hg Hs. revert a. induction errs as [|e errs IH]; intros a; [done|].
  unfold no, count. simpl. rewrite Hg, Hs. apply IH.
Qed.

Lemma storePendingAvatar_wp `{GoRuntime} e url p :
  url ≠ EmptyString →
  wp (storePendingAvatar e url p) (λ tr r, r = Returned tt ∧
    ((normalizeEmail e = EmptyString ∧ tr = []) ∨
     ∃ t, tr = [ev Now t; ev (MapStore (normalizeEmail e) (mkPending url p (t + pendingAvatarTTL)%Z)) tt])).
Proof.
  intros Hu. unfold storePendingAvatar. case_bool_decide as He; simpl.
  - split; [done|]. left. by destruct He.
  - intros t []. split; [done|]. eauto.
Qed.

(** What an accepted idp-intent-succeeded request leaves behind. *)
Definition idp_post `{GoRuntime} (req : IdpIntentSucceededRequest) (raw : string)
    (p : AuthProvider) (url : string) (tr : trace) (resp : HttpResponse) : Prop :=
  ∃ pre, no is_map_store pre ∧ no is_status_write pre ∧
    let key := normalizeEmail (extractEmailFromIDPUserData raw) in
    ((rs_body resp = "pending" ∧
      (key ≠ EmptyString → ∃ t, tr = pre ++ [ev Now t; ev (MapStore key (mkPending url p (t + pendingAvatarTTL)%Z)) tt])) ∨
     (rs_body resp = "success" ∧ ∃ u,
      tr = pre ++ [ev (KGetUser (ir_PayloadUserID req)) (Ok u);
                   ev (KPatchUserStatus u (with_avatar u url p) "idp-intent-succeeded") None])).

(** * Properties *)

(** C10: no route has an effect without a valid signature. For every path of the
    router, a request whose body cannot be read or whose signature does not
    validate is answered 400, 401 or 405 in every execution, and not one call
    reaches the API server, Zitadel, the avatar map or the network. *)
Theorem forged_request_has_no_effect `{GoRuntime} `{ConflictRetry} s rq path handler tr r :
  forged s rq → (path, handler) ∈ routes s → may (handler rq) tr r →
  tr = [] ∧ ∃ resp, r = Returned resp ∧
    (rs_code resp = StatusBadRequest ∨ rs_code resp = StatusUnauthorized ∨ rs_code resp = StatusMethodNotAllowed).
Proof.
  intros Hf Hin Hm.
  assert (rejects (handler rq)) as (code & msg & Heq & Hc).
  { unfold routes in Hin.
    repeat (apply elem_of_cons in Hin as [Hin|Hin]; [injection Hin as -> ->; unfold createUserAccountHandler,
      customizeJwtHandler, idpIntentSucceededHandler, sessionAddedHandler, passkeyAddedHandler,
      passkeyRemovedHandler, emailVerifiedHandler; auto with routes|]).
    by apply not_elem_of_nil in Hin. }
  rewrite Heq in Hm. destruct Hm as [-> ->]. split; [done|]. by eexists.
Qed.

(** A customised token carries exactly one claim, and its value cannot inject
    another. Whenever the handler answers 200, it wrote one document for a
    supported function, and for an ASCII email that document parses to the object
    with one metadata entry and the single claim "email" whose value is the
    user's email byte for byte. *)
Theorem customizeJwt_single_claim `{GoRuntime} s rq tr resp :
  may (customizeJwtHandler s rq) tr (Returned resp) →
  (rs_code resp ≠ StatusOK ∧ count is_create_user tr = 0%nat) ∨
  (∃ body req, rq_body rq = Ok body ∧ Unmarshal jwtReq_decoder zero_jwtReq body = Some req ∧
     (jr_Function req = "function/preuserinfo" ∨ jr_Function req = "function/preaccesstoken") ∧
     tr = [ev (HttpWrite StatusOK (rs_body resp)) None] ∧
     (is_ascii (jwt_email req) = true → json_parse (rs_body resp) = Some (jwt_claims (jwt_email req)))).
Proof.
  intros Hm. on_returns Hm. unfold customizeJwtHandler, with_signed_body.
  destruct (rq_body rq) as [body|e]; [|by left]. destruct (validateSignature _ _ _ _); [by left|].
  destruct (Unmarshal _ _ _) as [req|] eqn:Hu; [|by left]. case_bool_decide as Hf; [|by left].
  cbn [negb]. intros [e|]; [by left|]. right. exists body, req. do 4 (split; [done|]).
  intros Ha. apply json_parse_render; [|apply Nat.leb_le; vm_compute; reflexivity].
  unfold jwt_claims. cbn. by rewrite Ha.
Qed.

(** What an answer to email-verified says about the stored Users. *)
Definition verification_answer `{GoRuntime} {S} {h : environment S} `{!ApiServer h}
    (rq : HttpRequest) (st st' : S) (resp : HttpResponse) : Prop :=
  (rs_code resp ≠ StatusOK ∧ users st' = users st) ∨
  (resp = mkResponse StatusOK "success" ∧ ∃ body req v changed,
     rq_body rq = Ok body ∧
     Unmarshal emailVerified_decoder (mkEVReq EmptyString EmptyString) body = Some req ∧
     event_verified (er_EventType req) = Some v ∧
     verification_recorded (er_AggregateID req) v st st' changed).

(** Email-verified tells Zitadel the truth about the stored User. Against an
    API server the handler always answers; 200 means that the User of the
    aggregate now holds the state of the event, with every other field and User as
    before; any other answer means the stored Users are untouched. *)
Theorem emailVerified_stored `{GoRuntime} `{ConflictRetry} {S} (h : environment S) `{!ApiServer h} s rq st :
  ∃ st' resp, run h (emailVerifiedHandler s rq) st = (st', Returned resp) ∧ verification_answer rq st st' resp.
Proof.
  unfold emailVerifiedHandler, post_only, verification_answer. case_bool_decide; [|eexists _, _; split; [done|by left]].
  unfold with_signed_body. destruct (rq_body rq) as [body|e]; [|eexists _, _; split; [done|by left]].
  destruct (validateSignature _ _ _ _); [eexists _, _; split; [done|by left]|].
  destruct (Unmarshal _ _ _) as [req|] eqn:Hu; [|eexists _, _; split; [done|by left]].
  destruct (event_verified _) as [v|] eqn:Hv; [|eexists _, _; split; [done|by left]].
  case_bool_decide; [eexists _, _; split; [done|by left]|].
  rewrite run_bind. destruct (getUserWithRetry_run h (config s) (er_AggregateID req) st) as (s1 & r & -> & Hs1 & _).
  destruct r as [u|e]; [|destruct (IsNotFound e); eexists _, _; (split; [done|by left])].
  rewrite run_bind. unfold SetVerified. rewrite RetryOnConflict_doc.
  destruct (run_attempts_set (h := h) retry_steps (er_AggregateID req) v s1) as (s2 & c & err & -> & Hr).
  destruct err as [e|]; simpl.
  - destruct Hr as [Hr _]. eexists _, _. split; [done|]. left. split; [done|congruence].
  - eexists _, _. split; [done|]. right. split; [done|]. exists body, req, v, c.
    unfold verification_recorded in *. rewrite Hs1 in Hr. done.
Qed.

(** A pending avatar survives an early intent. Whenever idp-intent-succeeded
    answers "pending", the last thing it did was to keep the avatar and provider of
    the payload under the normalised email of the payload, for 15 minutes; and when
    it answers "success" it patched exactly these onto the User it had just read,
    and stored nothing. *)
Theorem idpIntent_kept_or_patched `{GoRuntime} s rq tr resp :
  may (idpIntentSucceededHandler s rq) tr (Returned resp) → rs_code resp = StatusOK →
  ∃ body req raw p url,
    rq_body rq = Ok body ∧ Unmarshal idpReq_decoder zero_idpReq body = Some req ∧
    decodeIDPUserPayload (ir_IDPUser req) = Ok raw ∧ parseIDPUserData raw = Ok (p, url) ∧
    idp_post req raw p url tr resp.
Proof.
  intros Hm. on_returns Hm. unfold idpIntentSucceededHandler, with_signed_body.
  destruct (rq_body rq) as [body|e]; [|done]. destruct (validateSignature _ _ _ _); [done|].
  destruct (Unmarshal _ _ _) as [req|] eqn:Hu; [|done]. case_bool_decide; [done|].
  destruct (decodeIDPUserPayload _) as [raw|e] eqn:Hraw; [|done].
  destruct (parseIDPUserData raw) as [[p url]|e] eqn:Hp; [|done].
  destruct (parseIDPUserData_Ok _ _ _ Hp) as [Hurl _].
  assert (∀ tr0, no is_map_store tr0 → no is_status_write tr0 →
    wp (_ ← storePendingAvatar (extractEmailFromIDPUserData raw) url p; mret (mkResponse StatusOK "pending"))
      (λ tr r, on_return (λ tr resp, rs_code resp = StatusOK → idp_post req raw p url tr resp) (tr0 ++ tr) r)) as Hpending.
  { intros tr0 H1 H2. rewrite wp_bind. eapply wp_mono; [by apply storePendingAvatar_wp|].
    intros tr1 [[]|] [Hr Ht]; simpl; [|done]. rewrite app_nil_r. intros _.
    exists tr0. split; [done|]. split; [done|]. left. split; [done|].
    intros Hk. destruct Ht as [[]|[t ->]]; [done|]. eauto. }
  assert (∀ q : M HttpResponse,
    wp q (on_return (λ tr resp, rs_code resp = StatusOK → idp_post req raw p url tr resp)) →
    wp q (on_return (λ tr resp, rs_code resp = StatusOK → ∃ body' req' raw' p' url',
      Ok body = Ok body' ∧ Unmarshal idpReq_decoder zero_idpReq body' = Some req' ∧
      decodeIDPUserPayload (ir_IDPUser req') = Ok raw' ∧ parseIDPUserData raw' = Ok (p', url') ∧
      idp_post req' raw' p' url' tr resp))) as Hlift.
  { intros q Hq. apply (wp_mono q _ _ Hq). intros tr1 [resp1|] Hr; [|done]. intros Hc. simpl in Hr.
    exists body, req, raw, p, url. do 4 (split; [done|]). by apply Hr. }
  apply Hlift. cbv zeta. case_bool_decide.
  { case_bool_decide; [done|]. apply (Hpending []); done. }
  unfold getUserWithRetry. rewrite wp_bind, wp_may. intros tr0 r0 Hm0.
  apply getUser_loop_trace in Hm0 as (errs & res & -> & -> & _). simpl.
  destruct res as [u|e]; simpl.
  - intros [e|]; simpl; [done|]. intros _.
    exists (misses (miloUserIDFromIdpIntent req) (Z.max 0 (IdpIntentUserLookupBaseWait (config s))) 0 errs). split; [by apply misses_no|]. split; [by apply misses_no|]. right. split; [done|].
    exists u. by rewrite <-app_assoc.
  - destruct (IsNotFound e); [|done]. case_bool_decide; [done|]. apply Hpending; (apply ti_app; [by apply misses_no|done]).
Qed.

(** Webhook redelivery is harmless. Against an API server, while the User of
    the request exists, a create-user-account request for it, answered by any
    server, always returns, is never answered 201 and leaves every stored User as
    it was. *)
Theorem createUserAccount_redelivery `{GoRuntime} `{ConflictRetry} {S} (h : environment S) `{!ApiServer h}
    s rq st body req :
  rq_body rq = Ok body → Unmarshal createReq_decoder zero_createReq body = Some req →
  is_Some (users st !! cr_AggregateID req) →
  ∃ st' resp, run h (createUserAccountHandler s rq) st = (st', Returned resp) ∧
    rs_code resp ≠ StatusCreated ∧ users st' = users st.
Proof.
  intros Hb Hu [old Hex]. unfold createUserAccountHandler, post_only.
  case_bool_decide; [|by eexists _, _]. unfold with_signed_body. rewrite Hb.
  destruct (validateSignature _ _ _ _); [by eexists _, _|]. rewrite Hu.
  destruct (negb _); [by eexists _, _|]. unfold EnsureUser. cbn -[NewUser].
  set (u := NewUser _ _ _ _). pose proof (api_create u st) as Hc.
  destruct (h (KCreateUser u) st) as [st' [u'|e]]; simpl.
  - exfalso. destruct Hc as [Hn _]. simpl in Hn. congruence.
  - destruct Hc as [Hs _]. destruct (IsAlreadyExists e); simpl; by eexists _, _.
Qed.

(** * Witnesses *)

Section Witnesses.
#[local] Existing Instance ascii_runtime.
#[local] Existing Instance default_retry.

Definition reject_all : string → string → string → option error := λ _ _ _, Some (EPlain "bad signature").
Definition locked_server : Server := mkServer NewServerConfig reject_all ZReady.

Lemma forged_request_has_no_effect_witness :
  let tr := run_trace fake (createUserAccountHandler locked_server (post signup_body)) one_user in
  tr = [] ∧ ∃ resp, (run fake (createUserAccountHandler locked_server (post signup_body)) one_user).2 = Returned resp ∧
    (rs_code resp = StatusBadRequest ∨ rs_code resp = StatusUnauthorized ∨ rs_code resp = StatusMethodNotAllowed).
Proof.
  intros tr. apply (forged_request_has_no_effect locked_server (post signup_body) "/v1/actions/create-user-account"
    (createUserAccountHandler locked_server)).
  - intros body _. by eexists.
  - by left.
  - apply run_may.
Defined.

Definition jwt_body : string :=
  js "{'function':'function/preaccesstoken','user':{'username':'jane','human':{'email':'o\u0022neil@example.com'}}}".

Lemma customizeJwt_single_claim_witness :
  let tr := run_trace fake (customizeJwtHandler ready_server (post jwt_body)) one_user in
  ∃ resp, tr = [ev (HttpWrite StatusOK (rs_body resp)) None] ∧
    ∃ req, Unmarshal jwtReq_decoder zero_jwtReq jwt_body = Some req ∧ is_ascii (jwt_email req) = true ∧
      json_parse (rs_body resp) = Some (jwt_claims (jwt_email req)).
Proof.
  intros tr. eexists. unshelve epose proof (customizeJwt_single_claim ready_server (post jwt_body) tr _ _) as Hc.
  2: { apply run_may_to. vm_compute. reflexivity. }
  destruct Hc as [[Hc _]|(body & req & Hb & Hu & _ & Htr & Hp)]; [by destruct Hc|].
  split; [exact Htr|]. injection Hb as <-. exists req. split; [exact Hu|].
  assert (is_ascii (jwt_email req) = true) as Ha by (vm_compute in Hu; injection Hu as <-; vm_compute; reflexivity).
  split; [exact Ha|exact (Hp Ha)].
Defined.

Definition verified_body : string := js "{'aggregateID':'u1','event_type':'user.human.email.verified'}".

Lemma emailVerified_stored_witness :
  ∃ st' changed, run fake (emailVerifiedHandler ready_server (post verified_body)) one_user
      = (st', Returned (mkResponse StatusOK "success")) ∧
    verification_recorded "u1" true one_user st' changed.
Proof.
  destruct (emailVerified_stored fake ready_server (post verified_body) one_user) as (st' & resp & Hr & Hc).
  destruct Hc as [[Hc _]|(-> & body & req & v & changed & Hb & Hu & Hv & Hrec)].
  - exfalso. apply Hc. apply (f_equal (λ x, match x.2 with Returned r => rs_code r | Panicked => 0 end)) in Hr.
    simpl in Hr. rewrite <-Hr. vm_compute. reflexivity.
  - exists st', changed. split; [exact Hr|]. injection Hb as <-. vm_compute in Hu. injection Hu as <-.
    vm_compute in Hv. injection Hv as <-. exact Hrec.
Defined.

Definition intent_body : string :=
  js "{'event_type':'idpintent.succeeded','event_payload':{'idpUser':'eyJVc2VyIjogeyJwaWN0dXJlIjogImh0dHBzOi8vcCIsICJlbWFpbCI6ICJBQGIuYyJ9fQ=='}}".

Lemma idpIntent_kept_or_patched_witness :
  ∃ req raw p url, parseIDPUserData raw = Ok (p, url) ∧
    idp_post req raw p url (run_trace fake (idpIntentSucceededHandler ready_server (post intent_body)) one_user)
      (mkResponse StatusOK "pending").
Proof.
  destruct (idpIntent_kept_or_patched ready_server (post intent_body)
    (run_trace fake (idpIntentSucceededHandler ready_server (post intent_body)) one_user)
    (mkResponse StatusOK "pending")) as (body & req & raw & p & url & _ & _ & _ & Hp & Hpost).
  - apply run_may_to. vm_compute. reflexivity.
  - reflexivity.
  - exists req, raw, p, url. split; [exact Hp|exact Hpost].
Defined.

Lemma createUserAccount_redelivery_witness :
  let p := createUserAccountHandler ready_server (post signup_body) in
  let st := (run fake p one_user).1 in
  users st !! "u7" ≠ None ∧
  ∃ st' resp, run fake p st = (st', Returned resp) ∧ rs_code resp ≠ StatusCreated ∧ users st' = users st.
Proof.
  intros p st. split; [vm_compute; discriminate|].
  destruct (Unmarshal createReq_decoder zero_createReq signup_body) as [req|] eqn:Hu; [|exfalso; vm_compute in Hu; discriminate Hu].
  apply (createUserAccount_redelivery fake ready_server (post signup_body) st signup_body req).
  - reflexivity.
  - exact Hu.
  - vm_compute in Hu. injection Hu as <-. vm_compute. eexists. reflexivity.
Defined.
End Witnesses.
