(* ===== verification/MailWebhook.v ===== *)
(** internal/webhook: the two mail endpoints of the authentication webhook server
    (emailverification.go, accountrecovery.go) and the mTLS caller check they share
    (caller.go). *)

From S2P Require Import Prelude GoLib Prog Model Json Cluster Users RecoveryMail.

(** * caller.go

    A client certificate: its common name and its URI SANs, already printed. *)
Record Certificate := mkCertificate { CommonName : string; URIs : list string }.

(** [mr_tls] is the list of peer certificates; [None] is a plain connection. *)
Record MailRequest := mkMailRequest { mr_http : HttpRequest; mr_tls : option (list Certificate) }.

Definition unknownCaller : string := "none".

Definition NormalizeClientNames `{GoRuntime} (raw : list string) : list string :=
  filter (λ n, n ≠ EmptyString) (TrimSpace <$> raw).

Definition leafCert (r : MailRequest) : option Certificate :=
  match mr_tls r with
  | None | Some [] => None
  | Some (leaf :: _) => Some leaf
  end.

Definition callerAllowed (r : MailRequest) (allowed : list string) : bool :=
  match allowed with
  | [] => true
  | _ =>
      match leafCert r with
      | None => false
      | Some leaf =>
          existsb (λ name, bool_decide (CommonName leaf = name) ||
                           existsb (λ uri, bool_decide (uri = name)) (URIs leaf)) allowed
      end
  end.

Definition callerIdentity (r : MailRequest) : string :=
  match leafCert r with
  | None => unknownCaller
  | Some leaf =>
      if negb (bool_decide (CommonName leaf = EmptyString)) then CommonName leaf
      else match URIs leaf with uri :: _ => uri | [] => unknownCaller end
  end.

(** * The returnTo guard *)

Definition returnToUsable (u : URL) : bool :=
  negb (bool_decide (url_scheme u = EmptyString)) && negb (bool_decide (url_host u = EmptyString)) &&
  bool_decide (url_user u = None).

Fixpoint originAllowed `{GoRuntime} (u : URL) (allowedOrigins : list string) : bool :=
  match allowedOrigins with
  | [] => false
  | allowed :: rest =>
      match url_parse allowed with
      | None => originAllowed u rest
      | Some a =>
          if EqualFold (url_scheme u) (url_scheme a) && EqualFold (url_host u) (url_host a) then true
          else originAllowed u rest
      end
  end.

(** The parsed value, when the guard admits it. *)
Definition usable_return_to `{GoRuntime} (allowed : list string) (returnTo : string) : option URL :=
  match url_parse returnTo with
  | None => None
  | Some u => if returnToUsable u && originAllowed u allowed then Some u else None
  end.

(** * The User lookup *)

(** [k] counts the attempts left after this one. *)
Fixpoint userWithRetry_loop (id : string) (baseWait : Z) (k : nat) (attempt : Z) : M (result User) :=
  r ← call (KGetUser id);
  match r with
  | Ok user => mret (Ok user)
  | Err e =>
      if negb (IsNotFound e) then mret (Err e)
      else match k with
           | O => mret (Err e)
           | Datatypes.S k =>
               d ← call (SleepOrDone (wrap64 ((attempt + 1) * baseWait)));
               match d with
               | Some ctxErr => mret (Err ctxErr)
               | None => userWithRetry_loop id baseWait k (attempt + 1)
               end
           end
  end.

Definition userWithRetry (id : string) (attempts baseWait : Z) : M (result User) :=
  let attempts := if (attempts <? 1)%Z then 1%Z else attempts in
  let baseWait := if (baseWait <? 0)%Z then 0%Z else baseWait in
  userWithRetry_loop id baseWait (Z.to_nat (attempts - 1)) 0.

(** * The checks both handlers start with *)

Definition maxRequestBytes : nat := Z.to_nat (Z.shiftl 64 10).

(** Method, caller and body.  [http.MaxBytesReader] lets the decoder see the first
    [maxRequestBytes] bytes. *)
Definition with_mail_request {R} (d : decoder R) (zero : R) (allowed : list string) (r : MailRequest)
    (k : R → M HttpResponse) : M HttpResponse :=
  if negb (bool_decide (rq_method (mr_http r) = "POST")) then
    mret (http_error StatusMethodNotAllowed "method not allowed")
  else if negb (callerAllowed r allowed) then
    mret (http_error StatusForbidden "client certificate is not allowed")
  else
    match rq_body (mr_http r) with
    | Err _ => mret (http_error StatusBadRequest "invalid request body")
    | Ok body =>
        match Decode d zero (String.substring 0 maxRequestBytes body) with
        | None => mret (http_error StatusBadRequest "invalid request body")
        | Some req => k req
        end
    end.

Definition with_user (r : result User) (k : User → M HttpResponse) : M HttpResponse :=
  match r with
  | Ok user => k user
  | Err e =>
      if IsNotFound e then mret (http_error StatusNotFound "user not found")
      else mret (http_error StatusInternalServerError "failed to read user")
  end.

(** * emailverification.go *)

Record EmailVerificationConfig := mkEVConfig {
  evc_TemplateName : string;
  evc_NotificationNamespace : string;
  evc_AllowedOrigins : list string;
  evc_ExpiryMinutes : Z;
  evc_AllowedClientNames : list string;
  evc_UserLookupAttempts : Z;
  evc_UserLookupBaseWait : Z }.

Record emailVerificationRequest := mkEVRequest { evr_UserID : string; evr_Code : string; evr_ReturnTo : string }.

Section Verification.
Context `{GoRuntime}.

Definition emailVerificationRequest_decoder : decoder emailVerificationRequest := decode_struct
  [("userId", string_field (λ x r, mkEVRequest x (evr_Code r) (evr_ReturnTo r)));
   ("code", string_field (λ x r, mkEVRequest (evr_UserID r) x (evr_ReturnTo r)));
   ("returnTo", string_field (λ x r, mkEVRequest (evr_UserID r) (evr_Code r) x))].

Definition actionURLFor (returnTo : URL) (code userID : string) : string :=
  let q := values_set "userId" userID (values_set "code" code (ParseQuery (url_rawquery returnTo))) in
  url_string (mkURL (url_scheme returnTo) (url_user returnTo) (url_host returnTo) (url_path returnTo)
                (Encode q) (url_fragment returnTo)).

Definition verification_email (cfg : EmailVerificationConfig) (user : User) (req : emailVerificationRequest)
    (actionURL : string) : Email :=
  mkEmail ("email-verification-" +:+ hash_suffix (evr_UserID req) (evr_Code req))
    (evc_NotificationNamespace cfg) ∅ ∅ (evc_TemplateName cfg) (EmailAddress (u_email user))
    [("UserName", display_name user); ("Code", evr_Code req); ("ActionUrl", actionURL);
     ("ExpiryMinutes", itoa (effective_expiry (evc_ExpiryMinutes cfg)))] true.

Definition createEmail (cfg : EmailVerificationConfig) (user : User) (req : emailVerificationRequest)
    (actionURL : string) : M (result string) :=
  let email := verification_email cfg user req actionURL in
  e ← call (KCreateEmail email);
  mret match e with
       | Some err => if IsAlreadyExists err then Ok (em_name email) else Err err
       | None => Ok (em_name email)
       end.

Definition emailVerification_ServeHTTP (cfg : EmailVerificationConfig) (r : MailRequest) : M HttpResponse :=
  with_mail_request emailVerificationRequest_decoder (mkEVRequest EmptyString EmptyString EmptyString)
    (evc_AllowedClientNames cfg) r $ λ req,
  if bool_decide (evr_UserID req = EmptyString ∨ evr_Code req = EmptyString ∨ evr_ReturnTo req = EmptyString) then
    mret (http_error StatusBadRequest "userId, code and returnTo are required")
  else
    match usable_return_to (evc_AllowedOrigins cfg) (evr_ReturnTo req) with
    | None => mret (http_error StatusBadRequest "returnTo is not allowed")
    | Some returnTo =>
        u ← userWithRetry (evr_UserID req) (evc_UserLookupAttempts cfg) (evc_UserLookupBaseWait cfg);
        with_user u $ λ user,
        e ← createEmail cfg user req (actionURLFor returnTo (evr_Code req) (evr_UserID req));
        match e with
        | Err _ => mret (http_error StatusInternalServerError "failed to create email")
        | Ok _ => mret (mkResponse StatusOK "ok")
        end
    end.

(** * accountrecovery.go *)

Record AccountRecoveryConfig := mkRecoveryConfig {
  arc_TemplateName : string;
  arc_NotificationNamespace : string;
  arc_AllowedOrigins : list string;
  arc_ExpiryMinutes : Z;
  arc_AllowedClientNames : list string;
  arc_UserLookupAttempts : Z;
  arc_UserLookupBaseWait : Z;
  arc_Cooldown : Z;
  arc_MaxPerHour : Z }.

Record accountRecoveryRequest := mkRecoveryRequest {
  arr_UserID : string; arr_ReturnTo : string; arr_RequestedBy : string; arr_CodeID : string; arr_Code : string }.

Definition accountRecoveryRequest_decoder : decoder accountRecoveryRequest := decode_struct
  [("userId", string_field (λ x r, mkRecoveryRequest x (arr_ReturnTo r) (arr_RequestedBy r) (arr_CodeID r) (arr_Code r)));
   ("returnTo", string_field (λ x r, mkRecoveryRequest (arr_UserID r) x (arr_RequestedBy r) (arr_CodeID r) (arr_Code r)));
   ("requestedBy", string_field (λ x r, mkRecoveryRequest (arr_UserID r) (arr_ReturnTo r) x (arr_CodeID r) (arr_Code r)));
   ("codeId", string_field (λ x r, mkRecoveryRequest (arr_UserID r) (arr_ReturnTo r) (arr_RequestedBy r) x (arr_Code r)));
   ("code", string_field (λ x r, mkRecoveryRequest (arr_UserID r) (arr_ReturnTo r) (arr_RequestedBy r) (arr_CodeID r) x))].

(** accountRecoveryResponse, as [json.Encoder] writes it. *)
Definition recovery_response (codeID : string) : string := render (JObj [("codeId", JStr codeID)]) +:+ newline.

Definition recovery_input (cfg : AccountRecoveryConfig) (user : User) (returnTo : URL) (userID codeID code : string) : Input :=
  mkInput user userID codeID code (ActionURL returnTo userID codeID code) (arc_TemplateName cfg)
    (arc_NotificationNamespace cfg) (arc_ExpiryMinutes cfg) RequestedBySelf EmptyString EmptyString.

(** Minting the code and mailing it, once every gate is passed. *)
Definition mint_and_mail (cfg : AccountRecoveryConfig) (user : User) (returnTo : URL) (userID : string) : M HttpResponse :=
  m ← call (ZCreatePasskeyRegistrationLink userID);
  match m with
  | Err _ => mret (http_error StatusInternalServerError "failed to create recovery code")
  | Ok (codeID, code) =>
      e ← call (KCreateEmail (Build (recovery_input cfg user returnTo userID codeID code)));
      mret match e with
           | Some err => if IsAlreadyExists err then mkResponse StatusOK (recovery_response codeID)
                         else http_error StatusInternalServerError "failed to create email"
           | None => mkResponse StatusOK (recovery_response codeID)
           end
  end.

Definition accountRecovery_ServeHTTP (cfg : AccountRecoveryConfig) (r : MailRequest) : M HttpResponse :=
  with_mail_request accountRecoveryRequest_decoder
    (mkRecoveryRequest EmptyString EmptyString EmptyString EmptyString EmptyString)
    (arc_AllowedClientNames cfg) r $ λ req,
  if bool_decide (arr_CodeID req ≠ EmptyString ∨ arr_Code req ≠ EmptyString) then
    mret (http_error StatusBadRequest "codeId and code are not accepted; this endpoint mints the code")
  else if bool_decide (arr_UserID req = EmptyString ∨ arr_ReturnTo req = EmptyString) then
    mret (http_error StatusBadRequest "userId and returnTo are required")
  else if negb (bool_decide (arr_RequestedBy req = RequestedBySelf)) then
    mret (http_error StatusBadRequest ("requestedBy must be " +:+ quoted "self"))
  else
    match usable_return_to (arc_AllowedOrigins cfg) (arr_ReturnTo req) with
    | None => mret (http_error StatusBadRequest "returnTo is not allowed")
    | Some returnTo =>
        u ← userWithRetry (arr_UserID req) (arc_UserLookupAttempts cfg) (arc_UserLookupBaseWait cfg);
        with_user u $ λ user,
        if negb (IsVerified (Some user)) then
          mret (http_error StatusUnprocessableEntity "email address is not verified")
        else
          t ← TooSoon (arc_NotificationNamespace cfg) (arr_UserID req) RequestedBySelf (arc_Cooldown cfg) (arc_MaxPerHour cfg);
          match t with
          | Err _ => mret (http_error StatusInternalServerError "failed to check recent activity")
          | Ok true => mret (http_error StatusTooManyRequests "try again later")
          | Ok false => mint_and_mail cfg user returnTo (arr_UserID req)
          end
    end.
End Verification.

(** * Lemmas *)

(** The misses of [userWithRetry]: a "not found" answer, then a completed wait that
    grows by one [baseWait] each time. *)
Fixpoint lookup_misses (id : string) (baseWait attempt : Z) (errs : list error) : trace :=
  match errs with
  | [] => []
  | e :: errs =>
      ev (KGetUser id) (Err e) :: ev (SleepOrDone (wrap64 ((attempt + 1) * baseWait))) None ::
      lookup_misses id baseWait (attempt + 1) errs
  end.

(** How the lookup ends after [n] misses out of at most [k]: with the answer of the
    last read, or because the request was cancelled during a wait. *)
Definition lookup_end (id : string) (baseWait attempt : Z) (n k : nat) (tl : trace) (r : result User) : Prop :=
  (tl = [ev (KGetUser id) r] ∧ ∀ e, r = Err e → IsNotFound e = true → n = k) ∨
  (∃ e ctxErr, (n < k)%nat ∧ r = Err ctxErr ∧
     tl = [ev (KGetUser id) (Err e); ev (SleepOrDone (wrap64 ((attempt + Z.of_nat n + 1) * baseWait))) (Some ctxErr)]).

Lemma userWithRetry_loop_trace id b k attempt tr r :
  may (userWithRetry_loop id b k attempt) tr r →
  ∃ errs tl res, tr = lookup_misses id b attempt errs ++ tl ∧ r = Returned res ∧ (length errs ≤ k)%nat ∧
    Forall (λ e, IsNotFound e = true) errs ∧ lookup_end id b attempt (length errs) k tl res.
Proof.
  revert attempt tr r. induction k as [|k IH]; intros attempt tr r (a & tr1 & -> & Hm);
    destruct a as [u|e]; simpl in Hm; try destruct (IsNotFound e) eqn:Hn; simpl in Hm;
    try (destruct Hm as [-> ->]; eexists [], _, _; split; [done|]; split; [done|]; split; [simpl; lia|];
         split; [done|]; left; split; [done|]; naive_solver congruence).
  destruct Hm as ([ce|] & tr2 & -> & Hm); simpl in Hm.
  - destruct Hm as [-> ->]. eexists [], _, (Err ce). split; [done|]. split; [done|]. split; [simpl; lia|].
    split; [done|]. right. exists e, ce. split; [simpl; lia|]. split; [done|]. simpl. by rewrite Z.add_0_r.
  - apply IH in Hm as (errs & tl & res & -> & -> & Hk & Hall & Hend).
    exists (e :: errs), tl, res. split; [done|]. split; [done|]. split; [simpl; lia|].
    split; [by constructor|]. destruct Hend as [[-> Hex]|(e' & ce & Hlt & -> & ->)].
    + left. split; [done|]. intros e' He' Hn'. simpl. f_equal. by apply (Hex e').
    + right. exists e', ce. split; [simpl; lia|]. split; [done|]. simpl length.
      by replace (attempt + Z.of_nat (Datatypes.S (length errs)))%Z with (attempt + 1 + Z.of_nat (length errs))%Z by lia.
Qed.

Definition is_mint (e : event) : bool :=
  match e with existT (ZCreatePasskeyRegistrationLink _) _ => true | _ => false end.
Definition is_mint_or_mail (e : event) : bool := is_mint e || is_create_email e.

Lemma lookup_misses_no P id b a errs :
  (∀ n r, P (ev (KGetUser n) r) = false) → (∀ d r, P (ev (SleepOrDone d) r) = false) →
  no P (lookup_misses id b a errs).
Proof.
  intros Hg Hs. revert a. induction errs as [|e errs IH]; intros a; [done|].
  unfold no, count. simpl. rewrite Hg, Hs. apply IH.
Qed.

(** The lookup as a step of a handler: what precedes the answer neither mints nor
    mails, and a User that is found comes from the last read. *)
Lemma userWithRetry_wp id attempts b :
  wp (userWithRetry id attempts b) (λ tr r, ∃ res, r = Returned res ∧ no is_mint_or_mail tr ∧
    match res with Ok u => ∃ pre, tr = pre ++ [ev (KGetUser id) (Ok u)] | Err _ => True end).
Proof.
  apply wp_may. intros tr r Hm.
  apply userWithRetry_loop_trace in Hm as (errs & tl & res & -> & -> & _ & _ & Hend).
  exists res. split; [done|]. destruct Hend as [[-> _]|(e & ce & _ & -> & ->)].
  - split; [apply ti_app; [by apply lookup_misses_no|by destruct res]|]. destruct res; eauto.
  - split; [apply ti_app; [by apply lookup_misses_no|done]|done].
Qed.

Lemma originAllowed_spec `{GoRuntime} u l :
  originAllowed u l = true ↔ ∃ allowed a, allowed ∈ l ∧ url_parse allowed = Some a ∧
    EqualFold (url_scheme u) (url_scheme a) = true ∧ EqualFold (url_host u) (url_host a) = true.
Proof.
  induction l as [|x l IH]; simpl.
  - split; [done|]. intros (? & ? & Hin & _). by apply not_elem_of_nil in Hin.
  - destruct (url_parse x) as [a|] eqn:Ha.
    + destruct (EqualFold (url_scheme u) (url_scheme a) && EqualFold (url_host u) (url_host a)) eqn:Hf.
      * apply andb_prop in Hf as [? ?]. split; [|done]. intros _. exists x, a. split; [by left|done].
      * rewrite IH. split; [intros (y & a' & ? & ?); exists y, a'; split; [by right|done]|].
        intros (y & a' & [->|Hin]%elem_of_cons & Hp & H1 & H2); [|by exists y, a'].
        rewrite Ha in Hp. injection Hp as <-. by rewrite H1, H2 in Hf.
    + rewrite IH. split; intros (y & a' & Hin & Hp & ?).
      * exists y, a'. split; [by right|done].
      * apply elem_of_cons in Hin as [->|Hin]; [congruence|]. by exists y, a'.
Qed.

Lemma usable_return_to_Some `{GoRuntime} allowed s u :
  usable_return_to allowed s = Some u →
  url_parse s = Some u ∧ returnToUsable u = true ∧ originAllowed u allowed = true.
Proof.
  unfold usable_return_to. destruct (url_parse s) as [u'|]; [|done].
  destruct (returnToUsable u' && originAllowed u' allowed) eqn:Hu; [|done].
  apply andb_prop in Hu as [? ?]. by intros [= ->].
Qed.

(** A request past the method, caller and body checks. *)
Definition admitted_request {R} (d : decoder R) (zero : R) (allowed : list string) (r : MailRequest) (req : R) : Prop :=
  rq_method (mr_http r) = "POST" ∧ callerAllowed r allowed = true ∧
  ∃ body, rq_body (mr_http r) = Ok body ∧ Decode d zero (String.substring 0 maxRequestBytes body) = Some req.

Lemma with_mail_request_wp {R} (d : decoder R) zero allowed r k (Q : trace → HttpResponse → Prop) :
  (∀ code m, code ≠ StatusOK → Q [] (http_error code m)) →
  (∀ req, admitted_request d zero allowed r req → wp (k req) (on_return Q)) →
  wp (with_mail_request d zero allowed r k) (on_return Q).
Proof.
  intros Hrej Hk. unfold with_mail_request. case_bool_decide; [|by apply Hrej]. simpl.
  destruct (callerAllowed r allowed) eqn:Hc; [|by apply Hrej]. simpl.
  destruct (rq_body (mr_http r)) as [body|e] eqn:Hb; [|by apply Hrej].
  destruct (Decode d zero _) as [req|] eqn:Hd; [|by apply Hrej]. apply Hk.
  split; [done|]. split; [done|]. eauto.
Qed.

Lemma TooSoon_quiet ns uid by_ c m : quiet (no is_mint_or_mail) (TooSoon ns uid by_ c m).
Proof. unfold TooSoon. case_bool_decide; [by split|]. by intros [items|e]. Qed.

(** * Properties *)

(** C3: a recovery code is minted only behind every gate. Any execution that answers
    either mints nothing, mails nothing and does not answer 200, or: the request is
    an admitted POST of an allowed caller that carries no code of its own and asks
    for "self"; its returnTo passed the origin guard; the User was read and its
    address is verified; the mail budget answered "not too soon"; and only then one
    code was minted for this User, followed, when that succeeded, by exactly one
    Email built from that code.  The answer is 200 exactly when that Email was
    created or already existed, and it carries the code id, never the code. *)
Theorem accountRecovery_gates `{GoRuntime} cfg rq tr resp :
  may (accountRecovery_ServeHTTP cfg rq) tr (Returned resp) →
  (no is_mint_or_mail tr ∧ rs_code resp ≠ StatusOK) ∨
  (∃ req returnTo user pre mid (m : result (string * string)) tl,
     admitted_request accountRecoveryRequest_decoder
       (mkRecoveryRequest EmptyString EmptyString EmptyString EmptyString EmptyString) (arc_AllowedClientNames cfg) rq req ∧
     arr_CodeID req = EmptyString ∧ arr_Code req = EmptyString ∧ arr_RequestedBy req = RequestedBySelf ∧
     usable_return_to (arc_AllowedOrigins cfg) (arr_ReturnTo req) = Some returnTo ∧
     tr = pre ++ ev (KGetUser (arr_UserID req)) (Ok user) :: mid ++
            ev (ZCreatePasskeyRegistrationLink (arr_UserID req)) m :: tl ∧
     no is_mint_or_mail pre ∧ no is_mint_or_mail mid ∧ u_emailVerification user = EVVerified ∧
     may (TooSoon (arc_NotificationNamespace cfg) (arr_UserID req) RequestedBySelf (arc_Cooldown cfg) (arc_MaxPerHour cfg))
       mid (Returned (Ok false)) ∧
     match m with
     | Err _ => tl = [] ∧ rs_code resp = StatusInternalServerError
     | Ok (codeID, code) => ∃ e,
         tl = [ev (KCreateEmail (Build (recovery_input cfg user returnTo (arr_UserID req) codeID code))) e] ∧
         resp = match e with
                | Some err => if IsAlreadyExists err then mkResponse StatusOK (recovery_response codeID)
                              else http_error StatusInternalServerError "failed to create email"
                | None => mkResponse StatusOK (recovery_response codeID)
                end
     end).
Proof.
  intros Hm. on_returns Hm. apply with_mail_request_wp; [by left|]. intros req Hreq.
  case_bool_decide as Hcode; [by left|]. case_bool_decide; [by left|].
  case_bool_decide as Hby; [|by left]. simpl.
  destruct (usable_return_to _ _) as [returnTo|] eqn:Hret; [|by left].
  rewrite wp_bind. eapply wp_mono; [apply userWithRetry_wp|]. intros tr1 r1 (res & -> & H1 & Hres). simpl.
  destruct res as [user|e]; simpl.
  2: { destruct (IsNotFound e); left; by rewrite app_nil_r. }
  destruct Hres as [pre ->].
  case_bool_decide as Hver; simpl; [|left; by rewrite app_nil_r].
  rewrite wp_bind, wp_may. intros mid r2 Hmid.
  assert (no is_mint_or_mail mid ∧ r2 ≠ Panicked) as [H2 H2r] by exact (may_wp _ _ _ _ Hmid (TooSoon_quiet _ _ _ _ _)).
  destruct r2 as [[[|]|e]|]; simpl; try done.
  { left. split; [|done]. rewrite app_nil_r. by apply ti_app. }
  2: { left. split; [|done]. rewrite app_nil_r. by apply ti_app. }
  assert (no is_mint_or_mail pre) as Hpre.
  { revert H1. unfold no. rewrite count_app. lia. }
  intros m. simpl.
  assert (arr_CodeID req = EmptyString ∧ arr_Code req = EmptyString) as [? ?].
  { destruct (decide (arr_CodeID req = EmptyString)), (decide (arr_Code req = EmptyString)); naive_solver. }
  destruct m as [[codeID code]|e]; simpl.
  - intros e. right. eexists req, returnTo, user, pre, mid, (Ok (codeID, code)), _. rewrite <-!app_assoc. simpl.
    do 8 (split; [done|]). split; [done|]. split; [done|]. by exists e.
  - right. exists req, returnTo, user, pre, mid, (Err e), []. rewrite <-!app_assoc. simpl.
    do 8 (split; [done|]). split; [done|]. done.
Qed.

(** The phishing guard. A link is only ever built from a returnTo that parses to
    a URL with a scheme, a host and no userinfo, whose scheme and host both equal,
    up to case, those of one entry of the allowlist; in particular an empty
    allowlist, or one whose entries do not parse, admits nothing. *)
Theorem usable_return_to_exact `{GoRuntime} allowed s u :
  usable_return_to allowed s = Some u ↔
  url_parse s = Some u ∧ url_scheme u ≠ EmptyString ∧ url_host u ≠ EmptyString ∧ url_user u = None ∧
  ∃ entry a, entry ∈ allowed ∧ url_parse entry = Some a ∧
    EqualFold (url_scheme u) (url_scheme a) = true ∧ EqualFold (url_host u) (url_host a) = true.
Proof.
  unfold usable_return_to. destruct (url_parse s) as [u'|]; [|naive_solver].
  destruct (returnToUsable u' && originAllowed u' allowed) eqn:Hu.
  - apply andb_prop in Hu as [Hu Ho%originAllowed_spec].
    unfold returnToUsable in Hu. rewrite !andb_true_iff, !negb_true_iff, !bool_decide_eq_false, bool_decide_eq_true in Hu.
    split; [intros [= <-]; naive_solver|naive_solver].
  - split; [done|]. intros ([= ->] & Hs & Hh & Huser & Ho%originAllowed_spec).
    unfold returnToUsable in Hu. rewrite Ho, !bool_decide_false, bool_decide_true in Hu by done. done.
Qed.

(** A mail caller is admitted exactly by name. With a non-empty allowlist the
    first peer certificate must carry one of the names as its common name or as one
    of its URI SANs, literally; without a certificate nobody is admitted; an empty
    list admits everyone. *)
Theorem callerAllowed_exact r allowed :
  callerAllowed r allowed = true ↔
  allowed = [] ∨ ∃ leaf rest name, mr_tls r = Some (leaf :: rest) ∧ name ∈ allowed ∧
    (CommonName leaf = name ∨ name ∈ URIs leaf).
Proof.
  unfold callerAllowed, leafCert. destruct allowed as [|n ns]; [naive_solver|].
  destruct (mr_tls r) as [[|leaf rest]|]; [naive_solver| |naive_solver].
  rewrite existsb_exists. setoid_rewrite orb_true_iff. setoid_rewrite existsb_exists.
  setoid_rewrite bool_decide_eq_true. setoid_rewrite <-list_elem_of_In. naive_solver.
Qed.

(** Requested waits of a trace. *)
Definition requested_wait (e : event) : Z := match e with existT (SleepOrDone d) _ => d | _ => 0 end.
Definition total_wait (tr : trace) : Z := foldr (λ e t, requested_wait e + t)%Z 0 tr.

Lemma total_wait_app tr tr' : total_wait (tr ++ tr') = (total_wait tr + total_wait tr')%Z.
Proof. induction tr as [|e tr IH]; simpl; [lia|]. rewrite IH. lia. Qed.

Lemma lookup_misses_wait id b a errs :
  (0 ≤ a)%Z → (0 ≤ b)%Z → ((a + Z.of_nat (length errs)) * b ≤ max_int64)%Z →
  (2 * total_wait (lookup_misses id b a errs) = b * Z.of_nat (length errs) * (2 * a + Z.of_nat (length errs) + 1))%Z.
Proof.
  intros Ha Hb. revert a Ha. induction errs as [|e errs IH]; intros a Ha Hmax; simpl lookup_misses; simpl total_wait; [simpl; lia|].
  assert (Z.of_nat (length (e :: errs)) = 1 + Z.of_nat (length errs))%Z as Hlen by (simpl; lia).
  rewrite Hlen in Hmax |- *. rewrite wrap64_id.
  - specialize (IH (a + 1)%Z). nia.
  - unfold min_int64, max_int64 in *. nia.
Qed.

(** The User lookup of the mail endpoints is bounded and backs off linearly. It
    reads the User at most max(1, attempts) times, stops at the first answer other
    than "not found" or when the request is cancelled, reports "not found" only
    after the last attempt, never waits after it, and n completed waits sum to
    baseWait * n(n+1)/2. *)
Theorem userWithRetry_bounded id attempts baseWait tr r :
  may (userWithRetry id attempts baseWait) tr r →
  let n_max := Z.max 1 attempts in
  let base := Z.max 0 baseWait in
  ∃ errs tl res,
    tr = lookup_misses id base 0 errs ++ tl ∧ r = Returned res ∧
    (Z.of_nat (length errs) < n_max)%Z ∧ Forall (λ e, IsNotFound e = true) errs ∧
    lookup_end id base 0 (length errs) (Z.to_nat (n_max - 1)) tl res ∧
    ((n_max * base ≤ max_int64)%Z →
     2 * total_wait (lookup_misses id base 0 errs) =
       base * Z.of_nat (length errs) * (Z.of_nat (length errs) + 1))%Z.
Proof.
  unfold userWithRetry. intros Hm. cbv zeta.
  replace (if (attempts <? 1)%Z then 1%Z else attempts) with (Z.max 1 attempts) in Hm by (destruct (Z.ltb_spec attempts 1); lia).
  replace (if (baseWait <? 0)%Z then 0%Z else baseWait) with (Z.max 0 baseWait) in Hm by (destruct (Z.ltb_spec baseWait 0); lia).
  apply userWithRetry_loop_trace in Hm as (errs & tl & res & -> & -> & Hk & Hall & Hend).
  exists errs, tl, res. do 2 (split; [done|]). split; [lia|]. do 2 (split; [done|]).
  intros Hmax. rewrite lookup_misses_wait; [lia|lia|lia|]. nia.
Qed.

(** A verification mail is only sent past the guard, and a repeated request is
    answered as the first. Any execution that answers either mails nothing and does
    not answer 200, or: the request is an admitted POST, its returnTo passed the
    origin guard, the User was read, and the one Email created carries exactly this
    code and the link built from the approved URL, under a name that depends on the
    user and the code only; the answer is 200 iff the Email was created or already
    existed. *)
Theorem emailVerification_trace `{GoRuntime} cfg rq tr resp :
  may (emailVerification_ServeHTTP cfg rq) tr (Returned resp) →
  (no is_mint_or_mail tr ∧ rs_code resp ≠ StatusOK) ∨
  (∃ req returnTo user pre (e : option error),
     admitted_request emailVerificationRequest_decoder (mkEVRequest EmptyString EmptyString EmptyString)
       (evc_AllowedClientNames cfg) rq req ∧
     usable_return_to (evc_AllowedOrigins cfg) (evr_ReturnTo req) = Some returnTo ∧
     no is_mint_or_mail pre ∧
     tr = pre ++ [ev (KGetUser (evr_UserID req)) (Ok user);
                  ev (KCreateEmail (verification_email cfg user req
                        (actionURLFor returnTo (evr_Code req) (evr_UserID req)))) e] ∧
     (rs_code resp = StatusOK ↔ match e with Some err => IsAlreadyExists err = true | None => True end)).
Proof.
  intros Hm. on_returns Hm. apply with_mail_request_wp; [by left|]. intros req Hreq.
  case_bool_decide; [by left|]. destruct (usable_return_to _ _) as [returnTo|] eqn:Hret; [|by left].
  rewrite wp_bind. eapply wp_mono; [apply userWithRetry_wp|]. intros tr1 r1 (res & -> & Htr1 & Hres). simpl.
  destruct res as [user|e]; simpl.
  2: { destruct (IsNotFound e); left; by rewrite app_nil_r. }
  destruct Hres as [pre ->].
  assert (no is_mint_or_mail pre) as Hpre by (revert Htr1; unfold no; rewrite count_app; lia).
  intros e. destruct e as [err|]; simpl; [destruct (IsAlreadyExists err) eqn:Hex|]; simpl; right;
    eexists req, returnTo, user, pre, _; rewrite <-!app_assoc; (do 4 (split; [done|])); simpl; rewrite ?Hex; done.
Qed.

(** * Witnesses *)

Section Witnesses.
#[local] Existing Instance ascii_runtime.

Definition mail_post (body : string) : MailRequest :=
  mkMailRequest (mkRequest "POST" (Ok body) EmptyString) (Some [mkCertificate "auth-ui" []]).

(** A JSON text from a list of bytes with apostrophes for the quotes. *)
Definition mail_js (s : string) : string :=
  string_map (λ c, if bool_decide (c = ascii_of_N 39) then quote_char else c) s.

Definition recovery_config : AccountRecoveryConfig :=
  mkRecoveryConfig "recovery" "milo-system" ["https://auth.example.net"] 30 ["auth-ui"] 3 Second Minute 5.

Definition recovery_body : string :=
  mail_js "{'userId':'u1','returnTo':'https://AUTH.example.net/recover','requestedBy':'self'}".

Definition verified_user : cluster :=
  set_users empty_cluster {[ "u1" := with_emailVerification sample_user EVVerified ]}.

Lemma accountRecovery_gates_witness :
  let tr := run_trace fake (accountRecovery_ServeHTTP recovery_config (mail_post recovery_body)) verified_user in
  count is_create_email tr = 1%nat ∧ count is_mint tr = 1%nat ∧
  ∃ returnTo, usable_return_to ["https://auth.example.net"] "https://AUTH.example.net/recover" = Some returnTo.
Proof.
  intros tr. do 2 (split; [vm_compute; reflexivity|]).
  destruct (accountRecovery_gates recovery_config (mail_post recovery_body) tr (mkResponse StatusOK (recovery_response "code-id")))
    as [[_ Hc]|(req & returnTo & user & pre & mid & m & tl & (_ & _ & body & Hb & Hd) & _ & _ & _ & Hret & _)].
  - apply run_may_to. vm_compute. reflexivity.
  - by destruct Hc.
  - exists returnTo. injection Hb as <-. vm_compute in Hd. injection Hd as <-. exact Hret.
Defined.

Definition verification_config : EmailVerificationConfig :=
  mkEVConfig "verification" "milo-system" ["https://auth.example.net"] 30 [] 3 Second.

Definition verification_body : string :=
  mail_js "{'userId':'u1','code':'c0de','returnTo':'https://auth.example.net/verify'}".

Lemma emailVerification_trace_witness :
  let tr := run_trace fake (emailVerification_ServeHTTP verification_config (mail_post verification_body)) one_user in
  count is_create_email tr = 1%nat ∧
  ∃ user url pre e, tr = pre ++ [ev (KGetUser "u1") (Ok user);
                    ev (KCreateEmail (verification_email verification_config user
                          (mkEVRequest "u1" "c0de" "https://auth.example.net/verify") url)) e].
Proof.
  intros tr. split; [vm_compute; reflexivity|].
  destruct (emailVerification_trace verification_config (mail_post verification_body) tr (mkResponse StatusOK "ok"))
    as [[_ Hc]|(req & returnTo & user & pre & e & (_ & _ & body & Hb & Hd) & _ & _ & Htr & _)].
  - apply run_may_to. vm_compute. reflexivity.
  - by destruct Hc.
  - injection Hb as <-. vm_compute in Hd. injection Hd as <-. exists user, (actionURLFor returnTo "c0de" "u1").
    exists pre, e. exact Htr.
Defined.

Lemma userWithRetry_bounded_witness :
  ∃ errs tl res, run_trace fake (userWithRetry "u2" 3 Second) one_user = lookup_misses "u2" Second 0 errs ++ tl ∧
    (run fake (userWithRetry "u2" 3 Second) one_user).2 = Returned res ∧ (Z.of_nat (length errs) < 3)%Z.
Proof.
  destruct (userWithRetry_bounded "u2" 3 Second _ _ (run_may fake (userWithRetry "u2" 3 Second) one_user))
    as (errs & tl & res & Htr & Hr & Hn & _).
  exists errs, tl, res. split; [exact Htr|]. split; [exact Hr|exact Hn].
Defined.
End Witnesses.
