(* ===== verification/Authn.v ===== *)
(** The authentication webhook: pkg/token/introspector.go (claims, the cached
    client assertion and its double-checked lock, the introspection call) and
    internal/webhook/{webhook,http,response}.go (the TokenReview answer). *)

From S2P Require Import Prelude GoLib Prog Model Json Cluster RecoveryMail.

(** * Libraries

    [SignedString kid claims]: the compact RS256 JWS of github.com/golang-jwt for
    the loaded private key; it is never the empty string. *)
Record Claims := mkClaims { iss : string; sub : string; aud : string; exp : Z; iat : Z }.

Class JwtSigner := {
  SignedString : string → Claims → result string;
  SignedString_nonempty kid c t : SignedString kid c = Ok t → t ≠ EmptyString }.

(** * introspector.go *)

Record IntrospectionData := mkIntrospection {
  i_Active : bool;
  i_Sub : string;
  i_Email : string;
  i_Username : string;
  i_ClientID : string;
  i_EmailVerified : bool }.

Definition EffectiveUsername (d : IntrospectionData) : result string :=
  if negb (bool_decide (i_Email d = EmptyString)) then Ok (i_Email d)
  else if negb (bool_decide (i_ClientID d = EmptyString)) then Ok (i_ClientID d)
  else if negb (bool_decide (i_Username d = EmptyString)) then Ok (i_Username d)
  else Err (EPlain "none of email, client_id or username claims found").

(** The immutable fields. *)
Record Introspector := mkIntrospector {
  clientID : string;
  keyID : string;
  introspectionURL : string;
  domain : string;
  jwtExpiration : Z;
  jwtRefreshBefore : Z }.

(** The fields the mutex guards. *)
Record cache := mkCache { cachedAssertion : string; assertionExpiresAt : Z }.

Definition empty_cache : cache := mkCache EmptyString zero_time.

Definition cred_decoder `{GoRuntime} : decoder (string * string * string) := decode_struct
  [("keyId", string_field (λ x '(_, k, c), (x, k, c)));
   ("key", string_field (λ x '(i, _, c), (i, x, c)));
   ("clientId", string_field (λ x '(i, k, _), (i, k, x)))].

(** [parse_pem]: crypto/x509 on the PEM text; its error, if any. *)
Definition LoadZitadelPrivateKey `{GoRuntime} (parse_pem : string → option error) (path : string)
    : M (result (string * string)) :=
  r ← call (ReadFile path);
  mret match r with
       | Err e => Err (EWrap "read key file: " e)
       | Ok raw =>
           match Unmarshal cred_decoder (EmptyString, EmptyString, EmptyString) raw with
           | None => Err (EWrap "parse credentials json: " (EPlain (json_error_text raw)))
           | Some (kid, key, client) =>
               match parse_pem key with
               | Some e => Err (EWrap "parse pem from credentials: " e)
               | None => Ok (client, kid)
               end
           end
       end.

(** [filepath.Ext]: the suffix from the last dot of the last path element. *)
Fixpoint path_ext (acc : string) (s : string) : string :=
  match s with
  | EmptyString => acc
  | String c s' =>
      if (cat c =? 47)%N then path_ext EmptyString s'
      else if (cat c =? 46)%N then path_ext s s'
      else path_ext acc s'
  end.

Definition NewIntrospector `{GoRuntime} (parse_pem : string → option error)
    (privateKeyPath domain : string) (jwtExpiration jwtRefreshBefore : Z) : M (result Introspector) :=
  if (jwtExpiration <=? 0)%Z then mret (Err (EPlain ("JWT expiration duration must be positive, got " +:+ duration_string jwtExpiration)))
  else if (jwtRefreshBefore <? 0)%Z then mret (Err (EPlain ("jwt_refresh_before must be >= 0, got " +:+ duration_string jwtRefreshBefore)))
  else
    r ← LoadZitadelPrivateKey parse_pem privateKeyPath;
    mret match r with
         | Err e => Err e
         | Ok (clientID, keyID) =>
             if negb (bool_decide (ToLower (path_ext EmptyString privateKeyPath) = ".json")) &&
                bool_decide (clientID = EmptyString ∨ keyID = EmptyString)
             then Err (EPlain "clientID and keyID must be provided when using a PEM private key")
             else if bool_decide (domain = EmptyString)
             then Err (EPlain "auth provider domain must be specified")
             else Ok (mkIntrospector clientID keyID
                        (trim_right_char (ascii_of_N 47) domain +:+ "/oauth/v2/introspect")
                        domain jwtExpiration jwtRefreshBefore)
         end.

(** [Time.Unix]: whole seconds, rounded down. *)
Definition Unix (t : Z) : Z := (t / 1000000000)%Z.

Section Assertion.
Context `{JwtSigner} (i : Introspector).

Definition assertion_claims (issuedAt : Z) : Claims :=
  mkClaims (clientID i) (clientID i) (domain i) (Unix (issuedAt + jwtExpiration i)) (Unix issuedAt).

Definition buildSignedJWT (issuedAt : Z) : result (string * Z) :=
  match SignedString (keyID i) (assertion_claims issuedAt) with
  | Err e => Err (EWrap "failed to sign client assertion JWT: " e)
  | Ok t => Ok (t, (issuedAt + jwtExpiration i)%Z)
  end.

(** The test both paths make on the guarded fields. *)
Definition fresh (c : cache) (now : Z) : bool :=
  negb (bool_decide (cachedAssertion c = EmptyString)) && (now + jwtRefreshBefore i <? assertionExpiresAt c)%Z.

Definition getCachedAssertion (c : cache) (now : Z) : option string :=
  if fresh c now then Some (cachedAssertion c) else None.

(** The body under the write lock. *)
Definition createAndCacheAssertion (c : cache) (now : Z) : cache * result string :=
  if fresh c now then (c, Ok (cachedAssertion c))
  else match buildSignedJWT now with
       | Err e => (c, Err (EWrap "error when building signed JWT: " e))
       | Ok (signedToken, expiresAt) => (mkCache signedToken expiresAt, Ok signedToken)
       end.

(** One goroutine on its own. *)
Definition createClientAssertion (c : cache) : M (cache * result string) :=
  now ← call Now;
  match getCachedAssertion c now with
  | Some t => mret (c, Ok t)
  | None => now ← call Now; mret (createAndCacheAssertion c now)
  end.
End Assertion.

Definition introspection_decoder `{GoRuntime} : decoder IntrospectionData := decode_struct
  [("active", bool_field (λ x d, mkIntrospection x (i_Sub d) (i_Email d) (i_Username d) (i_ClientID d) (i_EmailVerified d)));
   ("sub", string_field (λ x d, mkIntrospection (i_Active d) x (i_Email d) (i_Username d) (i_ClientID d) (i_EmailVerified d)));
   ("email", string_field (λ x d, mkIntrospection (i_Active d) (i_Sub d) x (i_Username d) (i_ClientID d) (i_EmailVerified d)));
   ("username", string_field (λ x d, mkIntrospection (i_Active d) (i_Sub d) (i_Email d) x (i_ClientID d) (i_EmailVerified d)));
   ("client_id", string_field (λ x d, mkIntrospection (i_Active d) (i_Sub d) (i_Email d) (i_Username d) x (i_EmailVerified d)));
   ("email_verified", bool_field (λ x d, mkIntrospection (i_Active d) (i_Sub d) (i_Email d) (i_Username d) (i_ClientID d) x))].

Definition zero_introspection : IntrospectionData :=
  mkIntrospection false EmptyString EmptyString EmptyString EmptyString false.

Definition introspection_form (assertion token : string) : string :=
  Encode (values_set "token" token
           (values_set "client_assertion" assertion
             (values_set "client_assertion_type" "urn:ietf:params:oauth:client-assertion-type:jwt-bearer" []))).

(** What is made of the HTTP answer. *)
Definition read_introspection `{GoRuntime} (r : result (Z * string * string)) : result IntrospectionData :=
  match r with
  | Err e => Err (EWrap "introspection request: " e)
  | Ok (code, status, body) =>
      if bool_decide (code < 200 ∨ 300 ≤ code)%Z then
        Err (EPlain ("introspection failed: " +:+ status +:+ " - " +:+ body))
      else match Decode introspection_decoder zero_introspection body with
           | None => Err (EWrap "decode response: " (EPlain (json_error_text body)))
           | Some d => Ok d
           end
  end.

Definition Introspect `{GoRuntime} `{JwtSigner} (i : Introspector) (c : cache) (token : string)
    : M (cache * result IntrospectionData) :=
  '(c, a) ← createClientAssertion i c;
  match a with
  | Err e => mret (c, Err (EWrap "create client assertion: " e))
  | Ok assertion =>
      match url_parse (introspectionURL i) with
      | None => mret (c, Err (EPlain "build request: parse error"))
      | Some _ =>
          r ← call (HttpPostForm (introspectionURL i) (introspection_form assertion token));
          mret (c, read_introspection r)
      end
  end.

(** * response.go

    The status of a TokenReview. *)
Record Response := mkReview {
  Authenticated : bool;
  Username : string;
  UID : string;
  Extra : gmap string (list string);
  EvaluationError : string }.

Definition registrationApprovalExtraKey : string := "iam.miloapis.com/registrationApproval".
Definition emailVerifiedExtraKey : string := "iam.miloapis.com/emailVerified".
Definition PlatformAccessStateApproved : string := "Approved".
Definition PlatformAccessStateRejected : string := "Rejected".

Definition authenticationResponse (authenticated : bool) (username uid evaluationError state : string)
    (emailVerified : option bool) : Response :=
  let extra : gmap string (list string) := {[ registrationApprovalExtraKey := [state] ]} in
  mkReview authenticated username uid
    (match emailVerified with
     | Some v => <[emailVerifiedExtraKey := [format_bool v]]> extra
     | None => extra
     end) evaluationError.

Definition Denied (reason : string) : Response :=
  authenticationResponse false EmptyString EmptyString reason PlatformAccessStateRejected None.
Definition Errored (err : error) : Response :=
  authenticationResponse false EmptyString EmptyString (Error err) PlatformAccessStateRejected None.
Definition Allowed (username uid : string) (emailVerified : option bool) : Response :=
  authenticationResponse true username uid EmptyString PlatformAccessStateApproved emailVerified.

(** * webhook.go and http.go *)

(** The decision on the claims of an introspected token. *)
Definition review_claims (claims : IntrospectionData) : Response :=
  if negb (i_Active claims) then Denied "jwt token is not active"
  else match EffectiveUsername claims with
       | Err e => Denied ("token introspection failed: " +:+ Error e)
       | Ok username =>
           Allowed username (i_Sub claims)
             (if bool_decide (i_Email claims = EmptyString) then None else Some (i_EmailVerified claims))
       end.

Definition authentication_Handle `{GoRuntime} `{JwtSigner} (i : Introspector) (c : cache) (token : string)
    : M (cache * Response) :=
  if bool_decide (token = EmptyString) then mret (c, Denied "empty token provided")
  else
    '(c, r) ← Introspect i c token;
    mret (c, match r with
             | Err e => Denied ("token introspection failed: " +:+ Error e)
             | Ok claims => review_claims claims
             end).

(** The JSON codec of the Kubernetes type TokenReview: the token of a request, and
    the text of an answer. *)
Class TokenReviewCodec := {
  decode_review : string → result string;
  encode_review : Response → result string }.

Definition writeResponse `{TokenReviewCodec} (resp : Response) : HttpResponse :=
  match encode_review resp with
  | Ok text => mkResponse StatusOK text
  | Err e => http_error StatusInternalServerError ("failed to encode response: " +:+ Error e)
  end.

Definition authentication_ServeHTTP `{GoRuntime} `{JwtSigner} `{TokenReviewCodec} (i : Introspector) (c : cache)
    (r : HttpRequest) : M (cache * HttpResponse) :=
  if negb (bool_decide (rq_method r = "POST")) then
    mret (c, http_error StatusMethodNotAllowed "method not allowed")
  else
    match (match rq_body r with Ok body => decode_review body | Err e => Err e end) with
    | Err e => mret (c, writeResponse (Errored e))
    | Ok token =>
        '(c, resp) ← authentication_Handle i c token;
        mret (c, writeResponse resp)
    end.

(** * Goroutines sharing the cached assertion

    Every authentication request runs [createClientAssertion] on its own goroutine.
    A program counter stands between the critical sections; reading the guarded
    fields under the read lock is one step, taken while nobody holds the write lock;
    the write lock is held from [InCritical None] to [Finished]. *)
Inductive pc :=
| AtStart
| AtRead (now : Z)
| AtLock
| InCritical (now : option Z)
| Finished (now : Z) (r : result string).

(** [signed]: when each assertion was signed, newest first. *)
Record sys := mkSys { clock : Z; guarded_fields : cache; threads : list pc; signed : list Z }.

Definition in_critical (p : pc) : Prop := match p with InCritical _ => True | _ => False end.
#[global] Instance in_critical_dec p : Decision (in_critical p).
Proof. destruct p; simpl; apply _. Defined.

Definition write_locked (s : sys) : Prop := ∃ n p, threads s !! n = Some p ∧ in_critical p.

Section Concurrent.
Context `{JwtSigner} (i : Introspector).

Definition after_read (c : cache) (now : Z) : pc :=
  match getCachedAssertion i c now with Some t => Finished now (Ok t) | None => AtLock end.

(** Whether the body under the lock signs. *)
Definition signs (c : cache) (now : Z) : bool :=
  negb (fresh i c now) && match buildSignedJWT i now with Ok _ => true | Err _ => false end.

Inductive step : sys → sys → Prop :=
| step_tick s t : (clock s ≤ t)%Z → step s (mkSys t (guarded_fields s) (threads s) (signed s))
| step_now s n : threads s !! n = Some AtStart →
    step s (mkSys (clock s) (guarded_fields s) (<[n := AtRead (clock s)]> (threads s)) (signed s))
| step_read s n now : threads s !! n = Some (AtRead now) → ¬ write_locked s →
    step s (mkSys (clock s) (guarded_fields s) (<[n := after_read (guarded_fields s) now]> (threads s)) (signed s))
| step_lock s n : threads s !! n = Some AtLock → ¬ write_locked s →
    step s (mkSys (clock s) (guarded_fields s) (<[n := InCritical None]> (threads s)) (signed s))
| step_locked_now s n : threads s !! n = Some (InCritical None) →
    step s (mkSys (clock s) (guarded_fields s) (<[n := InCritical (Some (clock s))]> (threads s)) (signed s))
| step_body s n now : threads s !! n = Some (InCritical (Some now)) →
    step s (mkSys (clock s) (createAndCacheAssertion i (guarded_fields s) now).1
              (<[n := Finished now (createAndCacheAssertion i (guarded_fields s) now).2]> (threads s))
              (if signs (guarded_fields s) now then now :: signed s else signed s))
| step_again s n now r : threads s !! n = Some (Finished now r) →
    step s (mkSys (clock s) (guarded_fields s) (<[n := AtStart]> (threads s)) (signed s)).

(** A new introspector and [k] goroutines. *)
Definition initial (t : Z) (k : nat) : sys := mkSys t empty_cache (replicate k AtStart) [].

Definition reachable (t : Z) (k : nat) (s : sys) : Prop := rtc step (initial t k) s.

(** ** The invariant *)

Definition mutex (l : list pc) : Prop :=
  ∀ n m p q, l !! n = Some p → l !! m = Some q → in_critical p → in_critical q → n = m.

(** The guarded fields are those of the newest signature. *)
Definition cache_matches (c : cache) (sg : list Z) : Prop :=
  match sg with
  | [] => cachedAssertion c = EmptyString
  | t :: _ => SignedString (keyID i) (assertion_claims i t) = Ok (cachedAssertion c) ∧
              assertionExpiresAt c = (t + jwtExpiration i)%Z
  end.

(** Each signature found the one before it stale. *)
Fixpoint spaced (sg : list Z) : Prop :=
  match sg with
  | t2 :: (t1 :: _) as rest => (t1 + jwtExpiration i ≤ t2 + jwtRefreshBefore i)%Z ∧ spaced rest
  | _ => True
  end.

(** [a] was signed at a recorded time, and at [now] it was fresh or just signed. *)
Definition good_assertion (sg : list Z) (now : Z) (a : string) : Prop :=
  ∃ t, t ∈ sg ∧ SignedString (keyID i) (assertion_claims i t) = Ok a ∧
    (t = now ∨ now + jwtRefreshBefore i < t + jwtExpiration i)%Z.

Definition good_results (l : list pc) (sg : list Z) : Prop :=
  ∀ n now a, l !! n = Some (Finished now (Ok a)) → good_assertion sg now a.

Definition inv (s : sys) : Prop :=
  mutex (threads s) ∧ cache_matches (guarded_fields s) (signed s) ∧ spaced (signed s) ∧
  good_results (threads s) (signed s).

Lemma mutex_insert l n p :
  mutex l → (in_critical p → ∀ m q, l !! m = Some q → in_critical q → m = n) → mutex (<[n := p]> l).
Proof.
  intros Hm Hp a b x y Ha Hb Hx Hy.
  apply list_lookup_insert_Some in Ha as [(-> & <- & _)|[Hna Ha]];
    apply list_lookup_insert_Some in Hb as [(-> & <- & _)|[Hnb Hb]]; eauto.
  symmetry. eauto.
Qed.

Lemma good_results_insert l sg n p :
  good_results l sg → (∀ now a, p = Finished now (Ok a) → good_assertion sg now a) →
  good_results (<[n := p]> l) sg.
Proof.
  intros Hl Hp m now a Hm. apply list_lookup_insert_Some in Hm as [(-> & -> & _)|[_ Hm]]; eauto.
Qed.

Lemma good_results_more l sg t : good_results l sg → good_results l (t :: sg).
Proof. intros Hl n now a Hn. destruct (Hl n now a Hn) as (t' & Ht & ?). exists t'. split; [by right|done]. Qed.

Lemma fresh_good c sg now :
  cache_matches c sg → fresh i c now = true → good_assertion sg now (cachedAssertion c).
Proof.
  unfold fresh. rewrite andb_true_iff, negb_true_iff, bool_decide_eq_false, Z.ltb_lt.
  destruct sg as [|t sg]; simpl; [tauto|]. intros [Ht He] [_ Hf]. exists t.
  split; [by left|]. split; [done|]. right. lia.
Qed.

Lemma inv_step s s' : inv s → step s s' → inv s'.
Proof.
  intros (Hm & Hc & Hs & Hg) Hst. inversion Hst as [? t Ht|? n Hn|? n now Hn Hw|? n Hn Hw|? n Hn|? n now Hn|? n now r Hn]; subst; clear Hst.
  - done.
  - split; [by apply mutex_insert|]. split; [done|]. split; [done|]. by apply good_results_insert.
  - unfold after_read, getCachedAssertion. destruct (fresh i (guarded_fields s) now) eqn:Hf.
    + split; [by apply mutex_insert|]. split; [done|]. split; [done|]. apply good_results_insert; [done|].
      intros now' a [= <- <-]. by apply fresh_good.
    + split; [by apply mutex_insert|]. split; [done|]. split; [done|]. by apply good_results_insert.
  - split; [|split; [done|split; [done|by apply good_results_insert]]].
    apply mutex_insert; [done|]. intros _ m q Hq Hcr. destruct Hw. by exists m, q.
  - split; [|split; [done|split; [done|by apply good_results_insert]]].
    apply mutex_insert; [done|]. intros _ m q Hq Hcr. by apply (Hm m n q (InCritical None)).
  - unfold signs, createAndCacheAssertion. destruct (fresh i (guarded_fields s) now) eqn:Hf; simpl.
    + split; [by apply mutex_insert|]. split; [done|]. split; [done|]. apply good_results_insert; [done|].
      intros now' a [= <- <-]. by apply fresh_good.
    + unfold buildSignedJWT. destruct (SignedString (keyID i) (assertion_claims i now)) as [tok|e] eqn:Hsig; simpl.
      * split; [by apply mutex_insert|]. split; [done|]. split.
        -- destruct (signed s) as [|t1 sg] eqn:Hsg; [done|]. simpl. split; [|done].
           unfold fresh in Hf. destruct Hc as [Htok Hexp]. rewrite Hexp in Hf.
           rewrite bool_decide_false in Hf by (by eapply SignedString_nonempty). simpl in Hf.
           apply Z.ltb_ge in Hf. lia.
        -- apply good_results_insert; [by apply good_results_more|].
           intros now' a [= <- <-]. exists now. split; [by left|]. auto.
      * split; [by apply mutex_insert|]. split; [done|]. split; [done|]. by apply good_results_insert.
  - split; [by apply mutex_insert|]. split; [done|]. split; [done|]. by apply good_results_insert.
Qed.

Lemma inv_initial t k : inv (initial t k).
Proof.
  split; [|split; [done|split; [done|]]].
  - intros n m p q Hn. apply lookup_replicate in Hn as [-> _]. done.
  - intros n now a Hn. by apply lookup_replicate in Hn as [? _].
Qed.

Lemma inv_reachable t k s : reachable t k s → inv s.
Proof.
  unfold reachable. intros Hr. pose proof (inv_initial t k) as Hi. induction Hr; [done|].
  apply IHHr. by eapply inv_step.
Qed.
End Concurrent.

(** The clock answers of a trace do not run backwards. *)
Fixpoint monotone_from (t : Z) (tr : trace) : Prop :=
  match tr with
  | [] => True
  | existT Now now :: tr => (t ≤ now)%Z ∧ monotone_from now tr
  | _ :: tr => monotone_from t tr
  end.

Lemma not_locked_insert l c n p sg t :
  ¬ in_critical p → ¬ write_locked (mkSys t c l sg) → ¬ write_locked (mkSys t c (<[n := p]> l) sg).
Proof.
  intros Hp Hl (m & q & Hq & Hcr). apply list_lookup_insert_Some in Hq as [(_ & -> & _)|[_ Hq]]; [done|].
  apply Hl. by exists m, q.
Qed.

Lemma insert_self_lookup (l : list pc) n p q : l !! n = Some q → <[n := p]> l !! n = Some p.
Proof. intros Hl. apply list_lookup_insert_eq. by apply lookup_lt_Some in Hl. Qed.

(** The exp claim of a cached assertion lies in the future when the leeway is at
    least the second that [Time.Unix] can drop. *)
Lemma good_assertion_unexpired `{JwtSigner} i sg now a :
  (Second ≤ jwtRefreshBefore i)%Z → (Second < jwtExpiration i)%Z → good_assertion i sg now a →
  ∃ c, SignedString (keyID i) c = Ok a ∧ iss c = clientID i ∧ aud c = domain i ∧ (now < exp c * Second)%Z.
Proof.
  intros Hr He (t & _ & Ht & Hnow). exists (assertion_claims i t). do 3 (split; [done|]). simpl.
  unfold Unix, Second, Millisecond in *.
  pose proof (Z.mul_succ_div_gt (t + jwtExpiration i) 1000000000). lia.
Qed.

(** * Properties *)

(** C21: the assertion cache is safe under concurrency. In every state reachable by
    any number of goroutines, at most one holds the write lock; consecutive
    signatures are spaced: each one found the one before it within the refresh
    margin of its expiry, so no assertion is signed twice; and every assertion a
    goroutine obtained was signed with this key for this client, and at the time
    the goroutine looked it was outside the refresh margin or just signed. *)
Theorem assertion_cache_safe `{JwtSigner} i t k s :
  reachable i t k s →
  mutex (threads s) ∧ spaced i (signed s) ∧ good_results i (threads s) (signed s).
Proof. intros Hr. by destruct (inv_reachable i t k s Hr) as (? & _ & ? & ?). Qed.

(** C23: the lock protocol does not deadlock. In every reachable state in which some
    goroutine has not finished, a goroutine can make a step of its own. *)
Theorem assertion_cache_progress `{JwtSigner} i t k s n p :
  reachable i t k s → threads s !! n = Some p → (∀ now r, p ≠ Finished now r) →
  ∃ s' m q q', step i s s' ∧ threads s !! m = Some q ∧ threads s' !! m = Some q' ∧ q ≠ q'.
Proof.
  intros _ Hn Hp. destruct (decide (Exists in_critical (threads s))) as [He|He].
  - apply list.Exists_exists in He as (q & Hq & Hcr). apply list_elem_of_lookup in Hq as [m Hm].
    destruct q as [| | |[now|]|]; try done.
    + eexists _, m, _, _. split; [by eapply step_body|]. split; [done|]. split; [by eapply insert_self_lookup|done].
    + eexists _, m, _, _. split; [by eapply step_locked_now|]. split; [done|]. split; [by eapply insert_self_lookup|done].
  - assert (¬ write_locked s) as Hw.
    { intros (m & q & Hq & Hcr). apply He, list.Exists_exists. exists q. split; [by eapply list_elem_of_lookup_2|]. by destruct q. }
    destruct p as [|now| |[now|]|now r].
    + eexists _, n, _, _. split; [by eapply step_now|]. split; [done|]. split; [by eapply insert_self_lookup|done].
    + eexists _, n, _, _. split; [by eapply step_read|]. split; [done|]. split; [by eapply insert_self_lookup|].
      unfold after_read. by destruct (getCachedAssertion _ _ _).
    + eexists _, n, _, _. split; [by eapply step_lock|]. split; [done|]. split; [by eapply insert_self_lookup|done].
    + destruct Hw. by exists n, (InCritical (Some now)).
    + destruct Hw. by exists n, (InCritical None).
    + by destruct (Hp now r).
Qed.

(** C22: the sequential function is one schedule of the concurrent system. Whatever
    [createClientAssertion] does on its own, with a clock that does not run
    backwards, a goroutine at its start can do in the system while nobody holds
    the lock, with the same guarded fields and result at the end. *)
Theorem createClientAssertion_refines `{JwtSigner} i s n tr c' r :
  threads s !! n = Some AtStart → ¬ write_locked s →
  may (createClientAssertion i (guarded_fields s)) tr (Returned (c', r)) → monotone_from (clock s) tr →
  ∃ s' now, rtc (step i) s s' ∧ guarded_fields s' = c' ∧ threads s' !! n = Some (Finished now r).
Proof.
  intros Hn Hw (now & tr1 & -> & Hm) [Ht Hmono]. destruct s as [t0 c l sg]. simpl in *.
  set (l1 := <[n := AtRead now]> l).
  assert (l1 !! n = Some (AtRead now)) as H1 by by eapply insert_self_lookup.
  assert (¬ write_locked (mkSys now c l1 sg)) as Hw1 by (apply not_locked_insert; auto).
  assert (rtc (step i) (mkSys t0 c l sg) (mkSys now c (<[n := after_read i c now]> l1) sg)) as Hread.
  { eapply rtc_l; [by apply (step_tick i _ now)|]. eapply rtc_l; [by apply (step_now i _ n)|].
    apply rtc_once. by apply (step_read i (mkSys now c l1 sg) n now). }
  unfold after_read in Hread. destruct (getCachedAssertion i c now) as [a|] eqn:Hc.
  - destruct Hm as [-> [= -> ->]]. eexists _, now. split; [exact Hread|]. split; [done|]. by eapply insert_self_lookup.
  - destruct Hm as (now2 & tr2 & -> & -> & Hr). destruct Hmono as [Ht2 _]. simplify_eq.
    set (l2 := <[n := AtLock]> l1) in *. assert (l2 !! n = Some AtLock) as H2 by by eapply insert_self_lookup.
    assert (¬ write_locked (mkSys now2 c l2 sg)) as Hw2 by (apply not_locked_insert; auto).
    set (l3 := <[n := InCritical None]> l2). assert (l3 !! n = Some (InCritical None)) as H3 by by eapply insert_self_lookup.
    set (l4 := <[n := InCritical (Some now2)]> l3).
    assert (l4 !! n = Some (InCritical (Some now2))) as H4 by by eapply insert_self_lookup.
    eexists _, now2. split; [etrans; [exact Hread|]|].
    + eapply rtc_l; [by apply (step_tick i _ now2)|].
      eapply rtc_l; [by apply (step_lock i (mkSys now2 c l2 sg) n)|].
      eapply rtc_l; [by apply (step_locked_now i (mkSys now2 c l3 sg) n)|].
      apply rtc_once. by apply (step_body i (mkSys now2 c l4 sg) n now2).
    + simpl. destruct (createAndCacheAssertion i c now2) as [c2 r2]. simplify_eq. split; [done|]. by eapply insert_self_lookup.
Qed.

Lemma createClientAssertion_returns `{JwtSigner} i c (Q : trace → outcome (cache * result string) → Prop) :
  (∀ tr c' r, Q tr (Returned (c', r))) → wp (createClientAssertion i c) Q.
Proof.
  intros HQ. unfold createClientAssertion. simpl. intros now. destruct (getCachedAssertion i c now); simpl; [apply HQ|]. intros now2.
  destruct (createAndCacheAssertion i c now2). apply HQ.
Qed.

(** What a TokenReview answer must rest on. *)
Definition review_justified `{GoRuntime} (i : Introspector) (token : string) (tr : trace) (resp : Response) : Prop :=
  token ≠ EmptyString ∧ EvaluationError resp = EmptyString ∧
  ∃ pre assertion code status body d,
    tr = pre ++ [ev (HttpPostForm (introspectionURL i) (introspection_form assertion token)) (Ok (code, status, body))] ∧
    (200 ≤ code < 300)%Z ∧ Decode introspection_decoder zero_introspection body = Some d ∧
    i_Active d = true ∧ EffectiveUsername d = Ok (Username resp) ∧ UID resp = i_Sub d ∧
    Extra resp !! emailVerifiedExtraKey =
      (if bool_decide (i_Email d = EmptyString) then None else Some [format_bool (i_EmailVerified d)]).

Definition review_refused (resp : Response) : Prop :=
  Username resp = EmptyString ∧ UID resp = EmptyString ∧ EvaluationError resp ≠ EmptyString ∧
  Extra resp !! emailVerifiedExtraKey = None.

(** C5: a token is authenticated only on an active introspection, and the answer
    fails closed. Every execution of the webhook handler returns.  An authenticated
    answer rests on a 2xx introspection of this very token whose decoded claims are
    active, names the first of email, client id and username that is not empty,
    and carries the email-verified key exactly for claims with an email, with their
    value.  Every other answer has no username and no uid, says why, and carries no
    email-verified key.  The registration-approval key is always present. *)
Theorem authentication_sound `{GoRuntime} `{JwtSigner} i c token tr r :
  may (authentication_Handle i c token) tr r →
  ∃ c' resp, r = Returned (c', resp) ∧
    Extra resp !! registrationApprovalExtraKey =
      Some [if Authenticated resp then PlatformAccessStateApproved else PlatformAccessStateRejected] ∧
    if Authenticated resp then review_justified i token tr resp else review_refused resp.
Proof.
  intros Hm. pattern tr, r. apply (may_wp _ _ _ _ Hm). clear Hm.
  assert (∀ reason, reason ≠ EmptyString → ∀ (tr : trace) (c' : cache), ∃ (c'' : cache) resp,
    Returned (c', Denied reason) = Returned (c'', resp) ∧
    Extra resp !! registrationApprovalExtraKey =
      Some [if Authenticated resp then PlatformAccessStateApproved else PlatformAccessStateRejected] ∧
    if Authenticated resp then review_justified i token tr resp else review_refused resp) as Hdenied.
  { intros reason Hr tr' c'. exists c', (Denied reason). split; [done|]. split; [done|].
    simpl. unfold review_refused. simpl. done. }
  unfold authentication_Handle. case_bool_decide as Ht; [by apply Hdenied|].
  unfold Introspect. rewrite wp_bind, wp_bind. apply createClientAssertion_returns.
  intros pre c' [assertion|e]; simpl; [|by apply Hdenied].
  destruct (url_parse _); simpl; [|by apply Hdenied].
  intros [[[code status] body]|e]; simpl; [|by apply Hdenied].
  unfold read_introspection. case_bool_decide as Hcode; [by apply Hdenied|].
  destruct (Decode _ _ body) as [d|] eqn:Hd; [|by apply Hdenied].
  unfold review_claims. destruct (i_Active d) eqn:Ha; [|by apply Hdenied]. simpl.
  destruct (EffectiveUsername d) as [name|e] eqn:Hu; [|by apply Hdenied].
  eexists c', _. split; [done|]. rewrite app_nil_r. unfold Allowed, authenticationResponse. simpl.
  split; [by case_bool_decide|]. split; [done|]. split; [done|].
  exists pre, assertion, code, status, body, d. split; [done|]. split; [lia|].
  do 4 (split; [done|]). by case_bool_decide.
Qed.

(** * Witnesses *)

Section Witnesses.
#[local] Existing Instance ascii_runtime.

(** A signer that prints the expiry. *)
Definition toy_signer : JwtSigner.
Proof.
  refine {| SignedString := λ kid c, Ok ("jws." +:+ kid +:+ "." +:+ itoa (exp c)) |}.
  intros kid c t [= <-]. done.
Defined.
#[local] Existing Instance toy_signer.

Definition sample_introspector : Introspector :=
  mkIntrospector "client" "key" "https://auth.example.net/oauth/v2/introspect" "https://auth.example.net"
    (60 * Minute)%Z Minute.

Definition two_finished : sys :=
  let c := (createAndCacheAssertion sample_introspector empty_cache 5).1 in
  mkSys 5 c [Finished 5 (Ok (cachedAssertion c)); AtStart] [5%Z].

Lemma two_finished_reachable : reachable sample_introspector 5 2 two_finished.
Proof.
  eapply rtc_l; [exact (step_now sample_introspector (initial 5 2) 0 eq_refl)|].
  eapply rtc_l.
  { apply (step_read sample_introspector (mkSys 5 empty_cache [AtRead 5; AtStart] []) 0 5); [reflexivity|].
    by intros ([|[|n]] & p & [= <-] & []). }
  eapply rtc_l.
  { apply (step_lock sample_introspector (mkSys 5 empty_cache [AtLock; AtStart] []) 0); [reflexivity|].
    by intros ([|[|n]] & p & [= <-] & []). }
  eapply rtc_l; [exact (step_locked_now sample_introspector (mkSys 5 empty_cache [InCritical None; AtStart] []) 0 eq_refl)|].
  apply rtc_once.
  exact (step_body sample_introspector (mkSys 5 empty_cache [InCritical (Some 5%Z); AtStart] []) 0 5 eq_refl).
Qed.

Lemma assertion_cache_safe_witness :
  mutex (threads two_finished) ∧ spaced sample_introspector (signed two_finished) ∧
  good_results sample_introspector (threads two_finished) (signed two_finished).
Proof. exact (assertion_cache_safe sample_introspector 5 2 two_finished two_finished_reachable). Defined.

Lemma assertion_cache_progress_witness :
  ∃ s' m q q', step sample_introspector two_finished s' ∧ threads two_finished !! m = Some q ∧
    threads s' !! m = Some q' ∧ q ≠ q'.
Proof.
  apply (assertion_cache_progress sample_introspector 5 2 two_finished 1 AtStart two_finished_reachable); [reflexivity|].
  intros now r. discriminate.
Defined.

Lemma createClientAssertion_refines_witness :
  let s := initial 5 2 in
  ∃ s' now c' r, rtc (step sample_introspector) s s' ∧ guarded_fields s' = c' ∧
    threads s' !! 0%nat = Some (Finished now r) ∧
    may (createClientAssertion sample_introspector empty_cache) [ev Now 6%Z; ev Now 7%Z] (Returned (c', r)).
Proof.
  intros s.
  assert (may (createClientAssertion sample_introspector empty_cache) [ev Now 6%Z; ev Now 7%Z]
    (Returned (createAndCacheAssertion sample_introspector empty_cache 7))) as Hm.
  { cbn. eexists _, _. split; [reflexivity|]. cbn. eexists _, _. split; [reflexivity|]. by split. }
  destruct (createAndCacheAssertion sample_introspector empty_cache 7) as [c' r] eqn:Hc.
  destruct (createClientAssertion_refines sample_introspector s 0 [ev Now 6%Z; ev Now 7%Z] c' r (eq_refl : threads s !! 0%nat = Some AtStart)) as (s' & now & Hs & Hg & Hth).
  - by intros ([|[|n]] & p & [= <-] & []).
  - exact Hm.
  - simpl. lia.
  - exists s', now, c', r. split; [exact Hs|]. split; [exact Hg|]. split; [exact Hth|exact Hm].
Defined.

Definition introspect_answer : string :=
  string_map (λ c, if bool_decide (c = ascii_of_N 39) then quote_char else c)
    "{'active':true,'sub':'u1','email':'jane@example.com'}".

Lemma authentication_sound_witness :
  let resp := Allowed "jane@example.com" "u1" (Some false) in
  let c := mkCache "jws" 100 in
  let i := mkIntrospector "client" "key" "https://auth.example.net/introspect" "d" 50 1 in
  review_justified i "tok"
    [ev Now 0%Z; ev (HttpPostForm (introspectionURL i) (introspection_form "jws" "tok")) (Ok (200, "200 OK", introspect_answer)%Z)]
    resp.
Proof.
  intros resp c i.
  destruct (authentication_sound i c "tok" [ev Now 0%Z; ev (HttpPostForm (introspectionURL i) (introspection_form "jws" "tok"))
      (Ok (200, "200 OK", introspect_answer)%Z)] (Returned (c, resp))) as (c' & resp' & Hr & _ & Hj).
  - cbn. eexists _, _. split; [reflexivity|]. eexists _, _. split; [reflexivity|].
    split; [reflexivity|]. vm_compute. reflexivity.
  - injection Hr as <- <-. exact Hj.
Defined.
End Witnesses.
