(* ===== verification/UserSweep.v ===== *)
(** internal/controller/user_sweep.go: the periodic sweep that gives every Zitadel
    human user a User resource and reconciles its EmailVerification field. *)

From S2P Require Import Prelude GoLib Prog Model Cluster Users.

Definition sweepPageSize : Z := 100.

(** The index of the listed Users; a later item replaces an earlier one. *)
Definition index_users (items : list User) : gmap string User :=
  foldl (λ m u, <[u_name u := u]> m) ∅ items.

Section Sweep.
Context `{ConflictRetry}.

(** The reconciliation of a User that exists. *)
Definition reconcile_verification (existingUser : User) (u : ZUser) : M unit :=
  if NeedsUpdate existingUser (z_IsEmailVerified u) then
    '(changed, err) ← SetVerified (z_ID u) (z_IsEmailVerified u);
    match err with
    | Some _ => call (Inc sweepErrors)
    | None => if (changed : bool) then call (Inc sweepEmailVerifiedUpdates) else mret ()
    end
  else mret ().

(** The loop body for one Zitadel user; an error ends the sweep. *)
Definition sweep_user (existing : gmap string User) (u : ZUser) : M (option error) :=
  _ ← call (Inc sweepScanned);
  match existing !! z_ID u with
  | Some existingUser => _ ← reconcile_verification existingUser u; mret None
  | None =>
      _ ← call (Inc sweepMissing);
      '(user, created, err) ← EnsureUser (NewUser (z_ID u) (z_Email u) (z_GivenName u) (z_FamilyName u));
      match err with
      | Some e =>
          _ ← call (Inc sweepErrors);
          mret (Some (EWrap ("create user " +:+ z_ID u +:+ ": ") e))
      | None =>
          if (created : bool) then
            _ ← call (Inc sweepCreated);
            _ ← RecordEvent (u_name user) (u_uid user) EventReasonAccountCreated "Account created";
            mret None
          else mret None
      end
  end.

Fixpoint sweep_page (existing : gmap string User) (users : list ZUser) : M (option error) :=
  match users with
  | [] => mret None
  | u :: users =>
      e ← sweep_user existing u;
      match e with Some e => mret (Some e) | None => sweep_page existing users end
  end.

(** uint64 arithmetic of the offset. *)
Definition add_u64 (a b : Z) : Z := ((a + b) mod 2 ^ 64)%Z.

(** The page loop; [None] when the fuel runs out. *)
Fixpoint sweep_pages (fuel : nat) (existing : gmap string User) (offset : Z) : M (option (option error)) :=
  match fuel with
  | O => mret None
  | Datatypes.S fuel =>
      r ← call (ZListHumanUsers offset sweepPageSize);
      match r with
      | Err e =>
          _ ← call (Inc sweepErrors);
          mret (Some (Some (EWrap ("list zitadel users (offset " +:+ itoa offset +:+ "): ") e)))
      | Ok (users, raw) =>
          e ← sweep_page existing users;
          match e with
          | Some e => mret (Some (Some e))
          | None =>
              if (raw <? sweepPageSize)%Z then mret (Some None)
              else sweep_pages fuel existing (add_u64 offset raw)
          end
      end
  end.

Definition sweepOnce (fuel : nat) : M (option (option error)) :=
  r ← call KListUsers;
  match r with
  | Err e =>
      _ ← call (Inc sweepErrors);
      mret (Some (Some (EWrap "list existing user resources: " e)))
  | Ok items =>
      res ← sweep_pages fuel (index_users items) 0;
      match res with
      | Some None => _ ← call (Inc sweepLastSuccess); mret (Some None)
      | _ => mret res
      end
  end.
End Sweep.

(** [Start]: a first sweep at once, then one per tick until the context ends, for
    [ticks] rounds of the select. *)
Record UserSweeper := mkSweeper { sw_Interval : Z }.

Fixpoint sweeper_loop `{ConflictRetry} (ticks fuel : nat) (s : UserSweeper) : M unit :=
  match ticks with
  | O => mret ()
  | Datatypes.S ticks =>
      d ← call (SleepOrDone (sw_Interval s));
      match d with
      | Some _ => mret ()
      | None => _ ← sweepOnce fuel; sweeper_loop ticks fuel s
      end
  end.

Definition sweeper_Start `{ConflictRetry} (ticks fuel : nat) (s : UserSweeper) : M unit :=
  if (sw_Interval s <=? 0)%Z then mret ()
  else _ ← sweepOnce fuel; sweeper_loop ticks fuel s.

(** * Lemmas *)

Lemma index_users_lookup items n :
  is_Some (index_users items !! n) ↔ ∃ u, u ∈ items ∧ u_name u = n.
Proof.
  unfold index_users. assert (∀ (m : gmap string User), is_Some (foldl (λ m u, <[u_name u := u]> m) m items !! n) ↔
    is_Some (m !! n) ∨ ∃ u, u ∈ items ∧ u_name u = n) as Hgen.
  { induction items as [|u items IH]; intros m; simpl.
    - split; [auto|]. intros [?|(u & Hu & _)]; [done|]. by apply not_elem_of_nil in Hu.
    - rewrite IH. split.
      + intros [Hs|(u' & Hu & Hn)]; [|right; exists u'; split; [by right|done]].
        destruct (decide (u_name u = n)) as [Hn|Hn]; [right; exists u; split; [by left|done]|].
        rewrite lookup_insert_ne in Hs by done. auto.
      + intros [Hs|(u' & [->|Hu]%elem_of_cons & Hn)].
        * left. destruct (decide (u_name u = n)) as [<-|Hn]; [rewrite lookup_insert_eq; eauto|by rewrite lookup_insert_ne].
        * left. rewrite Hn, lookup_insert_eq. eauto.
        * right. eauto. }
  rewrite Hgen, lookup_empty. split; [intros [[? [=]]|?]; done|auto].
Qed.

(** Both services are unaffected by a call that is neither's. *)
Lemma frame {S} {h : environment S} `{!ApiServer h} `{!ZitadelDirectory h} o s : writes_users o = false → writes_directory o = false →
  users (h o s).1 = users s ∧ dir_rows (h o s).1 = dir_rows s.
Proof. intros H1 H2. split; [by apply api_frame|by apply dir_frame]. Qed.

(** Runs the next call of the goal when it touches neither service. *)
Ltac neutral s' a Hu Hd :=
  match goal with
  | |- context [?h ?o ?s] =>
      pose proof (frame (h := h) o s eq_refl eq_refl) as [Hu Hd]; destruct (h o s) as [s' a]; cbn [fst snd] in *; cbv beta iota
  end.

Section Correct.
Context `{ConflictRetry} {S : Type} {h : environment S} `{!ApiServer h} `{!ZitadelDirectory h}.

(** A User made for the human [u]. *)
Definition provisioned (u : ZUser) (user : User) : Prop :=
  u_email user = z_Email u ∧ u_givenName user = z_GivenName u ∧ u_familyName user = z_FamilyName u.

(** The only change to a User that exists: its EmailVerification, to the state of a
    human with its id. *)
Definition kept (dir : list ZUser) (us us' : gmap string User) : Prop :=
  ∀ n old, us !! n = Some old → ∃ rv v,
    us' !! n = Some (set_rv rv (with_emailVerification old v)) ∧
    (v = u_emailVerification old ∨ ∃ u, u ∈ dir ∧ z_ID u = n ∧ v = Desired (z_IsEmailVerified u)).

(** A User that appears is one provisioned for a human with its id. *)
Definition added (dir : list ZUser) (us us' : gmap string User) : Prop :=
  ∀ n user, us' !! n = Some user → us !! n = None → ∃ u, u ∈ dir ∧ z_ID u = n ∧ provisioned u user.

(** What happens to the stored Users over (part of) a sweep of the directory [dir]. *)
Definition evolves (dir : list ZUser) (us us' : gmap string User) : Prop := kept dir us us' ∧ added dir us us'.

Lemma evolves_refl dir us : evolves dir us us.
Proof.
  split; [|intros n user Hs Hn; congruence].
  intros n old Ho. exists (u_resourceVersion old), (u_emailVerification old). split; [|by left].
  rewrite Ho. by destruct old.
Qed.

Lemma evolves_trans dir us1 us2 us3 : evolves dir us1 us2 → evolves dir us2 us3 → evolves dir us1 us3.
Proof.
  intros [H12 A12] [H23 A23]. split.
  - intros n old Ho. destruct (H12 n old Ho) as (rv & v & H2 & Hv).
    destruct (H23 n _ H2) as (rv' & v' & H3 & Hv'). exists rv', v'. split; [exact H3|].
    destruct Hv' as [->|?]; [|by right]. done.
  - intros n user H3 H1. destruct (us2 !! n) as [user2|] eqn:H2; [|by apply A23].
    destruct (A12 n user2 H2 H1) as (u & Hu & Hid & Hp). exists u. split; [done|]. split; [done|].
    destruct (H23 n user2 H2) as (rv & v & H3' & _). rewrite H3 in H3'. injection H3' as ->. done.
Qed.

Lemma evolves_some dir us us' n : evolves dir us us' → is_Some (us !! n) → is_Some (us' !! n).
Proof. intros [Hk _] [old Ho]. destruct (Hk n old Ho) as (rv & v & -> & _). eauto. Qed.

(** The calls of [SetVerified] leave the directory alone, whatever happens. *)
Lemma run_directory {A} (p : M A) s :
  safe (no (λ e, writes_directory (projT1 e))) p → dir_rows (run h p s).1 = dir_rows s.
Proof. apply run_frame, dir_frame. Qed.

Lemma SetVerified_directory n v : safe (no (λ e, writes_directory (projT1 e))) (SetVerified n v).
Proof.
  apply RetryOnConflict_safe; [apply _|]. intros c [u|e]; simpl; [|done].
  destruct (NeedsUpdate u v); simpl; [|done]. by intros [e|].
Qed.

Lemma run_reconcile dir ex u s :
  u ∈ dir →
  ∃ s', run h (reconcile_verification ex u) s = (s', Returned tt) ∧
    evolves dir (users s) (users s') ∧ dir_rows s' = dir_rows s.
Proof.
  intros Hu. unfold reconcile_verification. destruct (NeedsUpdate _ _).
  2: { exists s. split; [done|]. split; [apply evolves_refl|done]. }
  pose proof (run_directory (SetVerified (z_ID u) (z_IsEmailVerified u)) s (SetVerified_directory _ _)) as Hd.
  rewrite run_bind. unfold SetVerified in *. rewrite RetryOnConflict_doc in *.
  destruct (run_attempts_set (h := h) retry_steps (z_ID u) (z_IsEmailVerified u) s) as (s1 & c & e & Hrun & Hs1).
  rewrite Hrun in *. simpl in Hd.
  assert (evolves dir (users s) (users s1)) as He.
  { destruct e as [e|]; [destruct Hs1 as [-> _]; apply evolves_refl|].
    destruct Hs1 as (u0 & rv & Hu0 & _ & ->). split; intros n old Ho; destruct (decide (n = z_ID u)) as [->|Hn].
    - rewrite lookup_insert_eq. assert (old = u0) as -> by congruence. exists rv, (Desired (z_IsEmailVerified u)).
      split; [done|]. right. by exists u.
    - rewrite lookup_insert_ne by done. by apply evolves_refl.
    - congruence.
    - rewrite lookup_insert_ne in Ho by done. congruence. }
  destruct e as [e|]; [|destruct c]; simpl.
  - neutral s2 x Hu2 Hd2. destruct x. exists s2. rewrite Hu2, Hd2. done.
  - neutral s2 x Hu2 Hd2. destruct x. exists s2. rewrite Hu2, Hd2. done.
  - exists s1. done.
Qed.

(** One Zitadel user: the loop body always returns, and without an error the User
    exists afterwards. *)
Lemma run_sweep_user dir existing u s :
  u ∈ dir → (∀ n, is_Some (existing !! n) → is_Some (users s !! n)) →
  ∃ s' e, run h (sweep_user existing u) s = (s', Returned e) ∧
    evolves dir (users s) (users s') ∧ dir_rows s' = dir_rows s ∧
    (e = None → is_Some (users s' !! z_ID u)).
Proof.
  intros Hu Hex. unfold sweep_user. rewrite run_bind, run_call.
  neutral s1 x Hu1 Hh1. destruct (existing !! z_ID u) as [ex|] eqn:Hlook.
  - rewrite run_bind. destruct (run_reconcile dir ex u s1 Hu) as (s2 & -> & He & Hh2). simpl.
    exists s2, None. split; [done|]. rewrite Hu1 in He. split; [done|]. split; [congruence|].
    intros _. eapply evolves_some; [exact He|]. apply Hex. eauto.
  - rewrite run_bind, run_call. neutral s2 x2 Hu2 Hh2.
    rewrite run_bind. unfold EnsureUser. cbn -[NewUser]. set (new := NewUser _ _ _ _).
    pose proof (api_create new s2) as Hc. pose proof (dir_frame (KCreateUser new) s2 eq_refl) as Hd.
    destruct (h (KCreateUser new) s2) as [s3 [user|e]]; simpl in *.
    + destruct Hc as (Hnone & Hs3 & Hname & Hemail & Hg & Hf & _). simpl in *.
      neutral s4 x4 Hu4 Hh4. neutral s5 t Hu5 Hh5. neutral s6 er Hu6 Hh6.
      exists s6, None. split; [done|].
      assert (users s6 = <[z_ID u := user]> (users s)) as Hfinal by congruence.
      split; [|split; [congruence|]].
      * rewrite Hfinal. assert (users s !! z_ID u = None) as Hn by congruence. split.
        -- intros n old Hold. rewrite lookup_insert_ne by congruence. by apply evolves_refl.
        -- intros n user' Hnew Hold. destruct (decide (n = z_ID u)) as [->|Hne].
           ++ rewrite lookup_insert_eq in Hnew. injection Hnew as <-. exists u. done.
           ++ rewrite lookup_insert_ne in Hnew by done. congruence.
      * intros _. rewrite Hfinal, lookup_insert_eq. eauto.
    + destruct Hc as [Hs3 Hae]. destruct (IsAlreadyExists e) eqn:Hex2; simpl.
      * exists s3, None. split; [done|]. assert (users s3 = users s) as Heq by congruence. rewrite Heq.
        split; [apply evolves_refl|]. split; [congruence|]. intros _.
        destruct (Hae eq_refl) as [old Hold]. simpl in Hold. exists old. congruence.
      * neutral s4 x4 Hu4 Hh4. eexists s4, (Some _). split; [done|].
        assert (users s4 = users s) as Heq by congruence. rewrite Heq.
        split; [apply evolves_refl|]. split; [congruence|]. done.
Qed.
Lemma run_sweep_page dir existing us s :
  (∀ u, u ∈ us → u ∈ dir) → (∀ n, is_Some (existing !! n) → is_Some (users s !! n)) →
  ∃ s' e, run h (sweep_page existing us) s = (s', Returned e) ∧
    evolves dir (users s) (users s') ∧ dir_rows s' = dir_rows s ∧
    (e = None → ∀ u, u ∈ us → is_Some (users s' !! z_ID u)).
Proof.
  revert s. induction us as [|u us IH]; intros s Hin Hex.
  - exists s, None. split; [done|]. split; [apply evolves_refl|]. split; [done|].
    intros _ u Hu. by apply not_elem_of_nil in Hu.
  - cbn [sweep_page]. rewrite run_bind.
    destruct (run_sweep_user dir existing u s) as (s1 & e1 & -> & He1 & Hh1 & Hs1); [apply Hin; by left|done|].
    destruct e1 as [e1|]; [by exists s1, (Some e1)|].
    destruct (IH s1) as (s2 & e2 & -> & He2 & Hh2 & Hs2); [intros; apply Hin; by right| |].
    { intros n Hn. eapply evolves_some; [exact He1|]. auto. }
    exists s2, e2. split; [done|]. split; [by eapply evolves_trans|]. split; [congruence|].
    intros -> v [->|Hv]%elem_of_cons; [|by apply Hs2]. eapply evolves_some; [exact He2|]. auto.
Qed.

(** The page loop from [offset]: it ends within the fuel the rest of the directory
    needs, and without an error every human from [offset] on has a User. *)
Lemma run_sweep_pages fuel existing offset s :
  (0 ≤ offset)%Z → (Z.of_nat (length (dir_rows s)) < 2 ^ 64)%Z →
  (Z.of_nat (length (dir_rows s)) < offset + sweepPageSize * Z.of_nat fuel)%Z → (0 < fuel)%nat →
  (offset ≤ Z.of_nat (length (dir_rows s)))%Z →
  (∀ n, is_Some (existing !! n) → is_Some (users s !! n)) →
  ∃ s' e, run h (sweep_pages fuel existing offset) s = (s', Returned (Some e)) ∧
    evolves (humans s) (users s) (users s') ∧ dir_rows s' = dir_rows s ∧
    (e = None → ∀ u, u ∈ omap id (drop (Z.to_nat offset) (dir_rows s)) → is_Some (users s' !! z_ID u)).
Proof.
  revert offset s. induction fuel as [|fuel IH]; intros offset s Hoff Hsz Hfuel Hpos Hle Hex; [lia|].
  cbn [sweep_pages]. rewrite run_bind, (run_call h (ZListHumanUsers offset sweepPageSize)).
  pose proof (dir_page offset sweepPageSize s Hoff ltac:(unfold sweepPageSize; lia)) as Hpage.
  destruct (frame (ZListHumanUsers offset sweepPageSize) s eq_refl eq_refl) as [Hu1 Hh1].
  destruct (h (ZListHumanUsers offset sweepPageSize) s) as [s1 [[us raw]|e]]; cbn [fst snd] in *; cbv beta iota.
  2: { rewrite run_bind, run_call. neutral s2 x Hu2 Hh2. eexists s2, (Some _). split; [done|].
       assert (users s2 = users s) as -> by congruence. split; [apply evolves_refl|]. split; [congruence|done]. }
  cbv zeta in Hpage. change (Z.to_nat sweepPageSize) with 100%nat in Hpage. destruct Hpage as [Hus Hraw].
  set (page := take 100 (drop (Z.to_nat offset) (dir_rows s))) in *.
  rewrite run_bind.
  destruct (run_sweep_page (humans s) existing us s1) as (s2 & e2 & -> & He2 & Hh2 & Hs2).
  { intros u Hu. rewrite Hus in Hu. unfold humans. apply list_elem_of_omap in Hu as (row & Hrow & Hid).
    apply list_elem_of_omap. exists row. split; [|done]. by apply subseteq_take, subseteq_drop in Hrow. }
  { intros n Hn. rewrite Hu1. auto. }
  rewrite Hu1 in He2.
  destruct e2 as [e2|]; [eexists s2, (Some _); split; [done|]; split; [done|]; split; [congruence|done]|].
  assert (length page = min 100 (length (dir_rows s) - Z.to_nat offset)) as Hlen by (by unfold page; rewrite length_take, length_drop).
  assert (∀ u, u ∈ omap id (drop (Z.to_nat offset) (dir_rows s)) → u ∈ us ∨ u ∈ omap id (drop (Z.to_nat (offset + raw)) (dir_rows s))) as Hsplit.
  { intros u. rewrite <-(take_drop 100 (drop (Z.to_nat offset) (dir_rows s))), drop_drop. fold page. rewrite omap_app, <-Hus.
    intros [?|Hu]%elem_of_app; [by left|].
    right. destruct (decide (length page = 100%nat)) as [Hfull|Hpart].
    - replace (Z.to_nat (offset + raw)) with (Z.to_nat offset + 100)%nat by lia. done.
    - rewrite drop_ge in Hu by lia. by apply not_elem_of_nil in Hu. }
  destruct (Z.ltb_spec raw sweepPageSize) as [Hlast|Hmore]; unfold sweepPageSize in *.
  - exists s2, None. split; [done|]. split; [done|]. split; [congruence|]. intros _ u Hu.
    destruct (Hsplit u Hu) as [?|Hrest]; [by apply Hs2|].
    rewrite drop_ge in Hrest by lia. by apply not_elem_of_nil in Hrest.
  - assert (raw = 100)%Z as Hraw100 by lia. assert (0 < fuel)%nat by lia.
    assert (add_u64 offset raw = offset + 100)%Z as Hoffset by (unfold add_u64; rewrite Hraw100; apply Z.mod_small; lia).
    rewrite Hoffset. unfold humans in *. rewrite <-Hh1, <-Hh2 in *.
    destruct (IH (offset + 100)%Z s2) as (s3 & e3 & -> & He3 & Hh3 & Hs3); [lia|done|lia|done|lia| |].
    { intros n Hn. eapply evolves_some; [exact He2|]. auto. }
    exists s3, e3. split; [done|]. split; [by eapply evolves_trans|]. split; [congruence|].
    intros He u Hu. destruct (Hsplit u Hu) as [Hpage|Hrest].
    + eapply evolves_some; [exact He3|]. by apply Hs2.
    + apply Hs3; [done|]. by rewrite <-Hraw100.
Qed.
(** The whole sweep. *)
Lemma run_sweepOnce fuel s :
  (Z.of_nat (length (dir_rows s)) < 2 ^ 64)%Z → (Z.of_nat (length (dir_rows s)) < sweepPageSize * Z.of_nat fuel)%Z →
  ∃ s' e, run h (sweepOnce fuel) s = (s', Returned (Some e)) ∧
    (e = None → ∀ u, u ∈ humans s → is_Some (users s' !! z_ID u)) ∧
    kept (humans s) (users s) (users s') ∧ added (humans s) (users s) (users s') ∧ dir_rows s' = dir_rows s.
Proof.
  intros Hsz Hfuel. unfold sweepOnce. rewrite run_bind, (run_call h KListUsers).
  pose proof (api_list s) as Hlist. destruct (frame KListUsers s eq_refl eq_refl) as [Hu1 Hh1].
  destruct (h KListUsers s) as [s1 [items|e]]; cbn [fst snd] in *; cbv beta iota.
  2: { rewrite run_bind, run_call. neutral s2 x Hu2 Hh2. eexists s2, (Some _). split; [done|]. split; [done|].
       assert (users s2 = users s) as -> by congruence.
       destruct (evolves_refl (humans s) (users s)). split; [done|]. split; [done|congruence]. }
  rewrite run_bind. unfold sweepPageSize in Hfuel. unfold humans in *. rewrite <-Hh1 in *.
  destruct (run_sweep_pages fuel (index_users items) 0 s1) as (s2 & e2 & -> & [Hk2 Ha2] & Hh2 & Hs2);
    [lia|done|unfold sweepPageSize; lia|lia|lia| |].
  { intros n (u & Hu & <-)%index_users_lookup. apply Hlist in Hu. rewrite Hu1. eauto. }
  rewrite Hu1 in *. destruct e2 as [e2|].
  - exists s2, (Some e2). split; [done|]. done.
  - rewrite run_bind, run_call. neutral s3 x Hu3 Hh3. exists s3, None. split; [done|]. rewrite Hu3.
    split; [intros _; by apply Hs2|]. split; [done|]. split; [done|congruence].
Qed.
End Correct.

(** * Properties *)

(** C7: one sweep restores the invariant that every Zitadel human has a User. Against
    an API server read fresh (as from a cache that has caught up) and a paginated
    directory it terminates (fuel above a hundredth of
    the directory's size is enough); when it reports no error, every human of the
    directory has a User under its id; and whatever it reports, no User disappears,
    a User that existed changes in nothing but its EmailVerification, and only to the
    state of a human with its id, a User that appears is one provisioned from such
    a human, and the directory is untouched. *)
Theorem sweepOnce_complete `{ConflictRetry} {S} (h : environment S) `{!ApiServer h} `{!ZitadelDirectory h} fuel s :
  (Z.of_nat (length (dir_rows s)) < 2 ^ 64)%Z → (Z.of_nat (length (dir_rows s)) < sweepPageSize * Z.of_nat fuel)%Z →
  ∃ s' e, run h (sweepOnce fuel) s = (s', Returned (Some e)) ∧
    (e = None → ∀ u, u ∈ humans s → is_Some (users s' !! z_ID u)) ∧
    kept (humans s) (users s) (users s') ∧ added (humans s) (users s) (users s') ∧ dir_rows s' = dir_rows s.
Proof. apply run_sweepOnce. Qed.

(** * Witnesses *)

Definition human (id email : string) (verified : bool) (created : Z) : ZUser :=
  mkZUser id id email "USER_STATE_ACTIVE" "Given" "Family" verified created.

Definition two_humans : cluster :=
  set_humans one_user [human "u1" "jane@example.com" true 1; human "u2" "joe@example.com" false 1].

Lemma sweepOnce_complete_witness :
  ∃ s' e, run fake (@sweepOnce default_retry 1) two_humans = (s', Returned (Some e)) ∧ e = None ∧
    (∀ u, u ∈ humans two_humans → is_Some (users s' !! z_ID u)).
Proof.
  destruct (@sweepOnce_complete default_retry cluster fake _ _ 1 two_humans) as (s' & e & Hr & Hall & _);
    [vm_compute; reflexivity|vm_compute; reflexivity|].
  exists s', e. split; [exact Hr|].
  assert (e = None) as He.
  { apply (f_equal (λ x, match x.2 with Returned (Some None) => true | _ => false end)) in Hr.
    destruct e; [vm_compute in Hr; discriminate Hr|reflexivity]. }
  split; [exact He|exact (Hall He)].
Defined.
