(* ===== verification/SdkClient.v ===== *)
(** pkg/zitadel/sdk_client.go, session_meta.go and the naming rules of api.go: the
    implementation of the interface [zitadel.API] on top of Zitadel's gRPC services. *)

From S2P Require Import Prelude GoLib Prog Model Cluster.

(** * api.go *)

Definition OrgIDForProject (projectName : string) : string := "project-" +:+ projectName.
Definition OrgDisplayNameForProject (projectName : string) : string := "Project - " +:+ projectName.

Definition localIdentityProviderID : string := "zitadel-local".
Definition localIdentityProviderName : string := "Email".

Record SDKConfig := mkSDKConfig {
  Domain : string; Issuer : string; KeyPath : string; DefaultMachineKeyExpiration : Z }.

(** * NewSDK *)

Fixpoint index_char (c : ascii) (s : string) : option nat :=
  match s with
  | EmptyString => None
  | String c' s' => if bool_decide (c' = c) then Some 0%nat else S <$> index_char c s'
  end.

Fixpoint last_index_char (c : ascii) (s : string) : option nat :=
  match s with
  | EmptyString => None
  | String c' s' =>
      match last_index_char c s' with
      | Some n => Some (S n)
      | None => if bool_decide (c' = c) then Some 0%nat else None
      end
  end.

Definition colon : ascii := ascii_of_N 58.
Definition open_bracket : ascii := ascii_of_N 91.
Definition close_bracket : ascii := ascii_of_N 93.

Definition has_char (c : ascii) (s : string) : bool := if index_char c s is Some _ then true else false.

(** [net.SplitHostPort]; [None] is any of its errors. *)
Definition SplitHostPort (s : string) : option (string * string) :=
  i ← last_index_char colon s;
  let port := drop_string (S i) s in
  if has_prefix (String open_bracket EmptyString) s then
    e ← index_char close_bracket s;
    if negb (bool_decide (S e = i)) then None
    else
      let host := String.substring 1 (e - 1) s in
      if has_char open_bracket (drop_string 1 s) || has_char close_bracket (drop_string (S e) s) then None
      else Some (host, port)
  else
    let host := String.substring 0 i s in
    if has_char colon host || has_char open_bracket s || has_char close_bracket s then None
    else Some (host, port).

Fixpoint parse_digits (acc : Z) (s : string) : option Z :=
  match s with
  | EmptyString => Some acc
  | String c s => if in_range 48 57 c then parse_digits (acc * 10 + Z.of_N (cat c - 48))%Z s else None
  end.

(** [strconv.ParseUint(s, 10, 16)]. *)
Definition ParseUint16 (s : string) : option Z :=
  if bool_decide (s = EmptyString) then None
  else n ← parse_digits 0 s; if (n <? 2 ^ 16)%Z then Some n else None.

(** What of the configuration reaches the gRPC client: host, port, issuer, key. *)
Definition sdk_target `{GoRuntime} (cfg : SDKConfig) : result (string * option Z) :=
  if bool_decide (Domain cfg = EmptyString ∨ Issuer cfg = EmptyString ∨ KeyPath cfg = EmptyString)
  then Err (EPlain "missing ZITADEL domain, issuer, or key path")
  else
    let host := trim_prefix (trim_prefix (Domain cfg) "https://") "http://" in
    if bool_decide (host = EmptyString) || contains host "/" then
      Err (EPlain "domain must be host only (e.g. auth.example.com)")
    else
      let target :=
        match SplitHostPort host with
        | None => Ok (host, 0%Z)
        | Some (h, p) =>
            match ParseUint16 p with
            | None => Err (EPlain ("invalid port " +:+ quote p +:+ " in domain " +:+ quote (Domain cfg)))
            | Some n => Ok (h, n)
            end
        end in
      match target with
      | Err e => Err e
      | Ok (host, port) =>
          if negb (has_prefix "https://" (Issuer cfg)) && negb (has_prefix "http://" (Issuer cfg)) then
            Err (EPlain "issuer must include scheme (e.g. https://auth.example.com)")
          else Ok (host, if bool_decide (port = 0%Z) then None else Some port)
      end.

Definition env_or (v key : string) : M string :=
  if bool_decide (v = EmptyString) then call (Getenv key) else mret v.

Definition NewSDK `{GoRuntime} (cfg : SDKConfig) : M (result SDKConfig) :=
  d ← env_or (Domain cfg) "ZITADEL_API";
  i ← env_or (Issuer cfg) "ZITADEL_ISSUER";
  k ← env_or (KeyPath cfg) "ZITADEL_KEY_PATH";
  let cfg := mkSDKConfig d i k (DefaultMachineKeyExpiration cfg) in
  match sdk_target cfg with
  | Err e => mret (Err e)
  | Ok (host, port) =>
      e ← call (GNewClient host port (Issuer cfg) (KeyPath cfg));
      mret match e with Some e => Err e | None => Ok cfg end
  end.

(** * Mapping the messages *)

Definition toTime (ts : option Z) : Z := default zero_time ts.

(** [AsTime] of a nil timestamp is the Unix epoch. *)
Definition AsTime (ts : option Z) : Z := default 0%Z ts.

Section Mapping.
Context `{GoRuntime}.

Fixpoint header_user_agent (header : list (string * option (list string))) : string :=
  match header with
  | [] => EmptyString
  | (k, hv) :: header =>
      match hv with
      | Some (v :: _) => if EqualFold k "user-agent" then v else header_user_agent header
      | Some [] | None => header_user_agent header
      end
  end.

Definition extractUserAgentString (ua : option PbUserAgent) : string :=
  match ua with
  | None => EmptyString
  | Some ua =>
      if negb (bool_decide (pua_description ua = EmptyString)) then pua_description ua
      else header_user_agent (pua_header ua)
  end.

Definition zero_session : Session :=
  mkSession EmptyString EmptyString EmptyString EmptyString zero_time None EmptyString ∅ false.

Definition mapZitadelSession (s : option PbSession) : Session :=
  match s with
  | None => zero_session
  | Some s =>
      mkSession (ps_id s) (ps_factorUserId s)
        (match ps_userAgent s with Some ua => pua_ip ua | None => EmptyString end)
        (match ps_userAgent s with Some ua => pua_fingerprintId ua | None => EmptyString end)
        (toTime (ps_creationDate s)) (ps_changeDate s)
        (extractUserAgentString (ps_userAgent s)) (ps_metadata s) (ps_webAuthNVerified s)
  end.

Fixpoint first_nonblank (names : list string) : option string :=
  match names with
  | [] => None
  | n :: names =>
      if negb (bool_decide (TrimSpace n = EmptyString)) then Some (TrimSpace n) else first_nonblank names
  end.

Definition localIdentityUsername (user : PbUser) : string :=
  let preferred := TrimSpace (pu_preferredLoginName user) in
  if negb (bool_decide (preferred = EmptyString)) then preferred
  else match first_nonblank (pu_loginNames user) with
       | Some n => n
       | None => TrimSpace (pu_username user)
       end.

Definition human_of (user : PbUser) : option PbHuman :=
  match pu_type user with PbHumanUser h => Some h | PbMachineUser | PbNoType => None end.

(** The User of [GetUserByID]: names and creation date stay zero. *)
Definition user_by_id (user : PbUser) : ZUser :=
  let '(email, verified) := default (EmptyString, false) (human_of user ≫= h_email) in
  mkZUser (pu_userId user) (localIdentityUsername user) email (pu_state user) EmptyString EmptyString verified zero_time.

(** The User of [ListHumanUsers]; [None] for a row that is not human. *)
Definition human_row (user : PbUser) : option ZUser :=
  match human_of user with
  | None => None
  | Some human =>
      Some (mkZUser (pu_userId user) (localIdentityUsername user) (from_option fst EmptyString (h_email human))
              (pu_state user) (h_givenName human) (h_familyName human)
              (from_option snd false (h_email human)) (toTime (pu_creationDate user)))
  end.

(** The User of the machine-account calls. *)
Definition machine_row (user : PbUser) : ZUser :=
  mkZUser (pu_userId user) (localIdentityUsername user) EmptyString (pu_state user) EmptyString EmptyString false zero_time.

Definition is_machine (user : PbUser) : bool :=
  match pu_type user with PbMachineUser => true | PbHumanUser _ | PbNoType => false end.

(** * The methods *)

(** [status.Code(err) == codes.NotFound] makes a removal idempotent. *)
Definition ignore_not_found (pre : string) (e : option error) : option error :=
  match e with
  | None => None
  | Some e => if bool_decide (grpc_of e = Some GNotFound) then None else Some (EWrap pre e)
  end.

Definition wrap_result {A B} (pre : string) (f : A → B) (r : result A) : result B :=
  match r with Ok a => Ok (f a) | Err e => Err (EWrap pre e) end.

Definition SDK_ListSessions (userID : string) : M (result (list Session)) :=
  r ← call (GListSessions userID);
  mret match r with Ok l => Ok (map mapZitadelSession l) | Err e => Err e end.

Definition SDK_GetSession (id : string) : M (result (option Session)) :=
  r ← call (GGetSession id);
  mret match r with Ok s => Ok (Some (mapZitadelSession s)) | Err e => Err e end.

(** The user id is accepted and ignored. *)
Definition SDK_DeleteSession (_userID id : string) : M (option error) := call (GDeleteSession id).

Fixpoint resolve_links (links : list PbIDPLink) : M (list IDPLink) :=
  match links with
  | [] => mret []
  | l :: links =>
      r ← call (GGetIDPByID (pl_idpId l));
      let name := match r with Ok (Some n) => n | Ok None | Err _ => pl_idpId l end in
      rest ← resolve_links links;
      mret (mkIDPLink (pl_idpId l) name (pl_userId l) (pl_userName l) :: rest)
  end.

Definition getLocalIdentityLink (userID : string) : M (result (option IDPLink)) :=
  r ← call (GGetUserByID userID);
  mret match r with
       | Err e => Err e
       | Ok None => Ok None
       | Ok (Some user) =>
           let username := localIdentityUsername user in
           Ok (if bool_decide (username = EmptyString) then None
               else Some (mkIDPLink localIdentityProviderID localIdentityProviderName (pu_userId user) username))
       end.

Definition SDK_ListIDPLinks (userID : string) : M (result (list IDPLink)) :=
  r ← call (GListIDPLinks userID);
  match r with
  | Err e => mret (Err e)
  | Ok links =>
      out ← resolve_links links;
      match out with
      | [] =>
          local ← getLocalIdentityLink userID;
          mret match local with
               | Err e => Err e
               | Ok None => Ok []
               | Ok (Some l) => Ok [l]
               end
      | _ => mret (Ok out)
      end
  end.

Definition SDK_ListPasskeys (userID : string) : M (result (list Passkey)) :=
  r ← call (GListPasskeys userID); mret (wrap_result "list passkeys: " id r).

Definition SDK_CreatePasskeyRegistrationLink (userID : string) : M (result (string * string)) :=
  r ← call (GCreatePasskeyRegistrationLink userID);
  mret match r with
       | Err e => Err (EWrap "create passkey registration link: " e)
       | Ok None => Err (EPlain "create passkey registration link: empty code in response")
       | Ok (Some (codeID, code)) =>
           if bool_decide (code = EmptyString)
           then Err (EPlain "create passkey registration link: empty code in response")
           else Ok (codeID, code)
       end.

Definition SDK_ListAuthMethodTypes (userID : string) : M (result (list string)) :=
  r ← call (GListAuthMethodTypes userID); mret (wrap_result "list authentication method types: " id r).

Definition SDK_ListUserMetadata (userID : string) : M (result (list UserMetadata)) :=
  r ← call (GListUserMetadata userID);
  mret (wrap_result "list user metadata: " (map (λ '(k, v, d), mkUserMetadata k v (toTime d))) r).

Definition SDK_CreateOrganization (name : string) : M (result string) :=
  r ← call (GAddOrganization name None); mret (wrap_result "add organization: " id r).

Definition SDK_CreateOrganizationWithID (name customOrgID : string) : M (result string) :=
  r ← call (GAddOrganization name (Some customOrgID)); mret (wrap_result "add organization with id: " id r).

Definition SDK_AddMachineUserInOrganization (orgID userID username displayName : string) : M (result string) :=
  r ← call (GCreateUser (mkPbCreateMachine orgID userID username displayName "ACCESS_TOKEN_TYPE_JWT"));
  mret (wrap_result "create machine user in org: " id r).

Definition SDK_AddMachineKeyInOrganization (cfg : SDKConfig) (orgID userID publicKey : string)
    (expirationDate : option Z) : M (result (string * string)) :=
  expires ← (match expirationDate with
             | Some t => mret t
             | None => now ← call Now; mret (now + DefaultMachineKeyExpiration cfg)%Z
             end);
  r ← call (GAddKey orgID userID publicKey expires);
  mret (wrap_result "add key in org: " id r).

Definition SDK_DeleteOrganization (orgID : string) : M (option error) :=
  e ← call (GDeleteOrganization orgID); mret (ignore_not_found "delete organization: " e).

Definition SDK_GetOrganization (orgID : string) : M (result (option Organization)) :=
  r ← call (GListOrganizations orgID); mret (wrap_result "list organizations: " head r).

Definition SDK_GetMachineUserByUsername (orgID username : string) : M (result (option ZUser)) :=
  r ← call (GListUsers (QueryUserName orgID username));
  mret (wrap_result "list users: " (λ us, machine_row <$> head us) r).

Definition SDK_GetUserByID (userID : string) : M (result (option ZUser)) :=
  r ← call (GGetUserByID userID);
  mret match r with
       | Err e => if bool_decide (grpc_of e = Some GNotFound) then Ok None else Err (EWrap "get user by id: " e)
       | Ok user => Ok (user_by_id <$> user)
       end.

Definition SDK_ListHumanUsers (offset limit : Z) : M (result (list ZUser * Z)) :=
  r ← call (GListUsers (QueryHumans offset limit));
  mret (wrap_result "list human users: " (λ us, (omap human_row us, Z.of_nat (length us))) r).

Definition SDK_DeleteUser (userID : string) : M (option error) :=
  e ← call (GDeleteUser userID); mret (ignore_not_found "delete user: " e).

Definition SDK_DeactivateUser (orgID userID : string) : M (option error) :=
  e ← call (GDeactivateUser orgID userID); mret (ignore_not_found "deactivate user: " e).

Definition SDK_ReactivateUser (orgID userID : string) : M (option error) :=
  e ← call (GReactivateUser orgID userID); mret (ignore_not_found "reactivate user: " e).

Definition SDK_ListMachineAccountsInOrganization (orgID : string) : M (result (list ZUser)) :=
  r ← call (GListUsers (QueryOrganization orgID));
  mret (wrap_result "list users: " (λ us, map machine_row (List.filter is_machine us)) r).

Definition SDK_ListMachineKeysInOrganization (orgID userID : string) : M (result (list MachineKey)) :=
  r ← call (GListKeys orgID userID);
  mret (wrap_result "list keys: "
          (map (λ k, mkMachineKey (pky_id k) (AsTime (pky_creationDate k)) (pky_expirationDate k))) r).

Definition SDK_RemoveMachineKeyInOrganization (orgID userID keyID : string) : M (option error) :=
  e ← call (GRemoveKey orgID userID keyID); mret (ignore_not_found "remove key: " e).

(** The client behind the interface: a method call runs the method, every other
    call stays a call. *)
Definition sdk (cfg : SDKConfig) (o : op) : M (ans o) :=
  match o with
  | ZListSessions u => SDK_ListSessions u
  | ZGetSession i => SDK_GetSession i
  | ZDeleteSession u i => SDK_DeleteSession u i
  | ZListIDPLinks u => SDK_ListIDPLinks u
  | ZListPasskeys u => SDK_ListPasskeys u
  | ZCreatePasskeyRegistrationLink u => SDK_CreatePasskeyRegistrationLink u
  | ZListAuthMethodTypes u => SDK_ListAuthMethodTypes u
  | ZListUserMetadata u => SDK_ListUserMetadata u
  | ZCreateOrganization n => SDK_CreateOrganization n
  | ZCreateOrganizationWithID n i => SDK_CreateOrganizationWithID n i
  | ZDeleteOrganization i => SDK_DeleteOrganization i
  | ZGetOrganization i => SDK_GetOrganization i
  | ZGetUserByID u => SDK_GetUserByID u
  | ZListHumanUsers off lim => SDK_ListHumanUsers off lim
  | ZGetMachineUserByUsername o u => SDK_GetMachineUserByUsername o u
  | ZAddMachineUserInOrganization o i u d => SDK_AddMachineUserInOrganization o i u d
  | ZDeleteUser u => SDK_DeleteUser u
  | ZDeactivateUser o u => SDK_DeactivateUser o u
  | ZReactivateUser o u => SDK_ReactivateUser o u
  | ZListMachineAccountsInOrganization o => SDK_ListMachineAccountsInOrganization o
  | ZAddMachineKeyInOrganization o u p e => SDK_AddMachineKeyInOrganization cfg o u p e
  | ZListMachineKeysInOrganization o u => SDK_ListMachineKeysInOrganization o u
  | ZRemoveMachineKeyInOrganization o u k => SDK_RemoveMachineKeyInOrganization o u k
  | o => call o
  end.
End Mapping.
