(* ===== verification/AbandonedGC.v ===== *)
(** internal/controller/abandoned_user_gc.go: the deletion of accounts that never
    verified their address. *)

From S2P Require Import Prelude GoLib Prog Model Cluster Users UserSweep.

Definition DefaultAbandonedRetention : Z := (30 * 24 * Hour)%Z.
Definition DefaultAbandonedGCInterval : Z := (6 * Hour)%Z.

Record AbandonedUserGC := mkGC { Interval : Z; Retention : Z; DryRun : bool }.

Definition usableCredentials : list string :=
  ["AUTHENTICATION_METHOD_TYPE_PASSWORD"; "AUTHENTICATION_METHOD_TYPE_PASSKEY"; "AUTHENTICATION_METHOD_TYPE_IDP"].

Definition hasUsableCredential (methods : list string) : bool :=
  existsb (λ m, bool_decide (m ∈ usableCredentials)) methods.

Definition isAbandoned (u : ZUser) (cutoff : Z) : bool :=
  if z_IsEmailVerified u then false
  else if time_is_zero (z_CreatedAt u) then false
  else (z_CreatedAt u <? cutoff)%Z.

Definition hasIDPLink (userID : string) : M (result bool) :=
  r ← call (ZListIDPLinks userID);
  mret match r with
       | Err e => Err (EWrap ("list idp links for " +:+ userID +:+ ": ") e)
       | Ok links => Ok (match links with [] => false | _ => true end)
       end.

Section Collect.
Context `{GoRuntime}.

Definition collect (userID : string) : M (option error) :=
  e ← call (ZDeleteUser userID);
  match e with
  | Some e => mret (Some (EWrap ("delete zitadel user " +:+ quote userID +:+ ": ") e))
  | None =>
      e ← call (KDeleteUser userID);
      mret match e with
           | Some e => if negb (IsNotFound e) then Some (EWrap ("delete milo user " +:+ quote userID +:+ ": ") e) else None
           | None => None
           end
  end.

(** The counters of one sweep. *)
Record tally := mkTally { eligible : nat; deleted : nat; noCredential : nat }.

(** The measurement of a verified account; never a collection decision. *)
Definition gauge_user (u : ZUser) (t : tally) : M tally :=
  if z_IsEmailVerified u then
    r ← call (ZListAuthMethodTypes (z_ID u));
    match r with
    | Err _ => _ ← call (Inc abandonedErrors); mret t
    | Ok methods =>
        mret (if negb (hasUsableCredential methods)
              then mkTally (eligible t) (deleted t) (Datatypes.S (noCredential t)) else t)
    end
  else mret t.

(** What is done with an account past the retention window. *)
Definition collect_candidate (g : AbandonedUserGC) (u : ZUser) (t : tally) : M tally :=
  linked ← hasIDPLink (z_ID u);
  match linked with
  | Err _ => _ ← call (Inc abandonedErrors); mret t
  | Ok true => _ ← call (Inc abandonedSkippedIDP); mret t
  | Ok false =>
      let t := mkTally (Datatypes.S (eligible t)) (deleted t) (noCredential t) in
      _ ← call (Inc abandonedEligible);
      if DryRun g then mret t
      else
        e ← collect (z_ID u);
        match e with
        | Some _ => _ ← call (Inc abandonedErrors); mret t
        | None =>
            _ ← call (Inc abandonedDeleted);
            mret (mkTally (eligible t) (Datatypes.S (deleted t)) (noCredential t))
        end
  end.

Definition gc_user (g : AbandonedUserGC) (cutoff : Z) (u : ZUser) (t : tally) : M tally :=
  _ ← call (Inc abandonedScanned);
  t ← gauge_user u t;
  if negb (isAbandoned u cutoff) then mret t else collect_candidate g u t.

Fixpoint gc_page (g : AbandonedUserGC) (cutoff : Z) (users : list ZUser) (t : tally) : M tally :=
  match users with
  | [] => mret t
  | u :: users => t ← gc_user g cutoff u t; gc_page g cutoff users t
  end.

(** The page loop; [None] when the fuel runs out. *)
Fixpoint gc_pages (fuel : nat) (g : AbandonedUserGC) (cutoff offset : Z) (t : tally) : M (option (tally + error)) :=
  match fuel with
  | O => mret None
  | Datatypes.S fuel =>
      r ← call (ZListHumanUsers offset sweepPageSize);
      match r with
      | Err e =>
          _ ← call (Inc abandonedErrors);
          mret (Some (inr (EWrap ("list human users at offset " +:+ itoa offset +:+ ": ") e)))
      | Ok (users, raw) =>
          t ← gc_page g cutoff users t;
          if (raw <? sweepPageSize)%Z then mret (Some (inl t))
          else gc_pages fuel g cutoff (add_u64 offset raw) t
      end
  end.

Definition gc_sweepOnce (fuel : nat) (g : AbandonedUserGC) : M (option (option error)) :=
  now ← call Now;
  r ← gc_pages fuel g (now - Retention g)%Z 0 (mkTally 0 0 0);
  match r with
  | None => mret None
  | Some (inr e) => mret (Some (Some e))
  | Some (inl t) => _ ← call (Inc (verifiedNoCredential (noCredential t))); mret (Some None)
  end.

(** [Start]: the ticker loop, for [ticks] rounds of the select; a cancelled
    context ends it. *)
Fixpoint gc_loop (ticks fuel : nat) (g : AbandonedUserGC) : M unit :=
  match ticks with
  | O => mret ()
  | Datatypes.S ticks =>
      d ← call (SleepOrDone (Interval g));
      match d with
      | Some _ => mret ()
      | None => _ ← gc_sweepOnce fuel g; gc_loop ticks fuel g
      end
  end.

Definition gc_Start (ticks fuel : nat) (g : AbandonedUserGC) : M unit :=
  if bool_decide (Interval g ≤ 0 ∨ Retention g ≤ 0)%Z then mret () else gc_loop ticks fuel g.
End Collect.

(** * Lemmas *)

(** Unverified, with a known creation time, and older than the cutoff. *)
Definition abandoned_before (cutoff : Z) (u : ZUser) : Prop :=
  z_IsEmailVerified u = false ∧ z_CreatedAt u ≠ zero_time ∧ (z_CreatedAt u < cutoff)%Z.

(** A Zitadel deletion of [n] is due after [pre]: not a dry run, the last two calls
    found no link and counted the account, and one of [us] with this id is
    abandoned. *)
Definition due_in (g : AbandonedUserGC) (cutoff : Z) (us : list ZUser) (n : string) (pre : trace) : Prop :=
  DryRun g = false ∧
  (∃ pre', pre = pre' ++ [ev (ZListIDPLinks n) (Ok []); ev (Inc abandonedEligible) tt]) ∧
  ∃ u, u ∈ us ∧ z_ID u = n ∧ abandoned_before cutoff u.

(** Deletions within a page: of Zitadel users only when due, of milo Users only
    right after the Zitadel deletion of the same id succeeded. *)
Definition page_rule (g : AbandonedUserGC) (cutoff : Z) (us : list ZUser) (pre : trace) (e : event) : Prop :=
  match e with
  | existT (ZDeleteUser n) _ => due_in g cutoff us n pre
  | existT (KDeleteUser n) _ => ∃ pre', pre = pre' ++ [ev (ZDeleteUser n) None]
  | _ => True
  end.

(** The same with the page taken from the trace. *)
Definition sweep_rule (g : AbandonedUserGC) (cutoff : Z) (pre : trace) (e : event) : Prop :=
  match e with
  | existT (ZDeleteUser n) _ =>
      ∃ off us raw, ev (ZListHumanUsers off sweepPageSize) (Ok (us, raw)) ∈ pre ∧ due_in g cutoff us n pre
  | existT (KDeleteUser n) _ => ∃ pre', pre = pre' ++ [ev (ZDeleteUser n) None]
  | _ => True
  end.

Lemma isAbandoned_exact u cutoff : isAbandoned u cutoff = true → abandoned_before cutoff u.
Proof.
  unfold isAbandoned, abandoned_before, time_is_zero. destruct (z_IsEmailVerified u); [done|].
  case_bool_decide; [done|]. intros Hlt. split; [done|]. split; [done|]. by apply Z.ltb_lt.
Qed.

Lemma due_in_extends g c us n pre0 pre : due_in g c us n pre → due_in g c us n (pre0 ++ pre).
Proof. intros (? & (pre' & ->) & ?). split; [done|]. split; [|done]. exists (pre0 ++ pre'). by rewrite app_assoc. Qed.

#[export] Instance page_rule_extends g c us : Extends (page_rule g c us).
Proof.
  intros pre0 pre [o a]. destruct o; simpl; try done.
  - intros [pre' ->]. exists (pre0 ++ pre'). by rewrite app_assoc.
  - apply due_in_extends.
Qed.

#[export] Instance sweep_rule_extends g c : Extends (sweep_rule g c).
Proof.
  intros pre0 pre [o a]. destruct o; simpl; try done.
  - intros [pre' ->]. exists (pre0 ++ pre'). by rewrite app_assoc.
  - intros (off & us & raw & Hin & Hd). exists off, us, raw. split; [apply elem_of_app; by right|].
    by apply due_in_extends.
Qed.

Lemma page_rule_sweep g c us off raw tr :
  each (page_rule g c us) tr → each (sweep_rule g c) (ev (ZListHumanUsers off sweepPageSize) (Ok (us, raw)) :: tr).
Proof.
  intros Hp pre e post Heq. destruct pre as [|x pre].
  - apply cons_inv in Heq as [<- _]. done.
  - apply cons_inv in Heq as [<- Heq]. specialize (Hp pre e post Heq). destruct e as [o a]. destruct o; simpl in *; try done.
    + destruct Hp as [pre' ->]. by exists (ev (ZListHumanUsers off sweepPageSize) (Ok (us, raw)) :: pre').
    + exists off, us, raw. split; [by left|]. by apply (due_in_extends g c us userID [_]).
Qed.

Section GC.
Context `{GoRuntime} (g : AbandonedUserGC) (cutoff : Z).

Lemma gauge_user_rule us u t : safe (each (page_rule g cutoff us)) (gauge_user u t).
Proof.
  unfold gauge_user. destruct (z_IsEmailVerified u); [|apply safe_ret, _].
  intros [m|e]; simpl; [|intros []]; by apply each_intro.
Qed.

Lemma collect_candidate_rule us u t :
  u ∈ us → isAbandoned u cutoff = true → safe (each (page_rule g cutoff us)) (collect_candidate g u t).
Proof.
  intros Hu Ha. unfold collect_candidate, hasIDPLink, collect. simpl.
  intros [[|l links]|e]; simpl; [|intros []; by apply each_intro|intros []; by apply each_intro].
  intros []. destruct (DryRun g) eqn:Hdry; simpl; [by apply each_intro|].
  assert (due_in g cutoff us (z_ID u) [ev (ZListIDPLinks (z_ID u)) (Ok []); ev (Inc abandonedEligible) tt]) as Hdue.
  { split; [done|]. split; [by exists []|]. exists u. auto using isAbandoned_exact. }
  intros [e|]; simpl; [intros []; by apply each_intro|].
  intros [e|]; simpl; [destruct (negb (IsNotFound e)); simpl|]; intros []; apply each_intro; simpl;
    repeat match goal with |- _ ∧ _ => split end; try exact I; try exact Hdue;
    by exists [ev (ZListIDPLinks (z_ID u)) (Ok []); ev (Inc abandonedEligible) tt].
Qed.

Lemma gc_page_rule us us' t :
  (∀ u, u ∈ us' → u ∈ us) → safe (each (page_rule g cutoff us)) (gc_page g cutoff us' t).
Proof.
  revert t. induction us' as [|u us' IH]; intros t Hin; [apply safe_ret, _|].
  cbn [gc_page]. apply safe_bind; [apply _| |intros t'; apply IH; intros; apply Hin; by right].
  unfold gc_user. apply safe_bind; [apply _|intros []; by apply each_intro|]. intros _.
  apply safe_bind; [apply _|apply gauge_user_rule|]. intros t'.
  destruct (isAbandoned u cutoff) eqn:Ha; [|apply safe_ret, _]. apply collect_candidate_rule; [apply Hin; by left|done].
Qed.

Lemma gc_pages_rule fuel offset t : safe (each (sweep_rule g cutoff)) (gc_pages fuel g cutoff offset t).
Proof.
  revert offset t. induction fuel as [|fuel IH]; intros offset t; [apply safe_ret, _|].
  cbn [gc_pages]. intros [[us raw]|e]; simpl; [|intros []; by apply each_intro].
  change (safe (λ tr, each (sweep_rule g cutoff) (ev (ZListHumanUsers offset sweepPageSize) (Ok (us, raw)) :: tr))
            (gc_page g cutoff us t ≫= λ t, if (raw <? sweepPageSize)%Z then mret (Some (inl t))
               else gc_pages fuel g cutoff (add_u64 offset raw) t)).
  unfold safe. apply (wp_bind_safe (each (page_rule g cutoff us))); [by apply gc_page_rule| |].
  - intros t' tr Htr. destruct (raw <? sweepPageSize)%Z; simpl.
    + rewrite app_nil_r. by apply page_rule_sweep.
    + eapply wp_mono; [apply IH|]. intros tr' r' Htr'.
      apply (ti_app (T := each (sweep_rule g cutoff)) (_ :: tr) tr'); [by apply page_rule_sweep|done].
  - intros tr Htr. by apply page_rule_sweep.
Qed.

Definition deletes (o : op) : bool :=
  match o with ZDeleteUser _ | KDeleteUser _ => true | _ => false end.

Lemma gc_sweepOnce_dry fuel : DryRun g = true → safe (no (λ e, deletes (projT1 e))) (gc_sweepOnce fuel g).
Proof.
  intros Hdry. unfold gc_sweepOnce. apply safe_bind; [apply _|by intros []|]. intros now.
  apply safe_bind; [apply _| |intros [[t|e]|]; by try intros []].
  generalize 0%Z at 1, (mkTally 0 0 0). induction fuel as [|fuel IH]; intros offset t; [done|].
  cbn [gc_pages]. apply safe_bind; [apply _|by intros []|]. intros [[us raw]|e]; [|by intros []].
  apply safe_bind; [apply _| |intros t'; destruct (raw <? sweepPageSize)%Z; [done|apply IH]].
  revert t. induction us as [|u us IHus]; intros t; [done|]. cbn [gc_page].
  apply safe_bind; [apply _| |apply IHus]. unfold gc_user. apply safe_bind; [apply _|by intros []|]. intros _.
  apply safe_bind; [apply _|unfold gauge_user; destruct (z_IsEmailVerified u); [intros [m|e]; by try intros []|done]|].
  intros t'. destruct (negb _); [done|]. unfold collect_candidate. rewrite Hdry.
  intros [[|]|e]; simpl; by intros [].
Qed.
End GC.

(** * Properties *)

(** C9: nothing but a proven-abandoned account is ever deleted, and Zitadel first. In
    every execution of a sweep, with the cutoff computed from its clock reading,
    each deletion of a Zitadel user happens outside dry-run, directly after a link
    lookup for that id that returned no link, for a user of a page listed before
    that is unverified, has a known creation time and was created before the
    cutoff; and each deletion of a milo User directly follows the successful
    deletion of the Zitadel user with the same id. *)
Theorem gc_deletes_only_abandoned `{GoRuntime} g fuel now tr r :
  may (gc_sweepOnce fuel g) (ev Now now :: tr) r →
  each (sweep_rule g (now - Retention g)) tr.
Proof.
  intros (a & tr' & E & Hm). apply cons_inv in E as [E <-]. apply ev_inj in E as <-.
  simpl in Hm. apply (may_wp _ (λ tr _, each (sweep_rule g (now - Retention g)) tr) _ _ Hm).
  apply safe_bind; [apply _|apply gc_pages_rule|].
  intros [[t|e]|]; [|apply safe_ret, _|apply safe_ret, _]. intros []; by apply each_intro.
Qed.

(** In dry-run mode a sweep deletes nothing, in Zitadel or in milo, whatever the
    services answer. *)
Theorem gc_dry_run_is_read_only `{GoRuntime} ticks fuel g tr r :
  DryRun g = true → may (gc_Start ticks fuel g) tr r → no (λ e, deletes (projT1 e)) tr.
Proof.
  intros Hdry. apply safe_may. unfold gc_Start. destruct (bool_decide _); [apply safe_ret, _|].
  induction ticks as [|ticks IH]; [apply safe_ret, _|]. cbn [gc_loop].
  apply safe_bind; [apply _|by intros []|]. intros [e|]; [apply safe_ret, _|].
  apply safe_bind; [apply _|by apply gc_sweepOnce_dry|]. intros _. apply IH.
Qed.

(** The collector is off without a positive interval and retention: it makes no
    call at all. *)
Theorem gc_disabled `{GoRuntime} ticks fuel g tr r :
  (Interval g ≤ 0 ∨ Retention g ≤ 0)%Z → may (gc_Start ticks fuel g) tr r → tr = [] ∧ r = Returned ().
Proof. intros Hoff. unfold gc_Start. rewrite bool_decide_true by done. done. Qed.

(** * Witnesses *)

Definition collector (dry : bool) : AbandonedUserGC := mkGC 1 5 dry.

Definition at_time (t : Z) (c : cluster) : cluster :=
  mkCluster t (c_users c) (c_emails c) (c_events c) (c_pending c) (c_humans c) (c_links c) (c_sessions c)
    (c_methods c) (c_metadata c) (c_pbusers c) (c_metrics c) (c_issued c).

Definition stale_users (n : nat) : cluster :=
  at_time 10 (set_humans empty_cluster (map (λ i, human (itoa (Z.of_nat i)) EmptyString false 1) (seq 0 n))).

Section Witnesses.
#[local] Existing Instance ascii_runtime.

Lemma gc_deletes_only_abandoned_witness :
  let tr := run_trace fake (gc_sweepOnce 1 (collector false)) (stale_users 1) in
  count (λ e, deletes (projT1 e)) tr = 2%nat ∧ each (sweep_rule (collector false) 5) (tail tr).
Proof.
  intros tr. split; [vm_compute; reflexivity|].
  apply (gc_deletes_only_abandoned (collector false) 1 10 (tail tr)
           (run fake (gc_sweepOnce 1 (collector false)) (stale_users 1)).2).
  change (ev Now 10 :: tail tr) with tr. apply run_may.
Defined.

Lemma gc_dry_run_is_read_only_witness :
  let tr := run_trace fake (gc_Start 2 1 (collector true)) (stale_users 1) in
  count (λ e, deletes (projT1 e)) tr = 0%nat ∧ length tr = 14%nat ∧ no (λ e, deletes (projT1 e)) tr.
Proof.
  intros tr. split; [vm_compute; reflexivity|]. split; [vm_compute; reflexivity|].
  apply (gc_dry_run_is_read_only 2 1 (collector true) tr _ eq_refl (run_may _ _ _)).
Defined.

Lemma gc_disabled_witness :
  run_trace fake (gc_Start 3 1 (mkGC 1 0 false)) (stale_users 1) = [].
Proof. apply (gc_disabled 3 1 (mkGC 1 0 false) _ _ (or_intror (Z.le_refl 0)) (run_may fake _ _)). Defined.

(** The offset advances by the page length although the page's users are gone: of
    150 abandoned users one sweep leaves 50, which were listed on no page. *)
Example gc_offset_skips :
  length (humans (run fake (gc_sweepOnce 3 (collector false)) (stale_users 150)).1) = 50%nat.
Proof. vm_compute. reflexivity. Qed.
End Witnesses.
