(* ===== verification/SdkSpec.v ===== *)
(** What pkg/zitadel/sdk_client.go promises to the controllers: the methods of
    [zitadel.API] over the gRPC services, and the controllers run on top of them. *)

From S2P Require Import Prelude GoLib Prog Model Cluster Users UserSweep SdkClient AbandonedGC.

(** * Environments behind an implementation *)

(** A program without a reachable panic. *)
Fixpoint total {A} (p : M A) : Prop :=
  match p with
  | Ret _ => True
  | Panic => False
  | Call o k => ∀ a, total (k a)
  end.

Lemma total_bind {A B} (p : M A) (f : A → M B) : total p → (∀ a, total (f a)) → total (p ≫= f).
Proof. intros Hp Hf. induction p as [a| |o k IH]; [apply Hf|done|]. intros a. apply IH, Hp. Qed.

Fixpoint exec {S A} (h : environment S) (p : M A) : total p → S → S * A :=
  match p return total p → S → S * A with
  | Ret a => λ _ s, (s, a)
  | Panic => λ H _, match H with end
  | Call o k => λ H s, exec h (k (h o s).2) (H (h o s).2) (h o s).1
  end.

Lemma run_exec {S A} (h : environment S) (p : M A) (H : total p) s :
  run h p s = ((exec h p H s).1, Returned (exec h p H s).2).
Proof.
  revert s H. induction p as [a| |o k IH]; intros s H; [done|done|]. simpl.
  pose proof (IH (h o s).2 (h o s).1 (H (h o s).2)) as Hk. by destruct (h o s).
Qed.

Section Under.
Context (impl : ∀ o : op, M (ans o)) (Himpl : ∀ o, total (impl o)).
Context {S : Type} (h : environment S).

(** The environment a client of [impl] sees when [impl] runs against [h]. *)
Definition under : environment S := λ o s, exec h (impl o) (Himpl o) s.

(** Running the linked program is running the client against that environment. *)
Lemma run_link {A} (p : M A) s : run h (link impl p) s = run under p s.
Proof.
  revert s. induction p as [a| |o k IH]; intros s; simpl; [done|done|].
  rewrite run_bind, (run_exec h (impl o) (Himpl o)). unfold under at 1.
  destruct (exec h (impl o) (Himpl o) s) as [s' a]. apply IH.
Qed.

Lemma under_call o s : impl o = call o → under o s = h o s.
Proof.
  intros Hc. unfold under. generalize (Himpl o). rewrite Hc. intros Ht. simpl. by destruct (h o s).
Qed.
End Under.

(** A program built over an interface may do, linked, what [Q] allows, if the parts
    of a sequence do. *)
Lemma wp_link_bind {A B} (impl : ∀ o : op, M (ans o)) (p : M A) (f : A → M B) Q :
  wp (link impl (p ≫= f)) Q ↔ wp (link impl p ≫= λ a, link impl (f a)) Q.
Proof.
  revert Q. induction p as [a| |o k IH]; intros Q; [done|done|].
  transitivity (wp (impl o ≫= λ a, link impl (k a ≫= f)) Q); [done|].
  transitivity (wp ((impl o ≫= λ a, link impl (k a)) ≫= λ a, link impl (f a)) Q); [|done].
  rewrite !wp_bind.
  split; intros Hw; (eapply wp_mono; [exact Hw|]); intros tr [a|]; simpl; try done.
  - intros Hk. apply IH in Hk. rewrite wp_bind in Hk. eapply wp_mono; [exact Hk|].
    intros tr' [b|]; simpl; [|done]. intros Hf. eapply wp_mono; [exact Hf|]. intros tr'' r; cbv beta; by rewrite app_assoc.
  - intros Hk. apply IH. rewrite wp_bind. eapply wp_mono; [exact Hk|].
    intros tr' [b|]; simpl; [|done]. intros Hf. eapply wp_mono; [exact Hf|]. intros tr'' r; cbv beta; by rewrite app_assoc.
Qed.

(** * The SDK client never panics *)

Section Sdk.
Context `{GoRuntime} (cfg : SDKConfig).

Lemma total_resolve_links links : total (resolve_links links).
Proof.
  induction links as [|l links IH]; [done|]. intros r. apply total_bind; [exact IH|done].
Qed.

Lemma sdk_total o : total (sdk cfg o).
Proof.
  destruct o; simpl; try done; try by intros [].
  - intros [links|e]; [|done]. apply total_bind; [apply total_resolve_links|].
    intros [|l out]; [|done]. by intros [[user|]|e].
  - destruct expirationDate; simpl; intros; intros; done.
Qed.

(** ** The directory behind ListHumanUsers *)

Definition deletes_row (o : op) : bool :=
  match o with GDeleteUser _ => true | _ => false end.

(** UserService.ListUsers with the TYPE_HUMAN filter: offset pagination over its rows, in
    a stable order.  Nothing is assumed of the rows: the client skips one that is not
    human. *)
Class GrpcDirectory {S} (h : environment S) := {
  rows : S → list PbUser;
  grpc_page off lim s :
    (0 ≤ off)%Z → (0 ≤ lim)%Z →
    match (h (GListUsers (QueryHumans off lim)) s).2 with
    | Ok us => us = take (Z.to_nat lim) (drop (Z.to_nat off) (rows s))
    | Err _ => True
    end;
  grpc_frame o s : deletes_row o = false → rows (h o s).1 = rows s }.

Lemma omap_id_map {A B} (f : A → option B) l : omap id (map f l) = omap f l.
Proof. induction l as [|x l IH]; [done|]. simpl. destruct (f x); simpl; [by f_equal|done]. Qed.

(** The entry for a remote link, given the answer about its provider. *)
Definition remote_link (l : PbIDPLink) (r : result (option string)) : IDPLink :=
  mkIDPLink (pl_idpId l) match r with Ok (Some n) => n | Ok None | Err _ => pl_idpId l end (pl_userId l) (pl_userName l).

Definition look_up (l : PbIDPLink) (a : result (option string)) : event := ev (GGetIDPByID (pl_idpId l)) a.

(** One look-up per link, in order; an unreadable provider keeps its id as name. *)
Lemma resolve_links_spec links :
  wp (resolve_links links) (λ tr r, ∃ names, length names = length links ∧
    tr = zip_with look_up links names ∧ r = Returned (zip_with remote_link links names)).
Proof.
  induction links as [|l links IH]; [by exists []|]. intros a.
  change (wp (resolve_links links ≫= λ rest, Ret (remote_link l a :: rest)) (λ tr r, ∃ names, length names = S (length links) ∧
    look_up l a :: tr = zip_with look_up (l :: links) names ∧
    r = Returned (zip_with remote_link (l :: links) names))).
  rewrite wp_bind. apply (wp_mono _ _ _ IH). intros tr r (names & Hlen & -> & ->). simpl.
  exists (a :: names). simpl. rewrite Hlen, app_nil_r. done.
Qed.

Lemma resolve_links_safe (w : op → bool) links :
  (∀ i, w (GGetIDPByID i) = false) → safe (no (λ e, w (projT1 e))) (resolve_links links).
Proof.
  intros Hw. apply (wp_mono _ _ _ (resolve_links_spec links)). intros tr r (names & _ & -> & _).
  unfold no, count. revert names. induction links as [|l links IH]; intros [|a names]; simpl; try done.
  rewrite Hw. apply IH.
Qed.

Ltac sdk_class :=
  intros Ho; match goal with o : op |- _ => destruct o; try done; try (intros []; done) end;
  [ apply safe_bind; [apply _|by intros []|]; intros [links|e]; [|done];
    apply safe_bind; [apply _|by apply resolve_links_safe|];
    intros [|l out]; [|done]; by intros [[user|]|e]
  | match goal with e : option Z |- _ => destruct e; simpl; unfold safe; simpl; intros; done end ].

(** No method writes a User, and only DeleteUser deletes a directory row. *)
Lemma sdk_leaves_users o : writes_users o = false → safe (no (λ e, writes_users (projT1 e))) (sdk cfg o).
Proof. sdk_class. Qed.

Lemma sdk_leaves_rows o :
  writes_directory o = false → safe (no (λ e, deletes_row (projT1 e))) (sdk cfg o).
Proof. sdk_class. Qed.

Section Served.
Context {S : Type} (h : environment S).

Lemma served_state {B} (w : op → bool) (f : S → B) o s :
  (∀ o s, w o = false → f (h o s).1 = f s) → safe (no (λ e, w (projT1 e))) (sdk cfg o) →
  f (under (sdk cfg) sdk_total h o s).1 = f s.
Proof.
  intros Hf Hs. pose proof (run_frame h w f (sdk cfg o) s Hf Hs) as Hr.
  by rewrite (run_exec h (sdk cfg o) (sdk_total o)) in Hr.
Qed.

#[export] Instance served_api `{!ApiServer h} : ApiServer (under (sdk cfg) sdk_total h).
Proof.
  unshelve econstructor; [unshelve econstructor; [exact users|exact users_named|..]|exact api_get|exact api_list].
  - intros u s. pose proof (api_create u s) as Hc. unfold under. simpl. by destruct (h (KCreateUser u) s).
  - intros u s. pose proof (api_update u s) as Hc. unfold under. simpl. by destruct (h (KUpdateUserStatus u) s).
  - intros u s. pose proof (api_delete u s) as Hc. unfold under. simpl. by destruct (h (KDeleteUser u) s).
  - intros o u fm s. pose proof (api_patch o u fm s) as Hc. unfold under. simpl. by destruct (h (KPatchUserStatus o u fm) s).
  - intros m s. pose proof (api_update_meta m s) as Hc. unfold under. simpl. by destruct (h (KUpdateUser m) s).
  - intros o s Ho. apply (served_state writes_users); [exact api_frame|by apply sdk_leaves_users].
Defined.

(** The client implements the paginated directory of humans: the page a row is
    listed on, its length and the order are those of the gRPC service. *)
#[export] Instance served_directory `{!GrpcDirectory h} : ZitadelDirectory (under (sdk cfg) sdk_total h).
Proof.
  unshelve econstructor; [exact (λ s, map human_row (rows s))|..].
  - intros off lim s Hoff Hlim. cbv zeta. pose proof (grpc_page off lim s Hoff Hlim) as Hp. unfold under. simpl.
    destruct (h (GListUsers (QueryHumans off lim)) s) as [s1 [us|e]]; simpl in *; [|done]. subst us.
    change (@map) with (@list_fmap). rewrite <-fmap_drop, <-fmap_take, length_fmap. by rewrite omap_id_map.
  - intros o s Ho. apply (served_state deletes_row (λ s, map human_row (rows s))); [|by apply sdk_leaves_rows].
    intros o' s' Ho'. by rewrite grpc_frame.
Defined.
End Served.
End Sdk.

(** * The collector over the client *)

Section LinkedGC.
Context `{GoRuntime} (cfg : SDKConfig) (g : AbandonedUserGC).

(** An account without a usable login name. *)
Definition nameless (user : option PbUser) : Prop :=
  match user with Some u => localIdentityUsername u = EmptyString | None => True end.

(** A deletion in Zitadel directly follows the look-ups of this account's external
    links and of its login name, which found neither. *)
Definition nameless_rule (pre : trace) (e : event) : Prop :=
  match e with
  | existT (GDeleteUser n) _ => ∃ pre' user, nameless user ∧
      pre = pre' ++ [ev (GListIDPLinks n) (Ok []); ev (GGetUserByID n) (Ok user); ev (Inc abandonedEligible) tt]
  | _ => True
  end.

#[export] Instance nameless_extends : Extends nameless_rule.
Proof.
  intros pre0 pre [o a]. destruct o; simpl; try done.
  intros (pre' & user & Hu & ->). exists (pre0 ++ pre'), user. by rewrite app_assoc.
Qed.

Abbreviation good := (each nameless_rule).

Lemma link_safe_bind {A B} T (p : M A) (f : A → M B) :
  TraceInv T → safe T (link (sdk cfg) p) → (∀ a, safe T (link (sdk cfg) (f a))) → safe T (link (sdk cfg) (p ≫= f)).
Proof. intros HT Hp Hf. unfold safe. apply wp_link_bind. by apply safe_bind. Qed.

(** Traces without a deletion. *)
Lemma good_no tr : no (λ e, deletes_row (projT1 e)) tr → good tr.
Proof.
  intros Hn pre e post ->. destruct e as [o a]. destruct o; simpl; try done.
  exfalso. by apply (no_In _ _ (ev (GDeleteUser userID) a) Hn); [|apply elem_of_app; right; left].
Qed.

Lemma good_quiet {A} (p : M A) : safe (no (λ e, deletes_row (projT1 e))) p → safe good p.
Proof. intros Hs. apply (wp_mono _ _ _ Hs). intros tr r. apply good_no. Qed.

(** A call of the client that deletes nothing. *)
Lemma good_call {A} o (k : ans o → M A) :
  writes_directory o = false → (∀ a, safe good (link (sdk cfg) (k a))) → safe good (link (sdk cfg) (Call o k)).
Proof. intros Ho Hk. by apply (safe_bind good (sdk cfg o)); [apply _|apply good_quiet, sdk_leaves_rows|]. Qed.

Ltac good_last := apply good_call; [done|intros; apply safe_ret, _].

(** What a listing of links calls when it reports none. *)
Lemma no_links_trace n :
  wp (SDK_ListIDPLinks n) (λ tr r, match r with
    | Returned (Ok []) => ∃ user, nameless user ∧ tr = [ev (GListIDPLinks n) (Ok []); ev (GGetUserByID n) (Ok user)]
    | _ => no (λ e, deletes_row (projT1 e)) tr
    end).
Proof.
  intros [[|l links]|e]; [| |done].
  - intros [[user|]|e]; [|by exists None|done]. simpl. case_bool_decide as Hn; [by exists (Some user)|done].
  - cbv beta iota. apply wp_bind. eapply wp_mono; [exact (wp_conj _ _ _ (resolve_links_spec (l :: links))
      (resolve_links_safe deletes_row (l :: links) (λ _, eq_refl)))|].
    intros tr r [(names & Hlen & _ & ->) Hno]. destruct names as [|a names]; [done|]. simpl. by rewrite app_nil_r.
Qed.

#[local] Opaque SDK_ListIDPLinks.

Lemma good_candidate u t : safe good (link (sdk cfg) (collect_candidate g u t)).
Proof.
  unfold collect_candidate, hasIDPLink, collect, safe. simpl. apply wp_bind.
  eapply wp_mono; [apply no_links_trace|]. intros tr [[[|l links]|e]|]; simpl.
  - intros (user & Hu & ->) [].
    assert (nameless_rule [ev (GListIDPLinks (z_ID u)) (Ok []); ev (GGetUserByID (z_ID u)) (Ok user); ev (Inc abandonedEligible) tt]
      (ev (GDeleteUser (z_ID u)) None)) as Hrule by (by exists [], user).
    destruct (DryRun g); simpl; [by apply each_intro|].
    intros [e|]; simpl; [case_bool_decide; simpl|]; try (intros [e'|]; simpl; [destruct (negb (IsNotFound e')); simpl|]);
      intros []; apply each_intro; simpl; (do 3 (split; [done|])); (split; [by exists [], user|done]).
  - intros Hno []. apply good_no. unfold no in *. by rewrite count_app, Hno.
  - intros Hno []. apply good_no. unfold no in *. by rewrite count_app, Hno.
  - apply good_no.
Qed.

Lemma good_page cutoff us t : safe good (link (sdk cfg) (gc_page g cutoff us t)).
Proof.
  revert t. induction us as [|u us IH]; intros t; [apply safe_ret, _|]. cbn [gc_page].
  apply link_safe_bind; [apply _| |apply IH]. unfold gc_user.
  apply link_safe_bind; [apply _|good_last|]. intros _.
  apply link_safe_bind; [apply _| |].
  - unfold gauge_user. destruct (z_IsEmailVerified u); [|apply safe_ret, _].
    apply good_call; [done|]. intros [m|e]; [apply safe_ret, _|]. good_last.
  - intros t'. destruct (negb _); [apply safe_ret, _|apply good_candidate].
Qed.

Lemma good_pages fuel cutoff offset t : safe good (link (sdk cfg) (gc_pages fuel g cutoff offset t)).
Proof.
  revert offset t. induction fuel as [|fuel IH]; intros offset t; [apply safe_ret, _|]. cbn [gc_pages].
  apply good_call; [done|]. intros [[us raw]|e]; [|good_last].
  apply link_safe_bind; [apply _|apply good_page|]. intros t'. destruct (raw <? sweepPageSize)%Z; [apply safe_ret, _|apply IH].
Qed.

Lemma good_sweep fuel : safe good (link (sdk cfg) (gc_sweepOnce fuel g)).
Proof.
  unfold gc_sweepOnce. apply good_call; [done|]. intros now.
  apply link_safe_bind; [apply _|apply good_pages|]. intros [[t|e]|]; [|apply safe_ret, _..]. good_last.
Qed.
End LinkedGC.

(** * Lemmas on the mapping *)

Section MappingFacts.
Context `{GoRuntime}.

(** The header entries that can be chosen. *)
Definition names_agent (h : string * option (list string)) : bool :=
  match h.2 with Some (_ :: _) => EqualFold h.1 "user-agent" | Some [] | None => false end.

Lemma header_user_agent_filter header :
  header_user_agent header = header_user_agent (List.filter names_agent header).
Proof.
  induction header as [|[k [[|v hv]|]] header IH]; simpl; [done|done| |done].
  unfold names_agent at 1. simpl. destruct (EqualFold k "user-agent") eqn:Hk; simpl; [by rewrite Hk|done].
Qed.

Lemma filter_permutation {A} (f : A → bool) l l' : l ≡ₚ l' → List.filter f l ≡ₚ List.filter f l'.
Proof.
  induction 1 as [|x l l' _ IH|x y l|l l' l'' _ IH _ IH']; simpl; [done|..].
  - destruct (f x); [by apply Permutation_cons|done].
  - destruct (f x), (f y); try done. apply perm_swap.
  - by transitivity (List.filter f l').
Qed.
End MappingFacts.

(** The removals of the API and the gRPC call each one makes. *)
Inductive removal := RemoveOrganization (orgID : string) | RemoveUser (userID : string)
  | Deactivate (orgID userID : string) | Reactivate (orgID userID : string)
  | RemoveKey (orgID userID keyID : string).

Definition removal_method (r : removal) : M (option error) :=
  match r with
  | RemoveOrganization o => SDK_DeleteOrganization o
  | RemoveUser u => SDK_DeleteUser u
  | Deactivate o u => SDK_DeactivateUser o u
  | Reactivate o u => SDK_ReactivateUser o u
  | RemoveKey o u k => SDK_RemoveMachineKeyInOrganization o u k
  end.

Definition removal_event (r : removal) (a : option error) : event :=
  match r with
  | RemoveOrganization o => ev (GDeleteOrganization o) a
  | RemoveUser u => ev (GDeleteUser u) a
  | Deactivate o u => ev (GDeactivateUser o u) a
  | Reactivate o u => ev (GReactivateUser o u) a
  | RemoveKey o u k => ev (GRemoveKey o u k) a
  end.

(** * Properties *)

(** C8: the user sweep, run as it is deployed, on the SDK client: against an API
    server and a gRPC user service that pages over its rows, human or not, the sweep
    terminates, and when it reports no error every human row of the service has a
    User under its id, however many other rows the pages hold; no User disappears and
    none changes in anything but its EmailVerification. *)
Theorem deployed_sweep_complete `{ConflictRetry} `{GoRuntime} cfg {S} (h : environment S)
    `{!ApiServer h} `{!GrpcDirectory h} fuel s :
  let dir := omap human_row (rows s) in
  (Z.of_nat (length (rows s)) < 2 ^ 64)%Z → (Z.of_nat (length (rows s)) < sweepPageSize * Z.of_nat fuel)%Z →
  ∃ s' e, run h (link (sdk cfg) (sweepOnce fuel)) s = (s', Returned (Some e)) ∧
    (e = None → ∀ row, row ∈ rows s → human_of row ≠ None → is_Some (users s' !! pu_userId row)) ∧
    kept dir (users s) (users s') ∧ added dir (users s) (users s').
Proof.
  intros dir Hsz Hfuel.
  destruct (run_sweepOnce (h := under (sdk cfg) (sdk_total cfg) h)
    (ApiServer0 := served_api cfg h) (ZitadelDirectory0 := served_directory cfg h) fuel s) as (s' & e & Hr & Hall & Hk & Ha & _);
    [by simpl; rewrite length_map..|].
  assert (humans s (h := under (sdk cfg) (sdk_total cfg) h) (ZitadelDirectory0 := served_directory cfg h) = dir) as Hdir
    by apply omap_id_map.
  rewrite Hdir in *.
  exists s', e. split; [by rewrite (run_link (sdk cfg) (sdk_total cfg))|]. split; [|done].
  intros He row Hrow Hhuman. destruct (human_row row) as [u|] eqn:Hu.
  - assert (z_ID u = pu_userId row) as <- by (unfold human_row in Hu; destruct (human_of row); [by injection Hu as <-|done]).
    apply (Hall He). apply list_elem_of_omap. eauto.
  - unfold human_row in Hu. by destruct (human_of row).
Qed.

(** C32: on the SDK client the collector can delete only accounts without a login
    name: in every execution of a sweep linked with it, each DeleteUser call
    directly follows look-ups that found no external link and no user with a
    non-blank login name for that id. The placeholder link [ListIDPLinks] adds for a
    named account counts as an external one, so an abandoned account that has a
    name is never collected. *)
Theorem linked_gc_spares_named `{GoRuntime} cfg g fuel tr r :
  may (link (sdk cfg) (gc_sweepOnce fuel g)) tr r → each nameless_rule tr.
Proof. apply safe_may, good_sweep. Qed.

(** [ListIDPLinks] in full. A failed listing is returned as it is; external links
    are returned in order, one provider look-up each, a failed look-up falling back
    to the provider's id; without external links the answer is the local
    placeholder for the account's login name, or nothing when the account is
    unknown or has no login name. *)
Theorem ListIDPLinks_exact `{GoRuntime} userID tr r :
  may (SDK_ListIDPLinks userID) tr r →
  (∃ e, tr = [ev (GListIDPLinks userID) (Err e)] ∧ r = Returned (Err e)) ∨
  (∃ links names, links ≠ [] ∧ length names = length links ∧
     tr = ev (GListIDPLinks userID) (Ok links) :: zip_with look_up links names ∧
     r = Returned (Ok (zip_with remote_link links names))) ∨
  (∃ a, tr = [ev (GListIDPLinks userID) (Ok []); ev (GGetUserByID userID) a] ∧
     r = Returned match a with
         | Err e => Err e
         | Ok None => Ok []
         | Ok (Some u) =>
             if decide (localIdentityUsername u = EmptyString) then Ok []
             else Ok [mkIDPLink localIdentityProviderID localIdentityProviderName (pu_userId u) (localIdentityUsername u)]
         end).
Proof.
  intros (a & tr' & -> & Hm). destruct a as [[|l links]|e]; [| |by destruct Hm as [-> ->]; left; eauto].
  - right. right. destruct Hm as (a & tr'' & -> & -> & ->). exists a. split; [done|].
    destruct a as [[u|]|e]; [|done..]. simpl. by case_bool_decide; case_decide.
  - right. left. revert Hm. change (may (resolve_links (l :: links) ≫= λ out, match out with
      | [] => local ← getLocalIdentityLink userID;
          mret match local with Err e => Err e | Ok None => Ok [] | Ok (Some l) => Ok [l] end
      | _ => mret (Ok out) end) tr' r → ∃ links0 names, links0 ≠ [] ∧ length names = length links0 ∧
        ev (GListIDPLinks userID) (Ok (l :: links)) :: tr' = ev (GListIDPLinks userID) (Ok links0) :: zip_with look_up links0 names ∧
        r = Returned (Ok (zip_with remote_link links0 names))).
    intros Hm. pattern tr', r. refine (may_wp _ _ _ _ Hm _). apply wp_bind.
    eapply wp_mono; [apply (resolve_links_spec (l :: links))|]. intros tr0 r0. intros (names & Hlen & -> & ->).
    destruct names as [|a names]; [done|]. simpl. exists (l :: links), (a :: names). simpl. by rewrite app_nil_r.
Qed.

(** Every removal is one call and idempotent: it reports success exactly when the
    service did or when it answered NotFound, also through wrapped errors. *)
Theorem removals_idempotent (rm : removal) tr r :
  may (removal_method rm) tr r →
  ∃ a e, tr = [removal_event rm a] ∧ r = Returned e ∧
    (e = None ↔ a = None ∨ ∃ e', a = Some e' ∧ grpc_of e' = Some GNotFound).
Proof.
  assert (∀ pre a, ignore_not_found pre a = None ↔ a = None ∨ ∃ e', a = Some e' ∧ grpc_of e' = Some GNotFound) as Hi.
  { intros pre [e|]; simpl; [|naive_solver]. case_bool_decide; split; naive_solver. }
  destruct rm; intros (a & tr' & -> & -> & ->); exists a; eexists; split; try done; split; try done; apply Hi.
Qed.

(** The user agent of a session does not depend on the order in which the header
    map is iterated, as long as a single key of it, up to case, is "user-agent"
    with a value. *)
Theorem extractUserAgentString_order `{GoRuntime} ip fp desc header header' :
  header ≡ₚ header' → (length (List.filter names_agent header) ≤ 1)%nat →
  extractUserAgentString (Some (mkPbUserAgent ip fp desc header)) =
    extractUserAgentString (Some (mkPbUserAgent ip fp desc header')).
Proof.
  intros Hp Hone. unfold extractUserAgentString. simpl. destruct (negb _); [done|].
  rewrite (header_user_agent_filter header), (header_user_agent_filter header').
  apply (filter_permutation names_agent) in Hp.
  destruct (List.filter names_agent header) as [|x [|y l]]; simpl in Hone; [| |lia].
  - by apply Permutation_nil_l in Hp as <-.
  - by apply Permutation_singleton_l in Hp as <-.
Qed.

(** * Witnesses *)

Section Witnesses.
#[local] Existing Instance ascii_runtime.

#[export] Instance fake_grpc : GrpcDirectory fake.
Proof.
  unshelve econstructor; [exact (λ c, List.filter of_type_human (c_pbusers c))|..].
  - done.
  - intros o s _. destruct o; simpl; try done; repeat (case_match; simpl; try done).
Defined.

Definition pb_human (id name email : string) (verified : bool) : PbUser :=
  mkPbUser id name [] name "USER_STATE_ACTIVE" (PbHumanUser (mkPbHuman "Given" "Family" (Some (email, verified)))) (Some 1%Z).

Definition with_rows (rows : list PbUser) (c : cluster) : cluster :=
  mkCluster (c_clock c) (c_users c) (c_emails c) (c_events c) (c_pending c) (c_humans c) (c_links c) (c_sessions c)
    (c_methods c) (c_metadata c) rows (c_metrics c) (c_issued c).

Definition three_rows : cluster :=
  with_rows [pb_human "u1" "jane" "jane@example.com" true; mkPbUser "m1" "robot" [] "robot" "ACTIVE" PbMachineUser None;
             pb_human "u2" "joe" "joe@example.com" false] one_user.

Definition sample_sdk : SDKConfig := mkSDKConfig "auth.example.com" "https://auth.example.com" "/key" 0.

Lemma deployed_sweep_complete_witness :
  length (rows three_rows) = 2%nat ∧
  ∃ s' e, run fake (link (sdk sample_sdk) (@sweepOnce default_retry 1)) three_rows = (s', Returned (Some e)) ∧
    e = None ∧ (∀ row, row ∈ rows three_rows → human_of row ≠ None → is_Some (users s' !! pu_userId row)).
Proof.
  split; [vm_compute; reflexivity|].
  destruct (@deployed_sweep_complete default_retry _ sample_sdk cluster fake _ _ 1 three_rows) as (s' & e & Hr & Hall & _);
    [vm_compute; reflexivity|vm_compute; reflexivity|].
  exists s', e. split; [exact Hr|]. assert (e = None) as He.
  { apply (f_equal (λ x, match x.2 with Returned (Some None) => true | _ => false end)) in Hr.
    destruct e; [vm_compute in Hr; discriminate Hr|reflexivity]. }
  split; [exact He|exact (Hall He)].
Defined.

(** Two accounts past the window; the one without a login name is collected. *)
Definition two_stale : cluster :=
  at_time 10 (with_rows [pb_human "u1" "jane" EmptyString false; pb_human "u2" EmptyString EmptyString false] empty_cluster).

Lemma linked_gc_spares_named_witness :
  let tr := run_trace fake (link (sdk sample_sdk) (gc_sweepOnce 1 (collector false))) two_stale in
  List.filter (λ e, deletes_row (projT1 e)) tr = [ev (GDeleteUser "u2") None] ∧ each nameless_rule tr.
Proof.
  intros tr. split; [vm_compute; reflexivity|].
  exact (linked_gc_spares_named sample_sdk (collector false) 1 tr _ (run_may _ _ _)).
Defined.

Lemma ListIDPLinks_exact_witness :
  ∃ a, run_trace fake (SDK_ListIDPLinks "u1") three_rows = [ev (GListIDPLinks "u1") (Ok []); ev (GGetUserByID "u1") a] ∧
    (run fake (SDK_ListIDPLinks "u1") three_rows).2
      = Returned (Ok [mkIDPLink localIdentityProviderID localIdentityProviderName "u1" "jane"]).
Proof.
  destruct (ListIDPLinks_exact "u1" _ _ (run_may fake (SDK_ListIDPLinks "u1") three_rows))
    as [(e & Htr & _)|[(links & names & Hne & _ & Htr & _)|(a & Htr & Hr)]].
  - exfalso. apply (f_equal length) in Htr. vm_compute in Htr. discriminate Htr.
  - exfalso. apply (f_equal (λ tr, match tr with existT (GListIDPLinks _) (Ok []) :: _ => true | _ => false end)) in Htr.
    destruct links; [by apply Hne|vm_compute in Htr; discriminate Htr].
  - exists a. split; [exact Htr|vm_compute; reflexivity].
Defined.

Lemma removals_idempotent_witness :
  let gone := EWrap "rpc: " (EGrpc GNotFound "gone") in
  may (removal_method (RemoveUser "u1")) [ev (GDeleteUser "u1") (Some gone)] (Returned None) ∧
  ∃ a e, [ev (GDeleteUser "u1") (Some gone)] = [removal_event (RemoveUser "u1") a] ∧ Returned (@None error) = Returned e ∧
    (e = None ↔ a = None ∨ ∃ e', a = Some e' ∧ grpc_of e' = Some GNotFound).
Proof.
  intros gone. assert (may (removal_method (RemoveUser "u1")) [ev (GDeleteUser "u1") (Some gone)] (Returned None)) as Hm
    by (exists (Some gone), []; split; [reflexivity|split; reflexivity]).
  split; [exact Hm|exact (removals_idempotent (RemoveUser "u1") _ _ Hm)].
Defined.

Lemma extractUserAgentString_order_witness :
  extractUserAgentString (Some (mkPbUserAgent EmptyString EmptyString EmptyString
    [("accept", Some ["*/*"]); ("User-Agent", Some ["curl"])])) = "curl" ∧
  extractUserAgentString (Some (mkPbUserAgent EmptyString EmptyString EmptyString
    [("accept", Some ["*/*"]); ("User-Agent", Some ["curl"])])) =
  extractUserAgentString (Some (mkPbUserAgent EmptyString EmptyString EmptyString
    [("User-Agent", Some ["curl"]); ("accept", Some ["*/*"])])).
Proof.
  split; [vm_compute; reflexivity|].
  apply extractUserAgentString_order; [apply perm_swap|vm_compute; lia].
Defined.
End Witnesses.
