(* ===== verification/ZitadelHttp.v ===== *)
(** internal/zitadel: the small REST client of the User and PlatformAccess
    controllers. *)

From S2P Require Import Prelude GoLib Prog Model Json Gateway.

Record HttpClient := mkHttpClient { baseURL : string }.

Definition slash : ascii := ascii_of_N 47.

(** [NewClientWithTokenSource]; the transport carries the token. *)
Definition NewClientWithTokenSource (base : string) : HttpClient := mkHttpClient (trim_right_char slash base).

(** * Messages *)

Record UserDetails := mkUserDetails {
  ud_Sequence : string; ud_ChangeDate : string; ud_ResourceOwner : string; ud_CreationDate : string }.

Record HttpUser := mkHttpUser {
  hu_UserID : string;
  hu_Details : UserDetails;
  hu_State : string;
  hu_Username : string;
  hu_LoginNames : list string;
  hu_PreferredLoginName : string;
  hu_Machine : bool;
  hu_Human : bool }.

Record GetUserResponse := mkGetUserResponse { gur_Details : UserDetails; gur_User : HttpUser }.

Definition UserStateActive : string := "USER_STATE_ACTIVE".
Definition UserStateInactive : string := "USER_STATE_INACTIVE".
Definition AccessTokenTypeJWT : string := "ACCESS_TOKEN_TYPE_JWT".

Record MachineUserRequest := mkMachineUserRequest {
  mur_UserName : string; mur_Name : string; mur_Description : string; mur_AccessTokenType : string; mur_UserId : string }.

Record MachineUserDetails := mkMachineUserDetails {
  mud_Sequence : string; mud_ChangeDate : string; mud_ResourceOwner : string }.

Record CreateMachineUserResponse := mkCreateMachineUserResponse { cmr_UserID : string; cmr_Details : MachineUserDetails }.

Definition zero_details : UserDetails := mkUserDetails EmptyString EmptyString EmptyString EmptyString.
Definition zero_http_user : HttpUser :=
  mkHttpUser EmptyString zero_details EmptyString EmptyString [] EmptyString false false.

Section Client.
Context `{GoRuntime}.

(** A struct inside a struct keeps what earlier members of the same name set. *)
Definition nested {R S} (get : R → S) (set : S → R → R) (d : decoder S) : decoder R := λ j r,
  (λ s, set s r) <$> d j (get r).

(** A pointer to an empty struct: whether it is set. *)
Definition presence {R} (set : bool → R → R) : decoder R := λ j r,
  match j with
  | JNull => Some (set false r)
  | JObj _ => Some (set true r)
  | _ => None
  end.

(** A slice of strings; null elements keep the zero value. *)
Definition strings_field {R} (set : list string → R → R) : decoder R := λ j r,
  (λ l, set l r) <$> slice_decoder (string_field (λ x _, x)) EmptyString j.

Definition details_decoder : decoder UserDetails := decode_struct
  [("sequence", string_field (λ x d, mkUserDetails x (ud_ChangeDate d) (ud_ResourceOwner d) (ud_CreationDate d)));
   ("changeDate", string_field (λ x d, mkUserDetails (ud_Sequence d) x (ud_ResourceOwner d) (ud_CreationDate d)));
   ("resourceOwner", string_field (λ x d, mkUserDetails (ud_Sequence d) (ud_ChangeDate d) x (ud_CreationDate d)));
   ("creationDate", string_field (λ x d, mkUserDetails (ud_Sequence d) (ud_ChangeDate d) (ud_ResourceOwner d) x))].

Definition set_user_strings (u : HttpUser) (id state name preferred : string) : HttpUser :=
  mkHttpUser id (hu_Details u) state name (hu_LoginNames u) preferred (hu_Machine u) (hu_Human u).

Definition http_user_decoder : decoder HttpUser := decode_struct
  [("userId", string_field (λ x u, set_user_strings u x (hu_State u) (hu_Username u) (hu_PreferredLoginName u)));
   ("details", nested hu_Details (λ d u, mkHttpUser (hu_UserID u) d (hu_State u) (hu_Username u) (hu_LoginNames u)
      (hu_PreferredLoginName u) (hu_Machine u) (hu_Human u)) details_decoder);
   ("state", string_field (λ x u, set_user_strings u (hu_UserID u) x (hu_Username u) (hu_PreferredLoginName u)));
   ("username", string_field (λ x u, set_user_strings u (hu_UserID u) (hu_State u) x (hu_PreferredLoginName u)));
   ("loginNames", strings_field (λ l u, mkHttpUser (hu_UserID u) (hu_Details u) (hu_State u) (hu_Username u) l
      (hu_PreferredLoginName u) (hu_Machine u) (hu_Human u)));
   ("preferredLoginName", string_field (λ x u, set_user_strings u (hu_UserID u) (hu_State u) (hu_Username u) x));
   ("machine", presence (λ b u, mkHttpUser (hu_UserID u) (hu_Details u) (hu_State u) (hu_Username u) (hu_LoginNames u)
      (hu_PreferredLoginName u) b (hu_Human u)));
   ("human", presence (λ b u, mkHttpUser (hu_UserID u) (hu_Details u) (hu_State u) (hu_Username u) (hu_LoginNames u)
      (hu_PreferredLoginName u) (hu_Machine u) b))].

Definition get_user_decoder : decoder GetUserResponse := decode_struct
  [("details", nested gur_Details (λ d r, mkGetUserResponse d (gur_User r)) details_decoder);
   ("user", nested gur_User (λ u r, mkGetUserResponse (gur_Details r) u) http_user_decoder)].

Definition machine_details_decoder : decoder MachineUserDetails := decode_struct
  [("sequence", string_field (λ x d, mkMachineUserDetails x (mud_ChangeDate d) (mud_ResourceOwner d)));
   ("changeDate", string_field (λ x d, mkMachineUserDetails (mud_Sequence d) x (mud_ResourceOwner d)));
   ("resourceOwner", string_field (λ x d, mkMachineUserDetails (mud_Sequence d) (mud_ChangeDate d) x))].

Definition machine_response_decoder : decoder CreateMachineUserResponse := decode_struct
  [("userId", string_field (λ x r, mkCreateMachineUserResponse x (cmr_Details r)));
   ("details", nested cmr_Details (λ d r, mkCreateMachineUserResponse (cmr_UserID r) d) machine_details_decoder)].

(** [json.Marshal] of the request, description omitted when empty. *)
Definition machine_request_body (r : MachineUserRequest) : string :=
  render (JObj ([("userName", JStr (mur_UserName r)); ("name", JStr (mur_Name r))] ++
    (if bool_decide (mur_Description r = EmptyString) then [] else [("description", JStr (mur_Description r))]) ++
    [("accessTokenType", JStr (mur_AccessTokenType r)); ("userId", JStr (mur_UserId r))])).

(** * The exchange *)

Definition maxErrorBody : Z := (2 ^ 20)%Z.

(** [do]; the answer of the exchange is status code, status line and body.  [v] is the
    decoder of the response, [None] when the caller passes nil. *)
Definition http_do {R} (c : HttpClient) (method path : string) (body : option string) (v : option (decoder R * R))
    : M (result (option R)) :=
  let url := baseURL c +:+ "/" +:+ trim_left_char slash path in
  match url_parse url with
  | None => mret (Err (EWrap "create request: " (EPlain (url_error_text url))))
  | Some _ =>
      r ← call (HttpDo method url body);
      mret match r with
           | Err e => Err (EWrap "do request: " e)
           | Ok (code, status, text) =>
               if bool_decide (code < 200 ∨ 300 ≤ code)%Z then
                 if bool_decide (code = 404%Z) then Err (EApi RNotFound ("resource.zitadel " +:+ quote EmptyString +:+ " not found"))
                 else Err (EPlain ("request failed: " +:+ status +:+ " – " +:+ TrimSpace (take_string maxErrorBody text)))
               else match v with
                    | None => Ok None
                    | Some (d, zero) =>
                        match Decode d zero text with
                        | None => Err (EWrap "decode response: " (EPlain (json_error_text text)))
                        | Some r => Ok (Some r)
                        end
                    end
           end
  end.

Definition only_error {R} (r : result (option R)) : option error :=
  match r with Ok _ => None | Err e => Some e end.

Definition zero_get_user : GetUserResponse := mkGetUserResponse zero_details zero_http_user.

Definition GetUser (c : HttpClient) (userID : string) : M (result GetUserResponse) :=
  r ← http_do c "GET" ("v2/users/" +:+ userID) None (Some (get_user_decoder, zero_get_user));
  mret match r with
       | Err e =>
           if IsNotFound e then Err (EApi RNotFound ("users.zitadel " +:+ quote userID +:+ " not found")) else Err e
       | Ok resp => Ok (default zero_get_user resp)
       end.

Definition DeleteUser (c : HttpClient) (userID : string) : M (option error) :=
  r ← http_do (R := unit) c "DELETE" ("v2/users/" +:+ userID) None None; mret (only_error r).

Definition DeactivateUser (c : HttpClient) (userID : string) : M (option error) :=
  r ← http_do (R := unit) c "POST" ("v2/users/" +:+ userID +:+ "/deactivate") (Some "{}") None; mret (only_error r).

Definition ReactivateUser (c : HttpClient) (userID : string) : M (option error) :=
  r ← http_do (R := unit) c "POST" ("v2/users/" +:+ userID +:+ "/reactivate") (Some "{}") None; mret (only_error r).

Definition CreateMachineUser (c : HttpClient) (req : MachineUserRequest) : M (result CreateMachineUserResponse) :=
  let zero := mkCreateMachineUserResponse EmptyString (mkMachineUserDetails EmptyString EmptyString EmptyString) in
  r ← http_do c "POST" "management/v1/users/machine" (Some (machine_request_body req)) (Some (machine_response_decoder, zero));
  mret match r with Err e => Err e | Ok resp => Ok (default zero resp) end.

(** * Lemmas *)

(** Transport errors are not Kubernetes errors. *)
Definition transport_error (e : error) : Prop := reason_of e = None.

Definition success (code : Z) : Prop := (200 ≤ code < 300)%Z.

(** One exchange at most; its error is a NotFound exactly when the status is 404, and
    there is none exactly when the status is a success and the body decodes. *)
Lemma http_do_spec {R} c method path body (v : option (decoder R * R)) :
  wp (http_do c method path body v) (λ tr r, ∃ res, r = Returned res ∧
    ((tr = [] ∧ ∃ e, res = Err e ∧ IsNotFound e = false) ∨
     (∃ url a, tr = [ev (HttpDo method url body) a] ∧
        match a with
        | Err e => res = Err (EWrap "do request: " e)
        | Ok (code, _, text) =>
            (success code → res = match v with
               | None => Ok None
               | Some (d, zero) => match Decode d zero text with
                   | Some r => Ok (Some r)
                   | None => Err (EWrap "decode response: " (EPlain (json_error_text text))) end
               end) ∧
            (¬ success code → ∃ e, res = Err e ∧ (IsNotFound e = true ↔ code = 404%Z))
        end))).
Proof.
  unfold http_do. destruct (url_parse _) as [u|]; simpl; [|by eexists; split; [done|left]; eauto].
  intros [[[code status] text]|e]; (eexists; split; [done|right]; do 2 eexists; split; [done|]); simpl; [|done].
  unfold success. case_bool_decide as Hc; (split; [intros|]); try lia.
  - intros _. case_bool_decide; eexists; split; try done.
  - done.
Qed.
End Client.
