(* ===== verification/Finalizers.v ===== *)
(** internal/controller/user_controller.go and project_controller.go: the
    reconcilers whose work is the finalizer of a deleted object. *)

From S2P Require Import Prelude GoLib Prog Model Json SdkClient ZitadelHttp Cluster.

(** * The finalizer package of controller-runtime

    [Finalizers.Finalize] with one registered finalizer is library code.  Its
    documentation: an object that is not being deleted gets the key, an object that
    is being deleted and carries the key has the registered finalizer run and, when
    that succeeds, loses the key; the result says whether the object changed. *)
Definition set_finalizers (m : ObjectMeta) (fs : list string) : ObjectMeta :=
  mkMeta (m_name m) (m_uid m) (m_deleting m) fs.

Definition has_finalizer (key : string) (m : ObjectMeta) : bool := bool_decide (key ∈ m_finalizers m).

Definition remove_finalizer (key : string) (m : ObjectMeta) : ObjectMeta :=
  set_finalizers m (List.filter (λ k, negb (bool_decide (k = key))) (m_finalizers m)).

Class FinalizerLibrary := {
  Finalize : string → (ObjectMeta → M (option error)) → ObjectMeta → M (result (ObjectMeta * bool));
  finalizer_failed : string → error → error;
  Finalize_doc key body m :
    Finalize key body m =
      if m_deleting m then
        if has_finalizer key m then
          e ← body m;
          mret match e with
               | Some e => Err (finalizer_failed key e)
               | None => Ok (remove_finalizer key m, true)
               end
        else mret (Ok (m, false))
      else if has_finalizer key m then mret (Ok (m, false))
      else mret (Ok (set_finalizers m (m_finalizers m ++ [key]), true)) }.

(** A [ctrl.Result] with the error of Reconcile. *)
Record reconcile_result := mkReconcile { requeueAfter : Z; reconcileErr : option error }.
Definition done_result : reconcile_result := mkReconcile 0 None.
Definition failed (pre : string) (e : error) : reconcile_result := mkReconcile 0 (Some (EWrap pre e)).

Definition userFinalizerKey : string := "iam.miloapis.com/user".
Definition projectFinalizerKey : string := "auth-provider-zitadel.miloapis.com/project".
Definition projectConflictRequeue : Z := Second.

Section Controllers.
Context `{GoRuntime} `{FinalizerLibrary}.

(** [userFinalizer.Finalize] *)
Definition userFinalizer_Finalize (c : HttpClient) (m : ObjectMeta) : M (option error) :=
  r ← GetUser c (m_name m);
  match r with
  | Err e =>
      mret (if IsNotFound e then None else Some (EWrap "failed to get user from Zitadel: " e))
  | Ok _ =>
      e ← DeleteUser c (m_name m);
      mret match e with Some e => Some (EWrap "failed to delete user in Zitadel: " e) | None => None end
  end.

Definition user_Reconcile (c : HttpClient) (name : string) : M reconcile_result :=
  r ← call (KGetUserMeta name);
  match r with
  | Err e => mret (if IsNotFound e then done_result else failed "failed to get User resource: " e)
  | Ok m =>
      r ← Finalize userFinalizerKey (userFinalizer_Finalize c) m;
      match r with
      | Err e => mret (failed "failed to run finalizers for User: " e)
      | Ok (m, updated) =>
          if (updated : bool) then
            e ← call (KUpdateUser m);
            mret match e with
                 | Some e => failed "failed to update User after finalizer update: " e
                 | None => done_result
                 end
          else mret done_result
      end
  end.

(** [projectFinalizer.Finalize] *)
Definition projectFinalizer_Finalize (m : ObjectMeta) : M (option error) :=
  e ← call (ZDeleteOrganization (OrgIDForProject (m_name m)));
  mret match e with Some e => Some (EWrap "delete organization: " e) | None => None end.

Definition project_Reconcile (name : string) : M reconcile_result :=
  r ← call (KGetProject name);
  match r with
  | Err e => mret (if IsNotFound e then done_result else failed "get project: " e)
  | Ok m =>
      r ← Finalize projectFinalizerKey projectFinalizer_Finalize m;
      match r with
      | Err e => mret (failed "finalize: " e)
      | Ok (m, updated) =>
          if (updated : bool) then
            e ← call (KUpdateProject m);
            mret match e with
                 | Some e =>
                     if IsNotFound e then done_result
                     else if IsConflict e then mkReconcile projectConflictRequeue None
                     else failed "update project after finalizer: " e
                 | None => done_result
                 end
          else mret done_result
      end
  end.

(** * Lemmas *)

(** The object keeps its identity and its other finalizers. *)
Definition same_object (m m' : ObjectMeta) : Prop :=
  m_name m' = m_name m ∧ m_uid m' = m_uid m ∧ m_deleting m' = m_deleting m.

Definition user_url (c : HttpClient) (n : string) : string := baseURL c +:+ "/" +:+ ("v2/users/" +:+ n).

(** The last call of [pre] found the Zitadel user of [n] missing, or deleted it. *)
Definition user_gone (c : HttpClient) (n : string) (pre : trace) : Prop :=
  ∃ pre' e, pre = pre' ++ [e] ∧
    ((∃ st text, e = ev (HttpDo "GET" (user_url c n) None) (Ok (404%Z, st, text))) ∨
     (∃ code st text, success code ∧ e = ev (HttpDo "DELETE" (user_url c n) None) (Ok (code, st, text)))).

(** The errors of the HTTP transport are not Kubernetes status errors. *)
Definition plain_transport (tr : trace) : Prop :=
  ∀ m u b e, ev (HttpDo m u b) (Err e) ∈ tr → reason_of e = None.

(** The two calls of [GetUser] and [DeleteUser], and what they report. *)
Lemma GetUser_spec c n :
  wp (GetUser c n) (λ tr r, ∃ res, r = Returned res ∧
    ((tr = [] ∧ ∃ e, res = Err e ∧ IsNotFound e = false) ∨
     (∃ a, tr = [ev (HttpDo "GET" (user_url c n) None) a] ∧
        match a with
        | Err e => ∃ e', res = Err e' ∧ (reason_of e = None → IsNotFound e' = false)
        | Ok (code, _, _) => (∃ e, res = Err e ∧ (IsNotFound e = true → code = 404%Z)) ∨ (success code ∧ ∃ u, res = Ok u)
        end))).
Proof.
  unfold GetUser, http_do. change (baseURL c +:+ "/" +:+ _) with (user_url c n).
  destruct (url_parse _) as [u|]; simpl; [|by eexists; split; [done|left]; eauto].
  intros [[[code st] text]|e]; simpl.
  - case_bool_decide as Hc; [case_bool_decide as H4|]; simpl.
    + eexists; split; [done|right]. eexists; split; [done|]. simpl. left. eauto.
    + eexists; split; [done|right]. eexists; split; [done|]. simpl. left. eexists; split; [done|done].
    + destruct (Decode _ _ _); simpl; (eexists; split; [done|right]; eexists; split; [done|]); simpl; [right|left];
        [unfold success; split; [lia|eauto]|eexists; split; done].
  - destruct (IsNotFound (EWrap "do request: " e)) eqn:Hn; (eexists; split; [done|right]; eexists; split; [done|]); simpl;
      eexists; split; try done. intros Hr. unfold IsNotFound in Hn. simpl in Hn. by rewrite Hr in Hn.
Qed.

Lemma DeleteUser_spec c n :
  wp (DeleteUser c n) (λ tr r, ∃ res, r = Returned res ∧
    ((tr = [] ∧ res ≠ None) ∨
     (∃ a, tr = [ev (HttpDo "DELETE" (user_url c n) None) a] ∧
        (res = None → ∃ code st text, success code ∧ a = Ok (code, st, text))))).
Proof.
  unfold DeleteUser, http_do. change (baseURL c +:+ "/" +:+ _) with (user_url c n).
  destruct (url_parse _) as [u|]; simpl; [|by eexists; split; [done|left]].
  intros [[[code st] text]|e]; simpl; (eexists; split; [done|right]; eexists; split; [done|]); simpl; [|done].
  case_bool_decide as Hc; [by case_bool_decide|]. intros _. exists code, st, text. unfold success. split; [lia|done].
Qed.

(** A request to the endpoint of the user [n]. *)
Definition to_user (c : HttpClient) (n : string) (e : event) : Prop :=
  ∃ mt b a, e = ev (HttpDo mt (user_url c n) b) a.

(** The finalizer: a success means the user is gone; it deletes only the user it is
    asked to. *)
Lemma userFinalizer_spec c m :
  wp (userFinalizer_Finalize c m) (λ tr r, ∃ e, r = Returned e ∧
    (plain_transport tr → e = None → user_gone c (m_name m) tr) ∧
    Forall (to_user c (m_name m)) tr).
Proof.
  unfold userFinalizer_Finalize. rewrite wp_bind. eapply wp_mono; [apply GetUser_spec|].
  intros tr r (res & -> & Hget). simpl.
  assert (Forall (to_user c (m_name m)) tr) as Hurl.
  { destruct Hget as [[-> _]|(a0 & -> & _)]; constructor; [by do 3 eexists|constructor]. }
  destruct res as [u|e].
  - rewrite wp_bind. eapply wp_mono; [apply DeleteUser_spec|]. intros tr' r' (e & -> & Hdel). simpl.
    eexists. split; [done|]. rewrite app_nil_r. split.
    + intros _ He. destruct e as [e|]; [done|]. destruct Hdel as [[_ ?]|(a & -> & Hok)]; [done|].
      destruct (Hok eq_refl) as (code & st & text & Hc & ->). exists tr. eexists. split; [done|]. right. eauto 6.
    + apply Forall_app. split; [done|].
      destruct Hdel as [[-> _]|(a0 & -> & _)]; constructor; [by do 3 eexists|constructor].
  - simpl. eexists. split; [done|]. rewrite app_nil_r. split; [|done]. intros Hplain Hn.
    destruct (IsNotFound e) eqn:Hnf; [|done].
    destruct Hget as [[_ (e' & [= <-] & ?)]|(a & -> & Ha)]; [congruence|].
    exists []. eexists. split; [done|]. left. destruct a as [[[code st] text]|te].
    + destruct Ha as [(e' & [= <-] & H4)|(_ & u & ?)]; [|done]. rewrite (H4 Hnf). eauto.
    + destruct Ha as (e' & [= <-] & Hr). rewrite Hr in Hnf; [done|]. eapply Hplain. by left.
Qed.

(** A reconcile of an object read as [m], with the writes [upd] of the reconciler
    left to [after]. *)
Lemma wp_Finalize key body m Q :
  wp (Finalize key body m) Q ↔
    if m_deleting m && has_finalizer key m
    then wp (body m) (bind_post (λ e, Ret match e with
           | Some e => Err (finalizer_failed key e) | None => Ok (remove_finalizer key m, true) end) Q)
    else Q [] (Returned (Ok (if m_deleting m || has_finalizer key m then (m, false)
                             else (set_finalizers m (m_finalizers m ++ [key]), true)))).
Proof.
  rewrite Finalize_doc. destruct (m_deleting m), (has_finalizer key m); simpl; try done. by rewrite wp_bind.
Qed.

(** The write that follows a finalizer run on the object [m], after [pre]. *)
Definition releases (key : string) (gone : trace → Prop) (m m' : ObjectMeta) (pre : trace) : Prop :=
  if m_deleting m then has_finalizer key m = true ∧ m' = remove_finalizer key m ∧ gone pre
  else has_finalizer key m = false ∧ m' = set_finalizers m (m_finalizers m ++ [key]).
End Controllers.

(** * Properties *)

(** The rule of the User reconciler: an update of the User either adds the finalizer
    to the object that was read, or takes it off one that is being deleted, and then
    the call before found its Zitadel user missing or deleted it; requests go to this
    user's endpoint only, and only while the User is being deleted with the finalizer
    in place. *)
Definition user_rule `{GoRuntime} (c : HttpClient) (name : string) (pre : trace) (e : event) : Prop :=
  match e with
  | existT (KUpdateUser m') _ => ∃ m pre', pre = ev (KGetUserMeta name) (Ok m) :: pre' ∧
      releases userFinalizerKey (user_gone c (m_name m)) m m' pre'
  | existT (HttpDo _ url _) _ => ∃ m pre', pre = ev (KGetUserMeta name) (Ok m) :: pre' ∧
      m_deleting m = true ∧ has_finalizer userFinalizerKey m = true ∧ url = user_url c (m_name m)
  | _ => True
  end.

(** The trace of a reconcile that read [m]: requests of the finalizer, then at most
    the update. *)
Lemma user_trace `{GoRuntime} c name m tr rest :
  (tr = [] ∨ m_deleting m = true ∧ has_finalizer userFinalizerKey m = true) → Forall (to_user c (m_name m)) tr →
  (rest = [] ∨ ∃ m' a, rest = [ev (KUpdateUser m') a] ∧ releases userFinalizerKey (user_gone c (m_name m)) m m' tr) →
  each (user_rule c name) (ev (KGetUserMeta name) (Ok m) :: tr ++ rest).
Proof.
  intros Hd Htr Hrest pre e post Heq. destruct pre as [|x pre]; apply cons_inv in Heq as [<- Heq]; [done|].
  symmetry in Heq. apply app_eq_inv in Heq as [(k & -> & Hk)|(k & -> & Hk)].
  - destruct Hrest as [->|(m' & a & -> & Hrel)]; [by destruct k|].
    destruct k as [|y k]; apply cons_inv in Hk as [<- Hk]; [|by destruct k].
    rewrite app_nil_r. exists m, tr. eauto.
  - destruct k as [|y k]; simpl in *.
    + destruct Hrest as [->|(m' & a & -> & Hrel)]; [done|]. apply cons_inv in Hk as [-> Hk]. rewrite app_nil_r in Hrel. exists m, pre. eauto.
    + apply cons_inv in Hk as [-> Hk]. apply Forall_app in Htr as [_ Htr]. inversion_clear Htr as [|? ? (mt & b & a & ->) _].
      exists m, pre. destruct Hd as [Hd|[? ?]]; [by destruct pre|eauto].
Qed.

(** C18: a User is released only once its Zitadel user is gone. In every execution of
    the User reconciler (whose transport errors are not Kubernetes errors), the
    finalizer is taken off only right after Zitadel answered 404 to the look-up or a
    success to the deletion of this very user, Zitadel is asked only for users being
    deleted, and the finalizer put on a live User leaves its other fields alone. *)
Theorem user_Reconcile_releases `{GoRuntime} `{FinalizerLibrary} c name tr r :
  plain_transport tr → may (user_Reconcile c name) tr r → each (user_rule c name) tr.
Proof.
  intros Hplain Hm. revert Hplain. pattern tr, r. apply (may_wp _ _ _ _ Hm). clear Hm tr r.
  intros [m|e]; simpl; [|intros _; by apply each_intro].
  change (wp (Finalize userFinalizerKey (userFinalizer_Finalize c) m ≫= λ r, match r with
      | Err e => mret (failed "failed to run finalizers for User: " e)
      | Ok (m, updated) => if (updated : bool) then e ← call (KUpdateUser m);
          mret match e with Some e => failed "failed to update User after finalizer update: " e | None => done_result end
        else mret done_result end)
    (λ tr _, plain_transport (ev (KGetUserMeta name) (Ok m) :: tr) → each (user_rule c name) (ev (KGetUserMeta name) (Ok m) :: tr))).
  rewrite wp_bind, wp_Finalize. destruct (m_deleting m) eqn:Hd, (has_finalizer userFinalizerKey m) eqn:Hf; simpl.
  - eapply wp_mono; [apply userFinalizer_spec|]. intros tr r (e & -> & Hgone & Hurl). destruct e as [e|]; simpl.
    + intros _. pose proof (user_trace c name m tr []) as Hu. rewrite !app_nil_r in *. apply Hu; [by right|done|by left].
    + intros a.
      assert (plain_transport (ev (KGetUserMeta name) (Ok m) :: tr ++ [ev (KUpdateUser (remove_finalizer userFinalizerKey m)) a]) →
        each (user_rule c name) (ev (KGetUserMeta name) (Ok m) :: tr ++ [ev (KUpdateUser (remove_finalizer userFinalizerKey m)) a])) as Hall.
      { intros Hplain. apply user_trace; [by right|done|]. right. do 2 eexists. split; [done|]. unfold releases. rewrite Hd, Hf.
        do 2 (split; [done|]). apply Hgone; [|done]. intros mt u b e Hin. apply (Hplain mt u b e). right. apply elem_of_app. by left. }
      destruct a; simpl; rewrite app_nil_r; exact Hall.
  - intros _. apply (user_trace c name m [] []); auto.
  - intros _. apply (user_trace c name m [] []); auto.
  - intros a _. apply (user_trace c name m [] [_]); auto. right. do 2 eexists. split; [done|]. unfold releases. by rewrite Hd, Hf.
Qed.

(** What the Project reconciler does with the object it read, and what it returns. *)
Definition project_outcome (m : ObjectMeta) (tr : trace) (r : reconcile_result) `{FinalizerLibrary} : Prop :=
  let org := OrgIDForProject (m_name m) in
  let update m' a := ev (KUpdateProject m') a in
  let reported (a : option error) :=
    match a with
    | None => done_result
    | Some e => if IsNotFound e then done_result
                else if IsConflict e then mkReconcile projectConflictRequeue None
                else failed "update project after finalizer: " e
    end in
  match m_deleting m, has_finalizer projectFinalizerKey m with
  | false, true | true, false => tr = [] ∧ r = done_result
  | false, false => ∃ a, tr = [update (set_finalizers m (m_finalizers m ++ [projectFinalizerKey])) a] ∧ r = reported a
  | true, true =>
      (∃ e, tr = [ev (ZDeleteOrganization org) (Some e)] ∧
         r = failed "finalize: " (finalizer_failed projectFinalizerKey (EWrap "delete organization: " e))) ∨
      (∃ a, tr = [ev (ZDeleteOrganization org) None; update (remove_finalizer projectFinalizerKey m) a] ∧ r = reported a)
  end.

(** C19: the Project reconciler, on every branch. A live Project gets the finalizer; one
    being deleted is released only after its organization was deleted, with a failed
    deletion reported and the finalizer kept; an update that finds the Project gone
    succeeds, one that conflicts is tried again after a second, any other failure is
    reported; a Project in the wanted state costs no call. Zitadel is called for the deletion
    alone: no branch creates an organization, which is left to the ServiceAccount reconciler. *)
Theorem project_Reconcile_exact `{FinalizerLibrary} name tr r :
  may (project_Reconcile name) tr (Returned r) →
  (∃ e, tr = [ev (KGetProject name) (Err e)] ∧
     r = if IsNotFound e then done_result else failed "get project: " e) ∨
  (∃ m tr', tr = ev (KGetProject name) (Ok m) :: tr' ∧ project_outcome m tr' r).
Proof.
  intros Hm. on_returns Hm. intros [m|e]; simpl; [|left; eauto].
  apply wp_bind, wp_Finalize. unfold project_outcome.
  destruct (m_deleting m) eqn:Hd, (has_finalizer projectFinalizerKey m) eqn:Hf; simpl.
  - intros [e|]; simpl; [right; exists m; eexists; split; [done|]; rewrite Hd, Hf; left; eauto|].
    intros a. destruct a as [e|]; simpl; right; exists m; eexists; (split; [done|]); rewrite Hd, Hf; right; eauto.
  - right. exists m. eexists. split; [done|]. by rewrite Hd, Hf.
  - right. exists m. eexists. split; [done|]. by rewrite Hd, Hf.
  - intros a. destruct a as [e|]; simpl; right; exists m; eexists; (split; [done|]); rewrite Hd, Hf; eauto.
Qed.

(** * Witnesses *)

Definition one_finalizer : FinalizerLibrary := {|
  Finalize := λ key body m,
      if m_deleting m then
        if has_finalizer key m then
          e ← body m;
          mret match e with
               | Some e => Err (EWrap "finalizer failed: " e)
               | None => Ok (remove_finalizer key m, true)
               end
        else mret (Ok (m, false))
      else if has_finalizer key m then mret (Ok (m, false))
      else mret (Ok (set_finalizers m (m_finalizers m ++ [key]), true));
  finalizer_failed := λ _, EWrap "finalizer failed: ";
  Finalize_doc := λ _ _ _, eq_refl |}.

Section Witnesses.
#[local] Existing Instance ascii_runtime.
#[local] Existing Instance one_finalizer.

Definition dying : ObjectMeta := mkMeta "u1" "uid-u1" true [userFinalizerKey].
Definition http_client : HttpClient := NewClientWithTokenSource "https://auth.example.com/".

(** The User is being deleted, Zitadel answers 404; so is the Project, whose update
    conflicts. *)
Definition deletion (o : op) (c : cluster) : cluster * ans o :=
  match o return cluster * ans o with
  | KGetUserMeta _ => (c, Ok dying)
  | KGetProject n => (c, Ok (mkMeta n "uid" true [projectFinalizerKey]))
  | KUpdateProject _ => (c, Some conflict)
  | HttpDo _ _ _ => (c, Ok (404%Z, "404 Not Found", EmptyString))
  | o => fake o c
  end.

Lemma user_Reconcile_releases_witness :
  let tr := run_trace deletion (user_Reconcile http_client "u1") empty_cluster in
  tr = [ev (KGetUserMeta "u1") (Ok dying);
        ev (HttpDo "GET" "https://auth.example.com/v2/users/u1" None) (Ok (404%Z, "404 Not Found", EmptyString));
        ev (KUpdateUser (mkMeta "u1" "uid-u1" true [])) None] ∧ each (user_rule http_client "u1") tr.
Proof.
  intros tr. assert (tr = _) as Htr by (vm_compute; reflexivity). split; [exact Htr|].
  apply (user_Reconcile_releases http_client "u1" tr (run deletion (user_Reconcile http_client "u1") empty_cluster).2);
    [|apply run_may].
  rewrite Htr. intros m u b e Hin. apply list_elem_of_In in Hin. simpl in Hin.
  destruct Hin as [Hin|[Hin|[Hin|[]]]]; [discriminate Hin| |discriminate Hin].
  apply (f_equal (λ e, match e with existT (HttpDo _ _ _) (Ok _) => true | _ => false end)) in Hin. discriminate Hin.
Defined.

Lemma project_Reconcile_exact_witness :
  let tr := run_trace deletion (project_Reconcile "p1") empty_cluster in
  ∃ m tr', tr = ev (KGetProject "p1") (Ok m) :: tr' ∧ length tr' = 2%nat ∧ project_outcome m tr' (mkReconcile Second None).
Proof.
  intros tr.
  destruct (project_Reconcile_exact "p1" tr (mkReconcile Second None)) as [(e & Htr & _)|(m & tr' & Htr & Hres)].
  - apply run_may_to. vm_compute. reflexivity.
  - apply (f_equal length) in Htr. vm_compute in Htr. discriminate Htr.
  - exists m, tr'. split; [exact Htr|]. split; [|exact Hres]. apply (f_equal length) in Htr. vm_compute in Htr. by injection Htr.
Defined.
End Witnesses.
