(* ===== verification/Provider.v ===== *)
(** What the provider runs against the shared services, as one collection of programs: the
    requests of the actions server, the sweeps, the User reconciler and whatever else leaves
    Users and pending avatars alone; and the rule each of their calls keeps. *)

From S2P Require Import Prelude GoLib Prog Model Json Cluster Users RecoveryMail AvatarSync Actions.
From S2P Require Import ActionsSpec Gateway Notify SessionAdded ActionsRoutes UserSweep AbandonedGC ZitadelHttp Finalizers.

(** * The activities *)

Definition discard {A} (p : M A) : M unit := p ≫= λ _, mret ().

(** A call that neither writes the status of a User, nor offers an avatar, nor records the
    creation of an account. *)
Definition neutral (o : op) : bool :=
  match o with
  | KUpdateUserStatus _ | KPatchUserStatus _ _ _ | MapStore _ _ => false
  | KCreateEvent x => negb (bool_decide (ev_reason x = EventReasonAccountCreated))
  | _ => true
  end.

Notation is_neutral := (λ o, neutral o = true).

Inductive activity `{GoRuntime} `{ConflictRetry} `{FinalizerLibrary} : M unit → Prop :=
| serves srv path handler rq : (path, handler) ∈ routes srv → activity (discard (handler rq))
| sweeps ticks fuel w : activity (sweeper_Start ticks fuel w)
| collects ticks fuel g : activity (gc_Start ticks fuel g)
| reconciles c name : activity (discard (user_Reconcile c name))
| elsewhere {A} (p : M A) : only is_neutral p → activity (discard p).

(** * The rule *)

Definition known_provider (p : AuthProvider) : Prop := p = ProviderGoogle ∨ p = ProviderGitHub.

(** The provider of a known family, or of a pending avatar taken before. *)
Definition provider_from (pre : trace) (p : AuthProvider) : Prop :=
  known_provider p ∨ ∃ key a, ev (MapLoadAndDelete key) (Some a) ∈ pre ∧ pa_provider a = p.

Definition is_account_created (e : event) : bool :=
  match e with existT (KCreateEvent x) _ => bool_decide (ev_reason x = EventReasonAccountCreated) | _ => false end.

(** The User [n] was created by an earlier call, and its creation not recorded since. *)
Definition unrecorded (pre : trace) (n uid : string) : Prop :=
  ∃ pre1 u u' mid, pre = pre1 ++ ev (KCreateUser u) (Ok u') :: mid ∧ no is_account_created mid ∧
    u_name u' = n ∧ u_uid u' = uid.

(** A status update sends a User read before with only EmailVerification changed, to a value
    it did not have; a patch changes at most the avatar and its provider; an avatar is offered
    under an email; the record of a creation follows the creation it is about. *)
Definition rule (pre : trace) (e : event) : Prop :=
  match e with
  | existT (KUpdateUserStatus u) _ =>
      ∃ n u0 v, ev (KGetUser n) (Ok u0) ∈ pre ∧ u = with_emailVerification u0 (Desired v) ∧
        u_emailVerification u0 ≠ Desired v
  | existT (KPatchUserStatus o c _) _ => ∃ url p, c = with_avatar o url p ∧ provider_from pre p
  | existT (MapStore key a) _ => key ≠ EmptyString ∧ pa_avatarURL a ≠ EmptyString ∧ provider_from pre (pa_provider a)
  | existT (KCreateEvent x) _ =>
      ev_reason x = EventReasonAccountCreated → unrecorded pre (ev_involvedName x) (ev_involvedUID x)
  | _ => True
  end.

(** * Lemmas *)

Lemma provider_from_extends pre0 pre p : provider_from pre p → provider_from (pre0 ++ pre) p.
Proof. intros [?|(key & a & Hin & ?)]; [by left|]. right. exists key, a. split; [apply elem_of_app; by right|done]. Qed.

Lemma provider_from_app pre tr p : provider_from pre p → provider_from (pre ++ tr) p.
Proof. intros [?|(key & a & Hin & ?)]; [by left|]. right. exists key, a. split; [apply elem_of_app; by left|done]. Qed.

#[export] Instance rule_extends : Extends rule.
Proof.
  intros pre0 pre [o r]. destruct o; simpl; try done.
  - intros (n & u0 & v & Hin & ?). exists n, u0, v. split; [apply elem_of_app; by right|done].
  - intros (url & p & ? & Hp). exists url, p. split; [done|by apply provider_from_extends].
  - intros Hr Hx. destruct (Hr Hx) as (pre1 & u & u' & mid & -> & ?). exists (pre0 ++ pre1), u, u', mid.
    by rewrite <-app_assoc.
  - intros (? & ? & Hp). split; [done|]. split; [done|by apply provider_from_extends].
Qed.

Lemma rule_neutral o pre a : neutral o = true → rule pre (ev o a).
Proof. destruct o; simpl; try done. case_bool_decide; done. Qed.

Lemma only_rule {A} (p : M A) : only is_neutral p → safe (each rule) p.
Proof. apply only_each. intros o pre a. apply rule_neutral. Qed.

Lemma unrecorded_app pre tr n uid : unrecorded pre n uid → no is_account_created tr → unrecorded (pre ++ tr) n uid.
Proof.
  intros (pre1 & u & u' & mid & -> & Hmid & Hn) Htr. exists pre1, u, u', (mid ++ tr).
  rewrite <-app_assoc. split; [done|]. split; [by apply ti_app|done].
Qed.

(** ** Programs that keep to neutral calls *)

Lemma only_RecordEvent n uid reason msg :
  bool_decide (reason = EventReasonAccountCreated) = false → only is_neutral (RecordEvent n uid reason msg).
Proof. intros Hr. unfold RecordEvent. solve_only. simpl. rewrite Hr. by split. Qed.

Lemma only_getUser_loop uid b k a : only is_neutral (getUser_loop uid b k a).
Proof. revert a. induction k as [|k IH]; intros a; cbn [getUser_loop]; solve_only. Qed.

Lemma only_post_only rq k : only is_neutral k → only is_neutral (post_only rq k).
Proof. intros Hk. unfold post_only. by case_bool_decide. Qed.

Lemma only_with_signed_body s msg rq k :
  (∀ body, only is_neutral (k body)) → only is_neutral (with_signed_body s msg rq k).
Proof. intros Hk. unfold with_signed_body. solve_only. Qed.

#[export] Hint Resolve only_RecordEvent only_getUser_loop only_post_only only_with_signed_body : only.
#[export] Hint Extern 1 (_ = _) => reflexivity : only.

Section Neutral.
Context `{GoRuntime} `{ConflictRetry} `{FinalizerLibrary}.

Lemma only_recordUserEvent uid reason msg :
  bool_decide (reason = EventReasonAccountCreated) = false → only is_neutral (recordUserEvent uid reason msg).
Proof. intros Hr. unfold recordUserEvent. solve_only. Qed.

#[local] Hint Resolve only_recordUserEvent : only.

Lemma only_handleSuspiciousLogin s uid t ip ua : only is_neutral (handleSuspiciousLogin s uid t ip ua).
Proof.
  unfold handleSuspiciousLogin, resolveUserAgent, resolveLocation, LookupIP, ParseUserAgent, gateway_do,
    sendSuspiciousLoginEmail. solve_only.
Qed.

Lemma only_customizeJwt srv rq : only is_neutral (customizeJwtHandler srv rq).
Proof. unfold customizeJwtHandler. apply only_with_signed_body. solve_only. Qed.

Lemma only_passkeyAdded srv rq : only is_neutral (passkeyAddedHandler srv rq).
Proof.
  apply only_post_only, only_with_signed_body. unfold sendPasskeyAddedEmail. solve_only.
Qed.

Lemma only_passkeyRemoved srv rq : only is_neutral (passkeyRemovedHandler srv rq).
Proof.
  apply only_post_only, only_with_signed_body. unfold sendPasskeyRemovedEmail, passkeyNameFromMetadata, zcall. solve_only.
Qed.

Lemma only_gc_page g cutoff us t : only is_neutral (gc_page g cutoff us t).
Proof.
  revert t. induction us as [|u us IH]; intros t; cbn [gc_page]; [solve_only|].
  unfold gc_user, gauge_user, collect_candidate, hasIDPLink, collect. solve_only.
Qed.

#[local] Hint Resolve only_gc_page : only.

Lemma only_gc_sweepOnce fuel g : only is_neutral (gc_sweepOnce fuel g).
Proof.
  unfold gc_sweepOnce. assert (∀ c off t, only is_neutral (gc_pages fuel g c off t)) as Hpages.
  { induction fuel as [|fuel IH]; intros c off t; cbn [gc_pages]; solve_only. }
  solve_only.
Qed.

#[local] Hint Resolve only_gc_sweepOnce : only.

Lemma only_gc_Start ticks fuel g : only is_neutral (gc_Start ticks fuel g).
Proof.
  unfold gc_Start. case_bool_decide; [solve_only|].
  induction ticks as [|ticks IH]; cbn [gc_loop]; solve_only.
Qed.

Lemma only_http_do {R} c method path body (v : option (decoder R * R)) : only is_neutral (http_do c method path body v).
Proof. unfold http_do. solve_only. Qed.

#[local] Hint Resolve only_http_do : only.

Lemma only_user_Reconcile c name : only is_neutral (user_Reconcile c name).
Proof.
  unfold user_Reconcile. solve_only. rewrite Finalize_doc.
  unfold userFinalizer_Finalize, GetUser, DeleteUser. solve_only.
Qed.
End Neutral.

(** ** Programs that write *)

Section Writers.
Context `{GoRuntime} `{ConflictRetry} `{FinalizerLibrary}.

Lemma rule_inv : TraceInv (each rule).
Proof. apply _. Qed.

Lemma nonempty_some s x : nonempty s = Some x → x ≠ EmptyString.
Proof. unfold nonempty. destruct s; [|done]. case_bool_decide; [done|]. by intros [= <-]. Qed.

Lemma parseIDPUserData_known raw p url : parseIDPUserData raw = Ok (p, url) → known_provider p ∧ url ≠ EmptyString.
Proof.
  unfold parseIDPUserData, known_provider. intros Hp. repeat case_match; simplify_eq/=;
    (split; [by auto|by eapply nonempty_some]).
Qed.

Lemma set_attempt_rule n v c : safe (each rule) (set_attempt n v c).
Proof.
  intros [u|e]; simpl; [|by apply each_intro]. destruct (NeedsUpdate u v) eqn:Hn; simpl; [|by apply each_intro].
  assert (u_emailVerification u ≠ Desired v) by (intros Hu; apply NeedsUpdate_false in Hu; congruence).
  intros [e|]; apply each_intro; simpl; (split; [done|]); (split; [|done]); exists n, u, v; (split; [by left|done]).
Qed.

Lemma SetVerified_rule n v : safe (each rule) (SetVerified n v).
Proof. apply RetryOnConflict_safe; [apply _|]. apply set_attempt_rule. Qed.

Lemma SetVerified_unrecorded n v : safe (no is_account_created) (SetVerified n v).
Proof. apply quiet_safe, SetVerified_quiet; [apply _|done|done]. Qed.

Lemma storePendingAvatar_rule pre email url p :
  provider_from pre p → wp (storePendingAvatar email url p) (λ tr _, each_from rule pre tr).
Proof.
  intros Hp. unfold storePendingAvatar. case_bool_decide as He; [exact I|]. simpl. intros t []. split; [done|].
  split; [|done]. split; [tauto|]. split; [tauto|]. by apply provider_from_app.
Qed.
(** The look-up of a pending avatar: nothing, or an entry taken out of the map. *)
Lemma consumePendingAvatar_takes email :
  wp (consumePendingAvatar email) (λ tr r, each rule tr ∧
    match r with
    | Returned (Some a) => ∃ key, ev (MapLoadAndDelete key) (Some a) ∈ tr
    | _ => True
    end).
Proof.
  unfold consumePendingAvatar. case_bool_decide; [split; [apply each_nil|exact I]|].
  intros [a|]; simpl; [|split; [by apply each_intro|exact I]]. intros now.
  split; [by apply each_intro|]. destruct (_ <? _)%Z; [exact I|]. eexists. by left.
Qed.

Lemma patchUserAvatar_rule pre uid url p fm :
  provider_from pre p → wp (patchUserAvatar uid url p fm) (λ tr _, each_from rule pre tr).
Proof.
  intros Hp [u|e]; simpl; [|done]. intros e. split; [done|]. split; [|done]. exists url, p. split; [done|].
  by apply provider_from_app.
Qed.

Lemma applyPendingAvatar_rule uid email fm : safe (each rule) (applyPendingAvatarByEmail uid email fm).
Proof.
  unfold applyPendingAvatarByEmail, safe. rewrite wp_bind. apply (wp_mono _ _ _ (consumePendingAvatar_takes email)).
  intros tr [[a|]|] [Htr Ha]; unfold bind_post; [|simpl; by rewrite app_nil_r|done]. destruct Ha as [key Ha].
  assert (provider_from tr (pa_provider a)) as Hp by (right; by exists key, a).
  rewrite wp_bind. apply (wp_mono _ _ _ (patchUserAvatar_rule tr uid _ _ fm Hp)).
  intros tr1 [[e|]|] Htr1; unfold bind_post; [|simpl; rewrite app_nil_r; by apply each_app|by apply each_app].
  rewrite wp_bind. eapply wp_mono; [apply (storePendingAvatar_rule (tr ++ tr1)); by apply provider_from_app|].
  intros tr2 [[]|] Htr2; simpl; rewrite ?app_nil_r, app_assoc; (apply each_app; [by apply each_app|done]).
Qed.

Lemma applyPendingAvatar_unrecorded uid email fm : safe (no is_account_created) (applyPendingAvatarByEmail uid email fm).
Proof. by apply quiet_safe, applyPendingAvatar_no. Qed.

Lemma with_signed_body_rule s msg rq k :
  (∀ body, safe (each rule) (k body)) → safe (each rule) (with_signed_body s msg rq k).
Proof.
  intros Hk. unfold with_signed_body. destruct (rq_body rq); [|apply safe_ret, _].
  destruct (validateSignature _ _ _ _); [apply safe_ret, _|done].
Qed.

Lemma post_only_rule rq k : safe (each rule) k → safe (each rule) (post_only rq k).
Proof. intros Hk. unfold post_only. case_bool_decide; [done|apply safe_ret, _]. Qed.

Lemma each_rule_create u (u' : User) : each rule [ev (KCreateUser u) (Ok u')].
Proof. by apply each_intro. Qed.

(** The record of a creation, then whatever keeps to the rule. *)
Lemma RecordEvent_rule pre (u' : User) msg {A} (k : M A) :
  unrecorded pre (u_name u') (u_uid u') → safe (each rule) k →
  wp (_ ← RecordEvent (u_name u') (u_uid u') EventReasonAccountCreated msg; k) (λ tr _, each_from rule pre tr).
Proof.
  intros Hu Hk. simpl. intros t e. apply (wp_mono k _ _ Hk). intros tr _ Htr. split; [done|]. split.
  - intros _. by apply unrecorded_app.
  - by apply each_from_each; [apply _|].
Qed.

Lemma unrecorded_create u (u' : User) tr :
  no is_account_created tr → unrecorded ([ev (KCreateUser u) (Ok u')] ++ tr) (u_name u') (u_uid u').
Proof. intros Htr. by exists [], u, u', tr. Qed.

Lemma seed_rule srv n : safe (each rule) (seed_email_verification srv n).
Proof.
  unfold seed_email_verification. destruct (zapi_is_nil _); [apply safe_ret, _|].
  apply safe_bind; [apply _|unfold zcall; apply only_rule; solve_only|].
  intros [[zu|]|e]; [|apply safe_ret, _..]. apply safe_bind; [apply _|apply SetVerified_rule|]. intros _. apply safe_ret, _.
Qed.

Lemma createUserAccount_rule srv rq : safe (each rule) (createUserAccountHandler srv rq).
Proof.
  apply post_only_rule, with_signed_body_rule. intros body. destruct (Unmarshal _ _ _) as [req|]; [|apply safe_ret, _].
  destruct (negb _); [apply safe_ret, _|]. unfold EnsureUser. intros [u'|e]; simpl; [|destruct (IsAlreadyExists e); by apply each_intro].
  apply (wp_each_from rule [_]); [apply each_rule_create|].
  apply (each_from_bind rule (no is_account_created)); [apply applyPendingAvatar_rule|apply applyPendingAvatar_unrecorded|].
  intros _ tr Htr. apply RecordEvent_rule; [by apply unrecorded_create|].
  apply safe_bind; [apply _|apply seed_rule|]. intros _. apply safe_ret, _.
Qed.

Lemma getUserWithRetry_rule c uid : safe (each rule) (getUserWithRetry c uid).
Proof. apply only_rule, only_getUser_loop. Qed.

Lemma store_pending_rule email url p {A} (k : M A) :
  known_provider p → safe (each rule) k → safe (each rule) (_ ← storePendingAvatar email url p; k).
Proof.
  intros Hp Hk. apply safe_bind; [apply _| |done].
  apply (wp_mono _ _ _ (storePendingAvatar_rule [] email url p (or_introl Hp))). intros tr _. apply each_intro.
Qed.

Lemma idpIntent_rule srv rq : safe (each rule) (idpIntentSucceededHandler srv rq).
Proof.
  apply with_signed_body_rule. intros body. destruct (Unmarshal _ _ _) as [req|]; [|apply safe_ret, _].
  case_bool_decide; [apply safe_ret, _|]. destruct (decodeIDPUserPayload _) as [raw|]; [|apply safe_ret, _].
  destruct (parseIDPUserData raw) as [[p url]|] eqn:Hparse; [|apply safe_ret, _].
  apply parseIDPUserData_known in Hparse as [Hp _].
  cbv zeta. case_bool_decide; [case_bool_decide; [apply safe_ret, _|by apply store_pending_rule; [|apply safe_ret, _]]|].
  apply safe_bind; [apply _|apply getUserWithRetry_rule|]. intros [u|e].
  - apply safe_bind; [apply _| |intros [e|]; apply safe_ret, _].
    intros e. apply each_intro. split; [|done]. exists url, p. split; [done|by left].
  - destruct (IsNotFound e); [|apply safe_ret, _].
    case_bool_decide; [apply safe_ret, _|by apply store_pending_rule; [|apply safe_ret, _]].
Qed.

Lemma emailVerified_rule srv rq : safe (each rule) (emailVerifiedHandler srv rq).
Proof.
  apply post_only_rule, with_signed_body_rule. intros body. destruct (Unmarshal _ _ _) as [req|]; [|apply safe_ret, _].
  destruct (event_verified _) as [v|]; [|apply safe_ret, _]. cbv zeta. case_bool_decide; [apply safe_ret, _|].
  apply safe_bind; [apply _|apply getUserWithRetry_rule|]. intros [u|e]; [|destruct (IsNotFound e); apply safe_ret, _].
  apply safe_bind; [apply _|apply SetVerified_rule|]. intros [c [e|]]; apply safe_ret, _.
Qed.

Lemma sessionAdded_rule srv rq : safe (each rule) (sessionAddedHandler srv rq).
Proof.
  apply post_only_rule, with_signed_body_rule. intros body. destruct (Unmarshal _ _ _) as [req|]; [|apply safe_ret, _].
  destruct (negb _); [apply safe_ret, _|]. cbv zeta. case_bool_decide; [apply safe_ret, _|].
  destruct (zapi_is_nil _); [apply safe_ret, _|]. apply safe_bind; [apply _| |intros _; apply only_rule].
  - unfold apply_pending_on_login, zcall. apply safe_bind; [apply _|apply only_rule; solve_only|].
    intros [[zu|]|e]; [|apply safe_ret, _..]. case_bool_decide; [apply safe_ret, _|].
    apply safe_bind; [apply _|apply applyPendingAvatar_rule|]. intros _. apply safe_ret, _.
  - unfold check_login, zcall. pose proof only_handleSuspiciousLogin. solve_only.
Qed.

Lemma routes_rule srv path handler rq : (path, handler) ∈ routes srv → safe (each rule) (handler rq).
Proof.
  intros Hin. repeat (apply elem_of_cons in Hin as [[= _ ->]|Hin]); [..|by apply not_elem_of_nil in Hin].
  - apply createUserAccount_rule.
  - apply only_rule, only_customizeJwt.
  - apply idpIntent_rule.
  - apply sessionAdded_rule.
  - apply only_rule, only_passkeyAdded.
  - apply only_rule, only_passkeyRemoved.
  - apply emailVerified_rule.
Qed.

Lemma sweep_user_rule ex u : safe (each rule) (sweep_user ex u).
Proof.
  apply safe_bind; [apply _|apply only_rule; solve_only|]. intros _. destruct (ex !! z_ID u) as [old|].
  - apply safe_bind; [apply _| |intros _; apply safe_ret, _]. unfold reconcile_verification.
    destruct (NeedsUpdate old _); [|apply safe_ret, _]. apply safe_bind; [apply _|apply SetVerified_rule|].
    intros [c [e|]]; apply only_rule; solve_only.
  - apply safe_bind; [apply _|apply only_rule; solve_only|]. intros _. unfold EnsureUser.
    intros [u'|e]; simpl; [|destruct (IsAlreadyExists e); simpl; intros; by apply each_intro].
    intros [] t e. apply each_intro. do 3 (split; [done|]). split; [|done]. intros _. by apply (unrecorded_create _ _ [_; _]).
Qed.

Lemma sweep_pages_rule fuel ex off : safe (each rule) (sweep_pages fuel ex off).
Proof.
  assert (∀ us, safe (each rule) (sweep_page ex us)) as Hpage.
  { induction us as [|u us IH]; cbn [sweep_page]; [apply safe_ret, _|].
    apply safe_bind; [apply _|apply sweep_user_rule|]. intros [e|]; [apply safe_ret, _|done]. }
  revert off. induction fuel as [|fuel IH]; intros off; cbn [sweep_pages]; [apply safe_ret, _|].
  apply safe_bind; [apply _|apply only_rule; solve_only|]. intros [[us raw]|e]; [|apply only_rule; solve_only].
  apply safe_bind; [apply _|apply Hpage|]. intros [e|]; [apply safe_ret, _|].
  destruct (raw <? _)%Z; [apply safe_ret, _|done].
Qed.

Lemma sweepOnce_rule fuel : safe (each rule) (sweepOnce fuel).
Proof.
  apply safe_bind; [apply _|apply only_rule; solve_only|]. intros [items|e]; [|apply only_rule; solve_only].
  apply safe_bind; [apply _|apply sweep_pages_rule|]. intros [[e|]|]; apply only_rule; solve_only.
Qed.

Lemma sweeper_rule ticks fuel w : safe (each rule) (sweeper_Start ticks fuel w).
Proof.
  unfold sweeper_Start. destruct (_ <=? _)%Z; [apply safe_ret, _|]. apply safe_bind; [apply _|apply sweepOnce_rule|].
  intros _. induction ticks as [|ticks IH]; cbn [sweeper_loop]; [apply safe_ret, _|].
  apply safe_bind; [apply _|apply only_rule; solve_only|]. intros [e|]; [apply safe_ret, _|].
  apply safe_bind; [apply _|apply sweepOnce_rule|done].
Qed.

Lemma discard_rule {A} (p : M A) : safe (each rule) p → safe (each rule) (discard p).
Proof. intros Hp. apply safe_bind; [apply _|done|intros _; apply safe_ret, _]. Qed.

(** Everything the provider runs keeps to the rule. *)
Lemma activity_rule p : activity p → safe (each rule) p.
Proof.
  intros [srv path handler rq Hin|ticks fuel w|ticks fuel g|c name|A q Hq].
  - by apply discard_rule, (routes_rule srv path handler rq).
  - apply sweeper_rule.
  - apply only_rule, only_gc_Start.
  - apply discard_rule, only_rule, only_user_Reconcile.
  - by apply discard_rule, only_rule.
Qed.
End Writers.
