(* ===== verification/PlatformAccess.v ===== *)
(** internal/controller/platformaccess_controller.go: aligning the state of the Zitadel
    user with a PlatformAccess. *)

From S2P Require Import Prelude GoLib Prog Model Json SdkClient ZitadelHttp Cluster Users Finalizers.

(** * The condition helpers of apimachinery (api/meta)

    Library code, by its documentation: SetStatusCondition sets the condition of the
    given type to the new one, adding it when there is none and moving the
    transition time only when the status changes; FindStatusCondition finds the
    condition of a type. *)
Definition settled (old : option Condition) (c : Condition) : Condition :=
  match old with
  | Some o =>
      if bool_decide (cd_status o = cd_status c)
      then mkCondition (cd_type c) (cd_status c) (cd_reason c) (cd_message c) (cd_lastTransition o) else c
  | None => c
  end.

Class StatusConditions := {
  FindStatusCondition : list Condition → string → option Condition;
  SetStatusCondition : list Condition → Condition → list Condition;
  find_type l t c : FindStatusCondition l t = Some c → cd_type c = t;
  find_set l c : FindStatusCondition (SetStatusCondition l c) (cd_type c) = Some (settled (FindStatusCondition l (cd_type c)) c);
  find_set_other l c t : t ≠ cd_type c → FindStatusCondition (SetStatusCondition l c) t = FindStatusCondition l t;
  set_same l c : FindStatusCondition l (cd_type c) = Some (settled (FindStatusCondition l (cd_type c)) c) →
    SetStatusCondition l c = l }.

Definition ZitadelReadyCondition : string := "ZitadelReady".
Definition fieldOwnerName : string := "auth-provider-zitadel".
Definition userStateWaitReason : string := "WaitingForUserState".
Definition userStateRequeueAfter : Z := (30 * Second)%Z.
Definition PlatformAccessStateSuspended : string := "Suspended".
Definition ConditionTrue : string := "True".
Definition ConditionFalse : string := "False".

Section PlatformAccess.
Context `{GoRuntime} `{StatusConditions}.

Definition expectActive (state : string) : bool := negb (bool_decide (state = PlatformAccessStateSuspended)).

Definition stateChanged (pa : PlatformAccess) : bool :=
  match FindStatusCondition (pac_conditions pa) ZitadelReadyCondition with
  | None => true
  | Some c => negb (bool_decide (cd_status c = ConditionTrue)) || negb (bool_decide (cd_reason c = pac_state pa))
  end.

(** The pair (waitingForUserState, err). *)
Definition ensureZitadelUserState (c : HttpClient) (userName : string) (expect_active : bool) : M (bool * option error) :=
  r ← GetUser c userName;
  match r with
  | Err e => mret (false, Some (EWrap "failed to get user state from Zitadel: " e))
  | Ok resp =>
      let current := hu_State (gur_User resp) in
      if expect_active && bool_decide (current = UserStateActive) then mret (false, None)
      else if negb expect_active && bool_decide (current = UserStateInactive) then mret (false, None)
      else if expect_active then
        if negb (bool_decide (current = UserStateInactive)) then mret (true, None)
        else e ← ReactivateUser c userName; mret (false, e)
      else if negb (bool_decide (current = UserStateActive)) then mret (true, None)
      else e ← DeactivateUser c userName; mret (false, e)
  end.

Definition is_not_found (e : option error) : bool := match e with Some e => IsNotFound e | None => false end.

Definition ready_condition (now : Z) (state : string) (err : option error) (waiting : bool) : Condition :=
  match err with
  | Some e =>
      if IsNotFound e then
        mkCondition ZitadelReadyCondition ConditionFalse "ZitadelUserNotFound"
          ("Zitadel identity is missing; waiting for provisioning or identity repair: " +:+ Error e) now
      else
        mkCondition ZitadelReadyCondition ConditionFalse "SyncFailed" ("Failed to align Zitadel user state: " +:+ Error e) now
  | None =>
      if waiting then
        mkCondition ZitadelReadyCondition ConditionFalse userStateWaitReason
          "Waiting for the Zitadel user to reach a state that allows syncing" now
      else
        mkCondition ZitadelReadyCondition ConditionTrue state ("Zitadel user state successfully aligned to " +:+ state) now
  end.

Definition updateStatusConditions (conds : list Condition) (state : string) (err : option error) (waiting : bool)
    : M (list Condition) :=
  now ← call Now;
  mret (SetStatusCondition conds (ready_condition now state err waiting)).

Definition shouldUpdateStatus (old new : list Condition) : bool := negb (bool_decide (old = new)).

Definition with_conditions (pa : PlatformAccess) (conds : list Condition) : PlatformAccess :=
  mkPlatformAccess (pac_name pa) (pac_userRef pa) (pac_state pa) conds.

(** The status write and the result, after the alignment. *)
Definition report_state (pa : PlatformAccess) (err : option error) (waiting : bool) : M reconcile_result :=
  conds ← updateStatusConditions (pac_conditions pa) (pac_state pa) err waiting;
  let result := if is_not_found err then mkReconcile userStateRequeueAfter None
                else match err with
                     | Some e => mkReconcile 0 (Some e)
                     | None => if waiting then mkReconcile userStateRequeueAfter None else done_result
                     end in
  if shouldUpdateStatus (pac_conditions pa) conds then
    e ← call (KPatchPlatformAccessStatus pa (with_conditions pa conds) fieldOwnerName);
    match e with
    | Some e => mret (failed "failed to patch PlatformAccess status: " e)
    | None => mret result
    end
  else mret result.

Definition platformAccess_Reconcile (c : HttpClient) (name : string) : M reconcile_result :=
  r ← call (KGetPlatformAccess name);
  match r with
  | Err e => mret (if IsNotFound e then done_result else failed "failed to get PlatformAccess resource: " e)
  | Ok pa =>
      r ← call (KGetUser (pac_userRef pa));
      match r with
      | Err e => mret (failed "failed to get User resource: " e)
      | Ok _ =>
          '(waiting, err) ← (if stateChanged pa
                             then ensureZitadelUserState c (pac_userRef pa) (expectActive (pac_state pa))
                             else mret (false, None));
          report_state pa err waiting
      end
  end.

(** * Lemmas *)

Definition with_transition (c : Condition) (t : Z) : Condition :=
  mkCondition (cd_type c) (cd_status c) (cd_reason c) (cd_message c) t.

(** The condition of a finished alignment is in place. *)
Definition aligned (pa : PlatformAccess) : Prop :=
  ∃ t, FindStatusCondition (pac_conditions pa) ZitadelReadyCondition =
    Some (with_transition (ready_condition 0 (pac_state pa) None false) t).

Lemma stateChanged_aligned pa : aligned pa → stateChanged pa = false.
Proof. intros [t Ht]. unfold stateChanged. rewrite Ht. simpl. by rewrite !bool_decide_true. Qed.

Lemma settled_transition old c : ∃ t, settled old c = with_transition c t.
Proof.
  unfold settled. destruct old as [o|]; [|exists (cd_lastTransition c); by destruct c].
  case_bool_decide; [by exists (cd_lastTransition o)|exists (cd_lastTransition c); by destruct c].
Qed.

Lemma aligned_write l now pa :
  aligned (with_conditions pa (SetStatusCondition l (ready_condition now (pac_state pa) None false))).
Proof.
  set (c := ready_condition now (pac_state pa) None false).
  destruct (settled_transition (FindStatusCondition l (cd_type c)) c) as [t Ht]. exists t. simpl.
  change ZitadelReadyCondition with (cd_type c). rewrite find_set, Ht. done.
Qed.

(** Writing the same outcome again changes nothing. *)
Lemma aligned_rewrite now pa :
  aligned pa → SetStatusCondition (pac_conditions pa) (ready_condition now (pac_state pa) None false) = pac_conditions pa.
Proof.
  intros [t Ht]. apply set_same. simpl in *. rewrite Ht. unfold settled. simpl. done.
Qed.

(** * The contract of the alignment *)

(** The Zitadel state a PlatformAccess asks for, and the one it can be reached from. *)
Definition wanted (active : bool) : string := if active then UserStateActive else UserStateInactive.
Definition opposite (active : bool) : string := wanted (negb active).

Definition change_state (c : HttpClient) (n : string) (active : bool) : M (option error) :=
  if active then ReactivateUser c n else DeactivateUser c n.

(** What aligning the user [n] may do and report: nothing when the state is unknown
    or already right, wait in a state that is neither, and one request otherwise. *)
Inductive alignment (c : HttpClient) (n : string) (active : bool) : trace → bool → option error → Prop :=
| al_unknown tr e :
    may (GetUser c n) tr (Returned (Err e)) →
    alignment c n active tr false (Some (EWrap "failed to get user state from Zitadel: " e))
| al_there tr resp :
    may (GetUser c n) tr (Returned (Ok resp)) → hu_State (gur_User resp) = wanted active →
    alignment c n active tr false None
| al_defer tr resp :
    may (GetUser c n) tr (Returned (Ok resp)) → hu_State (gur_User resp) ∉ [UserStateActive; UserStateInactive] →
    alignment c n active tr true None
| al_request tr tr' resp err :
    may (GetUser c n) tr (Returned (Ok resp)) → hu_State (gur_User resp) = opposite active →
    may (change_state c n active) tr' (Returned err) → alignment c n active (tr ++ tr') false err.

Lemma may_self {A} (p : M A) : wp p (λ tr r, may p tr r).
Proof. by apply wp_may. Qed.

Lemma may_change c n active tr' r :
  may (e ← change_state c n active; mret (false, e)) tr' r →
  ∃ err, may (change_state c n active) tr' (Returned err) ∧ r = Returned (false, err).
Proof.
  intros Hm. apply (may_wp _ (λ tr' r, ∃ err, may (change_state c n active) tr' (Returned err) ∧ r = Returned (false, err)) _ _ Hm).
  apply wp_bind. assert (wp (change_state c n active) (λ _ r, r ≠ Panicked)) as Hq.
  { unfold change_state, ReactivateUser, DeactivateUser, http_do. destruct active, (url_parse _); simpl; try done; by intros [[[? ?] ?]|?]. }
  eapply wp_mono; [exact (wp_conj _ _ _ (may_self (change_state c n active)) Hq)|].
  intros tr [e|] [Hme ?]; [|done]. simpl. rewrite app_nil_r. eauto.
Qed.

Lemma ensure_refines c n active :
  wp (ensureZitadelUserState c n active) (λ tr r, ∃ w err, r = Returned (w, err) ∧ alignment c n active tr w err).
Proof.
  unfold ensureZitadelUserState. apply wp_bind.
  eapply wp_mono; [exact (wp_conj _ _ _ (may_self (GetUser c n)) (GetUser_spec c n))|].
  intros tr r [Hm (res & -> & _)]. simpl. destruct res as [resp|e]; simpl.
  2: { rewrite app_nil_r. do 2 eexists. split; [done|]. by apply al_unknown. }
  set (st := hu_State (gur_User resp)).
  assert (∀ active', st = opposite active' → active' = active →
    wp (e ← change_state c n active'; mret (false, e)) (λ tr' r, ∃ w err, r = Returned (w, err) ∧ alignment c n active (tr ++ tr') w err)) as Hreq.
  { intros ? Hst ->. apply wp_may. intros tr' r (err & Hme & ->)%may_change.
    do 2 eexists. split; [done|]. by eapply al_request. }
  destruct active; simpl.
  - case_bool_decide as H1; simpl; [rewrite app_nil_r; do 2 eexists; split; [done|]; by eapply al_there|].
    case_bool_decide as H2; simpl; [by apply (Hreq true)|].
    rewrite app_nil_r. do 2 eexists. split; [done|]. eapply al_defer; [done|]. set_solver.
  - case_bool_decide as H1; simpl; [rewrite app_nil_r; do 2 eexists; split; [done|]; by eapply al_there|].
    case_bool_decide as H2; simpl; [by apply (Hreq false)|].
    rewrite app_nil_r. do 2 eexists. split; [done|]. eapply al_defer; [done|]. set_solver.
Qed.

(** The status write after the outcome (waiting, err) at the time [now]. *)
Definition new_conditions (pa : PlatformAccess) (now : Z) (err : option error) (waiting : bool) : list Condition :=
  SetStatusCondition (pac_conditions pa) (ready_condition now (pac_state pa) err waiting).

Definition outcome_result (err : option error) (waiting : bool) : reconcile_result :=
  match err with
  | Some e => if IsNotFound e then mkReconcile userStateRequeueAfter None else mkReconcile 0 (Some e)
  | None => if waiting then mkReconcile userStateRequeueAfter None else done_result
  end.

Definition reported (pa : PlatformAccess) (err : option error) (waiting : bool) (tr : trace) (r : reconcile_result) : Prop :=
  ∃ now, let conds := new_conditions pa now err waiting in
    (conds = pac_conditions pa ∧ tr = [ev Now now] ∧ r = outcome_result err waiting) ∨
    (conds ≠ pac_conditions pa ∧ ∃ a,
       tr = [ev Now now; ev (KPatchPlatformAccessStatus pa (with_conditions pa conds) fieldOwnerName) a] ∧
       r = match a with Some e => failed "failed to patch PlatformAccess status: " e | None => outcome_result err waiting end).

Lemma report_state_spec pa err waiting :
  wp (report_state pa err waiting) (λ tr r, ∃ res, r = Returned res ∧ reported pa err waiting tr res).
Proof.
  unfold report_state, updateStatusConditions, shouldUpdateStatus, reported. simpl. intros now.
  fold (new_conditions pa now err waiting).
  case_bool_decide as Hc; simpl.
  - eexists. split; [done|]. exists now. left. split; [done|]. split; [done|]. by destruct err.
  - intros [e|]; simpl; (eexists; split; [done|]); exists now; right; (split; [done|]); eexists; (split; [done|]); [done|].
    by destruct err.
Qed.

(** A report of success found, or wrote, an aligned object. *)
Lemma reported_done pa err waiting tr :
  reported pa err waiting tr done_result →
  aligned pa ∨ ∃ pa' pre, tr = pre ++ [ev (KPatchPlatformAccessStatus pa pa' fieldOwnerName) None] ∧
    pac_state pa' = pac_state pa ∧ aligned pa'.
Proof.
  assert (outcome_result err waiting = done_result → err = None ∧ waiting = false) as Hout.
  { intros Ho. destruct err as [e|]; simpl in Ho; [by destruct (IsNotFound e)|by destruct waiting]. }
  intros (now & [(Hc & -> & Ho)|(Hc & [e|] & -> & Ho)]); [|done|]; destruct (Hout (eq_sym Ho)) as [-> ->].
  - left. pose proof (aligned_write (pac_conditions pa) now pa) as Hal. unfold new_conditions in Hc. rewrite Hc in Hal. by destruct pa.
  - right. exists (with_conditions pa (new_conditions pa now None false)), [ev Now now].
    split; [done|]. split; [done|]. apply aligned_write.
Qed.
End PlatformAccess.

Definition reads_only (e : event) : bool :=
  match projT1 e with KGetPlatformAccess _ | KGetUser _ | Now => true | _ => false end.

(** * Properties *)

(** C15: the PlatformAccess reconciler implements its contract. On every return: a
    missing object is success and unreadable objects are errors; otherwise Zitadel is
    asked exactly when the Ready condition does not yet vouch for the current state,
    following [alignment] (a request only from the opposite state, never for a user
    whose state is right or pending); then the outcome is recorded in the condition,
    written only if it changed, and the result is a retry in 30 seconds for a missing
    or pending user, the error otherwise. *)
Theorem platformAccess_Reconcile_refines `{GoRuntime} `{StatusConditions} c name tr r :
  may (platformAccess_Reconcile c name) tr (Returned r) →
  (∃ e, tr = [ev (KGetPlatformAccess name) (Err e)] ∧
     r = if IsNotFound e then done_result else failed "failed to get PlatformAccess resource: " e) ∨
  (∃ pa e, tr = [ev (KGetPlatformAccess name) (Ok pa); ev (KGetUser (pac_userRef pa)) (Err e)] ∧
     r = failed "failed to get User resource: " e) ∨
  (∃ pa u tr1 tr2 w err,
     tr = ev (KGetPlatformAccess name) (Ok pa) :: ev (KGetUser (pac_userRef pa)) (Ok u) :: tr1 ++ tr2 ∧
     (if stateChanged pa then alignment c (pac_userRef pa) (expectActive (pac_state pa)) tr1 w err
      else tr1 = [] ∧ w = false ∧ err = None) ∧
     reported pa err w tr2 r).
Proof.
  intros Hm. on_returns Hm. intros [pa|e]; simpl; [|left; eauto].
  intros [u|e]; simpl; [|right; left; eauto]. apply wp_bind. destruct (stateChanged pa) eqn:Hs.
  - eapply wp_mono; [apply ensure_refines|]. intros tr1 r1 (w & err & -> & Ha). cbn [bind_post].
    eapply wp_mono; [apply report_state_spec|]. intros tr' r' (res & -> & Hr). simpl.
    right. right. exists pa, u, tr1, tr', w, err. by rewrite Hs.
  - apply (wp_mono (report_state pa None false) _ _ (report_state_spec pa None false)). intros tr' r' (res & -> & Hr). simpl.
    right. right. exists pa, u, [], tr', false, None. by rewrite Hs.
Qed.

(** C16: an aligned PlatformAccess is left in peace, and success means aligned. A
    reconcile that ends without error or retry leaves the object it read aligned,
    or has written an aligned one; a reconcile of an aligned object makes two reads,
    no request and no write. *)
Theorem platformAccess_converges `{GoRuntime} `{StatusConditions} c name pa tr r :
  may (platformAccess_Reconcile c name) (ev (KGetPlatformAccess name) (Ok pa) :: tr) (Returned r) →
  (r = done_result → aligned pa ∨ ∃ pa' pre, tr = pre ++ [ev (KPatchPlatformAccessStatus pa pa' fieldOwnerName) None] ∧
       pac_state pa' = pac_state pa ∧ aligned pa') ∧
  (aligned pa → forallb reads_only tr = true ∧ requeueAfter r = 0%Z).
Proof.
  intros (x & tr' & E & Hm). apply cons_inv in E as [E ->]. apply ev_inj in E as <-.
  pattern tr', r. refine (may_on_return _ _ _ _ Hm _). clear Hm tr' r. intros [u|e]; simpl; [|done]. apply wp_bind.
  destruct (stateChanged pa) eqn:Hs.
  - eapply wp_mono; [apply ensure_refines|]. intros tr1 r1 (w & err & -> & _). cbn [bind_post].
    eapply wp_mono; [apply report_state_spec|]. intros tr' r' (res & -> & Hr). simpl. split.
    + intros ->. destruct (reported_done _ _ _ _ Hr) as [?|(pa' & pre & -> & ? & ?)]; [by left|right].
      exists pa', (ev (KGetUser (pac_userRef pa)) (Ok u) :: tr1 ++ pre). simpl. by rewrite <-app_assoc.
    + intros Hal. by rewrite stateChanged_aligned in Hs.
  - apply (wp_mono (report_state pa None false) _ _ (report_state_spec pa None false)). intros tr' r' (res & -> & Hr). simpl. split.
    + intros ->. destruct (reported_done _ _ _ _ Hr) as [?|(pa' & pre & -> & ? & ?)]; [by left|right].
      by exists pa', (ev (KGetUser (pac_userRef pa)) (Ok u) :: pre).
    + intros Hal. destruct Hr as (now & [(_ & -> & ->)|(Hc & _)]); [done|]. by destruct Hc; apply aligned_rewrite.
Qed.

(** * Witnesses *)

Fixpoint find_condition (l : list Condition) (t : string) : option Condition :=
  match l with
  | [] => None
  | c :: l => if bool_decide (cd_type c = t) then Some c else find_condition l t
  end.

Fixpoint set_condition (l : list Condition) (c : Condition) : list Condition :=
  match l with
  | [] => [c]
  | o :: l => if bool_decide (cd_type o = cd_type c) then settled (Some o) c :: l else o :: set_condition l c
  end.

Lemma settled_type o c : cd_type (settled o c) = cd_type c.
Proof. destruct (settled_transition o c) as [t ->]. done. Qed.

#[local] Arguments settled : simpl never.

Definition list_conditions : StatusConditions.
Proof.
  refine {| FindStatusCondition := find_condition; SetStatusCondition := set_condition |}.
  - intros l t c. induction l as [|x l IH]; simpl; [done|]. case_bool_decide; [by intros [= <-]|done].
  - intros l c. induction l as [|x l IH]; simpl; [by rewrite bool_decide_true|]. case_bool_decide as Hx; simpl.
    + rewrite settled_type. by rewrite bool_decide_true.
    + by rewrite bool_decide_false.
  - intros l c t Ht. induction l as [|x l IH]; simpl; [by rewrite bool_decide_false|]. case_bool_decide as Hx; simpl.
    + rewrite settled_type. rewrite !bool_decide_false by congruence. done.
    + by rewrite IH.
  - intros l c. induction l as [|x l IH]; simpl; [done|]. case_bool_decide as Hx; [|intros Hf; by rewrite IH].
    intros [= Hf]. f_equal. done.
Defined.

Section Witnesses.
#[local] Existing Instance ascii_runtime.
#[local] Existing Instance list_conditions.

Definition suspended : PlatformAccess := mkPlatformAccess "pa1" "u1" PlatformAccessStateSuspended [].

Definition active_body : string :=
  render (JObj [("user", JObj [("userId", JStr "u1"); ("state", JStr UserStateActive)])]).

(** The access is suspended, Zitadel has the user active and accepts the request. *)
Definition suspending (pa : PlatformAccess) (o : op) (c : cluster) : cluster * ans o :=
  match o return cluster * ans o with
  | KGetPlatformAccess _ => (c, Ok pa)
  | HttpDo m _ _ => (c, Ok (200%Z, "200 OK", active_body))
  | o => fake o c
  end.

Definition suspension : trace := run_trace (suspending suspended) (platformAccess_Reconcile http_client "pa1") one_user.

Lemma platformAccess_Reconcile_refines_witness :
  length suspension = 6%nat ∧
  ∃ pa u tr1 tr2 w err,
     suspension = ev (KGetPlatformAccess "pa1") (Ok pa) :: ev (KGetUser (pac_userRef pa)) (Ok u) :: tr1 ++ tr2 ∧
     (if stateChanged pa then alignment http_client (pac_userRef pa) (expectActive (pac_state pa)) tr1 w err
      else tr1 = [] ∧ w = false ∧ err = None) ∧ reported pa err w tr2 done_result.
Proof.
  split; [vm_compute; reflexivity|].
  destruct (platformAccess_Reconcile_refines http_client "pa1" suspension done_result) as [(e & Htr & _)|[(pa & e & Htr & _)|Hres]].
  - apply run_may_to. vm_compute. reflexivity.
  - apply (f_equal length) in Htr. vm_compute in Htr. discriminate Htr.
  - apply (f_equal length) in Htr. vm_compute in Htr. discriminate Htr.
  - exact Hres.
Defined.

Lemma platformAccess_converges_witness :
  aligned suspended ∨ ∃ pa' pre, List.tl suspension = pre ++ [ev (KPatchPlatformAccessStatus suspended pa' fieldOwnerName) None] ∧
    pac_state pa' = pac_state suspended ∧ aligned pa'.
Proof.
  destruct (platformAccess_converges http_client "pa1" suspended (List.tl suspension) done_result) as [Hdone _].
  - change (ev (KGetPlatformAccess "pa1") (Ok suspended) :: List.tl suspension) with suspension.
    apply run_may_to. vm_compute. reflexivity.
  - apply Hdone. reflexivity.
Defined.
End Witnesses.
