(* ===== verification/ServiceAccounts.v ===== *)
(** internal/controller/serviceaccount_controller.go: the machine account behind a
    ServiceAccount of a project control plane. *)

From S2P Require Import Prelude GoLib Prog Model SdkClient Cluster Users Finalizers PlatformAccess.

Definition serviceAccountFinalizerKey : string := "iam.miloapis.com/serviceaccount".
Definition inactiveServiceAccountState : string := "Inactive".
Definition activeServiceAccountState : string := "Active".

Record ServiceAccountController := mkServiceAccountController { EmailAddressSuffix : string }.

(** The reconciled object: cluster, namespace and name. *)
Record mc_request := mkMcRequest { rq_cluster : string; rq_namespace : string; rq_name : string }.

Definition with_meta (sa : ServiceAccount) (m : ObjectMeta) : ServiceAccount :=
  mkServiceAccount m (sa_namespace sa) (sa_specState sa) (sa_statusState sa) (sa_email sa) (sa_clientID sa) (sa_conditions sa).

Section ServiceAccounts.
Context `{FinalizerLibrary} `{StatusConditions}.

(** [serviceAccountFinalizer.Finalize] *)
Definition serviceAccountFinalizer_Finalize (m : ObjectMeta) : M (option error) :=
  r ← call (ZGetUserByID (m_uid m));
  match r with
  | Err e => mret (Some (EWrap "get user by id: " e))
  | Ok None => mret None
  | Ok (Some _) =>
      e ← call (ZDeleteUser (m_uid m));
      mret match e with Some e => Some (EWrap "delete user: " e) | None => None end
  end.

Definition project_of (req : mc_request) : string := trim_prefix (rq_cluster req) "/".

Definition computeEmailAddress (r : ServiceAccountController) (sa : ServiceAccount) (req : mc_request) : string :=
  m_name (sa_meta sa) +:+ "@" +:+ project_of req +:+ "." +:+ EmailAddressSuffix r.

Definition updateServiceAccountState (orgID : string) (sa : ServiceAccount) : M (option error) :=
  let userID := m_uid (sa_meta sa) in
  if bool_decide (sa_specState sa = activeServiceAccountState) then
    if bool_decide (sa_statusState sa = EmptyString) then mret None
    else call (ZReactivateUser orgID userID)
  else if bool_decide (sa_specState sa = inactiveServiceAccountState) then call (ZDeactivateUser orgID userID)
  else mret (Some (EPlain ("invalid state: " +:+ sa_specState sa))).

Definition ready_sa_condition (now : Z) : Condition :=
  mkCondition "Ready" ConditionTrue "Reconciled" "ServiceAccount successfully reconciled" now.

(** [user] carries the id of the Zitadel user. *)
Definition setServiceAccountReadyStatus (sa : ServiceAccount) (userID email : string) : M (result ServiceAccount) :=
  if bool_decide (userID = EmptyString) then
    mret (Err (EPlain "authentication provider returned an empty service account client ID"))
  else
    now ← call Now;
    mret (Ok (mkServiceAccount (sa_meta sa) (sa_namespace sa) (sa_specState sa) (sa_specState sa) email userID
                (SetStatusCondition (sa_conditions sa) (ready_sa_condition now)))).

(** The organization of the project, created when missing. *)
Definition ensure_organization (project : string) : M (option error) :=
  let orgID := OrgIDForProject project in
  r ← call (ZGetOrganization orgID);
  match r with
  | Err e => mret (Some (EWrap "get organization: " e))
  | Ok (Some _) => mret None
  | Ok None =>
      r ← call (ZCreateOrganizationWithID (OrgDisplayNameForProject project) orgID);
      mret match r with Err e => Some (EWrap "create organization: " e) | Ok _ => None end
  end.

(** The machine user of the account, created when missing; its id. *)
Definition ensure_machine_user (orgID email : string) (sa : ServiceAccount) : M (result string) :=
  let userID := m_uid (sa_meta sa) in
  r ← call (ZGetUserByID userID);
  match r with
  | Err e => mret (Err (EWrap "get user by id: " e))
  | Ok (Some user) => mret (Ok (z_ID user))
  | Ok None =>
      r ← call (ZAddMachineUserInOrganization orgID userID email (m_name (sa_meta sa)));
      mret match r with Err e => Err (EWrap "add machine user in organization: " e) | Ok id => Ok id end
  end.

(** The part of Reconcile after the finalizers. *)
Definition provision (r : ServiceAccountController) (req : mc_request) (sa : ServiceAccount) : M reconcile_result :=
  let orgID := OrgIDForProject (project_of req) in
  e ← ensure_organization (project_of req);
  match e with
  | Some e => mret (mkReconcile 0 (Some e))
  | None =>
      let email := computeEmailAddress r sa req in
      u ← ensure_machine_user orgID email sa;
      match u with
      | Err e => mret (mkReconcile 0 (Some e))
      | Ok userID =>
          e ← (if bool_decide (sa_statusState sa = sa_specState sa) then mret None else updateServiceAccountState orgID sa);
          match e with
          | Some e => mret (failed "failed to update service account state: " e)
          | None =>
              if m_deleting (sa_meta sa) then mret done_result
              else
                s ← setServiceAccountReadyStatus sa userID email;
                match s with
                | Err e => mret (mkReconcile 0 (Some e))
                | Ok sa =>
                    e ← call (KUpdateServiceAccountStatus (rq_cluster req) sa);
                    mret match e with
                         | Some e => failed "failed to update ServiceAccount status: " e
                         | None => done_result
                         end
                end
          end
      end
  end.

Definition serviceAccount_Reconcile (r : ServiceAccountController) (req : mc_request) : M reconcile_result :=
  e ← call (MGetCluster (rq_cluster req));
  match e with
  | Some e => mret (failed ("failed to get cluster " +:+ rq_cluster req +:+ " from manager: ") e)
  | None =>
      g ← call (KGetServiceAccount (rq_cluster req) (rq_namespace req) (rq_name req));
      match g with
      | Err e => mret (if IsNotFound e then done_result else failed "failed to get ServiceAccount resource: " e)
      | Ok sa =>
          f ← Finalize serviceAccountFinalizerKey serviceAccountFinalizer_Finalize (sa_meta sa);
          match f with
          | Err e => mret (failed "failed to run finalizers for ServiceAccount: " e)
          | Ok (m, updated) =>
              let sa := with_meta sa m in
              if (updated : bool) then
                e ← call (KUpdateServiceAccount (rq_cluster req) sa);
                mret match e with Some e => mkReconcile 0 (Some e) | None => done_result end
              else provision r req sa
          end
      end
  end.

(** * Lemmas *)

(** ** The rule of the reconciler *)

(** A creation directly follows the look-up that found nothing. *)
Definition created_after (o : op) (pre : trace) : Prop :=
  match o with
  | ZCreateOrganizationWithID _ org => ∃ pre', pre = pre' ++ [ev (ZGetOrganization org) (Ok None)]
  | ZAddMachineUserInOrganization _ u _ _ => ∃ pre', pre = pre' ++ [ev (ZGetUserByID u) (Ok None)]
  | _ => True
  end.

(** The Zitadel user [u] is known under the id [i]. *)
Definition account_known (u i : string) (pre : trace) : Prop :=
  (∃ z, ev (ZGetUserByID u) (Ok (Some z)) ∈ pre ∧ z_ID z = i) ∨
  (∃ org email name, ev (ZAddMachineUserInOrganization org u email name) (Ok i) ∈ pre).

(** The state [sa] asks for is the one Zitadel has, as far as the status tells. *)
Definition state_known (org : string) (sa : ServiceAccount) (pre : trace) : Prop :=
  let u := m_uid (sa_meta sa) in
  sa_statusState sa = sa_specState sa ∨
  (sa_specState sa = activeServiceAccountState ∧
     (sa_statusState sa = EmptyString ∨ ev (ZReactivateUser org u) None ∈ pre)) ∨
  (sa_specState sa = inactiveServiceAccountState ∧ ev (ZDeactivateUser org u) None ∈ pre).

(** The status written for the account read as [sa]. *)
Definition ready_status (r : ServiceAccountController) (req : mc_request) (sa sa' : ServiceAccount) : Prop :=
  sa_meta sa' = sa_meta sa ∧ sa_specState sa' = sa_specState sa ∧ sa_statusState sa' = sa_specState sa ∧
  sa_clientID sa' ≠ EmptyString ∧ sa_email sa' = computeEmailAddress r sa req ∧
  ∃ c, FindStatusCondition (sa_conditions sa') "Ready" = Some c ∧ cd_status c = ConditionTrue.

Definition provision_rule (r : ServiceAccountController) (req : mc_request) (sa : ServiceAccount) (pre : trace) (e : event) : Prop :=
  match e with
  | existT (KUpdateServiceAccountStatus _ sa') _ =>
      m_deleting (sa_meta sa) = false ∧ ready_status r req sa sa' ∧
      account_known (m_uid (sa_meta sa)) (sa_clientID sa') pre ∧
      state_known (OrgIDForProject (project_of req)) sa pre
  | existT (KUpdateServiceAccount _ _) _ | existT (ZDeleteUser _) _ => False
  | existT o _ => created_after o pre
  end.

Lemma account_known_mono u i pre pre' : (∀ e, e ∈ pre → e ∈ pre') → account_known u i pre → account_known u i pre'.
Proof. intros Hin [(z & ? & ?)|(org & em & n & ?)]; [left; exists z; auto|right; exists org, em, n; auto]. Qed.

Lemma state_known_mono org sa pre pre' : (∀ e, e ∈ pre → e ∈ pre') → state_known org sa pre → state_known org sa pre'.
Proof. intros Hin [?|[[? [?|?]]|[? ?]]]; [by left|right; left; auto..|right; right; auto]. Qed.

#[export] Instance provision_rule_extends r req sa : Extends (provision_rule r req sa).
Proof.
  intros pre0 pre [o a]. assert (∀ e, e ∈ pre → e ∈ pre0 ++ pre) as Hin by (intros; apply elem_of_app; by right).
  destruct o; simpl; try done.
  - intros (? & ? & Ha & Hs). do 2 (split; [done|]). split; [by eapply account_known_mono|by eapply state_known_mono].
  - intros [pre' ->]. exists (pre0 ++ pre'). by rewrite app_assoc.
  - intros [pre' ->]. exists (pre0 ++ pre'). by rewrite app_assoc.
Qed.

Section Rule.
Context (r : ServiceAccountController) (req : mc_request) (sa : ServiceAccount).
Abbreviation good := (each (provision_rule r req sa)).

Lemma ensure_organization_good p : safe good (ensure_organization p).
Proof.
  intros [[o|]|e]; simpl; [by apply each_intro| |by apply each_intro].
  intros [i|e]; simpl; apply each_intro; simpl; (do 2 (split; [done || by exists []|])); done.
Qed.

Lemma ensure_machine_user_good org email :
  wp (ensure_machine_user org email sa) (λ tr res, good tr ∧
    ∀ i, res = Returned (Ok i) → account_known (m_uid (sa_meta sa)) i tr).
Proof.
  intros [[z|]|e]; simpl.
  - split; [by apply each_intro|]. intros i [= <-]. left. exists z. split; [by left|done].
  - intros [i|e]; simpl; (split; [apply each_intro; simpl; (do 2 (split; [done || by exists []|])); done|]); [|done].
    intros i' [= <-]. right. do 3 eexists. right. by left.
  - split; [by apply each_intro|done].
Qed.

Lemma updateServiceAccountState_good :
  let org := OrgIDForProject (project_of req) in
  wp (if bool_decide (sa_statusState sa = sa_specState sa) then mret None else updateServiceAccountState org sa)
    (λ tr res, good tr ∧ (res = Returned None → state_known org sa tr)).
Proof.
  intros org. unfold updateServiceAccountState, state_known.
  repeat (case_bool_decide; simpl; try (split; [apply each_nil|by auto])).
  - intros e. split; [by apply each_intro|]. intros [= ->]. right. left. split; [done|]. right. by left.
  - intros e. split; [by apply each_intro|]. intros [= ->]. right. right. split; [done|]. by left.
Qed.

Lemma ready_status_set u now :
  u ≠ EmptyString →
  ready_status r req sa (mkServiceAccount (sa_meta sa) (sa_namespace sa) (sa_specState sa) (sa_specState sa)
    (computeEmailAddress r sa req) u (SetStatusCondition (sa_conditions sa) (ready_sa_condition now))).
Proof.
  intros Hu. do 5 (split; [done|]). pose proof (find_set (sa_conditions sa) (ready_sa_condition now)) as Hf.
  destruct (settled_transition (FindStatusCondition (sa_conditions sa) "Ready") (ready_sa_condition now)) as [t Ht].
  exists (with_transition (ready_sa_condition now) t). split; [|done]. rewrite <-Ht. exact Hf.
Qed.

Lemma provision_good : safe good (provision r req sa).
Proof.
  unfold provision. unfold safe. apply wp_bind.
  eapply wp_mono; [apply ensure_organization_good|]. intros tr1 [[e|]|] H1; [by simpl; rewrite app_nil_r| |done].
  cbn [bind_post]. apply wp_bind. eapply wp_mono; [apply ensure_machine_user_good|].
  intros tr2 [[u|e]|] [H2 Hknown]; [|by simpl; rewrite app_nil_r; apply ti_app|by apply ti_app].
  cbn [bind_post]. apply wp_bind. eapply wp_mono; [apply updateServiceAccountState_good|].
  intros tr3 [[e|]|] [H3 Hstate]; simpl; [rewrite app_nil_r; repeat apply ti_app; done| |repeat apply ti_app; done].
  assert (good (tr1 ++ tr2 ++ tr3)) as Hpre by (repeat apply ti_app; done).
  specialize (Hknown u eq_refl). specialize (Hstate eq_refl).
  destruct (m_deleting (sa_meta sa)) eqn:Hd; [by simpl; rewrite app_nil_r|].
  unfold setServiceAccountReadyStatus. case_bool_decide as Hu; simpl; [by rewrite app_nil_r|]. intros now e.
  assert (∀ l, tr1 ++ tr2 ++ tr3 ++ l = (tr1 ++ tr2 ++ tr3) ++ l) as Happ by (intros; by rewrite <-!app_assoc).
  destruct e as [e|]; simpl; rewrite Happ; apply each_app; try done; (split; [done|]); (split; [|done]); (split; [done|]);
    (split; [by apply ready_status_set|]);
    (split; [eapply account_known_mono; [|exact Hknown]|eapply state_known_mono; [|exact Hstate]]); set_solver.
Qed.
End Rule.
End ServiceAccounts.

(** * Properties *)

(** What happens to the account once it was read: a live one first gets the
    finalizer; one being deleted with the finalizer is released only after its
    machine user was found missing or was deleted; any other goes through the
    provisioning steps. *)
Definition phase `{StatusConditions} (r : ServiceAccountController) (req : mc_request) (sa : ServiceAccount) (tr : trace) : Prop :=
  let m := sa_meta sa in
  let update m a := ev (KUpdateServiceAccount (rq_cluster req) (with_meta sa m)) a in
  match m_deleting m, has_finalizer serviceAccountFinalizerKey m with
  | false, false => ∃ a, tr = [update (set_finalizers m (m_finalizers m ++ [serviceAccountFinalizerKey])) a]
  | true, true =>
      (∃ e, tr = [ev (ZGetUserByID (m_uid m)) (Err e)]) ∨
      (∃ z e, tr = [ev (ZGetUserByID (m_uid m)) (Ok (Some z)); ev (ZDeleteUser (m_uid m)) (Some e)]) ∨
      (∃ a, tr = [ev (ZGetUserByID (m_uid m)) (Ok None); update (remove_finalizer serviceAccountFinalizerKey m) a]) ∨
      (∃ z a, tr = [ev (ZGetUserByID (m_uid m)) (Ok (Some z)); ev (ZDeleteUser (m_uid m)) None;
                    update (remove_finalizer serviceAccountFinalizerKey m) a])
  | _, _ => each (provision_rule r req sa) tr
  end.

(** C17: a ServiceAccount is Ready only when its machine account is. In every execution of
    the reconciler that reads the account [sa], it goes through the phase of [sa]: in
    particular organization and machine user are created only right after they were
    found missing, and the Ready status is written only for a live account, with the
    id Zitadel gave, the computed email, the state of the spec, and after Zitadel
    accepted a state change when one was due; the finalizer is released only once the
    machine user is gone. *)
Theorem serviceAccount_Reconcile_phases `{FinalizerLibrary} `{StatusConditions} r req tr out :
  may (serviceAccount_Reconcile r req) tr out →
  (∃ e, tr = [ev (MGetCluster (rq_cluster req)) (Some e)]) ∨
  (∃ e, tr = [ev (MGetCluster (rq_cluster req)) None; ev (KGetServiceAccount (rq_cluster req) (rq_namespace req) (rq_name req)) (Err e)]) ∨
  (∃ sa tr', tr = ev (MGetCluster (rq_cluster req)) None ::
       ev (KGetServiceAccount (rq_cluster req) (rq_namespace req) (rq_name req)) (Ok sa) :: tr' ∧ phase r req sa tr').
Proof.
  intros Hm. pattern tr, out. refine (may_wp _ _ _ _ Hm _). clear Hm tr out.
  intros [e|]; simpl; [left; eauto|]. intros [sa|e]; simpl; [|right; left; eauto].
  apply wp_bind, wp_Finalize. unfold phase.
  assert (with_meta sa (sa_meta sa) = sa) as Hsa by (by destruct sa).
  destruct (m_deleting (sa_meta sa)) eqn:Hd, (has_finalizer serviceAccountFinalizerKey (sa_meta sa)) eqn:Hf; cbn [andb orb].
  - intros [[z|]|e]; simpl.
    + intros [e|]; simpl; [|intros [e|]; simpl]; right; right; exists sa; eexists; (split; [done|]); rewrite Hd, Hf; eauto 10.
    + intros [e|]; simpl; right; right; exists sa; eexists; (split; [done|]); rewrite Hd, Hf; eauto 10.
    + right; right; exists sa; eexists; (split; [done|]); rewrite Hd, Hf; eauto.
  - cbn [bind_post app]. rewrite Hsa. eapply wp_mono; [apply provision_good|]. intros tr res Htr.
    right; right; exists sa; eexists; (split; [done|]). by rewrite Hd, Hf.
  - cbn [bind_post app]. rewrite Hsa. eapply wp_mono; [apply provision_good|]. intros tr res Htr.
    right; right; exists sa; eexists; (split; [done|]). by rewrite Hd, Hf.
  - intros [e|]; simpl; right; right; exists sa; eexists; (split; [done|]); rewrite Hd, Hf; eauto.
Qed.

(** * Witnesses *)

Section Witnesses.
#[local] Existing Instance one_finalizer.
#[local] Existing Instance list_conditions.

Definition account (deleting : bool) (finalizers : list string) : ServiceAccount :=
  mkServiceAccount (mkMeta "robot" "uid-robot" deleting finalizers) "default" activeServiceAccountState EmptyString
    EmptyString EmptyString [].

Definition sa_controller : ServiceAccountController := mkServiceAccountController "iam.example.com".
Definition sa_request : mc_request := mkMcRequest "/p1" "default" "robot".

(** Zitadel knows neither the organization nor the machine user. *)
Definition fresh_zitadel (sa : ServiceAccount) (o : op) (c : cluster) : cluster * ans o :=
  match o return cluster * ans o with
  | KGetServiceAccount _ _ _ => (c, Ok sa)
  | o => fake o c
  end.

Lemma serviceAccount_Reconcile_phases_witness :
  let sa := account false [serviceAccountFinalizerKey] in
  let tr := run_trace (fresh_zitadel sa) (serviceAccount_Reconcile sa_controller sa_request) empty_cluster in
  length tr = 8%nat ∧
  ∃ sa' tr', tr = ev (MGetCluster "/p1") None :: ev (KGetServiceAccount "/p1" "default" "robot") (Ok sa') :: tr' ∧
    phase sa_controller sa_request sa' tr'.
Proof.
  intros sa tr. split; [vm_compute; reflexivity|].
  destruct (serviceAccount_Reconcile_phases sa_controller sa_request tr
    (run (fresh_zitadel sa) (serviceAccount_Reconcile sa_controller sa_request) empty_cluster).2 (run_may _ _ _))
    as [(e & Htr)|[(e & Htr)|Hres]].
  - apply (f_equal length) in Htr. vm_compute in Htr. discriminate Htr.
  - apply (f_equal length) in Htr. vm_compute in Htr. discriminate Htr.
  - exact Hres.
Defined.

(** An account that is being deleted, released by this controller and still held by
    another finalizer, gets its machine user again. *)
Example deleted_account_comes_back :
  ev (ZAddMachineUserInOrganization "project-p1" "uid-robot" "robot@p1.iam.example.com" "robot") (Ok "uid-robot") ∈
    run_trace (fresh_zitadel (account true ["another/finalizer"]))
      (serviceAccount_Reconcile sa_controller sa_request) empty_cluster.
Proof. vm_compute. do 5 right. by left. Qed.
End Witnesses.
