(* ===== verification/Identity.v ===== *)
(** internal/apiserver/identity: sessions, user identities and passkeys of the
    aggregated API server, with the cross-user authorization of utils. *)

From S2P Require Import Prelude GoLib Prog Model Cluster SdkClient.

(** A [fields.Selector], as far as the handlers ask it. *)
Record Selector := mkSelector { sel_Empty : bool; sel_RequiresExactMatch : string → option string }.

(** What a request carries: the authenticated caller, if any, and whether a milo
    client for SubjectAccessReviews is configured. *)
Record REST := mkREST { MiloSAR : bool }.

Section Errors.
Context `{GoRuntime}.

(** The constructors of apierrors. *)
Definition NewUnauthorized (m : string) : error := EApi RUnauthorized m.
Definition NewBadRequest (m : string) : error := EApi RBadRequest m.
Definition NewServiceUnavailable (m : string) : error := EApi RServiceUnavailable m.
Definition NewTooManyRequests (m : string) : error := EApi RTooManyRequests m.
Definition NewInternalError (text : string) : error := EApi RInternalError ("Internal error occurred: " +:+ text).
Definition NewForbidden (gr name text : string) : error :=
  EApi RForbidden (gr +:+ (if bool_decide (name = EmptyString) then EmptyString else " " +:+ quote name)
    +:+ " is forbidden: " +:+ text).
Definition NewNotFound (gr name : string) : error := EApi RNotFound (gr +:+ " " +:+ quote name +:+ " not found").

(** The shape of [translateErr] in the REST handlers; they differ in the resource and in
    what an InvalidArgument becomes. *)
Definition translate (gr : string) (invalid : error → error) (e : error) (name : string) : error :=
  match grpc_of e with
  | None => e
  | Some GNotFound => NewNotFound gr name
  | Some GPermissionDenied => NewForbidden gr name "<nil>"
  | Some GUnauthenticated => NewUnauthorized "unauthenticated"
  | Some GInvalidArgument => invalid e
  | Some (GDeadlineExceeded | GUnavailable) => NewServiceUnavailable "zitadel unavailable"
  | Some GOtherCode => NewInternalError (Error e)
  end.
End Errors.

(** * utils *)

Definition ExtractUserUIDFromFieldSelector (selector : option Selector) : result string :=
  match selector with
  | None => Err (EPlain "empty field selector")
  | Some s =>
      if sel_Empty s then Err (EPlain "empty field selector")
      else match sel_RequiresExactMatch s "status.userUID" with
           | Some v => Ok v
           | None => Err (EPlain "status.userUID not found in field selector")
           end
  end.

Definition toAuthzExtra (extra : gmap string (list string)) : option (gmap string (list string)) :=
  if bool_decide (extra = ∅) then None else Some extra.

Definition get_user_review (caller : UserInfo) (targetUID : string) : SubjectAccessReview :=
  mkSAR (ui_name caller) (ui_uid caller) (ui_groups caller) (toAuthzExtra (ui_extra caller))
    "get" "iam.miloapis.com" "users" targetUID.

Definition review (configured : bool) (caller : option UserInfo) (spec : UserInfo → SubjectAccessReview) : M (result bool) :=
  if negb configured then mret (Err (EPlain "no SubjectAccessReviewer configured"))
  else match caller with
       | None => mret (Err (EPlain "no caller info in context"))
       | Some caller =>
           r ← call (KCreateSAR (spec caller));
           mret match r with Err e => Err (EWrap "subjectaccessreview against milo: " e) | Ok b => Ok b end
       end.

Definition CanGetUser (configured : bool) (caller : option UserInfo) (targetUID : string) : M (result bool) :=
  review configured caller (λ c, get_user_review c targetUID).

(** The parent user of the review: set over whatever the caller carries. *)
Definition link_review (target : string) (caller : UserInfo) : SubjectAccessReview :=
  mkSAR (ui_name caller) (ui_uid caller) (ui_groups caller)
    (Some (<["iam.miloapis.com/parent-name" := [target]]>
          (<["iam.miloapis.com/parent-type" := ["User"]]> (default ∅ (toAuthzExtra (ui_extra caller))))))
    "create" "identity.miloapis.com" "passkeyregistrationlinks" target.

Definition CanCreatePasskeyRegistrationLink (configured : bool) (caller : option UserInfo) (target : string) : M (result bool) :=
  review configured caller (link_review target).

Section Lists.
Context `{GoRuntime}.

(** The user a List is about: the caller, or the one of the field selector once milo
    allows it.  [noun] and [nouns] are the resource's words in the messages. *)
Definition list_target (r : REST) (gr noun nouns : string) (caller : UserInfo) (options : option (option Selector))
    : M (result string) :=
  match options with
  | Some (Some selector) =>
      match ExtractUserUIDFromFieldSelector (Some selector) with
      | Err _ => mret (Ok (ui_uid caller))
      | Ok targetUID =>
          if bool_decide (targetUID = EmptyString ∨ targetUID = ui_uid caller) then mret (Ok (ui_uid caller))
          else if negb (MiloSAR r) then
            mret (Err (NewForbidden gr EmptyString
              ("cross-user " +:+ noun +:+ " lookup requires the apiserver to be configured with a milo kubeconfig")))
          else
            allowed ← CanGetUser (MiloSAR r) (Some caller) targetUID;
            mret match allowed with
                 | Err e => Err (NewInternalError (Error e))
                 | Ok false => Err (NewForbidden gr EmptyString
                     ("not authorized to query " +:+ nouns +:+ " for user " +:+ quote targetUID +:+
                      " (requires get on iam.miloapis.com/users)"))
                 | Ok true => Ok targetUID
                 end
      end
  | _ => mret (Ok (ui_uid caller))
  end.

Definition no_user : error := NewUnauthorized "no user in context".

(** The error of a failed upstream call. *)
Definition internal (e : error) : error := NewInternalError (Error e).

(** * sessions *)

Definition sessionsGR : string := "sessions.identity.miloapis.com".

Definition sessions_translateErr (e : error) (name : string) : error := translate sessionsGR internal e name.

Record MiloSession := mkMiloSession {
  ms_Name : string;
  ms_CreationTimestamp : Z;
  ms_Annotations : option (gmap string string);
  ms_UserUID : string;
  ms_Provider : string;
  ms_IP : string;
  ms_FingerprintID : string;
  ms_CreatedAt : Z;
  ms_LastUpdatedAt : option Z;
  ms_UserAgent : string }.

Definition sessionAnnotations (metadata : gmap string string) : option (gmap string string) :=
  match metadata !! "maxmind/tracking-token" with
  | Some v => if bool_decide (v = EmptyString) then None else Some {[ "iam.miloapis.com/maxmind-tracking-token" := v ]}
  | None => None
  end.

Definition milo_session (s : Session) (uid : string) (created : Z) : MiloSession :=
  mkMiloSession (s_ID s) created (sessionAnnotations (s_Metadata s)) uid "zitadel" (s_IP s) (s_FingerprintID s)
    (s_CreatedAt s) (s_LastUpdated s) (s_UserAgent s).

Definition sessions_List (r : REST) (caller : option UserInfo) (options : option (option Selector))
    : M (result (list MiloSession)) :=
  match caller with
  | None => mret (Err no_user)
  | Some u =>
      t ← list_target r sessionsGR "session" "sessions" u options;
      match t with
      | Err e => mret (Err e)
      | Ok uid =>
          zs ← call (ZListSessions uid);
          match zs with
          | Err e => mret (Err (sessions_translateErr e EmptyString))
          | Ok zs => now ← call Now; mret (Ok (map (λ s, milo_session s uid now) zs))
          end
      end
  end.

(** A nil session with a nil error would be dereferenced. *)
Definition sessions_Get (caller : option UserInfo) (name : string) : M (result MiloSession) :=
  match caller with
  | None => mret (Err no_user)
  | Some u =>
      s ← call (ZGetSession name);
      match s with
      | Err e => mret (Err (sessions_translateErr e name))
      | Ok None => Panic
      | Ok (Some s) =>
          mret (if negb (bool_decide (s_UserID s = ui_uid u)) then Err (NewForbidden sessionsGR name "not owner")
                else Ok (milo_session s (s_UserID s) zero_time))
      end
  end.

Definition sessions_Delete (caller : option UserInfo) (name : string) : M (option error) :=
  match caller with
  | None => mret (Some no_user)
  | Some u =>
      e ← call (ZDeleteSession (ui_uid u) name);
      mret match e with Some e => Some (sessions_translateErr e name) | None => None end
  end.

(** * useridentities *)

Definition userIdentitiesGR : string := "useridentities.identity.miloapis.com".

Definition useridentities_translateErr (e : error) (name : string) : error := translate userIdentitiesGR internal e name.

Record UserIdentity := mkUserIdentity {
  ui_Name : string; ui_CreationTimestamp : Z; ui_UserUID : string; ui_ProviderID : string;
  ui_ProviderName : string; ui_Username : string }.

Definition identity_of (l : IDPLink) (uid : string) (created : Z) : UserIdentity :=
  mkUserIdentity (l_IDPID l) created uid (l_IDPID l) (l_IDPName l) (l_IDPUserName l).

(** One clock reading per item. *)
Fixpoint stamp_all {A B} (f : A → Z → B) (l : list A) : M (list B) :=
  match l with
  | [] => mret []
  | x :: l => now ← call Now; rest ← stamp_all f l; mret (f x now :: rest)
  end.

Definition useridentities_List (r : REST) (caller : option UserInfo) (options : option (option Selector))
    : M (result (list UserIdentity)) :=
  match caller with
  | None => mret (Err no_user)
  | Some u =>
      t ← list_target r userIdentitiesGR "identity" "identities" u options;
      match t with
      | Err e => mret (Err e)
      | Ok uid =>
          ls ← call (ZListIDPLinks uid);
          match ls with
          | Err e => mret (Err (useridentities_translateErr e EmptyString))
          | Ok ls => items ← stamp_all (λ l now, identity_of l uid now) ls; mret (Ok items)
          end
      end
  end.

Definition useridentities_Get (caller : option UserInfo) (name : string) : M (result UserIdentity) :=
  match caller with
  | None => mret (Err no_user)
  | Some u =>
      ls ← call (ZListIDPLinks (ui_uid u));
      mret match ls with
           | Err e => Err (useridentities_translateErr e name)
           | Ok ls =>
               match List.find (λ l, bool_decide (l_IDPID l = name)) ls with
               | Some l => Ok (identity_of l (ui_uid u) zero_time)
               | None => Err (NewNotFound userIdentitiesGR name)
               end
           end
  end.

(** * passkeys *)

Definition passkeysGR : string := "passkeys.identity.miloapis.com".

Definition passkeys_translateErr (e : error) (name : string) : error := translate passkeysGR internal e name.

Record MiloPasskey := mkMiloPasskey {
  mp_Name : string; mp_CreationTimestamp : Z; mp_UserUID : string; mp_DisplayName : string; mp_State : string }.

Definition passkeyState (raw : string) : string :=
  if bool_decide (raw = "AUTH_FACTOR_STATE_READY") then "Active" else "Inactive".

Definition toMiloPasskey (p : Passkey) (uid : string) (now : Z) : MiloPasskey :=
  mkMiloPasskey (pk_ID p) now uid (pk_Name p) (passkeyState (pk_State p)).

Definition passkeys_List (r : REST) (caller : option UserInfo) (options : option (option Selector))
    : M (result (list MiloPasskey)) :=
  match caller with
  | None => mret (Err no_user)
  | Some u =>
      t ← list_target r passkeysGR "passkey" "passkeys" u options;
      match t with
      | Err e => mret (Err e)
      | Ok uid =>
          zp ← call (ZListPasskeys uid);
          match zp with
          | Err e => mret (Err (passkeys_translateErr e EmptyString))
          | Ok zp => items ← stamp_all (λ p now, toMiloPasskey p uid now) zp; mret (Ok items)
          end
      end
  end.

Definition passkeys_Get (caller : option UserInfo) (name : string) : M (result MiloPasskey) :=
  match caller with
  | None => mret (Err no_user)
  | Some u =>
      zp ← call (ZListPasskeys (ui_uid u));
      match zp with
      | Err e => mret (Err (passkeys_translateErr e name))
      | Ok zp =>
          match List.find (λ p, bool_decide (pk_ID p = name)) zp with
          | Some p => now ← call Now; mret (Ok (toMiloPasskey p (ui_uid u) now))
          | None => mret (Err (NewNotFound passkeysGR name))
          end
      end
  end.
End Lists.

(** * Lemmas *)

Inductive identity_request :=
| SessionsList (options : option (option Selector))
| SessionsGet (name : string)
| SessionsDelete (name : string)
| IdentitiesList (options : option (option Selector))
| IdentitiesGet (name : string)
| PasskeysList (options : option (option Selector))
| PasskeysGet (name : string).

Section Serve.
Context `{GoRuntime} (r : REST) (caller : option UserInfo).

Definition owners {A} (f : A → list string) (p : M (result A)) : M (result (list string)) :=
  res ← p; mret match res with Ok a => Ok (f a) | Err e => Err e end.

(** A request, answered by the owners of the objects it returns. *)
Definition serve (req : identity_request) : M (result (list string)) :=
  match req with
  | SessionsList o => owners (map ms_UserUID) (sessions_List r caller o)
  | SessionsGet n => owners (λ s, [ms_UserUID s]) (sessions_Get caller n)
  | SessionsDelete n =>
      e ← sessions_Delete caller n; mret match e with Some e => Err e | None => Ok [] end
  | IdentitiesList o => owners (map ui_UserUID) (useridentities_List r caller o)
  | IdentitiesGet n => owners (λ i, [ui_UserUID i]) (useridentities_Get caller n)
  | PasskeysList o => owners (map mp_UserUID) (passkeys_List r caller o)
  | PasskeysGet n => owners (λ p, [mp_UserUID p]) (passkeys_Get caller n)
  end.

(** The caller [u] may read the data of [uid] after [pre]: it is its own, or milo
    allowed "get" on that user. *)
Definition authorized (u : UserInfo) (uid : string) (pre : trace) : Prop :=
  uid = ui_uid u ∨ MiloSAR r = true ∧ ev (KCreateSAR (get_user_review u uid)) (Ok true) ∈ pre.

Definition read_rule (u : UserInfo) (pre : trace) (e : event) : Prop :=
  match e with
  | existT (ZListSessions uid | ZListIDPLinks uid | ZListPasskeys uid) _ => authorized u uid pre
  | existT (ZDeleteSession uid _) _ => uid = ui_uid u
  | existT (KCreateSAR s) _ => ∃ t, s = get_user_review u t ∧ t ≠ ui_uid u
  | existT (ZGetSession _ | Now) _ => True
  | _ => False
  end.

(** The outcome of a request of [u]. *)
Definition served (u : UserInfo) (tr : trace) (res : outcome (result (list string))) : Prop :=
  each (read_rule u) tr ∧ ∀ os, res = Returned (Ok os) → ∀ o, o ∈ os → authorized u o tr.

Lemma authorized_mono u uid pre pre' : (∀ e, e ∈ pre → e ∈ pre') → authorized u uid pre → authorized u uid pre'.
Proof. intros Hin [?|[? ?]]; [by left|right; auto]. Qed.

#[export] Instance read_rule_extends u : Extends (read_rule u).
Proof.
  intros pre0 pre [o a].
  assert (∀ uid, authorized u uid pre → authorized u uid (pre0 ++ pre)) by
    (intros uid; apply authorized_mono; intros; apply elem_of_app; by right).
  destruct o; simpl; auto.
Qed.

Lemma list_target_wp gr noun nouns u o :
  wp (list_target r gr noun nouns u o) (λ tr res, each (read_rule u) tr ∧ ∃ t, res = Returned t ∧
    ∀ uid, t = Ok uid → authorized u uid tr).
Proof.
  assert (∀ A (Q : A → Prop) x, Q x → each (read_rule u) [] ∧ ∃ t, Returned x = Returned t ∧ Q t) as Hnil
    by (intros A Q x Hx; split; [apply each_nil|eauto]).
  unfold list_target. destruct o as [[selector|]|]; [|apply Hnil; intros uid [= <-]; by left..].
  destruct (ExtractUserUIDFromFieldSelector (Some selector)) as [t|e]; [|apply Hnil; intros uid [= <-]; by left].
  case_bool_decide as Hself; [apply Hnil; intros uid [= <-]; by left|].
  destruct (MiloSAR r) eqn:Hsar; simpl; [|by apply Hnil].
  intros a. split; [apply each_intro; simpl; split; [|done]; exists t; naive_solver|].
  destruct a as [[|]|e]; simpl; eexists; (split; [done|]); intros uid; [|done..].
  intros [= <-]. right. split; [done|by left].
Qed.

Lemma stamp_all_wp {A B} (f : A → Z → B) (own : B → string) uid (l : list A) :
  (∀ x t, own (f x t) = uid) →
  wp (stamp_all f l) (λ tr res, Forall (λ e, projT1 e = Now) tr ∧ ∃ items, res = Returned items ∧ ∀ o, o ∈ map own items → o = uid).
Proof.
  intros Hown. induction l as [|x l IH]; [split; [constructor|]; exists []; split; [done|]; by intros o ?%not_elem_of_nil|].
  intros now. apply wp_bind. eapply wp_mono; [exact IH|]. intros tr res (Htr & items & -> & Hi). simpl.
  split; [constructor; [done|]; by rewrite app_nil_r|]. eexists. split; [done|].
  intros o [->|Ho]%elem_of_cons; [apply Hown|by apply Hi].
Qed.

Lemma clock_only u tr : Forall (λ e, projT1 e = Now) tr → each (read_rule u) tr.
Proof.
  intros Hf pre [o a] post ->. apply Forall_app in Hf as [_ Hf]. inversion_clear Hf as [|? ? Ho _]. simpl in Ho. by subst o.
Qed.

(** A read of the data of [uid] followed by clock readings only, and its answer. *)
Definition read_of (u : UserInfo) (uid : string) {A} (f : A → list string) (tr : trace) (res : outcome (result A)) : Prop :=
  ∃ e tr', tr = e :: tr' ∧ Forall (λ e, projT1 e = Now) tr' ∧ (∀ pre, authorized u uid pre → read_rule u pre e) ∧
    ∀ a, res = Returned (Ok a) → ∀ o, o ∈ f a → o = uid.

Lemma read_of_served u uid {A} (f : A → list string) pre tr res :
  each (read_rule u) pre → authorized u uid pre → read_of u uid f tr res →
  each (read_rule u) (pre ++ tr) ∧ ∀ a, res = Returned (Ok a) → ∀ o, o ∈ f a → authorized u o (pre ++ tr).
Proof.
  intros Hpre Hau (e & tr' & -> & Hclock & Hread & Hown). split.
  - change (pre ++ e :: tr') with (pre ++ [e] ++ tr'). rewrite app_assoc. apply ti_app; [|by apply clock_only].
    apply each_app; [done|]. split; [by apply Hread|done].
  - intros a Ha o Ho. rewrite (Hown a Ha o Ho). eapply authorized_mono; [|exact Hau]. intros. apply elem_of_app. by left.
Qed.

Lemma list_wp u gr noun nouns o {A} (f : A → list string) (k : string → M (result A)) :
  (∀ uid, wp (k uid) (read_of u uid f)) →
  wp (owners f (t ← list_target r gr noun nouns u o; match t with Err e => mret (Err e) | Ok uid => k uid end)) (served u).
Proof.
  intros Hk. unfold owners. apply wp_bind, wp_bind. eapply wp_mono; [apply list_target_wp|].
  intros tr res (Htr & t & -> & Hau). destruct t as [uid|e]; simpl.
  - eapply wp_mono; [apply Hk|]. intros tr' res Hread.
    destruct (read_of_served u uid f tr tr' res Htr (Hau uid eq_refl) Hread) as [Hall Hown].
    destruct res as [[a|e]|]; simpl; [|rewrite app_nil_r; by split|by split].
    rewrite app_nil_r. split; [done|]. intros os [= <-]. by apply Hown.
  - rewrite !app_nil_r. by split.
Qed.

Lemma own_wp u {A} (f : A → list string) (p : M (result A)) :
  wp p (read_of u (ui_uid u) f) → wp (owners f p) (served u).
Proof.
  intros Hp. unfold owners. apply wp_bind. eapply wp_mono; [exact Hp|]. intros tr res Hread.
  destruct (read_of_served u (ui_uid u) f [] tr res (each_nil _) (or_introl eq_refl) Hread) as [Hall Hown].
  destruct res as [[a|e]|]; simpl; [|rewrite app_nil_r; by split|by split].
  rewrite app_nil_r. split; [done|]. intros os [= <-]. by apply Hown.
Qed.

Ltac read_call := eexists _, _; split; [reflexivity|]; split; [constructor|]; split; [by intros pre Hpre|].

Lemma stamped_read u uid {A B} (own : B → string) (f : A → Z → B) (e : event) (l : list A) :
  (∀ x t, own (f x t) = uid) → (∀ pre, authorized u uid pre → read_rule u pre e) →
  wp (items ← stamp_all f l; mret (Ok items)) (λ tr res, read_of u uid (map own) (e :: tr) res).
Proof.
  intros Hown He. apply wp_bind. eapply wp_mono; [by apply (stamp_all_wp f own uid)|].
  intros tr res (Hclock & items & -> & Hi). simpl. rewrite app_nil_r. eexists _, _. split; [done|]. split; [done|].
  split; [done|]. by intros a [= <-].
Qed.

(** Every request of [u] is served within its authority. *)
Lemma serve_wp u req : caller = Some u → wp (serve req) (served u).
Proof.
  intros Hu. destruct req; simpl; unfold sessions_List, sessions_Get, sessions_Delete, useridentities_List,
    useridentities_Get, passkeys_List, passkeys_Get; rewrite Hu.
  - apply list_wp. intros uid [zs|e]; simpl; [|read_call; done].
    intros now. eexists _, _. split; [done|]. split; [by repeat constructor|]. split; [done|].
    intros a [= <-] o. rewrite map_map. intros (s & -> & _)%list_elem_of_fmap. done.
  - apply wp_bind. intros [[s|]|e]; simpl; [|by split; [apply each_intro|]..].
    case_bool_decide as Hown; simpl; (split; [by apply each_intro|]); [|done].
    intros os [= <-] o ->%list_elem_of_singleton. by left.
  - intros [e|]; simpl; (split; [by apply each_intro|]); [done|]. by intros os [= <-] o ?%not_elem_of_nil.
  - apply list_wp. intros uid [ls|e]; [|read_call; done]. by apply stamped_read.
  - apply own_wp. intros [ls|e]; simpl; [|read_call; done]. read_call. intros a.
    destruct (List.find (λ l, bool_decide (l_IDPID l = name)) ls); [|done]. by intros [= <-] o ->%list_elem_of_singleton.
  - apply list_wp. intros uid [ls|e]; [|read_call; done]. by apply stamped_read.
  - apply own_wp. intros [ps|e]; simpl; [|read_call; done]. destruct (List.find (λ p, bool_decide (pk_ID p = name)) ps) ; [|read_call; done].
    intros now. eexists _, _. split; [done|]. split; [by repeat constructor|]. split; [done|].
    by intros a [= <-] o ->%list_elem_of_singleton.
Qed.
End Serve.

(** * Properties *)

(** C2: nobody reads another user's identity data without milo's word. Any request for
    sessions, user identities or passkeys without a caller makes no call; with a
    caller, each read from Zitadel is of the caller's own data or directly backed by a
    SubjectAccessReview for "get" on that very user, of this caller, that milo
    allowed; reviews are asked only about other users; and every object an answer
    contains belongs to the caller or to a user so reviewed. *)
Theorem identity_reads_authorized `{GoRuntime} r caller req tr res :
  may (serve r caller req) tr res →
  match caller with
  | None => tr = [] ∧ res = Returned (Err no_user)
  | Some u => each (read_rule r u) tr ∧ ∀ os, res = Returned (Ok os) → ∀ o, o ∈ os → authorized r u o tr
  end.
Proof.
  intros Hm. destruct caller as [u|].
  - exact (may_wp _ _ _ _ Hm (serve_wp r (Some u) u req eq_refl)).
  - destruct req; exact Hm.
Qed.

(** Deleting a session checks no ownership. Linked with the SDK client, the request
    of any caller is one DeleteSession call for the named session and nothing else:
    neither whose session it is nor who asks enters the call, and its success is
    reported. *)
Theorem sessions_Delete_unchecked `{GoRuntime} cfg u name tr res :
  may (link (sdk cfg) (sessions_Delete (Some u) name)) tr res →
  ∃ a, tr = [ev (GDeleteSession name) a] ∧
    res = Returned match a with None => None | Some e => Some (sessions_translateErr e name) end.
Proof. intros (a & tr' & -> & -> & ->). by exists a. Qed.

(** * Witnesses *)

Section Witnesses.
#[local] Existing Instance ascii_runtime.

Definition alice : UserInfo := mkUserInfo "alice@example.com" "uid-alice" [] ∅.
Definition bob : UserInfo := mkUserInfo "bob@example.com" "uid-bob" [] ∅.

Definition about (uid : string) : Selector :=
  mkSelector false (λ f, if bool_decide (f = "status.userUID") then Some uid else None).

Definition passkeys_of_bob (o : op) (c : cluster) : cluster * ans o :=
  match o return cluster * ans o with
  | ZListPasskeys _ => (c, Ok [mkPasskey "pk1" "Laptop" "AUTH_FACTOR_STATE_READY"])
  | o => fake o c
  end.

Definition cross_read : M (result (list string)) :=
  serve (mkREST true) (Some alice) (PasskeysList (Some (Some (about "uid-bob")))).

Lemma identity_reads_authorized_witness :
  let tr := run_trace passkeys_of_bob cross_read empty_cluster in
  (run passkeys_of_bob cross_read empty_cluster).2 = Returned (Ok ["uid-bob"]) ∧ length tr = 3%nat ∧
  authorized (mkREST true) alice "uid-bob" tr.
Proof.
  intros tr. assert ((run passkeys_of_bob cross_read empty_cluster).2 = Returned (Ok ["uid-bob"])) as Hr
    by (vm_compute; reflexivity).
  split; [exact Hr|]. split; [vm_compute; reflexivity|].
  destruct (identity_reads_authorized (mkREST true) (Some alice) (PasskeysList (Some (Some (about "uid-bob")))) tr
    (Returned (Ok ["uid-bob"])) (run_may_to _ _ _ _ Hr)) as [_ Hau].
  apply (Hau _ eq_refl). left.
Defined.

Lemma sessions_Delete_unchecked_witness :
  let cfg := mkSDKConfig EmptyString EmptyString EmptyString 0 in
  ∃ a, run_trace fake (link (sdk cfg) (sessions_Delete (Some bob) "session-of-alice")) empty_cluster =
      [ev (GDeleteSession "session-of-alice") a] ∧
    (run fake (link (sdk cfg) (sessions_Delete (Some bob) "session-of-alice")) empty_cluster).2 =
      Returned match a with None => None | Some e => Some (sessions_translateErr e "session-of-alice") end.
Proof. intros cfg. exact (sessions_Delete_unchecked cfg bob "session-of-alice" _ _ (run_may fake _ empty_cluster)). Defined.
End Witnesses.
