(* ===== verification/PasskeyLinks.v ===== *)
(** internal/apiserver/identity/passkeyregistrationlinks: a support engineer sends a
    user the link that registers a passkey. *)

From S2P Require Import Prelude GoLib Prog Model Cluster Users RecoveryMail MailWebhook Identity.

Definition passkeyRegistrationLinksGR : string := "passkeyregistrationlinks.identity.miloapis.com".
Definition linkNamePrefix : string := "passkey-recovery-".

Record Options := mkOptions {
  op_MiloSAR : bool;
  op_Enabled : bool;
  op_SupportTemplateName : string;
  op_NotificationNamespace : string;
  op_CompleteURL : string;
  op_ExpiryMinutes : Z;
  op_Cooldown : Z;
  op_MaxPerHour : Z }.

(** The storage: the options with the parsed URL. *)
Record LinkREST := mkLinkREST { lr_opts : Options; lr_completeURL : URL }.

Record LinkStatus := mkLinkStatus { ls_UserUID : string; ls_EmailName : string; ls_ExpiresAt : Z }.

Record PasskeyRegistrationLink := mkLink {
  pl_Name : string;
  pl_UserRef : string;
  pl_Reason : string;
  pl_RequestedBy : string;
  pl_Status : option LinkStatus }.

Section Links.
Context `{GoRuntime}.

(** [New] *)
Definition NewLinkREST (opts : Options) : result LinkREST :=
  match url_parse (op_CompleteURL opts) with
  | None => Err (EWrap "parse --account-recovery-complete-url: " (EPlain (url_error_text (op_CompleteURL opts))))
  | Some u =>
      if op_Enabled opts && bool_decide (op_SupportTemplateName opts = EmptyString) then
        Err (EPlain "--account-recovery-support-template is required when --recovery-links-enabled is set")
      else if op_Enabled opts && (bool_decide (url_scheme u = EmptyString) || bool_decide (url_host u = EmptyString) ||
                                  negb (bool_decide (url_user u = None))) then
        Err (EPlain ("--account-recovery-complete-url must be an absolute URL with no userinfo, e.g. " +:+
                     "https://auth.example.net/recover/complete (got " +:+ quote (op_CompleteURL opts) +:+ ")"))
      else Ok (mkLinkREST opts u)
  end.

Definition caller_id (u : UserInfo) : string :=
  if bool_decide (ui_uid u = EmptyString) then ui_name u else ui_uid u.

(** The three checks of the spec. *)
Definition bad_spec (link : PasskeyRegistrationLink) (u : UserInfo) : option error :=
  if bool_decide (pl_UserRef link = EmptyString) then Some (NewBadRequest "spec.userRef.name is required")
  else if bool_decide (TrimSpace (pl_Reason link) = EmptyString) then Some (NewBadRequest "spec.reason is required")
  else if negb (bool_decide (pl_RequestedBy link = caller_id u)) then
    Some (NewBadRequest "spec.requestedBy must be the authenticated caller")
  else None.

Definition link_translateErr (e : error) (name : string) : error :=
  translate passkeyRegistrationLinksGR (λ _, NewBadRequest "invalid request to the auth provider") e name.

Definition support_input (r : LinkREST) (u : UserInfo) (link : PasskeyRegistrationLink) (user : User) (codeID code : string) : Input :=
  mkInput user (pl_UserRef link) codeID code (ActionURL (lr_completeURL r) (pl_UserRef link) codeID code)
    (op_SupportTemplateName (lr_opts r)) (op_NotificationNamespace (lr_opts r)) (op_ExpiryMinutes (lr_opts r))
    RequestedBySupport (ui_name u) (pl_Reason link).

(** The returned object; [now] is read after the Email was created. *)
Definition sent_link (r : LinkREST) (link : PasskeyRegistrationLink) (user : User) (emailName : string) (now : Z)
    : PasskeyRegistrationLink :=
  mkLink (linkNamePrefix +:+ trim_prefix emailName "account-recovery-") (pl_UserRef link) (pl_Reason link) (pl_RequestedBy link)
    (Some (mkLinkStatus (u_uid user) emailName (now + wrap64 (op_ExpiryMinutes (lr_opts r) * Minute))%Z)).

(** From the minted code on. *)
Definition mail_link (r : LinkREST) (u : UserInfo) (link : PasskeyRegistrationLink) (user : User) (codeID code : string)
    : M (result PasskeyRegistrationLink) :=
  let email := Build (support_input r u link user codeID code) in
  e ← call (KCreateEmail email);
  match e with
  | Some e =>
      if IsAlreadyExists e then now ← call Now; mret (Ok (sent_link r link user (em_name email) now))
      else mret (Err (NewInternalError "create recovery email"))
  | None => now ← call Now; mret (Ok (sent_link r link user (em_name email) now))
  end.

(** From the authorized caller on. *)
Definition send_link (r : LinkREST) (u : UserInfo) (link : PasskeyRegistrationLink) : M (result PasskeyRegistrationLink) :=
  let target := pl_UserRef link in
  g ← call (KGetUser target);
  match g with
  | Err e => mret (Err (if IsNotFound e then NewNotFound passkeyRegistrationLinksGR target else NewInternalError (Error e)))
  | Ok user =>
      if negb (IsVerified (Some user)) then
        mret (Err (NewBadRequest
          "the user's email address is not verified; ask them to sign up again to receive a verification link"))
      else
        t ← TooSoon (op_NotificationNamespace (lr_opts r)) target RequestedBySupport (op_Cooldown (lr_opts r)) (op_MaxPerHour (lr_opts r));
        match t with
        | Err _ => mret (Err (NewInternalError "check recent recovery mail"))
        | Ok true =>
            mret (Err (NewTooManyRequests ("a recovery link was already sent to user " +:+ quote target +:+
                                           " recently; wait before sending another")))
        | Ok false =>
            m ← call (ZCreatePasskeyRegistrationLink target);
            match m with
            | Err e => mret (Err (link_translateErr e target))
            | Ok (codeID, code) => mail_link r u link user codeID code
            end
        end
  end.

(** [Create]; [None] for an object of another type. *)
Definition links_Create (r : LinkREST) (caller : option UserInfo) (obj : option PasskeyRegistrationLink)
    : M (result PasskeyRegistrationLink) :=
  match obj with
  | None => mret (Err (NewBadRequest "invalid object type"))
  | Some link =>
      if negb (op_Enabled (lr_opts r)) then
        mret (Err (NewServiceUnavailable "recovery links are disabled (--recovery-links-enabled=false)"))
      else
        match caller with
        | None => mret (Err no_user)
        | Some u =>
            match bad_spec link u with
            | Some e => mret (Err e)
            | None =>
                a ← CanCreatePasskeyRegistrationLink (op_MiloSAR (lr_opts r)) (Some u) (pl_UserRef link);
                match a with
                | Err e => mret (Err (NewInternalError (Error e)))
                | Ok false =>
                    mret (Err (NewForbidden passkeyRegistrationLinksGR EmptyString
                      ("not authorized to send a recovery link to user " +:+ quote (pl_UserRef link))))
                | Ok true => send_link r u link
                end
            end
        end
  end.

Ltac refused := left; split; [done|by eexists].

(** A complete request, attributed to the caller. *)
Definition attributed (link : PasskeyRegistrationLink) (u : UserInfo) : Prop :=
  pl_UserRef link ≠ EmptyString ∧ TrimSpace (pl_Reason link) ≠ EmptyString ∧
  pl_RequestedBy link = (if bool_decide (ui_uid u = EmptyString) then ui_name u else ui_uid u).

Lemma bad_spec_exact link u : bad_spec link u = None → attributed link u.
Proof. unfold bad_spec, attributed, caller_id. repeat (case_bool_decide; simpl; try done). Qed.

(** * Properties *)

(** C4: support sends a recovery link only behind every gate, and never sees the code.
    Any execution either mints nothing, mails nothing and returns an error, or: the
    feature is on, the caller attributed the request to itself with a reason and a
    target, milo allowed this caller to create a link for this target (with the
    target as parent user, whatever the caller's own extras say), the target's address
    is verified and its mail budget answered "not too soon", in this order; then one
    code is minted for the target and, when that succeeds, one Email built from it is
    created; the answer is the link object exactly when that Email exists, its name,
    email name and expiry being functions of the code id and the clock, not of the
    code. *)
Theorem links_Create_gates r caller obj tr res :
  may (links_Create r caller obj) tr (Returned res) →
  (no is_mint_or_mail tr ∧ ∃ e, res = Err e) ∨
  (∃ u link user mid (m : result (string * string)) tl,
     caller = Some u ∧ obj = Some link ∧ op_Enabled (lr_opts r) = true ∧ op_MiloSAR (lr_opts r) = true ∧
     attributed link u ∧ u_emailVerification user = EVVerified ∧
     tr = ev (KCreateSAR (link_review (pl_UserRef link) u)) (Ok true) :: ev (KGetUser (pl_UserRef link)) (Ok user) ::
            mid ++ ev (ZCreatePasskeyRegistrationLink (pl_UserRef link)) m :: tl ∧
     may (TooSoon (op_NotificationNamespace (lr_opts r)) (pl_UserRef link) RequestedBySupport (op_Cooldown (lr_opts r))
            (op_MaxPerHour (lr_opts r))) mid (Returned (Ok false)) ∧
     match m with
     | Err e => tl = [] ∧ res = Err (link_translateErr e (pl_UserRef link))
     | Ok (codeID, code) => ∃ a tl',
         tl = ev (KCreateEmail (Build (support_input r u link user codeID code))) a :: tl' ∧
         ((tl' = [] ∧ res = Err (NewInternalError "create recovery email") ∧ ∃ e, a = Some e ∧ IsAlreadyExists e = false) ∨
          (∃ now, tl' = [ev Now now] ∧
             res = Ok (sent_link r link user (namePrefix +:+ hash_suffix (pl_UserRef link) codeID) now) ∧
             (a = None ∨ ∃ e, a = Some e ∧ IsAlreadyExists e = true)))
     end).
Proof.
  intros Hm. on_returns Hm. unfold links_Create. destruct obj as [link|]; [|refused].
  destruct (op_Enabled (lr_opts r)) eqn:Hen; simpl; [|refused].
  destruct caller as [u|]; [|refused]. destruct (bad_spec link u) as [e|] eqn:Hspec; simpl; [refused|].
  unfold CanCreatePasskeyRegistrationLink, review. destruct (op_MiloSAR (lr_opts r)) eqn:Hsar; simpl; [|refused].
  intros [[|]|e]; simpl; [|refused..]. intros [user|e]; simpl; [|refused].
  case_bool_decide as Hver; simpl; [|refused]. apply wp_bind, wp_may. intros mid r2 Hmid.
  assert (no is_mint_or_mail mid ∧ r2 ≠ Panicked) as [Hno H2r] by exact (may_wp _ _ _ _ Hmid (TooSoon_quiet _ _ _ _ _)).
  apply bad_spec_exact in Hspec.
  destruct r2 as [[[|]|e]|]; simpl; try done.
  - left. rewrite app_nil_r. split; [done|by eexists].
  - intros m. destruct m as [[codeID code]|e]; simpl.
    + intros [e|]; simpl; [destruct (IsAlreadyExists e) eqn:Hae; simpl|].
      * intros now. right. exists u, link, user, mid, (Ok (codeID, code)). eexists. do 6 (split; [done|]). split; [done|]. split; [done|].
        do 2 eexists. split; [done|]. right. exists now. split; [done|]. split; [done|]. right. eauto.
      * right. exists u, link, user, mid, (Ok (codeID, code)). eexists. do 6 (split; [done|]). split; [done|]. split; [done|].
        do 2 eexists. split; [done|]. left. split; [done|]. split; [done|]. eauto.
      * intros now. right. exists u, link, user, mid, (Ok (codeID, code)). eexists. do 6 (split; [done|]). split; [done|]. split; [done|].
        do 2 eexists. split; [done|]. right. exists now. split; [done|]. split; [done|]. by left.
    + right. exists u, link, user, mid, (Err e), []. do 6 (split; [done|]). split; [done|]. split; [done|]. done.
  - left. rewrite app_nil_r. split; [done|by eexists].
Qed.
End Links.

(** * Witnesses *)

Section Witnesses.
#[local] Existing Instance ascii_runtime.

Definition link_options : Options :=
  mkOptions true true "support-template" "notifications" "https://auth.example.com/recover" 30 Minute 3.

Definition support : UserInfo := mkUserInfo "support@example.com" "uid-support" [] ∅.

Definition link_request : PasskeyRegistrationLink :=
  mkLink EmptyString "u1" "lost their phone" "uid-support" None.

Definition link_storage : LinkREST :=
  mkLinkREST link_options (mkURL "https" None "auth.example.com" "/recover" EmptyString EmptyString).

Example link_storage_valid : NewLinkREST link_options = Ok link_storage.
Proof. vm_compute. reflexivity. Qed.

Lemma links_Create_gates_witness :
  let p := links_Create link_storage (Some support) (Some link_request) in
  let tr := run_trace fake p verified_user in
  count is_mint_or_mail tr = 2%nat ∧
  ∃ mid m tl, tr = ev (KCreateSAR (link_review "u1" support)) (Ok true) :: ev (KGetUser "u1")
      (Ok (with_emailVerification sample_user EVVerified)) :: mid ++ ev (ZCreatePasskeyRegistrationLink "u1") m :: tl.
Proof.
  intros p tr. assert (count is_mint_or_mail tr = 2%nat) as Hc by (vm_compute; reflexivity). split; [exact Hc|].
  assert ((match (run fake p verified_user).2 with Returned _ => true | Panicked => false end) = true) as Hret by (vm_compute; reflexivity).
  destruct (run fake p verified_user).2 as [res|] eqn:Hr; [|discriminate Hret].
  destruct (links_Create_gates link_storage (Some support) (Some link_request) tr res (run_may_to _ _ _ _ Hr))
    as [[Hno _]|(u & link & user & mid & m & tl & Hu & Hl & _ & _ & _ & _ & Htr & _)].
  - exfalso. unfold no in Hno. rewrite Hc in Hno. discriminate Hno.
  - injection Hu as <-. injection Hl as <-. exists mid, m, tl. rewrite Htr.
    assert (Ok user = Ok (with_emailVerification sample_user EVVerified)) as Heq.
    { apply (ev_inj (KGetUser "u1")). apply (f_equal (λ l, nth 1 l (ev Now 0%Z))) in Htr.
      change (nth 1 tr (ev Now 0%Z) = ev (KGetUser "u1") (Ok user)) in Htr. rewrite <-Htr. vm_compute. reflexivity. }
    rewrite <-Heq. reflexivity.
Defined.
End Witnesses.
