(* ===== verification/ServiceAccountKeys.v ===== *)
(** internal/apiserver/identity/serviceaccountkeys: the keys of the machine accounts of
    a project. *)

From S2P Require Import Prelude GoLib Prog Model Json Cluster SdkClient Identity.

Definition serviceAccountKeysGR : string := "serviceaccountkeys.identity.miloapis.com".
Definition serviceAccountsGR : string := "serviceaccounts.identity.miloapis.com".

Record KeyREST := mkKeyREST { EnableImpersonationFallback : bool; IntrospectionProjectID : string }.

(** The object of the API. *)
Record ServiceAccountKey := mkSAKey {
  sk_Name : string;
  sk_CreationTimestamp : Z;
  sk_ServiceAccountUserName : string;
  sk_PublicKey : string;
  sk_ExpirationDate : option Z;
  sk_AuthProviderKeyID : string;
  sk_PrivateKey : string }.

(** encoding/pem and crypto/x509 as the handlers use them: the bytes of the first PEM
    block, and the kind of the public key in a PKIX block. *)
Inductive public_key := RSAPublicKey | OtherPublicKey (go_type : string).

Class KeyParsing := {
  pem_decode : string → option string;
  parse_pkix : string → result public_key }.

Definition first_extra (extra : gmap string (list string)) (k : string) : string :=
  match extra !! k with Some (v :: _) => v | Some [] | None => EmptyString end.

Definition project_name (r : KeyREST) (caller : option UserInfo) : string :=
  match caller with
  | None => EmptyString
  | Some u =>
      let parent := if bool_decide (first_extra (ui_extra u) "iam.miloapis.com/parent-type" = "Project")
                    then first_extra (ui_extra u) "iam.miloapis.com/parent-name" else EmptyString in
      if bool_decide (parent = EmptyString) && EnableImpersonationFallback r
      then first_extra (ui_extra u) "project" else parent
  end.

Definition getOrgID (r : KeyREST) (caller : option UserInfo) : option string :=
  let p := project_name r caller in
  if bool_decide (p = EmptyString) then None else Some (OrgIDForProject p).

Definition no_project : error := NewBadRequest
  "request must be made within a project context (/projects/{projectID}/control-plane/...) or use --as-extra=project={orgID} for testing".

Section Keys.
Context `{GoRuntime} `{KeyParsing}.

Definition validatePublicKey (pk : string) : option error :=
  if bool_decide (pk = EmptyString) then Some (EPlain "public key is empty")
  else match pem_decode pk with
       | None => Some (EPlain "public key is not in valid PEM format")
       | Some bytes =>
           match parse_pkix bytes with
           | Err e => Some (EWrap "failed to parse public key: " e)
           | Ok RSAPublicKey => None
           | Ok (OtherPublicKey t) => Some (EPlain ("unsupported public key type: expected RSA or ECDSA, got " +:+ t))
           end
       end.

Definition datumCredentialsType : string := "datum_service_account".
Definition defaultServiceAccountScopes : string := "openid profile email offline_access".

Definition datum_scope (introspectionProjectID : string) : string :=
  if bool_decide (introspectionProjectID = EmptyString) then EmptyString
  else defaultServiceAccountScopes +:+ " urn:zitadel:iam:org:project:id:" +:+ introspectionProjectID +:+ ":aud".

(** A member left out when empty. *)
Definition omitempty (k v : string) : list (string * json) := if bool_decide (v = EmptyString) then [] else [(k, JStr v)].

Definition credentials_json (clientID keyID key email scope : string) : json :=
  JObj ([("type", JStr datumCredentialsType); ("client_id", JStr clientID); ("private_key_id", JStr keyID);
         ("private_key", JStr key)] ++ omitempty "client_email" email ++ omitempty "scope" scope).

Definition envelope_key_decoder : decoder string := decode_struct [("key", string_field (λ x _, x))].

(** An empty key content (a caller-supplied public key) gives empty credentials. *)
Definition buildDatumCredentials (keyContent keyID clientID clientEmail introspectionProjectID : string) : result string :=
  if bool_decide (keyContent = EmptyString) then Ok EmptyString
  else match Unmarshal envelope_key_decoder EmptyString keyContent with
       | None => Err (EWrap "parse zitadel key envelope: " (EPlain (json_error_text keyContent)))
       | Some key => Ok (render (credentials_json clientID keyID key clientEmail (datum_scope introspectionProjectID)))
       end.

Definition keys_translateErr (e : error) (name : string) : error :=
  translate serviceAccountKeysGR (λ e, NewBadRequest (status_message e)) e name.

(** The machine user of a name, in an organization. *)
Definition find_account (orgID username : string) (missing : error) : M (result ZUser) :=
  r ← call (ZGetMachineUserByUsername orgID username);
  mret match r with
       | Err _ => Err (NewInternalError "failed to look up service account")
       | Ok None => Err missing
       | Ok (Some user) => Ok user
       end.

(** The optional expiration date; a date needs one clock reading. *)
Definition check_expiration (d : option Z) : M (option error) :=
  match d with
  | None => mret None
  | Some d =>
      now ← call Now;
      mret (if (d <? now)%Z then Some (NewBadRequest "expiration date must be in the future") else None)
  end.

Definition checked_public_key (sak : ServiceAccountKey) : option error :=
  if bool_decide (sk_PublicKey sak = EmptyString) then None
  else match validatePublicKey (sk_PublicKey sak) with
       | Some e => Some (NewBadRequest ("invalid public key: " +:+ Error e))
       | None => None
       end.

Definition with_status (sak : ServiceAccountKey) (keyID creds : string) : ServiceAccountKey :=
  mkSAKey (sk_Name sak) (sk_CreationTimestamp sak) (sk_ServiceAccountUserName sak) (sk_PublicKey sak)
    (sk_ExpirationDate sak) keyID creds.

(** [Create]; [None] for an object of another type. *)
Definition keys_Create (r : KeyREST) (caller : option UserInfo) (obj : option ServiceAccountKey) : M (result ServiceAccountKey) :=
  match obj with
  | None => mret (Err (NewBadRequest "invalid object type"))
  | Some sak =>
      if bool_decide (sk_ServiceAccountUserName sak = EmptyString) then
        mret (Err (NewBadRequest "serviceAccountUserName is required"))
      else
        match getOrgID r caller with
        | None => mret (Err no_project)
        | Some orgID =>
            u ← find_account orgID (sk_ServiceAccountUserName sak) (NewNotFound serviceAccountKeysGR (sk_Name sak));
            match u with
            | Err e => mret (Err e)
            | Ok user =>
                match checked_public_key sak with
                | Some e => mret (Err e)
                | None =>
                    e ← check_expiration (sk_ExpirationDate sak);
                    match e with
                    | Some e => mret (Err e)
                    | None =>
                        k ← call (ZAddMachineKeyInOrganization orgID (z_ID user) (sk_PublicKey sak) (sk_ExpirationDate sak));
                        mret match k with
                             | Err e => Err (keys_translateErr e (sk_Name sak))
                             | Ok (keyID, content) =>
                                 match buildDatumCredentials content keyID (z_ID user) (sk_ServiceAccountUserName sak)
                                         (IntrospectionProjectID r) with
                                 | Err _ => Err (NewInternalError "failed to build credentials response")
                                 | Ok creds => Ok (with_status sak keyID creds)
                                 end
                             end
                    end
                end
            end
        end
  end.

Definition key_item (serviceAccountName : string) (mk : MachineKey) : ServiceAccountKey :=
  mkSAKey (k_ID mk) (k_CreatedDate mk) serviceAccountName EmptyString (k_ExpirationDate mk) (k_ID mk) EmptyString.

(** [addKeysToList] *)
Definition addKeysToList (items : list ServiceAccountKey) (serviceAccountName : string) (mks : list MachineKey) :
    list ServiceAccountKey := items ++ map (key_item serviceAccountName) mks.

Definition listAndAddKeysToList (items : list ServiceAccountKey) (orgID userID serviceAccountName : string) :
    M (result (list ServiceAccountKey)) :=
  r ← call (ZListMachineKeysInOrganization orgID userID);
  mret match r with
       | Err _ => Err (NewInternalError "failed to list service account keys")
       | Ok mks => Ok (addKeysToList items serviceAccountName mks)
       end.

Fixpoint list_accounts (orgID : string) (accounts : list ZUser) (items : list ServiceAccountKey) :
    M (result (list ServiceAccountKey)) :=
  match accounts with
  | [] => mret (Ok items)
  | a :: accounts =>
      r ← listAndAddKeysToList items orgID (z_ID a) (z_Username a);
      match r with
      | Err e => mret (Err e)
      | Ok items => list_accounts orgID accounts items
      end
  end.

Definition account_filter (options : option (option Selector)) : string :=
  match options with
  | Some (Some s) =>
      if sel_Empty s then EmptyString else default EmptyString (sel_RequiresExactMatch s "spec.serviceAccountUserName")
  | _ => EmptyString
  end.

Definition keys_List (r : KeyREST) (caller : option UserInfo) (options : option (option Selector)) :
    M (result (list ServiceAccountKey)) :=
  match getOrgID r caller with
  | None => mret (Err no_project)
  | Some orgID =>
      let name := account_filter options in
      if negb (bool_decide (name = EmptyString)) then
        u ← find_account orgID name (NewNotFound serviceAccountsGR name);
        match u with
        | Err e => mret (Err e)
        | Ok user => listAndAddKeysToList [] orgID (z_ID user) name
        end
      else
        a ← call (ZListMachineAccountsInOrganization orgID);
        match a with
        | Err _ => mret (Err (NewInternalError "failed to list service accounts"))
        | Ok accounts => list_accounts orgID accounts []
        end
  end.

Definition keys_Get (r : KeyREST) (caller : option UserInfo) (name : string) : M (result ServiceAccountKey) :=
  l ← keys_List r caller None;
  mret match l with
       | Err e => Err e
       | Ok items =>
           match List.find (λ i, bool_decide (sk_AuthProviderKeyID i = name)) items with
           | Some i => Ok i
           | None => Err (NewNotFound serviceAccountKeysGR name)
           end
       end.

Definition keys_Delete (r : KeyREST) (caller : option UserInfo) (name : string) : M (result ServiceAccountKey) :=
  match getOrgID r caller with
  | None => mret (Err no_project)
  | Some orgID =>
      k ← keys_Get r caller name;
      match k with
      | Err e => mret (Err e)
      | Ok key =>
          u ← find_account orgID (sk_ServiceAccountUserName key) (NewNotFound serviceAccountKeysGR name);
          match u with
          | Err e => mret (Err e)
          | Ok user =>
              e ← call (ZRemoveMachineKeyInOrganization orgID (z_ID user) name);
              mret match e with Some e => Err (keys_translateErr e name) | None => Ok key end
          end
      end
  end.

(** [ConvertToTable]; [time_string] is the String method of a Kubernetes time. *)
Inductive table_input := KeyList (items : list ServiceAccountKey) | OneKey (k : ServiceAccountKey) | OtherObject.

Definition key_columns : list string := ["Name"; "Service Account"; "Key ID"; "Created"; "Expires"].

(** The cells of a row and the object behind it. *)
Definition key_row (time_string : Z → string) (k : ServiceAccountKey) : list string * ServiceAccountKey :=
  ([sk_Name k; sk_ServiceAccountUserName k; sk_AuthProviderKeyID k; time_string (sk_CreationTimestamp k);
    match sk_ExpirationDate k with Some t => time_string t | None => "<none>" end], k).

Definition keys_ConvertToTable (time_string : Z → string) (obj : table_input)
    : list string * list (list string * ServiceAccountKey) :=
  (key_columns, match obj with
                | KeyList items => map (key_row time_string) items
                | OneKey k => [key_row time_string k]
                | OtherObject => []
                end).

(** * Lemmas *)

(** The key [k] was listed in [pre] under an account named [account]. *)
Definition listed (org account k : string) (pre : trace) : Prop :=
  ∃ accounts u keys mk, ev (ZListMachineAccountsInOrganization org) (Ok accounts) ∈ pre ∧ u ∈ accounts ∧ z_Username u = account ∧
    ev (ZListMachineKeysInOrganization org (z_ID u)) (Ok keys) ∈ pre ∧ mk ∈ keys ∧ k_ID mk = k.

(** Every call stays in the organization [org]; a key is added to, or removed from,
    the machine user the call before (up to one clock reading) found by its name. *)
Definition org_rule (org : string) (pre : trace) (e : event) : Prop :=
  match e with
  | existT (ZAddMachineKeyInOrganization o u pk exp) _ =>
      o = org ∧ (pk = EmptyString ∨ validatePublicKey pk = None) ∧
      (∃ account user, ev (ZGetMachineUserByUsername org account) (Ok (Some user)) ∈ pre ∧ z_ID user = u) ∧
      (∀ d, exp = Some d → ∃ now, ev Now now ∈ pre ∧ (now ≤ d)%Z)
  | existT (ZRemoveMachineKeyInOrganization o u k) _ =>
      o = org ∧ ∃ account user pre', pre = pre' ++ [ev (ZGetMachineUserByUsername org account) (Ok (Some user))] ∧
        z_ID user = u ∧ listed org account k pre'
  | existT (ZGetMachineUserByUsername o _ | ZListMachineAccountsInOrganization o | ZListMachineKeysInOrganization o _) _ => o = org
  | existT Now _ => True
  | _ => False
  end.

#[export] Instance org_rule_extends org : Extends (org_rule org).
Proof.
  intros pre0 pre [o a]. assert (∀ e, e ∈ pre → e ∈ pre0 ++ pre) as Hin by (intros; apply elem_of_app; by right).
  destruct o; simpl; try done.
  - intros (? & ? & (account & user & ? & ?) & Hd). split; [done|]. split; [done|]. split; [eauto|].
    intros d Hdd. destruct (Hd d Hdd) as (now & ? & ?). eauto.
  - intros (? & account & user & pre' & -> & ? & (accounts & u & keys & mk & ? & ? & ? & ? & ? & ?)). split; [done|].
    exists account, user, (pre0 ++ pre'). split; [by rewrite app_assoc|]. split; [done|].
    exists accounts, u, keys, mk. repeat (split; [first [done|apply elem_of_app; by right]|]). done.
Qed.

Section Rule.
Context (org : string).
Abbreviation good := (each (org_rule org)).

Lemma look_up_wp account missing :
  wp (find_account org account missing) (λ tr res, good tr ∧ ∃ t, res = Returned t ∧
    ∀ user, t = Ok user → tr = [ev (ZGetMachineUserByUsername org account) (Ok (Some user))]).
Proof. intros [[user|]|e]; (split; [by apply each_intro|]); eexists; (split; [done|]); by intros u [= <-]. Qed.

Lemma check_expiration_wp d :
  wp (check_expiration d) (λ tr res, good tr ∧ ∃ e, res = Returned e ∧
    (e = None → ∀ d', d = Some d' → ∃ now, ev Now now ∈ tr ∧ (now ≤ d')%Z)).
Proof.
  destruct d as [d|]; [|split; [apply each_nil|by exists None]]. intros now. split; [by apply each_intro|].
  eexists. split; [done|]. destruct (Z.ltb_spec d now); [done|]. intros _ d' [= <-]. exists now. split; [by left|lia].
Qed.

Lemma list_accounts_wp accounts items :
  wp (list_accounts org accounts items) (λ tr res, good tr ∧ ∃ t, res = Returned t ∧
    ∀ out, t = Ok out → ∀ i, i ∈ out → i ∈ items ∨ ∃ u keys mk, u ∈ accounts ∧
      ev (ZListMachineKeysInOrganization org (z_ID u)) (Ok keys) ∈ tr ∧ mk ∈ keys ∧ i = key_item (z_Username u) mk).
Proof.
  revert items. induction accounts as [|a accounts IH]; intros items.
  - split; [apply each_nil|]. eexists. split; [done|]. intros out [= <-]. by left.
  - intros [mks|e]; simpl; [|split; [by apply each_intro|]; by eexists].
    apply (wp_mono _ _ _ (IH (addKeysToList items (z_Username a) mks))). intros tr res (Htr & t & -> & Hall). split.
    + change (ev (ZListMachineKeysInOrganization org (z_ID a)) (Ok mks) :: tr) with ([ev (ZListMachineKeysInOrganization org (z_ID a)) (Ok mks)] ++ tr).
      apply ti_app; [by apply each_intro|done].
    + exists t. split; [done|]. intros out Hout i Hi.
      destruct (Hall out Hout i Hi) as [Hin|(u & keys & mk & ? & ? & ? & ->)].
      * unfold addKeysToList in Hin. apply elem_of_app in Hin as [?|Hin]; [by left|]. right.
        apply list_elem_of_fmap in Hin as (mk & -> & ?). exists a, mks, mk. split; [by left|]. split; [by left|done].
      * right. exists u, keys, mk. split; [by right|]. split; [by right|done].
Qed.

Lemma keys_List_good r caller options :
  getOrgID r caller = Some org → safe good (keys_List r caller options).
Proof.
  intros Ho. unfold keys_List. rewrite Ho. destruct (negb _).
  - apply safe_bind; [apply _|apply (wp_mono _ _ _ (look_up_wp _ _)); by intros tr res [? _]|].
    intros [user|e]; [|apply safe_ret, _]. intros [mks|e]; by apply each_intro.
  - intros [accounts|e]; simpl; [|by apply each_intro].
    apply (wp_mono _ _ _ (list_accounts_wp accounts [])). intros tr res [Htr _].
    apply (ti_app (T := good) [_] tr); [by apply each_intro|done].
Qed.

Lemma keys_Get_wp r caller name :
  getOrgID r caller = Some org →
  wp (keys_Get r caller name) (λ tr res, good tr ∧ ∃ t, res = Returned t ∧
    ∀ key, t = Ok key → listed org (sk_ServiceAccountUserName key) name tr).
Proof.
  intros Ho. unfold keys_Get, keys_List. rewrite Ho. cbn [account_filter]. rewrite bool_decide_true by done. cbn [negb].
  intros [accounts|e]; simpl; [|split; [by apply each_intro|]; by eexists].
  apply wp_bind. eapply wp_mono; [apply (list_accounts_wp accounts [])|]. intros tr res (Htr & t & -> & Hall). simpl.
  rewrite app_nil_r. split; [by apply (ti_app (T := good) [_] tr); [apply each_intro|]|].
  eexists. split; [done|]. intros key. destruct t as [items|e]; [|done].
  destruct (List.find _ items) as [i|] eqn:Hfind; [|done]. intros [= <-].
  apply List.find_some in Hfind as [Hi%list_elem_of_In Hname%bool_decide_eq_true].
  destruct (Hall items eq_refl i Hi) as [[]%not_elem_of_nil|(u & keys & mk & Hu & Hk & Hmk & ->)].
  exists accounts, u, keys, mk. split; [by left|]. split; [done|]. split; [done|]. split; [by right|]. split; [done|]. by rewrite <-Hname.
Qed.

Lemma keys_Delete_good r caller name : getOrgID r caller = Some org → safe good (keys_Delete r caller name).
Proof.
  intros Ho. unfold keys_Delete. rewrite Ho. unfold safe. apply wp_bind.
  eapply wp_mono; [by apply keys_Get_wp|]. intros tr res (Htr & t & -> & Hkey). destruct t as [key|e]; [|by simpl; rewrite app_nil_r].
  cbn [bind_post]. apply wp_bind. eapply wp_mono; [apply look_up_wp|]. intros tr2 res2 (Htr2 & u & -> & Hu). destruct u as [user|e]; simpl.
  - rewrite (Hu user eq_refl) in Htr2 |- *. intros a. rewrite app_assoc. apply each_app; [by apply ti_app|].
    split; [|done]. split; [done|]. exists (sk_ServiceAccountUserName key), user, tr. split; [done|]. split; [done|]. by apply Hkey.
  - rewrite app_nil_r. by apply ti_app.
Qed.

Lemma keys_Create_good r caller obj : getOrgID r caller = Some org → safe good (keys_Create r caller obj).
Proof.
  intros Ho. unfold keys_Create. destruct obj as [sak|]; [|apply safe_ret, _]. case_bool_decide; [apply safe_ret, _|].
  rewrite Ho. unfold safe. apply wp_bind. eapply wp_mono; [apply look_up_wp|]. intros tr res (Htr & u & -> & Hu).
  destruct u as [user|e]; [|by simpl; rewrite app_nil_r]. cbn [bind_post].
  destruct (checked_public_key sak) as [e|] eqn:Hpk; [by simpl; rewrite app_nil_r|].
  apply wp_bind. eapply wp_mono; [apply check_expiration_wp|]. intros tr2 res2 (Htr2 & e & -> & Hexp).
  destruct e as [e|]; [simpl; rewrite app_nil_r; by apply ti_app|]. intros a.
  assert (good (tr ++ tr2 ++ [ev (ZAddMachineKeyInOrganization org (z_ID user) (sk_PublicKey sak) (sk_ExpirationDate sak)) a])) as Hlast.
  { rewrite app_assoc. apply each_app; [by apply ti_app|]. split; [|done]. split; [done|]. split.
    { unfold checked_public_key in Hpk. case_bool_decide; [by left|]. right. by destruct (validatePublicKey _). }
    split.
    - exists (sk_ServiceAccountUserName sak), user. split; [|done]. rewrite (Hu user eq_refl). by left.
    - intros d Hd. destruct (Hexp eq_refl d Hd) as (now & ? & ?). exists now. split; [|done]. apply elem_of_app. by right. }
  destruct a as [[keyID content]|e]; simpl; exact Hlast.
Qed.
End Rule.
End Keys.

(** ** Reading credentials back *)

Record datumCredentials := mkDatum {
  dc_Type : string; dc_ClientID : string; dc_PrivateKeyID : string; dc_PrivateKey : string; dc_ClientEmail : string; dc_Scope : string }.

Definition datum_decoder `{GoRuntime} : decoder datumCredentials := decode_struct
  [("type", string_field (λ x c, mkDatum x (dc_ClientID c) (dc_PrivateKeyID c) (dc_PrivateKey c) (dc_ClientEmail c) (dc_Scope c)));
   ("client_id", string_field (λ x c, mkDatum (dc_Type c) x (dc_PrivateKeyID c) (dc_PrivateKey c) (dc_ClientEmail c) (dc_Scope c)));
   ("private_key_id", string_field (λ x c, mkDatum (dc_Type c) (dc_ClientID c) x (dc_PrivateKey c) (dc_ClientEmail c) (dc_Scope c)));
   ("private_key", string_field (λ x c, mkDatum (dc_Type c) (dc_ClientID c) (dc_PrivateKeyID c) x (dc_ClientEmail c) (dc_Scope c)));
   ("client_email", string_field (λ x c, mkDatum (dc_Type c) (dc_ClientID c) (dc_PrivateKeyID c) (dc_PrivateKey c) x (dc_Scope c)));
   ("scope", string_field (λ x c, mkDatum (dc_Type c) (dc_ClientID c) (dc_PrivateKeyID c) (dc_PrivateKey c) (dc_ClientEmail c) x))].

Definition zero_datum : datumCredentials := mkDatum EmptyString EmptyString EmptyString EmptyString EmptyString EmptyString.

Lemma Ok_inj {A} (a b : A) : Ok a = Ok b → a = b.
Proof. by intros [=]. Qed.

Lemma is_ascii_app s t : is_ascii (s +:+ t) = is_ascii s && is_ascii t.
Proof. apply string_forall_app. Qed.

(** The handlers of the resource. *)
Inductive key_request :=
| CreateKey (obj : option ServiceAccountKey)
| ListKeys (options : option (option Selector))
| GetKey (name : string)
| DeleteKey (name : string).

Definition serve_key `{GoRuntime} `{KeyParsing} (r : KeyREST) (caller : option UserInfo) (req : key_request) : M (result (list ServiceAccountKey)) :=
  let one (p : M (result ServiceAccountKey)) := k ← p; mret match k with Ok k => Ok [k] | Err e => Err e end in
  match req with
  | CreateKey obj => one (keys_Create r caller obj)
  | ListKeys o => keys_List r caller o
  | GetKey n => one (keys_Get r caller n)
  | DeleteKey n => one (keys_Delete r caller n)
  end.

(** * Properties *)

(** C20: service account keys stay inside the caller's project. Without a project in the
    caller's identity no request reaches Zitadel; with one, every call any handler
    makes is for that project's organization; a key is added only to the machine user
    the organization has under the requested name, with an empty or validated public
    key and no expiration date in the past; a key is removed only from the user the
    call before found by the name of an account of the organization that listed
    this very key. *)
Theorem keys_stay_in_project `{GoRuntime} `{KeyParsing} r caller req tr res :
  may (serve_key r caller req) tr res →
  match getOrgID r caller with
  | None => tr = [] ∧ ∃ e, res = Returned (Err e)
  | Some org => each (org_rule org) tr
  end.
Proof.
  intros Hm. destruct (getOrgID r caller) as [org|] eqn:Ho.
  - assert (∀ p : M (result ServiceAccountKey), safe (each (org_rule org)) p →
      safe (each (org_rule org)) (k ← p; mret match k with Ok k => Ok [k] | Err e => Err e end)) as Hone
      by (intros p Hp; apply safe_bind; [apply _|exact Hp|intros; apply safe_ret, _]).
    apply (safe_may _ _ _ _ (match req return safe (each (org_rule org)) (serve_key r caller req) with
      | CreateKey obj => Hone _ (keys_Create_good org r caller obj Ho)
      | ListKeys o => keys_List_good org r caller o Ho
      | GetKey n => Hone _ (wp_mono _ _ _ (keys_Get_wp org r caller n Ho) (λ tr res H, proj1 H))
      | DeleteKey n => Hone _ (keys_Delete_good org r caller n Ho)
      end) Hm).
  - destruct req as [[sak|]|o|n|n]; simpl in Hm; unfold keys_Create, keys_Get, keys_List, keys_Delete in Hm; rewrite ?Ho in Hm;
      try (destruct Hm as [-> ->]; by eauto).
    case_bool_decide; destruct Hm as [-> ->]; by eauto.
Qed.

(** C40: the credentials file is faithful. For ASCII inputs, what [buildDatumCredentials]
    returns for a generated key parses back, with the encoding/json rules, to the
    credential type, the given client id, key id and email, the key of Zitadel's
    envelope, and the audience scope exactly when a project is configured. *)
Theorem buildDatumCredentials_roundtrip `{GoRuntime} content key keyID clientID email project out :
  content ≠ EmptyString → Unmarshal envelope_key_decoder EmptyString content = Some key →
  is_ascii (key +:+ keyID +:+ clientID +:+ email +:+ project) = true →
  buildDatumCredentials content keyID clientID email project = Ok out →
  Unmarshal datum_decoder zero_datum out = Some (mkDatum datumCredentialsType clientID keyID key email (datum_scope project)).
Proof.
  intros Hne Hkey Hascii. unfold buildDatumCredentials. rewrite bool_decide_false, Hkey by done. intros <-%Ok_inj.
  rewrite !is_ascii_app, !andb_true_iff in Hascii. destruct Hascii as (H1 & H2 & H3 & H4 & H5).
  assert (is_ascii (datum_scope project) = true) as Hs.
  { unfold datum_scope. case_bool_decide; [done|]. rewrite !is_ascii_app, H5. done. }
  unfold Unmarshal. rewrite json_parse_render.
  - generalize dependent (datum_scope project). intros scope Hs. unfold credentials_json, omitempty.
    repeat case_bool_decide; subst; reflexivity.
  - unfold credentials_json, omitempty. repeat case_bool_decide; simpl; rewrite ?H1, ?H2, ?H3, ?H4, ?Hs; done.
  - unfold credentials_json, omitempty. repeat case_bool_decide; apply Z2Nat.inj_le with (n := 1%Z) (m := 10000%Z); lia.
Qed.

(** * Witnesses *)

Section Witnesses.
#[local] Existing Instance ascii_runtime.

Definition rsa_only : KeyParsing :=
  {| pem_decode := λ s, if has_prefix "-----BEGIN" s then Some s else None; parse_pkix := λ _, Ok RSAPublicKey |}.
#[local] Existing Instance rsa_only.

Definition project_admin : UserInfo :=
  mkUserInfo "admin@example.com" "uid-admin" []
    {[ "iam.miloapis.com/parent-type" := ["Project"]; "iam.miloapis.com/parent-name" := ["p1"] ]}.

Definition key_storage : KeyREST := mkKeyREST false "proj".

Definition robot : ZUser := mkZUser "uid-robot" "uid-robot" EmptyString "ACTIVE" EmptyString EmptyString false zero_time.

(** The organization has one machine account, with one key. *)
Definition with_key (o : op) (c : cluster) : cluster * ans o :=
  match o return cluster * ans o with
  | ZListMachineAccountsInOrganization _ => (c, Ok [mkZUser "uid-robot" "robot" EmptyString EmptyString EmptyString EmptyString false 0])
  | ZListMachineKeysInOrganization _ _ => (c, Ok [mkMachineKey "k1" 0 None])
  | ZGetMachineUserByUsername _ n => (c, Ok (if bool_decide (n = "robot") then Some robot else None))
  | o => fake o c
  end.

Lemma keys_stay_in_project_witness :
  let tr := run_trace with_key (serve_key key_storage (Some project_admin) (DeleteKey "k1")) empty_cluster in
  length tr = 4%nat ∧ each (org_rule "project-p1") tr.
Proof.
  intros tr. split; [vm_compute; reflexivity|].
  exact (keys_stay_in_project key_storage (Some project_admin) (DeleteKey "k1") tr _ (run_may _ _ _)).
Defined.

Definition sample_envelope : string := render (JObj [("keyId", JStr "k1"); ("key", JStr "PEM")]).

Lemma buildDatumCredentials_roundtrip_witness :
  ∃ out, buildDatumCredentials sample_envelope "k1" "uid-robot" "robot@p1" "proj" = Ok out ∧
    Unmarshal datum_decoder zero_datum out = Some (mkDatum datumCredentialsType "uid-robot" "k1" "PEM" "robot@p1" (datum_scope "proj")).
Proof.
  destruct (buildDatumCredentials sample_envelope "k1" "uid-robot" "robot@p1" "proj") as [out|e] eqn:Ho;
    [|vm_compute in Ho; discriminate Ho].
  exists out. split; [reflexivity|].
  apply (buildDatumCredentials_roundtrip sample_envelope "PEM" "k1" "uid-robot" "robot@p1" "proj" out);
    [vm_compute; discriminate|vm_compute; reflexivity|vm_compute; reflexivity|exact Ho].
Defined.

(** The listing names an account by its login name, the look-up goes by user name:
    where the two differ, a key that is listed cannot be deleted. *)
Definition suffixed_login (o : op) (c : cluster) : cluster * ans o :=
  match o return cluster * ans o with
  | GListUsers (QueryOrganization _) =>
      (c, Ok [mkPbUser "uid-robot" "robot@p1.example.com" ["robot@p1.example.com"] "robot" "ACTIVE" PbMachineUser None])
  | GListUsers (QueryUserName _ n) =>
      (c, Ok (if bool_decide (n = "robot")
              then [mkPbUser "uid-robot" "robot@p1.example.com" ["robot@p1.example.com"] "robot" "ACTIVE" PbMachineUser None] else []))
  | GListKeys _ _ => (c, Ok [mkPbKey "k1" None None])
  | o => fake o c
  end.

Example listed_key_not_deleted :
  let cfg := mkSDKConfig EmptyString EmptyString EmptyString 0 in
  let handle req := (run suffixed_login (link (sdk cfg) (serve_key key_storage (Some project_admin) req)) empty_cluster).2 in
  (∃ key, handle (GetKey "k1") = Returned (Ok [key])) ∧
  handle (DeleteKey "k1") = Returned (Err (NewNotFound serviceAccountKeysGR "k1")).
Proof. split; [eexists|]; vm_compute; reflexivity. Qed.
End Witnesses.
