(* ===== verification/FieldSelectors.v ===== *)
(** pkg/apis/identity/scheme.go: the field selectors the aggregated API server passes on to
    the storages of sessions, user identities, passkeys and service account keys. *)

From S2P Require Import Prelude GoLib Prog Model Cluster Identity ServiceAccountKeys.

(** * k8s.io/apimachinery/pkg/fields

    A parsed field selector is a conjunction of requirements. *)
Record Requirement := mkRequirement { rq_Field : string; rq_Equals : bool; rq_Value : string }.

(** The first requirement that the field equals a value. *)
Fixpoint exact_match (field : string) (ts : list Requirement) : option string :=
  match ts with
  | [] => None
  | t :: ts => if rq_Equals t && bool_decide (rq_Field t = field) then Some (rq_Value t) else exact_match field ts
  end.

(** A conversion of field labels and values. *)
Abbreviation FieldLabelConversion := (string → string → result (string * string)).

(** The transformed requirements; one whose field and value both become empty is skipped. *)
Fixpoint transformed (fn : FieldLabelConversion) (ts : list Requirement) : result (list Requirement) :=
  match ts with
  | [] => Ok []
  | t :: ts =>
      match fn (rq_Field t) (rq_Value t), transformed fn ts with
      | Ok (f, v), Ok ts' =>
          Ok (if bool_decide (f = EmptyString ∧ v = EmptyString) then ts' else mkRequirement f (rq_Equals t) v :: ts')
      | Err e, _ | _, Err e => Err e
      end
  end.

(** The library, by its documentation: the selector of a conjunction; [Transform], which
    skips a requirement converted to empty strings and fails when a conversion fails; the
    conversion of a kind that registered none, which knows the metadata labels only. *)
Class FieldSelectors := {
  conjunction : list Requirement → Selector;
  conjunction_empty ts : sel_Empty (conjunction ts) = bool_decide (ts = []);
  conjunction_exact ts field : sel_RequiresExactMatch (conjunction ts) field = exact_match field ts;
  Transform : FieldLabelConversion → list Requirement → result Selector;
  Transform_doc fn ts :
    Transform fn ts = match transformed fn ts with Ok ts' => Ok (conjunction ts') | Err e => Err e end;
  DefaultMetaV1FieldSelectorConversion : FieldLabelConversion }.

(** * Install *)

Definition serviceAccountKeySelector : FieldLabelConversion := λ label value,
  if bool_decide (label ∈ ["spec.serviceAccountUserName"; "metadata.name"]) then Ok (label, value)
  else Ok (EmptyString, EmptyString).

Definition userScopedSelector : FieldLabelConversion := λ label value,
  if bool_decide (label ∈ ["status.userUID"; "metadata.name"; "metadata.namespace"]) then Ok (label, value)
  else Ok (EmptyString, EmptyString).

(** The conversions [Install] registers, by kind. *)
Definition Install : list (string * FieldLabelConversion) :=
  [("ServiceAccountKey", serviceAccountKeySelector); ("Session", userScopedSelector);
   ("UserIdentity", userScopedSelector); ("Passkey", userScopedSelector)].

Section Selectors.
Context `{FieldSelectors}.

(** [Scheme.ConvertFieldLabel] *)
Definition ConvertFieldLabel (kind : string) : FieldLabelConversion :=
  match List.find (λ x, bool_decide (x.1 = kind)) Install with
  | Some (_, fn) => fn
  | None => DefaultMetaV1FieldSelectorConversion
  end.

(** What the storage of the kind gets for the requirements of a List request. *)
Definition list_selector (kind : string) (ts : list Requirement) : result Selector := Transform (ConvertFieldLabel kind) ts.

(** * Lemmas *)

(** The labels a conversion lets through. *)
Definition passes (labels : list string) (t : Requirement) : bool := bool_decide (rq_Field t ∈ labels).

Definition userScoped : list string := ["status.userUID"; "metadata.name"; "metadata.namespace"].
Definition keyScoped : list string := ["spec.serviceAccountUserName"; "metadata.name"].

Lemma transformed_passes labels (fn : FieldLabelConversion) ts :
  EmptyString ∉ labels →
  (∀ l v, fn l v = if bool_decide (l ∈ labels) then Ok (l, v) else Ok (EmptyString, EmptyString)) →
  transformed fn ts = Ok (List.filter (passes labels) ts).
Proof.
  intros Hempty Hfn. induction ts as [|[f e v] ts IH]; simpl; [done|]. rewrite Hfn, IH. unfold passes. simpl.
  case_bool_decide as Hf; [|done]. rewrite bool_decide_false; [done|]. by intros [-> _].
Qed.

Lemma exact_match_passes labels field ts :
  field ∈ labels → exact_match field (List.filter (passes labels) ts) = exact_match field ts.
Proof.
  intros Hf. induction ts as [|[f e v] ts IH]; simpl; [done|]. unfold passes at 1. simpl.
  case_bool_decide as Hl; simpl; [by rewrite IH|]. rewrite IH, (bool_decide_false (f = field)) by naive_solver.
  by rewrite andb_false_r.
Qed.

Lemma list_selector_user kind ts :
  kind ∈ ["Session"; "UserIdentity"; "Passkey"] →
  list_selector kind ts = Ok (conjunction (List.filter (passes userScoped) ts)).
Proof.
  intros Hk. unfold list_selector. rewrite Transform_doc.
  assert (ConvertFieldLabel kind = userScopedSelector) as ->.
  { unfold ConvertFieldLabel. repeat (apply elem_of_cons in Hk as [->|Hk]); [done..|by apply not_elem_of_nil in Hk]. }
  by rewrite (transformed_passes userScoped) by (try done; set_solver).
Qed.

Lemma list_selector_key ts :
  list_selector "ServiceAccountKey" ts = Ok (conjunction (List.filter (passes keyScoped) ts)).
Proof.
  unfold list_selector. rewrite Transform_doc. change (ConvertFieldLabel "ServiceAccountKey") with serviceAccountKeySelector.
  by rewrite (transformed_passes keyScoped) by (try done; set_solver).
Qed.

Lemma extract_named ts uid :
  ExtractUserUIDFromFieldSelector (Some (conjunction (List.filter (passes userScoped) ts))) = Ok uid ↔
  exact_match "status.userUID" ts = Some uid.
Proof.
  unfold ExtractUserUIDFromFieldSelector. rewrite conjunction_empty, conjunction_exact.
  rewrite <-(exact_match_passes userScoped "status.userUID" ts) by (by left). case_bool_decide as He; [by rewrite He|].
  destruct (exact_match _ _); naive_solver.
Qed.
End Selectors.

(** * Properties *)

(** C37: field selectors, from the request to the storage. A list of sessions, user identities
    or passkeys is never refused for its field selector; the storage sees the target user
    exactly when a requirement status.userUID=<uid> was given, and the first such; a list of
    service account keys is filtered by exactly the first
    spec.serviceAccountUserName=<name>, if any; and a requirement on any label that is not
    registered changes nothing: the request is served as if it had not been made. *)
Theorem field_selectors_served `{FieldSelectors} kind ts :
  (kind ∈ ["Session"; "UserIdentity"; "Passkey"] →
     ∃ s, list_selector kind ts = Ok s ∧
       (∀ uid, ExtractUserUIDFromFieldSelector (Some s) = Ok uid ↔ exact_match "status.userUID" ts = Some uid) ∧
       list_selector kind (List.filter (passes userScoped) ts) = Ok s) ∧
  (∃ s, list_selector "ServiceAccountKey" ts = Ok s ∧
     account_filter (Some (Some s)) = default EmptyString (exact_match "spec.serviceAccountUserName" ts) ∧
     list_selector "ServiceAccountKey" (List.filter (passes keyScoped) ts) = Ok s).
Proof.
  assert (∀ labels, List.filter (passes labels) (List.filter (passes labels) ts) = List.filter (passes labels) ts) as Hidem.
  { intros labels. induction ts as [|t ts' IH]; simpl; [done|]. destruct (passes labels t) eqn:Ht; simpl; [|done]. by rewrite Ht, IH. }
  split.
  - intros Hk. eexists. split; [by apply list_selector_user|]. split; [apply extract_named|].
    by rewrite list_selector_user, Hidem.
  - eexists. split; [apply list_selector_key|]. split; [|by rewrite list_selector_key, Hidem].
    unfold account_filter. rewrite conjunction_empty, conjunction_exact.
    rewrite <-(exact_match_passes keyScoped "spec.serviceAccountUserName" ts) by (by left).
    case_bool_decide as He; [by rewrite He|done].
Qed.

(** * Witnesses *)

Definition requirement_selectors : FieldSelectors.
Proof.
  refine {| conjunction := λ ts, mkSelector (match ts with [] => true | _ => false end) (λ f, exact_match f ts);
            Transform := λ fn ts, match transformed fn ts with
              | Ok ts' => Ok (mkSelector (match ts' with [] => true | _ => false end) (λ f, exact_match f ts'))
              | Err e => Err e end;
            DefaultMetaV1FieldSelectorConversion := λ l v,
              if bool_decide (l ∈ ["metadata.name"; "metadata.namespace"]) then Ok (l, v)
              else Err (EPlain "not a known field selector") |}; [by intros [|]|done|done].
Defined.

Section Witnesses.
#[local] Existing Instance requirement_selectors.

Definition asked : list Requirement :=
  [mkRequirement "spec.ip" true "1.2.3.4"; mkRequirement "status.userUID" true "uid-bob"].

Lemma field_selectors_served_witness :
  ∃ s, list_selector "Session" asked = Ok s ∧ ExtractUserUIDFromFieldSelector (Some s) = Ok "uid-bob" ∧
    list_selector "Session" [mkRequirement "status.userUID" true "uid-bob"] = Ok s.
Proof.
  assert ("Session" ∈ ["Session"; "UserIdentity"; "Passkey"]) as Hk by (by left).
  destruct (proj1 (field_selectors_served "Session" asked) Hk) as (s & Hs & Huid & Hsame).
  exists s. split; [exact Hs|]. split; [apply Huid; reflexivity|exact Hsame].
Defined.
End Witnesses.
