(* ===== verification/Wiring.v ===== *)
(** What the commands (cmd/) do before they serve: the calls they make to the Kubernetes
    libraries, and start-up programs that end the process at the first failure.

    An object of a library is named by what it was made from: the constructor's call
    answers an error or nothing, and the object is the record of its arguments. *)

From S2P Require Import Prelude GoLib Prog Model SdkClient AbandonedGC UserSweep.

(** * path/filepath on Unix *)

Definition slash : ascii := ascii_of_N 47.

(** One component of the path; [out] is the result so far, last component first. *)
Definition clean_step (rooted : bool) (out : list string) (c : string) : list string :=
  if bool_decide (c = EmptyString ∨ c = ".") then out
  else if bool_decide (c = "..") then
    match out with
    | [] => if rooted then [] else [c]
    | x :: out' => if bool_decide (x = "..") then c :: out else out'
    end
  else c :: out.

Definition filepath_Clean (p : string) : string :=
  let rooted := has_prefix "/" p in
  let s := String.concat "/" (reverse (foldl (clean_step rooted) [] (split_char slash p))) in
  if rooted then "/" +:+ s else if bool_decide (s = EmptyString) then "." else s.

(** [filepath.Join] of a directory and a file. *)
Definition filepath_Join (dir file : string) : string :=
  if bool_decide (dir = EmptyString) then
    (if bool_decide (file = EmptyString) then EmptyString else filepath_Clean file)
  else filepath_Clean (dir +:+ "/" +:+ file).

(** * Objects *)

Record Dialer := mkDialer { dl_Timeout : Z; dl_KeepAlive : Z }.

(** [rest.Config]: where it connects, and the fields the code reads or writes.  QPS is
    counted in thousandths; [None] is the nil rate limiter and the nil dialer. *)
Record RestConfig := mkRestConfig {
  rc_Host : string;
  rc_QPS : Z;
  rc_Burst : Z;
  rc_RateLimiter : option string;
  rc_Dial : option Dialer }.

(** The types a client can read and write, by the packages added to its scheme. *)
Inductive ApiTypes :=
| ClientGoTypes | IamTypes | ResourceManagerTypes | NotificationTypes | AuthenticationTypes | CoreTypes
| IdentityTypes | MiloIdentityTypes.

Abbreviation Scheme := (list ApiTypes).

(** crypto/tls and the certificate watcher. *)
Record CertWatcher := mkCertWatcher { cw_certFile : string; cw_keyFile : string }.
Record TlsConfig := mkTlsConfig { NextProtos : list string; GetCertificate : option CertWatcher }.
Abbreviation TlsOpt := (TlsConfig → TlsConfig).

(** The configuration a listener ends with. *)
Definition apply_tls (opts : list TlsOpt) (c : TlsConfig) : TlsConfig := foldl (λ c f, f c) c opts.

Record MetricsOptions := mkMetricsOptions {
  ms_BindAddress : string; ms_SecureServing : bool; ms_Filter : bool; ms_TLSOpts : list TlsOpt }.

(** The leader election of [ctrl.Options]; [None] and the empty string are the
    library's defaults. *)
Record ElectionOptions := mkElectionOptions {
  eo_LeaderElection : bool; eo_ID : string; eo_Config : option RestConfig; eo_ReleaseOnCancel : bool;
  eo_Namespace : string; eo_ResourceLock : string;
  eo_LeaseDuration : option Z; eo_RenewDeadline : option Z; eo_RetryPeriod : option Z }.

Definition no_election : ElectionOptions := mkElectionOptions false EmptyString None false EmptyString EmptyString None None None.

Record WebhookOptions := mkWebhookOptions {
  wo_CertDir : string; wo_CertName : string; wo_KeyName : string; wo_ClientCAName : string; wo_Port : Z;
  wo_TLSOpts : list TlsOpt }.

(** [manager.Options]; the zero value of a field is [None], empty or false. *)
Record ManagerOptions := mkManagerOptions {
  mo_Scheme : option Scheme;
  mo_Metrics : option MetricsOptions;
  mo_Webhook : option WebhookOptions;
  mo_Probe : string;
  mo_UnstructuredCache : bool;
  mo_Election : ElectionOptions }.

Record Cluster := mkCluster { cl_Config : RestConfig; cl_Scheme : Scheme }.
Record Manager := mkManager { mg_Config : RestConfig; mg_Options : ManagerOptions }.

(** The provider of project control planes of the multicluster manager. *)
Inductive Provider :=
| SingleProvider (name : string) (cluster : Cluster)
| MiloProvider (discovery : Manager) (scheme : Scheme) (internalServiceDiscovery : bool) (project : RestConfig).

Record MultiManager := mkMultiManager { mm_Config : RestConfig; mm_Provider : Provider; mm_Options : ManagerOptions }.

(** The two Zitadel clients. *)
Record TokenSource := mkTokenSource { ts_Issuer : string; ts_KeyPath : string; ts_Scopes : list string }.
Record RestClient := mkRestClient { rl_BaseURL : string; rl_Token : TokenSource }.

(** The reconcilers with the Zitadel client they are built with; the client of the
    milo objects is the one of the manager they are set up with. *)
Inductive Reconciler :=
| ServiceAccountController (zitadel : SDKConfig) (EmailAddressSuffix : string)
| ProjectController (zitadel : SDKConfig)
| PlatformAccessController (client : Manager) (zitadel : RestClient)
| UserController (client : Manager) (zitadel : RestClient).

Inductive Runnable :=
| ClusterRunnable (c : Cluster)
| ManagerRunnable (m : Manager)
| GCRunnable (client : Manager) (zitadel : SDKConfig) (g : AbandonedUserGC)
| SweeperRunnable (client : Manager) (zitadel : SDKConfig) (s : UserSweeper)
| CoreRunnable (mgr : MultiManager) (core : Manager).

(** A reconciler or a runnable is registered on one of these. *)
Inductive Host := OnMulti (m : MultiManager) | OnManager (m : Manager).

(** * config.go: the server configuration *)

Record DiscoveryConfig := mkDiscovery {
  dc_Mode : string; dc_InternalServiceDiscovery : bool; dc_DiscoveryKubeconfigPath : string; dc_ProjectKubeconfigPath : string }.

Record AuthProviderZitadel := mkAuthProvider { ap_Discovery : DiscoveryConfig; ap_DownstreamKubeconfigPath : string }.

(** * Calls *)

(** The API server's options, set by cmd/apiserver. *)
Record ServingOptions := mkServing {
  sv_BindPort : Z; sv_CertFile : string; sv_KeyFile : string;
  sv_SkipInClusterLookup : bool; sv_Anonymous : bool;
  sv_ClientCAFile : string; sv_AllowedNames : list string; sv_UsernameHeaders : list string; sv_GroupHeaders : list string;
  sv_UIDHeaders : list string; sv_ExtraHeaderPrefixes : list string;
  sv_Authorization : bool; sv_Etcd : bool; sv_Admission : bool; sv_CoreAPI : bool; sv_Audit : bool; sv_PriorityAndFairness : bool }.

Inductive pop :=
| Base (o : Model.op)
| GetConfig
| ClientConfig
| BuildConfigFromFlags (masterUrl kubeconfigPath : string)
| DecodeServerConfig (data : string)
| NewCertWatcher (w : CertWatcher)
| NewCluster (c : Cluster)
| NewManager (m : Manager)
| NewProvider (p : Provider)
| NewMultiManager (m : MultiManager)
| NewTokenSource (t : TokenSource)
| NewDirectClient (c : RestConfig) (s : Scheme)
| NewClientset (c : RestConfig)
| RegisterFinalizer (key : string) (r : Reconciler)
| CompleteController (r : Reconciler) (h : Host) (name : option string)
| AddRunnable (r : Runnable) (h : Host)
| AddCheck (ready : bool) (name : string) (m : MultiManager)
| AddStartedCheck (name : string) (m : Manager)
| AddToScheme (t : ApiTypes)
| Engage (name : string) (c : Cluster)
| ProviderStart (p : Provider)
| Elected (m : MultiManager)
| StartManager (m : Manager)
| RunUntilManagerStops (m : MultiManager) (workers : list Runnable)
| ApplyOptions (s : ServingOptions)
| BuildServer (name : string) (alwaysAllow : bool)
| InstallAPIGroup (version : string) (resources : list string)
| RunServer.

Definition pans (o : pop) : Type :=
  match o with
  | Base o => Model.ans o
  | GetConfig | ClientConfig | BuildConfigFromFlags _ _ => result RestConfig
  | DecodeServerConfig _ => result AuthProviderZitadel
  | Elected _ => unit
  | _ => option error
  end.

Abbreviation Proc := (prog pans).
Abbreviation pevent := (@Prog.event pop pans).
Abbreviation ptrace := (@Prog.trace pop pans).
Abbreviation pcall := (@Prog.call pop pans).

(** A program of the components, run inside the process. *)
Fixpoint lift {A} (p : M A) : Proc A :=
  match p with
  | Ret a => Ret a
  | Panic => Panic
  | Call o k => Call (ans := pans) (Base o) (λ x : pans (Base o), lift (k x))
  end.

(** Its executions are those of the program. *)
Definition base_event (e : event) : pevent := let '(existT o a) := e in ev (Base o) (a : pans (Base o)).

Lemma wp_lift {A} (m : M A) (Q : ptrace → outcome A → Prop) : wp (lift m) Q ↔ wp m (λ tr r, Q (map base_event tr) r).
Proof.
  revert Q. induction m as [a| |o k IH]; intros Q; [done|done|]. simpl.
  split; intros Hw a; specialize (Hw a); by apply IH in Hw || apply IH.
Qed.

(** * Start-up programs *)

(** A start-up step gives a value, or the failure that ends the process. *)
Definition startup (F A : Type) : Type := Proc (F + A).

Definition fail {F A} (f : F) : startup F A := mret (inl f).
Definition proceed {F A} (a : A) : startup F A := mret (inr a).

Definition sbind {F A B} (m : startup F A) (k : A → startup F B) : startup F B :=
  m ≫= λ r, match r with inl f => mret (inl f) | inr a => k a end.

Declare Scope startup_scope.
Delimit Scope startup_scope with startup.
Notation "x ⇐ m ; k" := (sbind m (λ x, k))
  (at level 20, m at level 100, k at level 200, right associativity, only parsing) : startup_scope.
Notation "' x ⇐ m ; k" := (sbind m (λ x, k))
  (at level 20, x pattern, m at level 100, k at level 200, right associativity, only parsing) : startup_scope.

(** A call that reports an error or nothing; a call that gives a value or an error. *)
Definition checked {F} (m : Proc (option error)) (f : error → F) : startup F unit :=
  m ≫= λ r, mret match r with Some e => inl (f e) | None => inr tt end.

Definition fetched {F A} (m : Proc (result A)) (f : error → F) : startup F A :=
  m ≫= λ r, mret match r with Err e => inl (f e) | Ok a => inr a end.

(** A caller that passes a failure on under its own words. *)
Definition rewrapped {F G A} (m : startup F A) (f : F → G) : startup G A :=
  m ≫= λ r, mret match r with inl e => inl (f e) | inr a => inr a end.

(** A call whose error is looked at, not reported. *)
Definition attempted {F A} (m : Proc (result A)) : startup F (result A) := m ≫= λ r, mret (inr r).

(** A program of the components as a step that cannot fail. *)
Definition running {F A} (m : M A) : startup F A := lift m ≫= λ a, mret (inr a).

(** ** Their logic: what holds at a failure and at the end *)

Definition staged {F A} (E : ptrace → F → Prop) (R : ptrace → A → Prop) (m : startup F A) : Prop :=
  wp m (λ tr r, match r with Returned (inl f) => E tr f | Returned (inr a) => R tr a | Panicked => False end).

Lemma staged_bind {F A B} (E : ptrace → F → Prop) (R : ptrace → A → Prop) (R' : ptrace → B → Prop) m k :
  staged E R m → (∀ a tr, R tr a → staged (λ tr', E (tr ++ tr')) (λ tr', R' (tr ++ tr')) (k a)) →
  staged E R' (sbind m k).
Proof.
  intros Hm Hk. unfold staged, sbind. rewrite wp_bind. eapply wp_mono; [exact Hm|].
  intros tr [[f|a]|] Htr; simpl; [by rewrite app_nil_r|by apply Hk|done].
Qed.

Lemma staged_mono {F A} (E E' : ptrace → F → Prop) (R R' : ptrace → A → Prop) m :
  staged E R m → (∀ tr f, E tr f → E' tr f) → (∀ tr a, R tr a → R' tr a) → staged E' R' m.
Proof. intros Hm HE HR. eapply wp_mono; [exact Hm|]. intros tr [[f|a]|]; auto. Qed.

(** The error an event answered with. *)
Definition event_error (e : pevent) : option error :=
  match e with
  | existT (GetConfig | ClientConfig | BuildConfigFromFlags _ _ | DecodeServerConfig _) r =>
      match r with Err e => Some e | Ok _ => None end
  | existT (Base (ReadFile _)) r => match r with Err e => Some e | Ok _ => None end
  | existT (Base (GNewClient _ _ _ _)) r => r
  | existT (Base _) _ | existT (Elected _) _ => None
  | existT (NewCertWatcher _ | NewCluster _ | NewManager _ | NewProvider _ | NewMultiManager _ | NewTokenSource _
            | NewDirectClient _ _ | NewClientset _ | RegisterFinalizer _ _ | CompleteController _ _ _ | AddRunnable _ _ | AddCheck _ _ _ | AddStartedCheck _ _ | AddToScheme _
            | Engage _ _ | ProviderStart _ | StartManager _ | RunUntilManagerStops _ _ | ApplyOptions _
            | BuildServer _ _ | InstallAPIGroup _ _ | RunServer) r => r
  end.

(** The last call failed with [e], and every call before succeeded. *)
Definition failed_last (tr : ptrace) (e : error) : Prop :=
  ∃ pre x, tr = pre ++ [x] ∧ event_error x = Some e ∧ Forall (λ x, event_error x = None) pre.

Definition all_succeeded (tr : ptrace) : Prop := Forall (λ x, event_error x = None) tr.

Lemma failed_last_app tr tr' e : all_succeeded tr → failed_last tr' e → failed_last (tr ++ tr') e.
Proof.
  intros Htr (pre & x & -> & Hx & Hpre). exists (tr ++ pre), x. rewrite app_assoc.
  split; [done|]. split; [done|]. by apply Forall_app.
Qed.

(** For explicit traces. *)
Lemma failed_last_snoc pre x e : all_succeeded pre → event_error x = Some e → failed_last (pre ++ [x]) e.
Proof. intros. by exists pre, x. Qed.

Ltac fails_at_end :=
  match goal with |- failed_last ?tr ?e =>
    let p := eval cbv [removelast] in (removelast tr) in
    apply (failed_last_snoc p); [by repeat constructor|done]
  end.

(** * logging.go *)

Record GlobalConfig := mkGlobalConfig { Development : bool; LogLevel : string; LogFormat : string }.

Inductive Level := DebugLevel | InfoLevel | WarnLevel | ErrorLevel.

Record ZapOptions := mkZapOptions { zo_Development : bool; zo_Level : Level }.

(** [klogV1]: klog's verbosity is at least 1. *)
Definition InitializeLogging `{GoRuntime} (cfg : GlobalConfig) (klogV1 : bool) : ZapOptions :=
  let l := ToLower (LogLevel cfg) in
  let level :=
    if bool_decide (l = "debug") then DebugLevel
    else if bool_decide (l = "info") then InfoLevel
    else if bool_decide (l = "warn" ∨ l = "warning") then WarnLevel
    else if bool_decide (l = "error") then ErrorLevel
    else InfoLevel in
  mkZapOptions (Development cfg || bool_decide (LogFormat cfg = "console") || klogV1) (if klogV1 then DebugLevel else level).

(** klog's verbosity wins over --log-level. *)
Lemma InitializeLogging_verbose `{GoRuntime} cfg : InitializeLogging cfg true = mkZapOptions true DebugLevel.
Proof. unfold InitializeLogging. by rewrite orb_true_r. Qed.
