(* ===== verification/Version.v ===== *)
(** The entry point: cmd/main.go, the version command (cmd/version/version.go) and what it
    prints (pkg/version/version.go). *)

From S2P Require Import Prelude GoLib Prog Model Json Wiring.

(** * main *)

(** The global flags' defaults. *)
Definition globalConfig : GlobalConfig := mkGlobalConfig false "info" "json".

(** The exit status of the process, for what the command tree returns. *)
Definition main (execute : option error) : Z := match execute with Some _ => 1 | None => 0 end.

(** * Version *)

(** The variables the linker sets, with the values they have otherwise. *)
Record BuildVars := mkBuildVars { bv_Version : string; bv_GitCommit : string; bv_BuildDate : string }.
Definition unset_vars : BuildVars := mkBuildVars "dev" "unknown" "unknown".

(** Package runtime. *)
Class GoBuild := { runtime_Version : string; runtime_Compiler : string; GOOS : string; GOARCH : string }.

Record Info := mkInfo {
  vi_Version : string; vi_GitCommit : string; vi_BuildDate : string;
  vi_GoVersion : string; vi_Compiler : string; vi_Platform : string }.

Definition version_Get `{GoBuild} (v : BuildVars) : Info :=
  mkInfo (bv_Version v) (bv_GitCommit v) (bv_BuildDate v) runtime_Version runtime_Compiler (GOOS +:+ "/" +:+ GOARCH).

Definition Info_String (i : Info) : string :=
  "Version: " +:+ vi_Version i +:+ newline +:+ "Git Commit: " +:+ vi_GitCommit i +:+ newline +:+
  "Build Date: " +:+ vi_BuildDate i +:+ newline +:+ "Go Version: " +:+ vi_GoVersion i +:+ newline +:+
  "Compiler: " +:+ vi_Compiler i +:+ newline +:+ "Platform: " +:+ vi_Platform i.

Definition info_members (i : Info) : list (string * string) :=
  [("version", vi_Version i); ("gitCommit", vi_GitCommit i); ("buildDate", vi_BuildDate i);
   ("goVersion", vi_GoVersion i); ("compiler", vi_Compiler i); ("platform", vi_Platform i)].

(** [json.MarshalIndent] with two blanks, of a struct of strings. *)
Definition indented_member (kv : string * string) : string := json_string kv.1 +:+ ": " +:+ json_string kv.2.

Definition MarshalIndent (ms : list (string * string)) : string :=
  chr 123 +:+ newline +:+ "  " +:+ concat_with ("," +:+ newline +:+ "  ") (map indented_member ms) +:+ newline +:+ chr 125.

(** The line printed. *)
Definition runVersion `{GoBuild} (v : BuildVars) (output : string) : result string :=
  let i := version_Get v in
  if bool_decide (output = "json") then Ok (MarshalIndent (info_members i))
  else if bool_decide (output = "text") then Ok (Info_String i)
  else Err (EPlain ("unsupported output format: " +:+ output)).

(** * The JSON form is read back *)

Lemma parse_members_indented fuel depth k v s :
  is_ascii k = true → is_ascii v = true →
  parse_members (S (S fuel)) depth (newline +:+ "  " +:+ indented_member (k, v) +:+ s) =
    let s := skip_ws s in
    if head_is 44 s then prod_map (cons (k, JStr v)) id <$> parse_members (S fuel) depth (tail s)
    else if head_is 125 s then Some ([(k, JStr v)], tail s) else None.
Proof.
  intros Hk Hv. unfold indented_member. cbn [fst snd]. rewrite !str_app_assoc.
  change (parse_members (S (S fuel)) depth (newline +:+ "  " +:+ json_string k +:+ ": " +:+ json_string v +:+ s))
    with (parse_members (S (S fuel)) depth (json_string k +:+ ": " +:+ json_string v +:+ s)).
  rewrite json_string_app, parse_members_quote, parse_json_string by (done || lia). cbn [mbind option_bind].
  etrans; [exact (after_colon (" " +:+ json_string v +:+ s) (λ s, '(v, s) ← parse_value (S fuel) depth s; let s := skip_ws s in
      if head_is 44 s then prod_map (cons (k, v)) id <$> parse_members (S fuel) depth (tail s)
      else if head_is 125 s then Some ([(k, v)], tail s) else None) (λ _, None))|].
  cbv beta. change (parse_value (S fuel) depth (" " +:+ json_string v +:+ s))
    with (parse_value (S fuel) depth (json_string v +:+ s)).
  rewrite json_string_app, parse_value_quote, parse_json_string by (done || lia). done.
Qed.

Definition json_members (ms : list (string * string)) : list (string * json) := map (λ kv, (kv.1, JStr kv.2)) ms.

Lemma parse_indented ms kv fuel depth t :
  forallb (λ kv, is_ascii kv.1 && is_ascii kv.2) (kv :: ms) = true → (length ms + 1 < fuel)%nat →
  parse_members fuel depth
    (newline +:+ "  " +:+ concat_with ("," +:+ newline +:+ "  ") (map indented_member (kv :: ms)) +:+ newline +:+ chr 125 +:+ t)
  = Some (json_members (kv :: ms), t).
Proof.
  revert kv fuel. induction ms as [|kv' ms IH]; intros [k v] fuel Ha Hf; simpl in Ha;
    apply andb_prop in Ha as [[Hk Hv]%andb_prop Ha]; (destruct fuel as [|[|fuel]]; [simpl in Hf; lia..|]).
  - change (concat_with _ (map indented_member [(k, v)])) with (indented_member (k, v)).
    rewrite parse_members_indented by done. reflexivity.
  - change (concat_with ("," +:+ newline +:+ "  ") (map indented_member ((k, v) :: kv' :: ms)))
      with (indented_member (k, v) +:+ ("," +:+ newline +:+ "  ") +:+ concat_with ("," +:+ newline +:+ "  ") (map indented_member (kv' :: ms))).
    rewrite !str_app_assoc, parse_members_indented by done.
    etrans; [exact (after_comma _ (λ s, prod_map (cons (k, JStr v)) id <$> parse_members (S fuel) depth s)
      (λ s, if head_is 125 s then Some ([(k, JStr v)], tail s) else None))|].
    cbv beta. rewrite IH; [done|done|simpl in *; lia].
Qed.

Lemma indented_length ms kv :
  (length (kv :: ms) ≤ String.length (concat_with ("," +:+ newline +:+ "  ") (map indented_member (kv :: ms))))%nat.
Proof.
  assert (∀ kv, 1 ≤ String.length (indented_member kv))%nat as Hone
    by (intros kv'; unfold indented_member, json_string, quoted; rewrite !string_length_app; simpl; lia).
  revert kv. induction ms as [|kv' ms IH]; intros kv; [apply Hone|].
  change (concat_with ?s (map indented_member (kv :: kv' :: ms)))
    with (indented_member kv +:+ s +:+ concat_with s (map indented_member (kv' :: ms))).
  rewrite !string_length_app. specialize (IH kv'). specialize (Hone kv). simpl length in *. lia.
Qed.

Lemma MarshalIndent_parses kv ms :
  forallb (λ kv, is_ascii kv.1 && is_ascii kv.2) (kv :: ms) = true →
  json_parse (MarshalIndent (kv :: ms)) = Some (JObj (json_members (kv :: ms))).
Proof.
  intros Ha. unfold json_parse, parse_prefix. set (text := MarshalIndent (kv :: ms)).
  assert (length (kv :: ms) + 1 < 2 * String.length text)%nat as Hlen.
  { unfold text, MarshalIndent. rewrite !string_length_app. clear text Ha.
    pose proof (indented_length ms kv). simpl in *. lia. }
  destruct (2 * String.length text)%nat as [|n] eqn:Hn; [lia|].
  assert (parse_value (S (S n)) max_nesting text = Some (JObj (json_members (kv :: ms)), EmptyString)) as ->; [|reflexivity].
  unfold text, MarshalIndent. change max_nesting with (S (pred max_nesting)). rewrite parse_value_brace.
  match goal with |- (if head_is 125 (skip_ws ?s) then _ else _) = _ => assert (head_is 125 (skip_ws s) = false) as -> end.
  { destruct ms; reflexivity. }
  pose proof (parse_indented ms kv (S n) (pred max_nesting) EmptyString Ha) as Hp. rewrite str_app_nil_r in Hp.
  rewrite Hp; [done|]. simpl in Hlen. lia.
Qed.

(** What "version -o json" prints is a JSON object that holds the version information. *)
Lemma version_json_roundtrip `{GoBuild} v out :
  forallb (λ kv, is_ascii kv.2) (info_members (version_Get v)) = true → runVersion v "json" = Ok out →
  json_parse out = Some (JObj (json_members (info_members (version_Get v)))).
Proof.
  intros Ha [= <-]. apply (MarshalIndent_parses _ _). cbn [info_members forallb fst snd] in *.
  by repeat match goal with H : _ && _ = true |- _ => apply andb_prop in H as [?H ?H] end; repeat (apply andb_true_intro; split).
Qed.

Example version_json :
  let b := {| runtime_Version := "go1.24"; runtime_Compiler := "gc"; GOOS := "linux"; GOARCH := "amd64" |} in
  match runVersion unset_vars "json" with
  | Ok out => json_parse out = Some (JObj (json_members (info_members (version_Get unset_vars))))
  | Err _ => False
  end ∧ runVersion unset_vars "yaml" = Err (EPlain "unsupported output format: yaml").
Proof. intros b. vm_compute. done. Qed.
