(* ===== verification/Controller.v ===== *)
(** cmd/controller and internal/config/config.go: the controller process, from its flags to
    the managers it starts. *)

From S2P Require Import Prelude GoLib Prog Model Cluster SdkClient UserSweep AbandonedGC Finalizers ServiceAccounts Wiring.

#[local] Open Scope startup_scope.

(** * config.go *)

Record ZitadelConfig := mkZitadelConfig {
  BaseURL : string; MachineAccountKeyPath : string; SDKDomain : string; SDKIssuer : string;
  zc_DefaultMachineKeyExpiration : Z }.

Record MetricsConfig := mkMetricsConfig {
  mc_Addr : string; mc_CertPath : string; mc_CertName : string; mc_CertKey : string; mc_SecureMetrics : bool }.

Record WebhookConfig := mkWebhookCerts { wh_CertPath : string; wh_CertName : string; wh_CertKey : string }.

Record LeaderElectionConfig := mkLeaderElection {
  le_Enabled : bool; le_ID : string; le_Namespace : string; le_ResourceLock : string;
  le_LeaseDuration : Z; le_RenewDeadline : Z; le_RetryPeriod : Z; le_ReleaseOnCancel : bool }.

Record ControllerConfig := mkControllerConfig {
  cc_LeaderElection : LeaderElectionConfig;
  cc_Metrics : MetricsConfig;
  cc_Webhook : WebhookConfig;
  cc_ProbeAddr : string;
  cc_EnableHTTP2 : bool;
  cc_TlsOpts : list TlsOpt;
  cc_UpstreamClusterKubeconfig : string;
  cc_ServerConfigFile : string;
  cc_EmailAddressSuffix : string;
  cc_CoreControlPlaneKubeconfig : string;
  cc_UserSweepInterval : Z;
  cc_AbandonedAccountRetention : Z;
  cc_AbandonedAccountGCInterval : Z;
  cc_AbandonedAccountGCDryRun : bool;
  cc_Zitadel : ZitadelConfig }.

(** What the struct literal leaves out is the zero value. *)
Definition NewControllerConfig : ControllerConfig := {|
  cc_LeaderElection := mkLeaderElection false "auth-provider-zitadel-leader" EmptyString "leases"
                         (15 * Second) (10 * Second) (2 * Second) true;
  cc_Metrics := mkMetricsConfig "0" EmptyString "tls.crt" "tls.key" true;
  cc_Webhook := mkWebhookCerts EmptyString "tls.crt" "tls.key";
  cc_ProbeAddr := ":8081";
  cc_EnableHTTP2 := false;
  cc_TlsOpts := [];
  cc_UpstreamClusterKubeconfig := EmptyString;
  cc_ServerConfigFile := EmptyString;
  cc_EmailAddressSuffix := EmptyString;
  cc_CoreControlPlaneKubeconfig := EmptyString;
  cc_UserSweepInterval := 10 * Minute;
  cc_AbandonedAccountRetention := 30 * 24 * Hour;
  cc_AbandonedAccountGCInterval := 6 * Hour;
  cc_AbandonedAccountGCDryRun := true;
  cc_Zitadel := mkZitadelConfig EmptyString EmptyString EmptyString EmptyString (10 * 365 * 24 * Hour) |}.

(** The configuration a command line without flags leaves: a flag's default replaces the
    field, and most defaults are the field itself. *)
Definition NewControllerCommand : ControllerConfig :=
  let c := NewControllerConfig in
  mkControllerConfig (cc_LeaderElection c) (mkMetricsConfig "0" EmptyString "tls.crt" "tls.key" true)
    (mkWebhookCerts EmptyString "tls.crt" "tls.key") ":8081" false (cc_TlsOpts c) EmptyString EmptyString
    "identity.miloapis.com" EmptyString (cc_UserSweepInterval c) (cc_AbandonedAccountRetention c)
    (cc_AbandonedAccountGCInterval c) (cc_AbandonedAccountGCDryRun c)
    (mkZitadelConfig EmptyString EmptyString EmptyString EmptyString (10 * 365 * 24 * Hour)).

(** Each kubeconfig path falls back to the default configuration when it is empty. *)
Definition kubeconfig_or_default (path : string) : Proc (result RestConfig) :=
  if bool_decide (path = EmptyString) then pcall GetConfig else pcall (BuildConfigFromFlags EmptyString path).

Definition CoreControlPlaneRestConfig (c : ControllerConfig) : Proc (result RestConfig) :=
  kubeconfig_or_default (cc_CoreControlPlaneKubeconfig c).
Definition DiscoveryRestConfig (c : DiscoveryConfig) : Proc (result RestConfig) :=
  kubeconfig_or_default (dc_DiscoveryKubeconfigPath c).
Definition ProjectRestConfig (c : DiscoveryConfig) : Proc (result RestConfig) :=
  kubeconfig_or_default (dc_ProjectKubeconfigPath c).
Definition DownstreamRestConfig (c : AuthProviderZitadel) : Proc (result RestConfig) :=
  kubeconfig_or_default (ap_DownstreamKubeconfigPath c).

(** The provider names of milo's multicluster-runtime. *)
Class DiscoveryModes := {
  ProviderSingle : string;
  ProviderMilo : string;
  modes_distinct : ProviderSingle ≠ ProviderMilo ∧ ProviderSingle ≠ EmptyString ∧ ProviderMilo ≠ EmptyString }.

Definition SetDefaults_DiscoveryConfig `{DiscoveryModes} (obj : DiscoveryConfig) : DiscoveryConfig :=
  if bool_decide (dc_Mode obj = EmptyString) then
    mkDiscovery ProviderSingle (dc_InternalServiceDiscovery obj) (dc_DiscoveryKubeconfigPath obj) (dc_ProjectKubeconfigPath obj)
  else obj.

(** * Leader election *)

Definition leaderElectionQPS : Z := 5000.
Definition leaderElectionBurst : Z := 10.

Definition leaderElectionRestConfig (base : RestConfig) : RestConfig :=
  mkRestConfig (rc_Host base) leaderElectionQPS leaderElectionBurst None (Some (mkDialer (30 * Second) (30 * Second))).

Definition applyLeaderElection (opts : ElectionOptions) (le : LeaderElectionConfig) (upstream : RestConfig) : ElectionOptions :=
  if le_Enabled le then
    mkElectionOptions (eo_LeaderElection opts) (eo_ID opts) (Some (leaderElectionRestConfig upstream)) (le_ReleaseOnCancel le)
      (if bool_decide (le_Namespace le = EmptyString) then eo_Namespace opts else le_Namespace le)
      (if bool_decide (le_ResourceLock le = EmptyString) then eo_ResourceLock opts else le_ResourceLock le)
      (if (0 <? le_LeaseDuration le)%Z then Some (le_LeaseDuration le) else eo_LeaseDuration opts)
      (if (0 <? le_RenewDeadline le)%Z then Some (le_RenewDeadline le) else eo_RenewDeadline opts)
      (if (0 <? le_RetryPeriod le)%Z then Some (le_RetryPeriod le) else eo_RetryPeriod opts)
  else opts.

Definition LeaderElectionID : string := "auth-provider-zitadel.datumapis.com".

(** The leader election part of the manager's options. *)
Definition election_options (cfg : ControllerConfig) (upstream : RestConfig) : ElectionOptions :=
  applyLeaderElection
    (mkElectionOptions (le_Enabled (cc_LeaderElection cfg)) LeaderElectionID None false EmptyString EmptyString None None None)
    (cc_LeaderElection cfg) upstream.

(** * runController *)

(** [setupLog.Error(err, msg); os.Exit(1)]. *)
Record fatal := mkFatal { ft_err : error; ft_msg : string }.

Definition exit_msg (msg : string) : error → fatal := λ e, mkFatal e msg.

(** ** Flags *)

Definition check_flags (cfg : ControllerConfig) : startup fatal unit :=
  if bool_decide (BaseURL (cc_Zitadel cfg) = EmptyString) then
    fail (mkFatal (EPlain "zitadel-base-url must be specified") EmptyString)
  else if bool_decide (MachineAccountKeyPath (cc_Zitadel cfg) = EmptyString) then
    fail (mkFatal (EPlain "zitadel-machine-account-key-path must be specified") EmptyString)
  else if bool_decide (cc_ServerConfigFile cfg = EmptyString) then
    fail (mkFatal (EPlain "must provide --server-config") EmptyString)
  else proceed tt.

(** ** TLS *)

Definition disableHTTP2 : TlsOpt := λ c, mkTlsConfig ["http/1.1"] (GetCertificate c).
Definition serve_certificate (w : CertWatcher) : TlsOpt := λ c, mkTlsConfig (NextProtos c) (Some w).

(** Appending to the options never overwrites those of the other listener: the shared
    slice is as long as its capacity, so each append copies it. *)
Definition tls_opts (cfg : ControllerConfig) : list TlsOpt :=
  cc_TlsOpts cfg ++ (if cc_EnableHTTP2 cfg then [] else [disableHTTP2]).

(** A certificate watcher when a directory is given; its certificate is an option after [opts]. *)
Definition with_certificate (opts : list TlsOpt) (dir name key : string) (msg : string) : startup fatal (list TlsOpt) :=
  if (0 <? Z.of_nat (String.length dir))%Z then
    let w := mkCertWatcher (filepath_Join dir name) (filepath_Join dir key) in
    _ ⇐ checked (pcall (NewCertWatcher w)) (exit_msg msg);
    proceed (opts ++ [serve_certificate w])
  else proceed opts.

Definition webhook_server (cfg : ControllerConfig) : startup fatal WebhookOptions :=
  let wh := cc_Webhook cfg in
  opts ⇐ with_certificate (tls_opts cfg) (wh_CertPath wh) (wh_CertName wh) (wh_CertKey wh)
           "Failed to initialize webhook certificate watcher";
  proceed (mkWebhookOptions EmptyString EmptyString EmptyString EmptyString 0 opts).

Definition metrics_options (cfg : ControllerConfig) : startup fatal MetricsOptions :=
  let m := cc_Metrics cfg in
  opts ⇐ with_certificate (tls_opts cfg) (mc_CertPath m) (mc_CertName m) (mc_CertKey m)
           "to initialize metrics certificate watcher";
  proceed (mkMetricsOptions (mc_Addr m) (mc_SecureMetrics m) (mc_SecureMetrics m) opts).

(** ** Clusters *)

(** The package's scheme. *)
Definition scheme : Scheme := [ClientGoTypes; IamTypes; ResourceManagerTypes].

Definition upstream_config (cfg : ControllerConfig) : startup fatal RestConfig :=
  if bool_decide (cc_UpstreamClusterKubeconfig cfg = EmptyString) then
    fetched (pcall GetConfig) (exit_msg "unable to load default kubeconfig")
  else fetched (pcall (BuildConfigFromFlags EmptyString (cc_UpstreamClusterKubeconfig cfg)))
         (exit_msg "unable to load upstream kubeconfig").

Section Discovery.
Context `{DiscoveryModes}.

Definition discovery_manager (c : RestConfig) : Manager := mkManager c (mkManagerOptions None None None EmptyString true no_election).

Definition initializeClusterDiscovery (serverConfig : AuthProviderZitadel) (deploymentCluster : Cluster) (scheme : Scheme)
    : startup error (list Runnable * Provider) :=
  let runnables := [ClusterRunnable deploymentCluster] in
  let d := ap_Discovery serverConfig in
  if bool_decide (dc_Mode d = ProviderSingle) then proceed (runnables, SingleProvider "single" deploymentCluster)
  else if bool_decide (dc_Mode d = ProviderMilo) then
    discoveryRestConfig ⇐ fetched (DiscoveryRestConfig d) (EWrap "unable to get discovery rest config: ");
    projectRestConfig ⇐ fetched (ProjectRestConfig d) (EWrap "unable to get project rest config: ");
    let discoveryManager := discovery_manager discoveryRestConfig in
    _ ⇐ checked (pcall (NewManager discoveryManager)) (EWrap "unable to set up overall controller manager: ");
    let provider := MiloProvider discoveryManager scheme (dc_InternalServiceDiscovery d) projectRestConfig in
    _ ⇐ checked (pcall (NewProvider provider)) (EWrap "unable to create datum project provider: ");
    proceed (runnables ++ [ManagerRunnable discoveryManager], provider)
  else fail (EPlain ("unsupported cluster discovery mode " +:+ dc_Mode d)).
End Discovery.

(** [wrappedSingleClusterProvider.Start]; [runnable] tells whether the wrapped provider is
    a ProviderRunnable. *)
Definition wrapped_Start (runnable : bool) (name : string) (cluster : Cluster) : Proc (option error) :=
  e ← pcall (Engage name cluster);
  match e with
  | Some e => mret (Some e)
  | None => if runnable then pcall (ProviderStart (SingleProvider name cluster)) else mret None
  end.

(** [coreControlPlaneRunnable] *)
Definition core_Start (mgr : MultiManager) (coreControlPlaneMgr : Manager) : Proc (option error) :=
  _ ← pcall (Elected mgr);
  pcall (StartManager coreControlPlaneMgr).

Definition core_Engage : option error := None.

(** ** The whole *)

Section Run.
Context `{GoRuntime} `{DiscoveryModes}.

Definition read_server_config (cfg : ControllerConfig) : startup fatal AuthProviderZitadel :=
  data ⇐ fetched (lift (call (ReadFile (cc_ServerConfigFile cfg))))
           (λ _, mkFatal (EPlain ("unable to read server config from " +:+ quote (cc_ServerConfigFile cfg))) EmptyString);
  fetched (pcall (DecodeServerConfig data)) (exit_msg "unable to decode server config").

Definition main_options (cfg : ControllerConfig) (upstream : RestConfig) (metrics : MetricsOptions) (hook : WebhookOptions)
    : ManagerOptions :=
  mkManagerOptions (Some scheme) (Some metrics) (Some hook) (cc_ProbeAddr cfg) false (election_options cfg upstream).

Definition core_options : ManagerOptions :=
  mkManagerOptions (Some scheme) (Some (mkMetricsOptions "0" false false [])) None "0" false no_election.

(** The SDK client's configuration. *)
Definition sdk_config (z : ZitadelConfig) : SDKConfig :=
  mkSDKConfig (if bool_decide (SDKDomain z = EmptyString) then BaseURL z else SDKDomain z)
    (if bool_decide (SDKIssuer z = EmptyString) then BaseURL z else SDKIssuer z)
    (MachineAccountKeyPath z) (zc_DefaultMachineKeyExpiration z).

Definition token_source (z : ZitadelConfig) : TokenSource :=
  mkTokenSource (BaseURL z) (MachineAccountKeyPath z) ["urn:zitadel:iam:org:project:id:zitadel:aud"].

(** The two Zitadel clients. *)
Definition zitadel_clients (cfg : ControllerConfig) : startup fatal (RestClient * SDKConfig) :=
  let z := cc_Zitadel cfg in
  _ ⇐ checked (pcall (NewTokenSource (token_source z))) (exit_msg "unable to create token source");
  sdk ⇐ fetched (lift (NewSDK (sdk_config z))) (exit_msg "unable to create Zitadel SDK client");
  proceed (mkRestClient (BaseURL z) (token_source z), sdk).

(** The reconcilers' SetupWithManager: the finalizer under the key the reconciler removes,
    then the controller, under a name of its own or (None) the one of its kind. *)
Definition service_account_SetupWithManager (r : Reconciler) (mgr : Host) : startup error unit :=
  _ ⇐ checked (pcall (RegisterFinalizer serviceAccountFinalizerKey r))
        (EWrap "failed to register service account finalizer: ");
  checked (pcall (CompleteController r mgr (Some "serviceaccount"))) id.

Definition project_SetupWithManager (r : Reconciler) (mgr : Host) : startup error unit :=
  _ ⇐ checked (pcall (RegisterFinalizer projectFinalizerKey r)) (EWrap "register project finalizer: ");
  checked (pcall (CompleteController r mgr None)) id.

Definition platform_access_SetupWithManager (r : Reconciler) (mgr : Host) : startup error unit :=
  checked (pcall (CompleteController r mgr (Some "platformaccess"))) id.

Definition user_SetupWithManager (r : Reconciler) (mgr : Host) : startup error unit :=
  _ ⇐ checked (pcall (RegisterFinalizer userFinalizerKey r)) (EWrap "failed to register user finalizer: ");
  checked (pcall (CompleteController r mgr (Some "user"))) id.

Definition SetupWithManager (r : Reconciler) : Host → startup error unit :=
  match r with
  | ServiceAccountController _ _ => service_account_SetupWithManager r
  | ProjectController _ => project_SetupWithManager r
  | PlatformAccessController _ _ => platform_access_SetupWithManager r
  | UserController _ _ => user_SetupWithManager r
  end.

Definition setup_controller (r : Reconciler) (h : Host) : startup fatal unit :=
  rewrapped (SetupWithManager r h) (exit_msg "unable to create controller").

Definition abandoned_gc (cfg : ControllerConfig) : AbandonedUserGC :=
  mkGC (cc_AbandonedAccountGCInterval cfg) (cc_AbandonedAccountRetention cfg) (cc_AbandonedAccountGCDryRun cfg).

(** The controllers, the sweeps and the checks, in the order they are registered. *)
Definition register (cfg : ControllerConfig) (mgr : MultiManager) (core : Manager) (http : RestClient) (sdk : SDKConfig)
    : startup fatal unit :=
  _ ⇐ setup_controller (ServiceAccountController sdk (cc_EmailAddressSuffix cfg)) (OnMulti mgr);
  _ ⇐ setup_controller (ProjectController sdk) (OnManager core);
  _ ⇐ setup_controller (PlatformAccessController core http) (OnManager core);
  _ ⇐ setup_controller (UserController core http) (OnManager core);
  _ ⇐ checked (pcall (AddRunnable (GCRunnable core sdk (abandoned_gc cfg)) (OnManager core)))
        (exit_msg "unable to add abandoned-account GC");
  _ ⇐ checked (pcall (AddRunnable (SweeperRunnable core sdk (mkSweeper (cc_UserSweepInterval cfg))) (OnManager core)))
        (exit_msg "unable to add user sweeper");
  _ ⇐ checked (pcall (AddRunnable (CoreRunnable mgr core) (OnMulti mgr)))
        (exit_msg "unable to set up core control plane manager");
  _ ⇐ checked (pcall (AddCheck false "healthz" mgr)) (exit_msg "unable to set up health check");
  checked (pcall (AddCheck true "readyz" mgr)) (exit_msg "unable to set up ready check").

(** The clusters and the managers. *)
Definition managers (cfg : ControllerConfig) (serverConfig : AuthProviderZitadel) (hook : WebhookOptions)
    (metrics : MetricsOptions) : startup fatal (MultiManager * Manager * list Runnable) :=
  upstream ⇐ upstream_config cfg;
  deploymentConfig ⇐ fetched (pcall GetConfig) (exit_msg "unable to get kubeconfig");
  let deployment := mkCluster deploymentConfig scheme in
  _ ⇐ checked (pcall (NewCluster deployment)) (exit_msg "failed to construct downstream cluster");
  discovered ⇐ initializeClusterDiscovery serverConfig deployment scheme ≫= (λ r,
    mret match r with inl e => inl (mkFatal e "unable to initialize cluster discovery") | inr x => inr x end);
  coreConfig ⇐ fetched (CoreControlPlaneRestConfig cfg) (exit_msg "failed to construct core control plane cluster config");
  let coreCluster := mkCluster coreConfig scheme in
  _ ⇐ checked (pcall (NewCluster coreCluster)) (exit_msg "failed to construct core control plane cluster");
  let mgr := mkMultiManager upstream discovered.2 (main_options cfg upstream metrics hook) in
  _ ⇐ checked (pcall (NewMultiManager mgr)) (exit_msg "unable to start multicluster manager");
  let core := mkManager coreConfig core_options in
  _ ⇐ checked (pcall (NewManager core)) (exit_msg "unable to create core control plane manager");
  proceed (mgr, core, discovered.1 ++ [ClusterRunnable coreCluster]).

Definition runController (cfg : ControllerConfig) : startup fatal unit :=
  _ ⇐ check_flags cfg;
  serverConfig ⇐ read_server_config cfg;
  hook ⇐ webhook_server cfg;
  metrics ⇐ metrics_options cfg;
  '(mgr, core, runnables) ⇐ managers cfg serverConfig hook metrics;
  '(http, sdk) ⇐ zitadel_clients cfg;
  _ ⇐ register cfg mgr core http sdk;
  checked (pcall (RunUntilManagerStops mgr runnables)) (exit_msg "unable to start").
End Run.

(** * How the process starts *)

(** The calls that register something with a manager or start the managers. *)
Definition registers (e : pevent) : bool :=
  match projT1 e with
  | RegisterFinalizer _ _ | CompleteController _ _ _ | AddRunnable _ _ | AddCheck _ _ _ | RunUntilManagerStops _ _ => true
  | _ => false
  end.

Definition starts (e : pevent) : bool := match projT1 e with RunUntilManagerStops _ _ => true | _ => false end.

(** Nothing failed and nothing is registered yet. *)
Definition preparing (tr : ptrace) : Prop := all_succeeded tr ∧ Forall (λ e, registers e = false) tr.

Definition not_started (tr : ptrace) : Prop := Forall (λ e, starts e = false) tr.

Definition answered (o : pop) (a : pans o) (tr : ptrace) : Prop := (ev o a : pevent) ∈ tr.

(** The configuration loaded for a kubeconfig path. *)
Definition loaded (path : string) (c : RestConfig) (tr : ptrace) : Prop :=
  if bool_decide (path = EmptyString) then answered GetConfig (Ok c) tr
  else answered (BuildConfigFromFlags EmptyString path) (Ok c) tr.

(** The TLS configuration of a listener that starts from [c]. *)
Definition listens (cfg : ControllerConfig) (opts : list TlsOpt) (dir name key : string) : Prop :=
  ∀ c, let c' := apply_tls (cc_TlsOpts cfg) c in
    apply_tls opts c =
      mkTlsConfig (if cc_EnableHTTP2 cfg then NextProtos c' else ["http/1.1"])
        (if bool_decide (dir = EmptyString) then GetCertificate c'
         else Some (mkCertWatcher (filepath_Join dir name) (filepath_Join dir key))).

(** The exit reports a failed call; only the text of a failed file read is replaced. *)
Definition reports (f : fatal) (e : error) : Prop :=
  ft_err f = e ∨ (∃ pre, ft_err f = EWrap pre e) ∨ ∃ m, ft_err f = EPlain ("unable to read server config from " +:+ m).

Definition broken (tr : ptrace) (f : fatal) : Prop := not_started tr ∧ ∃ e, failed_last tr e ∧ reports f e.

(** Why a start is refused although every call succeeded. *)
Definition flag_missing (cfg : ControllerConfig) (f : fatal) : Prop :=
  (BaseURL (cc_Zitadel cfg) = EmptyString ∧ f = mkFatal (EPlain "zitadel-base-url must be specified") EmptyString) ∨
  (MachineAccountKeyPath (cc_Zitadel cfg) = EmptyString ∧
     f = mkFatal (EPlain "zitadel-machine-account-key-path must be specified") EmptyString) ∨
  (cc_ServerConfigFile cfg = EmptyString ∧ f = mkFatal (EPlain "must provide --server-config") EmptyString).

Lemma preparing_app tr tr' : preparing tr → preparing tr' → preparing (tr ++ tr').
Proof. intros [? ?] [? ?]. split; by apply Forall_app. Qed.

Lemma preparing_not_started tr : preparing tr → not_started tr.
Proof.
  intros [_ H]. eapply Forall_impl; [|exact H]. intros [o a]. unfold registers, starts. simpl. by destruct o.
Qed.

Lemma broken_app tr tr' f : preparing tr → broken tr' f → broken (tr ++ tr') f.
Proof.
  intros Hp [Hs (e & He & Hr)]. split; [apply Forall_app; split; [by apply preparing_not_started|done]|].
  exists e. split; [|done]. apply failed_last_app; [apply Hp|done].
Qed.

Lemma answered_app o a tr tr' : answered o a tr ∨ answered o a tr' → answered o a (tr ++ tr').
Proof. intros. by apply elem_of_app. Qed.

Lemma loaded_app path c tr tr' : loaded path c tr ∨ loaded path c tr' → loaded path c (tr ++ tr').
Proof. unfold loaded. case_bool_decide; apply answered_app. Qed.

(** One failing call ends a start-up. *)
Lemma broken_one x f e : starts x = false → event_error x = Some e → reports f e → broken [x] f.
Proof. intros Hs He Hr. split; [by repeat constructor|]. exists e. split; [|done]. by exists [], x. Qed.

Ltac succeed := split; repeat constructor.

Lemma kubeconfig_stage path (f : error → fatal) :
  (∀ e, reports (f e) e) →
  staged broken (λ tr c, preparing tr ∧ loaded path c tr) (fetched (kubeconfig_or_default path) f).
Proof.
  intros Hf. unfold kubeconfig_or_default, loaded. case_bool_decide; intros [c|e]; simpl;
    first [by eapply broken_one | split; [by succeed|by left]].
Qed.

Lemma with_certificate_stage cfg dir name key msg :
  staged broken (λ tr opts, preparing tr ∧ listens cfg opts dir name key)
    (with_certificate (tls_opts cfg) dir name key msg).
Proof.
  assert (∀ opts c, apply_tls (cc_TlsOpts cfg ++ opts) c = apply_tls opts (apply_tls (cc_TlsOpts cfg) c)) as Happ
    by (intros; apply foldl_app).
  unfold with_certificate, tls_opts, listens. destruct dir as [|d dir]; simpl.
  - split; [by succeed|]. intros c. rewrite Happ. destruct (cc_EnableHTTP2 cfg); simpl; [|done]. by destruct (apply_tls _ c).
  - intros [e|]; simpl; [by eapply broken_one; [done..|left]|]. split; [by succeed|]. intros c.
    rewrite <-app_assoc, Happ. by destruct (cc_EnableHTTP2 cfg).
Qed.

Section Start.
Context `{GoRuntime} `{DiscoveryModes}.

(** What cluster discovery gives for each mode. *)
Definition discovered (d : DiscoveryConfig) (deployment : Cluster) (tr : ptrace) (runnables : list Runnable) (p : Provider) : Prop :=
  (dc_Mode d = ProviderSingle ∧ runnables = [ClusterRunnable deployment] ∧ p = SingleProvider "single" deployment) ∨
  (dc_Mode d = ProviderMilo ∧ ∃ discovery project,
     loaded (dc_DiscoveryKubeconfigPath d) discovery tr ∧ loaded (dc_ProjectKubeconfigPath d) project tr ∧
     runnables = [ClusterRunnable deployment; ManagerRunnable (discovery_manager discovery)] ∧
     p = MiloProvider (discovery_manager discovery) scheme (dc_InternalServiceDiscovery d) project).

Definition unsupported_mode (d : DiscoveryConfig) (f : fatal) : Prop :=
  dc_Mode d ≠ ProviderSingle ∧ dc_Mode d ≠ ProviderMilo ∧
  f = mkFatal (EPlain ("unsupported cluster discovery mode " +:+ dc_Mode d)) "unable to initialize cluster discovery".

Lemma discovered_app d deployment tr tr' rs p :
  discovered d deployment tr rs p ∨ discovered d deployment tr' rs p → discovered d deployment (tr ++ tr') rs p.
Proof.
  unfold discovered. intros [[?|(? & dc & pc & ? & ? & ?)]|[?|(? & dc & pc & ? & ? & ?)]]; [by left| |by left|];
    right; (split; [done|]); exists dc, pc; auto using loaded_app.
Qed.

(** The stage of [kubeconfig_or_default] inside discovery, whose errors are wrapped. *)
Lemma discovery_config_stage path pre :
  staged (λ tr e, broken tr (mkFatal e "unable to initialize cluster discovery")) (λ tr c, preparing tr ∧ loaded path c tr)
    (fetched (kubeconfig_or_default path) (EWrap pre)).
Proof.
  unfold kubeconfig_or_default, loaded. case_bool_decide; intros [c|e]; simpl;
    first [by eapply broken_one; [done..|right; left; eauto] | split; [by succeed|by left]].
Qed.

Lemma discovery_stage sc deployment :
  staged (λ tr e, let f := mkFatal e "unable to initialize cluster discovery" in
                  broken tr f ∨ preparing tr ∧ unsupported_mode (ap_Discovery sc) f)
    (λ tr '(rs, p), preparing tr ∧ discovered (ap_Discovery sc) deployment tr rs p)
    (initializeClusterDiscovery sc deployment scheme).
Proof.
  unfold initializeClusterDiscovery, discovered. case_bool_decide as Hs; [split; [by succeed|by left]|].
  case_bool_decide as Hm; [|right; by split; [succeed|]].
  eapply staged_bind; [eapply staged_mono; [apply discovery_config_stage|by left|done]|].
  intros discovery tr1 [H1 L1]. simpl.
  eapply staged_bind; [eapply staged_mono; [apply discovery_config_stage|intros tr f; rewrite <-?app_assoc; left; by apply broken_app|done]|].
  intros project tr2 [H2 L2].
  intros [e|]; simpl; [left|intros [e|]; simpl; [left|]].
  - do 2 (apply broken_app; [done|]). eapply broken_one; [done..|right; left; eauto].
  - do 2 (apply broken_app; [done|]). split; [by repeat constructor|]. exists e. split; [|right; left; eauto].
    eexists [_], _. by split; [done|]; split; [done|]; repeat constructor.
  - split; [do 2 (apply preparing_app; [done|]); by succeed|]. right. split; [done|]. exists discovery, project.
    split; [apply loaded_app; by left|]. split; [apply loaded_app; right; apply loaded_app; by left|]. done.
Qed.

(** The managers, the provider and the workers, made of the configurations loaded. *)
Definition wired (cfg : ControllerConfig) (sc : AuthProviderZitadel) (hook : WebhookOptions) (metrics : MetricsOptions)
    (mgr : MultiManager) (core : Manager) (workers : list Runnable) (tr : ptrace) : Prop :=
  ∃ upstream deployment coreConfig rs p,
    loaded (cc_UpstreamClusterKubeconfig cfg) upstream tr ∧
    answered GetConfig (Ok deployment) tr ∧
    loaded (cc_CoreControlPlaneKubeconfig cfg) coreConfig tr ∧
    discovered (ap_Discovery sc) (mkCluster deployment scheme) tr rs p ∧
    mgr = mkMultiManager upstream p (main_options cfg upstream metrics hook) ∧
    core = mkManager coreConfig core_options ∧
    workers = rs ++ [ClusterRunnable (mkCluster coreConfig scheme)].

Lemma upstream_stage cfg :
  staged broken (λ tr c, preparing tr ∧ loaded (cc_UpstreamClusterKubeconfig cfg) c tr) (upstream_config cfg).
Proof.
  unfold upstream_config, loaded. case_bool_decide; intros [c|e]; simpl;
    first [by eapply broken_one; [done..|left] | split; [by succeed|by left]].
Qed.

(** A call with an error or nothing. *)
Definition plain_call (m : Proc (option error)) : Prop :=
  (∀ Q : ptrace → outcome (option error) → Prop,
     (∀ x r, event_error x = r → registers x = false → Q [x] (Returned r)) → wp m Q).

Lemma checked_stage m msg : plain_call m → staged broken (λ tr _, preparing tr ∧ True) (checked m (exit_msg msg)).
Proof.
  intros Hm. unfold staged, checked. rewrite wp_bind. apply Hm. intros x [e|] Hx Hr; simpl.
  - eapply broken_one; [|exact Hx|by left]. destruct x as [[] a]; done.
  - split; [|done]. split; repeat constructor; done.
Qed.

Lemma config_stage msg : staged broken (λ tr c, preparing tr ∧ answered GetConfig (Ok c) tr) (fetched (pcall GetConfig) (exit_msg msg)).
Proof. intros [c|e]; simpl; [split; [by succeed|by left]|]. by eapply broken_one; [done..|left]. Qed.

(** A step after the calls of [pre]. *)
Definition after {A} (pre : ptrace) (E : ptrace → fatal → Prop) (R : ptrace → A → Prop) (m : startup fatal A) : Prop :=
  staged (λ tr, E (pre ++ tr)) (λ tr, R (pre ++ tr)) m.

Lemma after_bind {A B} pre (E1 E : ptrace → fatal → Prop) (R1 : ptrace → A → Prop) (R : ptrace → B → Prop) m k :
  preparing pre → staged E1 (λ tr a, preparing tr ∧ R1 tr a) m → (∀ tr f, E1 tr f → E (pre ++ tr) f) →
  (∀ a tr, preparing (pre ++ tr) → R1 tr a → after (pre ++ tr) E R (k a)) → after pre E R (sbind m k).
Proof.
  intros Hpre Hm HE Hk. eapply staged_bind; [eapply staged_mono; [exact Hm|exact HE|done]|].
  intros a tr [Hp HR]. eapply staged_mono; [by apply (Hk a tr); [apply preparing_app|]|..]; intros tr' x; by rewrite app_assoc.
Qed.

Lemma after_nil {A} E (R : ptrace → A → Prop) m : after [] E R m → staged E R m.
Proof. done. Qed.

(** Either a call failed, or the discovery mode is unknown. *)
Definition refused (sc : AuthProviderZitadel) (tr : ptrace) (f : fatal) : Prop :=
  broken tr f ∨ preparing tr ∧ unsupported_mode (ap_Discovery sc) f.

Lemma refused_app sc pre tr f : preparing pre → broken tr f ∨ refused sc tr f → refused sc (pre ++ tr) f.
Proof.
  intros Hpre [?|[?|[? ?]]]; [left; by apply broken_app..|right]. split; [by apply preparing_app|done].
Qed.

Lemma discovery_exit_stage sc deployment :
  staged (refused sc) (λ tr x, preparing tr ∧ discovered (ap_Discovery sc) deployment tr x.1 x.2)
    (initializeClusterDiscovery sc deployment scheme ≫= (λ r,
       mret match r with inl e => inl (mkFatal e "unable to initialize cluster discovery") | inr x => inr x end)).
Proof.
  unfold staged. rewrite wp_bind. eapply wp_mono; [apply (discovery_stage sc deployment)|].
  intros tr [[e|[rs p]]|]; simpl; [|by rewrite app_nil_r|done]. by rewrite app_nil_r.
Qed.

Ltac next_stage L := eapply after_bind; [done|apply L|intros; apply refused_app; [done|by (left + right)]|].
Ltac checked_next := next_stage (checked_stage); [intros Q HQ a; by apply HQ|].

Lemma managers_stage cfg sc hook metrics :
  staged (refused sc) (λ tr '(mgr, core, rs), preparing tr ∧ wired cfg sc hook metrics mgr core rs tr)
    (managers cfg sc hook metrics).
Proof.
  unfold managers. apply after_nil. assert (preparing []) as H0' by by succeed.
  next_stage upstream_stage. intros upstream tr1 H1 Hup.
  next_stage config_stage. intros dep tr2 H2 Hdep. cbv zeta.
  checked_next. intros [] tr3 H3 _.
  next_stage discovery_exit_stage. intros [rs p] tr4 H4 Hd.
  next_stage (kubeconfig_stage (cc_CoreControlPlaneKubeconfig cfg) (exit_msg "failed to construct core control plane cluster config")); [by left|].
  intros coreConfig tr5 H5 Hcore.
  checked_next. intros [] tr6 H6 _. checked_next. intros [] tr7 H7 _. checked_next. intros [] tr8 H8 _.
  cbn -[app]. rewrite app_nil_r. split; [done|].
  exists upstream, dep, coreConfig, rs, p.
  repeat match goal with |- _ ∧ _ => split end; try done.
  - do 7 (apply loaded_app; left). done.
  - do 6 (apply answered_app; left). apply answered_app. by right.
  - do 3 (apply loaded_app; left). apply loaded_app. by right.
  - do 4 (apply discovered_app; left). apply discovered_app. by right.
Qed.

Definition sdk_refused (z : ZitadelConfig) (tr : ptrace) (f : fatal) : Prop :=
  broken tr f ∨ preparing tr ∧ ∃ e, sdk_target (sdk_config z) = Err e ∧ f = mkFatal e "unable to create Zitadel SDK client".

Lemma sdk_config_named z :
  BaseURL z ≠ EmptyString → MachineAccountKeyPath z ≠ EmptyString →
  Domain (sdk_config z) ≠ EmptyString ∧ Issuer (sdk_config z) ≠ EmptyString ∧ KeyPath (sdk_config z) ≠ EmptyString.
Proof. intros. simpl. by repeat case_bool_decide. Qed.

(** The configuration names every field, so the environment variables are not read. *)
Lemma NewSDK_stage z :
  BaseURL z ≠ EmptyString → MachineAccountKeyPath z ≠ EmptyString →
  staged (sdk_refused z) (λ tr s, preparing tr ∧ s = sdk_config z)
    (fetched (lift (NewSDK (sdk_config z))) (exit_msg "unable to create Zitadel SDK client")).
Proof.
  intros Hb Hk.
  assert (NewSDK (sdk_config z) =
          match sdk_target (sdk_config z) with
          | Err e => mret (Err e)
          | Ok (host, port) =>
              e ← call (GNewClient host port (Issuer (sdk_config z)) (KeyPath (sdk_config z)));
              mret match e with Some e => Err e | None => Ok (sdk_config z) end
          end) as ->.
  { unfold NewSDK, env_or. destruct (sdk_config_named z Hb Hk) as (? & ? & ?). rewrite !bool_decide_false by done. done. }
  unfold sdk_refused. destruct (sdk_target _) as [[host port]|e].
  - intros [e|]; simpl; [left; by eapply broken_one; [done..|left]|split; [by succeed|done]].
  - right. split; [by succeed|]. eauto.
Qed.

Lemma clients_stage cfg :
  let z := cc_Zitadel cfg in
  BaseURL z ≠ EmptyString → MachineAccountKeyPath z ≠ EmptyString →
  staged (sdk_refused z) (λ tr x, preparing tr ∧ x = (mkRestClient (BaseURL z) (token_source z), sdk_config z))
    (zitadel_clients cfg).
Proof.
  intros z Hb Hk. unfold zitadel_clients. apply after_nil. assert (preparing []) as H0' by by succeed.
  eapply after_bind; [done|apply checked_stage; intros Q HQ a; by apply HQ|intros; left; by apply broken_app|]. intros [] tr1 H1 _.
  eapply after_bind; [done|by apply NewSDK_stage| |].
  - intros tr f [?|[? ?]]; [left; by apply broken_app|right]. split; [by apply preparing_app|done].
  - intros sdk tr2 H2 ->. cbn -[app]. by rewrite app_nil_r.
Qed.

(** The registrations of a process that starts, in order. *)
Definition registrations (cfg : ControllerConfig) (mgr : MultiManager) (core : Manager) : ptrace :=
  let z := cc_Zitadel cfg in
  let http := mkRestClient (BaseURL z) (token_source z) in
  let sdk := sdk_config z in
  let service_accounts := ServiceAccountController sdk (cc_EmailAddressSuffix cfg) in
  [ev (RegisterFinalizer serviceAccountFinalizerKey service_accounts) None;
   ev (CompleteController service_accounts (OnMulti mgr) (Some "serviceaccount")) None;
   ev (RegisterFinalizer projectFinalizerKey (ProjectController sdk)) None;
   ev (CompleteController (ProjectController sdk) (OnManager core) None) None;
   ev (CompleteController (PlatformAccessController core http) (OnManager core) (Some "platformaccess")) None;
   ev (RegisterFinalizer userFinalizerKey (UserController core http)) None;
   ev (CompleteController (UserController core http) (OnManager core) (Some "user")) None;
   ev (AddRunnable (GCRunnable core sdk (abandoned_gc cfg)) (OnManager core)) None;
   ev (AddRunnable (SweeperRunnable core sdk (mkSweeper (cc_UserSweepInterval cfg))) (OnManager core)) None;
   ev (AddRunnable (CoreRunnable mgr core) (OnMulti mgr)) None;
   ev (AddCheck false "healthz" mgr) None;
   ev (AddCheck true "readyz" mgr) None].

Lemma broken_prefix pre x e f :
  all_succeeded pre → not_started pre → starts x = false → event_error x = Some e → reports f e → broken (pre ++ [x]) f.
Proof.
  intros Hp Hs Hx He Hr. split; [apply Forall_app; split; [done|by repeat constructor]|].
  exists e. split; [|done]. by exists pre, x.
Qed.

Lemma register_stage cfg mgr core :
  staged broken (λ tr _, tr = registrations cfg mgr core)
    (register cfg mgr core (mkRestClient (BaseURL (cc_Zitadel cfg)) (token_source (cc_Zitadel cfg))) (sdk_config (cc_Zitadel cfg))).
Proof.
  unfold register, setup_controller, SetupWithManager.
  repeat (intros [e|]; simpl; [match goal with |- broken (?x :: ?l) ?f =>
    let tr := constr:(x :: l) in let p := eval cbv [removelast] in (removelast tr) in
    eapply (broken_prefix p); [by repeat constructor|by repeat constructor|done|done|first [by left|right; left; by eexists]] end|]).
  done.
Qed.

(** A process that reaches the start of its managers, which answers [a]. *)
Definition launched (cfg : ControllerConfig) (tr : ptrace) (a : option error) : Prop :=
  ∃ pre data sc hook metrics mgr core workers,
    tr = pre ++ registrations cfg mgr core ++ [ev (RunUntilManagerStops mgr workers) a] ∧ preparing pre ∧
    answered (Base (ReadFile (cc_ServerConfigFile cfg))) (Ok data) pre ∧ answered (DecodeServerConfig data) (Ok sc) pre ∧
    wired cfg sc hook metrics mgr core workers pre ∧
    listens cfg (wo_TLSOpts hook) (wh_CertPath (cc_Webhook cfg)) (wh_CertName (cc_Webhook cfg)) (wh_CertKey (cc_Webhook cfg)) ∧
    listens cfg (ms_TLSOpts metrics) (mc_CertPath (cc_Metrics cfg)) (mc_CertName (cc_Metrics cfg)) (mc_CertKey (cc_Metrics cfg)) ∧
    ms_SecureServing metrics = mc_SecureMetrics (cc_Metrics cfg) ∧ ms_Filter metrics = mc_SecureMetrics (cc_Metrics cfg).

(** A process that exits before. *)
Definition exits (cfg : ControllerConfig) (tr : ptrace) (f : fatal) : Prop :=
  (tr = [] ∧ flag_missing cfg f) ∨
  broken tr f ∨
  (preparing tr ∧ ∃ data sc, answered (DecodeServerConfig data) (Ok sc) tr ∧ unsupported_mode (ap_Discovery sc) f) ∨
  (preparing tr ∧ ∃ e, sdk_target (sdk_config (cc_Zitadel cfg)) = Err e ∧ f = mkFatal e "unable to create Zitadel SDK client").

Definition launch_post (cfg : ControllerConfig) (tr : ptrace) (r : outcome (fatal + unit)) : Prop :=
  match r with
  | Returned (inr _) => launched cfg tr None
  | Returned (inl f) => exits cfg tr f ∨ ∃ e, f = mkFatal e "unable to start" ∧ launched cfg tr (Some e)
  | Panicked => False
  end.

Lemma read_server_config_stage cfg :
  staged broken (λ tr sc, preparing tr ∧ ∃ data, answered (Base (ReadFile (cc_ServerConfigFile cfg))) (Ok data) tr ∧
                                          answered (DecodeServerConfig data) (Ok sc) tr) (read_server_config cfg).
Proof.
  unfold read_server_config. intros [data|e]; simpl.
  - intros [sc|e]; simpl.
    + split; [by succeed|]. exists data. split; [by left|]. right. by left.
    + split; [by repeat constructor|]. exists e. split; [|by left]. eexists [_], _. split; [done|]. split; [done|]. by repeat constructor.
  - eapply broken_one; [done..|]. right. right. eauto.
Qed.

Lemma webhook_stage cfg :
  staged broken (λ tr hook, preparing tr ∧
    listens cfg (wo_TLSOpts hook) (wh_CertPath (cc_Webhook cfg)) (wh_CertName (cc_Webhook cfg)) (wh_CertKey (cc_Webhook cfg)))
    (webhook_server cfg).
Proof.
  unfold webhook_server. apply after_nil. eapply after_bind; [by succeed|apply with_certificate_stage|done|].
  intros opts tr H1 Hl. cbn -[app]. by rewrite app_nil_r.
Qed.

Lemma metrics_stage cfg :
  staged broken (λ tr m, preparing tr ∧
    listens cfg (ms_TLSOpts m) (mc_CertPath (cc_Metrics cfg)) (mc_CertName (cc_Metrics cfg)) (mc_CertKey (cc_Metrics cfg)) ∧
    ms_SecureServing m = mc_SecureMetrics (cc_Metrics cfg) ∧ ms_Filter m = mc_SecureMetrics (cc_Metrics cfg))
    (metrics_options cfg).
Proof.
  unfold metrics_options. apply after_nil. eapply after_bind; [by succeed|apply with_certificate_stage|done|].
  intros opts tr H1 Hl. cbn -[app]. by rewrite app_nil_r.
Qed.

Lemma check_flags_cases cfg :
  (∃ f, check_flags cfg = fail f ∧ flag_missing cfg f) ∨
  (check_flags cfg = proceed tt ∧ BaseURL (cc_Zitadel cfg) ≠ EmptyString ∧ MachineAccountKeyPath (cc_Zitadel cfg) ≠ EmptyString).
Proof.
  unfold check_flags, flag_missing. repeat case_bool_decide; [left; eexists; (split; [done|]); tauto..|]. by right.
Qed.

Lemma wired_app cfg sc hook metrics mgr core ws tr tr' :
  wired cfg sc hook metrics mgr core ws tr ∨ wired cfg sc hook metrics mgr core ws tr' →
  wired cfg sc hook metrics mgr core ws (tr ++ tr').
Proof.
  intros [(u & d & c & rs & p & ? & ? & ? & ? & ?)|(u & d & c & rs & p & ? & ? & ? & ? & ?)]; exists u, d, c, rs, p;
    auto 8 using loaded_app, answered_app, discovered_app.
Qed.

Lemma wp_runController cfg : wp (runController cfg) (launch_post cfg).
Proof.
  unfold runController. destruct (check_flags_cases cfg) as [(f & -> & Hf)|(-> & Hb & Hk)]; [left; left; done|].
  change (after [] (λ tr f, exits cfg tr f ∨ ∃ e, f = mkFatal e "unable to start" ∧ launched cfg tr (Some e))
            (λ tr _, launched cfg tr None)
            (serverConfig ⇐ read_server_config cfg;
             hook ⇐ webhook_server cfg;
             metrics ⇐ metrics_options cfg;
             '(mgr, core, runnables) ⇐ managers cfg serverConfig hook metrics;
             '(http, sdk) ⇐ zitadel_clients cfg;
             _ ⇐ register cfg mgr core http sdk;
             checked (pcall (RunUntilManagerStops mgr runnables)) (exit_msg "unable to start"))).
  assert (preparing []) as H0' by by succeed.
  eapply after_bind; [done|apply read_server_config_stage|intros; left; right; left; by apply broken_app|].
  intros sc tr1 H1 (data & Hread & Hdec).
  eapply after_bind; [done|apply webhook_stage|intros; left; right; left; by apply broken_app|]. intros hook tr2 H2 Hhook.
  eapply after_bind; [done|apply metrics_stage|intros; left; right; left; by apply broken_app|]. intros metrics tr3 H3 Hmetrics.
  eapply after_bind with (R1 := λ tr x, wired cfg sc hook metrics x.1.1 x.1.2 x.2 tr);
    [done|eapply staged_mono; [apply managers_stage|exact (λ _ _ x, x)|by intros tr [[mgr core] ws]]| |].
  { intros tr f [?|[? ?]]; left; right; [left; by apply broken_app|right; left].
    split; [by apply preparing_app|]. exists data, sc. split; [|done].
    apply answered_app. left. do 2 (apply answered_app; left). apply answered_app. by right. }
  intros [[mgr core] workers] tr4 H4 Hw. simpl in Hw.
  eapply after_bind; [done|by apply clients_stage| |].
  { intros tr f [?|[? ?]]; left; right; [left; by apply broken_app|right; right]. split; [by apply preparing_app|done]. }
  intros [http sdk] tr5 H5 [= -> ->].
  eapply staged_bind; [eapply staged_mono; [apply register_stage| |done]|].
  { intros tr f ?. left. right. left. by apply broken_app. }
  intros [] tr6 ->.
  set (pre := ((((([] ++ tr1) ++ tr2) ++ tr3) ++ tr4) ++ tr5)) in *.
  assert (∀ a, launched cfg (pre ++ registrations cfg mgr core ++ [ev (RunUntilManagerStops mgr workers) a]) a) as Hl.
  { intros a. exists pre, data, sc, hook, metrics, mgr, core, workers. unfold pre.
    split; [done|]. split; [done|].
    split; [do 4 (apply answered_app; left); apply answered_app; by right|].
    split; [do 4 (apply answered_app; left); apply answered_app; by right|].
    split; [apply wired_app; left; apply wired_app; by right|]. done. }
  intros [e|]; simpl; [right; exists e; split; [done|]|]; apply Hl.
Qed.
End Start.

(** ** The collector that is added is the one the flags describe *)

#[export] Instance AbandonedUserGC_eq_dec : EqDecision AbandonedUserGC.
Proof. solve_decision. Defined.

Definition other_collector (cfg : ControllerConfig) (e : pevent) : Prop :=
  match projT1 e with AddRunnable (GCRunnable _ _ g) _ => g ≠ abandoned_gc cfg | _ => False end.

Lemma safe_sbind (T : ptrace → Prop) {F A B} (m : startup F A) (k : A → startup F B) :
  TraceInv T → safe T m → (∀ a, safe T (k a)) → safe T (sbind m k).
Proof. intros HT Hm Hk. apply safe_bind; [done|done|]. intros [f|a]; [by apply safe_ret|apply Hk]. Qed.

Lemma safe_checked (T : ptrace → Prop) {F} m (f : error → F) : TraceInv T → safe T m → safe T (checked m f).
Proof. intros HT Hm. apply safe_bind; [done|done|]. intros a. by apply safe_ret. Qed.

Lemma safe_rewrapped (T : ptrace → Prop) {F G A} (m : startup F A) (f : F → G) :
  TraceInv T → safe T m → safe T (rewrapped m f).
Proof. intros HT Hm. apply safe_bind; [done|done|]. intros a. by apply safe_ret. Qed.

Lemma safe_fetched (T : ptrace → Prop) {F A} (m : Proc (result A)) (f : error → F) :
  TraceInv T → safe T m → safe T (fetched m f).
Proof. intros HT Hm. apply safe_bind; [done|done|]. intros a. by apply safe_ret. Qed.

Lemma safe_lift (P : pevent → Prop) {A} (m : M A) : (∀ o a, ¬ P (ev (Base o) a)) → safe (never P) (lift m).
Proof.
  intros HP. induction m as [a| |o k IH]; [constructor|constructor|]. intros a. simpl.
  eapply wp_mono; [apply IH|]. intros tr r Htr. by constructor.
Qed.

Ltac registered := repeat first
  [ apply safe_sbind; [apply _| |intros ?] | apply safe_checked; [apply _|] | apply safe_rewrapped; [apply _|] | apply safe_fetched; [apply _|]
  | apply safe_lift; by intros ? ? [] | match goal with |- safe _ (pcall ?o) => refine (safe_never_call _ o _); intros ? Hf; simpl in Hf; done end | apply safe_ret, _ | match goal with |- safe _ (if ?b then _ else _) => destruct b end
  | match goal with |- safe _ (let '_ := ?x in _) => destruct x end
  | apply safe_bind; [apply _| |intros ?] ].

Lemma runController_collector `{GoRuntime} `{DiscoveryModes} cfg : safe (never (other_collector cfg)) (runController cfg).
Proof.
  unfold runController, check_flags, fail, proceed, read_server_config, webhook_server, metrics_options, with_certificate,
    managers, upstream_config, CoreControlPlaneRestConfig, initializeClusterDiscovery, DiscoveryRestConfig, ProjectRestConfig,
    kubeconfig_or_default, zitadel_clients, register, setup_controller, SetupWithManager,
    service_account_SetupWithManager, project_SetupWithManager, platform_access_SetupWithManager, user_SetupWithManager.
  registered.
Qed.

Section Properties.
Context `{GoRuntime} `{DiscoveryModes}.

(** ** Leader election *)

(** The options the manager gets: nothing but the switch and the lease's name when leader
    election is off; otherwise a client of its own and the flags, each non-zero one. *)
Lemma election_options_exact cfg upstream :
  let le := cc_LeaderElection cfg in let eo := election_options cfg upstream in
  eo_LeaderElection eo = le_Enabled le ∧ eo_ID eo = LeaderElectionID ∧
  eo_Config eo = (if le_Enabled le then Some (leaderElectionRestConfig upstream) else None) ∧
  eo_ReleaseOnCancel eo = le_Enabled le && le_ReleaseOnCancel le ∧
  eo_LeaseDuration eo = (if le_Enabled le && (0 <? le_LeaseDuration le)%Z then Some (le_LeaseDuration le) else None) ∧
  eo_RenewDeadline eo = (if le_Enabled le && (0 <? le_RenewDeadline le)%Z then Some (le_RenewDeadline le) else None) ∧
  eo_RetryPeriod eo = (if le_Enabled le && (0 <? le_RetryPeriod le)%Z then Some (le_RetryPeriod le) else None).
Proof.
  unfold election_options, applyLeaderElection. destruct (le_Enabled (cc_LeaderElection cfg)); simpl; [|done].
  repeat split; by destruct (0 <? _)%Z.
Qed.

Definition set_election_id (id : string) (cfg : ControllerConfig) : ControllerConfig :=
  let le := cc_LeaderElection cfg in
  mkControllerConfig
    (mkLeaderElection (le_Enabled le) id (le_Namespace le) (le_ResourceLock le) (le_LeaseDuration le) (le_RenewDeadline le)
       (le_RetryPeriod le) (le_ReleaseOnCancel le))
    (cc_Metrics cfg) (cc_Webhook cfg) (cc_ProbeAddr cfg) (cc_EnableHTTP2 cfg) (cc_TlsOpts cfg) (cc_UpstreamClusterKubeconfig cfg)
    (cc_ServerConfigFile cfg) (cc_EmailAddressSuffix cfg) (cc_CoreControlPlaneKubeconfig cfg) (cc_UserSweepInterval cfg)
    (cc_AbandonedAccountRetention cfg) (cc_AbandonedAccountGCInterval cfg) (cc_AbandonedAccountGCDryRun cfg) (cc_Zitadel cfg).

(** --leader-election-id has no effect: two processes that differ in it alone are the same
    program, so they contend for the same lease. *)
Theorem election_id_ignored cfg id : runController (set_election_id id cfg) = runController cfg.
Proof. reflexivity. Qed.

(** The single provider is started only after its cluster is engaged, and not at all when
    that fails. *)
Lemma wrapped_Start_exact runnable name c tr r :
  may (wrapped_Start runnable name c) tr r →
  (∃ e, tr = [ev (Engage name c) (Some e)] ∧ r = Returned (Some e)) ∨
  (runnable = false ∧ tr = [ev (Engage name c) None] ∧ r = Returned None) ∨
  (runnable = true ∧ ∃ a, tr = [ev (Engage name c) None; ev (ProviderStart (SingleProvider name c)) a] ∧ r = Returned a).
Proof.
  intros (e & tr' & -> & Hm). destruct e as [e|]; [left; exists e; by destruct Hm as [-> ->]|right].
  destruct runnable; [right|left; by destruct Hm as [-> ->]]. split; [done|].
  destruct Hm as (a & tr'' & -> & -> & ->). by exists a.
Qed.

(** The core control plane manager waits for the main manager's election. *)
Lemma core_Start_exact mgr core tr r :
  may (core_Start mgr core) tr r → ∃ a, tr = [ev (Elected mgr) tt; ev (StartManager core) a] ∧ r = Returned a.
Proof. intros ([] & tr' & -> & a & tr'' & -> & -> & ->). by exists a. Qed.

(** ** Properties *)

(** C29: how the controller process starts. An execution of runController either reaches
    the start of its managers after every call before succeeded, with the managers on the
    kubeconfigs the flags name, the provider of the server configuration's mode, the
    listeners with their own certificate and without HTTP/2 unless enabled, and exactly
    the four reconcilers, the two sweeps on the core control plane, the runnable that
    starts that manager under the main one, and the two checks; or it exits with code 1
    before, because a flag is missing, a call failed, the mode is unknown or the SDK
    rejects the configuration. It never panics. *)
Theorem runController_exact cfg tr r : may (runController cfg) tr r → launch_post cfg tr r.
Proof. intros Hm. exact (may_wp _ _ _ _ Hm (wp_runController cfg)). Qed.

(** C30: the controller deletes no account unless told to. Whatever collector an execution
    of runController adds, all its runs delete nothing when --abandoned-account-gc-dry-run
    is set, as it is without flags, and do nothing at all without a positive retention
    and interval. *)
Theorem controller_collects_only_when_told cfg tr r client sdk g host a ticks fuel tr' r' :
  may (runController cfg) tr r → answered (AddRunnable (GCRunnable client sdk g) host) a tr →
  may (gc_Start ticks fuel g) tr' r' →
  (cc_AbandonedAccountGCDryRun cfg = true → no (λ e, deletes (projT1 e)) tr') ∧
  (cc_AbandonedAccountRetention cfg ≤ 0 ∨ cc_AbandonedAccountGCInterval cfg ≤ 0 → tr' = []).
Proof.
  intros Hrun Hadd Hgc.
  assert (g = abandoned_gc cfg) as ->.
  { apply (safe_may _ _ _ _ (runController_collector cfg)) in Hrun. unfold never in Hrun. rewrite List.Forall_forall in Hrun.
    specialize (Hrun _ (proj1 (list_elem_of_In _ _) Hadd)). simpl in Hrun. by apply dec_stable. }
  split; [intros Hdry|intros Hoff].
  - exact (gc_dry_run_is_read_only ticks fuel (abandoned_gc cfg) tr' r' Hdry Hgc).
  - eapply gc_disabled; [|exact Hgc]. simpl. tauto.
Qed.

(** The server configurations a trace decoded. *)
Definition decoded (e : pevent) : option AuthProviderZitadel :=
  match e with existT (DecodeServerConfig _) (Ok sc) => Some sc | _ => None end.

Lemma answered_decoded data sc tr : answered (DecodeServerConfig data) (Ok sc) tr → sc ∈ omap decoded tr.
Proof. intros Hs. apply list_elem_of_omap. by exists (ev (DecodeServerConfig data) (Ok sc)). Qed.

(** A server configuration without a discovery mode is refused, although its doc gives
    the mode the default "single": nothing applies SetDefaults_DiscoveryConfig, which would
    set it. *)
Theorem empty_mode_refused cfg tr r :
  may (runController cfg) tr r →
  Forall (λ sc, dc_Mode (ap_Discovery sc) = EmptyString) (omap decoded tr) →
  ∃ f, r = Returned (inl f) ∧ exits cfg tr f.
Proof.
  intros Hm Hempty. pose proof (may_wp _ _ _ _ Hm (wp_runController cfg)) as Hpost.
  assert (∀ a, ¬ launched cfg tr a) as Hno.
  { intros a (pre & data & sc & hook & metrics & mgr & core & ws & -> & _ & _ & Hdec & (u & d & c & rs & p & _ & _ & _ & Hd & _) & _).
    assert (dc_Mode (ap_Discovery sc) = EmptyString) as Hmode by (eapply Forall_forall in Hempty; [exact Hempty|]; apply list_elem_of_In; eapply answered_decoded, answered_app; left; exact Hdec).
    destruct modes_distinct as (_ & Hs & Hl). unfold discovered in Hd. rewrite Hmode in Hd.
    destruct Hd as [[Heq _]|[Heq _]]; by symmetry in Heq. }
  destruct r as [[f|[]]|]; simpl in Hpost; [|by apply Hno in Hpost|done].
  destruct Hpost as [He|(e & _ & Hl)]; [by exists f|by apply Hno in Hl].
Qed.
End Properties.

(** * Witnesses *)

#[export] Instance milo_modes : DiscoveryModes := {| ProviderSingle := "single"; ProviderMilo := "milo"; modes_distinct := ltac:(done) |}.

Section Witnesses.
#[local] Existing Instance ascii_runtime.

Definition in_cluster : RestConfig := mkRestConfig "https://kubernetes.default" 20000 30 None None.

(** A cluster that grants every call, with a server configuration of the given mode. *)
Definition boot (mode : string) (o : pop) (c : cluster) : cluster * pans o :=
  match o return cluster * pans o with
  | Base (ReadFile _) => (c, Ok "config")
  | Base o => fake o c
  | GetConfig | ClientConfig => (c, Ok in_cluster)
  | BuildConfigFromFlags _ path => (c, Ok (mkRestConfig path 20000 30 None None))
  | DecodeServerConfig _ => (c, Ok (mkAuthProvider (mkDiscovery mode true EmptyString "/project") EmptyString))
  | Elected _ => (c, tt)
  | _ => (c, None)
  end.

(** The flags of a deployment. *)
Definition deployed : ControllerConfig :=
  let c := NewControllerCommand in
  mkControllerConfig (mkLeaderElection true "my-lease" EmptyString "leases" (15 * Second) (10 * Second) (2 * Second) true)
    (cc_Metrics c) (mkWebhookCerts "/certs/" "tls.crt" "tls.key") (cc_ProbeAddr c) false [] EmptyString "/etc/config.yaml"
    (cc_EmailAddressSuffix c) "/core" (cc_UserSweepInterval c) (cc_AbandonedAccountRetention c) (cc_AbandonedAccountGCInterval c)
    (cc_AbandonedAccountGCDryRun c) (mkZitadelConfig "https://auth.example.com" "/key.json" EmptyString EmptyString Hour).

Definition boot_trace (mode : string) : ptrace := run_trace (boot mode) (runController deployed) empty_cluster.

Lemma boot_result mode :
  mode = "milo" ∨ mode = "single" → (run (boot mode) (runController deployed) empty_cluster).2 = Returned (inr tt).
Proof. intros [-> | ->]; vm_compute; reflexivity. Qed.

Lemma runController_exact_witness : length (boot_trace "milo") = 29%nat ∧ launched deployed (boot_trace "milo") None.
Proof.
  split; [vm_compute; reflexivity|].
  exact (runController_exact deployed (boot_trace "milo") (Returned (inr tt)) (run_may_to _ _ _ _ (boot_result "milo" (or_introl eq_refl)))).
Defined.

(** An account older than the default retention. *)
Definition stale_month : cluster := at_time (31 * 24 * Hour) (stale_users 1).

Definition core_manager : Manager := mkManager (mkRestConfig "/core" 20000 30 None None) core_options.

Lemma controller_collects_only_when_told_witness :
  let g := abandoned_gc deployed in
  let tr' := run_trace fake (gc_Start 2 1 g) stale_month in
  length tr' = 14%nat ∧ no (λ e, deletes (projT1 e)) tr'.
Proof.
  intros g tr'. split; [vm_compute; reflexivity|].
  refine (proj1 (controller_collects_only_when_told deployed (boot_trace "milo") _ core_manager (sdk_config (cc_Zitadel deployed)) g
    (OnManager core_manager) None 2 1 tr' _ (run_may _ _ _) _ (run_may _ _ _)) eq_refl).
  apply list_elem_of_lookup. exists 23%nat. vm_compute. reflexivity.
Defined.

Lemma empty_mode_refused_witness :
  ∃ f, (run (boot EmptyString) (runController deployed) empty_cluster).2 = Returned (inl f) ∧
       exits deployed (boot_trace EmptyString) f.
Proof.
  apply (empty_mode_refused deployed (boot_trace EmptyString) _ (run_may _ _ _)). vm_compute. by repeat constructor.
Defined.

(** The base URL as the SDK's domain: a bare host passes, a trailing slash does not. *)
Example base_url_as_domain :
  sdk_target (sdk_config (cc_Zitadel deployed)) = Ok ("auth.example.com", None) ∧
  sdk_target (sdk_config (mkZitadelConfig "https://auth.example.com/" "/key.json" EmptyString EmptyString Hour)) =
    Err (EPlain "domain must be host only (e.g. auth.example.com)").
Proof. split; vm_compute; reflexivity. Qed.

Example join_certificate :
  filepath_Join "/certs/" "tls.crt" = "/certs/tls.crt" ∧ filepath_Join "a/./b/.." "../tls.crt" = "tls.crt" ∧
  filepath_Join "/.." "x" = "/x" ∧ filepath_Join "." EmptyString = ".".
Proof. by vm_compute. Qed.
End Witnesses.
