(* ===== verification/ApiServer.v ===== *)
(** cmd/apiserver: the aggregated API server of identity.miloapis.com, from its flags to the
    storages it installs. *)

From S2P Require Import Prelude GoLib Prog Model Json Cluster SdkClient RecoveryMail Wiring Identity PasskeyLinks ServiceAccountKeys.

#[local] Open Scope startup_scope.

(** * Flags *)

Record ApiServerFlags := mkApiFlags {
  tlsCertFile : string;
  tlsKeyFile : string;
  securePort : Z;
  requestHeaderCAFile : string;
  requestHeaderAllowedNames : list string;
  requestHeaderUsernameHeaders : list string;
  requestHeaderGroupHeaders : list string;
  requestHeaderUIDHeaders : list string;
  requestHeaderExtraHeadersPref : list string;
  zitadelIssuer : string;
  zitadelAPI : string;
  zitadelKeyPath : string;
  zitadelDefaultMachineKeyExpirary : Z;
  zitadelIntrospectionProjectID : string;
  enableImpersonationFallback : bool;
  recoveryLinksEnabled : bool;
  accountRecoverySupportTemplate : string;
  accountRecoveryCompleteURL : string;
  accountRecoveryExpiryMinutes : Z;
  accountRecoveryCooldown : Z;
  accountRecoveryMaxPerHour : Z;
  notificationNamespace : string }.

(** The flags of an empty command line. *)
Definition NewAPIServerCommand : ApiServerFlags :=
  mkApiFlags EmptyString EmptyString 8443 EmptyString [] [] [] [] [] EmptyString EmptyString EmptyString
    (10 * 365 * 24 * Hour) EmptyString false false EmptyString EmptyString 60 (2 * Minute) 5 "milo-system".

(** The recommended options as the command changes them: the port, the certificate when
    both files are given, the front proxy's headers, and neither anonymous requests nor
    the parts the server has no use for. *)
Definition serving_options (f : ApiServerFlags) : ServingOptions :=
  let tls := negb (bool_decide (tlsCertFile f = EmptyString)) && negb (bool_decide (tlsKeyFile f = EmptyString)) in
  mkServing (securePort f) (if tls then tlsCertFile f else EmptyString) (if tls then tlsKeyFile f else EmptyString)
    true false (requestHeaderCAFile f) (requestHeaderAllowedNames f) (requestHeaderUsernameHeaders f)
    (requestHeaderGroupHeaders f) (requestHeaderUIDHeaders f) (requestHeaderExtraHeadersPref f)
    false false false false false false.

(** The storages by resource. *)
Record ApiStorage := mkApiStorage {
  as_sessions : REST;
  as_useridentities : REST;
  as_passkeys : REST;
  as_serviceaccountkeys : KeyREST;
  as_passkeyregistrationlinks : LinkREST }.

Definition resources : list string := ["sessions"; "useridentities"; "passkeys"; "serviceaccountkeys"; "passkeyregistrationlinks"].

Definition milo_scheme : Scheme := [IamTypes; NotificationTypes].

Section Serve.
Context `{GoRuntime}.

Definition apiserver_sdk (f : ApiServerFlags) : SDKConfig :=
  mkSDKConfig (zitadelAPI f) (zitadelIssuer f) (zitadelKeyPath f) (zitadelDefaultMachineKeyExpirary f).

(** The options of the recovery links; [miloSAR] tells whether a reviewer is configured. *)
Definition link_storage_options (f : ApiServerFlags) (miloSAR : bool) : Options :=
  mkOptions miloSAR (recoveryLinksEnabled f) (accountRecoverySupportTemplate f) (notificationNamespace f)
    (accountRecoveryCompleteURL f) (accountRecoveryExpiryMinutes f) (accountRecoveryCooldown f) (accountRecoveryMaxPerHour f).

(** The reviewer, when a kube client config is found; the config is nil otherwise. *)
Definition milo_reviewer : startup error (option RestConfig) :=
  r ⇐ attempted (pcall ClientConfig);
  match r with
  | Err _ => proceed None
  | Ok restCfg =>
      _ ⇐ checked (pcall (NewClientset restCfg)) (EWrap "build milo clientset from kube client config: ");
      proceed (Some restCfg)
  end.

(** The uncached client to milo, from the same config. *)
Definition milo_client (restCfg : option RestConfig) : startup error unit :=
  match restCfg with
  | None => proceed tt
  | Some restCfg =>
      _ ⇐ checked (pcall (AddToScheme IamTypes)) (EWrap "add iam types to milo scheme: ");
      _ ⇐ checked (pcall (AddToScheme NotificationTypes)) (EWrap "add notification types to milo scheme: ");
      checked (pcall (NewDirectClient restCfg milo_scheme)) (EWrap "build milo client: ")
  end.

(** RunE up to the start of the server. *)
Definition runAPIServer (f : ApiServerFlags) : startup error ApiStorage :=
  _ ⇐ checked (pcall (ApplyOptions (serving_options f))) (EWrap "apply recommended options: ");
  _ ⇐ checked (pcall (BuildServer "zitadel-sessions-apiserver" true)) (EWrap "build server: ");
  _ ⇐ fetched (lift (NewSDK (apiserver_sdk f))) (EWrap "init zitadel sdk: ");
  restCfg ⇐ milo_reviewer;
  _ ⇐ milo_client restCfg;
  let miloSAR := bool_decide (is_Some restCfg) in
  match NewLinkREST (link_storage_options f miloSAR) with
  | Err e => fail (EWrap "init passkeyregistrationlinks storage: " e)
  | Ok links =>
      let storage := mkApiStorage (mkREST miloSAR) (mkREST miloSAR) (mkREST miloSAR)
                       (mkKeyREST (enableImpersonationFallback f) (zitadelIntrospectionProjectID f)) links in
      _ ⇐ checked (pcall (InstallAPIGroup "v1alpha1" resources)) (EWrap "install api group: ");
      proceed storage
  end.

(** * What a server that starts has done *)

Definition has_kubeconfig (tr : ptrace) : Prop := ∃ c, (ev ClientConfig (Ok c) : pevent) ∈ tr.

(** The storages of the flags, with a reviewer exactly when a kube config was found. *)
Definition serves (f : ApiServerFlags) (tr : ptrace) (st : ApiStorage) : Prop :=
  ∃ sar, (sar = true ↔ has_kubeconfig tr) ∧
    (ev (ApplyOptions (serving_options f)) None : pevent) ∈ tr ∧
    (ev (InstallAPIGroup "v1alpha1" resources) None : pevent) ∈ tr ∧
    as_sessions st = mkREST sar ∧ as_useridentities st = mkREST sar ∧ as_passkeys st = mkREST sar ∧
    as_serviceaccountkeys st = mkKeyREST (enableImpersonationFallback f) (zitadelIntrospectionProjectID f) ∧
    NewLinkREST (link_storage_options f sar) = Ok (as_passkeyregistrationlinks st).

Lemma base_events_no_config (tr : trace) c : (ev ClientConfig (Ok c) : pevent) ∉ map base_event tr.
Proof. intros Hin. apply list_elem_of_In, in_map_iff in Hin as ([o a] & Heq & _). by inversion Heq. Qed.

Definition api_post (f : ApiServerFlags) (tr : ptrace) (r : outcome (error + ApiStorage)) : Prop :=
  match r with Returned (inr st) => serves f tr st | Returned (inl _) => True | Panicked => False end.

Lemma NewSDK_returns cfg tr r : may (NewSDK cfg) tr r → ∃ x, r = Returned x.
Proof.
  assert (∀ v key, quiet (λ _, True) (env_or v key)) as Henv by (intros v key; unfold env_or; case_bool_decide; done).
  assert (quiet (λ _, True) (NewSDK cfg)) as Hq.
  { unfold NewSDK. do 3 (apply quiet_bind; [done|apply Henv|intros ?]).
    destruct (sdk_target _) as [[host port]|e]; [|done]. by intros [e|]. }
  intros Hm. destruct (may_wp _ _ _ _ Hm Hq) as [_ Hr]. destruct r; [eauto|done].
Qed.

Lemma has_kubeconfig_app tr tr' : has_kubeconfig (tr ++ tr') ↔ has_kubeconfig tr ∨ has_kubeconfig tr'.
Proof. unfold has_kubeconfig. setoid_rewrite elem_of_app. naive_solver. Qed.

Lemma install_wp f sar pre :
  (sar = true ↔ has_kubeconfig pre) → (ev (ApplyOptions (serving_options f)) None : pevent) ∈ pre →
  wp (match NewLinkREST (link_storage_options f sar) with
      | Err e => fail (EWrap "init passkeyregistrationlinks storage: " e)
      | Ok links =>
          _ ⇐ checked (pcall (InstallAPIGroup "v1alpha1" resources)) (EWrap "install api group: ");
          proceed (mkApiStorage (mkREST sar) (mkREST sar) (mkREST sar)
                     (mkKeyREST (enableImpersonationFallback f) (zitadelIntrospectionProjectID f)) links)
      end) (λ tr r, api_post f (pre ++ tr) r).
Proof.
  intros Hsar Hopt. destruct (NewLinkREST _) as [links|e] eqn:Hlinks; [|done]. intros [e|]; [done|]. simpl.
  exists sar. rewrite has_kubeconfig_app, !elem_of_app. split.
  - rewrite Hsar. split; [by left|]. intros [?|(c & [=]%list_elem_of_singleton)]; done.
  - split; [by left|]. split; [right; by left|]. done.
Qed.

(** Whether a look-up of the kube config succeeded. *)
Definition answered_ok (e : pevent) : bool := match e with existT ClientConfig (Ok _) => true | _ => false end.

(** [install_wp] with the trace of the goal. *)
Lemma api_post_from f sar pre (g : ptrace → ptrace) :
  (sar = true ↔ has_kubeconfig pre) → (ev (ApplyOptions (serving_options f)) None : pevent) ∈ pre → (∀ tr, pre ++ tr = g tr) →
  wp (match NewLinkREST (link_storage_options f sar) with
      | Err e => fail (EWrap "init passkeyregistrationlinks storage: " e)
      | Ok links =>
          _ ⇐ checked (pcall (InstallAPIGroup "v1alpha1" resources)) (EWrap "install api group: ");
          proceed (mkApiStorage (mkREST sar) (mkREST sar) (mkREST sar)
                     (mkKeyREST (enableImpersonationFallback f) (zitadelIntrospectionProjectID f)) links)
      end) (λ tr r, api_post f (g tr) r).
Proof. intros H1 H2 Hg. eapply wp_mono; [by apply (install_wp f sar pre)|]. intros tr r. simpl. by rewrite Hg. Qed.

Lemma wp_runAPIServer f : wp (runAPIServer f) (api_post f).
Proof.
  unfold runAPIServer. intros [e|]; [done|]. intros [e|]; [done|]. simpl.
  change (bind ?g ?p) with (p ≫= g). unfold sbind, fetched, milo_reviewer, milo_client. rewrite !wp_bind.
  apply wp_lift, wp_may. intros tr1 o [[cfg|e] ->]%NewSDK_returns; [|done]. simpl. rewrite app_nil_r.
  assert (∀ c, (ev ClientConfig (Ok c) : pevent) ∉ map base_event tr1) as Hno by (intros c; apply base_events_no_config).
  intros [c|e]; simpl.
  - do 4 (intros [e|]; [done|]; simpl).
    apply (api_post_from f true ([ev (ApplyOptions (serving_options f)) None; ev (BuildServer "zitadel-sessions-apiserver" true) None] ++
             map base_event tr1 ++ [ev ClientConfig (Ok c); ev (NewClientset c) None; ev (AddToScheme IamTypes) None;
                                    ev (AddToScheme NotificationTypes) None; ev (NewDirectClient c milo_scheme) None]));
      [split; [intros _; exists c|done]|by left|intros tr; simpl; by rewrite <-app_assoc].
    do 2 right. apply elem_of_app. right. by left.
  - apply (api_post_from f false ([ev (ApplyOptions (serving_options f)) None; ev (BuildServer "zitadel-sessions-apiserver" true) None] ++
             map base_event tr1 ++ [ev ClientConfig (Err e)]));
      [split; [done|]|by left|intros tr; simpl; by rewrite <-app_assoc].
    intros (c & Hin). exfalso. rewrite !elem_of_app in Hin. destruct Hin as [Hin|[Hin|Hin]]; [|by apply (Hno c)|].
    + by rewrite !elem_of_cons in Hin; destruct Hin as [[=]|[[=]|?%not_elem_of_nil]].
    + apply list_elem_of_singleton in Hin. apply (f_equal answered_ok) in Hin. discriminate Hin.
Qed.

(** Without the flag or a reviewer, Create makes no call. *)
Lemma links_Create_closed r caller obj tr res :
  op_Enabled (lr_opts r) = false ∨ op_MiloSAR (lr_opts r) = false → may (links_Create r caller obj) tr res → tr = [].
Proof.
  unfold links_Create. intros Hoff. destruct obj as [link|]; [|by intros [-> _]].
  destruct (op_Enabled (lr_opts r)); [destruct Hoff as [?|Hsar]; [done|]|by intros [-> _]].
  destruct caller as [u|]; [|by intros [-> _]]. destruct (bad_spec link u); [by intros [-> _]|].
  unfold CanCreatePasskeyRegistrationLink, review. rewrite Hsar. by intros [-> _].
Qed.

Lemma NewLinkREST_opts o links : NewLinkREST o = Ok links → lr_opts links = o ∧ (op_Enabled o = true → op_SupportTemplateName o ≠ EmptyString).
Proof.
  unfold NewLinkREST. destruct (url_parse _) as [u|]; [|done]. destruct (op_Enabled o); simpl.
  - case_bool_decide; [done|]. destruct (_ || _); [done|]. by intros [= <-].
  - by intros [= <-].
Qed.

(** C31: what a running API server exposes.  It has applied its serving options, in which
    anonymous requests are off and the front proxy's headers are the flags', and installed
    its five resources; a read of sessions, identities or passkeys hands out an object of
    another user only when the server found a kube client config and milo allowed "get" on
    that user; and a recovery link request causes a call at all only when
    --recovery-links-enabled is set, with a mail template and a reviewer.  Three of the
    resources are not read-only: sessions are deleted, keys created and deleted, links
    created. *)
Theorem apiserver_exposure f tr st :
  may (runAPIServer f) tr (Returned (inr st)) →
  ((ev (ApplyOptions (serving_options f)) None : pevent) ∈ tr ∧ sv_Anonymous (serving_options f) = false ∧
   (ev (InstallAPIGroup "v1alpha1" resources) None : pevent) ∈ tr) ∧
  (∀ rest u req tr' os o,
     rest ∈ [as_sessions st; as_useridentities st; as_passkeys st] →
     may (serve rest (Some u) req) tr' (Returned (Ok os)) → o ∈ os → o ≠ ui_uid u →
     has_kubeconfig tr ∧ ev (KCreateSAR (get_user_review u o)) (Ok true) ∈ tr') ∧
  (∀ caller obj tr' res,
     may (links_Create (as_passkeyregistrationlinks st) caller obj) tr' res → tr' ≠ [] →
     recoveryLinksEnabled f = true ∧ accountRecoverySupportTemplate f ≠ EmptyString ∧ has_kubeconfig tr).
Proof.
  intros Hm. pose proof (may_wp _ _ _ _ Hm (wp_runAPIServer f)) as (sar & Hsar & Hopt & Hinst & H1 & H2 & H3 & _ & Hlinks).
  split; [done|]. split.
  - intros rest u req tr' os o Hrest Hr Ho Hne.
    assert (rest = mkREST sar) as ->
      by (rewrite H1, H2, H3, !elem_of_cons in Hrest; destruct Hrest as [->|[->|[->|?%not_elem_of_nil]]]; done).
    destruct (may_wp _ _ _ _ Hr (serve_wp (mkREST sar) (Some u) u req eq_refl)) as [_ Hos].
    destruct (Hos os eq_refl o Ho) as [?|[Hs Hin]]; [done|]. split; [by apply Hsar|done].
  - intros caller obj tr' res Hc Hne. destruct (NewLinkREST_opts _ _ Hlinks) as [Hopts Htpl].
    assert (¬ (recoveryLinksEnabled f = false ∨ sar = false)) as Hon.
    { intros Hoff. apply Hne. eapply links_Create_closed; [|exact Hc]. by rewrite Hopts. }
    destruct (recoveryLinksEnabled f) eqn:He; [|tauto]. destruct sar; [|tauto]. split; [done|]. split; [by apply Htpl|by apply Hsar].
Qed.
End Serve.

(** * Witnesses *)

Section Witnesses.
#[local] Existing Instance ascii_runtime.

(** The libraries grant every call, and a kube config is found or not. *)
Definition api_libraries (kubeconfig : result RestConfig) (o : pop) (c : cluster) : cluster * pans o :=
  match o return cluster * pans o with
  | Base o => fake o c
  | GetConfig | ClientConfig | BuildConfigFromFlags _ _ => (c, kubeconfig)
  | DecodeServerConfig _ => (c, Err (EPlain "no server config"))
  | Elected _ => (c, tt)
  | _ => (c, None)
  end.

Definition api_flags (enabled : bool) : ApiServerFlags :=
  mkApiFlags "/tls.crt" "/tls.key" 8443 "/ca.crt" ["milo"] ["X-Remote-User"] ["X-Remote-Group"] ["X-Remote-Uid"] ["X-Remote-Extra-"]
    "https://auth.example.com" "auth.example.com" "/key.json" Hour EmptyString false enabled "recovery"
    "https://auth.example.com/recover" 60 (2 * Minute) 5 "milo-system".

Definition milo_config : RestConfig := mkRestConfig "https://milo.example.com" 20000 30 None None.

Definition served_storage (enabled sar : bool) : option ApiStorage :=
  match NewLinkREST (link_storage_options (api_flags enabled) sar) with
  | Ok links => Some (mkApiStorage (mkREST sar) (mkREST sar) (mkREST sar) (mkKeyREST false EmptyString) links)
  | Err _ => None
  end.

(** With a kube config, a reviewed look-up of bob's passkeys by alice is served. *)
Lemma apiserver_exposure_witness :
  let tr := run_trace (api_libraries (Ok milo_config)) (runAPIServer (api_flags true)) empty_cluster in
  let read := serve (mkREST true) (Some alice) (PasskeysList (Some (Some (about "uid-bob")))) in
  (run passkeys_of_bob read empty_cluster).2 = Returned (Ok ["uid-bob"]) ∧ has_kubeconfig tr.
Proof.
  intros tr read.
  assert ((run passkeys_of_bob read empty_cluster).2 = Returned (Ok ["uid-bob"])) as Hread by (vm_compute; reflexivity).
  split; [exact Hread|].
  destruct (served_storage true true) as [st|] eqn:Hst; [|vm_compute in Hst; discriminate Hst].
  assert ((run (api_libraries (Ok milo_config)) (runAPIServer (api_flags true)) empty_cluster).2 = Returned (inr st)) as Hrun
    by (vm_compute in Hst; injection Hst as <-; vm_compute; reflexivity).
  destruct (apiserver_exposure (api_flags true) tr st (run_may_to _ _ _ _ Hrun)) as (_ & Hreads & _).
  refine (proj1 (Hreads (mkREST true) alice (PasskeysList (Some (Some (about "uid-bob")))) _ ["uid-bob"] "uid-bob" _
                   (run_may_to _ _ _ _ Hread) _ _)).
  - vm_compute in Hst. injection Hst as <-. left.
  - left.
  - discriminate.
Defined.

(** With the flags of an empty command line Create is closed. *)
Example recovery_links_closed :
  (run fake (links_Create (mkLinkREST (link_storage_options NewAPIServerCommand true) (mkURL EmptyString None EmptyString EmptyString EmptyString EmptyString))
     (Some support) (Some link_request)) empty_cluster).2 =
  Returned (Err (NewServiceUnavailable "recovery links are disabled (--recovery-links-enabled=false)")).
Proof. vm_compute. reflexivity. Qed.
End Witnesses.
