(* ===== verification/Interleave.v ===== *)
(** Concurrent requests: programs interleaved call by call over one environment.

    net/http runs every request in a goroutine of its own, and a manager its runnables; what
    they share is reached through calls.  A system is the state of the environment, one
    program per goroutine, and the log of the calls made so far; a step is one call of one
    goroutine.  The pending avatars of the actions server are the process-wide shared
    state. *)

From S2P Require Import Prelude GoLib Prog Model Json Cluster Users AvatarSync Actions ActionsSpec.

(** * Systems of threads *)

Section Threads.
Context {S R : Type} (h : environment S).

Record system := mkSystem { sy_state : S; sy_threads : list (M R); sy_log : list (nat * event) }.

Definition begin (s : S) (ps : list (M R)) : system := mkSystem s ps [].

(** Thread [i] makes its call [o] and goes on with the answer. *)
Definition after_call (y : system) (i : nat) (o : op) (k : ans o → M R) : system :=
  let r := h o (sy_state y) in
  mkSystem r.1 (<[i := k r.2]> (sy_threads y)) (sy_log y ++ [(i, ev o r.2)]).

Inductive tstep (y : system) : system → Prop :=
| thread_calls i o k : sy_threads y !! i = Some (Call o k) → tstep y (after_call y i o k).

Definition reaches (s : S) (ps : list (M R)) (y : system) : Prop := rtc tstep (begin s ps) y.

(** The calls of one thread. *)
Definition own (i : nat) (l : list (nat * event)) : trace :=
  omap (λ x, if decide (x.1 = i) then Some x.2 else None) l.

(** A schedule: which thread moves next; a thread that has ended stays. *)
Fixpoint exec (schedule : list nat) (y : system) : system :=
  match schedule with
  | [] => y
  | i :: schedule =>
      exec schedule match sy_threads y !! i with Some (Call o k) => after_call y i o k | _ => y end
  end.

Lemma exec_reaches schedule y y0 : rtc tstep y0 y → rtc tstep y0 (exec schedule y).
Proof.
  revert y. induction schedule as [|i schedule IH]; intros y Hy; [done|]. simpl. apply IH.
  destruct (sy_threads y !! i) as [[| |o k]|] eqn:Hi; [done|done| |done]. eapply rtc_r; [exact Hy|]. by constructor.
Qed.

(** [q] is what is left of [p] after the calls [tr]. *)
Fixpoint continues (p : M R) (tr : trace) (q : M R) : Prop :=
  match tr with
  | [] => q = p
  | e :: tr => ∃ o k a, p = Call o k ∧ e = ev o a ∧ continues (k a) tr q
  end.

Lemma continues_snoc p tr o k a : continues p tr (Call o k) → continues p (tr ++ [ev o a]) (k a).
Proof.
  revert p. induction tr as [|e tr IH]; intros p; simpl.
  - intros <-. exists o, k, a. done.
  - intros (o' & k' & a' & -> & -> & Hc). exists o', k', a'. auto.
Qed.

Lemma continues_may p tr q tr' r : continues p tr q → may q tr' r → may p (tr ++ tr') r.
Proof.
  revert p. induction tr as [|e tr IH]; intros p; simpl; [by intros ->|].
  intros (o & k & a & -> & -> & Hc) Hm. exists a, (tr ++ tr'). split; [done|]. by apply IH.
Qed.

Lemma own_snoc i j l e : own i (l ++ [(j, e)]) = own i l ++ (if decide (j = i) then [e] else []).
Proof. unfold own. rewrite omap_app. simpl. by case_decide. Qed.

Lemma threads_continue s ps y :
  reaches s ps y → ∀ i p, ps !! i = Some p → ∃ q, sy_threads y !! i = Some q ∧ continues p (own i (sy_log y)) q.
Proof.
  intros Hr. pattern y. revert y Hr. apply rtc_ind_r; [intros i p Hi; by exists p|]. intros y y' Hr Hstep IH i p Hi.
  destruct (IH i p Hi) as (q & Hq & Hc). destruct Hstep as [j o k Hj]. simpl. rewrite own_snoc. case_decide as Hji.
  - subst j. rewrite Hq in Hj. injection Hj as ->. eexists. split.
    + apply list_lookup_insert_eq. by eapply lookup_lt_Some.
    + by apply continues_snoc.
  - exists q. rewrite list_lookup_insert_ne by done. by rewrite app_nil_r.
Qed.

(** A finished thread has run as one of its executions, whatever ran beside it: what holds
    for every execution of a program holds for it in every interleaving. *)
Lemma thread_execution s ps y i p q r :
  reaches s ps y → ps !! i = Some p → sy_threads y !! i = Some q →
  match r with Returned a => q = Ret a | Panicked => q = Panic end → may p (own i (sy_log y)) r.
Proof.
  intros Hr Hp Hq Hend. destruct (threads_continue s ps y Hr i p Hp) as (q' & Hq' & Hc).
  rewrite Hq in Hq'. injection Hq' as <-. rewrite <-(app_nil_r (own i (sy_log y))). apply (continues_may p _ q); [done|].
  by destruct r; subst q.
Qed.

Lemma threads_length s ps y : reaches s ps y → length (sy_threads y) = length ps.
Proof.
  intros Hr. pattern y. revert y Hr. apply rtc_ind_r; [done|]. intros y y' _ [i o k _] IH. simpl. by rewrite length_insert.
Qed.

Lemma own_absent s ps y i : reaches s ps y → (length ps ≤ i)%nat → own i (sy_log y) = [].
Proof.
  intros Hr Hi. pattern y. revert y Hr. apply rtc_ind_r; [done|]. intros y y' Hr [j o k Hj] IH. simpl.
  rewrite own_snoc, IH, decide_False; [done|]. apply lookup_lt_Some in Hj. rewrite (threads_length s ps y Hr) in Hj. lia.
Qed.

Lemma completes (p : M R) : ∃ tr r, may p tr r.
Proof.
  induction p as [a| |o k IH]; [by exists [], (Returned a)|by exists [], Panicked|].
  destruct (IH inhabitant) as (tr & r & Hm). exists (ev o inhabitant :: tr), r. exists inhabitant, tr. done.
Qed.

(** A thread that is still running has made the first calls of one of its executions. *)
Lemma running_each s ps y i p (Rel : trace → event → Prop) :
  reaches s ps y → ps !! i = Some p → safe (each Rel) p → each Rel (own i (sy_log y)).
Proof.
  intros Hr Hp Hs. destruct (threads_continue s ps y Hr i p Hp) as (q & Hq & Hc). destruct (completes q) as (tr & r & Hm).
  apply (each_prefix Rel _ tr), (safe_may _ p _ r Hs). by apply (continues_may p _ q).
Qed.

(** The next call of a thread keeps to the thread's rule. *)
Lemma next_call_keeps s ps y i o k (Rel : trace → event → Prop) :
  Forall (safe (each Rel)) ps → reaches s ps y → sy_threads y !! i = Some (Call o k) →
  Rel (own i (sy_log y)) (ev o (h o (sy_state y)).2).
Proof.
  intros Hps Hr Hi. assert (reaches s ps (after_call y i o k)) as Hr' by (eapply rtc_r; [exact Hr|by constructor]).
  assert (is_Some (ps !! i)) as [p Hp].
  { apply lookup_lt_is_Some. rewrite <-(threads_length s ps y Hr). by eapply lookup_lt_Some. }
  assert (safe (each Rel) p) as Hsafe by (by apply (Forall_lookup_1 _ _ _ _ Hps Hp)).
  pose proof (running_each _ _ _ _ _ Rel Hr' Hp Hsafe) as Heach. simpl in Heach. rewrite own_snoc, decide_True in Heach by done.
  by apply (Heach _ _ []).
Qed.

(** Rule induction over the runs of a system: what holds at the start and is preserved by
    every call holds throughout; a call keeps to its thread's rule. *)
Lemma system_invariant s ps (Rel : trace → event → Prop) (I : system → Prop) :
  Forall (safe (each Rel)) ps → I (begin s ps) →
  (∀ y i o k, reaches s ps y → I y → sy_threads y !! i = Some (Call o k) →
     Rel (own i (sy_log y)) (ev o (h o (sy_state y)).2) → I (after_call y i o k)) →
  ∀ y, reaches s ps y → I y.
Proof.
  intros Hps HI0 Hstep y Hr. pattern y. revert y Hr. apply rtc_ind_r; [done|]. intros y y' Hr [i o k Hi] HI.
  apply Hstep; [done..|]. by eapply next_call_keeps.
Qed.

(** ** Bounded concurrency *)

(** Thread [i] has made a call and has not ended. *)
Definition in_progress (y : system) (i : nat) : bool :=
  match own i (sy_log y), sy_threads y !! i with _ :: _, Some (Call _ _) => true | _, _ => false end.

Definition busy (y : system) : nat := length (List.filter (in_progress y) (seq 0 (length (sy_threads y)))).

(** The runs with at most [n] threads in progress at any moment. *)
Definition reaches_at_most (n : nat) (s : S) (ps : list (M R)) (y : system) : Prop :=
  rtc (λ y y', tstep y y' ∧ (busy y' ≤ n)%nat) (begin s ps) y.

Lemma at_most_reaches n s ps y : reaches_at_most n s ps y → reaches s ps y.
Proof. apply rtc_subrel. by intros ? ? [? _]. Qed.

Lemma busy_begin s ps : busy (begin s ps) = 0%nat.
Proof. unfold busy. by induction (seq _ _) as [|i l IH]. Qed.

Lemma at_most_busy n s ps y : reaches_at_most n s ps y → (busy y ≤ n)%nat.
Proof. intros Hr. apply rtc_inv_r in Hr as [<-|(y' & _ & _ & Hb)]; [rewrite busy_begin; lia|done]. Qed.

(** A schedule that keeps the bound. *)
Fixpoint keeps_bound (n : nat) (schedule : list nat) (y : system) : bool :=
  match schedule with
  | [] => true
  | i :: schedule =>
      let y' := match sy_threads y !! i with Some (Call o k) => after_call y i o k | _ => y end in
      (busy y' <=? n)%nat && keeps_bound n schedule y'
  end.

Lemma exec_at_most n schedule s ps y :
  reaches_at_most n s ps y → keeps_bound n schedule y = true → reaches_at_most n s ps (exec schedule y).
Proof.
  revert y. induction schedule as [|i schedule IH]; intros y Hy Hk; [done|]. simpl in *. apply andb_prop in Hk as [Hb%Nat.leb_le Hk].
  apply IH; [|done]. destruct (sy_threads y !! i) as [[| |o k]|] eqn:Hi; [done|done| |done].
  eapply rtc_r; [exact Hy|]. split; [by constructor|done].
Qed.

(** The same rule induction for these runs. *)
Lemma bounded_invariant n s ps (Rel : trace → event → Prop) (I : system → Prop) :
  Forall (safe (each Rel)) ps → I (begin s ps) →
  (∀ y i o k, reaches s ps y → (busy y ≤ n)%nat → I y → sy_threads y !! i = Some (Call o k) →
     Rel (own i (sy_log y)) (ev o (h o (sy_state y)).2) → I (after_call y i o k)) →
  ∀ y, reaches_at_most n s ps y → I y.
Proof.
  intros Hps HI0 Hstep y Hr. pattern y. revert y Hr. apply rtc_ind_r; [done|]. intros y y' Hr [[i o k Hi] _] HI.
  pose proof (at_most_reaches _ _ _ _ Hr). apply Hstep; [done|by eapply at_most_busy|done..|]. by eapply next_call_keeps.
Qed.

End Threads.

Arguments mkSystem {S R}.
Arguments begin {S R}.

(** * The pending avatars under concurrency *)

Section Avatars.
Context `{GoRuntime} {S R : Type} (h : environment S) `{!PendingMap h}.

Definition stores (key : string) (x : nat * event) : bool :=
  match x.2 with existT (MapStore k _) _ => bool_decide (k = key) | _ => false end.

(** A call that took the avatar of the key out of the map. *)
Definition takes (key : string) (x : nat * event) : bool :=
  match x.2 with existT (MapLoadAndDelete k) (Some _) => bool_decide (k = key) | _ => false end.

Definition number (P : nat * event → bool) (l : list (nat * event)) : nat := length (List.filter P l).

Definition present (s : S) (key : string) : nat := match pending s !! key with Some _ => 1%nat | None => 0%nat end.

(** The avatar was in the map from the start, or a thread stored it. *)
Definition offered (s0 : S) (l : list (nat * event)) (key : string) (v : pendingAvatar) : Prop :=
  pending s0 !! key = Some v ∨ ∃ j, (j, ev (MapStore key v) tt) ∈ l.

(** Each avatar taken had been offered before. *)
Definition takes_offered (s0 : S) (key : string) (l : list (nat * event)) : Prop :=
  ∀ pre i v post, l = pre ++ (i, ev (MapLoadAndDelete key) (Some v)) :: post → offered s0 pre key v.

Definition avatar_inv (s0 : S) (key : string) (y : system (S := S) (R := R)) : Prop :=
  (number (takes key) (sy_log y) + present (sy_state y) key ≤ number (stores key) (sy_log y) + present s0 key)%nat ∧
  (∀ v, pending (sy_state y) !! key = Some v → offered s0 (sy_log y) key v) ∧ takes_offered s0 key (sy_log y).

Lemma number_snoc P l x : number P (l ++ [x]) = (number P l + (if P x then 1 else 0))%nat.
Proof. unfold number. rewrite List.filter_app, length_app. simpl. by destruct (P x). Qed.

Lemma offered_snoc s0 l x key v : offered s0 l key v → offered s0 (l ++ [x]) key v.
Proof. intros [?|[j Hj]]; [by left|right; exists j; apply elem_of_app; by left]. Qed.

Lemma takes_offered_snoc s0 key l i e :
  takes_offered s0 key l → (∀ v, e = ev (MapLoadAndDelete key) (Some v) → offered s0 l key v) →
  takes_offered s0 key (l ++ [(i, e)]).
Proof.
  intros Hl He pre j v post Heq. destruct post as [|z post _] using rev_ind.
  - apply app_inj_tail in Heq as [<- [= <- ->]]. by apply He.
  - rewrite app_comm_cons, app_assoc in Heq. apply app_inj_tail in Heq as [-> _]. by apply (Hl pre j v post).
Qed.

(** A call either leaves the map alone, stores, or takes. *)
Lemma pending_cases (o : op) :
  touches_pending o = false ∨ (∃ k v, o = MapStore k v) ∨ (∃ k, o = MapLoadAndDelete k).
Proof. destruct o; try (by left); right; eauto. Qed.

Lemma store_counts key i k v a :
  stores key (i, ev (MapStore k v) a) = bool_decide (k = key) ∧ takes key (i, ev (MapStore k v) a) = false.
Proof. done. Qed.

Lemma take_counts key i k a :
  stores key (i, ev (MapLoadAndDelete k) a) = false ∧
  takes key (i, ev (MapLoadAndDelete k) a) = match a with Some _ => bool_decide (k = key) | None => false end.
Proof. done. Qed.

Lemma avatar_step s0 key y y' : avatar_inv s0 key y → tstep h y y' → avatar_inv s0 key y'.
Proof.
  intros (Hn & Ho & Ht) [i o k Hi]. unfold avatar_inv, after_call, present in *. simpl. rewrite !number_snoc.
  destruct (pending_cases o) as [Hframe|[(k' & v' & ->)|(k' & ->)]].
  - rewrite (pending_frame o (sy_state y) Hframe).
    assert (takes key (i, ev o (h o (sy_state y)).2) = false ∧ stores key (i, ev o (h o (sy_state y)).2) = false) as [-> ->]
      by (generalize (h o (sy_state y)).2; intros a; unfold takes, stores; simpl; by destruct o).
    split; [lia|]. split; [intros v Hv; apply offered_snoc; auto|]. apply takes_offered_snoc; [done|].
    intros v [=]. by subst o.
  - rewrite pending_store. destruct (h (MapStore k' v') (sy_state y)).2. destruct (store_counts key i k' v' tt) as [-> ->].
    case_bool_decide as Hk; [subst k'; rewrite lookup_insert_eq|rewrite lookup_insert_ne by done];
      (split; [destruct (pending (sy_state y) !! key); lia|]); (split; [|by apply takes_offered_snoc]).
    + intros v [= <-]. right. exists i. apply elem_of_app. right. by left.
    + intros v Hv. apply offered_snoc. auto.
  - rewrite pending_delete, pending_load. destruct (take_counts key i k' (pending (sy_state y) !! k')) as [-> ->].
    destruct (decide (k' = key)) as [->|Hk].
    + rewrite lookup_delete_eq. split; [destruct (pending (sy_state y) !! key); simpl; rewrite ?bool_decide_true by done; lia|].
      split; [done|]. apply takes_offered_snoc; [done|]. intros v Heq%ev_inj. by apply Ho.
    + rewrite lookup_delete_ne by done.
      split; [destruct (pending (sy_state y) !! k'); simpl; rewrite ?bool_decide_false by done; lia|].
      split; [intros v Hv; apply offered_snoc; auto|]. apply takes_offered_snoc; [done|]. intros v Heq%ev_op. congruence.
Qed.

Lemma avatar_reachable s ps y key : reaches h s ps y → avatar_inv s key y.
Proof.
  intros Hr. pattern y. revert y Hr. apply rtc_ind_r.
  - split; [unfold number; simpl; lia|]. split; [intros v Hv; by left|]. intros [|] ? ? ?; discriminate.
  - intros y y' _ Hstep IH. by apply (avatar_step s key y y').
Qed.
End Avatars.

(** * The avatar create-user-account applies *)

Lemma elem_of_own i l (e : event) : e ∈ own i l ↔ (i, e) ∈ l.
Proof.
  unfold own. rewrite list_elem_of_omap. split.
  - intros ([j x] & Hin & Hx). simpl in Hx. case_decide; [|done]. injection Hx as ->. by subst j.
  - intros Hin. exists (i, e). split; [done|]. simpl. by rewrite decide_True.
Qed.

(** A patch of a User writes the avatar and provider of an entry taken before, onto the
    User it was made from. *)
Definition from_pending (pre : trace) (e : event) : Prop :=
  match e with
  | existT (KPatchUserStatus u v _) _ =>
      ∃ key a, ev (MapLoadAndDelete key) (Some a) ∈ pre ∧ v = with_avatar u (pa_avatarURL a) (pa_provider a)
  | _ => True
  end.

#[export] Instance from_pending_extends : Extends from_pending.
Proof.
  intros pre0 pre [o r]. destruct o; simpl; try done. intros (key & a & Hin & ->). exists key, a.
  split; [apply elem_of_app; by right|done].
Qed.

Lemma each_own_patch i l u v fm r :
  each from_pending (own i l) → (i, ev (KPatchUserStatus u v fm) r) ∈ l →
  ∃ key p, (i, ev (MapLoadAndDelete key) (Some p)) ∈ l ∧ v = with_avatar u (pa_avatarURL p) (pa_provider p).
Proof.
  intros He Hin. apply elem_of_own, list_elem_of_split in Hin as (pre & post & Heq).
  destruct (He pre _ post Heq) as (key & p & Hp & ->). exists key, p. split; [|done]. apply elem_of_own. rewrite Heq.
  apply elem_of_app. by left.
Qed.

Section Create.
Context `{GoRuntime} `{ConflictRetry}.

Lemma applyPendingAvatar_from_pending uid email fm : safe (each from_pending) (applyPendingAvatarByEmail uid email fm).
Proof.
  unfold applyPendingAvatarByEmail, consumePendingAvatar, patchUserAvatar, storePendingAvatar.
  case_bool_decide as He; [apply safe_ret, _|]. set (key := normalizeEmail email) in *.
  intros [a|]; simpl; [|by apply each_intro]. intros now. destruct (_ <? _)%Z; simpl; [by apply each_intro|].
  assert (∀ pre u fm', from_pending ([ev (MapLoadAndDelete key) (Some a)] ++ pre)
            (ev (KPatchUserStatus u (with_avatar u (pa_avatarURL a) (pa_provider a)) fm') None)) as Hp
    by (intros pre u fm'; exists key, a; split; [by left|done]).
  intros [u|e]; simpl; [intros [e|]; simpl|]; try case_bool_decide; simpl; intros; apply each_intro; simpl;
    repeat match goal with |- _ ∧ _ => split end; try exact I; exists key, a; (split; [by left|done]).
Qed.

Lemma createUserAccount_from_pending srv rq : safe (each from_pending) (createUserAccountHandler srv rq).
Proof.
  unfold createUserAccountHandler, post_only, with_signed_body, EnsureUser.
  case_bool_decide; [|apply safe_ret, _]. destruct (rq_body rq) as [body|]; [|apply safe_ret, _].
  destruct (validateSignature _ _ _ _); [apply safe_ret, _|]. destruct (Unmarshal _ _ _) as [req|]; [|apply safe_ret, _].
  destruct (negb _); [apply safe_ret, _|].
  apply safe_bind; [apply _|intros [u|e]; simpl; [|destruct (IsAlreadyExists e)]; by apply each_intro|].
  intros [[u created] [e|]]; [apply safe_ret, _|]. destruct (negb created); [apply safe_ret, _|].
  apply safe_bind; [apply _|apply applyPendingAvatar_from_pending|]. intros _.
  apply safe_bind; [apply _|intros now e; by apply each_intro|]. intros _.
  apply safe_bind; [apply _| |intros _; apply safe_ret, _].
  apply seed_email_verification_safe; [apply _|..]; intros; by apply each_intro.
Qed.
End Create.

(** * Properties *)

(** C35: the pending avatars under concurrency. Whatever requests run at once and however
    their calls interleave, over any environment whose map is a map: an avatar is taken
    out at most as often as one was stored under that email, so no two requests apply the
    same one; what is taken was stored under that very email before (or was there from the
    start); each request that has ended has behaved as one of its sequential executions;
    and a create-user-account that has ended has patched the User only with an avatar it
    took, hence one that was stored. *)
Theorem pending_avatars_concurrent `{GoRuntime} `{ConflictRetry} {S} (h : environment S) `{!PendingMap h} (requests : list (M HttpResponse)) s y :
  reaches h s requests y →
  (∀ key,
  (number (takes key) (sy_log y) + present h (sy_state y) key ≤ number (stores key) (sy_log y) + present h s key)%nat ∧
     takes_offered h s key (sy_log y)) ∧
  (∀ i p a, requests !! i = Some p → sy_threads y !! i = Some (Ret a) → may p (own i (sy_log y)) (Returned a)) ∧
  (∀ i srv rq a u v fm r,
     requests !! i = Some (createUserAccountHandler srv rq) → sy_threads y !! i = Some (Ret a) →
     (i, ev (KPatchUserStatus u v fm) r) ∈ sy_log y →
     ∃ key p, offered h s (sy_log y) key p ∧ v = with_avatar u (pa_avatarURL p) (pa_provider p)).
Proof.
  intros Hr.
  assert (∀ key, takes_offered h s key (sy_log y)) as Ht by (intros key; apply (avatar_reachable h s requests y key Hr)).
  assert (∀ i p a, requests !! i = Some p → sy_threads y !! i = Some (Ret a) → may p (own i (sy_log y)) (Returned a)) as Hown
    by (intros i p a Hp Ha; by apply (thread_execution h s requests y i p (Ret a) (Returned a))).
  split; [intros key; split; [apply (avatar_reachable h s requests y key Hr)|apply Ht]|]. split; [exact Hown|].
  intros i srv rq a u v fm r Hi Ha Hin.
  pose proof (safe_may _ _ _ _ (createUserAccount_from_pending srv rq) (Hown i _ a Hi Ha)) as Heach.
  destruct (each_own_patch i (sy_log y) u v fm r Heach Hin) as (key & p & Htaken & ->).
  exists key, p. split; [|done]. apply list_elem_of_split in Htaken as (pre & post & Heq).
  rewrite Heq. destruct (Ht key pre i p post Heq) as [?|[j Hj]]; [by left|right; exists j; apply elem_of_app; by left].
Qed.

(** * Witnesses *)

Section Witnesses.
#[local] Existing Instance ascii_runtime.
#[local] Existing Instance default_retry.

Definition signup_body : string :=
  js "{'aggregateID':'u7','event_type':'user.human.added','event_payload':{'email':'a@b.c','firstName':'A','lastName':'B'}}".
Definition intent_body : string :=
  js "{'event_type':'idpintent.succeeded','event_payload':{'userId':'u7','idpUser':'eyJVc2VyIjogeyJwaWN0dXJlIjogImh0dHBzOi8vcCIsICJlbWFpbCI6ICJBQGIuYyJ9fQ=='}}".

(** A social signup: the login with its avatar, and the creation of the User. *)
Definition signup : list (M HttpResponse) :=
  [idpIntentSucceededHandler ready_server (post intent_body); createUserAccountHandler ready_server (post signup_body)].

Definition avatar_of (c : cluster) (name : string) : option string := u_avatarURL <$> (c_users c !! name).

(** The login looks the User up for the last time, the User is created, the avatar is stored. *)
Definition unlucky : list nat := replicate 15 0%nat ++ replicate 20 1%nat ++ replicate 5 0%nat.
(** The login finds no User and stores the avatar before the User is created. *)
Definition lucky : list nat := replicate 20 0%nat ++ replicate 20 1%nat.

Definition ended (schedule : list nat) : system := exec fake schedule (begin empty_cluster signup).

Definition codes (y : system (S := cluster) (R := HttpResponse)) : list (option Z) :=
  map (λ p, match p with Ret r => Some (rs_code r) | _ => None end) (sy_threads y).

Lemma pending_avatars_concurrent_witness :
  let l := sy_log (ended lucky) in
  codes (ended lucky) = [Some 200; Some 201] ∧ avatar_of (sy_state (ended lucky)) "u7" = Some "https://p" ∧
  number (takes "a@b.c") l = 1%nat ∧ (number (takes "a@b.c") l + 0 ≤ number (stores "a@b.c") l + 0)%nat ∧
  takes_offered fake empty_cluster "a@b.c" l.
Proof.
  intros l. split; [vm_compute; reflexivity|]. split; [vm_compute; reflexivity|]. split; [vm_compute; reflexivity|].
  destruct (pending_avatars_concurrent fake signup empty_cluster (ended lucky) (exec_reaches fake lucky _ _ (rtc_refl _ _)))
    as (Hkey & _).
  exact (Hkey "a@b.c").
Defined.

(** The look-up and the store are two calls: when the User is created in between, both
    requests succeed, the avatar stays in the map, and the User has none. *)
Example avatar_left_behind :
  codes (ended unlucky) = [Some 200; Some 201] ∧ avatar_of (sy_state (ended unlucky)) "u7" = Some EmptyString ∧
  (pa_avatarURL <$> (c_pending (sy_state (ended unlucky)) !! "a@b.c")) = Some "https://p".
Proof. by vm_compute. Qed.
End Witnesses.
