(* ===== verification/UserHistory.v ===== *)
(** The Users under concurrency: whatever the provider runs and however the calls interleave,
    the stored Users are the result of writes of single fields, an account's creation is
    recorded once, and the login providers are those the provider knows. *)

From S2P Require Import Prelude GoLib Prog Model Json Cluster Users AvatarSync Actions.
From S2P Require Import ActionsSpec ActionsRoutes UserSweep AbandonedGC ZitadelHttp Finalizers Interleave Provider.

(** * The specification: writes of single fields

    The abstract state of the Users forgets the resource versions; an answered call acts on
    one field of one User, or on its existence. *)

(** An avatar patch leaves EmailVerification alone. *)
Definition merge_avatar (original current old : User) : User :=
  with_avatar old (patch_field (u_avatarURL original) (u_avatarURL current) (u_avatarURL old))
    (patch_field (u_lastLoginProvider original) (u_lastLoginProvider current) (u_lastLoginProvider old)).

Definition wrote (e : event) : bool :=
  match e with
  | existT (KCreateUser _) (Ok _) => true
  | existT (KUpdateUserStatus _ | KPatchUserStatus _ _ _ | KDeleteUser _ | KUpdateUser _) None => true
  | _ => false
  end.

Inductive effect : event → gmap string User → gmap string User → Prop :=
| no_effect e m : wrote e = false → effect e m m
| creates u u' m :
    m !! u_name u = None → same_spec u u' → effect (ev (KCreateUser u) (Ok u')) m (<[u_name u := set_rv 0 u']> m)
| sets_verification u old m :
    m !! u_name u = Some old → u_emailVerification old ≠ u_emailVerification u →
    effect (ev (KUpdateUserStatus u) None) m (<[u_name u := with_emailVerification old (u_emailVerification u)]> m)
| sets_avatar o c fm old m :
    m !! u_name c = Some old → effect (ev (KPatchUserStatus o c fm) None) m (<[u_name c := merge_avatar o c old]> m)
| deletes_user n m m' : m' = delete n m ∨ m' = m → effect (ev (KDeleteUser n) None) m m'
| releases_user meta m m' : m_deleting meta = true ∧ m' = delete (m_name meta) m ∨ m' = m → effect (ev (KUpdateUser meta) None) m m'.

Fixpoint history (l : list (nat * event)) (m m' : gmap string User) : Prop :=
  match l with
  | [] => m' = m
  | x :: l => ∃ m1, effect x.2 m m1 ∧ history l m1 m'
  end.

(** ** What a history keeps *)

Lemma history_app l l' m m' : history (l ++ l') m m' ↔ ∃ m1, history l m m1 ∧ history l' m1 m'.
Proof.
  revert m. induction l as [|x l IH]; intros m; simpl; [naive_solver|]. setoid_rewrite IH. naive_solver.
Qed.

Lemma history_snoc l i e m m1 m' : history l m m1 → effect e m1 m' → history (l ++ [(i, e)]) m m'.
Proof. intros Hl He. apply history_app. exists m1. split; [done|]. by exists m'. Qed.

(** A call that may take the User away, or that replaces its avatar or provider. *)
Definition removes (n : string) (e : event) : bool :=
  match e with
  | existT (KDeleteUser n') None => bool_decide (n' = n)
  | existT (KUpdateUser meta) None => m_deleting meta && bool_decide (m_name meta = n)
  | _ => false
  end.

Definition replaces_avatar (n : string) (e : event) : bool :=
  removes n e || match e with existT (KPatchUserStatus _ c _) None => bool_decide (u_name c = n) | _ => false end.

Definition replaces_verification (n : string) (e : event) : bool :=
  removes n e || match e with existT (KUpdateUserStatus u) None => bool_decide (u_name u = n) | _ => false end.

(** Looks the User [n] up behind an effect: the effect is on another User, or is what the
    hypothesis on the event excludes. *)
Ltac behind_effect He Hn Hu :=
  destruct He as [e m Hw | w w' m Habs Hspec | w old m Hold Hdiff | o c fm old m Hold | k m m' Hm | meta m m' Hm]; simpl in Hn;
  rewrite ?orb_false_r in Hn; try (apply bool_decide_eq_false in Hn);
  try (destruct Hm as [-> | ->]); try (destruct Hm as [[Hdel ->] | ->]; [rewrite Hdel in Hn|]); try (apply bool_decide_eq_false in Hn); rewrite ?lookup_delete_ne by done;
  try match goal with |- context [<[?k := _]> _ !! ?n] => destruct (decide (k = n)) as [Hk|];
    [rewrite Hk in *|rewrite lookup_insert_ne by done] end;
  try congruence; eauto.

Lemma effect_keeps_avatar n e m m' u :
  effect e m m' → replaces_avatar n e = false → m !! n = Some u →
  ∃ u', m' !! n = Some u' ∧ u_avatarURL u' = u_avatarURL u ∧ u_lastLoginProvider u' = u_lastLoginProvider u.
Proof.
  unfold replaces_avatar. intros He Hn Hu. behind_effect He Hn Hu.
  rewrite lookup_insert_eq. rewrite Hu in Hold. injection Hold as <-. eauto.
Qed.

Lemma effect_keeps_verification n e m m' u :
  effect e m m' → replaces_verification n e = false → m !! n = Some u →
  ∃ u', m' !! n = Some u' ∧ u_emailVerification u' = u_emailVerification u.
Proof.
  unfold replaces_verification. intros He Hn Hu. behind_effect He Hn Hu.
  rewrite lookup_insert_eq. rewrite Hu in Hold. injection Hold as <-. eauto.
Qed.

Lemma history_keeps {A} (f : User → A) (replaces : event → bool) n l m m' u :
  (∀ e m m' u, effect e m m' → replaces e = false → m !! n = Some u → ∃ u', m' !! n = Some u' ∧ f u' = f u) →
  history l m m' → Forall (λ x, replaces x.2 = false) l → m !! n = Some u → ∃ u', m' !! n = Some u' ∧ f u' = f u.
Proof.
  intros Hkeeps. revert m u. induction l as [|x l IH]; simpl; intros m u; [intros -> _ Hu; by exists u|].
  intros (m1 & He & Hl) [Hx Hall]%Forall_cons_1 Hu. destruct (Hkeeps _ _ _ _ He Hx Hu) as (u1 & Hu1 & Hf).
  destruct (IH m1 u1 Hl Hall Hu1) as (u2 & Hu2 & Hf2). exists u2. split; [done|congruence].
Qed.

(** * The provider implements it *)

Section History.
Context `{GoRuntime} `{ConflictRetry} `{FinalizerLibrary} {S : Type} (h : environment S) `{!ApiStore h} `{!CachedReads h} `{!Versioned h}.

Abbreviation system := (Interleave.system (S := S) (R := unit)).

(** The Users without their versions. *)
Definition fields (s : S) : gmap string User := set_rv 0 <$> users s.

(** A User read by any thread, while it is stored under the version it was read with, is
    stored as it was read. *)
Definition reads_current (y : system) : Prop :=
  ∀ i n u0, (i, ev (KGetUser n) (Ok u0)) ∈ sy_log y →
    u_name u0 = n ∧ (u_resourceVersion u0 ≤ revision (sy_state y))%Z ∧
    ∀ u, users (sy_state y) !! n = Some u → u_resourceVersion u = u_resourceVersion u0 → u = u0.

Lemma reads_current_step y i o k : reads_current y → reads_current (after_call h y i o k).
Proof.
  intros Hy j n u0 Hin. simpl in *. pose proof (revision_mono o (sy_state y)) as Hmono.
  apply elem_of_app in Hin as [Hin|Hin%list_elem_of_singleton].
  - destruct (Hy j n u0 Hin) as (Hn & Hle & Hcur). split; [done|]. split; [lia|]. intros u Hu Hrv.
    destruct (revision_fresh o (sy_state y) n u Hu) as [Hold|Hnew]; [by apply Hcur|lia].
  - apply pair_equal_spec in Hin as [-> Hev]. pose proof (ev_op _ _ _ _ Hev) as <-. apply ev_inj in Hev.
    pose proof (cached_get n (sy_state y)) as Hg. rewrite <-Hev in Hg. destruct Hg as (m & Hm & Hg).
    pose proof (revision_bound _ _ _ _ Hm Hg). rewrite (api_frame (KGetUser n) (sy_state y) eq_refl).
    split; [by eapply visible_named|]. split; [lia|]. intros u Hu. by eapply revision_identifies.
Qed.

Lemma fields_lookup s n : fields s !! n = set_rv 0 <$> users s !! n.
Proof. apply lookup_fmap. Qed.

Lemma fields_touched n m m' : touched n m m' → set_rv 0 <$> m' = set_rv 0 <$> m.
Proof.
  intros [->|(old & rv & Hold & ->)]; [done|]. rewrite fmap_insert. apply insert_id. rewrite lookup_fmap, Hold. done.
Qed.

(** The call of a thread that keeps to the rule has the specified effect. *)
Lemma call_effect y i o :
  reads_current y → rule (own i (sy_log y)) (ev o (h o (sy_state y)).2) →
  effect (ev o (h o (sy_state y)).2) (fields (sy_state y)) (fields (h o (sy_state y)).1).
Proof.
  set (s := sy_state y). intros Hy Hrule. unfold fields. destruct (writes_users o) eqn:Hw.
  2: { rewrite (api_frame o s Hw). apply no_effect. by destruct o. }
  destruct o; try discriminate Hw.
  - pose proof (api_create u s) as Hc. destruct (h (KCreateUser u) s) as [s' [u'|e]]; simpl in *.
    + destruct Hc as (Habs & -> & Hspec). rewrite fmap_insert. apply creates; [|done]. by rewrite lookup_fmap, Habs.
    + destruct Hc as [-> _]. by apply no_effect.
  - pose proof (api_delete name s) as Hd. destruct (h (KDeleteUser name) s) as [s' [e|]]; simpl in *.
    + destruct Hd as [-> _]. by apply no_effect.
    + apply deletes_user. destruct Hd as [->|Ht]; [left; by rewrite fmap_delete|right; by eapply fields_touched].
  - pose proof (api_update u s) as Hu. destruct (h (KUpdateUserStatus u) s) as [s' [e|]]; simpl in *.
    { rewrite Hu. by apply no_effect. }
    destruct Hu as (old & rv & Hold & Hrv & ->). destruct Hrule as (n & u0 & v & Hin%elem_of_own & -> & Hne).
    destruct (Hy i n u0 Hin) as (Hn & _ & Hcur). simpl in *. rewrite Hn in Hold. pose proof (Hcur old Hold Hrv) as ->.
    rewrite fmap_insert.
    apply (sets_verification (with_emailVerification u0 (Desired v)) (set_rv 0 u0)); [|done].
    simpl. by rewrite lookup_fmap, Hn, Hold.
  - pose proof (api_patch original current fieldOwner s) as Hp.
    destruct (h (KPatchUserStatus original current fieldOwner) s) as [s' [e|]]; simpl in *.
    { rewrite Hp. by apply no_effect. }
    destruct Hp as (old & rv & Hold & ->). rewrite fmap_insert.
    assert (set_rv 0 (set_rv rv (merge_patch original current old)) = merge_avatar original current (set_rv 0 old)) as ->.
    { destruct Hrule as (url & p & -> & _). unfold merge_patch, merge_avatar, with_avatar. simpl. unfold patch_field at 3.
      rewrite decide_True by done. done. }
    apply sets_avatar. by rewrite lookup_fmap, Hold.
  - pose proof (api_update_meta m s) as Hu. destruct (h (KUpdateUser m) s) as [s' [e|]]; simpl in *.
    { rewrite Hu. by apply no_effect. }
    apply releases_user. destruct Hu as [[Hm ->]|Ht]; [left; by rewrite fmap_delete|right; by eapply fields_touched].
Qed.

Lemma history_reachable s ps y :
  Forall activity ps → reaches h s ps y → reads_current y ∧ history (sy_log y) (fields s) (fields (sy_state y)).
Proof.
  intros Hps Hr. revert y Hr. apply (system_invariant h s ps rule).
  - exact (Forall_impl _ activity_rule Hps).
  - split; [|done]. intros i n u0 Hin. by apply not_elem_of_nil in Hin.
  - intros y' i o k _ [Hcur Hhist] _ Hrule. split; [by apply reads_current_step|].
    eapply history_snoc; [exact Hhist|]. by apply (call_effect y' i o).
Qed.
End History.

(** * Counting over all threads *)

Definition others (i : nat) (l : list (nat * event)) : list (nat * event) := filter (λ x, x.1 ≠ i) l.

Lemma own_cons i j e l : own i ((j, e) :: l) = (if decide (j = i) then [e] else []) ++ own i l.
Proof. unfold own. simpl. by destruct (decide (j = i)). Qed.

Lemma others_cons i j e l : others i ((j, e) :: l) = (if decide (j = i) then [] else [(j, e)]) ++ others i l.
Proof.
  unfold others. rewrite filter_cons. simpl. destruct (decide (j = i)); [by rewrite decide_False by auto|].
  by rewrite decide_True.
Qed.

Lemma number_own (P : event → bool) i l :
  number (λ x, P x.2) l = (count P (own i l) + number (λ x, P x.2) (others i l))%nat.
Proof.
  induction l as [|[j e] l IH]; [done|]. rewrite own_cons, others_cons. unfold number, count in *.
  destruct (decide (j = i)); simpl; destruct (P e); simpl; lia.
Qed.

Lemma own_others i j l : own j (others i l) = if decide (j = i) then [] else own j l.
Proof.
  induction l as [|[k e] l IH]; [by case_decide|]. rewrite others_cons, own_cons.
  destruct (decide (k = i)) as [->|Hk]; cbn [app]; [|rewrite own_cons]; rewrite IH; repeat case_decide; try done; congruence.
Qed.

(** What holds thread by thread holds for all of them together. *)
Lemma number_le (P Q : event → bool) l :
  (∀ i, (count P (own i l) ≤ count Q (own i l))%nat) → (number (λ x, P x.2) l ≤ number (λ x, Q x.2) l)%nat.
Proof.
  revert l. induction l as [l IH] using (induction_ltof1 _ (@length _)); unfold ltof in IH.
  destruct l as [|[i e] l]; intros Hl; [done|].
  rewrite (number_own P i), (number_own Q i). apply Nat.add_le_mono; [apply Hl|]. apply IH.
  - rewrite others_cons, decide_True by done. simpl. unfold others. pose proof (length_filter (λ x, x.1 ≠ i) l). simpl. lia.
  - intros j. rewrite own_others. case_decide; [done|apply Hl].
Qed.

(** * Accounts and the record of their creation *)

Definition created (n : string) (e : event) : bool :=
  match e with existT (KCreateUser _) (Ok u') => bool_decide (u_name u' = n) | _ => false end.

Definition records (n : string) (e : event) : bool :=
  match e with
  | existT (KCreateEvent x) _ => bool_decide (ev_reason x = EventReasonAccountCreated ∧ ev_involvedName x = n)
  | _ => false
  end.

Lemma count_snoc P (tr : trace) e : count P (tr ++ [e]) = (count P tr + (if P e then 1 else 0))%nat.
Proof. rewrite count_app. unfold count at 2. simpl. by destruct (P e). Qed.

Lemma count_cons P e (tr : trace) : count P (e :: tr) = ((if P e then 1 else 0) + count P tr)%nat.
Proof. unfold count. simpl. by destruct (P e). Qed.

Lemma no_records n tr : no is_account_created tr → count (records n) tr = 0%nat.
Proof.
  unfold no, count. induction tr as [|[o r] tr IH]; [done|]. simpl.
  destruct o; simpl; try exact IH. repeat case_bool_decide; simpl; try exact IH; intuition congruence.
Qed.

(** A thread that keeps to the rule records no more creations than it made. *)
Lemma thread_records n tr : each rule tr → (count (records n) tr ≤ count (created n) tr)%nat.
Proof.
  induction tr as [tr IH] using (induction_ltof1 _ (@length _)); unfold ltof in IH. intros Htr.
  destruct tr as [|e tr _] using rev_ind; [done|]. pose proof (each_prefix _ _ _ Htr) as Hpre.
  rewrite !count_snoc. destruct (records n e) eqn:Hrec.
  - assert (rule tr e) as Hr by (by apply (Htr tr e [])).
    destruct e as [o r]; destruct o; try discriminate Hrec. simpl in Hrec, Hr. apply bool_decide_eq_true in Hrec as [Hreason <-].
    destruct (Hr Hreason) as (pre & u & u' & mid & -> & Hmid & Hn & _). rewrite !count_app, !count_cons, (no_records _ _ Hmid).
    simpl. rewrite bool_decide_true by done. apply each_prefix in Hpre.
    pose proof (IH pre ltac:(rewrite !length_app; simpl; lia) Hpre). lia.
  - rewrite length_app in IH. simpl in IH. pose proof (IH tr ltac:(lia) Hpre). lia.
Qed.

Definition stored_at (m : gmap string User) (n : string) : nat := if m !! n is Some _ then 1%nat else 0%nat.

Lemma effect_counts n e m m' :
  effect e m m' →
  ((if created n e then 1 else 0) + stored_at m n ≤ stored_at m' n + (if removes n e then 1 else 0))%nat.
Proof.
  unfold stored_at. intros [e' m1 Hw | w w' m1 Habs Hspec | w old m1 Hold _ | o c fm old m1 Hold | k m1 m2 Hm | meta m1 m2 Hm]; simpl.
  - assert (created n e' = false) as ->; [|lia]. destruct e' as [o r]. destruct o; try done. by destruct r.
  - destruct Hspec as [-> _]. case_bool_decide as Hn; [subst n; rewrite Habs, lookup_insert_eq; lia|].
    rewrite lookup_insert_ne by done. lia.
  - destruct (decide (u_name w = n)) as [<-|]; [rewrite lookup_insert_eq; case_match; lia|rewrite lookup_insert_ne by done; lia].
  - destruct (decide (u_name c = n)) as [<-|]; [rewrite lookup_insert_eq; case_match; lia|rewrite lookup_insert_ne by done; lia].
  - case_bool_decide as Hn; [repeat case_match; lia|]. destruct Hm as [-> | ->]; rewrite ?lookup_delete_ne by done; lia.
  - destruct Hm as [[-> ->] | ->]; [simpl|lia]. case_bool_decide as Hn; [repeat case_match; lia|]. rewrite lookup_delete_ne by done. lia.
Qed.

Lemma number_cons P (x : nat * event) l : number P (x :: l) = ((if P x then 1 else 0) + number P l)%nat.
Proof. unfold number. simpl. by destruct (P x). Qed.

Lemma history_counts n l m m' :
  history l m m' →
  (number (λ x, created n x.2) l + stored_at m n ≤ stored_at m' n + number (λ x, removes n x.2) l)%nat.
Proof.
  revert m. induction l as [|x l IH]; intros m; simpl; [intros ->; unfold number; simpl; lia|].
  intros (m1 & He & Hl). rewrite !number_cons. pose proof (effect_counts n _ _ _ He). pose proof (IH m1 Hl). lia.
Qed.

(** * The types of what is stored *)

Definition typed_user (u : User) : Prop := u_lastLoginProvider u = ProviderUnset ∨ known_provider (u_lastLoginProvider u).

Definition typed_pending (key : string) (a : pendingAvatar) : Prop :=
  key ≠ EmptyString ∧ pa_avatarURL a ≠ EmptyString ∧ known_provider (pa_provider a).

Section Types.
Context `{GoRuntime} `{ConflictRetry} `{FinalizerLibrary} {S : Type} (h : environment S) `{!ApiStore h} `{!CachedReads h} `{!PendingMap h}.

Abbreviation system := (Interleave.system (S := S) (R := unit)).

Definition typed_state (s : S) : Prop :=
  (∀ m, visible s m → ∀ n u, m !! n = Some u → typed_user u) ∧ (∀ key a, pending s !! key = Some a → typed_pending key a).

(** What the threads have read is typed, too. *)
Definition typed_log (l : list (nat * event)) : Prop :=
  (∀ i n u, (i, ev (KGetUser n) (Ok u)) ∈ l → typed_user u) ∧
  (∀ i key a, (i, ev (MapLoadAndDelete key) (Some a)) ∈ l → typed_pending key a).

Lemma typed_provider i l p : typed_log l → provider_from (own i l) p → known_provider p.
Proof. intros [_ Hl] [?|(key & a & Hin%elem_of_own & <-)]; [done|]. by destruct (Hl i key a Hin) as (_ & _ & ?). Qed.

Lemma typed_insert (m : gmap string User) n0 u0 :
  (∀ n u, m !! n = Some u → typed_user u) → typed_user u0 → ∀ n u, <[n0 := u0]> m !! n = Some u → typed_user u.
Proof. intros Hm Hu n u [[_ <-]|[_ ?]]%lookup_insert_Some; [done|by eapply Hm]. Qed.

Lemma typed_touched n0 m m' :
  touched n0 m m' → (∀ n u, m !! n = Some u → typed_user u) → ∀ n u, m' !! n = Some u → typed_user u.
Proof.
  intros [->|(old & rv & Hold & ->)] Hm; [exact Hm|]. apply typed_insert; [exact Hm|]. exact (Hm n0 old Hold).
Qed.

Lemma typed_delete (m : gmap string User) n0 :
  (∀ n u, m !! n = Some u → typed_user u) → ∀ n u, delete n0 m !! n = Some u → typed_user u.
Proof. intros Hm n u [_ ?]%lookup_delete_Some. by eapply Hm. Qed.

Lemma typed_users_step i l o s :
  typed_log l → typed_state s → rule (own i l) (ev o (h o s).2) →
  ∀ n u, users (h o s).1 !! n = Some u → typed_user u.
Proof.
  intros Hl [Hs _] Hrule. specialize (Hs _ (visible_now s)).
  destruct (writes_users o) eqn:Hw; [|by rewrite (api_frame o s Hw)]. destruct o; try discriminate Hw.
  - pose proof (api_create u s) as Hc. destruct (h (KCreateUser u) s) as [s' [u'|e]]; simpl in *.
    + destruct Hc as (_ & -> & Hspec). apply typed_insert; [done|]. left. apply Hspec.
    + by destruct Hc as [-> _].
  - pose proof (api_delete name s) as Hd. destruct (h (KDeleteUser name) s) as [s' [e|]]; simpl in *.
    + by destruct Hd as [-> _].
    + destruct Hd as [->|Ht]; [by apply typed_delete|by eapply typed_touched].
  - pose proof (api_update u s) as Hu. destruct (h (KUpdateUserStatus u) s) as [s' [e|]]; simpl in *; [by rewrite Hu|].
    destruct Hu as (old & rv & _ & _ & ->). destruct Hrule as (n & u0 & v & Hin%elem_of_own & -> & _).
    apply typed_insert; [done|]. exact (proj1 Hl i n u0 Hin).
  - pose proof (api_patch original current fieldOwner s) as Hp.
    destruct (h (KPatchUserStatus original current fieldOwner) s) as [s' [e|]]; simpl in *; [by rewrite Hp|].
    destruct Hp as (old & rv & Hold & ->). destruct Hrule as (url & p & -> & Hp). apply (typed_provider i l p Hl) in Hp.
    apply typed_insert; [done|]. unfold typed_user, merge_patch, patch_field. simpl. case_decide; [exact (Hs _ _ Hold)|by right].
  - pose proof (api_update_meta m s) as Hu. destruct (h (KUpdateUser m) s) as [s' [e|]]; simpl in *; [by rewrite Hu|].
    destruct Hu as [[_ ->]|Ht]; [by apply typed_delete|by eapply typed_touched].
Qed.

Lemma typed_pending_step i l o s :
  typed_log l → (∀ key a, pending s !! key = Some a → typed_pending key a) → rule (own i l) (ev o (h o s).2) →
  ∀ key a, pending (h o s).1 !! key = Some a → typed_pending key a.
Proof.
  intros Hl Hs Hrule. destruct (pending_cases o) as [Hf|[(k & v & ->)|(k & ->)]].
  - by rewrite (pending_frame o s Hf).
  - rewrite pending_store. destruct Hrule as (Hk & Hurl & Hp). apply (typed_provider i l _ Hl) in Hp.
    intros key a [[<- <-]|[_ ?]]%lookup_insert_Some; [done|by apply Hs].
  - rewrite pending_delete. intros key a [_ ?]%lookup_delete_Some. by apply Hs.
Qed.

Lemma typed_log_step i l o s : typed_state s → typed_log l → typed_log (l ++ [(i, ev o (h o s).2)]).
Proof.
  intros [Hu Hp] [Hl1 Hl2]. split.
  - intros j n u [Hin|Hin%list_elem_of_singleton]%elem_of_app; [by eapply Hl1|].
    apply pair_equal_spec in Hin as [-> Hev]. pose proof (ev_op _ _ _ _ Hev) as <-. apply ev_inj in Hev.
    pose proof (cached_get n s) as Hg. rewrite <-Hev in Hg. destruct Hg as (m & Hm & Hg). exact (Hu m Hm n u Hg).
  - intros j key a [Hin|Hin%list_elem_of_singleton]%elem_of_app; [by eapply Hl2|].
    apply pair_equal_spec in Hin as [-> Hev]. pose proof (ev_op _ _ _ _ Hev) as <-. apply ev_inj in Hev.
    apply Hp. rewrite <-pending_load. by rewrite <-Hev.
Qed.

Lemma typed_reachable s ps y :
  Forall activity ps → typed_state s → reaches h s ps y → typed_state (sy_state y) ∧ typed_log (sy_log y).
Proof.
  intros Hps Hs Hr. revert y Hr. apply (system_invariant h s ps rule).
  - exact (Forall_impl _ activity_rule Hps).
  - split; [done|]. split; [intros ??? Hin|intros ??? Hin]; by apply not_elem_of_nil in Hin.
  - intros y i o k _ [[Hu Hp] Hl] _ Hrule. split; [|by apply typed_log_step]. split.
    + intros m [Hm| ->]%visible_moves; [by apply Hu|]. by apply (typed_users_step i (sy_log y)).
    + by apply (typed_pending_step i (sy_log y)).
Qed.
End Types.

(** ** Reading a history *)

Lemma effect_patch o c fm m m' :
  effect (ev (KPatchUserStatus o c fm) None) m m' → ∃ old, m !! u_name c = Some old ∧ m' = <[u_name c := merge_avatar o c old]> m.
Proof.
  intros He. remember (ev (KPatchUserStatus o c fm) None) as e eqn:Heq.
  destruct He as [e m Hw | | | o' c' fm' old m Hold | |]; try discriminate Heq; [by rewrite Heq in Hw|].
  injection Heq as -> -> ->. eauto.
Qed.

Lemma effect_update w m m' :
  effect (ev (KUpdateUserStatus w) None) m m' →
  ∃ old, m' = <[u_name w := with_emailVerification old (u_emailVerification w)]> m.
Proof.
  intros He. remember (ev (KUpdateUserStatus w) None) as e eqn:Heq.
  destruct He as [e m Hw | | w' old m Hold _ | | |]; try discriminate Heq; [by rewrite Heq in Hw|].
  injection Heq as ->. eauto.
Qed.

Lemma effect_keeps_pair n e m m' u :
  effect e m m' → replaces_avatar n e = false → m !! n = Some u →
  ∃ u', m' !! n = Some u' ∧ (u_avatarURL u', u_lastLoginProvider u') = (u_avatarURL u, u_lastLoginProvider u).
Proof.
  intros He Hn Hu. destruct (effect_keeps_avatar n e m m' u He Hn Hu) as (u' & Hu' & Ha & Hp).
  exists u'. by rewrite Ha, Hp.
Qed.

Lemma fields_stored {S} (h : environment S) `{!ApiStore h} s n u :
  fields h s !! n = Some u → ∃ u', users s !! n = Some u' ∧ u = set_rv 0 u'.
Proof. rewrite fields_lookup. by intros (u' & Hu & ->)%fmap_Some; eauto. Qed.

Lemma fields_stored_at {S} (h : environment S) `{!ApiStore h} s n : stored_at (fields h s) n = stored_at (users s) n.
Proof. unfold stored_at. rewrite fields_lookup. by destruct (users s !! n). Qed.

Lemma own_rule `{GoRuntime} `{ConflictRetry} `{FinalizerLibrary} {S} (h : environment S) s (ps : list (M unit)) y i :
  Forall activity ps → reaches h s ps y → each rule (own i (sy_log y)).
Proof.
  intros Hps Hr. destruct (ps !! i) as [p|] eqn:Hp.
  - apply (running_each h s ps y i p rule Hr Hp), activity_rule. by apply (Forall_lookup_1 _ _ _ _ Hps Hp).
  - rewrite (own_absent h s ps); [apply each_nil|done|by apply lookup_ge_None].
Qed.

(** * Properties *)

(** C6: writes are writes of single fields. Let the requests of the actions server, the
    sweeps, the User reconciler and any program that leaves Users alone run at once, their
    calls interleaved in any order, over an API server that gives every write a new version,
    and let them read from caches that lag behind it.
    Then what happened to the stored Users is exactly the sequence of the successful calls'
    effects on single fields: although emailverified.Set sends back the whole status it has
    read, in effect it flips EmailVerification of the User as stored at that moment; an
    avatar patch changes avatar and provider at most; a creation finds no User. *)
Theorem users_are_field_writes `{GoRuntime} `{ConflictRetry} `{FinalizerLibrary} {S} (h : environment S)
    `{!ApiStore h} `{!CachedReads h} `{!Versioned h} (programs : list (M unit)) s y :
  Forall activity programs → reaches h s programs y →
  history (sy_log y) (fields h s) (fields h (sy_state y)).
Proof. intros Hps Hr. by apply (history_reachable h s programs y). Qed.

(** C11: no update is lost. After a successful avatar patch the avatar it wrote stays until the
    next avatar patch of that User or its removal, whatever verification updates land in
    between, even ones that read the User before the patch; after a successful verification
    update the state it wrote stays, whatever avatar patches land in between. *)
Theorem no_lost_update `{GoRuntime} `{ConflictRetry} `{FinalizerLibrary} {S} (h : environment S)
    `{!ApiStore h} `{!CachedReads h} `{!Versioned h} (programs : list (M unit)) s y pre i e post :
  Forall activity programs → reaches h s programs y → sy_log y = pre ++ (i, e) :: post →
  (∀ o c fm, e = ev (KPatchUserStatus o c fm) None →
     Forall (λ x, replaces_avatar (u_name c) x.2 = false) post →
     ∃ u, users (sy_state y) !! u_name c = Some u ∧
       (u_avatarURL o ≠ u_avatarURL c → u_avatarURL u = u_avatarURL c) ∧
       (u_lastLoginProvider o ≠ u_lastLoginProvider c → u_lastLoginProvider u = u_lastLoginProvider c)) ∧
  (∀ w, e = ev (KUpdateUserStatus w) None →
     Forall (λ x, replaces_verification (u_name w) x.2 = false) post →
     ∃ u, users (sy_state y) !! u_name w = Some u ∧ u_emailVerification u = u_emailVerification w).
Proof.
  intros Hps Hr Hlog. destruct (history_reachable h s programs y Hps Hr) as [_ Hhist]. rewrite Hlog in Hhist.
  apply history_app in Hhist as (m & _ & (m1 & He & Hpost)). simpl in He. split.
  - intros o c fm -> Hall. destruct (effect_patch _ _ _ _ _ He) as (old & _ & ->).
    destruct (history_keeps (λ u, (u_avatarURL u, u_lastLoginProvider u)) (replaces_avatar (u_name c)) (u_name c) post _ _
      (merge_avatar o c old) (λ e m m' u He Hn Hu, effect_keeps_pair _ _ _ _ _ He Hn Hu) Hpost Hall) as (u & Hu & Hf);
      [by rewrite lookup_insert_eq|].
    apply fields_stored in Hu as (u' & Hu' & ->). injection Hf as Ha Hp. simpl in Ha, Hp. exists u'. split; [done|].
    rewrite Ha, Hp. unfold patch_field. by split; intros; rewrite decide_False.
  - intros w -> Hall. destruct (effect_update _ _ _ He) as (old & ->).
    destruct (history_keeps u_emailVerification (replaces_verification (u_name w)) (u_name w) post _ _
      (with_emailVerification old (u_emailVerification w)) (effect_keeps_verification (u_name w)) Hpost Hall) as (u & Hu & Hf);
      [by rewrite lookup_insert_eq|].
    apply fields_stored in Hu as (u' & Hu' & ->). by exists u'.
Qed.

(** C13: the creation of an account is recorded once. However often Zitadel delivers the event
    of a creation, and while the sweeps repair missing Users beside it: of the activity
    Events "AccountCreated" about one User there are at most as many as there were
    successful creations, and at most one more than removals; none when the User existed
    from the start and was never removed. *)
Theorem account_recorded_once `{GoRuntime} `{ConflictRetry} `{FinalizerLibrary} {S} (h : environment S)
    `{!ApiStore h} `{!CachedReads h} `{!Versioned h} (programs : list (M unit)) s y n :
  Forall activity programs → reaches h s programs y →
  (number (λ x, records n x.2) (sy_log y) ≤ number (λ x, created n x.2) (sy_log y))%nat ∧
  (number (λ x, records n x.2) (sy_log y) + stored_at (users s) n ≤ 1 + number (λ x, removes n x.2) (sy_log y))%nat.
Proof.
  intros Hps Hr.
  assert (number (λ x, records n x.2) (sy_log y) ≤ number (λ x, created n x.2) (sy_log y))%nat as Hle.
  { apply number_le. intros i. apply thread_records. by apply (own_rule h s programs). }
  split; [done|]. destruct (history_reachable h s programs y Hps Hr) as [_ Hhist].
  apply (history_counts n) in Hhist. rewrite (fields_stored_at h s) in Hhist.
  assert (stored_at (fields h (sy_state y)) n ≤ 1)%nat by (unfold stored_at; case_match; lia). lia.
Qed.

(** C36: what is stored is well typed. From a state in which every User, as
    stored and as a cache may still show it, names no provider or one the provider knows, and
    every pending avatar has an email, an address and a known provider, every interleaving of
    what the provider runs leads to such a state. *)
Theorem stored_users_typed `{GoRuntime} `{ConflictRetry} `{FinalizerLibrary} {S} (h : environment S)
    `{!ApiStore h} `{!CachedReads h} `{!PendingMap h} (programs : list (M unit)) s y :
  Forall activity programs → typed_state h s → reaches h s programs y → typed_state h (sy_state y).
Proof. intros Hps Hs Hr. by apply (typed_reachable h s programs y). Qed.

(** * Witnesses *)

Section Witnesses.
#[local] Existing Instance ascii_runtime.
#[local] Existing Instance default_retry.
#[local] Existing Instance one_finalizer.

Definition google_login : string :=
  js "{'event_type':'idpintent.succeeded','event_payload':{'userId':'u1','idpUser':'eyJVc2VyIjogeyJwaWN0dXJlIjogImh0dHBzOi8vcCIsICJlbWFpbCI6ICJBQGIuYyJ9fQ=='}}".
Definition github_login : string :=
  js "{'event_type':'idpintent.succeeded','event_payload':{'userId':'u1','idpUser':'eyJVc2VyIjogeyJhdmF0YXJfdXJsIjogImh0dHBzOi8vZyIsICJlbWFpbCI6ICJBQGIuYyJ9fQ=='}}".

Lemma request_activity path (handler : HttpRequest → M HttpResponse) body :
  (path, handler) ∈ routes ready_server → activity (discard (handler (post body))).
Proof. intros Hin. by apply (serves ready_server path). Qed.

(** A verification and two logins of [u1], whose avatar is of a GitHub account. *)
Definition logins : list (M unit) :=
  [discard (emailVerifiedHandler ready_server (post verified_body));
   discard (idpIntentSucceededHandler ready_server (post google_login));
   discard (idpIntentSucceededHandler ready_server (post github_login))].

Lemma logins_activities : Forall activity logins.
Proof.
  repeat apply List.Forall_cons; [..|apply List.Forall_nil];
    [apply (request_activity "/v1/actions/email-verified")|apply (request_activity "/v1/actions/idp-intent-succeeded")..];
    unfold routes; repeat (first [by left|right]).
Qed.

(** The verification reads the User, the Google login patches it, the verification's first
    update conflicts and its second attempt succeeds. *)
Definition conflicting : list nat := [0; 0; 1; 1; 0; 0; 0]%nat.
Definition after_logins (schedule : list nat) : Interleave.system := exec fake schedule (begin one_user logins).
Definition status_of (c : cluster) (n : string) : option (string * AuthProvider * EmailVerificationState) :=
  (λ u, (u_avatarURL u, u_lastLoginProvider u, u_emailVerification u)) <$> users (h := fake) c !! n.

Lemma exec_activities schedule c (ps : list (M unit)) : reaches fake c ps (exec fake schedule (begin c ps)).
Proof. apply exec_reaches, rtc_refl. Qed.

Lemma users_are_field_writes_witness :
  let y := after_logins conflicting in
  status_of (sy_state y) "u1" = Some ("https://p", ProviderGoogle, EVVerified) ∧
  history (sy_log y) (fields fake one_user) (fields fake (sy_state y)).
Proof.
  intros y. split; [vm_compute; reflexivity|].
  exact (users_are_field_writes fake logins one_user y logins_activities (exec_activities conflicting one_user logins)).
Defined.

(** The avatar patch is the fourth call; the verification is recorded after it, from a User
    read again. *)
Lemma no_lost_update_witness :
  let y := after_logins conflicting in
  ∃ u, users (sy_state y) !! "u1" = Some u ∧ u_avatarURL u = "https://p" ∧ u_emailVerification u = EVVerified.
Proof.
  intros y.
  assert (∃ o c fm, sy_log y = take 3 (sy_log y) ++ (1%nat, ev (KPatchUserStatus o c fm) None) :: drop 4 (sy_log y) ∧
    u_name c = "u1" ∧ u_avatarURL c = "https://p" ∧ u_avatarURL o ≠ u_avatarURL c) as (o & c & fm & Hlog & Hn & Hc & Ho).
  { do 3 eexists. split; [vm_compute; reflexivity|]. split; [reflexivity|]. split; [reflexivity|discriminate]. }
  destruct (no_lost_update fake logins one_user y _ _ _ _ logins_activities (exec_activities conflicting one_user logins) Hlog)
    as [Havatar _].
  destruct (Havatar o c fm eq_refl) as (u & Hu & Ha & _).
  - rewrite Hn. repeat (apply List.Forall_cons; [vm_compute; reflexivity|]). apply List.Forall_nil.
  - exists u. rewrite Hn in Hu. split; [exact Hu|]. split; [rewrite <-Hc; exact (Ha Ho)|].
    assert (Some (u_emailVerification u) = Some EVVerified) as Hv; [|by injection Hv].
    change (u_emailVerification <$> Some u = Some EVVerified). rewrite <-Hu. vm_compute. reflexivity.
Defined.

(** Zitadel delivers the creation of [u7] twice while a sweep finds its User missing. *)
Definition deliveries : list (M unit) :=
  [discard (createUserAccountHandler ready_server (post Interleave.signup_body));
   discard (createUserAccountHandler ready_server (post Interleave.signup_body));
   sweeper_Start 0 1 (mkSweeper 1)].

Definition new_human : cluster := set_humans empty_cluster [human "u7" "a@b.c" true 1].

(** The sweep lists the Users and the directory, the deliveries run, the sweep goes on. *)
Definition late_sweep : list nat := replicate 3 2%nat ++ replicate 15 0%nat ++ replicate 15 1%nat ++ replicate 15 2%nat.

Lemma deliveries_activities : Forall activity deliveries.
Proof.
  repeat apply List.Forall_cons; [..|apply List.Forall_nil]; [apply (request_activity "/v1/actions/create-user-account")..|
    apply sweeps]; unfold routes; by left.
Qed.

Lemma account_recorded_once_witness :
  let y := exec fake late_sweep (begin new_human deliveries) in
  map (λ p, match p with Ret _ => true | _ => false end) (sy_threads y) = [true; true; true] ∧
  number (λ x, records "u7" x.2) (sy_log y) = 1%nat ∧
  (number (λ x, records "u7" x.2) (sy_log y) + stored_at (users new_human) "u7" ≤ 1 + number (λ x, removes "u7" x.2) (sy_log y))%nat.
Proof.
  intros y. split; [vm_compute; reflexivity|]. split; [vm_compute; reflexivity|].
  exact (proj2 (account_recorded_once fake deliveries new_human y "u7" deliveries_activities
    (exec_activities late_sweep new_human deliveries))).
Defined.

Lemma stored_users_typed_witness :
  let y := after_logins conflicting in
  typed_state fake one_user ∧ typed_state fake (sy_state y) ∧ is_Some (users (sy_state y) !! "u1").
Proof.
  intros y. assert (typed_state fake one_user) as Htyped.
  { split; [|intros key a Hk; discriminate Hk]. intros m -> n u Hu. change (stored one_user !! n = Some u) in Hu.
    rewrite stored_lookup in Hu. apply fmap_Some in Hu as (u0 & Hu & ->).
    apply (lookup_singleton_Some "u1" n sample_user) in Hu as [_ <-]. right. right. reflexivity. }
  split; [exact Htyped|]. split; [|vm_compute; eexists; reflexivity].
  exact (stored_users_typed fake logins one_user y logins_activities Htyped (exec_activities conflicting one_user logins)).
Defined.

(** Both logins read the GitHub avatar, then the Google one is patched, then the GitHub one:
    its provider did not differ from what was read and is not in the patch, so the new
    GitHub avatar is stored with the provider Google. *)
Example avatar_of_another_provider :
  status_of (sy_state (after_logins [1; 2; 1; 2]%nat)) "u1" = Some ("https://g", ProviderGoogle, EVUnset).
Proof. vm_compute. reflexivity. Qed.
End Witnesses.
