(* ===== verification/SweepRace.v ===== *)
(** The user sweep, the collector of abandoned accounts and the User reconciler at once: that
    none of them brings back what another removed.

    What one thread learns (Zitadel has deleted the account, the Users were listed without
    it) is used by the others; [removal_rule] is what each program asks before it creates,
    deletes or releases a User, and [gone_for_good] the invariant of the system.  The sweep
    lists the Users from a cache, which may lag ([CachedReads]); nor is Zitadel assumed to
    list its users as they are. *)

From S2P Require Import Prelude GoLib Prog Model Json Cluster Users UserSweep AbandonedGC ZitadelHttp Finalizers.
From S2P Require Import Interleave.

(** Errors of the transport, as opposed to answers of a server, are not Kubernetes errors. *)
Class PlainTransport {S} (h : environment S) := {
  transport_plain m u b s e : (h (HttpDo m u b) s).2 = Err e → reason_of e = None }.

#[export] Instance fake_PlainTransport : PlainTransport fake.
Proof. split. by intros m u b s e [= <-]. Qed.

(** * The rule of the sweeps, the collector and the User reconciler *)

(** Zitadel answers that it no longer has the user. *)
Definition confirms (c : HttpClient) (n : string) (e : event) : Prop :=
  e = ev (ZDeleteUser n) None ∨
  (∃ st text, e = ev (HttpDo "GET" (user_url c n) None) (Ok (404%Z, st, text))) ∨
  (∃ code st text, success code ∧ e = ev (HttpDo "DELETE" (user_url c n) None) (Ok (code, st, text))).

Definition erased (c : HttpClient) (n : string) (pre : trace) : Prop := ∃ e, e ∈ pre ∧ confirms c n e.

(** The Users were listed without [n]. *)
Definition unindexed (n : string) (pre : trace) : Prop :=
  ∃ items, (ev KListUsers (Ok items) : event) ∈ pre ∧ n ∉ u_name <$> items.

(** A page on which Zitadel lists [n]. *)
Definition page_with (n : string) (e : event) : Prop :=
  ∃ off lim us raw zu, e = ev (ZListHumanUsers off lim) (Ok (us, raw)) ∧ zu ∈ us ∧ z_ID zu = n.

(** The Users were listed without [n], and after that Zitadel listed it. *)
Definition missing (n : string) (pre : trace) : Prop :=
  ∃ pre1 page post, pre = pre1 ++ page :: post ∧ unindexed n pre1 ∧ page_with n page.

Definition removal_rule (c : HttpClient) (pre : trace) (e : event) : Prop :=
  match e with
  | existT (KCreateUser u) _ => missing (u_name u) pre
  | existT (KDeleteUser n) _ => erased c n pre
  | existT (KUpdateUser m) _ => m_deleting m = true → plain_transport pre → erased c (m_name m) pre
  | _ => True
  end.

Lemma erased_app c n pre0 pre : erased c n pre → erased c n (pre0 ++ pre).
Proof. intros (e & Hin & He). exists e. split; [|done]. apply elem_of_app. by right. Qed.

Lemma unindexed_app n pre0 pre : unindexed n pre → unindexed n (pre0 ++ pre).
Proof. intros (items & Hin & Hn). exists items. split; [|done]. apply elem_of_app. by right. Qed.

Lemma missing_app n pre0 pre : missing n pre → missing n (pre0 ++ pre).
Proof.
  intros (pre1 & page & post & -> & Hun & Hp). exists (pre0 ++ pre1), page, post.
  split; [by rewrite <-app_assoc|]. split; [by apply unindexed_app|done].
Qed.

Lemma missing_more n pre tr : missing n pre → missing n (pre ++ tr).
Proof.
  intros (pre1 & page & post & -> & Hrest). exists pre1, page, (post ++ tr). split; [by rewrite <-app_assoc|done].
Qed.

Lemma plain_app pre0 pre : plain_transport (pre0 ++ pre) → plain_transport pre.
Proof. intros Hp m u b e Hin. apply (Hp m u b e), elem_of_app. by right. Qed.

#[export] Instance removal_rule_extends c : Extends (removal_rule c).
Proof.
  intros pre0 pre [o r]. destruct o; simpl; try done; [apply missing_app|apply erased_app|].
  intros Hm Hd Hp. apply erased_app, Hm; [done|]. by eapply plain_app.
Qed.

(** Calls the rule says nothing about. *)
Definition bystander (o : op) : bool :=
  match o with KCreateUser _ | KDeleteUser _ | KUpdateUser _ => false | _ => true end.

#[local] Notation is_bystander := (λ o, bystander o = true).

Lemma bystander_rule c {A} (p : M A) : only is_bystander p → safe (each (removal_rule c)) p.
Proof. apply only_each. intros o pre a Ho. by destruct o. Qed.

Section Programs.
Context `{GoRuntime} `{ConflictRetry} `{FinalizerLibrary} (c : HttpClient).
Notation R := (removal_rule c).

Lemma bystander_SetVerified n v : only is_bystander (SetVerified n v).
Proof.
  unfold SetVerified. rewrite RetryOnConflict_doc. generalize false. induction retry_steps as [|k IH]; intros b; simpl;
    unfold set_attempt; solve_only.
Qed.

(** ** The sweep *)

Lemma sweep_user_removal existing u pre :
  (existing !! z_ID u = None → missing (z_ID u) pre) → wp (sweep_user existing u) (λ tr _, each_from R pre tr).
Proof.
  intros Hmiss. unfold sweep_user. destruct (existing !! z_ID u) as [old|] eqn:Hu.
  - apply safe_each_from, bystander_rule; [apply _|]. unfold reconcile_verification. pose proof bystander_SetVerified. solve_only.
  - intros []. simpl. intros [] [u'|e]; simpl; [|destruct (IsAlreadyExists e); simpl; [|intros []]];
      (split; [done|]); (split; [done|]); (split; [by do 2 apply missing_more; apply Hmiss|]); done.
Qed.

Lemma sweep_page_removal existing us pre :
  (∀ u, u ∈ us → existing !! z_ID u = None → missing (z_ID u) pre) →
  wp (sweep_page existing us) (λ tr _, each_from R pre tr).
Proof.
  revert pre. induction us as [|u us IH]; intros pre Hmiss; cbn [sweep_page]; [done|].
  apply each_from_seq; [apply sweep_user_removal, Hmiss; by left|]. intros [e|] tr; [done|].
  apply IH. intros u' Hu' Hn. apply missing_more, Hmiss; [by right|done].
Qed.

Lemma sweep_pages_removal fuel existing off pre :
  (∀ n, existing !! n = None → unindexed n pre) →
  wp (sweep_pages fuel existing off) (λ tr _, each_from R pre tr).
Proof.
  revert off pre. induction fuel as [|fuel IH]; intros off pre Hun; cbn [sweep_pages]; [done|].
  intros [[us raw]|e]; simpl; [|by intros []]. set (page := ev _ _).
  assert (wp (e ← sweep_page existing us; match e with
      | Some e => mret (Some (Some e))
      | None => if (raw <? sweepPageSize)%Z then mret (Some None) else sweep_pages fuel existing (add_u64 off raw)
      end) (λ tr _, each_from R (pre ++ [page]) tr)) as Hrest.
  { apply each_from_seq.
    - apply sweep_page_removal. intros u Hu Hn. exists pre, page, []. split; [done|]. split; [by apply Hun|].
      by exists off, sweepPageSize, us, raw, u.
    - intros [e|] tr; [done|]. destruct (raw <? _)%Z; [done|]. apply IH. intros n Hn. destruct (Hun n Hn) as (items & Hin & Hni). exists items. split; [|done].
      rewrite <-app_assoc. apply elem_of_app. by left. }
  eapply wp_mono; [exact Hrest|]. intros tr r Htr. by split.
Qed.

Lemma sweepOnce_removal fuel : safe (each R) (sweepOnce fuel).
Proof.
  unfold safe. eapply wp_mono; [|intros tr r; exact (each_intro R tr)]. unfold sweepOnce.
  intros [items|e]; simpl; [|by intros []].
  match goal with |- wp ?p _ => assert (wp p (λ tr _, each_from R [ev KListUsers (Ok items)] tr)) as Hrest end.
  { apply each_from_seq.
    - apply sweep_pages_removal. intros n Hn. exists items. split; [by left|]. intros (u & -> & Hu)%list_elem_of_fmap.
      assert (is_Some (index_users items !! u_name u)) as [? ?] by (apply index_users_lookup; by exists u). congruence.
    - intros [[e|]|] tr; [done| |done]. by intros []. }
  eapply wp_mono; [exact Hrest|]. intros tr r Htr. by split.
Qed.

Lemma sweeper_removal ticks fuel w : safe (each R) (sweeper_Start ticks fuel w).
Proof.
  unfold sweeper_Start. destruct (_ <=? _)%Z; [apply safe_ret, _|]. apply safe_bind; [apply _|apply sweepOnce_removal|].
  intros _. induction ticks as [|ticks IH]; cbn [sweeper_loop]; [apply safe_ret, _|].
  apply safe_bind; [apply _|apply bystander_rule; solve_only|]. intros [e|]; [apply safe_ret, _|].
  apply safe_bind; [apply _|apply sweepOnce_removal|done].
Qed.

(** ** The collector *)

Lemma collect_removal n : safe (each R) (collect n).
Proof.
  unfold collect. intros [e|]; simpl; [by apply each_intro|]. intros a. apply each_intro. split; [done|].
  split; [|done]. exists (ev (ZDeleteUser n) None). split; [by left|by left].
Qed.

Lemma gc_page_removal g cutoff us t : safe (each R) (gc_page g cutoff us t).
Proof.
  revert t. induction us as [|u us IH]; intros t; cbn [gc_page]; [apply safe_ret, _|].
  apply safe_bind; [apply _| |done]. unfold gc_user. apply safe_bind; [apply _|apply bystander_rule; solve_only|]. intros _.
  apply safe_bind; [apply _|apply bystander_rule; unfold gauge_user; solve_only|]. intros t'.
  destruct (negb _); [apply safe_ret, _|]. unfold collect_candidate.
  apply safe_bind; [apply _|apply bystander_rule; unfold hasIDPLink; solve_only|].
  intros [[|]|e]; [apply bystander_rule; solve_only| |apply bystander_rule; solve_only]. cbv zeta.
  apply safe_bind; [apply _|apply bystander_rule; solve_only|]. intros _. destruct (DryRun g); [apply safe_ret, _|].
  apply safe_bind; [apply _|apply collect_removal|]. intros [e|]; apply bystander_rule; solve_only.
Qed.

Lemma gc_removal ticks fuel g : safe (each R) (gc_Start ticks fuel g).
Proof.
  assert (∀ cutoff off t, safe (each R) (gc_pages fuel g cutoff off t)) as Hpages.
  { induction fuel as [|fuel' IH]; intros cutoff off t; cbn [gc_pages]; [apply safe_ret, _|].
    apply safe_bind; [apply _|apply bystander_rule; solve_only|]. intros [[us raw]|e]; [|apply bystander_rule; solve_only].
    apply safe_bind; [apply _|apply gc_page_removal|]. intros t'. destruct (raw <? _)%Z; [apply safe_ret, _|done]. }
  unfold gc_Start. case_bool_decide; [apply safe_ret, _|]. induction ticks as [|ticks IH]; cbn [gc_loop]; [apply safe_ret, _|].
  apply safe_bind; [apply _|apply bystander_rule; solve_only|]. intros [e|]; [apply safe_ret, _|].
  apply safe_bind; [apply _| |done]. unfold gc_sweepOnce. apply safe_bind; [apply _|apply bystander_rule; solve_only|]. intros now.
  apply safe_bind; [apply _|apply Hpages|]. intros [[t|e]|]; apply bystander_rule; solve_only.
Qed.

(** ** The User reconciler *)

Lemma to_user_removal n pre tr : Forall (to_user c n) tr → each_from R pre tr.
Proof.
  intros Htr. revert pre. induction Htr as [|e tr (mt & b & a & ->) _ IH]; intros pre; [done|]. by split.
Qed.

Lemma reconcile_removal name : safe (each R) (user_Reconcile c name).
Proof.
  unfold safe. eapply wp_mono; [|intros tr r; exact (each_intro R tr)]. unfold user_Reconcile.
  intros [m|e]; simpl; [|by destruct (IsNotFound e)]. rewrite wp_bind, wp_Finalize.
  destruct (m_deleting m) eqn:Hd, (has_finalizer userFinalizerKey m); simpl.
  - eapply wp_mono; [apply userFinalizer_spec|]. intros tr r (e & -> & Hgone & Hurl).
    apply (to_user_removal _ [ev (KGetUserMeta name) (Ok m)]) in Hurl.
    destruct e as [e|]; simpl; [by rewrite !app_nil_r|]. rewrite app_nil_r. intros a. split; [done|].
    apply each_from_app; [done|]. split; [|done]. simpl. intros _ Hplain.
    apply (erased_app _ _ [_]). apply (plain_app [_]) in Hplain. destruct (Hgone Hplain eq_refl) as (pre & e & -> & He).
    exists e. split; [apply elem_of_app; right; by left|]. right.
    destruct He as [(st & text & ->)|(code & st & text & Hc & ->)]; [left; eauto|right; by exists code, st, text].
  - done.
  - done.
  - intros a. split; [done|]. split; [|done]. simpl. by rewrite Hd.
Qed.

(** ** All of them *)

(** What runs at once: the sweep, the collector, User reconcilers, and whatever neither
    creates, deletes nor updates Users. *)
Inductive sweeping : M unit → Prop :=
| sweeper ticks fuel w : sweeping (sweeper_Start ticks fuel w)
| gc ticks fuel g : sweeping (gc_Start ticks fuel g)
| reconciler name : sweeping (user_Reconcile c name ≫= λ _, mret ())
| beside_them p : only is_bystander p → sweeping p.

Lemma sweeping_rule p : sweeping p → safe (each R) p.
Proof.
  intros [ticks fuel w|ticks fuel g|name|p' Hp'].
  - apply sweeper_removal.
  - apply gc_removal.
  - apply safe_bind; [apply _|apply reconcile_removal|]. intros _. apply safe_ret, _.
  - by apply bystander_rule.
Qed.
End Programs.

(** * The invariant *)

(** What every entry of the log of a system keeps to, given the entries before it. *)
Definition log_each (P : list (nat * event) → nat * event → Prop) (l : list (nat * event)) : Prop :=
  ∀ pre x post, l = pre ++ x :: post → P pre x.

Lemma log_each_nil P : log_each P [].
Proof. intros [|] x post; discriminate. Qed.

Lemma log_each_snoc P l x : log_each P l → P l x → log_each P (l ++ [x]).
Proof.
  intros Hl Hx pre y post Heq. destruct post as [|z post _] using rev_ind.
  - apply app_inj_tail in Heq as [<- <-]. done.
  - rewrite app_comm_cons, app_assoc in Heq. apply app_inj_tail in Heq as [-> _]. by apply (Hl pre y post).
Qed.

(** An entry of a thread's calls is an entry of the log. *)
Lemma own_split i l tr e tr' : own i l = tr ++ e :: tr' → ∃ pre post, l = pre ++ (i, e) :: post ∧ own i pre = tr.
Proof.
  revert tr. induction l as [|[j x] l IH]; intros tr; [by destruct tr|]. unfold own. simpl. case_decide as Hj.
  - subst j. destruct tr as [|x' tr]; simpl; intros [= -> Heq]; [by exists [], l|].
    destruct (IH tr Heq) as (pre & post & -> & <-). exists ((i, x') :: pre), post. split; [done|].
    unfold own. simpl. by rewrite decide_True.
  - intros Heq. destruct (IH tr Heq) as (pre & post & -> & <-). exists ((j, x) :: pre), post. split; [done|].
    unfold own. simpl. by rewrite decide_False.
Qed.

Section Confirmed.
Context (c : HttpClient) (n : string).

(** Zitadel has confirmed to one of the threads that [n] is gone. *)
Definition confirmed (l : list (nat * event)) : Prop := ∃ i e, (i, e) ∈ l ∧ confirms c n e.

(** Zitadel has listed [n] after it had confirmed that [n] is gone. *)
Definition stale_page (l : list (nat * event)) : Prop :=
  ∃ pre i page post, l = pre ++ (i, page) :: post ∧ page_with n page ∧ confirmed pre.

Lemma confirmed_snoc l x : confirmed l → confirmed (l ++ [x]).
Proof. intros (i & e & Hin & He). exists i, e. split; [|done]. apply elem_of_app. by left. Qed.

Lemma erased_confirmed i l : erased c n (own i l) → confirmed l.
Proof. intros (e & Hin%elem_of_own & He). by exists i, e. Qed.
End Confirmed.

Section Invariant.
Context `{GoRuntime} `{ConflictRetry} `{FinalizerLibrary} {S : Type} (h : environment S).
Context `{!ApiStore h} `{!CachedReads h} `{!PlainTransport h} (c : HttpClient) (n : string).

Abbreviation system := (Interleave.system (S := S) (R := unit)).

Record gone_for_good (y : system) : Prop := {
  gone_users m : visible (sy_state y) m → m !! n = None → confirmed c n (sy_log y);
  gone_listing i : unindexed n (own i (sy_log y)) → confirmed c n (sy_log y);
  gone_pages : log_each (λ pre x, page_with n x.2 → unindexed n (own x.1 pre) → confirmed c n pre) (sy_log y);
  gone_creates : log_each (λ pre x, ∀ u r, x.2 = ev (KCreateUser u) r → u_name u = n → stale_page c n pre) (sy_log y);
  gone_plain i : plain_transport (own i (sy_log y)) }.

Lemma insert_stays (m : gmap string User) k u u' : m !! n = Some u → <[k := u']> m !! n = None → False.
Proof. intros Hu [? _]%lookup_insert_None. congruence. Qed.

Lemma touched_stays k m m' u : touched k m m' → m !! n = Some u → m' !! n = None → False.
Proof. intros [->|(old & rv & _ & ->)] Hu; [congruence|by apply (insert_stays m k u)]. Qed.

Lemma delete_stays (m : gmap string User) k u : m !! n = Some u → delete k m !! n = None → k = n.
Proof. intros Hu [?|?]%lookup_delete_None; [done|congruence]. Qed.

(** What takes the User [n] away: its deletion, or the update that ends its deletion. *)
Lemma user_leaves o s u :
  users s !! n = Some u → users (h o s).1 !! n = None →
  o = KDeleteUser n ∨ ∃ m, o = KUpdateUser m ∧ m_name m = n ∧ m_deleting m = true.
Proof.
  intros Hu Hn. destruct (writes_users o) eqn:Ho; [|rewrite api_frame in Hn by done; congruence].
  destruct o as []; try discriminate Ho.
  - pose proof (api_create u0 s) as Hc. destruct (h (KCreateUser u0) s) as [s' [u'|e]]; simpl in *.
    + destruct Hc as (_ & Hs & _). rewrite Hs in Hn. by apply (insert_stays _ _ _ _ Hu) in Hn.
    + destruct Hc as [Hs _]. congruence.
  - left. pose proof (api_delete name s) as Hd. destruct (h (KDeleteUser name) s) as [s' [e|]]; simpl in *.
    + destruct Hd as [Hs _]. congruence.
    + destruct Hd as [Hs|Ht]; [|by apply (touched_stays _ _ _ _ Ht Hu) in Hn]. rewrite Hs in Hn. f_equal. exact (delete_stays _ _ _ Hu Hn).
  - pose proof (api_update u0 s) as Hc. destruct (h (KUpdateUserStatus u0) s) as [s' [e|]]; simpl in *; [congruence|].
    destruct Hc as (old & rv & _ & _ & Hs). rewrite Hs in Hn. by apply (insert_stays _ _ _ _ Hu) in Hn.
  - pose proof (api_patch original current fieldOwner s) as Hc.
    destruct (h (KPatchUserStatus original current fieldOwner) s) as [s' [e|]]; simpl in *; [congruence|].
    destruct Hc as (old & rv & _ & Hs). rewrite Hs in Hn. by apply (insert_stays _ _ _ _ Hu) in Hn.
  - right. exists m. split; [done|]. pose proof (api_update_meta m s) as Hc.
    destruct (h (KUpdateUser m) s) as [s' [e|]]; simpl in *; [congruence|].
    destruct Hc as [[Hd Hs]|Ht]; [|by apply (touched_stays _ _ _ _ Ht Hu) in Hn].
    split; [|done]. rewrite Hs in Hn. exact (delete_stays _ _ _ Hu Hn).
Qed.

(** Who lost the User [n] from sight learned first that Zitadel had lost it. *)
Lemma leaves_erased pre o s u :
  plain_transport pre → removal_rule c pre (ev o (h o s).2) →
  users s !! n = Some u → users (h o s).1 !! n = None → erased c n pre.
Proof.
  intros Hp Hrule Hu Hn. destruct (user_leaves o s u Hu Hn) as [->|(m & -> & Hm & Hd)]; [done|].
  rewrite <-Hm. by apply Hrule.
Qed.

(** A listing without [n] shows a state without [n]. *)
Lemma unindexed_now pre o s :
  unindexed n (pre ++ [ev o (h o s).2]) → unindexed n pre ∨ ∃ m, visible s m ∧ m !! n = None.
Proof.
  intros (items & Hin & Hni). apply elem_of_app in Hin as [Hin|Hin%list_elem_of_singleton]; [left; by exists items|right].
  pose proof (ev_op _ _ _ _ Hin) as <-. apply ev_inj in Hin. pose proof (cached_list s) as Hl. rewrite <-Hin in Hl.
  destruct Hl as (m & Hm & Hl). exists m. split; [done|]. apply eq_None_not_Some. intros [u Hu].
  apply Hni, list_elem_of_fmap. pose proof (visible_named _ _ _ _ Hm Hu) as Hname.
  exists u. split; [done|]. apply Hl. by rewrite Hname.
Qed.

Lemma plain_now pre o s : plain_transport pre → plain_transport (pre ++ [ev o (h o s).2]).
Proof.
  intros Hp m u b e Hin. apply elem_of_app in Hin as [Hin|Hin%list_elem_of_singleton]; [by apply (Hp m u b)|].
  pose proof (ev_op _ _ _ _ Hin) as <-. apply ev_inj in Hin. by apply (transport_plain m u b s).
Qed.

Lemma gone_begin s ps : (∀ m, visible s m → is_Some (m !! n)) → gone_for_good (begin s ps).
Proof.
  intros Hu. split; simpl; [|..].
  - intros m Hm%Hu Hn. rewrite Hn in Hm. by destruct Hm.
  - intros i (items & Hin & _). by apply not_elem_of_nil in Hin.
  - apply log_each_nil.
  - apply log_each_nil.
  - intros i m u b e Hin. by apply not_elem_of_nil in Hin.
Qed.

Lemma missing_stale y i : gone_for_good y → missing n (own i (sy_log y)) → stale_page c n (sy_log y).
Proof.
  intros Hy (pre1 & page & post & Heq & Hun & Hpage). destruct (own_split _ _ _ _ _ Heq) as (pre & post' & Hlog & <-).
  exists pre, i, page, post'. split; [done|]. split; [done|]. by apply (gone_pages y Hy pre (i, page) post').
Qed.

Lemma gone_step y i o k :
  gone_for_good y → removal_rule c (own i (sy_log y)) (ev o (h o (sy_state y)).2) → gone_for_good (after_call h y i o k).
Proof.
  intros Hy Hrule. split; simpl.
  - intros m Hm Hn. apply confirmed_snoc. destruct (visible_moves _ _ _ Hm) as [Hold| ->]; [by apply (gone_users y Hy m)|].
    destruct (users (sy_state y) !! n) as [u|] eqn:Hu; [|exact (gone_users y Hy _ (visible_now _) Hu)].
    apply (erased_confirmed c n i). eapply leaves_erased; [apply (gone_plain y Hy)|done..].
  - intros j. rewrite own_snoc. intros Hun. apply confirmed_snoc. case_decide.
    + subst j. apply unindexed_now in Hun as [Hun|(m & Hm & Hn)]; [by apply (gone_listing y Hy i)|by apply (gone_users y Hy m)].
    + rewrite app_nil_r in Hun. by apply (gone_listing y Hy j).
  - apply log_each_snoc; [apply Hy|]. intros _. apply (gone_listing y Hy).
  - apply log_each_snoc; [apply Hy|]. simpl. intros u r Heq Hun. apply (missing_stale y i Hy). rewrite Heq in Hrule.
    simpl in Hrule. by rewrite <-Hun.
  - intros j. rewrite own_snoc. case_decide; [subst j; apply plain_now|rewrite app_nil_r]; apply Hy.
Qed.

(** C14: collected accounts stay collected. Let any sweeps, collectors and User reconcilers
    run at once with whatever does not write Users, their calls interleaved in any order,
    the Users read from caches that may lag, from a state in which the User [n] exists and
    no cache shows it missing. Then the User disappears only after Zitadel has confirmed
    that it no longer has the account; and a User [n] is created again only when Zitadel,
    after that confirmation, still lists the account: never by a race among the
    controllers. This is what the order of the collector's two deletions, the finalizer, and
    the sweep's order of listing (Users first, then Zitadel) are for. [orphan_left_behind]
    and [orphan_by_lag] show why the User must have been seen, [zitadel_lags] why Zitadel's
    listing matters. *)
Theorem no_resurrection s programs y :
  (∀ m, visible s m → is_Some (m !! n)) → Forall (sweeping c) programs → reaches h s programs y →
  (users (sy_state y) !! n = None → confirmed c n (sy_log y)) ∧
  (∀ pre i u r post, sy_log y = pre ++ (i, ev (KCreateUser u) r) :: post → u_name u = n → stale_page c n pre).
Proof.
  intros Hu Hps Hr. assert (gone_for_good y) as Hy.
  { pattern y. revert y Hr. apply (system_invariant h s programs (removal_rule c)).
    - exact (Forall_impl _ (λ p, sweeping_rule c p) Hps).
    - by apply gone_begin.
    - intros y i o k _ Hy _ Hrule. by apply gone_step. }
  split; [exact (gone_users y Hy _ (visible_now _))|]. intros pre i u r post Hlog Hun.
  by eapply (gone_creates y Hy pre (i, ev (KCreateUser u) r) post).
Qed.
End Invariant.

(** * A client behind a cache *)

(** Reads of Users show the oldest of the states kept; the cache catches up when its
    process sleeps. *)
Definition behind (s : cluster * list cluster) : cluster := default s.1 (head s.2).

Definition lagging (o : op) (s : cluster * list cluster) : (cluster * list cluster) * ans o :=
  let past := match o with SleepOrDone _ => [] | _ => s.2 ++ [s.1] end in
  match o return (cluster * list cluster) * ans o with
  | KGetUser n => ((s.1, past), (fake (KGetUser n) (behind s)).2)
  | KListUsers => ((s.1, past), (fake KListUsers (behind s)).2)
  | o => let r := fake o s.1 in ((r.1, past), r.2)
  end.

Lemma lagging_now o s : (lagging o s).1.1 = (fake o s.1).1.
Proof. by destruct o. Qed.

Lemma behind_kept s : behind s = s.1 ∨ behind s ∈ s.2.
Proof. destruct s as [c [|c' past]]; [by left|right; by left]. Qed.

#[export] Instance lagging_ApiStore : ApiStore lagging.
Proof.
  unshelve econstructor; [exact (λ s, users (h := fake) s.1)|intros s; apply users_named|..].
  - intros u s. pose proof (api_create (h := fake) u s.1) as Hc. unfold lagging. by destruct (fake (KCreateUser u) s.1).
  - intros u s. pose proof (api_update (h := fake) u s.1) as Hc. unfold lagging. by destruct (fake (KUpdateUserStatus u) s.1).
  - intros n s. pose proof (api_delete (h := fake) n s.1) as Hc. unfold lagging. by destruct (fake (KDeleteUser n) s.1).
  - intros o u fm s. pose proof (api_patch (h := fake) o u fm s.1) as Hc. unfold lagging. by destruct (fake (KPatchUserStatus o u fm) s.1).
  - intros m s. pose proof (api_update_meta (h := fake) m s.1) as Hc. unfold lagging. by destruct (fake (KUpdateUser m) s.1).
  - intros o s Ho. simpl. rewrite lagging_now. exact (api_frame (h := fake) o s.1 Ho).
Defined.

#[export] Instance lagging_CachedReads : CachedReads lagging.
Proof.
  unshelve econstructor; [exact (λ s m, ∃ c, (c = s.1 ∨ c ∈ s.2) ∧ m = users (h := fake) c)|..].
  - intros s. exists s.1. auto.
  - intros o s m (c & Hc & ->). assert (c = (lagging o s).1.1 ∨ c = s.1 ∨ c ∈ s.2) as [->|?]; [|by right|left; by exists c].
    destruct Hc as [->|Hc]; [by left|right].
    assert (c ∈ s.2 ++ [s.1]) as [Hin|Hin%list_elem_of_singleton]%elem_of_app; [|by right|by left].
    destruct o; first [exact Hc|by apply not_elem_of_nil in Hc].
  - intros s m n u (c & _ & ->). apply users_named.
  - intros n s. pose proof (api_get (h := fake) n (behind s)) as Hg.
    change (lagging (KGetUser n) s).2 with (fake (KGetUser n) (behind s)).2.
    destruct (fake (KGetUser n) (behind s)).2; [|intros He]; exists (users (h := fake) (behind s)); (split; [exists (behind s); split; [apply behind_kept|done]|auto]).
  - intros s. pose proof (api_list (h := fake) (behind s)) as Hl. change (lagging KListUsers s).2 with (fake KListUsers (behind s)).2.
    destruct (fake KListUsers (behind s)).2; [|done]. exists (users (h := fake) (behind s)).
    split; [exists (behind s); split; [apply behind_kept|done]|done].
Defined.

#[export] Instance lagging_PlainTransport : PlainTransport lagging.
Proof. split. by intros m u b s e [= <-]. Qed.

(** * Witnesses *)

Section Witnesses.
#[local] Existing Instance ascii_runtime.
#[local] Existing Instance default_retry.
#[local] Existing Instance one_finalizer.

(** A sweep, the collector and the reconciler of [u7], an account past its retention. *)
Definition controllers : list (M unit) :=
  [sweeper_Start 0 1 (mkSweeper 1); gc_Start 1 1 (collector false); user_Reconcile http_client "u7" ≫= λ _, mret ()].

Lemma controllers_sweeping : Forall (sweeping http_client) controllers.
Proof. repeat apply List.Forall_cons; [apply sweeper|apply gc|apply reconciler|apply List.Forall_nil]. Qed.

Definition stale_account : cluster := at_time 10 (set_humans empty_cluster [human "u7" "a@b.c" false 1]).
Definition stale_account_user : cluster := set_users stale_account {["u7" := sample_user]}.

(** The collector runs, the sweep lists the Users, the sweep goes on. *)
Definition collected_first : list nat := replicate 12 1%nat ++ replicate 12 0%nat ++ [2%nat].

(** The sweep lists the Users and the page, the collector runs, the sweep goes on. *)
Definition collected_between : list nat := replicate 2 0%nat ++ replicate 12 1%nat ++ replicate 12 0%nat ++ [2%nat].

Definition user_fields (s : cluster) : gmap string User := users (h := fake) s.

Definition behind_cache (schedule : list nat) (s : cluster * list cluster) : Interleave.system (S := cluster * list cluster) (R := unit) :=
  exec lagging schedule (begin s controllers).

Lemma behind_cache_reaches schedule s : reaches lagging s controllers (behind_cache schedule s).
Proof. apply exec_reaches, rtc_refl. Qed.

Lemma stale_account_user_shown m : visible (h := lagging) (stale_account_user, []) m → is_Some (m !! "u7").
Proof. intros (c & [->|Hc] & ->); [by eexists|by apply not_elem_of_nil in Hc]. Qed.

(** The account is collected on both sides while the cache still shows its User. *)
Lemma no_resurrection_witness :
  let y := behind_cache collected_first (stale_account_user, []) in
  user_fields (behind (sy_state y)) !! "u7" ≠ None ∧
  users (h := lagging) (sy_state y) !! "u7" = None ∧ confirmed http_client "u7" (sy_log y) ∧
  ∀ pre i u r post, sy_log y = pre ++ (i, ev (KCreateUser u) r) :: post → u_name u = "u7" → stale_page http_client "u7" pre.
Proof.
  intros y. assert (users (h := lagging) (sy_state y) !! "u7" = None) as Hn by (vm_compute; reflexivity).
  split; [vm_compute; discriminate|]. split; [exact Hn|].
  destruct (no_resurrection lagging http_client "u7" (stale_account_user, []) controllers y stale_account_user_shown controllers_sweeping
    (behind_cache_reaches _ _)) as [Hgone Hcreate].
  split; [exact (Hgone Hn)|exact Hcreate].
Defined.

(** The User is stored, Zitadel does not have the account, and all three have ended. *)
Definition orphan (threads : list (M unit)) (s : cluster) : bool :=
  bool_decide (is_Some (user_fields s !! "u7")) && bool_decide (humans (h := fake) s = []) &&
  forallb (λ p, match p with Ret _ => true | _ => false end) threads.

(** Without its User the account has no such protection: the sweep has listed the Users and
    the page before the collector deletes the account, and creates its User afterwards.
    Zitadel does not list it any more, so neither sweep ever comes to that User again. *)
Example orphan_left_behind :
  let y := behind_cache collected_between (stale_account, []) in orphan (sy_threads y) (sy_state y).1 = true.
Proof. vm_compute. reflexivity. Qed.

(** Likewise with a User that the cache of the sweep has not shown yet. *)
Example orphan_by_lag :
  let y := behind_cache collected_between (stale_account_user, [stale_account]) in orphan (sy_threads y) (sy_state y).1 = true.
Proof. vm_compute. reflexivity. Qed.

(** A Zitadel whose listing still shows the account after its deletion. *)
Definition old_pages (o : op) (c : cluster) : cluster * ans o :=
  match o return cluster * ans o with
  | ZListHumanUsers _ _ => (c, Ok (c_humans stale_account, 1%Z))
  | o => fake o c
  end.

(** The sweep comes after the collector and creates the User again. *)
Example zitadel_lags :
  let y := exec old_pages collected_first (begin stale_account_user controllers) in orphan (sy_threads y) (sy_state y) = true.
Proof. vm_compute. reflexivity. Qed.
End Witnesses.
