(* ===== verification/MailBudget.v ===== *)
(** The recovery mail budget end to end: requests of both triggers, one after the other, against
    a server that stores the Emails, keep every user within the budget; two at once need not. *)

From S2P Require Import Prelude GoLib Prog Model Json Cluster Users RecoveryMail MailWebhook Identity PasskeyLinks AbandonedGC Interleave.

(** * The server of the Emails *)

Definition creates_mail (o : op) : bool := match o with KCreateEmail _ => true | _ => false end.

(** The Emails of a namespace that carry the labels. *)
Definition matching (ns : string) (labels : gmap string string) (l : list SentEmail) : list SentEmail :=
  List.filter (λ m, bool_decide (em_namespace (se_email m) = ns) && has_labels labels m) l.

(** The Emails and the clock: a list call answers, in some order, the Emails that match; a
    creation is stamped with the time, up to the [resolution] of timestamps (the API server
    cuts them to seconds); an Email stays. *)
Class MailServer {S} (h : environment S) := {
  mails : S → list SentEmail;
  clock : S → Z;
  resolution : Z;
  mail_clock o s : (clock s ≤ clock (h o s).1)%Z;
  mail_now s : (clock s ≤ (h Now s).2 ≤ clock (h Now s).1)%Z;
  mail_list ns labels s :
    match (h (KListEmails ns labels) s).2 with Ok l => l ≡ₚ matching ns labels (mails s) | Err _ => True end;
  mail_create e s :
    match h (KCreateEmail e) s with
    | (s', None) => ∃ t, (clock s - resolution ≤ t ≤ clock s')%Z ∧ mails s' = mails s ++ [mkSent e t]
    | (s', Some _) => mails s' = mails s
    end;
  mail_frame o s : creates_mail o = false → mails (h o s).1 = mails s }.

#[export] Instance fake_mail : MailServer fake.
Proof.
  refine {| mails := c_emails; clock := c_clock; resolution := 0 |}.
  - intros o c. destruct o; simpl; repeat case_match; simpl; lia.
  - intros c. simpl. lia.
  - intros ns labels c. simpl. done.
  - intros e c. simpl. destruct (existsb _ _); [done|]. exists (c_clock c). simpl. split; [lia|done].
  - intros o c Ho. destruct o; simpl in *; try discriminate; try done; repeat case_match; done.
Defined.

(** * The budget *)

(** Every window of the length holds at most [max] of the times. *)
Definition window (len max : Z) (ts : list Z) : Prop :=
  ∀ w, (Z.of_nat (length (filter (λ t, w ≤ t < w + len) ts)) ≤ max)%Z.

Definition trigger_labels (uid by_ : string) : gmap string string := {[ LabelUser := uid; LabelRequestedBy := by_ ]}.

Section Budget.
Context {S : Type} (h : environment S) `{!MailServer h}.

(** When the recovery mails of one user and one trigger were created. *)
Definition sent (ns uid by_ : string) (s : S) : list Z := se_created <$> matching ns (trigger_labels uid by_) (mails s).

Definition within_budget (ns by_ : string) (cooldown maxPerHour : Z) (s : S) : Prop :=
  ∀ uid, ((0 < cooldown)%Z → window (cooldown - resolution) 1 (sent ns uid by_ s)) ∧
         ((0 < maxPerHour)%Z → window (Hour - resolution) maxPerHour (sent ns uid by_ s)).

(** ** What leaves it alone *)

Definition calm (s s' : S) : Prop := mails s' = mails s ∧ (clock s ≤ clock s')%Z.

#[local] Instance calm_preorder : PreOrder calm.
Proof. split; unfold calm; [intros s; split; [done|lia]|]. intros s1 s2 s3 [-> ?] [-> ?]. split; [done|lia]. Qed.

Notation mailless := (λ o, creates_mail o = false).

Lemma run_calm {A} (p : M A) s : only mailless p → calm s (run h p s).1.
Proof. apply run_only; [apply _|]. intros o s' Ho. split; [by apply mail_frame|apply mail_clock]. Qed.

Lemma within_calm ns by_ c m s s' : calm s s' → within_budget ns by_ c m s → within_budget ns by_ c m s'.
Proof. intros [Hm _] Hb. unfold within_budget, sent in *. by rewrite Hm. Qed.

(** ** The check *)

Lemma window_filter ts len (P : Z → Prop) `{!∀ t, Decision (P t)} w :
  (∀ t, (w ≤ t < w + len)%Z → P t) → (length (filter (λ t, w ≤ t < w + len)%Z ts) ≤ length (filter P ts))%nat.
Proof.
  intros HP. induction ts as [|t ts IH]; [done|]. rewrite !filter_cons. repeat case_decide; simpl; try lia. exfalso. auto.
Qed.

Lemma length_filter_fmap {A} (f : A → Z) (P : Z → Prop) `{!∀ t, Decision (P t)} l :
  length (filter P (f <$> l)) = length (filter (λ x, P (f x)) l).
Proof. induction l as [|x l IH]; [done|]. rewrite fmap_cons, !filter_cons. case_decide; simpl; by rewrite IH. Qed.

(** What "not too soon" says about the mails stored. *)
Definition checked_at (now cooldown maxPerHour : Z) (ts : list Z) : Prop :=
  ((0 < cooldown)%Z → Forall (λ t, ¬ (time_sub now t < cooldown)%Z) ts) ∧
  ((0 < maxPerHour)%Z → (Z.of_nat (length (filter (λ t, time_sub now t < Hour) ts)) < maxPerHour)%Z).

Lemma checked_perm now c m ts ts' : ts ≡ₚ ts' → checked_at now c m ts → checked_at now c m ts'.
Proof. intros Hp [H1 H2]. split; [by setoid_rewrite <-Hp|]. intros Hm. specialize (H2 Hm). by rewrite <-Hp. Qed.

(** The loop of [TooSoon] lets pass only what is within the limits. *)
Lemma count_passes now c m l :
  match count_recent now c l 0 with None => true | Some n => bool_decide (0 < m ∧ m ≤ n)%Z end = false →
  checked_at now c m (se_created <$> l).
Proof.
  rewrite count_recent_spec. case_bool_decide as Hcool; [done|]. intros Hcap%bool_decide_eq_false. split.
  - intros Hpos. apply Forall_fmap, not_Exists_Forall; [intros ?; apply _|]. intros Hex. apply Hcool. by split.
  - intros Hpos. rewrite length_filter_fmap. unfold capWindow in Hcap. lia.
Qed.

Lemma run_TooSoon ns uid by_ c m s :
  ∃ s' r, run h (TooSoon ns uid by_ c m) s = (s', Returned r) ∧ calm s s' ∧
    (r = Ok false → ∃ now, (now ≤ clock s')%Z ∧ checked_at now c m (sent ns uid by_ s')).
Proof.
  unfold TooSoon. case_bool_decide as Hoff.
  { eexists _, _. split; [reflexivity|]. split; [reflexivity|]. intros _. exists (clock s). split; [lia|]. split; lia. }
  simpl. pose proof (mail_list ns (trigger_labels uid by_) s) as Hl.
  pose proof (mail_frame (KListEmails ns (trigger_labels uid by_)) s eq_refl) as Hf.
  pose proof (mail_clock (KListEmails ns (trigger_labels uid by_)) s) as Hc.
  change {[LabelUser := uid; LabelRequestedBy := by_]} with (trigger_labels uid by_).
  destruct (h (KListEmails ns (trigger_labels uid by_)) s) as [s1 [l|e]]; simpl in *;
    [|eexists _, _; split; [reflexivity|]; split; [by split|done]].
  pose proof (mail_now s1) as Hn. pose proof (mail_frame Now s1 eq_refl) as Hf1.
  destruct (h Now s1) as [s2 now]. simpl in *. eexists _, _. split; [reflexivity|]. split; [split; [congruence|lia]|].
  intros Hfalse. exists now. split; [lia|]. unfold sent. rewrite Hf1, Hf.
  apply (checked_perm _ _ _ (se_created <$> l)); [by rewrite Hl|]. injection Hfalse as Hfalse. by apply count_passes.
Qed.
(** ** One more mail *)

Lemma has_trigger uid by_ m :
  has_labels (trigger_labels uid by_) m =
    bool_decide (em_labels (se_email m) !! LabelUser = Some uid ∧ em_labels (se_email m) !! LabelRequestedBy = Some by_).
Proof.
  apply eq_iff_eq_true. rewrite bool_decide_eq_true. unfold has_labels. rewrite forallb_forall. split.
  - intros Hall.
    assert (∀ k v, trigger_labels uid by_ !! k = Some v → em_labels (se_email m) !! k = Some v) as Hk.
    { intros k v Hkv. apply (bool_decide_eq_true_1 _ (Hall (k, v) (proj1 (list_elem_of_In _ _) (proj2 (elem_of_map_to_list _ _ _) Hkv)))). }
    split; apply Hk; unfold trigger_labels; [by rewrite lookup_insert_eq|].
    rewrite lookup_insert_ne by done. by rewrite lookup_singleton_eq.
  - intros [Hu Hb] [k v] Hin%list_elem_of_In%elem_of_map_to_list. apply bool_decide_eq_true_2. unfold trigger_labels in Hin.
    apply lookup_insert_Some in Hin as [[<- <-]|[_ Hin]]; [done|]. by apply lookup_singleton_Some in Hin as [<- <-].
Qed.

Lemma window_snoc len max now t ts :
  (0 < len)%Z → (now - resolution ≤ t)%Z → (Z.of_nat (length (filter (λ x, time_sub now x < len) ts)) < max)%Z →
  window (len - resolution) max ts → window (len - resolution) max (ts ++ [t]).
Proof.
  intros Hlen Ht Hcount Hts w. rewrite list.filter_app, length_app. specialize (Hts w).
  rewrite filter_cons, filter_nil. case_decide as Hw; simpl; [|lia].
  assert (length (filter (λ x, w ≤ x < w + (len - resolution))%Z ts) ≤ length (filter (λ x, time_sub now x < len)%Z ts))%nat; [|lia].
  apply window_filter. intros x Hx. unfold time_sub, min_int64. lia.
Qed.

Lemma no_recent now len ts :
  Forall (λ t, ¬ (time_sub now t < len)%Z) ts → length (filter (λ t, time_sub now t < len)%Z ts) = 0%nat.
Proof. induction 1 as [|t ts Ht _ IH]; [done|]. by rewrite filter_cons, decide_False. Qed.

(** From [s] on, at most one mail of the trigger to the user is created. *)
Definition sends (ns uid by_ : string) (s s' : S) : Prop :=
  calm s s' ∨ (clock s ≤ clock s')%Z ∧ ∃ t e, (clock s - resolution ≤ t)%Z ∧ mails s' = mails s ++ [mkSent e t] ∧
    em_namespace e = ns ∧ em_labels e = trigger_labels uid by_.

Lemma calm_sends ns uid by_ s s1 s' : calm s s1 → sends ns uid by_ s1 s' → sends ns uid by_ s s'.
Proof.
  intros [Hm Hc] [Hcalm|(Hc1 & t & e & Ht & Hm1 & He)]; [left; by transitivity s1|right].
  split; [lia|]. exists t, e. split; [lia|]. by rewrite Hm1, Hm.
Qed.

Lemma sent_snoc ns uid by_ s s' e t :
  mails s' = mails s ++ [mkSent e t] →
  sent ns uid by_ s' = sent ns uid by_ s ++
    (if decide (em_namespace e = ns ∧ em_labels e !! LabelUser = Some uid ∧ em_labels e !! LabelRequestedBy = Some by_) then [t] else []).
Proof.
  intros Hm. unfold sent, matching. rewrite Hm, List.filter_app, fmap_app. f_equal. simpl. rewrite has_trigger. simpl.
  repeat (case_bool_decide || case_decide); simpl; naive_solver.
Qed.

(** A mail sent after the check keeps the budget of its trigger; other triggers' budgets
    do not see it. *)
Lemma budget_sends ns uid by_ c m now s s' ns' by' c' m' :
  checked_at now c m (sent ns uid by_ s) → (now ≤ clock s)%Z → sends ns uid by_ s s' →
  (ns' = ns ∧ by' = by_ ∧ c' = c ∧ m' = m ∨ by' ≠ by_) →
  within_budget ns' by' c' m' s → within_budget ns' by' c' m' s'.
Proof.
  intros [Hcool Hcap] Hnow [Hcalm|(_ & t & e & Ht & Hm & Hns & Hl)] Hor Hb; [by eapply within_calm|].
  intros uid'. destruct (Hb uid') as [H1 H2]. rewrite (sent_snoc _ _ _ _ _ _ _ Hm), Hl.
  unfold trigger_labels. rewrite lookup_insert_eq, lookup_insert_ne, lookup_singleton_eq by done.
  case_decide as Hmatch; [|by rewrite app_nil_r].
  destruct Hmatch as (Hns' & [= <-] & [= <-]). rewrite Hns in Hns'. subst ns'.
  destruct Hor as [(_ & _ & -> & ->)|?]; [|done]. split; intros Hpos.
  - apply (window_snoc _ _ now); [lia|lia| |by apply H1]. by rewrite no_recent by auto.
  - apply (window_snoc _ _ now); [unfold Hour, Minute, Second, Millisecond; lia|lia|by apply Hcap|by apply H2].
Qed.

(** A mail without the labels is outside every budget. *)
Lemma budget_unlabelled ns by_ c m s s' e t :
  mails s' = mails s ++ [mkSent e t] → em_labels e !! LabelUser = None → within_budget ns by_ c m s → within_budget ns by_ c m s'.
Proof.
  intros Hm Hl Hb uid. rewrite (sent_snoc _ _ _ _ _ _ _ Hm), Hl, decide_False by naive_solver.
  rewrite app_nil_r. apply Hb.
Qed.
End Budget.

(** * The requests *)

Inductive mail_request :=
| SelfServe (r : MailRequest)
| Support (caller : option UserInfo) (obj : option PasskeyRegistrationLink)
| Verify (r : MailRequest).

Section Requests.
Context `{GoRuntime} {S : Type} (h : environment S) `{!MailServer h}.
Context (cfg : AccountRecoveryConfig) (links : LinkREST) (vcfg : EmailVerificationConfig).

Definition serve (rq : mail_request) : M unit :=
  match rq with
  | SelfServe r => accountRecovery_ServeHTTP cfg r ≫= λ _, mret ()
  | Support caller obj => links_Create links caller obj ≫= λ _, mret ()
  | Verify r => emailVerification_ServeHTTP vcfg r ≫= λ _, mret ()
  end.

(** The requests one after the other. *)
Definition serve_all (rqs : list mail_request) (s : S) : S := foldl (λ s rq, (run h (serve rq) s).1) s rqs.

Definition self_budget : S → Prop :=
  within_budget h (arc_NotificationNamespace cfg) RequestedBySelf (arc_Cooldown cfg) (arc_MaxPerHour cfg).

Definition support_budget : S → Prop :=
  within_budget h (op_NotificationNamespace (lr_opts links)) RequestedBySupport (op_Cooldown (lr_opts links))
    (op_MaxPerHour (lr_opts links)).

Definition budgets (s : S) : Prop := self_budget s ∧ support_budget s.

Definition keeps {A} (p : M A) : Prop := ∀ s, budgets s → budgets (run h p s).1.

Notation mailless := (λ o, creates_mail o = false).

Lemma budgets_calm s s' : calm h s s' → budgets s → budgets s'.
Proof. intros Hc [H1 H2]. split; [by apply (within_calm h _ _ _ _ s)|by apply (within_calm h _ _ _ _ s)]. Qed.

Lemma keeps_calm {A} (p : M A) : only mailless p → keeps p.
Proof. intros Hp s. by apply budgets_calm, run_calm. Qed.

Lemma keeps_ret {A} (a : A) : keeps (mret a).
Proof. by intros s Hs. Qed.

Lemma keeps_bind {A B} (p : M A) (f : A → M B) : keeps p → (∀ a, keeps (f a)) → keeps (p ≫= f).
Proof.
  intros Hp Hf s Hs. rewrite run_bind. specialize (Hp s Hs). destruct (run h p s) as [s' [a|]]; [by apply Hf|done].
Qed.

(** The check, and whatever follows: it is given the check's result. *)
Lemma keeps_TooSoon ns uid by_ c m {A} (k : result bool → M A) :
  (∀ r, r ≠ Ok false → keeps (k r)) → (∀ s, sends h ns uid by_ s (run h (k (Ok false)) s).1) →
  (ns = arc_NotificationNamespace cfg ∧ by_ = RequestedBySelf ∧ c = arc_Cooldown cfg ∧ m = arc_MaxPerHour cfg ∨
   ns = op_NotificationNamespace (lr_opts links) ∧ by_ = RequestedBySupport ∧ c = op_Cooldown (lr_opts links) ∧
     m = op_MaxPerHour (lr_opts links)) →
  keeps (t ← TooSoon ns uid by_ c m; k t).
Proof.
  intros Hother Hsend Htrigger s Hs. rewrite run_bind.
  destruct (run_TooSoon h ns uid by_ c m s) as (s1 & r & -> & Hcalm & Hok). apply (budgets_calm _ _ Hcalm) in Hs.
  destruct r as [[|]|e]; [by apply Hother| |by apply Hother]. destruct (Hok eq_refl) as (now & Hnow & Hcheck).
  specialize (Hsend s1). destruct Hs as [H1 H2].
  destruct Htrigger as [(-> & -> & -> & ->)|(-> & -> & -> & ->)]; split;
    (eapply budget_sends; [exact Hcheck|exact Hnow|exact Hsend| |done]); first [by left|by right].
Qed.

(** A mint, then at most one mail. *)
Lemma sends_create ns uid by_ e s :
  em_namespace e = ns → em_labels e = trigger_labels uid by_ → sends h ns uid by_ s (h (KCreateEmail e) s).1.
Proof.
  intros Hns Hl. pose proof (mail_create e s) as Hc. pose proof (mail_clock (KCreateEmail e) s) as Hclock.
  destruct (h (KCreateEmail e) s) as [s' [err|]]; simpl in *; [left; by split|]. destruct Hc as (t & Ht & Hm).
  right. split; [done|]. exists t, e. split; [lia|done].
Qed.

Lemma calm_call o s : creates_mail o = false → calm h s (h o s).1.
Proof. intros Ho. split; [by apply mail_frame|apply mail_clock]. Qed.

Lemma sends_calm ns uid by_ s s1 s' : sends h ns uid by_ s s1 → calm h s1 s' → sends h ns uid by_ s s'.
Proof.
  intros [H1|(Hc & t & e & Ht & Hm & He)] [Hm2 Hc2].
  - left. destruct H1 as [Hm1 Hc1]. split; [congruence|lia].
  - right. split; [lia|]. exists t, e. split; [done|]. by rewrite Hm2.
Qed.

Lemma mint_and_mail_sends user returnTo uid s :
  sends h (arc_NotificationNamespace cfg) uid RequestedBySelf s (run h (mint_and_mail cfg user returnTo uid) s).1.
Proof.
  simpl. pose proof (calm_call (ZCreatePasskeyRegistrationLink uid) s eq_refl) as Hmint.
  destruct (h (ZCreatePasskeyRegistrationLink uid) s) as [s1 [[codeID code]|e]]; simpl in *; [|by left].
  set (e := Build _). assert (sends h (arc_NotificationNamespace cfg) uid RequestedBySelf s1 (h (KCreateEmail e) s1).1) as Hs
    by (by apply sends_create).
  destruct (h (KCreateEmail e) s1) as [s2 r]. simpl in *. by eapply calm_sends.
Qed.

Lemma only_userWithRetry id a b : only mailless (userWithRetry id a b).
Proof.
  unfold userWithRetry. generalize 0%Z (Z.to_nat ((if a <? 1 then 1 else a) - 1)) (if (b <? 0)%Z then 0%Z else b).
  intros att k w. revert att. induction k as [|k IH]; intros att; cbn [userWithRetry_loop]; solve_only.
Qed.

Lemma keeps_mail_request {R} (d : decoder R) zero allowed r k : (∀ req, keeps (k req)) → keeps (with_mail_request d zero allowed r k).
Proof.
  intros Hk. unfold with_mail_request. destruct (negb _); [apply keeps_ret|]. destruct (negb _); [apply keeps_ret|].
  destruct (rq_body _); [|apply keeps_ret]. by destruct (Decode _ _ _); [|apply keeps_ret].
Qed.

Lemma keeps_with_user r k : (∀ u, keeps (k u)) → keeps (with_user r k).
Proof. intros Hk. unfold with_user. destruct r as [u|e]; [done|]. destruct (IsNotFound e); apply keeps_ret. Qed.

Lemma keeps_recovery r : keeps (accountRecovery_ServeHTTP cfg r).
Proof.
  apply keeps_mail_request. intros req. case_bool_decide; [apply keeps_ret|]. case_bool_decide; [apply keeps_ret|].
  destruct (negb _); [apply keeps_ret|]. destruct (usable_return_to _ _) as [returnTo|]; [|apply keeps_ret].
  apply keeps_bind; [apply keeps_calm, only_userWithRetry|]. intros u. apply keeps_with_user. intros user.
  destruct (negb _); [apply keeps_ret|]. apply keeps_TooSoon; [|apply mint_and_mail_sends|by left].
  intros [[|]|e] Hr; [apply keeps_ret|done|apply keeps_ret].
Qed.
Lemma mail_link_sends u link user codeID code s :
  sends h (op_NotificationNamespace (lr_opts links)) (pl_UserRef link) RequestedBySupport s
    (run h (mail_link links u link user codeID code) s).1.
Proof.
  unfold mail_link. set (e := Build _). cbn [run mbind prog_bind bind call].
  assert (sends h (op_NotificationNamespace (lr_opts links)) (pl_UserRef link) RequestedBySupport s (h (KCreateEmail e) s).1) as Hs
    by (by apply sends_create).
  destruct (h (KCreateEmail e) s) as [s1 r]. eapply sends_calm; [exact Hs|]. apply run_calm. solve_only.
Qed.

Lemma keeps_send_link u link : keeps (send_link links u link).
Proof.
  apply keeps_bind; [apply keeps_calm; solve_only|]. intros [user|e]; [|apply keeps_ret].
  destruct (negb _); [apply keeps_ret|]. apply keeps_TooSoon; [intros [[|]|e] Hr; [apply keeps_ret|done|apply keeps_ret]| |by right].
  intros s. cbn [run mbind prog_bind bind call]. pose proof (calm_call (ZCreatePasskeyRegistrationLink (pl_UserRef link)) s eq_refl) as Hmint.
  destruct (h (ZCreatePasskeyRegistrationLink (pl_UserRef link)) s) as [s1 [[codeID code]|e]]; [|by left].
  eapply calm_sends; [exact Hmint|apply mail_link_sends].
Qed.

Lemma keeps_links caller obj : keeps (links_Create links caller obj).
Proof.
  unfold links_Create. destruct obj as [link|]; [|apply keeps_ret]. destruct (negb _); [apply keeps_ret|].
  destruct caller as [u|]; [|apply keeps_ret]. destruct (bad_spec link u); [apply keeps_ret|].
  apply keeps_bind; [apply keeps_calm; unfold CanCreatePasskeyRegistrationLink, review; solve_only|].
  intros [[|]|e]; [apply keeps_send_link|apply keeps_ret..].
Qed.

Lemma keeps_verify r : keeps (emailVerification_ServeHTTP vcfg r).
Proof.
  apply keeps_mail_request. intros req. case_bool_decide; [apply keeps_ret|].
  destruct (usable_return_to _ _) as [returnTo|]; [|apply keeps_ret].
  apply keeps_bind; [apply keeps_calm, only_userWithRetry|]. intros u. apply keeps_with_user. intros user.
  apply keeps_bind; [|intros [?|?]; apply keeps_ret]. unfold createEmail. apply keeps_bind; [|intros; apply keeps_ret].
  set (e := verification_email _ _ _ _). intros s Hs. cbn [run call]. pose proof (mail_create e s) as Hc.
  pose proof (mail_clock (KCreateEmail e) s) as Hclock.
  destruct (h (KCreateEmail e) s) as [s' [err|]]; simpl in *; [by apply (budgets_calm s)|]. destruct Hc as (t & _ & Hm).
  destruct Hs as [H1 H2]. split; by eapply (budget_unlabelled h).
Qed.

Lemma keeps_serve rq : keeps (serve rq).
Proof.
  destruct rq; (apply keeps_bind; [|intros; apply keeps_ret]);
    [apply keeps_recovery|apply keeps_links|apply keeps_verify].
Qed.

Lemma serve_all_keeps rqs s : budgets s → budgets (serve_all rqs s).
Proof. revert s. induction rqs as [|rq rqs IH]; intros s Hs; [done|]. by apply IH, keeps_serve. Qed.
End Requests.

(** * Properties *)

(** The recovery mail budget. Whatever self-serve recovery, support and verification
    requests arrive one after the other, with whatever bodies, and however long apart: no user
    gets two recovery mails of one trigger within the cooldown, nor more than the cap of
    them within any hour (both up to the resolution of creation timestamps), when the
    respective limit is on; and the mails of one trigger never use up the other's budget. *)
Theorem recovery_budget_kept `{GoRuntime} {S} (h : environment S) `{!MailServer h} cfg links vcfg rqs s :
  budgets h cfg links s → budgets h cfg links (serve_all h cfg links vcfg rqs s).
Proof. apply serve_all_keeps. Qed.

(** * Witnesses *)

Section Witnesses.
#[local] Existing Instance ascii_runtime.

(** Every minted code has an id of its own, and minting takes a second. *)
Definition minting (o : op) (c : cluster) : cluster * ans o :=
  match o return cluster * ans o with
  | ZCreatePasskeyRegistrationLink _ => (at_time (c_clock c + Second) c, Ok (itoa (c_clock c), "secret code"))
  | o => fake o c
  end.

#[export] Instance minting_mail : MailServer minting.
Proof.
  refine {| mails := c_emails; clock := c_clock; resolution := 0 |}.
  - intros o c. pose proof (mail_clock (h := fake) o c) as Hf. destruct o; first [exact Hf|simpl; unfold Second, Millisecond; lia].
  - exact (mail_now (h := fake)).
  - exact (mail_list (h := fake)).
  - exact (mail_create (h := fake)).
  - intros o c Ho. pose proof (mail_frame (h := fake) o c Ho) as Hf. destruct o; first [exact Hf|done].
Defined.

Definition self_serve : mail_request := SelfServe (mail_post recovery_body).
Definition support_request : mail_request := Support (Some support) (Some link_request).

Lemma no_mails_within : budgets minting recovery_config link_storage verified_user.
Proof. split; intros uid; split; intros _ w; simpl; lia. Qed.

Lemma recovery_budget_kept_witness :
  let after := serve_all minting recovery_config link_storage verification_config [self_serve; self_serve; support_request] verified_user in
  length (c_emails after) = 2%nat ∧ budgets minting recovery_config link_storage after.
Proof.
  intros after. split; [vm_compute; reflexivity|].
  exact (recovery_budget_kept minting recovery_config link_storage verification_config
    [self_serve; self_serve; support_request] verified_user no_mails_within).
Defined.

(** Two requests for one user at once: both look before either mails, and the user gets two
    mails within the same second, the cooldown being a minute. *)
Definition at_once : Interleave.system :=
  exec minting (replicate 3 0%nat ++ replicate 3 1%nat ++ replicate 3 0%nat ++ replicate 3 1%nat)
    (begin verified_user (map (serve recovery_config link_storage verification_config) [self_serve; self_serve])).

Example budget_exceeded_at_once :
  sent minting "milo-system" "u1" RequestedBySelf (sy_state at_once) = [Second; (2 * Second)%Z] ∧
  arc_Cooldown recovery_config = Minute.
Proof. vm_compute. done. Qed.
End Witnesses.
