(* ===== verification/MailRace.v ===== *)
(** The recovery mail budget when requests come at once: the check and the mail are separate
    calls, so what the budget is worth depends on how many requests are in progress
    together. *)

From S2P Require Import Prelude GoLib Prog Model Json Cluster Users RecoveryMail MailWebhook Identity.
From S2P Require Import PasskeyLinks AbandonedGC Interleave MailBudget.

(** * Counting *)

(** How many of the times fall into the window that begins at [w]. *)
Definition inside (w len : Z) (ts : list Z) : Z := Z.of_nat (length (filter (λ t, w ≤ t < w + len)%Z ts)).

Lemma inside_snoc w len ts t :
  inside w len (ts ++ [t]) = (inside w len ts + (if decide (w ≤ t < w + len)%Z then 1 else 0))%Z.
Proof.
  unfold inside. rewrite list.filter_app, length_app, filter_cons, filter_nil. case_decide; simpl; lia.
Qed.

Lemma inside_perm w len ts ts' : ts ≡ₚ ts' → inside w len ts = inside w len ts'.
Proof. intros Hp. unfold inside. by rewrite Hp. Qed.

Lemma filter_le {A} (f g : A → bool) l :
  (∀ x, f x = true → g x = true) → (length (List.filter f l) ≤ length (List.filter g l))%nat.
Proof.
  intros Hfg. induction l as [|x l IH]; [done|]. simpl. destruct (f x) eqn:Hf; [rewrite (Hfg x Hf); simpl; lia|].
  destruct (g x); simpl; lia.
Qed.

Lemma filter_lt {A} (f g : A → bool) l x :
  (∀ x, f x = true → g x = true) → x ∈ l → g x = true → f x = false →
  (length (List.filter f l) < length (List.filter g l))%nat.
Proof.
  intros Hfg Hx Hg Hf. induction l as [|y l IH]; [by apply not_elem_of_nil in Hx|]. apply elem_of_cons in Hx as [<-|Hx]; simpl.
  - rewrite Hg, Hf. pose proof (filter_le f g l Hfg). simpl. lia.
  - specialize (IH Hx). destruct (f y) eqn:Hfy; [rewrite (Hfg y Hfy); simpl; lia|]. destruct (g y); simpl; lia.
Qed.

(** * The rule of the mails of one trigger *)

Section Rule.
Context (ns by_ : string) (cooldown maxPerHour : Z).

(** A recovery mail of the trigger to the user. *)
Definition about (uid : string) (e : Email) : Prop :=
  em_namespace e = ns ∧ em_labels e !! LabelUser = Some uid ∧ em_labels e !! LabelRequestedBy = Some by_.

#[export] Instance about_dec uid e : Decision (about uid e).
Proof. unfold about. apply _. Defined.

(** The mails to the user a thread has listed and not used since. *)
Definition look (uid : string) (l : option (list SentEmail)) (e : event) : option (list SentEmail) :=
  match e with
  | existT (KListEmails n labels) (Ok l') => if decide (n = ns ∧ labels = trigger_labels uid by_) then Some l' else l
  | existT (KCreateEmail _) _ => None
  | _ => l
  end.

Definition looked_at (uid : string) (tr : trace) : option (list SentEmail) := foldl (look uid) None tr.

(** The thread has looked, and what it saw was within the limits. *)
Definition passed (uid : string) (tr : trace) : Prop :=
  ∃ (l : list SentEmail) (now : Z), looked_at uid tr = Some l ∧ (ev Now now : event) ∈ tr ∧ checked_at now cooldown maxPerHour (se_created <$> l).

Definition mail_rule (pre : trace) (e : event) : Prop :=
  match e with existT (KCreateEmail x) _ => ∀ uid, about uid x → passed uid pre | _ => True end.

Lemma looked_app uid pre tr l : looked_at uid tr = Some l → looked_at uid (pre ++ tr) = Some l.
Proof.
  unfold looked_at. rewrite foldl_app. generalize (foldl (look uid) None pre). intros o.
  assert (∀ a b : option (list SentEmail), (a = b ∨ a = None) → foldl (look uid) a tr = foldl (look uid) b tr ∨ foldl (look uid) a tr = None) as Hgen.
  { induction tr as [|e tr IH]; [done|]. intros a b Hab. simpl. apply IH. destruct e as [[] r]; simpl; try done; try (by left).
    destruct r; [|done]. case_decide; [by left|done]. }
  intros Hl. destruct (Hgen None o (or_intror eq_refl)); congruence.
Qed.

Lemma looked_snoc uid tr e : looked_at uid (tr ++ [e]) = look uid (looked_at uid tr) e.
Proof. unfold looked_at. by rewrite foldl_app. Qed.

Lemma passed_app uid pre tr : passed uid tr → passed uid (pre ++ tr).
Proof.
  intros (l & now & Hl & Hn & Hc). exists l, now. split; [by apply looked_app|]. split; [|done]. apply elem_of_app. by right.
Qed.

#[export] Instance mail_rule_extends : Extends mail_rule.
Proof. intros pre0 pre [o r]. destruct o; simpl; try done. intros Hx uid Hu. by apply passed_app, Hx. Qed.

(** A call that creates no mail of the trigger. *)
Definition other_mail (o : op) : Prop := match o with KCreateEmail x => ∀ uid, ¬ about uid x | _ => True end.

Lemma only_other {A} (p : M A) : only other_mail p → safe (each mail_rule) p.
Proof. apply only_each. intros o pre a. destruct o; simpl; try done. intros Ho uid Hu. by destruct (Ho uid). Qed.

Lemma only_mailless {A} (p : M A) : only (λ o, creates_mail o = false) p → only other_mail p.
Proof.
  induction p as [a| |o k IH]; simpl; [done|done|]. intros [Ho Hk]. split; [by destruct o|]. intros a. by apply IH.
Qed.

Lemma mailless_rule {A} (p : M A) : only (λ o, creates_mail o = false) p → safe (each mail_rule) p.
Proof. intros Hp. by apply only_other, only_mailless. Qed.

(** The check passes only on what it has listed. *)
Lemma TooSoon_passes uid :
  (0 < cooldown ∨ 0 < maxPerHour)%Z →
  wp (TooSoon ns uid by_ cooldown maxPerHour) (λ tr r, each mail_rule tr ∧ (r = Returned (Ok false) → passed uid tr)).
Proof.
  intros Hon. unfold TooSoon. rewrite bool_decide_false by lia. intros [l|e]; simpl; [|by split; [apply each_intro|]].
  intros now. split; [by apply each_intro|]. intros [= Hpass]. exists l, now. unfold looked_at. simpl. rewrite decide_True by done.
  split; [done|]. split; [right; by left|]. by apply count_passes.
Qed.
End Rule.

(** * The invariant

    One user, one trigger, and one of its limits: at most [max] mails in any window of
    length [len]. *)

Section Invariant.
Context {S : Type} (h : environment S) `{!MailServer h}.
Context (ns by_ : string) (cooldown maxPerHour : Z) (uid : string).
Context (len max : Z) (n : nat) (Hlen : (0 < len)%Z) (Hn : (1 ≤ n)%nat).
Context (Hlimit : ∀ now ts, checked_at now cooldown maxPerHour ts →
  (Z.of_nat (length (filter (λ t, time_sub now t < len) ts)) < max)%Z).

Abbreviation system := (Interleave.system (S := S) (R := unit)).
Abbreviation count w ts := (inside w (len - resolution) ts).
Abbreviation stored y := (sent h ns uid by_ (sy_state y)).

(** Thread [i] is in progress and has seen a window that still had room. *)
Definition waiting (w : Z) (y : system) (i : nat) : bool :=
  in_progress y i &&
  match looked_at ns by_ uid (own i (sy_log y)) with
  | Some l => bool_decide (count w (se_created <$> l) < max)%Z
  | None => false
  end.

Definition waiters (w : Z) (y : system) : nat := length (List.filter (waiting w y) (seq 0 (length (sy_threads y)))).

(** A window that is full holds, together with the mails that may still come into it, at
    most [n - 1] too many. *)
Definition crowded (y : system) : Prop :=
  ∀ w, (max ≤ count w (stored y))%Z → (count w (stored y) + Z.of_nat (waiters w y) ≤ max + Z.of_nat n - 1)%Z.

Definition clock_read (y : system) : Prop := ∀ i now, (i, ev Now now) ∈ sy_log y → (now ≤ clock (sy_state y))%Z.

Lemma clock_read_step (y : system) i o k : clock_read y → clock_read (after_call h y i o k).
Proof.
  intros Hy j now Hin. simpl in *. pose proof (mail_clock o (sy_state y)).
  apply elem_of_app in Hin as [Hin|Hin%list_elem_of_singleton]; [specialize (Hy j now Hin); lia|].
  apply pair_equal_spec in Hin as [_ Hev]. pose proof (ev_op _ _ _ _ Hev) as <-. apply ev_inj in Hev. subst now.
  apply (mail_now (sy_state y)).
Qed.

(** The other threads are where they were. *)
Lemma waiting_other w (y : system) i o k j : j ≠ i → waiting w (after_call h y i o k) j = waiting w y j.
Proof.
  intros Hj. unfold waiting, in_progress. simpl. rewrite own_snoc, decide_False, app_nil_r by done.
  by rewrite list_lookup_insert_ne.
Qed.

Lemma looked_started tr l : looked_at ns by_ uid tr = Some l → tr ≠ [].
Proof. by intros Hl ->. Qed.

Lemma waiting_now w (y : system) i :
  waiting w y i = true ↔ in_progress y i = true ∧
    ∃ l, looked_at ns by_ uid (own i (sy_log y)) = Some l ∧ (count w (se_created <$> l) < max)%Z.
Proof.
  unfold waiting. rewrite andb_true_iff. destruct (looked_at _ _ _ _) as [l|]; [|naive_solver]. rewrite bool_decide_eq_true. naive_solver.
Qed.

Lemma calls_in_progress (y : system) i o k l :
  sy_threads y !! i = Some (Call o k) → looked_at ns by_ uid (own i (sy_log y)) = Some l → in_progress y i = true.
Proof. intros Hi Hl%looked_started. unfold in_progress. rewrite Hi. by destruct (own i (sy_log y)). Qed.

(** What a call makes of a thread's look: it keeps it, uses it, or takes a new one, which
    shows what is stored. *)
Lemma look_cases s l o :
  let l' := look ns by_ uid l (ev o (h o s).2) in
  l' = l ∨ l' = None ∨ ∃ l0, l' = Some l0 ∧ se_created <$> l0 ≡ₚ sent h ns uid by_ s.
Proof.
  destruct o; simpl; try (by left). all: try by (right; left). pose proof (mail_list namespace labels s) as Hl.
  destruct (h (KListEmails namespace labels) s) as [s' [l0|e]]; simpl in *; [|by left].
  case_decide as Hd; [|by left]. destruct Hd as [-> ->]. right. right. exists l0. split; [done|]. unfold sent. by rewrite Hl.
Qed.

(** No call makes a new waiter for a full window. *)
Lemma waiting_before w (y : system) i o k j :
  sy_threads y !! i = Some (Call o k) → (max ≤ count w (stored y))%Z →
  waiting w (after_call h y i o k) j = true → waiting w y j = true.
Proof.
  intros Hi Hfull Hj. destruct (decide (j = i)) as [->|Hne]; [|by rewrite waiting_other in Hj].
  apply waiting_now in Hj as [_ (l & Hl & Hc)]. simpl in Hl. rewrite own_snoc, decide_True, looked_snoc in Hl by done.
  apply waiting_now. destruct (look_cases (sy_state y) (looked_at ns by_ uid (own i (sy_log y))) o) as [Heq|[Heq|(l0 & Heq & Hp)]].
  - rewrite Heq in Hl. split; [by eapply calls_in_progress|by exists l].
  - congruence.
  - rewrite Heq in Hl. injection Hl as <-. rewrite (inside_perm _ _ _ _ Hp) in Hc. lia.
Qed.

Lemma waiters_before w (y : system) i o k :
  sy_threads y !! i = Some (Call o k) → (max ≤ count w (stored y))%Z →
  (waiters w (after_call h y i o k) ≤ waiters w y)%nat.
Proof.
  intros Hi Hfull. unfold waiters. simpl. rewrite length_insert. apply filter_le. intros j. by apply waiting_before.
Qed.

(** The thread that creates a mail waits no longer. *)
Lemma creator_done w (y : system) i x k : waiting w (after_call h y i (KCreateEmail x) k) i = false.
Proof.
  apply not_true_is_false. intros [_ (l & Hl & _)]%waiting_now. simpl in Hl.
  by rewrite own_snoc, decide_True, looked_snoc in Hl.
Qed.

(** It had seen room in every window its mail falls into. *)
Lemma creator_waited w (y : system) i x k t :
  clock_read y → sy_threads y !! i = Some (Call (KCreateEmail x) k) →
  passed ns by_ cooldown maxPerHour uid (own i (sy_log y)) →
  (clock (sy_state y) - resolution ≤ t)%Z → (w ≤ t < w + (len - resolution))%Z → waiting w y i = true.
Proof.
  intros Hclock Hi (l & now & Hl & Hnow%elem_of_own & Hc) Ht Hw. apply Hclock in Hnow. apply waiting_now.
  split; [by eapply calls_in_progress|]. exists l. split; [done|]. specialize (Hlimit now _ Hc).
  assert (∀ t', (w ≤ t' < w + (len - resolution))%Z → (time_sub now t' < len)%Z) as Hrecent
    by (intros t' Ht'; unfold time_sub, min_int64; lia).
  apply (window_filter (se_created <$> l) _ (λ t', time_sub now t' < len)%Z) in Hrecent. unfold inside. lia.
Qed.

Lemma crowded_step (y : system) i o k :
  (busy y ≤ n)%nat → clock_read y → crowded y → sy_threads y !! i = Some (Call o k) →
  mail_rule ns by_ cooldown maxPerHour (own i (sy_log y)) (ev o (h o (sy_state y)).2) →
  crowded (after_call h y i o k).
Proof.
  intros Hbusy Hclock Hy Hi Hrule w Hfull.
  assert (stored (after_call h y i o k) = stored y → (count w (stored (after_call h y i o k)) +
    Z.of_nat (waiters w (after_call h y i o k)) ≤ max + Z.of_nat n - 1)%Z) as Hsame.
  { intros Heq. rewrite Heq in *. pose proof (waiters_before w y i o k Hi Hfull). specialize (Hy w Hfull). lia. }
  destruct (creates_mail o) eqn:Ho; [|apply Hsame; unfold sent; simpl; by rewrite mail_frame].
  destruct o; try discriminate Ho. rename e into email. simpl in Hrule.
  pose proof (mail_create email (sy_state y)) as Hc.
  destruct (h (KCreateEmail email) (sy_state y)) as [s' [err|]] eqn:Hs; [apply Hsame; unfold sent; simpl; rewrite Hs; simpl; by rewrite Hc|].
  destruct Hc as (t & Ht & Hm).
  assert (stored (after_call h y i (KCreateEmail email) k) =
    stored y ++ (if decide (about ns by_ uid email) then [t] else [])) as Hsent.
  { unfold about. apply (sent_snoc h ns uid by_ (sy_state y)). simpl. by rewrite Hs. }
  case_decide as Habout; [|apply Hsame; by rewrite Hsent, app_nil_r]. rewrite Hsent, inside_snoc in *.
  case_decide as Hw; [|rewrite Z.add_0_r in *; apply Hy in Hfull as Hy'; pose proof (waiters_before w y i _ k Hi Hfull); lia].
  pose proof (creator_waited w y i email k t Hclock Hi (Hrule uid Habout) ltac:(lia) Hw) as Hwait.
  assert (i ∈ seq 0 (length (sy_threads y))) as Hin.
  { apply elem_of_seq. apply lookup_lt_Some in Hi. lia. }
  pose proof (creator_done w y i email k) as Hdone.
  destruct (decide (max ≤ count w (stored y))%Z) as [Hbefore|Hbefore].
  - specialize (Hy w Hbefore).
    assert (waiters w (after_call h y i (KCreateEmail email) k) < waiters w y)%nat; [|lia].
    unfold waiters. simpl. rewrite length_insert. apply (filter_lt _ (waiting w y) _ i); [|done..].
    intros j. by apply (waiting_before w y i _ k).
  - assert (waiters w (after_call h y i (KCreateEmail email) k) < busy y)%nat; [|lia].
    unfold waiters, busy. simpl. rewrite length_insert. apply (filter_lt _ _ _ i); [|done| |done].
    + intros j Hj. destruct (decide (j = i)) as [->|Hne]; [congruence|]. rewrite waiting_other in Hj by done.
      by apply waiting_now in Hj as [? _].
    + by apply waiting_now in Hwait as [? _].
Qed.

Lemma crowded_begin s ps : window (len - resolution) max (sent h ns uid by_ s) → crowded (begin s ps).
Proof.
  intros Hs w Hfull. specialize (Hs w). simpl in *. unfold inside in *.
  assert (waiters w (begin s ps) = 0%nat) as ->; [|lia]. unfold waiters. by induction (seq _ _) as [|i l IH].
Qed.

Lemma window_reachable s ps (y : system) :
  Forall (safe (each (mail_rule ns by_ cooldown maxPerHour))) ps →
  window (len - resolution) max (sent h ns uid by_ s) → reaches_at_most h n s ps y →
  window (len - resolution) (max + Z.of_nat n - 1) (stored y).
Proof.
  intros Hps Hs Hr.
  assert (clock_read y ∧ crowded y) as [_ Hy].
  { revert y Hr. apply (bounded_invariant h n s ps (mail_rule ns by_ cooldown maxPerHour)); [done| |].
    - split; [|by apply crowded_begin]. intros i now Hin. by apply not_elem_of_nil in Hin.
    - intros y i o k _ Hb [Hclock Hc] Hi Hrule. split; [by apply clock_read_step|by apply crowded_step]. }
  intros w. destruct (decide (max ≤ count w (stored y))%Z) as [Hfull|Hfull]; [specialize (Hy w Hfull)|]; unfold inside in *; lia.
Qed.
End Invariant.

(** * The requests keep the rule *)

Section Requests.
Context `{GoRuntime} (cfg : AccountRecoveryConfig) (links : LinkREST) (vcfg : EmailVerificationConfig).

Definition self_rule : trace → event → Prop :=
  mail_rule (arc_NotificationNamespace cfg) RequestedBySelf (arc_Cooldown cfg) (arc_MaxPerHour cfg).

Definition support_rule : trace → event → Prop :=
  mail_rule (op_NotificationNamespace (lr_opts links)) RequestedBySupport (op_Cooldown (lr_opts links)) (op_MaxPerHour (lr_opts links)).

(** Anything that runs beside: the three mail endpoints, and programs whose mails are not
    recovery mails. *)
Definition no_recovery_mail (o : op) : Prop :=
  match o with KCreateEmail x => em_labels x !! LabelRequestedBy = None | _ => True end.

Inductive mail_activity : M unit → Prop :=
| answers rq : mail_activity (serve cfg links vcfg rq)
| beside p : only no_recovery_mail p → mail_activity p.

Section Trigger.
Context (ns by_ : string) (cooldown maxPerHour : Z).
Notation R := (mail_rule ns by_ cooldown maxPerHour).

Lemma rule_mail_request {B} (d : decoder B) zero allowed r k :
  (∀ req, safe (each R) (k req)) → safe (each R) (with_mail_request d zero allowed r k).
Proof.
  intros Hk. unfold with_mail_request. destruct (negb _); [apply safe_ret, _|]. destruct (negb _); [apply safe_ret, _|].
  destruct (rq_body _); [|apply safe_ret, _]. by destruct (Decode _ _ _); [|apply safe_ret, _].
Qed.

Lemma rule_with_user r k : (∀ u, safe (each R) (k u)) → safe (each R) (with_user r k).
Proof. intros Hk. unfold with_user. destruct r as [u|e]; [done|]. destruct (IsNotFound e); apply safe_ret, _. Qed.

(** The check of a trigger and what follows it: the trigger of the rule, whose mail needs
    the check, or the other one. *)
Lemma rule_TooSoon ns' by' c m uid {A} (k : result bool → M A) :
  (∀ r, r ≠ Ok false → safe (each R) (k r)) →
  (∀ pre, passed ns' by' c m uid pre → wp (k (Ok false)) (λ tr _, each_from (mail_rule ns' by' c m) pre tr)) →
  (0 < cooldown ∨ 0 < maxPerHour)%Z →
  (ns' = ns ∧ by' = by_ ∧ c = cooldown ∧ m = maxPerHour ∨ safe (each R) (k (Ok false))) →
  safe (each R) (t ← TooSoon ns' uid by' c m; k t).
Proof.
  intros Hother Hpass Hon [(-> & -> & -> & ->)|Hsafe].
  - unfold safe. rewrite wp_bind. apply (wp_mono _ _ _ (TooSoon_passes ns by_ cooldown maxPerHour uid Hon)).
    intros tr [a|] [Htr Ha]; simpl; [|done]. apply wp_each_from; [done|].
    destruct a as [[|]|e]; [|by apply Hpass, Ha|]; (eapply wp_mono; [by apply Hother|]); intros tr' r'; by apply each_from_each, _.
  - apply safe_bind; [apply _|apply mailless_rule; unfold TooSoon; solve_only|]. intros [[|]|e]; auto.
Qed.
End Trigger.

(** What a passed check allows. *)
Lemma each_rule_mail ns by_ c m uid pre (x : Email) r :
  passed ns by_ c m uid pre → em_labels x = trigger_labels uid by_ →
  mail_rule ns by_ c m pre (ev (KCreateEmail x) r).
Proof.
  intros Hpass Hl uid' (_ & Huid & _). rewrite Hl in Huid. unfold trigger_labels in Huid.
  rewrite lookup_insert_eq in Huid. by injection Huid as <-.
Qed.

Lemma passed_snoc ns by_ c m uid pre e :
  passed ns by_ c m uid pre → look ns by_ uid (looked_at ns by_ uid pre) e = looked_at ns by_ uid pre → passed ns by_ c m uid (pre ++ [e]).
Proof.
  intros (l & now & Hl & Hn & Hc) He. exists l, now. rewrite looked_snoc, He. split; [done|]. split; [|done].
  apply elem_of_app. by left.
Qed.

Lemma mint_and_mail_rule user returnTo uid pre :
  passed (arc_NotificationNamespace cfg) RequestedBySelf (arc_Cooldown cfg) (arc_MaxPerHour cfg) uid pre →
  wp (mint_and_mail cfg user returnTo uid) (λ tr _, each_from self_rule pre tr).
Proof.
  intros Hpass. unfold mint_and_mail. intros [[codeID code]|e]; simpl; [|done]. intros r. split; [done|].
  split; [|done]. refine (each_rule_mail _ _ _ _ uid _ _ r _ _); [by apply passed_snoc|done].
Qed.

Lemma mail_link_rule u link user codeID code pre :
  passed (op_NotificationNamespace (lr_opts links)) RequestedBySupport (op_Cooldown (lr_opts links))
    (op_MaxPerHour (lr_opts links)) (pl_UserRef link) pre →
  wp (mail_link links u link user codeID code) (λ tr _, each_from support_rule pre tr).
Proof.
  intros Hpass. assert (support_rule pre (ev (KCreateEmail (Build (support_input links u link user codeID code))) None)) as Hmail
    by (by refine (each_rule_mail _ _ _ _ (pl_UserRef link) _ _ None _ _)).
  unfold mail_link. intros [e|]; simpl; [destruct (IsAlreadyExists e); simpl|]; try intros now; repeat split; apply Hmail.
Qed.

(** A program whose mails are of the other trigger, or of none. *)
Lemma other_trigger_rule ns by_ c m {A} (p : M A) :
  only (λ o, match o with KCreateEmail x => em_labels x !! LabelRequestedBy ≠ Some by_ | _ => True end) p →
  safe (each (mail_rule ns by_ c m)) p.
Proof. apply only_each. intros o pre a. destruct o; simpl; try done. by intros Hne uid (_ & _ & Hby). Qed.

Lemma built_by i : em_labels (Build i) !! LabelRequestedBy = Some (in_RequestedBy i).
Proof. simpl. rewrite lookup_insert_ne by done. apply lookup_singleton_eq. Qed.

Section Serve.
Context (ns by_ : string) (cooldown maxPerHour : Z) (Hon : (0 < cooldown ∨ 0 < maxPerHour)%Z).
Notation R := (mail_rule ns by_ cooldown maxPerHour).

Lemma recovery_rule r :
  (ns = arc_NotificationNamespace cfg ∧ by_ = RequestedBySelf ∧ cooldown = arc_Cooldown cfg ∧ maxPerHour = arc_MaxPerHour cfg ∨
   by_ ≠ RequestedBySelf) → safe (each R) (accountRecovery_ServeHTTP cfg r).
Proof.
  intros Htrigger. apply rule_mail_request. intros req. case_bool_decide; [apply safe_ret, _|].
  case_bool_decide; [apply safe_ret, _|]. destruct (negb _); [apply safe_ret, _|].
  destruct (usable_return_to _ _) as [returnTo|]; [|apply safe_ret, _].
  apply safe_bind; [apply _|apply mailless_rule, only_userWithRetry|]. intros u. apply rule_with_user. intros user.
  destruct (negb _); [apply safe_ret, _|]. apply rule_TooSoon; [|intros; by apply mint_and_mail_rule|done|].
  - intros [[|]|e] Hne; [apply safe_ret, _|done|apply safe_ret, _].
  - destruct Htrigger as [(-> & -> & -> & ->)|Hne]; [by left|right]. apply other_trigger_rule.
    split; [done|]. intros [[codeID code]|e]; [|exact I]. split; [|by intros a]. rewrite built_by. intros [= Heq]. by apply Hne.
Qed.

Lemma links_rule caller obj :
  (ns = op_NotificationNamespace (lr_opts links) ∧ by_ = RequestedBySupport ∧ cooldown = op_Cooldown (lr_opts links) ∧
   maxPerHour = op_MaxPerHour (lr_opts links) ∨ by_ ≠ RequestedBySupport) → safe (each R) (links_Create links caller obj).
Proof.
  intros Htrigger. unfold links_Create. destruct obj as [link|]; [|apply safe_ret, _]. destruct (negb _); [apply safe_ret, _|].
  destruct caller as [u|]; [|apply safe_ret, _]. destruct (bad_spec link u); [apply safe_ret, _|].
  apply safe_bind; [apply _|apply mailless_rule; unfold CanCreatePasskeyRegistrationLink, review; solve_only|].
  intros [[|]|e]; [|apply safe_ret, _..]. unfold send_link.
  apply safe_bind; [apply _|apply mailless_rule; solve_only|]. intros [user|e]; [|apply safe_ret, _].
  destruct (negb _); [apply safe_ret, _|]. apply rule_TooSoon; [| |done|].
  - intros [[|]|e] Hne; [apply safe_ret, _|done|apply safe_ret, _].
  - intros pre Hpass [[codeID code]|e]; [|by split].
    apply (passed_snoc _ _ _ _ _ _ (ev (ZCreatePasskeyRegistrationLink (pl_UserRef link)) (Ok (codeID, code)))) in Hpass; [|done].
    apply (mail_link_rule u link user codeID code) in Hpass. apply (wp_mono (mail_link _ _ _ _ _ _) _ _ Hpass).
    intros tr r Htr. by split.
  - destruct Htrigger as [(-> & -> & -> & ->)|Hne]; [by left|right]. apply other_trigger_rule.
    split; [done|]. intros [[codeID code]|e]; [|exact I]. unfold mail_link.
    split; [rewrite built_by; intros [= Heq]; by apply Hne|]. intros [e|]; simpl; [destruct (IsAlreadyExists e)|]; by repeat split.
Qed.

Lemma verify_rule r : safe (each R) (emailVerification_ServeHTTP vcfg r).
Proof.
  apply rule_mail_request. intros req. case_bool_decide; [apply safe_ret, _|].
  destruct (usable_return_to _ _) as [returnTo|]; [|apply safe_ret, _].
  apply safe_bind; [apply _|apply mailless_rule, only_userWithRetry|]. intros u. apply rule_with_user. intros user.
  apply safe_bind; [apply _|apply other_trigger_rule; by split|intros [?|?]; apply safe_ret, _].
Qed.
End Serve.

Lemma activity_mail_rule ns by_ c m p :
  (0 < c ∨ 0 < m)%Z →
  (ns = arc_NotificationNamespace cfg ∧ by_ = RequestedBySelf ∧ c = arc_Cooldown cfg ∧ m = arc_MaxPerHour cfg ∨
   ns = op_NotificationNamespace (lr_opts links) ∧ by_ = RequestedBySupport ∧ c = op_Cooldown (lr_opts links) ∧
     m = op_MaxPerHour (lr_opts links)) →
  mail_activity p → safe (each (mail_rule ns by_ c m)) p.
Proof.
  intros Hon Htrigger Hp. destruct Hp as [rq|p Hp].
  - destruct rq; (apply safe_bind; [apply _| |intros; apply safe_ret, _]);
      [apply recovery_rule|apply links_rule|apply verify_rule]; try done;
      destruct Htrigger as [(-> & -> & -> & ->)|(-> & -> & -> & ->)]; ((by left) || by right).
  - apply other_trigger_rule. revert Hp. induction p as [a| |o k IH]; simpl; [done|done|]. intros [Ho Hk].
    split; [|intros a; apply IH, Hk]. destruct o; simpl in *; try done. by rewrite Ho.
Qed.
End Requests.

(** The budget, and what [n] requests in progress at once leave of it. *)
Definition within_budget_at_once {S} (h : environment S) `{!MailServer h} (n : nat) (ns by_ : string) (cooldown maxPerHour : Z) (s : S) : Prop :=
  ∀ uid, ((0 < cooldown)%Z → window (cooldown - resolution) (Z.of_nat n) (sent h ns uid by_ s)) ∧
         ((0 < maxPerHour)%Z → window (Hour - resolution) (maxPerHour + Z.of_nat n - 1) (sent h ns uid by_ s)).

Lemma one_at_once {S} (h : environment S) `{!MailServer h} ns by_ c m s :
  within_budget_at_once h 1 ns by_ c m s ↔ within_budget h ns by_ c m s.
Proof.
  unfold within_budget_at_once, within_budget. replace (m + Z.of_nat 1 - 1)%Z with m by lia. done.
Qed.

Lemma trigger_bounded {S} (h : environment S) `{!MailServer h} ns by_ c m n ps s (y : Interleave.system (S := S) (R := unit)) :
  (1 ≤ n)%nat → ((0 < c ∨ 0 < m)%Z → Forall (safe (each (mail_rule ns by_ c m))) ps) → within_budget h ns by_ c m s →
  reaches_at_most h n s ps y → within_budget_at_once h n ns by_ c m (sy_state y).
Proof.
  intros Hn Hps Hs Hr uid. destruct (Hs uid) as [Hcool Hcap]. split; intros Hpos.
  - replace (Z.of_nat n) with (1 + Z.of_nat n - 1)%Z by lia.
    eapply (window_reachable h ns by_ c m uid c 1 n); [done|done| |by apply Hps; left|by apply Hcool|exact Hr].
    intros now ts [Hnone _]. rewrite no_recent by auto. lia.
  - eapply (window_reachable h ns by_ c m uid Hour m n);
      [by vm_compute|done| |by apply Hps; right|by apply Hcap|exact Hr].
    intros now ts [_ Hcount]. auto.
Qed.

(** * Properties *)

(** C24: the recovery mail budget under concurrency. Let any recovery, support and
    verification requests, and anything else that sends no recovery mail, be served at once,
    their calls interleaved in any order, with at most [n] of them in progress at any moment.
    Then no user gets more than [n] recovery mails of one trigger within the cooldown, nor
    more than [n - 1] above the cap within any hour (up to the resolution of creation
    timestamps). With one request at a time that is the configured budget; every further
    one in progress is worth at most one mail more. *)
Theorem recovery_budget_concurrent `{GoRuntime} {S} (h : environment S) `{!MailServer h} cfg links vcfg n programs s (y : Interleave.system (S := S) (R := unit)) :
  (1 ≤ n)%nat → Forall (mail_activity cfg links vcfg) programs → budgets h cfg links s →
  reaches_at_most h n s programs y →
  within_budget_at_once h n (arc_NotificationNamespace cfg) RequestedBySelf (arc_Cooldown cfg) (arc_MaxPerHour cfg) (sy_state y) ∧
  within_budget_at_once h n (op_NotificationNamespace (lr_opts links)) RequestedBySupport (op_Cooldown (lr_opts links))
    (op_MaxPerHour (lr_opts links)) (sy_state y) ∧
  (n = 1%nat → budgets h cfg links (sy_state y)).
Proof.
  intros Hn Hps [Hself Hsupport] Hr.
  assert (∀ ns by_ c m, _ → (0 < c ∨ 0 < m)%Z → Forall (safe (each (mail_rule ns by_ c m))) programs) as Hrule
    by (intros ns by_ c m Ht Hon; exact (Forall_impl _ (λ p, activity_mail_rule cfg links vcfg ns by_ c m p Hon Ht) Hps)).
  pose proof (trigger_bounded h _ _ _ _ n programs s y Hn (Hrule _ _ _ _ (or_introl (conj eq_refl (conj eq_refl (conj eq_refl eq_refl))))) Hself Hr) as H1.
  pose proof (trigger_bounded h _ _ _ _ n programs s y Hn (Hrule _ _ _ _ (or_intror (conj eq_refl (conj eq_refl (conj eq_refl eq_refl))))) Hsupport Hr) as H2.
  split; [done|]. split; [done|]. intros ->. split; by apply one_at_once.
Qed.

(** * Witnesses *)

Section Witnesses.
#[local] Existing Instance ascii_runtime.

(** The two requests of [at_once], as a bounded run. *)
Definition race : list nat := replicate 3 0%nat ++ replicate 3 1%nat ++ replicate 3 0%nat ++ replicate 3 1%nat.

Definition racers : list (M unit) := map (serve recovery_config link_storage verification_config) [self_serve; self_serve].

Lemma race_bounded : reaches_at_most minting 2 verified_user racers (exec minting race (begin verified_user racers)).
Proof. apply exec_at_most; [apply rtc_refl|vm_compute; reflexivity]. Qed.

Lemma racers_activities : Forall (mail_activity recovery_config link_storage verification_config) racers.
Proof. by repeat constructor. Qed.

(** Two mails within the cooldown: the bound is reached. *)
Lemma recovery_budget_concurrent_witness :
  let y := exec minting race (begin verified_user racers) in
  sent minting (arc_NotificationNamespace recovery_config) "u1" RequestedBySelf (sy_state y) = [Second; (2 * Second)%Z] ∧
  within_budget_at_once minting 2 (arc_NotificationNamespace recovery_config) RequestedBySelf (arc_Cooldown recovery_config)
    (arc_MaxPerHour recovery_config) (sy_state y).
Proof.
  intros y. split; [vm_compute; reflexivity|].
  exact (proj1 (recovery_budget_concurrent minting recovery_config link_storage verification_config 2 racers verified_user y
    (le_S _ _ (le_n 1)) racers_activities no_mails_within race_bounded)).
Defined.
End Witnesses.
