(* ===== verification/Startup.v ===== *)
(** cmd/actionsserver and cmd/webhookserver: what the two servers decide before they
    serve. *)

From S2P Require Import Prelude GoLib Prog Model Json SdkClient Cluster Actions Gateway MailWebhook Authn Wiring.

#[local] Open Scope startup_scope.

(** * cmd/actionsserver: the Zitadel client *)

Section Actions.
Context `{GoRuntime}.

(** The returned pair (zitadel.API, error).  The *SDKClient of a failed NewSDK is a nil
    pointer, and the return statement converts it to the interface type. *)
Definition createZitadelClient (issuer domain keyPath : string) (defaultExpiration : Z) : M (zapi * option error) :=
  keyPath ← env_or keyPath "ZITADEL_KEY_PATH";
  keyPath ← env_or keyPath "ZITADEL_MACHINE_ACCOUNT_KEY_PATH";
  if bool_decide (issuer = EmptyString ∨ domain = EmptyString ∨ keyPath = EmptyString) then mret (ZNil, None)
  else
    r ← NewSDK (mkSDKConfig domain issuer keyPath defaultExpiration);
    mret match r with Ok _ => (ZReady, None) | Err e => (ZTypedNil, Some e) end.

Definition initialBackoff : Z := Second.
Definition maxBackoff : Z := Minute.

(** [backoff *= 2], capped. *)
Definition next_backoff (b : Z) : Z := let b := wrap64 (b * 2) in if (maxBackoff <? b)%Z then maxBackoff else b.

(** [retryZitadelClient] for at most [fuel] rounds; the client it installs, if any.
    [None] when the fuel runs out. *)
Fixpoint retry_loop (fuel : nat) (issuer domain keyPath : string) (expiration backoff : Z) : M (option (option zapi)) :=
  match fuel with
  | O => mret None
  | S fuel =>
      d ← call (SleepOrDone backoff);
      match d with
      | Some _ => mret (Some None)
      | None =>
          '(client, err) ← createZitadelClient issuer domain keyPath expiration;
          match err with
          | Some _ => retry_loop fuel issuer domain keyPath expiration (next_backoff backoff)
          | None => mret (Some (if zapi_is_nil client then None else Some client))
          end
      end
  end.

Definition retryZitadelClient (fuel : nat) (issuer domain keyPath : string) (expiration : Z) : M (option (option zapi)) :=
  retry_loop fuel issuer domain keyPath expiration initialBackoff.

(** [NewServer], with the client of its gateway requests. *)
Definition NewServer `{X509} (cfg : ServerConfig) (validate : string → string → string → option error) (z : zapi)
    : M (Server * GatewayClient) :=
  httpClient ← buildHTTPClient (GraphQLGatewayCACertFile cfg);
  mret (mkServer cfg validate z, httpClient).

(** The listener of [Start]: TLS with a certificate and a key, otherwise plain; protocols of
    its own or (None) the library's. *)
Record Listener := mkListener { ln_Addr : string; ln_TLS : option (string * string); ln_NextProtos : option (list string) }.

Definition Start (cfg : ServerConfig) : Listener :=
  if negb (bool_decide (CertFile cfg = EmptyString)) && negb (bool_decide (KeyFile cfg = EmptyString)) then
    mkListener (Addr cfg) (Some (CertFile cfg, KeyFile cfg)) (if DisableHTTP2 cfg then Some ["http/1.1"] else None)
  else mkListener (Addr cfg) None None.

(** signature.go *)
Definition NoopValidatePayload (payload header signingKey : string) : option error := None.

(** The types the handlers' client knows. *)
Definition actions_scheme : Scheme := [IamTypes; NotificationTypes; CoreTypes].

(** The server that is started, and whether the background retry runs beside it. *)
Record started `{X509} := mkStarted {
  sd_Server : Server; sd_HttpClient : GatewayClient; sd_Retrying : bool; sd_Listener : Listener }.
Arguments mkStarted {_} _ _ _ _.

(** RunE up to the listener.  [ValidatePayload] is the validator of the Zitadel library. *)
Definition runActionsServer `{X509} (ValidatePayload : string → string → string → option error) (cfg : ServerConfig)
    (zitadelIssuer zitadelAPI zitadelKeyPath : string) (defaultMachineKeyExpiration : Z) : startup error started :=
  k8sConfig ⇐ fetched (pcall (BuildConfigFromFlags EmptyString (Kubeconfig cfg)))
                (EWrap ("unable to load kubeconfig from " +:+ Kubeconfig cfg +:+ ": "));
  _ ⇐ checked (pcall (NewDirectClient k8sConfig actions_scheme)) (λ e, e);
  validateSignatureFunc ⇐
    (if DisableSignatureValidation cfg then proceed NoopValidatePayload
     else if bool_decide (SigningKey cfg = EmptyString) then
       fail (EPlain "signing key is required when signature validation is enabled")
     else proceed ValidatePayload);
  '(zitadelSDKClient, err) ⇐ running (createZitadelClient zitadelIssuer zitadelAPI zitadelKeyPath defaultMachineKeyExpiration);
  '(svr, httpClient) ⇐ running (NewServer cfg validateSignatureFunc zitadelSDKClient);
  proceed (mkStarted svr httpClient (match err with Some _ => true | None => false end) (Start cfg)).
End Actions.
Arguments mkStarted {_} _ _ _ _.

(** * cmd/webhookserver *)

Record WebhookServerConfig := mkWebhookConfig {
  wc_CertDir : string;
  wc_CertFile : string;
  wc_KeyFile : string;
  wc_WebhookPort : Z;
  wc_ZitadelPrivateKey : string;
  wc_ZitadelServiceAccountKey : string;
  wc_ZitadelDomain : string;
  wc_JwtExpiration : Z;
  wc_JwtRefreshBefore : Z;
  wc_MetricsBindAddress : string;
  wc_HealthProbeBindAddress : string;
  wc_EmailVerificationTemplate : string;
  wc_NotificationNamespace : string;
  wc_EmailVerificationAllowedOrigins : list string;
  wc_EmailVerificationExpiryMinutes : Z;
  wc_EmailVerificationUserLookupAttempts : Z;
  wc_EmailVerificationUserLookupBaseWait : Z;
  wc_AccountRecoveryTemplate : string;
  wc_AccountRecoveryAllowedOrigins : list string;
  wc_AccountRecoveryExpiryMinutes : Z;
  wc_AccountRecoveryCooldown : Z;
  wc_AccountRecoveryMaxPerHour : Z;
  wc_MailWebhookAllowedClientNames : list string;
  wc_ClientCAFile : string }.

Definition NewWebhookServerConfig : WebhookServerConfig := {|
  wc_CertDir := "/etc/certs";
  wc_CertFile := "server.crt";
  wc_KeyFile := "server.key";
  wc_WebhookPort := 9443;
  wc_ZitadelPrivateKey := EmptyString;
  wc_ZitadelServiceAccountKey := EmptyString;
  wc_ZitadelDomain := EmptyString;
  wc_JwtExpiration := 0;
  wc_JwtRefreshBefore := 0;
  wc_MetricsBindAddress := EmptyString;
  wc_HealthProbeBindAddress := EmptyString;
  wc_EmailVerificationTemplate := EmptyString;
  wc_NotificationNamespace := "milo-system";
  wc_EmailVerificationAllowedOrigins := [];
  wc_EmailVerificationExpiryMinutes := 60;
  wc_EmailVerificationUserLookupAttempts := 5;
  wc_EmailVerificationUserLookupBaseWait := 200 * Millisecond;
  wc_AccountRecoveryTemplate := EmptyString;
  wc_AccountRecoveryAllowedOrigins := [];
  wc_AccountRecoveryExpiryMinutes := 60;
  wc_AccountRecoveryCooldown := 2 * Minute;
  wc_AccountRecoveryMaxPerHour := 5;
  wc_MailWebhookAllowedClientNames := [];
  wc_ClientCAFile := EmptyString |}.

(** The configuration of an empty command line: the defaults of the flags replace those of
    NewWebhookServerConfig. *)
Definition NewAuthenticationWebhookServerCommand : WebhookServerConfig :=
  let c := NewWebhookServerConfig in {|
  wc_CertDir := "/etc/certs";
  wc_CertFile := EmptyString;
  wc_KeyFile := EmptyString;
  wc_WebhookPort := 9443;
  wc_ZitadelPrivateKey := "private-key.json";
  wc_ZitadelServiceAccountKey := EmptyString;
  wc_ZitadelDomain := "https://your_domain";
  wc_JwtExpiration := Hour;
  wc_JwtRefreshBefore := 5 * Minute;
  wc_MetricsBindAddress := ":8080";
  wc_HealthProbeBindAddress := ":8081";
  wc_EmailVerificationTemplate := wc_EmailVerificationTemplate c;
  wc_NotificationNamespace := wc_NotificationNamespace c;
  wc_EmailVerificationAllowedOrigins := [];
  wc_EmailVerificationExpiryMinutes := wc_EmailVerificationExpiryMinutes c;
  wc_EmailVerificationUserLookupAttempts := wc_EmailVerificationUserLookupAttempts c;
  wc_EmailVerificationUserLookupBaseWait := wc_EmailVerificationUserLookupBaseWait c;
  wc_AccountRecoveryTemplate := wc_AccountRecoveryTemplate c;
  wc_AccountRecoveryAllowedOrigins := [];
  wc_AccountRecoveryExpiryMinutes := wc_AccountRecoveryExpiryMinutes c;
  wc_AccountRecoveryCooldown := wc_AccountRecoveryCooldown c;
  wc_AccountRecoveryMaxPerHour := wc_AccountRecoveryMaxPerHour c;
  wc_MailWebhookAllowedClientNames := [];
  wc_ClientCAFile := wc_ClientCAFile c |}.

Definition validateWebhookConfig (cfg : WebhookServerConfig) : option error :=
  if negb (bool_decide (wc_EmailVerificationTemplate cfg = EmptyString)) && bool_decide (wc_ClientCAFile cfg = EmptyString) then
    Some (EPlain ("--client-ca-file is required when --email-verification-template is set: " +:+
                  "without it the verification endpoint accepts unauthenticated callers"))
  else if negb (bool_decide (wc_AccountRecoveryTemplate cfg = EmptyString)) && bool_decide (wc_ClientCAFile cfg = EmptyString) then
    Some (EPlain ("--client-ca-file is required when --account-recovery-template is set: " +:+
                  "without it the recovery endpoint accepts unauthenticated callers"))
  else None.

(** ** servicekey.go *)

Record zitadelKey := mkZitadelKey { zk_Type : string; zk_UserID : string; zk_ClientID : string; zk_AppID : string; zk_KeyID : string }.

Section Webhook.
Context `{GoRuntime}.

Definition unpinnedCallerWarning (cfg : WebhookServerConfig) : string :=
  if bool_decide (wc_EmailVerificationTemplate cfg = EmptyString) && bool_decide (wc_AccountRecoveryTemplate cfg = EmptyString)
  then EmptyString
  else match NormalizeClientNames (wc_MailWebhookAllowedClientNames cfg) with
       | _ :: _ => EmptyString
       | [] => "mail endpoints accept any client signed by the CA; " +:+
               "set --mail-webhook-allowed-client-names to pin the caller"
       end.

Definition key_decoder : decoder zitadelKey := decode_struct
  [("type", string_field (λ x k, mkZitadelKey x (zk_UserID k) (zk_ClientID k) (zk_AppID k) (zk_KeyID k)));
   ("userId", string_field (λ x k, mkZitadelKey (zk_Type k) x (zk_ClientID k) (zk_AppID k) (zk_KeyID k)));
   ("clientId", string_field (λ x k, mkZitadelKey (zk_Type k) (zk_UserID k) x (zk_AppID k) (zk_KeyID k)));
   ("appId", string_field (λ x k, mkZitadelKey (zk_Type k) (zk_UserID k) (zk_ClientID k) x (zk_KeyID k)));
   ("keyId", string_field (λ x k, mkZitadelKey (zk_Type k) (zk_UserID k) (zk_ClientID k) (zk_AppID k) x))].

Definition serviceAccountKeyType : string := "serviceaccount".
Definition applicationKeyType : string := "application".
Definition flag : string := "--zitadel-service-account-key: ".

Definition check_key (path : string) (key : zitadelKey) : option error :=
  if bool_decide (zk_Type key = applicationKeyType) ||
     (bool_decide (zk_UserID key = EmptyString) &&
      (negb (bool_decide (zk_ClientID key = EmptyString)) || negb (bool_decide (zk_AppID key = EmptyString)))) then
    Some (EPlain (flag +:+ path +:+ " is a Zitadel APPLICATION key (type " +:+ quote (zk_Type key) +:+ ", clientId " +:+
      quote (zk_ClientID key) +:+ ", appId " +:+ quote (zk_AppID key) +:+ ") and carries no userId, so it cannot mint the " +:+
      "service-user JWT the Zitadel API requires — the token exchange fails with an opaque " +:+
      "HTTP 500 " +:+ quoted "Errors.Internal" +:+ ". This flag needs the SERVICE ACCOUNT key (type " +:+
      quote serviceAccountKeyType +:+ ", userId set), " +:+
      "which is the " +:+ quoted "iam-admin" +:+ " secret. The application key is the " +:+
      quoted "zitadel-machine-auth-api-key" +:+ " " +:+
      "secret and belongs on --zitadel-private-key, which the token introspector uses. " +:+
      "The two are different credentials for different callers; one key cannot serve both"))
  else if negb (bool_decide (zk_Type key = serviceAccountKeyType)) then
    Some (EPlain (flag +:+ path +:+ " declares type " +:+ quote (zk_Type key) +:+ ", want " +:+ quote serviceAccountKeyType +:+
      " (a Zitadel service account key; see the account-recovery runbook for which secret holds one)"))
  else if bool_decide (zk_UserID key = EmptyString) then
    Some (EPlain (flag +:+ path +:+ " declares type " +:+ quote (zk_Type key) +:+ " but has no userId, " +:+
      "which is the subject the service-user JWT assertion is minted for; the key file is incomplete"))
  else None.

Definition zero_key : zitadelKey := mkZitadelKey EmptyString EmptyString EmptyString EmptyString EmptyString.

Definition validateServiceAccountKey (path : string) : M (option error) :=
  r ← call (ReadFile path);
  mret match r with
       | Err e => Some (EWrapIn (flag +:+ "cannot read " +:+ path +:+ ": ") e
                              " (the flag must point at a mounted Zitadel service account key JSON)")
       | Ok raw =>
           match Unmarshal key_decoder zero_key raw with
           | None => Some (EWrapIn (flag +:+ "cannot parse " +:+ path +:+ " as JSON: ") (EPlain (json_error_text raw))
                         " (expected a Zitadel service account key file, not a bare PEM)")
           | Some key => check_key path key
           end
       end.

(** ** register.go *)

(** The recovery endpoint's client; a failure is reported, the client not used. *)
Definition newRecoveryMinter (cfg : WebhookServerConfig) : M (option error) :=
  if bool_decide (wc_ZitadelServiceAccountKey cfg = EmptyString) then
    mret (Some (EPlain ("--zitadel-service-account-key is empty but --account-recovery-template is set: " +:+
      "the recovery endpoint calls the Zitadel API as a service user, which --zitadel-private-key " +:+
      "(the application key used for token introspection) cannot do. " +:+
      "Set --zitadel-service-account-key to a mounted Zitadel service account key JSON, " +:+
      "or clear --account-recovery-template to turn recovery off deliberately")))
  else
    e ← validateServiceAccountKey (wc_ZitadelServiceAccountKey cfg);
    match e with
    | Some e => mret (Some e)
    | None =>
        r ← NewSDK (mkSDKConfig (wc_ZitadelDomain cfg) (wc_ZitadelDomain cfg) (wc_ZitadelServiceAccountKey cfg) 0);
        mret match r with Err e => Some e | Ok _ => None end
    end.

Inductive endpoint :=
| TokenReviewEndpoint
| EmailVerificationEndpoint (cfg : EmailVerificationConfig)
| AccountRecoveryEndpoint (cfg : AccountRecoveryConfig).

Definition verification_config_of (cfg : WebhookServerConfig) (allowedClients : list string) : EmailVerificationConfig :=
  mkEVConfig (wc_EmailVerificationTemplate cfg) (wc_NotificationNamespace cfg) (wc_EmailVerificationAllowedOrigins cfg)
    (wc_EmailVerificationExpiryMinutes cfg) allowedClients (wc_EmailVerificationUserLookupAttempts cfg)
    (wc_EmailVerificationUserLookupBaseWait cfg).

Definition recovery_config_of (cfg : WebhookServerConfig) (allowedClients : list string) : AccountRecoveryConfig :=
  mkRecoveryConfig (wc_AccountRecoveryTemplate cfg) (wc_NotificationNamespace cfg) (wc_AccountRecoveryAllowedOrigins cfg)
    (wc_AccountRecoveryExpiryMinutes cfg) allowedClients (wc_EmailVerificationUserLookupAttempts cfg)
    (wc_EmailVerificationUserLookupBaseWait cfg) (wc_AccountRecoveryCooldown cfg) (wc_AccountRecoveryMaxPerHour cfg).

(** [registerEndpoints]: the endpoints in the order they are registered. *)
Definition registerEndpoints (cfg : WebhookServerConfig) (allowedClients : list string) : M (list endpoint) :=
  let first := TokenReviewEndpoint ::
    (if bool_decide (wc_EmailVerificationTemplate cfg = EmptyString) then []
     else [EmailVerificationEndpoint (verification_config_of cfg allowedClients)]) in
  if bool_decide (wc_AccountRecoveryTemplate cfg = EmptyString) then mret first
  else
    e ← newRecoveryMinter cfg;
    mret match e with
         | Some _ => first
         | None => first ++ [AccountRecoveryEndpoint (recovery_config_of cfg allowedClients)]
         end.

(** ** command.go *)

Definition newScheme : startup error Scheme :=
  _ ⇐ checked (pcall (AddToScheme AuthenticationTypes)) (EWrap "failed to add authenticationv1 scheme: ");
  _ ⇐ checked (pcall (AddToScheme IamTypes)) (EWrap "failed to add iam scheme: ");
  _ ⇐ checked (pcall (AddToScheme NotificationTypes)) (EWrap "failed to add notification scheme: ");
  proceed [AuthenticationTypes; IamTypes; NotificationTypes].

Definition managerOptions (cfg : WebhookServerConfig) (scheme : Scheme) : ManagerOptions :=
  mkManagerOptions (Some scheme) (Some (mkMetricsOptions (wc_MetricsBindAddress cfg) false false []))
    (Some (mkWebhookOptions (wc_CertDir cfg) (wc_CertFile cfg) (wc_KeyFile cfg) (wc_ClientCAFile cfg) (wc_WebhookPort cfg) []))
    (wc_HealthProbeBindAddress cfg) false no_election.

(** /readyz answers once the webhook server accepts TLS. *)
Definition addReadiness (mgr : Manager) : Proc (option error) := pcall (AddStartedCheck "webhook" mgr).

Definition newManager (restConfig : RestConfig) (cfg : WebhookServerConfig) (scheme : Scheme) : startup error Manager :=
  let mgr := mkManager restConfig (managerOptions cfg scheme) in
  _ ⇐ checked (pcall (NewManager mgr)) (EWrap "failed to create manager: ");
  _ ⇐ checked (addReadiness mgr) (EWrap "failed to add the webhook server's readiness check: ");
  proceed mgr.

(** [runWebhookServer] up to the start of the manager.  [parse_pem] is the key parser of
    NewIntrospector. *)
Definition runWebhookServer (parse_pem : string → option error) (cfg : WebhookServerConfig)
    : startup error (Introspector * Manager * list endpoint) :=
  match validateWebhookConfig cfg with
  | Some e => fail e
  | None =>
      let allowedClients := NormalizeClientNames (wc_MailWebhookAllowedClientNames cfg) in
      introspector ⇐ fetched (lift (NewIntrospector parse_pem (wc_ZitadelPrivateKey cfg) (wc_ZitadelDomain cfg)
                                      (wc_JwtExpiration cfg) (wc_JwtRefreshBefore cfg)))
                       (EWrap "failed to create auth provider introspector: ");
      restConfig ⇐ fetched (pcall GetConfig) (EWrap "failed to get rest config: ");
      runtimeScheme ⇐ newScheme;
      mgr ⇐ newManager restConfig cfg runtimeScheme;
      _ ⇐ (if bool_decide (wc_EmailVerificationTemplate cfg = EmptyString) && bool_decide (wc_AccountRecoveryTemplate cfg = EmptyString)
           then proceed tt
           else checked (pcall (NewDirectClient restConfig runtimeScheme)) (EWrap "failed to create client: "));
      es ⇐ running (registerEndpoints cfg allowedClients);
      proceed (introspector, mgr, es)
  end.
End Webhook.

(** * Properties *)

(** The context-aware waits of a trace. *)
Definition sleep_of (e : event) : option Z := match e with existT (SleepOrDone d) _ => Some d | _ => None end.
Definition sleeps (tr : trace) : list Z := omap sleep_of tr.

Lemma sleeps_app tr tr' : sleeps (tr ++ tr') = sleeps tr ++ sleeps tr'.
Proof. apply omap_app. Qed.

Definition awake : trace → Prop := λ tr, sleeps tr = [].

#[export] Instance awake_inv : TraceInv awake.
Proof. split; [done|]. unfold awake. intros tr tr' H1 H2. by rewrite sleeps_app, H1, H2. Qed.

(** The series 1 s, 2 s, 4 s, ..., at most one minute. *)
Definition backoff_at (i : nat) : Z := Z.min (2 ^ Z.of_nat i * Second) Minute.

Lemma backoff_at_bounds i : (Second ≤ backoff_at i ≤ Minute)%Z.
Proof.
  unfold backoff_at, Minute, Second, Millisecond.
  assert (1 ≤ 2 ^ Z.of_nat i)%Z by (apply (Z.pow_le_mono_r 2 0); lia). lia.
Qed.

Lemma next_backoff_at i : next_backoff (backoff_at i) = backoff_at (S i).
Proof.
  pose proof (backoff_at_bounds i) as Hb. unfold next_backoff, maxBackoff.
  rewrite wrap64_id by (unfold Minute, Second, Millisecond, min_int64, max_int64 in *; lia).
  unfold backoff_at in *. rewrite Nat2Z.inj_succ, Z.pow_succ_r by lia.
  destruct (Z.ltb_spec Minute (Z.min (2 ^ Z.of_nat i * Second) Minute * 2));
    unfold Minute, Second, Millisecond in *; lia.
Qed.

Section ActionsSpec.
Context `{GoRuntime}.

(** What createZitadelClient can return: nothing configured, a working client, or the
    typed nil pointer next to an error; and its calls never wait. *)
Definition client_outcome (r : outcome (zapi * option error)) : Prop :=
  match r with
  | Returned (ZNil, None) | Returned (ZReady, None) | Returned (ZTypedNil, Some _) => True
  | _ => False
  end.

Lemma env_or_wp v key Q : (∀ tr x, awake tr → Q tr (Returned x)) → wp (env_or v key) Q.
Proof. intros HQ. unfold env_or. case_bool_decide; simpl; [|by apply HQ]. intros x. by apply HQ. Qed.

Lemma NewSDK_wp cfg Q : (∀ tr r, awake tr → Q tr (Returned r)) → wp (NewSDK cfg) Q.
Proof.
  intros HQ. unfold NewSDK.
  rewrite wp_bind. apply env_or_wp. intros tr1 d H1. simpl.
  rewrite wp_bind. apply env_or_wp. intros tr2 i H2. simpl.
  rewrite wp_bind. apply env_or_wp. intros tr3 k H3. simpl.
  assert (awake (tr1 ++ tr2 ++ tr3)) as H123 by (do 2 (apply ti_app; [done|]); done).
  destruct (sdk_target _) as [[host port]|e].
  - simpl. intros a. apply HQ. rewrite !app_assoc. apply ti_app; [by rewrite <-app_assoc|done].
  - simpl. rewrite !app_nil_r. by apply HQ.
Qed.

Lemma createZitadelClient_wp issuer domain keyPath expiration Q :
  (∀ tr r, awake tr → client_outcome r → Q tr r) → wp (createZitadelClient issuer domain keyPath expiration) Q.
Proof.
  intros HQ. unfold createZitadelClient.
  rewrite wp_bind. apply env_or_wp. intros tr1 k1 H1. simpl.
  rewrite wp_bind. apply env_or_wp. intros tr2 k2 H2. simpl.
  case_bool_decide; simpl; [apply HQ; [rewrite app_nil_r; by apply ti_app|done]|].
  rewrite wp_bind. apply NewSDK_wp. intros tr3 r H3. simpl. rewrite app_nil_r.
  apply HQ; [do 2 (apply ti_app; [done|]); done|by destruct r].
Qed.

Lemma retry_loop_spec fuel issuer domain keyPath expiration i :
  wp (retry_loop fuel issuer domain keyPath expiration (backoff_at i)) (λ tr r,
    ∃ n, sleeps tr = backoff_at <$> seq i n ∧ (n ≤ fuel)%nat ∧
      match r with
      | Returned None => n = fuel
      | Returned (Some (Some z)) => z = ZReady
      | Returned (Some None) => True
      | Panicked => False
      end).
Proof.
  revert i. induction fuel as [|fuel IH]; intros i; [by exists 0%nat|].
  simpl. intros [e|]; [by exists 1%nat; repeat split; [lia|..]|].
  change (bind ?f ?p) with (p ≫= f). rewrite wp_bind. apply createZitadelClient_wp. intros tr r Htr Hr.
  destruct r as [[[] [e|]]|]; try done; simpl.
  - exists 1%nat. simpl. rewrite app_nil_r. unfold awake in Htr. rewrite Htr. split; [done|]. split; [lia|done].
  - rewrite next_backoff_at. apply (wp_mono _ _ _ (IH (S i))). intros tr' r' (n & Hn & Hle & Hr').
    exists (S n). simpl. rewrite sleeps_app, Htr, Hn. split; [done|]. split; [lia|].
    destruct r' as [[[]|]|]; auto.
  - exists 1%nat. simpl. rewrite app_nil_r, Htr. split; [done|]. split; [lia|done].
Qed.
End ActionsSpec.

(** ** An environment in which Zitadel comes up

    The process is not asked to stop, its environment variables are fixed, and a client
    cannot be created for at most [down s] more attempts. *)
Class Uptime {S} (h : environment S) (getenv : string → string) (down : S → nat) := {
  up_sleep d s : (h (SleepOrDone d) s).2 = None ∧ (down (h (SleepOrDone d) s).1 ≤ down s)%nat;
  up_getenv k s : (h (Getenv k) s).2 = getenv k ∧ (down (h (Getenv k) s).1 ≤ down s)%nat;
  up_client host port issuer key s :
    let '(s', e) := h (GNewClient host port issuer key) s in
    (down s' ≤ down s)%nat ∧ (e ≠ None → down s' < down s)%nat }.

Definition first_set (x y : string) : string := if bool_decide (x = EmptyString) then y else x.

Section Recovery.
Context `{GoRuntime} {S} (h : environment S) (getenv : string → string) (down : S → nat) `{!Uptime h getenv down}.

(** The key path createZitadelClient settles on, and the configuration it passes on. *)
Definition key_in_use (keyPath : string) : string :=
  first_set (first_set keyPath (getenv "ZITADEL_KEY_PATH")) (getenv "ZITADEL_MACHINE_ACCOUNT_KEY_PATH").

Lemma run_env_or v key s :
  ∃ s', run h (env_or v key) s = (s', Returned (first_set v (getenv key))) ∧ (down s' ≤ down s)%nat.
Proof.
  unfold env_or, first_set. case_bool_decide; [|by exists s].
  pose proof (up_getenv key s) as [Ha Hd]. simpl. destruct (h (Getenv key) s) as [s' a]. simpl in *. subst a. by exists s'.
Qed.

Lemma run_NewSDK domain issuer key expiration s :
  domain ≠ EmptyString → issuer ≠ EmptyString → key ≠ EmptyString →
  let cfg := mkSDKConfig domain issuer key expiration in
  ∃ s' r, run h (NewSDK cfg) s = (s', Returned r) ∧ (down s' ≤ down s)%nat ∧
    match sdk_target cfg with
    | Err e => r = Err e
    | Ok _ => match r with Ok _ => True | Err _ => (down s' < down s)%nat end
    end.
Proof.
  intros Hd Hi Hk cfg. unfold NewSDK. subst cfg. simpl Domain. simpl Issuer. simpl KeyPath.
  unfold env_or. rewrite !bool_decide_false by done.
  simpl. destruct (sdk_target _) as [[host port]|e]; simpl; [|by eauto].
  pose proof (up_client host port issuer key s) as Hc. destruct (h _ s) as [s' [e|]]; destruct Hc as [Hle Hlt].
  - exists s', (Err e). repeat split; [lia|]. by apply Hlt.
  - exists s'. eexists. by split.
Qed.

(** createZitadelClient on a complete configuration: a client unless Zitadel is still
    down, in which case one attempt has passed; a client is impossible when NewSDK
    rejects the configuration. *)
Lemma run_createZitadelClient issuer domain keyPath expiration s :
  domain ≠ EmptyString → issuer ≠ EmptyString → key_in_use keyPath ≠ EmptyString →
  ∃ s' r, run h (createZitadelClient issuer domain keyPath expiration) s = (s', Returned r) ∧ (down s' ≤ down s)%nat ∧
    match sdk_target (mkSDKConfig domain issuer (key_in_use keyPath) expiration) with
    | Err e => r = (ZTypedNil, Some e)
    | Ok _ => r = (ZReady, None) ∨ (∃ e, r = (ZTypedNil, Some e)) ∧ (down s' < down s)%nat
    end.
Proof.
  intros Hd Hi Hk. unfold createZitadelClient.
  rewrite run_bind. destruct (run_env_or keyPath "ZITADEL_KEY_PATH" s) as (s1 & -> & H1).
  rewrite run_bind. destruct (run_env_or (first_set keyPath (getenv "ZITADEL_KEY_PATH")) "ZITADEL_MACHINE_ACCOUNT_KEY_PATH" s1)
    as (s2 & -> & H2). fold (key_in_use keyPath).
  rewrite bool_decide_false by tauto.
  rewrite run_bind. destruct (run_NewSDK domain issuer (key_in_use keyPath) expiration s2) as (s3 & r & -> & H3 & Hr); try done.
  exists s3. eexists. split; [done|]. split; [lia|].
  destruct (sdk_target _); [|by subst r]. destruct r; [by left|]. right. split; [eauto|lia].
Qed.

Lemma run_retry_loop fuel issuer domain keyPath expiration backoff s :
  domain ≠ EmptyString → issuer ≠ EmptyString → key_in_use keyPath ≠ EmptyString →
  let r := (run h (retry_loop fuel issuer domain keyPath expiration backoff) s).2 in
  match sdk_target (mkSDKConfig domain issuer (key_in_use keyPath) expiration) with
  | Ok _ => (down s < fuel)%nat → r = Returned (Some (Some ZReady))
  | Err _ => r = Returned None
  end.
Proof.
  intros Hd Hi Hk. cbv zeta.
  revert backoff s. induction fuel as [|fuel IH]; intros backoff s; [destruct (sdk_target _); [lia|done]|].
  simpl. pose proof (up_sleep backoff s) as [Ha Hs]. destruct (h _ s) as [s1 d]. simpl in Ha, Hs. subst d.
  change (bind ?f ?p) with (p ≫= f). rewrite run_bind.
  destruct (run_createZitadelClient issuer domain keyPath expiration s1) as (s2 & r & -> & H2 & Hr); try done.
  specialize (IH (next_backoff backoff) s2).
  destruct (sdk_target _) as [t|e]; [|by subst r].
  intros Hf. destruct Hr as [->|[[e ->] Hlt]]; [done|]. simpl. apply IH. lia.
Qed.
End Recovery.

Section Theorems.
Context `{GoRuntime}.

(** RetryZitadelClient waits 1 s, 2 s, 4 s, ... and then one minute before each
    attempt, and never longer; it never panics, gives up only when the process is asked
    to stop or nothing is configured, and the only client it installs is a working one:
    never the nil pointer that createZitadelClient returns next to an error. *)
Theorem retryZitadelClient_backoff fuel issuer domain keyPath expiration tr r :
  may (retryZitadelClient fuel issuer domain keyPath expiration) tr r →
  ∃ n, sleeps tr = backoff_at <$> seq 0 n ∧ (n ≤ fuel)%nat ∧
    Forall (λ d, Second ≤ d ≤ Minute)%Z (sleeps tr) ∧
    match r with
    | Returned None => n = fuel
    | Returned (Some (Some z)) => z = ZReady
    | Returned (Some None) => True
    | Panicked => False
    end.
Proof.
  intros Hm. destruct (may_wp _ _ _ _ Hm (retry_loop_spec fuel issuer domain keyPath expiration 0)) as (n & Hn & Hle & Hr).
  exists n. split; [done|]. split; [done|]. split; [|done].
  rewrite Hn. apply Forall_fmap, Forall_true. intros i. apply backoff_at_bounds.
Qed.

(** C27: recovery of the Zitadel client.  Once a client can be created, retryZitadelClient
    installs a working one, after at most [down s] failed attempts: the loop terminates.
    On a configuration that NewSDK rejects (a domain with a path, an issuer without
    scheme, a port out of range) the loop never ends: every further round fails again. *)
Theorem retryZitadelClient_recovers {S} (h : environment S) getenv down `{!Uptime h getenv down}
    issuer domain keyPath expiration s :
  domain ≠ EmptyString → issuer ≠ EmptyString → key_in_use getenv keyPath ≠ EmptyString →
  match sdk_target (mkSDKConfig domain issuer (key_in_use getenv keyPath) expiration) with
  | Ok _ => ∀ fuel, (down s < fuel)%nat →
      (run h (retryZitadelClient fuel issuer domain keyPath expiration) s).2 = Returned (Some (Some ZReady))
  | Err _ => ∀ fuel, (run h (retryZitadelClient fuel issuer domain keyPath expiration) s).2 = Returned None
  end.
Proof.
  intros Hd Hi Hk. destruct (sdk_target _) eqn:Ht; intros fuel;
    pose proof (run_retry_loop h getenv down fuel issuer domain keyPath expiration initialBackoff s Hd Hi Hk) as Hr;
    cbv zeta in Hr; rewrite Ht in Hr; auto.
Qed.
End Theorems.

(** ** The webhook server *)

Section WebhookSpec.
Context `{GoRuntime}.

(** What validateServiceAccountKey requires of a key file. *)
Definition usable_key (raw : string) : Prop :=
  ∃ key, Unmarshal key_decoder zero_key raw = Some key ∧ zk_Type key = serviceAccountKeyType ∧ zk_UserID key ≠ EmptyString.

Lemma check_key_exact path key :
  check_key path key = None ↔ zk_Type key = serviceAccountKeyType ∧ zk_UserID key ≠ EmptyString.
Proof.
  unfold check_key. destruct key as [t u c a k]. simpl zk_Type. simpl zk_UserID.
  destruct (decide (t = serviceAccountKeyType)) as [->|Ht].
  - rewrite (bool_decide_false (serviceAccountKeyType = applicationKeyType)) by done.
    rewrite (bool_decide_true (serviceAccountKeyType = serviceAccountKeyType)) by done.
    case_bool_decide as Hu; [|split; done]. split; [|intros [_ []]; done].
    destruct (negb _ || negb _); done.
  - rewrite (bool_decide_false _ Ht). split; [|by intros []]. destruct (_ || _); done.
Qed.

Lemma validateServiceAccountKey_wp path Q :
  (∀ r e, (e = None ↔ ∃ raw, r = Ok raw ∧ usable_key raw) → Q [ev (ReadFile path) r] (Returned e)) →
  wp (validateServiceAccountKey path) Q.
Proof.
  intros HQ. unfold validateServiceAccountKey. simpl. intros r. apply HQ. unfold usable_key. destruct r as [raw|e].
  - destruct (Unmarshal _ _ raw) as [key|] eqn:Hu.
    + rewrite check_key_exact. split; [by eauto|]. intros (raw' & [= <-] & key' & Hu' & Hk). congruence.
    + split; [done|]. intros (raw' & [= <-] & key' & Hu' & Hk). congruence.
  - split; [done|]. by intros (raw & ? & _).
Qed.

(** The endpoints that send mail. *)
Definition is_mail_endpoint (e : endpoint) : bool := match e with TokenReviewEndpoint => false | _ => true end.

(** What newRecoveryMinter has seen when it succeeds. *)
Definition minter_ready (cfg : WebhookServerConfig) (tr : trace) : Prop :=
  ∃ raw, ev (ReadFile (wc_ZitadelServiceAccountKey cfg)) (Ok raw) ∈ tr ∧ usable_key raw.

Lemma newRecoveryMinter_wp cfg Q :
  (∀ tr e, (e = None → wc_ZitadelServiceAccountKey cfg ≠ EmptyString ∧ minter_ready cfg tr) → Q tr (Returned e)) →
  wp (newRecoveryMinter cfg) Q.
Proof.
  intros HQ. unfold newRecoveryMinter. case_bool_decide as Hk; [simpl; by apply HQ|].
  rewrite wp_bind. apply validateServiceAccountKey_wp. intros r [e|] He; simpl; [by apply HQ|].
  destruct (proj1 He eq_refl) as (raw & -> & Hraw).
  change (bind ?f ?p) with (p ≫= f). rewrite wp_bind. apply NewSDK_wp. intros tr r _. simpl.
  apply HQ. intros _. split; [done|]. exists raw. split; [by left|done].
Qed.

(** The endpoints, with or without recovery. *)
Definition served (cfg : WebhookServerConfig) (allowed : list string) (ready : bool) : list endpoint :=
  [TokenReviewEndpoint] ++
  (if bool_decide (wc_EmailVerificationTemplate cfg = EmptyString) then []
   else [EmailVerificationEndpoint (verification_config_of cfg allowed)]) ++
  (if ready then [AccountRecoveryEndpoint (recovery_config_of cfg allowed)] else []).

Lemma registerEndpoints_wp cfg allowed Q :
  (∀ tr ready, (ready = true → wc_AccountRecoveryTemplate cfg ≠ EmptyString ∧
                  wc_ZitadelServiceAccountKey cfg ≠ EmptyString ∧ minter_ready cfg tr) →
    Q tr (Returned (served cfg allowed ready))) →
  wp (registerEndpoints cfg allowed) Q.
Proof.
  intros HQ. unfold registerEndpoints.
  case_bool_decide as Hr.
  - specialize (HQ [] false). unfold served in HQ. rewrite app_nil_r in HQ. by apply HQ.
  - rewrite wp_bind. apply newRecoveryMinter_wp. intros tr e He. simpl. rewrite app_nil_r.
    specialize (HQ tr (bool_decide (e = None))). unfold served in HQ.
    destruct e; simpl in *; [rewrite app_nil_r in HQ; by apply HQ|]. apply HQ. tauto.
Qed.

Lemma validateWebhookConfig_exact cfg :
  let mail := bool_decide (wc_EmailVerificationTemplate cfg ≠ EmptyString ∨ wc_AccountRecoveryTemplate cfg ≠ EmptyString) in
  validateWebhookConfig cfg ≠ None ↔ mail = true ∧ wc_ClientCAFile cfg = EmptyString.
Proof.
  unfold validateWebhookConfig.
  destruct (decide (wc_EmailVerificationTemplate cfg = EmptyString)) as [Ht|Ht];
    destruct (decide (wc_AccountRecoveryTemplate cfg = EmptyString)) as [Hr|Hr];
    destruct (decide (wc_ClientCAFile cfg = EmptyString)) as [Hca|Hca];
    rewrite ?(bool_decide_true _ Ht), ?(bool_decide_false _ Ht), ?(bool_decide_true _ Hr), ?(bool_decide_false _ Hr),
      ?(bool_decide_true _ Hca), ?(bool_decide_false _ Hca); simpl; rewrite bool_decide_eq_true; intuition congruence.
Qed.

Lemma NewIntrospector_returns parse_pem path domain expiration refresh tr r :
  may (NewIntrospector parse_pem path domain expiration refresh) tr r → ∃ i, r = Returned i.
Proof.
  unfold NewIntrospector. destruct (_ <=? _)%Z; [intros [_ ->]; eauto|]. destruct (_ <? _)%Z; [intros [_ ->]; eauto|].
  intros (raw & tr' & _ & Hm). destruct Hm as [_ ->]. eauto.
Qed.

(** The calls to the libraries between the introspector and the endpoints, when all
    succeed: the kubeconfig, the scheme, the manager with its readiness check, and the
    mail endpoints' client. *)
Definition set_up (mail : bool) (c : RestConfig) (mgr : Manager) : ptrace :=
  let s := [AuthenticationTypes; IamTypes; NotificationTypes] in
  [ev GetConfig (Ok c); ev (AddToScheme AuthenticationTypes) None; ev (AddToScheme IamTypes) None;
   ev (AddToScheme NotificationTypes) None; ev (NewManager mgr) None; ev (AddStartedCheck "webhook" mgr) None] ++
  (if mail then [ev (NewDirectClient c s) None] else []).

Definition webhook_manager (cfg : WebhookServerConfig) (c : RestConfig) : Manager :=
  mkManager c (managerOptions cfg [AuthenticationTypes; IamTypes; NotificationTypes]).

Definition has_mail (cfg : WebhookServerConfig) : bool :=
  bool_decide (wc_EmailVerificationTemplate cfg ≠ EmptyString ∨ wc_AccountRecoveryTemplate cfg ≠ EmptyString).

Lemma has_mail_negb cfg :
  bool_decide (wc_EmailVerificationTemplate cfg = EmptyString) && bool_decide (wc_AccountRecoveryTemplate cfg = EmptyString) =
  negb (has_mail cfg).
Proof. unfold has_mail. repeat case_bool_decide; tauto. Qed.

(** What stops the server, or what it serves. *)
Definition webhook_post (parse_pem : string → option error) (cfg : WebhookServerConfig) (tr : ptrace)
    (r : outcome (error + Introspector * Manager * list endpoint)) : Prop :=
  let allowed := NormalizeClientNames (wc_MailWebhookAllowedClientNames cfg) in
  (has_mail cfg = true ∧ wc_ClientCAFile cfg = EmptyString ∧ tr = [] ∧ ∃ e, r = Returned (inl e)) ∨
  (has_mail cfg = true → wc_ClientCAFile cfg ≠ EmptyString) ∧
  ∃ tr1 i, may (NewIntrospector parse_pem (wc_ZitadelPrivateKey cfg) (wc_ZitadelDomain cfg)
                  (wc_JwtExpiration cfg) (wc_JwtRefreshBefore cfg)) tr1 (Returned i) ∧
    match i with
    | Err e => tr = map base_event tr1 ∧ r = Returned (inl (EWrap "failed to create auth provider introspector: " e))
    | Ok i =>
        (∃ mid e pre, tr = map base_event tr1 ++ mid ∧ failed_last mid e ∧ r = Returned (inl (EWrap pre e))) ∨
        (∃ c tr2 ready,
           tr = map base_event tr1 ++ set_up (has_mail cfg) c (webhook_manager cfg c) ++ map base_event tr2 ∧
           r = Returned (inr (i, webhook_manager cfg c, served cfg allowed ready)) ∧
           (ready = true → wc_AccountRecoveryTemplate cfg ≠ EmptyString ∧
                           wc_ZitadelServiceAccountKey cfg ≠ EmptyString ∧ minter_ready cfg tr2))
    end.

Lemma wp_fetched_lift {A B} (m : M (result A)) (f : error → error) (k : A → startup error B) Q :
  wp m (λ tr r, match r with
                | Returned (Ok a) => wp (k a) (λ tr' r', Q (map base_event tr ++ tr') r')
                | Returned (Err e) => Q (map base_event tr) (Returned (inl (f e)))
                | Panicked => Q (map base_event tr) Panicked
                end) →
  wp (sbind (fetched (lift m) f) k) Q.
Proof.
  intros Hm. unfold sbind, fetched. rewrite wp_bind, wp_bind. apply wp_lift. eapply wp_mono; [exact Hm|].
  intros tr [[a|e]|] HQ; simpl; rewrite ?app_nil_r; done.
Qed.

Lemma webhook_stops parse_pem cfg tr1 i mid e pre :
  (has_mail cfg = true → wc_ClientCAFile cfg ≠ EmptyString) →
  may (NewIntrospector parse_pem (wc_ZitadelPrivateKey cfg) (wc_ZitadelDomain cfg)
         (wc_JwtExpiration cfg) (wc_JwtRefreshBefore cfg)) tr1 (Returned (Ok i)) →
  failed_last mid e → webhook_post parse_pem cfg (map base_event tr1 ++ mid) (Returned (inl (EWrap pre e))).
Proof. intros Hca Hm Hf. right. split; [done|]. exists tr1, (Ok i). split; [done|]. left. by exists mid, e, pre. Qed.

(** C28: what the authentication webhook serves.  A configuration with a mail template and
    no client CA is refused before anything is done.  Otherwise a failure of the
    introspector or of a library call is reported and nothing is served; and when they
    succeed, the manager's webhook server checks client certificates against that CA, is
    ready only once it accepts TLS, TokenReview is always served and nothing in the mail
    set-up can stop it: the verification endpoint is served exactly when its template is
    set, the recovery endpoint only with its template and a service account key that was
    read and found to name a service user, and the caller allowlist of both is the
    trimmed, non-blank flag values. *)
Theorem runWebhookServer_serves parse_pem cfg tr r :
  may (runWebhookServer parse_pem cfg) tr r → webhook_post parse_pem cfg tr r.
Proof.
  intros Hm. apply (may_wp _ _ _ _ Hm). clear Hm. unfold runWebhookServer.
  pose proof (validateWebhookConfig_exact cfg) as Hv. cbv zeta in Hv. fold (has_mail cfg) in Hv.
  destruct (validateWebhookConfig cfg) as [e|].
  { left. destruct (proj1 Hv) as [Hmail Hca]; [done|]. eauto. }
  cbv zeta. apply wp_fetched_lift, wp_may. intros tr1 o Hm1.
  destruct (NewIntrospector_returns _ _ _ _ _ _ _ Hm1) as [i ->]. simpl.
  assert (has_mail cfg = true → wc_ClientCAFile cfg ≠ EmptyString) as Hca by (intros Hmail Hca; by apply (proj2 Hv)).
  destruct i as [i|e]; [|right; split; [done|]; by exists tr1, (Err e)].
  pose proof (λ mid e pre, webhook_stops parse_pem cfg tr1 i mid e pre Hca Hm1) as Hstop.
  rewrite has_mail_negb. intros [c|e]; simpl; [|apply Hstop; fails_at_end].
  do 5 (intros [e|]; simpl; [apply Hstop; fails_at_end|]).
  assert (∀ pre, pre = set_up (has_mail cfg) c (webhook_manager cfg c) →
    wp (es ⇐ running (registerEndpoints cfg (NormalizeClientNames (wc_MailWebhookAllowedClientNames cfg)));
        proceed (i, webhook_manager cfg c, es)) (λ tr r, webhook_post parse_pem cfg (map base_event tr1 ++ pre ++ tr) r)) as Hlast.
  { intros pre ->. unfold sbind, running. rewrite !wp_bind. apply wp_lift, registerEndpoints_wp. intros tr2 ready Hready.
    cbn -[app set_up webhook_post]. rewrite !app_nil_r. right. split; [done|]. exists tr1, (Ok i). split; [done|]. right.
    exists c, tr2, ready. done. }
  destruct (has_mail cfg); simpl; [intros [e|]; simpl; [apply Hstop; fails_at_end|]|]; by apply (Hlast _ eq_refl).
Qed.
End WebhookSpec.

(** Without flags no mail endpoint is configured, and the certificate's file names are the
    library's defaults, not those of NewWebhookServerConfig. *)
Example default_webhook :
  has_mail NewAuthenticationWebhookServerCommand = false ∧
  wc_CertFile NewAuthenticationWebhookServerCommand = EmptyString ∧ wc_CertFile NewWebhookServerConfig = "server.crt".
Proof. by vm_compute. Qed.

Section ActionsServer.
Context `{GoRuntime} `{X509} (ValidatePayload : string → string → string → option error).

Lemma createZitadelClient_outcome issuer domain keyPath expiration tr r :
  may (createZitadelClient issuer domain keyPath expiration) tr r → client_outcome r.
Proof. intros Hm. apply (may_wp _ (λ _ r, client_outcome r) _ _ Hm). apply createZitadelClient_wp. auto. Qed.

Lemma Start_tls cfg : is_Some (ln_TLS (Start cfg)) ↔ CertFile cfg ≠ EmptyString ∧ KeyFile cfg ≠ EmptyString.
Proof. unfold Start. repeat case_bool_decide; simpl; split; (done || by intros [??] || by intros []). Qed.

(** How the actions server starts.  It stops only for the kubeconfig, the milo client, or
    a missing signing key; a Zitadel that does not answer never stops it, and is retried
    in the background exactly when it failed.  The server it starts validates every
    signature with the Zitadel validator and a non-empty key, unless validation is
    switched off by its flag; its requests to the gateway have a deadline, whatever the CA
    file holds; and it listens with TLS exactly when both a certificate and a key are given. *)
Theorem runActionsServer_exact cfg issuer api keyPath expiration tr r :
  may (runActionsServer ValidatePayload cfg issuer api keyPath expiration) tr r →
  let load := BuildConfigFromFlags EmptyString (Kubeconfig cfg) in
  (∃ e, tr = [ev load (Err e)] ∧ r = Returned (inl (EWrap ("unable to load kubeconfig from " +:+ Kubeconfig cfg +:+ ": ") e))) ∨
  (∃ c e, tr = [ev load (Ok c); ev (NewDirectClient c actions_scheme) (Some e)] ∧ r = Returned (inl e)) ∨
  (∃ c, tr = [ev load (Ok c); ev (NewDirectClient c actions_scheme) None] ∧
     DisableSignatureValidation cfg = false ∧ SigningKey cfg = EmptyString ∧
     r = Returned (inl (EPlain "signing key is required when signature validation is enabled"))) ∨
  (∃ c tr' tr2 validate z err client,
     tr = [ev load (Ok c); ev (NewDirectClient c actions_scheme) None] ++ map base_event tr' ++ map base_event tr2 ∧
     may (createZitadelClient issuer api keyPath expiration) tr' (Returned (z, err)) ∧
     may (buildHTTPClient (GraphQLGatewayCACertFile cfg)) tr2 (Returned client) ∧ gc_Timeout client = (5 * Second)%Z ∧
     r = Returned (inr (mkStarted (mkServer cfg validate z) client (match err with Some _ => true | None => false end) (Start cfg))) ∧
     (is_Some (ln_TLS (Start cfg)) ↔ CertFile cfg ≠ EmptyString ∧ KeyFile cfg ≠ EmptyString) ∧
     (is_Some err ↔ z = ZTypedNil) ∧
     (if DisableSignatureValidation cfg then validate = NoopValidatePayload
      else validate = ValidatePayload ∧ SigningKey cfg ≠ EmptyString)).
Proof.
  intros Hm load. pattern tr, r. apply (may_wp _ _ _ _ Hm). clear Hm.
  intros [c|e]; simpl; [|by left; exists e]. intros [e|]; simpl; [by right; left; exists c, e|].
  assert (∀ validate, wp ('(zitadelSDKClient, err) ⇐ running (createZitadelClient issuer api keyPath expiration);
        '(svr, httpClient) ⇐ running (NewServer cfg validate zitadelSDKClient);
        (proceed (mkStarted svr httpClient (match err with Some _ => true | None => false end) (Start cfg)) : startup error _))
       (λ tr r, ∃ tr' tr2 z err client, tr = map base_event tr' ++ map base_event tr2 ∧
          may (createZitadelClient issuer api keyPath expiration) tr' (Returned (z, err)) ∧
          may (buildHTTPClient (GraphQLGatewayCACertFile cfg)) tr2 (Returned client) ∧ gc_Timeout client = (5 * Second)%Z ∧
          r = Returned (inr (mkStarted (mkServer cfg validate z) client (match err with Some _ => true | None => false end) (Start cfg))) ∧
          (is_Some err ↔ z = ZTypedNil))) as Hlast.
  { intros validate. unfold sbind, running. rewrite !wp_bind. apply wp_lift, wp_may. intros tr' o Hm.
    pose proof (createZitadelClient_outcome _ _ _ _ _ _ Hm) as Ho. destruct o as [[z err]|]; [|done].
    cbn -[app NewServer]. unfold NewServer. rewrite !wp_bind. apply wp_lift, wp_bind, wp_may. intros tr2 o2 Hm2.
    destruct (buildHTTPClient_trust _ _ _ Hm2) as (_ & client & -> & Htime & _).
    cbn -[app]. rewrite !app_nil_r. exists tr', tr2, z, err, client. repeat (split; [done|]).
    destruct z, err; try done; split; (done || by intros []). }
  destruct (DisableSignatureValidation cfg) eqn:Hd; [|case_bool_decide as Hk].
  - eapply wp_mono; [by apply (Hlast NoopValidatePayload)|]. intros tr' r' (tr1 & tr2 & z & err & client & -> & Hm & Hc & Ht & -> & Hz).
    do 3 right. exists c, tr1, tr2, NoopValidatePayload, z, err, client. pose proof Start_tls. done.
  - simpl. right. right. left. by exists c.
  - eapply wp_mono; [by apply (Hlast ValidatePayload)|]. intros tr' r' (tr1 & tr2 & z & err & client & -> & Hm & Hc & Ht & -> & Hz).
    do 3 right. exists c, tr1, tr2, ValidatePayload, z, err, client. pose proof Start_tls. done.
Qed.
End ActionsServer.

(** * Witnesses *)

Section Witnesses.
#[local] Existing Instance ascii_runtime.

#[local] Instance one_root : X509 := {|
  RootCert := string; SystemCertPool := Ok ["host CA"];
  parse_certificates := λ pem, if has_prefix "-----BEGIN CERTIFICATE" pem then [pem] else [] |}.

Definition with_ca (pem : result string) (o : op) (c : cluster) : cluster * ans o :=
  match o return cluster * ans o with ReadFile _ => (c, pem) | o => fake o c end.

(** A CA file is trusted beside the host's; one without a certificate, or a missing one,
    changes nothing. *)
Example gateway_roots :
  let built pem := (run (with_ca pem) (buildHTTPClient "/ca.crt") empty_cluster).2 in
  built (Ok "-----BEGIN CERTIFICATE-----") =
    Returned (mkGatewayClient (5 * Second) (Some ["host CA"; "-----BEGIN CERTIFICATE-----"])) ∧
  built (Ok "hello") = Returned (mkGatewayClient (5 * Second) None) ∧
  built (Err (EPlain "no such file")) = Returned (mkGatewayClient (5 * Second) None).
Proof. by vm_compute. Qed.

Definition application_file : string := mail_js "{'type':'application','keyId':'k2','clientId':'c','appId':'a','key':'PEM'}".

(** Zitadel refuses the first [n] clients; the service account key is mounted. *)
Definition key_file : string := mail_js "{'type':'serviceaccount','keyId':'k1','userId':'271'}".

Definition coming_up (o : op) (w : nat * cluster) : (nat * cluster) * ans o :=
  match o return (nat * cluster) * ans o with
  | GNewClient _ _ _ _ =>
      match w.1 with
      | O => (w, None)
      | S n => ((n, w.2), Some (EGrpc GUnavailable "connection refused"))
      end
  | ReadFile path => (w, Ok (if bool_decide (path = "/key.json") then key_file else application_file))
  | o => let '(c, a) := fake o w.2 in ((w.1, c), a)
  end.

#[local] Instance coming_up_uptime : Uptime coming_up (λ _, EmptyString) fst.
Proof.
  split.
  - intros d [n c]. simpl. by split.
  - intros k [n c]. simpl. by split.
  - intros host port issuer key [[|n] c]; simpl; split; try done; lia.
Qed.

Lemma retryZitadelClient_backoff_witness :
  let p := retryZitadelClient 9 "https://auth.example.net" "auth.example.net" "/key.json" 0 in
  ∃ n, sleeps (run_trace coming_up p (7%nat, empty_cluster)) = backoff_at <$> seq 0 n ∧ (n ≤ 9)%nat ∧
    Z.to_nat (backoff_at 7 / Second) = 60%nat.
Proof.
  intros p.
  destruct (retryZitadelClient_backoff 9 "https://auth.example.net" "auth.example.net" "/key.json" 0 _ _
              (run_may coming_up p (7%nat, empty_cluster))) as (n & Hn & Hle & _).
  exists n. split; [exact Hn|]. split; [exact Hle|]. vm_compute. reflexivity.
Defined.

Lemma retryZitadelClient_recovers_witness :
  (run coming_up (retryZitadelClient 8 "https://auth.example.net" "auth.example.net" "/key.json" 0) (7%nat, empty_cluster)).2 =
    Returned (Some (Some ZReady)) ∧
  ∀ fuel, (run coming_up (retryZitadelClient fuel "auth.example.net" "auth.example.net" "/key.json" 0) (7%nat, empty_cluster)).2 =
    Returned None.
Proof.
  assert (∀ s, s ≠ EmptyString → key_in_use (λ _, EmptyString) s ≠ EmptyString) as Hk.
  { intros s Hs. unfold key_in_use, first_set. by rewrite !bool_decide_false by (rewrite ?bool_decide_false by done; done). }
  split.
  - assert ("https://auth.example.net" ≠ EmptyString ∧ "auth.example.net" ≠ EmptyString) as [Hi Hd] by (split; discriminate).
    apply (retryZitadelClient_recovers coming_up (λ _, EmptyString) fst "https://auth.example.net" "auth.example.net" "/key.json" 0
      (7%nat, empty_cluster) Hd Hi). 
    + apply Hk. discriminate.
    + simpl. lia.
  - apply (retryZitadelClient_recovers coming_up (λ _, EmptyString) fst "auth.example.net" "auth.example.net" "/key.json" 0
      (7%nat, empty_cluster)); [discriminate|discriminate|]. apply Hk. discriminate.
Defined.

Definition both_mails : WebhookServerConfig := {|
  wc_CertDir := "/etc/certs"; wc_CertFile := "server.crt"; wc_KeyFile := "server.key"; wc_WebhookPort := 9443;
  wc_ZitadelPrivateKey := "/app.json"; wc_ZitadelServiceAccountKey := "/key.json";
  wc_ZitadelDomain := "https://auth.example.net"; wc_JwtExpiration := 60 * Minute; wc_JwtRefreshBefore := 5 * Minute;
  wc_MetricsBindAddress := ":8080"; wc_HealthProbeBindAddress := ":8081";
  wc_EmailVerificationTemplate := "verify"; wc_NotificationNamespace := "milo-system";
  wc_EmailVerificationAllowedOrigins := ["https://auth.example.net"]; wc_EmailVerificationExpiryMinutes := 60;
  wc_EmailVerificationUserLookupAttempts := 5; wc_EmailVerificationUserLookupBaseWait := 200 * Millisecond;
  wc_AccountRecoveryTemplate := "recover"; wc_AccountRecoveryAllowedOrigins := ["https://auth.example.net"];
  wc_AccountRecoveryExpiryMinutes := 60; wc_AccountRecoveryCooldown := 2 * Minute; wc_AccountRecoveryMaxPerHour := 5;
  wc_MailWebhookAllowedClientNames := [" auth-ui "; "  "]; wc_ClientCAFile := "ca.crt" |}.

(** The libraries grant every call. *)
Definition granting {S} (h : environment S) (c : RestConfig) (o : pop) (w : S) : S * pans o :=
  match o return S * pans o with
  | Base o => h o w
  | GetConfig | ClientConfig | BuildConfigFromFlags _ _ => (w, Ok c)
  | DecodeServerConfig _ => (w, Err (EPlain "no server config"))
  | Elected _ => (w, tt)
  | _ => (w, None)
  end.

Definition home : RestConfig := mkRestConfig "https://milo.example.net" 20000 30 None None.

Lemma runWebhookServer_serves_witness :
  let p := runWebhookServer (λ _, None) both_mails in
  ∃ i tr2 ready, (run (granting coming_up home) p (0%nat, empty_cluster)).2 =
      Returned (inr (i, webhook_manager both_mails home, served both_mails ["auth-ui"] ready)) ∧
    ready = true ∧ (ready = true → minter_ready both_mails tr2).
Proof.
  intros p.
  pose proof (runWebhookServer_serves (λ _, None) both_mails _ _ (run_may (granting coming_up home) p (0%nat, empty_cluster))) as Hp.
  assert (∀ e, (run (granting coming_up home) p (0%nat, empty_cluster)).2 ≠ Returned (inl e)) as Hno
    by (intros e; vm_compute; discriminate).
  assert (∀ i m es, (run (granting coming_up home) p (0%nat, empty_cluster)).2 = Returned (inr (i, m, es)) →
            m = webhook_manager both_mails home ∧ length es = 3%nat) as Hyes.
  { intros i m es. vm_compute. intros [= _ <- <-]. done. }
  destruct Hp as [(_ & _ & _ & e & Hr)|(_ & tr1 & [i|e] & _ & Hr)]; [by apply Hno in Hr| |by destruct Hr as [_ Hr%Hno]].
  destruct Hr as [(mid & e & pre & _ & _ & Hr)|(c & tr2 & ready & _ & Hr & Hready)]; [by apply Hno in Hr|].
  destruct (Hyes _ _ _ Hr) as [Hm Hlen]. exists i, tr2, ready. rewrite <-Hm. split; [exact Hr|].
  split; [by destruct ready|]. intros Ht. apply (Hready Ht).
Defined.
End Witnesses.
