(* ===== verification/Shutdown.v ===== *)
(** cmd/controller/controller.go: how the controller process stops.

    [runUntilManagerStops] runs the manager and the workers beside it in an errgroup;
    its executions are the interleavings of the steps of a step relation, because the
    members run concurrently.  Leader election relies on it: the lease is released when
    the manager stops, so the process must not go on working afterwards. *)

From S2P Require Import Prelude GoLib Prog Model.

(** * Libraries

    golang.org/x/sync/errgroup, as documented: [Wait] gives the first non-nil error a
    member returned, and the context of [WithContext] is cancelled the first time a
    member returns one. *)
Class ErrGroup := {
  group : Type;
  WithContext : group;
  member_returned : group → option error → group;
  group_cancelled : group → bool;
  Wait : group → option error;
  WithContext_open : group_cancelled WithContext = false ∧ Wait WithContext = None;
  member_returned_nil g :
    group_cancelled (member_returned g None) = group_cancelled g ∧ Wait (member_returned g None) = Wait g;
  member_returned_error g e :
    group_cancelled (member_returned g (Some e)) = true ∧ Wait (member_returned g (Some e)) = Some (default e (Wait g)) }.

(** [errors.Is(err, context.Canceled)] is a parameter: which errors wrap the sentinel. *)
Section Run.
Context `{ErrGroup} (is_canceled : error → bool).

Definition ignoreCanceled (err : option error) : option error :=
  match err with
  | Some e => if is_canceled e then None else Some e
  | None => None
  end.

(** A member of the group: running; returned, its result not recorded yet (for the
    manager: the deferred [cancel] has run); recorded by the group. *)
Inductive member_phase := Running | Returning (err : option error) | Done (err : option error).

(** Member 0 is the manager, the others are the workers. *)
Record run_state := mkRun {
  rs_parent : bool;        (* the context of the caller is cancelled *)
  rs_cancel : bool;        (* [cancel] was called *)
  rs_group : group;
  rs_members : list member_phase }.

(** The context the members get: derived from the caller's, with [cancel], then by the group. *)
Definition ctx_done (s : run_state) : bool := rs_parent s || rs_cancel s || group_cancelled (rs_group s).

Definition start (workers : nat) : run_state := mkRun false false WithContext (replicate (S workers) Running).

(** [may_return i done err]: member [i] can return [err] while its context is, or is not, done. *)
Variable may_return : nat → bool → option error → Prop.

Definition set_member (s : run_state) (i : nat) (p : member_phase) : list member_phase := <[i := p]> (rs_members s).

Inductive internal_step (s : run_state) : run_state → Prop :=
| member_returns i err :
    rs_members s !! i = Some Running → may_return i (ctx_done s) err →
    internal_step s (mkRun (rs_parent s) (rs_cancel s || bool_decide (i = 0%nat)) (rs_group s)
                       (set_member s i (Returning (ignoreCanceled err))))
| group_records i err :
    rs_members s !! i = Some (Returning err) →
    internal_step s (mkRun (rs_parent s) (rs_cancel s) (member_returned (rs_group s) err) (set_member s i (Done err))).

Inductive run_step (s : run_state) : run_state → Prop :=
| step_internal s' : internal_step s s' → run_step s s'
| parent_cancelled : run_step s (mkRun true (rs_cancel s) (rs_group s) (rs_members s)).

Definition reachable (workers : nat) (s : run_state) : Prop := rtc run_step (start workers) s.

(** [g.Wait()] returns when every member has. *)
Definition is_done (p : member_phase) : bool := match p with Done _ => true | _ => false end.
Definition finished (s : run_state) : bool := forallb is_done (rs_members s).
Definition runUntilManagerStops_result (s : run_state) : option (option error) :=
  if finished s then Some (Wait (rs_group s)) else None.

(** * Invariant *)

Definition failed_with (ms : list member_phase) (e : error) : Prop := Done (Some e) ∈ ms.
Definition manager_returned (ms : list member_phase) : Prop := ∃ p, ms !! 0%nat = Some p ∧ p ≠ Running.

Definition group_agrees (s : run_state) : Prop :=
  (Wait (rs_group s) = None ∧ group_cancelled (rs_group s) = false ∧ ∀ e, ¬ failed_with (rs_members s) e) ∨
  ∃ e, Wait (rs_group s) = Some e ∧ group_cancelled (rs_group s) = true ∧ failed_with (rs_members s) e.

Definition run_inv (workers : nat) (s : run_state) : Prop :=
  length (rs_members s) = S workers ∧
  (rs_cancel s = true ↔ manager_returned (rs_members s)) ∧ group_agrees s.

Lemma failed_with_insert ms i p q e :
  ms !! i = Some p → (∀ e, p ≠ Done (Some e)) →
  failed_with (<[i := q]> ms) e ↔ q = Done (Some e) ∨ failed_with ms e.
Proof.
  intros Hi Hp. unfold failed_with. rewrite !list_elem_of_lookup. split.
  - intros [j Hj]. destruct (decide (i = j)) as [<-|Hne].
    + rewrite list_lookup_insert_eq in Hj by (by eapply lookup_lt_Some). left. congruence.
    + rewrite list_lookup_insert_ne in Hj by done. right. by exists j.
  - intros [->|[j Hj]]; [exists i; rewrite list_lookup_insert_eq; [done|by eapply lookup_lt_Some]|].
    exists j. rewrite list_lookup_insert_ne; [done|]. intros <-. rewrite Hi in Hj. injection Hj as ->. by apply (Hp e).
Qed.

Lemma manager_returned_insert ms i q :
  q ≠ Running → (i < length ms)%nat → manager_returned (<[i := q]> ms) ↔ i = 0%nat ∨ manager_returned ms.
Proof.
  intros Hq Hi. unfold manager_returned. destruct (decide (i = 0%nat)) as [->|Hne].
  - rewrite list_lookup_insert_eq by done. split; [by left|]. eauto.
  - rewrite list_lookup_insert_ne by done. split; [by right|]. intros [->|?]; done.
Qed.

Lemma run_inv_start workers : run_inv workers (start workers).
Proof.
  destruct WithContext_open as [Hc Hw].
  split; [apply length_replicate|]. split.
  - simpl. split; [done|]. intros (p & [= <-] & []). done.
  - left. repeat split; [done|done|]. intros e He. by apply elem_of_replicate in He as [? _].
Qed.

Lemma group_agrees_same (s : run_state) ms :
  (∀ e, failed_with ms e ↔ failed_with (rs_members s) e) → group_agrees s →
  group_agrees (mkRun (rs_parent s) (rs_cancel s) (rs_group s) ms).
Proof.
  intros Hms [(Hw & Hc & Hf)|(e & Hw & Hc & Hf)]; [left|right].
  - repeat split; [done|done|]. intros e. simpl. by rewrite Hms.
  - exists e. repeat split; [done|done|]. by apply Hms.
Qed.

Lemma internal_step_inv workers s s' : run_inv workers s → internal_step s s' → run_inv workers s'.
Proof.
  intros (Hlen & Hcancel & Hgroup) [i err Hi Hret|i err Hi]; assert (i < length (rs_members s))%nat as Hlt
    by (by eapply lookup_lt_Some); (split; [by unfold set_member; simpl; rewrite length_insert|]);
    unfold set_member; simpl.
  - split.
    + rewrite manager_returned_insert by done. rewrite orb_true_iff, Hcancel, bool_decide_eq_true. tauto.
    + apply (group_agrees_same s); [|done]. intros e. rewrite failed_with_insert by done. naive_solver.
  - split.
    + rewrite manager_returned_insert by done. rewrite Hcancel. split; [tauto|].
      intros [->|]; [|done]. by exists (Returning err).
    + unfold group_agrees in *. simpl. destruct err as [e|].
      * destruct (member_returned_error (rs_group s) e) as [Hc Hw]. right.
        destruct Hgroup as [(Hw0 & _ & _)|(e0 & Hw0 & _ & Hf0)]; rewrite Hw, Hw0; simpl; eexists;
          (split; [done|]); (split; [done|]); rewrite failed_with_insert by done; auto.
      * destruct (member_returned_nil (rs_group s)) as [-> ->].
        destruct Hgroup as [(Hw0 & Hc0 & Hf0)|(e0 & Hw0 & Hc0 & Hf0)]; [left|right].
        -- split; [done|]. split; [done|]. intros e. rewrite failed_with_insert by done. intros [?|?]; [done|]. by apply (Hf0 e).
        -- exists e0. split; [done|]. split; [done|]. rewrite failed_with_insert by done. by right.
Qed.

Lemma reachable_inv workers s : reachable workers s → run_inv workers s.
Proof.
  intros Hr. unfold reachable in Hr. remember (start workers) as s0 eqn:H0. assert (run_inv workers s0) as Hinv
    by (subst; apply run_inv_start). clear H0.
  induction Hr as [|s s1 s2 Hstep _ IH]; [done|]. apply IH. destruct Hstep as [s' Hs|].
  - by apply (internal_step_inv _ s).
  - destruct Hinv as (Hlen & Hcancel & Hgroup). by split.
Qed.

(** ** Progress *)

(** What the members still have to do, in steps. *)
Definition remaining_of (p : member_phase) : nat := match p with Running => 2 | Returning _ => 1 | Done _ => 0 end.
Definition remaining (s : run_state) : nat := sum_list_with remaining_of (rs_members s).

Lemma sum_list_with_insert {A} (f : A → nat) l i x y :
  l !! i = Some x → (sum_list_with f (<[i := y]> l) + f x = sum_list_with f l + f y)%nat.
Proof.
  revert i. induction l as [|z l IH]; intros [|i] Hi; simpl in *; [done|done|injection Hi as ->; lia|].
  specialize (IH i Hi). lia.
Qed.

Lemma internal_step_remaining s s' : internal_step s s' → remaining s = S (remaining s').
Proof.
  intros [i err Hi _|i err Hi]; unfold remaining, set_member; simpl.
  - pose proof (sum_list_with_insert remaining_of _ i _ (Returning (ignoreCanceled err)) Hi). simpl in *. lia.
  - pose proof (sum_list_with_insert remaining_of _ i _ (Done err) Hi). simpl in *. lia.
Qed.

Lemma internal_step_ctx_done s s' : internal_step s s' → ctx_done s = true → ctx_done s' = true.
Proof.
  intros [i err Hi _|i err Hi]; unfold ctx_done; simpl; rewrite !orb_true_iff; [tauto|].
  destruct err as [e|].
  - rewrite (proj1 (member_returned_error (rs_group s) e)). tauto.
  - rewrite (proj1 (member_returned_nil (rs_group s))). tauto.
Qed.

(** Members give up once their context is done. *)
Definition cooperative : Prop := ∀ i, ∃ err, may_return i true err.

Lemma not_finished s : finished s = false → ∃ i p, rs_members s !! i = Some p ∧ is_done p = false.
Proof.
  unfold finished. intros Hf. induction (rs_members s) as [|p ms IH]; [done|]. simpl in Hf.
  destruct (is_done p) eqn:Hp; [|by exists 0%nat, p]. destruct (IH Hf) as (i & q & Hi & Hq). by exists (S i), q.
Qed.

Lemma cancelled_progress s : cooperative → ctx_done s = true → finished s = false → ∃ s', internal_step s s'.
Proof.
  intros Hco Hd Hf. destruct (not_finished s Hf) as (i & [|err|err] & Hi & Hp); [| |done].
  - destruct (Hco i) as [err Hret]. eexists. apply (member_returns s i err); [done|]. by rewrite Hd.
  - eexists. by apply (group_records s i err).
Qed.

Lemma finished_forall s : finished s = true ↔ Forall (λ p, is_done p = true) (rs_members s).
Proof. unfold finished. rewrite forallb_forall, List.Forall_forall. done. Qed.

(** * Properties *)

(** C26: the context of the members, at every point of every interleaving, is done exactly
    when the caller's context is cancelled, the manager has returned, or some member
    has been recorded with an error other than a cancellation.  So a worker that simply
    ends does not stop the process, and losing the manager always does. *)
Theorem run_cancels_exactly workers s :
  reachable workers s →
  ctx_done s = true ↔
    rs_parent s = true ∨ manager_returned (rs_members s) ∨ ∃ e, failed_with (rs_members s) e.
Proof.
  intros Hr. destruct (reachable_inv workers s Hr) as (_ & Hcancel & Hgroup).
  unfold ctx_done. rewrite !orb_true_iff, Hcancel.
  destruct Hgroup as [(_ & -> & Hf)|(e & _ & -> & Hf)]; naive_solver.
Qed.

(** The result of runUntilManagerStops.  It waits for the manager and every worker;
    it reports success exactly when no member failed otherwise than by cancellation, and
    the error it reports is one a member returned. *)
Theorem run_result workers s r :
  reachable workers s → runUntilManagerStops_result s = Some r →
  Forall (λ p, is_done p = true) (rs_members s) ∧ length (rs_members s) = S workers ∧
  match r with
  | None => ∀ e, ¬ failed_with (rs_members s) e
  | Some e => failed_with (rs_members s) e
  end.
Proof.
  intros Hr. unfold runUntilManagerStops_result. destruct (finished s) eqn:Hf; [|done]. intros [= <-].
  destruct (reachable_inv workers s Hr) as (Hlen & _ & Hgroup).
  split; [by apply finished_forall|]. split; [done|].
  destruct Hgroup as [(-> & _ & Hn)|(e & -> & _ & He)]; done.
Qed.

(** C25: the process ends once the manager stops.  From any reachable state in which the
    manager has returned, and if the members give up when their context is done, every
    further execution is finite (at most two steps per member that still runs) and can only
    stop with every member's result recorded, when Wait returns. *)
Theorem run_ends_after_manager workers s :
  reachable workers s → cooperative → manager_returned (rs_members s) →
  ∀ n s', nsteps internal_step n s s' →
    (n ≤ remaining s)%nat ∧
    ((∀ s'', ¬ internal_step s' s'') ↔ finished s' = true).
Proof.
  intros Hr Hco Hmgr n s' Hn. destruct (reachable_inv workers s Hr) as (_ & Hcancel & _).
  assert (ctx_done s = true) as Hd by (unfold ctx_done; rewrite (proj2 Hcancel Hmgr), orb_true_r; done).
  clear Hr Hmgr Hcancel.
  assert (remaining s = n + remaining s' ∧ ctx_done s' = true)%nat as [Hrem Hd'].
  { clear Hco. induction Hn as [|n s s1 s' Hs _ IH]; [done|].
    destruct (IH (internal_step_ctx_done s s1 Hs Hd)) as [Hrem Hd']. split; [|done].
    rewrite (internal_step_remaining s s1 Hs), Hrem. lia. }
  split; [lia|]. split.
  - intros Hstuck. destruct (finished s') eqn:Hf; [done|].
    destruct (cancelled_progress s' Hco Hd' Hf) as [s'' Hs]. by apply Hstuck in Hs.
  - intros Hf s'' Hs. apply finished_forall in Hf. rewrite Forall_lookup in Hf.
    destruct Hs as [i err Hi _|i err Hi]; by specialize (Hf i _ Hi).
Qed.
End Run.

(** * Witnesses *)

(** One worker runs until its context is done; the manager stops on its own. *)
Section Witnesses.
Definition first_error : ErrGroup := {|
  group := option error;
  WithContext := None;
  member_returned := λ g e, match g with Some _ => g | None => e end;
  group_cancelled := λ g, if g then true else false;
  Wait := λ g, g;
  WithContext_open := conj eq_refl eq_refl;
  member_returned_nil := λ g, match g with Some _ => conj eq_refl eq_refl | None => conj eq_refl eq_refl end;
  member_returned_error := λ g e, match g with Some _ => conj eq_refl eq_refl | None => conj eq_refl eq_refl end |}.
#[local] Existing Instance first_error.

Definition canceled : error := EPlain "context canceled".
Definition lost_lease : error := EPlain "leader election lost".
Definition is_canceled_error (e : error) : bool := bool_decide (e = canceled).

Inductive run_members : nat → bool → option error → Prop :=
| manager_stops done : run_members 0 done (Some lost_lease)
| worker_stops i : run_members (S i) true (Some canceled).

(** The manager has lost its lease and returned. *)
Definition lease_lost : run_state := mkRun false true None [Returning (Some lost_lease); Running].
Definition lease_recorded : run_state := mkRun false true (Some lost_lease) [Done (Some lost_lease); Running].
Definition worker_returned : run_state := mkRun false true (Some lost_lease) [Done (Some lost_lease); Returning None].
Definition all_stopped : run_state := mkRun false true (Some lost_lease) [Done (Some lost_lease); Done None].

Lemma returns_to s i err s' :
  rs_members s !! i = Some Running → run_members i (ctx_done s) err →
  mkRun (rs_parent s) (rs_cancel s || bool_decide (i = 0%nat)) (rs_group s)
    (set_member s i (Returning (ignoreCanceled is_canceled_error err))) = s' →
  internal_step is_canceled_error run_members s s'.
Proof. intros Hi Hr <-. by apply (member_returns _ _ s i err). Qed.

Lemma records_to s i err s' :
  rs_members s !! i = Some (Returning err) →
  mkRun (rs_parent s) (rs_cancel s) (member_returned (rs_group s) err) (set_member s i (Done err)) = s' →
  internal_step is_canceled_error run_members s s'.
Proof. intros Hi <-. by apply (group_records _ _ s i err). Qed.

Lemma lease_lost_reachable : reachable is_canceled_error run_members 1 lease_lost.
Proof.
  apply rtc_once, step_internal, (returns_to _ 0 (Some lost_lease)); [done|constructor|vm_compute; reflexivity].
Qed.

Lemma all_stopped_from : nsteps (internal_step is_canceled_error run_members) 3 lease_lost all_stopped.
Proof.
  apply (nsteps_l _ 2 _ lease_recorded).
  { apply (records_to lease_lost 0 (Some lost_lease)); reflexivity. }
  apply (nsteps_l _ 1 _ worker_returned).
  { apply (returns_to _ 1 (Some canceled)); [reflexivity|constructor|vm_compute; reflexivity]. }
  apply nsteps_once, (records_to _ 1 None); reflexivity.
Qed.

Lemma all_stopped_reachable : reachable is_canceled_error run_members 1 all_stopped.
Proof.
  unfold reachable. transitivity lease_lost; [apply lease_lost_reachable|].
  apply (rtc_subrel (internal_step is_canceled_error run_members)); [by constructor|].
  apply rtc_nsteps. exists 3%nat. apply all_stopped_from.
Qed.

Lemma run_cancels_exactly_witness :
  rs_parent lease_lost = true ∨ manager_returned (rs_members lease_lost) ∨ ∃ e, failed_with (rs_members lease_lost) e.
Proof. apply (run_cancels_exactly is_canceled_error run_members 1 lease_lost lease_lost_reachable). reflexivity. Defined.

Lemma run_result_witness : failed_with (rs_members all_stopped) lost_lease.
Proof. apply (run_result is_canceled_error run_members 1 all_stopped (Some lost_lease) all_stopped_reachable). reflexivity. Defined.

Lemma run_ends_after_manager_witness :
  (3 ≤ remaining lease_lost)%nat ∧ ∀ s'', ¬ internal_step is_canceled_error run_members all_stopped s''.
Proof.
  assert (cooperative run_members) as Hco.
  { intros [|i]; [exists (Some lost_lease); constructor|exists (Some canceled); constructor]. }
  destruct (run_ends_after_manager is_canceled_error run_members 1 lease_lost lease_lost_reachable Hco) with (n := 3%nat) (s' := all_stopped)
    as [Hn Hs].
  - exists (Returning (Some lost_lease)). split; [reflexivity|discriminate].
  - apply all_stopped_from.
  - split; [exact Hn|]. apply Hs. reflexivity.
Defined.
End Witnesses.
